(* ===== verification/_CoqProject ===== *)
-Q . S2P
Prelude.v
Buffer.v
Kernel.v
RefKernel.v
State.v
World.v
Demo.v
Poller.v
EventLoop.v
Socket.v
Connection.v
Acceptor.v
Connector.v
Thread.v
EncThread.v
ThreadPool.v
Server.v
Client.v
Reactor.v
Contract.v
Service.v
Serving.v
Dialing.v
Startup.v
Promise.v
Echo.v
EchoClient.v
Teardown.v
