(* ===== verification/Prelude.v ===== *)
(** * network-poller: a verification library

    network-poller is a C++ library of TCP servers and clients over epoll.  Its
    own code is src/core; this development models all of it that has behaviour.

    ** The program

    An [EventLoop] belongs to one thread.  It polls epoll through an
    [EpollPoller], calls the callbacks of the [EventChannel]s that are ready, and
    runs one queued task per iteration.  A [TcpServer] owns a [TcpAcceptor] (the
    listening socket), a pool of threads with a loop each, and the registry of its
    [TcpConnection]s; the acceptor hands it new descriptors, a connection is given
    to the loop that its descriptor selects, and reads into and writes from its
    [Buffer]s there.  A [TcpClient] owns a [TcpConnector], which connects, and one
    connection.  A connection that is closed calls its owner, which lets go of it
    and queues its removal from the loop it lives in; the last owner destroys it.

    ** The model

    A shallow embedding in an error-state monad ([St], below): a C++ execution
    returns, or ends in a [fault] (a failed assertion, undefined behaviour, a call
    of an empty function).  The state is the [World] (World.v): the heap of live
    objects, one record per class, the kernel, the running thread with its errno,
    and as a ghost the calls into user code.  A pointer is an address; following
    one whose object is gone is undefined behaviour.  [std::function] values are
    data ([channel_cb], [close_cb], [task]), so that who is called is visible in
    the state; Reactor.v says what they run.  Integers have the widths of the
    source.  The kernel, inet_pton/inet_ntop and user code are parameters
    ([Kernel], [Inet], [UserCode]); theorems name the laws of the kernel they use,
    all of which the executable kernel of RefKernel.v satisfies.

    Handlers are atomic with respect to each other, as the code intends by running
    everything that touches a connection in its loop; the places where two
    threads do meet, the start and the end of a thread, are modelled as
    interleavings (Thread.v, EncThread.v).

    ** The files

    - Prelude.v: faults, the monad and its weakest preconditions, machine integers,
      list lemmas, tactics and hint databases.
    - Buffer.v: [Buffer] (base/buffer).  The operations refine a FIFO of bytes while
      the write index fits 32 bits; what ReadFromFD moves; the first line; the
      wrap-around at 4 GiB.
    - Kernel.v, RefKernel.v: the system calls and their laws (epoll, streams,
      descriptor numbers, backlogs, what a call leaves alone, and the bounds of the
      kernel's buffers), a class for each group, with the success of accept4 in a class of
      its own; a concrete kernel with an instance
      of every class.
    - State.v, World.v, Demo.v: the objects, the world and its operations; the
      closed states of the witnesses.
    - Poller.v: [Event], [EventChannel], [Poller], [EpollPoller].  [poller_inv]: the
      poller's table, the status of the channels and the kernel's interest list
      agree; every operation keeps it; what a channel asks for is one of four
      masks; polling and dispatching.
    - EventLoop.v: [EventLoop].  The class [LoopClient] is what the loop asks of the
      code it runs; against it, tasks run in order and [Loop] can be left; the
      constructor; [Wakeup] and [Quit].
    - Socket.v: [SocketAddr], [SocketUtility], [Socket].
    - Connection.v: [TcpConnection].  Sending and flushing keep the outgoing stream;
      reading drains the socket; the states of a connection.
    - Acceptor.v: [TcpAcceptor].  The backlog is drained in order; the recovery from
      a full descriptor table, and what it does for other errors.
    - Connector.v: [TcpConnector].  Connecting, its outcome, and a stale errno.
    - Thread.v: [EventLoopThread].  The hand-over of a loop between two threads:
      invariant, absence of deadlock, and three ways in which the end can go wrong.
    - EncThread.v: [EncThread] with its own [run].  Its destructor ends; [Join] does
      not.
    - ThreadPool.v: [EventLoopThreadPool].  Filling the pool; round robin.
    - Server.v: [TcpServer].  [server_inv]: the registry; new connections, removal,
      starting; the destructor.
    - Client.v: [TcpClient].  Its connection, from the connector to the loop.
    - Reactor.v: the components together.  What callbacks and tasks run, shared
      ownership; every connection that waits at a listening socket is registered
      with the server; a closed connection is reclaimed, in the loop of its server
      and across two threads; closing twice; the end of a client.
    - Contract.v: what a server promises its user, as a transition system over the
      states of its connections: accepted, established, delivering messages, closed,
      reclaimed, and the calls of user code that each step makes; what the user hears of
      one connection in any run of it is a conversation.
    - Service.v, Serving.v, Startup.v: a server without threads, end to end.
      [service] is the invariant of the whole program between two events: each live
      connection is in one of three phases of its life, and the registry, the
      poller, the task queue and the open descriptors agree with it.  The
      constructors and [Start] establish it; every event and every task keeps it,
      whatever epoll reports and the peers do, for a user that only takes what arrives
      and while accept4 takes what waits (the conditions below).  So the program goes
      on serving, no descriptor leaks, and every connection comes to its turn.
    - Promise.v: the iterations of such a server refine the contract, so what its user
      hears of each connection is a conversation.
    - Dialing.v: a client, end to end.  [Connect] makes it dial; when the socket becomes
      writable, a round of the loop leaves it connected or about to dial again; when its
      connection ends it is reclaimed, but the client will not connect any more.
    - Echo.v: the message callback of net/tests/echo_server_test.cpp over the library.
      It sends back what arrives; a peer that resets its connection at the right
      moment aborts the program.
    - EchoClient.v: net/tests/echo_client_test.cpp over the library.  Its clients
      connect one after the other and send a greeting.
    - Teardown.v: [~EventLoop], which leaks its wake-up channel; [~TcpServer] on the
      state of Service.v, and what it leaves in the poller.

    ** Bounds

    Loops of the source that are not over a list take a [fuel]; running out of it
    is the fault [OutOfFuel].  [while_not_quit] needs one unit per iteration and the
    theorem on [Loop] gives as many as tasks are queued before the one that quits;
    [ReadHandler_loop] needs one per byte that waits, plus one, [AcceptHandle_loop]
    one per waiting connection, plus one: the theorems have these as hypotheses on
    the fuel and conclude that the handler returns.  For a whole server the fuel is
    at least [k_limit], the bound of the kernel's receive buffers and backlogs
    ([KernelLimits]), which is enough for every handler in every state.

    ** Not modelled

    Logging ([Logger], a wrapper around spdlog) and [noncopyable], which have no
    effect on the state.  The vendored libraries; the task queue is the list that
    the documented single-producer single-consumer queue gives its users, although
    the program enqueues from several threads.  Accessors that return a member
    ([GetThreadID], [GetName], [Fd], ...).  Data races on plain members ([quit_],
    [quited_]) other than in Thread.v and EncThread.v, where an access is a step.
    The test programs, which are user code, but for the echo client and the message
    callback of the echo server; the others print what they see.

    The end-to-end theorems on a server (Startup.v, Promise.v) are about one without
    threads, about users that take what arrives out of the read buffer, do not call back
    into the library and keep no connection ([user_sink] in Serving.v), and about a
    kernel on which accept4 takes a connection that waits ([AcceptReliable] in Kernel.v,
    the one law that rules out errors of accept4).  These are premises of the theorems,
    and they do not hold without them: for a user that sends, closing twice aborts the
    program ([reset_peer_aborts_echo_server] in Echo.v), and on an error of accept4 the
    acceptor can leak a connection ([accept_error_leaks_connection] in Acceptor.v).
    For a server with threads the parts are proved (the pool, the hand-over of loops, new
    connections, the reclaiming of a connection across two threads), but no invariant
    of all loops at once: what runs on different threads meets in the task queues only,
    and the queue of the program does not support the several producers it has.  The
    theorems of Dialing.v follow a client through its events one by one. *)

From stdpp Require Import base list gmap strings numbers.
From Stdlib Require Import ZArith Lia.

#[global] Open Scope Z_scope.

Declare Scope np_scope.
Delimit Scope np_scope with np.

(** ** Hint databases *)

Create HintDb np discriminated.
Create HintDb np_int discriminated.
Create Rewrite HintDb wp.

(** ** Faults

    What a C++ execution can do other than return: a failed [assert]
    (the build defines no [NDEBUG]), undefined behaviour (a freed pointer is
    followed, memory is accessed out of range), a call of an empty
    [std::function] (which throws [std::bad_function_call]), a [new] of an array of
    negative length (which throws, too).  [OutOfFuel] is no
    behaviour of the program: it marks that a bound given to a [while] loop of
    the model was too small, and theorems show that it does not happen. *)
Inductive fault :=
| AssertFailure
| UndefinedBehaviour
| BadFunctionCall
| BadArrayLength
| OutOfFuel.

#[global] Instance fault_eq_dec : EqDecision fault.
Proof. solve_decision. Defined.

Inductive res (A : Type) :=
| Ok (a : A)
| Err (f : fault).
Arguments Ok {A} a.
Arguments Err {A} f.

Definition res_bind {A B} (r : res A) (k : A -> res B) : res B :=
  match r with Ok a => k a | Err f => Err f end.

(** ** The error-state monad over a state [S] *)

Definition St (S A : Type) : Type := S -> res (A * S).

Definition ret {S A} (a : A) : St S A := fun s => Ok (a, s).
Definition bind {S A B} (m : St S A) (k : A -> St S B) : St S B :=
  fun s => match m s with Ok (a, s') => k a s' | Err f => Err f end.
Definition gets {S A} (f : S -> A) : St S A := fun s => Ok (f s, s).
Definition modify {S} (f : S -> S) : St S unit := fun s => Ok (tt, f s).
Definition throw {S A} (f : fault) : St S A := fun _ => Err f.
Definition lift {S A} (r : res A) : St S A :=
  fun s => match r with Ok a => Ok (a, s) | Err f => Err f end.
(** [assert(b)] of <assert.h>. *)
Definition assert_ {S} (b : bool) : St S unit :=
  if b then ret tt else throw AssertFailure.
(** Following a pointer: [None] is a pointer to no live object. *)
Definition deref {S A} (o : option A) : St S A :=
  match o with Some a => ret a | None => throw UndefinedBehaviour end.
Definition when {S} (b : bool) (m : St S unit) : St S unit :=
  if b then m else ret tt.
Fixpoint forM {S A} (l : list A) (f : A -> St S unit) : St S unit :=
  match l with
  | [] => ret tt
  | a :: l' => bind (f a) (fun _ => forM l' f)
  end.

Notation "'let!' x ':=' m 'in' k" := (bind m (fun x => k))
  (at level 10, x binder, m at level 100, k at level 200,
   format "'[v' 'let!'  x  ':='  m  'in' '/' k ']'") : np_scope.
Notation "'do!' m ';' k" := (bind m (fun _ => k))
  (at level 10, m at level 100, k at level 200,
   format "'[v' 'do!'  m ';' '/' k ']'") : np_scope.
Notation "'letr!' x ':=' m 'in' k" := (res_bind m (fun x => k))
  (at level 10, x binder, m at level 100, k at level 200,
   format "'[v' 'letr!'  x  ':='  m  'in' '/' k ']'") : np_scope.

(** ** Weakest preconditions

    [wp m Q s]: from [s], [m] returns (no fault, no lack of fuel) and its
    result satisfies [Q].  [triple] is the Hoare triple over it. *)
Definition wp {S A} (m : St S A) (Q : A -> S -> Prop) (s : S) : Prop :=
  match m s with Ok (a, s') => Q a s' | Err _ => False end.

Definition triple {S A} (P : S -> Prop) (m : St S A) (Q : A -> S -> Prop) : Prop :=
  forall s, P s -> wp m Q s.

Section wp_rules.
Context {S A B : Type}.
Implicit Types (Q : A -> S -> Prop) (R : B -> S -> Prop).

Lemma wp_ret (a : A) Q s : wp (ret a) Q s <-> Q a s.
Proof. done. Qed.

Lemma wp_bind (m : St S A) (k : A -> St S B) R s :
  wp (bind m k) R s <-> wp m (fun a s' => wp (k a) R s') s.
Proof. unfold wp, bind. by destruct (m s) as [[]|]. Qed.

Lemma wp_gets (f : S -> A) Q s : wp (gets f) Q s <-> Q (f s) s.
Proof. done. Qed.

Lemma wp_modify (f : S -> S) (Q : unit -> S -> Prop) s :
  wp (modify f) Q s <-> Q tt (f s).
Proof. done. Qed.

Lemma wp_assert (b : bool) (Q : unit -> S -> Prop) s :
  wp (assert_ b) Q s <-> b = true /\ Q tt s.
Proof. destruct b; unfold wp, assert_; simpl; naive_solver. Qed.

Lemma wp_deref (o : option A) Q s :
  wp (deref o) Q s <-> exists a, o = Some a /\ Q a s.
Proof. destruct o; unfold wp, deref; simpl; naive_solver. Qed.

Lemma wp_lift (r : res A) Q s :
  wp (lift r) Q s <-> exists a, r = Ok a /\ Q a s.
Proof. destruct r; unfold wp, lift; simpl; naive_solver. Qed.

Lemma wp_mono (m : St S A) Q Q' s :
  wp m Q s -> (forall a s', Q a s' -> Q' a s') -> wp m Q' s.
Proof. unfold wp. destruct (m s) as [[]|]; naive_solver. Qed.

Lemma wp_conj (m : St S A) Q Q' s :
  wp m Q s -> wp m Q' s -> wp m (fun a s' => Q a s' /\ Q' a s') s.
Proof. unfold wp. destruct (m s) as [[]|]; naive_solver. Qed.

(** A run that returns is a [wp], and conversely. *)
Lemma wp_run (m : St S A) Q s :
  wp m Q s <-> exists a s', m s = Ok (a, s') /\ Q a s'.
Proof. unfold wp. destruct (m s) as [[]|]; naive_solver. Qed.
End wp_rules.

Lemma wp_when {S} (b : bool) (m : St S unit) (Q : unit -> S -> Prop) s :
  wp (when b m) Q s <-> if b then wp m Q s else Q tt s.
Proof. by destruct b. Qed.

Lemma triple_bind {S A B} (P : S -> Prop) (m : St S A) (k : A -> St S B) Q R :
  triple P m Q -> (forall a, triple (Q a) (k a) R) -> triple P (bind m k) R.
Proof.
  intros Hm Hk s Hs. apply wp_bind. eapply wp_mono; [by apply Hm|].
  intros a s' Ha. by apply Hk.
Qed.

Lemma triple_conseq {S A} (P P' : S -> Prop) (m : St S A) (Q Q' : A -> S -> Prop) :
  triple P m Q -> (forall s, P' s -> P s) -> (forall a s, Q a s -> Q' a s) ->
  triple P' m Q'.
Proof. intros Hm HP HQ s Hs. eapply wp_mono; eauto. Qed.

(** Rule for the loop over a list: an invariant indexed by what is left. *)
Lemma wp_forM {S A} (l : list A) (f : A -> St S unit) (I : list A -> S -> Prop) s :
  I l s ->
  (forall a l' s', I (a :: l') s' -> wp (f a) (fun _ s'' => I l' s'') s') ->
  wp (forM l f) (fun _ s' => I [] s') s.
Proof.
  revert s. induction l as [|a l IH]; intros s Hs Hstep; [done|].
  simpl. apply wp_bind. eapply wp_mono; [by apply Hstep|].
  intros ? s' Hs'. by apply IH.
Qed.

(** ** Runs

    Symbolic execution: [run_bind] steps over a command whose run is known. *)
Lemma run_bind {S A B} (m : St S A) (k : A -> St S B) s a s' :
  m s = Ok (a, s') -> bind m k s = k a s'.
Proof. unfold bind. by intros ->. Qed.

(** One computation in the place of another. *)
Lemma run_bind_eq {S A B} (m m' : St S A) (k : A -> St S B) s s' :
  m s = m' s' -> bind m k s = bind m' k s'.
Proof. unfold bind. by intros ->. Qed.

Lemma run_bind_assoc {S A B C} (m : St S A) (k : A -> St S B) (j : B -> St S C) s :
  bind (bind m k) j s = bind m (fun a => bind (k a) j) s.
Proof. unfold bind. by destruct (m s) as [[]|]. Qed.

(** The same for [wp] goals. *)
Lemma wp_run_bind {S A B} (m : St S A) (k : A -> St S B) Q s a s' :
  m s = Ok (a, s') -> wp (k a) Q s' -> wp (bind m k) Q s.
Proof. unfold wp. intros E. by rewrite (run_bind _ _ _ _ _ E). Qed.

Lemma wp_same_run {S A} (m m' : St S A) Q s s' : m s = m' s' -> wp m' Q s' -> wp m Q s.
Proof. unfold wp. by intros ->. Qed.

Lemma forM_app {S A} (l1 l2 : list A) (f : A -> St S unit) s :
  forM (l1 ++ l2) f s = bind (forM l1 f) (fun _ => forM l2 f) s.
Proof.
  revert s. induction l1 as [|a l1 IH]; intros s; [done|]. simpl. unfold bind in *.
  destruct (f a s) as [[]|]; [apply IH|done].
Qed.

Lemma run_assert {S} (b : bool) (s : S) : b = true -> assert_ b s = Ok (tt, s).
Proof. by intros ->. Qed.

Lemma run_bind_assert {S A} (b : bool) (k : unit -> St S A) s :
  b = true -> bind (assert_ b) k s = k tt s.
Proof. by intros ->. Qed.

#[export] Hint Rewrite @wp_ret @wp_bind @wp_gets @wp_modify @wp_assert @wp_deref
  @wp_lift @wp_when : wp.

(** Symbolic execution of a [wp] goal, to the calls that have no rule yet. *)
Ltac wp_simpl := repeat (progress (autorewrite with wp; cbn beta)).

(** ** Machine integers *)

#[global] Arguments Z.eqb : simpl never.
#[global] Arguments Z.ltb : simpl never.
#[global] Arguments Z.leb : simpl never.
#[global] Arguments Z.land : simpl never.
#[global] Arguments Z.lor : simpl never.
#[global] Arguments Z.lnot : simpl never.

Definition u8 (x : Z) : Z := x mod 2 ^ 8.
Definition u16 (x : Z) : Z := x mod 2 ^ 16.
Definition u32 (x : Z) : Z := x mod 2 ^ 32.
Definition u64 (x : Z) : Z := x mod 2 ^ 64.
(** Conversion to [int]: two's complement, as GCC defines it. *)
Definition s32 (x : Z) : Z := (x + 2 ^ 31) mod 2 ^ 32 - 2 ^ 31.

Lemma u32_small x : 0 <= x < 2 ^ 32 -> u32 x = x.
Proof. apply Z.mod_small. Qed.
Lemma u32_bound x : 0 <= u32 x < 2 ^ 32.
Proof. apply Z.mod_pos_bound. lia. Qed.
Lemma u32_u32 x : u32 (u32 x) = u32 x.
Proof. apply u32_small, u32_bound. Qed.
Lemma u64_small x : 0 <= x < 2 ^ 64 -> u64 x = x.
Proof. apply Z.mod_small. Qed.
Lemma u64_bound x : 0 <= u64 x < 2 ^ 64.
Proof. apply Z.mod_pos_bound. lia. Qed.
Lemma u16_small x : 0 <= x < 2 ^ 16 -> u16 x = x.
Proof. apply Z.mod_small. Qed.
Lemma u16_bound x : 0 <= u16 x < 2 ^ 16.
Proof. apply Z.mod_pos_bound. lia. Qed.
Lemma s32_small x : - 2 ^ 31 <= x < 2 ^ 31 -> s32 x = x.
Proof. intros. unfold s32. rewrite Z.mod_small; lia. Qed.
Lemma s32_bound x : - 2 ^ 31 <= s32 x < 2 ^ 31.
Proof. unfold s32. pose proof (Z.mod_pos_bound (x + 2 ^ 31) (2 ^ 32)). lia. Qed.

(** The low bits survive the conversion. *)
Lemma s32_testbit x n : 0 <= n < 31 -> Z.testbit (s32 x) n = Z.testbit x n.
Proof.
  intros Hn. rewrite <-(Z.mod_pow2_bits_low (s32 x) 31), <-(Z.mod_pow2_bits_low x 31) by lia. f_equal.
  unfold s32. rewrite (Z.mod_eq (x + 2 ^ 31) (2 ^ 32)) by lia. set (q := (x + 2 ^ 31) / 2 ^ 32).
  replace (x + 2 ^ 31 - 2 ^ 32 * q - 2 ^ 31) with (x + (-2 * q) * 2 ^ 31) by lia. by apply Z.mod_add.
Qed.

#[export] Hint Resolve u32_bound u64_bound u16_bound s32_bound : np_int.

(** ** Lists as memory *)

(** [std::copy(d.begin(), d.end(), l.begin() + off)], in range. *)
Definition splice {A} (off : nat) (d l : list A) : list A :=
  take off l ++ d ++ drop (off + length d) l.

Lemma length_splice {A} off (d l : list A) :
  (off + length d <= length l)%nat -> length (splice off d l) = length l.
Proof.
  intros. unfold splice. rewrite !length_app, length_take, length_drop. lia.
Qed.

Lemma take_splice {A} off (d l : list A) :
  (off <= length l)%nat -> take (off + length d) (splice off d l) = take off l ++ d.
Proof.
  intros. unfold splice. rewrite app_assoc, take_app_length'; [done|].
  rewrite length_app, length_take. lia.
Qed.

Lemma drop_take_splice {A} (r off : nat) (d l : list A) :
  (r <= off <= length l)%nat ->
  drop r (take (off + length d) (splice off d l)) = drop r (take off l) ++ d.
Proof.
  intros. rewrite take_splice by lia. rewrite drop_app_le; [done|].
  rewrite length_take. lia.
Qed.

(** [v.resize(n)]: cut, or grow with value-initialised elements. *)
Definition vec_resize {A} (def : A) (n : nat) (l : list A) : list A :=
  resize n def l.

Lemma take_resize_ge {A} (def : A) (m n : nat) (l : list A) :
  (m <= n)%nat -> (m <= length l)%nat -> take m (vec_resize def n l) = take m l.
Proof.
  intros. unfold vec_resize. rewrite take_resize_le by lia.
  rewrite resize_le by lia. done.
Qed.

(** ** Tactics *)

(** Case analysis on every test of the goal. *)
Ltac case_all := repeat (case_match || case_decide); simplify_eq/=.

(** Turn boolean comparisons in hypotheses into propositions. *)
Ltac bool_to_prop :=
  repeat match goal with
  | H : (_ && _)%bool = true |- _ => apply andb_true_iff in H as [? ?]
  | H : (_ || _)%bool = false |- _ => apply orb_false_iff in H as [? ?]
  | H : (_ <? _) = true |- _ => apply Z.ltb_lt in H
  | H : (_ <? _) = false |- _ => apply Z.ltb_ge in H
  | H : (_ <=? _) = true |- _ => apply Z.leb_le in H
  | H : (_ <=? _) = false |- _ => apply Z.leb_gt in H
  | H : (_ =? _) = true |- _ => apply Z.eqb_eq in H
  | H : (_ =? _) = false |- _ => apply Z.eqb_neq in H
  | H : negb _ = true |- _ => apply negb_true_iff in H
  | H : negb _ = false |- _ => apply negb_false_iff in H
  end.

Ltac zlia := bool_to_prop; lia.
