(* ===== verification/Buffer.v ===== *)
(** * Buffer: the growable byte buffer of the connections

    Models [liang::base::Buffer] (src/core/base/buffer/buffer.h and
    buffer.cpp).  The two indices are [uint32_t], the storage is a
    [std::vector<uint8_t>]; a pointer into the storage is its offset.  The
    abstract value of a buffer is the byte string between the two indices
    ([contents]); the theorems show that the operations refine a FIFO of bytes
    as long as the write index stays below 2^32, and what happens at that
    bound. *)

From stdpp Require Import base list numbers.
From Stdlib Require Import ZArith Lia Init.Byte Strings.Byte.
From S2P Require Import Prelude.

Open Scope np_scope.

#[global] Instance byte_eq_dec : EqDecision byte := Byte.byte_eq_dec.

(** ** Data *)

Record Buffer := mkBuffer {
  read_index_ : Z;
  write_index_ : Z;
  buffer_ : list byte
}.

Definition InitSize : Z := 1024.

(** [buffer_.size()], a [size_t]. *)
Definition buffer_size (b : Buffer) : Z := Z.of_nat (length (buffer_ b)).

Definition Buffer_new (size : Z) : Buffer :=
  mkBuffer 0 0 (replicate (Z.to_nat (u32 size)) x00).

(** Reading [len] bytes from offset [off] of the storage. *)
Definition load_bytes (b : Buffer) (off len : Z) : res (list byte) :=
  if (0 <=? off) && (0 <=? len) && (off + len <=? buffer_size b)
  then Ok (take (Z.to_nat len) (drop (Z.to_nat off) (buffer_ b)))
  else Err UndefinedBehaviour.

(** Writing the bytes [d] at offset [off] of the storage. *)
Definition store_bytes (b : Buffer) (off : Z) (d : list byte) : res Buffer :=
  if (0 <=? off) && (off + Z.of_nat (length d) <=? buffer_size b)
  then Ok (mkBuffer (read_index_ b) (write_index_ b)
             (splice (Z.to_nat off) d (buffer_ b)))
  else Err UndefinedBehaviour.

(** ** Operations *)

Definition WritableBytes (b : Buffer) : Z :=
  u32 (u64 (buffer_size b - write_index_ b)).

Definition ReadableBytes (b : Buffer) : Z :=
  u32 (write_index_ b - read_index_ b).

Definition IsReadble (b : Buffer) : bool := 0 <? ReadableBytes b.

Definition IsEmpty (b : Buffer) : bool := negb (IsReadble b).

(** [len] is a [size_t]. *)
Definition EnsureWritableBytes (b : Buffer) (len : Z) : Buffer :=
  if WritableBytes b <? len
  then mkBuffer (read_index_ b) (write_index_ b)
         (vec_resize x00 (Z.to_nat (u64 (write_index_ b + len))) (buffer_ b))
  else b.

Definition Append (b : Buffer) (data : list byte) : res Buffer :=
  let len := Z.of_nat (length data) in
  let b1 := EnsureWritableBytes b len in
  letr! b2 := store_bytes b1 (write_index_ b1) data in
  Ok (mkBuffer (read_index_ b2) (u32 (write_index_ b2 + len)) (buffer_ b2)).

Definition ResetIndex (b : Buffer) : Buffer := mkBuffer 0 0 (buffer_ b).

Definition ClearReadIndex (b : Buffer) (len : Z) : Buffer :=
  if len <? ReadableBytes b
  then mkBuffer (u32 (read_index_ b + len)) (write_index_ b) (buffer_ b)
  else ResetIndex b.

(** [ReadBytes] and [ReadAsString] differ only in the container they fill; the
    result is the returned [int], the bytes assigned, and the buffer. *)
Definition ReadBytes (b : Buffer) (len : Z) : res (Z * list byte * Buffer) :=
  let len := if ReadableBytes b <? len then ReadableBytes b else len in
  letr! data := load_bytes b (read_index_ b) len in
  Ok (s32 len, data, ClearReadIndex b len).

Definition ReadAsString (b : Buffer) (len : Z) : res (Z * list byte * Buffer) :=
  let len := if ReadableBytes b <? len then ReadableBytes b else len in
  letr! readBuf := load_bytes b (read_index_ b) len in
  Ok (s32 len, readBuf, ClearReadIndex b len).

Definition ReadAllAsByte (b : Buffer) : res (Z * list byte * Buffer) :=
  ReadBytes b (ReadableBytes b).

Definition ReadAllAsString (b : Buffer) : res (Z * list byte * Buffer) :=
  ReadAsString b (ReadableBytes b).

Definition Swap (b rhs : Buffer) : Buffer * Buffer :=
  (mkBuffer (read_index_ rhs) (write_index_ rhs) (buffer_ rhs),
   mkBuffer (read_index_ b) (write_index_ b) (buffer_ b)).

(** [std::search] for "\r\n" in a byte range: the offset of the first match. *)
Definition starts_crlf (l : list byte) : bool :=
  bool_decide (take 2 l = [x0d; x0a]).

Fixpoint search_crlf (l : list byte) : option nat :=
  match l with
  | [] => None
  | _ :: tl => if starts_crlf l then Some 0%nat else S <$> search_crlf tl
  end.

(** The pointer is given as an offset from [BufferPtr()]; [None] is
    [nullptr]. *)
Definition FindCRLF (b : Buffer) : res (option Z) :=
  letr! range := load_bytes b (read_index_ b) (write_index_ b - read_index_ b) in
  Ok ((fun i => read_index_ b + Z.of_nat i) <$> search_crlf range).

(** [end_] is an offset from [BufferPtr()]; an offset outside the readable
    range only prints a message. *)
Definition RetrieveUntil (b : Buffer) (end_ : Z) : Buffer :=
  if negb (read_index_ b <=? end_) then b
  else if negb (end_ <=? write_index_ b) then b
  else ClearReadIndex b (u32 (end_ - read_index_ b)).

(** ** ReadFromFD

    [readv] is the system call: it is given the lengths of the io vectors and
    the state of the kernel, and returns the bytes it stored (in the order of
    the vectors) or an errno. *)
Inductive sysres (A : Type) :=
| SOk (a : A)
| SErr (errno : Z).
Arguments SOk {A} a.
Arguments SErr {A} errno.

Definition extrabuf_size : Z := 65536.

(** The lengths of the io vectors handed to [readv]. *)
Definition ReadFromFD_iov (b : Buffer) : list Z :=
  let writable := WritableBytes b in
  if writable <? extrabuf_size then [writable; extrabuf_size] else [writable].

(** What follows the system call: [readv] has stored the first [writable]
    bytes behind the write index and the others in [extrabuf].  Returns the
    [int] result, the errno stored in [errorNo] (if it is assigned) and the
    buffer.  [errno] is the thread's errno before the call, which a successful
    call leaves alone. *)
Definition ReadFromFD_done (errno : Z) (b : Buffer) (r : sysres (list byte))
    : res (Z * option Z * Buffer) :=
  let writable := WritableBytes b in
  match r with
  | SErr e => Ok (-1, Some e, b)
  | SOk data =>
      let n := s32 (Z.of_nat (length data)) in
      letr! b1 := store_bytes b (write_index_ b) (take (Z.to_nat writable) data) in
      let extrabuf := drop (Z.to_nat writable) data in
      if n <? 0 then Ok (n, Some errno, b1)
      else if u32 n <=? writable then
        Ok (n, None, mkBuffer (read_index_ b1) (u32 (write_index_ b1 + n)) (buffer_ b1))
      else
        let b2 := mkBuffer (read_index_ b1) (u32 (buffer_size b1)) (buffer_ b1) in
        letr! b3 := Append b2 (take (Z.to_nat (u32 (n - writable))) extrabuf) in
        Ok (n, None, b3)
  end.

Definition ReadFromFD {S} (readv : list Z -> S -> sysres (list byte) * S)
    (errno : Z) (b : Buffer) (s : S) : res (Z * option Z * Buffer) * S :=
  let '(r, s') := readv (ReadFromFD_iov b) s in
  (ReadFromFD_done errno b r, s').

(** ** Well-formedness and the abstract value *)

Definition buffer_wf (b : Buffer) : Prop :=
  0 <= read_index_ b <= write_index_ b /\
  write_index_ b <= buffer_size b < 2 ^ 32.

(** The bytes written and not yet read. *)
Definition contents (b : Buffer) : list byte :=
  drop (Z.to_nat (read_index_ b)) (take (Z.to_nat (write_index_ b)) (buffer_ b)).

Section facts.
Implicit Types (b : Buffer) (d : list byte).

Lemma Buffer_new_wf size : buffer_wf (Buffer_new size).
Proof.
  unfold buffer_wf, Buffer_new, buffer_size; simpl. rewrite length_replicate.
  pose proof (u32_bound size). lia.
Qed.

Lemma contents_new size : contents (Buffer_new size) = [].
Proof. done. Qed.

Lemma length_contents b :
  buffer_wf b -> Z.of_nat (length (contents b)) = write_index_ b - read_index_ b.
Proof.
  unfold buffer_wf, contents, buffer_size. intros.
  rewrite length_drop, length_take. lia.
Qed.

Lemma ReadableBytes_eq b :
  buffer_wf b -> ReadableBytes b = write_index_ b - read_index_ b.
Proof. unfold buffer_wf, ReadableBytes. intros. apply u32_small. lia. Qed.

Lemma ReadableBytes_contents b :
  buffer_wf b -> ReadableBytes b = Z.of_nat (length (contents b)).
Proof. intros. rewrite ReadableBytes_eq, length_contents; done. Qed.

Lemma WritableBytes_eq b :
  buffer_wf b -> WritableBytes b = buffer_size b - write_index_ b.
Proof.
  unfold buffer_wf, WritableBytes. intros.
  rewrite u64_small, u32_small; lia.
Qed.

Lemma IsEmpty_contents b : buffer_wf b -> IsEmpty b = true <-> contents b = [].
Proof.
  intros Hwf. unfold IsEmpty, IsReadble. rewrite ReadableBytes_contents by done.
  destruct (contents b); simpl; [done|]. by split.
Qed.

Lemma length_buffer_size b n :
  buffer_size b = n -> length (buffer_ b) = Z.to_nat n.
Proof. unfold buffer_size. lia. Qed.

Lemma vec_resize_size n b :
  buffer_size (mkBuffer (read_index_ b) (write_index_ b)
                 (vec_resize x00 n (buffer_ b))) = Z.of_nat n.
Proof. unfold buffer_size, vec_resize; simpl. by rewrite length_resize. Qed.

(** The resize of [EnsureWritableBytes] keeps the contents and makes room. *)
Lemma EnsureWritableBytes_spec b len :
  buffer_wf b -> 0 <= len -> write_index_ b + len < 2 ^ 32 ->
  let b' := EnsureWritableBytes b len in
  buffer_wf b' /\ contents b' = contents b /\
  read_index_ b' = read_index_ b /\ write_index_ b' = write_index_ b /\
  write_index_ b + len <= buffer_size b'.
Proof.
  intros Hwf Hlen Hov. unfold EnsureWritableBytes.
  rewrite WritableBytes_eq by done. unfold buffer_wf in *.
  case_match; simpl; [|repeat split; zlia].
  rewrite vec_resize_size, u64_small by zlia.
  split_and!; try zlia.
  unfold contents; simpl. unfold buffer_size in *.
  rewrite take_resize_ge by zlia. done.
Qed.

Lemma store_bytes_spec b off d :
  0 <= off -> off + Z.of_nat (length d) <= buffer_size b ->
  store_bytes b off d =
    Ok (mkBuffer (read_index_ b) (write_index_ b) (splice (Z.to_nat off) d (buffer_ b))).
Proof. intros. unfold store_bytes. case_match; [done|zlia]. Qed.

(** Storing behind the write index and moving it appends. *)
Lemma contents_store b d :
  buffer_wf b -> write_index_ b + Z.of_nat (length d) <= buffer_size b ->
  let b' := mkBuffer (read_index_ b) (write_index_ b + Z.of_nat (length d))
              (splice (Z.to_nat (write_index_ b)) d (buffer_ b)) in
  buffer_wf b' /\ contents b' = contents b ++ d.
Proof.
  unfold buffer_wf, contents, buffer_size. intros Hwf Hd; simpl.
  rewrite length_splice by lia. split; [lia|].
  rewrite Z2Nat.inj_add, Nat2Z.id by lia.
  apply drop_take_splice. lia.
Qed.

Lemma Append_spec b d :
  buffer_wf b -> write_index_ b + Z.of_nat (length d) < 2 ^ 32 ->
  exists b', Append b d = Ok b' /\ buffer_wf b' /\ contents b' = contents b ++ d /\
    read_index_ b' = read_index_ b /\
    write_index_ b' = write_index_ b + Z.of_nat (length d).
Proof.
  intros Hwf Hov.
  destruct (EnsureWritableBytes_spec b (Z.of_nat (length d)))
    as (Hwf' & Hc & Hr & Hw & Hroom); [done|lia|done|].
  unfold Append. set (b1 := EnsureWritableBytes b _) in *.
  rewrite store_bytes_spec by (unfold buffer_wf in *; lia). simpl.
  destruct (contents_store b1 d) as [Hwf'' Hc'']; [done|lia|].
  rewrite u32_small by (unfold buffer_wf in *; lia).
  eexists; split_and!; [done|done|congruence|done|simpl; lia].
Qed.

Lemma ClearReadIndex_spec b len :
  buffer_wf b -> 0 <= len ->
  buffer_wf (ClearReadIndex b len) /\
  contents (ClearReadIndex b len) = drop (Z.to_nat len) (contents b) /\
  write_index_ (ClearReadIndex b len) <= write_index_ b.
Proof.
  intros Hwf Hlen. unfold ClearReadIndex. rewrite ReadableBytes_eq by done.
  pose proof (length_contents b Hwf) as Hl.
  unfold buffer_wf, buffer_size in *. case_match; simpl.
  - rewrite u32_small by zlia. split_and!; try zlia.
    unfold contents; simpl. rewrite drop_drop. f_equal. zlia.
  - split_and!; try zlia. unfold contents at 1; simpl.
    rewrite drop_ge; [done|zlia].
Qed.

Lemma load_bytes_contents b len :
  buffer_wf b -> 0 <= len <= ReadableBytes b ->
  load_bytes b (read_index_ b) len = Ok (take (Z.to_nat len) (contents b)).
Proof.
  intros Hwf Hlen. rewrite ReadableBytes_eq in Hlen by done.
  unfold load_bytes, contents, buffer_wf in *.
  case_match; [|zlia]. f_equal.
  rewrite skipn_firstn_comm, take_take. f_equal. lia.
Qed.

(** What [ReadBytes] returns, whatever the length asked for. *)
Lemma ReadBytes_spec b len :
  buffer_wf b -> 0 <= len ->
  exists b', ReadBytes b len =
      Ok (s32 (Z.min len (ReadableBytes b)), take (Z.to_nat len) (contents b), b') /\
    buffer_wf b' /\ contents b' = drop (Z.to_nat len) (contents b) /\
    write_index_ b' <= write_index_ b.
Proof.
  intros Hwf Hlen. unfold ReadBytes.
  pose proof (ReadableBytes_contents b Hwf) as Hrc.
  destruct (ReadableBytes b <? len) eqn:Hlt.
  - rewrite load_bytes_contents by (done || zlia). simpl.
    destruct (ClearReadIndex_spec b (ReadableBytes b)) as (?&Hc&?); [done|zlia|].
    eexists; split_and!; [|done| |done].
    + rewrite Z.min_r by zlia. rewrite !take_ge by zlia. done.
    + rewrite Hc, !drop_ge; zlia || done.
  - rewrite load_bytes_contents by (done || zlia). simpl.
    destruct (ClearReadIndex_spec b len) as (?&?&?); [done..|].
    eexists; split_and!; [|done..]. rewrite Z.min_l by zlia. done.
Qed.
End facts.

(** ** The abstract specification: a FIFO of bytes

    A client of the buffer issues a list of operations; [run_buffer] runs them
    on the representation, [run_fifo] on the byte string. *)

Inductive buf_op :=
| BAppend (d : list byte)
| BReadBytes (len : Z)
| BReadAsString (len : Z)
| BReadAllAsByte
| BReadAllAsString
| BClearReadIndex (len : Z)
| BResetIndex
| BReadableBytes
| BIsEmpty.

Inductive buf_out :=
| ODone
| OBytes (n : Z) (d : list byte)
| OInt (n : Z)
| OBool (b : bool).

Definition out_read (r : res (Z * list byte * Buffer)) : res (buf_out * Buffer) :=
  letr! '(n, d, b) := r in Ok (OBytes n d, b).

Definition buffer_step (b : Buffer) (op : buf_op) : res (buf_out * Buffer) :=
  match op with
  | BAppend d => letr! b' := Append b d in Ok (ODone, b')
  | BReadBytes len => out_read (ReadBytes b len)
  | BReadAsString len => out_read (ReadAsString b len)
  | BReadAllAsByte => out_read (ReadAllAsByte b)
  | BReadAllAsString => out_read (ReadAllAsString b)
  | BClearReadIndex len => Ok (ODone, ClearReadIndex b len)
  | BResetIndex => Ok (ODone, ResetIndex b)
  | BReadableBytes => Ok (OInt (ReadableBytes b), b)
  | BIsEmpty => Ok (OBool (IsEmpty b), b)
  end.

Definition fifo_read (len : Z) (q : list byte) : buf_out * list byte :=
  (OBytes (s32 (Z.min len (Z.of_nat (length q)))) (take (Z.to_nat len) q),
   drop (Z.to_nat len) q).

Definition fifo_step (q : list byte) (op : buf_op) : buf_out * list byte :=
  match op with
  | BAppend d => (ODone, q ++ d)
  | BReadBytes len | BReadAsString len => fifo_read len q
  | BReadAllAsByte | BReadAllAsString => fifo_read (Z.of_nat (length q)) q
  | BClearReadIndex len => (ODone, drop (Z.to_nat len) q)
  | BResetIndex => (ODone, [])
  | BReadableBytes => (OInt (Z.of_nat (length q)), q)
  | BIsEmpty => (OBool (bool_decide (q = [])), q)
  end.

Fixpoint run_buffer (b : Buffer) (ops : list buf_op) : res (list buf_out * Buffer) :=
  match ops with
  | [] => Ok ([], b)
  | op :: ops' =>
      letr! '(o, b1) := buffer_step b op in
      letr! '(os, b2) := run_buffer b1 ops' in
      Ok (o :: os, b2)
  end.

Fixpoint run_fifo (q : list byte) (ops : list buf_op) : list buf_out * list byte :=
  match ops with
  | [] => ([], q)
  | op :: ops' =>
      let '(o, q1) := fifo_step q op in
      let '(os, q2) := run_fifo q1 ops' in
      (o :: os, q2)
  end.

(** Arguments of the C++ types: lengths are [uint32_t]. *)
Definition op_ok (op : buf_op) : Prop :=
  match op with
  | BReadBytes len | BReadAsString len | BClearReadIndex len => 0 <= len < 2 ^ 32
  | _ => True
  end.

Definition appended (op : buf_op) : Z :=
  match op with BAppend d => Z.of_nat (length d) | _ => 0 end.

Definition total_appended (ops : list buf_op) : Z :=
  foldr (fun op n => appended op + n) 0 ops.

Section refinement.
Lemma total_appended_nonneg ops : 0 <= total_appended ops.
Proof.
  induction ops as [|op ops IH]; simpl; [done|].
  destruct op; simpl; lia.
Qed.

Lemma ReadAsString_ReadBytes b len : ReadAsString b len = ReadBytes b len.
Proof. done. Qed.

Lemma out_read_spec b len :
  buffer_wf b -> 0 <= len ->
  exists b', out_read (ReadBytes b len) = Ok ((fifo_read len (contents b)).1, b') /\
    buffer_wf b' /\ contents b' = (fifo_read len (contents b)).2 /\
    write_index_ b' <= write_index_ b.
Proof.
  intros Hwf Hlen. destruct (ReadBytes_spec b len) as (b' & -> & ? & ? & ?); [done..|].
  exists b'. unfold fifo_read; simpl. rewrite ReadableBytes_contents by done. done.
Qed.

(** One operation of the buffer is one operation of the FIFO. *)
Lemma buffer_step_refines b op :
  buffer_wf b -> op_ok op -> write_index_ b + appended op < 2 ^ 32 ->
  exists b', buffer_step b op = Ok ((fifo_step (contents b) op).1, b') /\
    buffer_wf b' /\ contents b' = (fifo_step (contents b) op).2 /\
    write_index_ b' <= write_index_ b + appended op.
Proof.
  intros Hwf Hok Hov.
  assert (0 <= write_index_ b) by (unfold buffer_wf in *; lia).
  destruct op as [d|len|len| | |len| | |]; simpl in *;
    try (destruct (out_read_spec b len) as (b' & E & ? & ? & ?); [done|lia|];
         rewrite ?ReadAsString_ReadBytes, E; exists b'; split_and!; done || lia).
  - destruct (Append_spec b d) as (b' & -> & ? & ? & ? & ?); [done..|].
    exists b'; simpl; split_and!; done || lia.
  - unfold ReadAllAsByte. rewrite ReadableBytes_contents by done.
    destruct (out_read_spec b (Z.of_nat (length (contents b)))) as (b' & E & ? & ? & ?);
      [done|lia|]. rewrite E. exists b'; split_and!; done || lia.
  - unfold ReadAllAsString. rewrite ReadAsString_ReadBytes, ReadableBytes_contents by done.
    destruct (out_read_spec b (Z.of_nat (length (contents b)))) as (b' & E & ? & ? & ?);
      [done|lia|]. rewrite E. exists b'; split_and!; done || lia.
  - destruct (ClearReadIndex_spec b len) as (? & ? & ?); [done|lia|].
    eexists; split_and!; [done..|lia].
  - eexists; split_and!; [done| |done|simpl; lia].
    unfold buffer_wf, buffer_size in *; simpl; lia.
  - rewrite ReadableBytes_contents by done. eexists; split_and!; done || lia.
  - eexists; split_and!; [|done|done|lia]. do 3 f_equal.
    pose proof (IsEmpty_contents b Hwf). case_bool_decide.
    + tauto.
    + apply not_true_is_false. tauto.
Qed.

(** C3: Every sequence of operations on a well-formed buffer that does not
    push the write index past 2^32 runs without a fault, returns exactly
    what a FIFO of bytes returns, and ends in a well-formed buffer holding
    what that FIFO holds. *)
Theorem buffer_refines_fifo b ops :
  buffer_wf b -> Forall op_ok ops -> write_index_ b + total_appended ops < 2 ^ 32 ->
  exists b', run_buffer b ops = Ok ((run_fifo (contents b) ops).1, b') /\
    buffer_wf b' /\ contents b' = (run_fifo (contents b) ops).2.
Proof.
  revert b. induction ops as [|op ops IH]; intros b Hwf Hok Hov; simpl in *; [eauto|].
  apply Forall_cons_1 in Hok as [Hop Hok].
  pose proof (total_appended_nonneg ops).
  destruct (buffer_step_refines b op) as (b1 & -> & Hwf1 & Hc1 & Hw1); [done|done|lia|].
  destruct (IH b1) as (b2 & E & Hwf2 & Hc2); [done|done|lia|].
  simpl. rewrite E, Hc1 in *. destruct (fifo_step (contents b) op) as [o q1]; simpl in *.
  destruct (run_fifo q1 ops) as [os q2]; simpl in *. eauto.
Qed.

Lemma buffer_refines_fifo_witness :
  exists b', run_buffer (Buffer_new 4)
               [BAppend [x61; x62; x63]; BReadBytes 2; BAppend [x64; x65; x66];
                BReadableBytes; BReadAllAsString; BIsEmpty] =
      Ok ([ODone; OBytes 2 [x61; x62]; ODone; OInt 4;
           OBytes 4 [x63; x64; x65; x66]; OBool true], b') /\
    buffer_wf b' /\ contents b' = [].
Proof.
  apply (buffer_refines_fifo (Buffer_new 4)).
  - apply Buffer_new_wf.
  - repeat constructor; done.
  - vm_compute. reflexivity.
Defined.
End refinement.

(** ** Reading from a descriptor *)

(** Documented behaviour of [readv(2)]: it stores at most as many bytes as the
    vectors hold, and at most 0x7ffff000 bytes. *)
Definition iov_total (iov : list Z) : Z := foldr Z.add 0 iov.
Definition readv_bounded {S} (readv : list Z -> S -> sysres (list byte) * S) : Prop :=
  forall iov s data s', Forall (Z.le 0) iov -> readv iov s = (SOk data, s') ->
    Z.of_nat (length data) <= Z.min (iov_total iov) 0x7ffff000.

Section read_from_fd.
Implicit Types (b : Buffer) (d : list byte).

Lemma WritableBytes_nonneg b : 0 <= WritableBytes b.
Proof. apply u32_bound. Qed.

Lemma ReadFromFD_iov_total b :
  iov_total (ReadFromFD_iov b) <= WritableBytes b + extrabuf_size /\
  (WritableBytes b < extrabuf_size \/ iov_total (ReadFromFD_iov b) = WritableBytes b).
Proof.
  pose proof (WritableBytes_nonneg b). unfold ReadFromFD_iov, iov_total.
  case_match; simpl; unfold extrabuf_size in *; zlia.
Qed.

Lemma ReadFromFD_iov_nonneg b : Forall (Z.le 0) (ReadFromFD_iov b).
Proof.
  pose proof (WritableBytes_nonneg b). unfold ReadFromFD_iov, extrabuf_size.
  case_match; repeat constructor; lia.
Qed.

(** The bytes a successful [readv] stored end up behind the contents,
    whichever of the two vectors they went to. *)
Lemma ReadFromFD_done_ok errno b d :
  buffer_wf b -> Z.of_nat (length d) <= 0x7ffff000 ->
  write_index_ b + Z.of_nat (length d) < 2 ^ 32 ->
  exists b', ReadFromFD_done errno b (SOk d) = Ok (Z.of_nat (length d), None, b') /\
    buffer_wf b' /\ contents b' = contents b ++ d /\
    write_index_ b' = write_index_ b + Z.of_nat (length d).
Proof.
  intros Hwf Hlen Hov. unfold ReadFromFD_done.
  pose proof (WritableBytes_eq b Hwf) as Hw. set (W := WritableBytes b) in *.
  assert (0 <= W) by (unfold W; apply WritableBytes_nonneg).
  rewrite s32_small by lia. rewrite (u32_small (Z.of_nat _)) by lia.
  set (d1 := take (Z.to_nat W) d).
  assert (Z.of_nat (length d1) = Z.min W (Z.of_nat (length d))) as Hd1
    by (unfold d1; rewrite length_take; lia).
  destruct (contents_store b d1) as [Hwf1 Hc1]; [done|lia|].
  rewrite store_bytes_spec by (unfold buffer_wf in *; lia). simpl.
  case_match; [zlia|]. case_match.
  - unfold d1 in *. rewrite take_ge in * by zlia.
    rewrite u32_small by (unfold buffer_wf in *; zlia). eauto 10.
  - assert (buffer_size (mkBuffer (read_index_ b) (write_index_ b)
        (splice (Z.to_nat (write_index_ b)) d1 (buffer_ b))) = buffer_size b) as Hsz.
    { unfold buffer_size, buffer_wf in *; simpl. rewrite length_splice; zlia. }
    rewrite Hsz, (u32_small (buffer_size b)) by (unfold buffer_wf in *; lia).
    replace (buffer_size b) with (write_index_ b + Z.of_nat (length d1)) by zlia.
    rewrite (take_ge (drop _ _)) by (rewrite u32_small, length_drop by zlia; zlia).
    destruct (Append_spec _ (drop (Z.to_nat W) d) Hwf1) as (b' & -> & ? & Hc & _ & Hwi).
    { simpl. rewrite length_drop. zlia. }
    exists b'. split_and!; [done..| |].
    + rewrite Hc, Hc1, <-app_assoc. unfold d1. by rewrite take_drop.
    + rewrite Hwi; simpl. rewrite length_drop. zlia.
Qed.

(** C26: [ReadFromFD] against any [readv] that keeps to its documented
    bounds: on success it returns the number of bytes read, appends exactly
    these bytes to the readable contents (growing the storage when they
    spilled into the stack buffer) and leaves [errorNo] alone; on failure it
    returns -1, stores errno and leaves the buffer as it was.  When the
    stack buffer is offered to the kernel at most 128k - 1 bytes are read. *)
Theorem ReadFromFD_correct {S} (readv : list Z -> S -> sysres (list byte) * S) errno b s :
  buffer_wf b -> readv_bounded readv ->
  (forall d s', readv (ReadFromFD_iov b) s = (SOk d, s') ->
     write_index_ b + Z.of_nat (length d) < 2 ^ 32) ->
  match readv (ReadFromFD_iov b) s with
  | (SErr e, s') => ReadFromFD readv errno b s = (Ok (-1, Some e, b), s')
  | (SOk d, s') =>
      (WritableBytes b < extrabuf_size -> Z.of_nat (length d) <= 128 * 1024 - 1) /\
      exists b', ReadFromFD readv errno b s = (Ok (Z.of_nat (length d), None, b'), s') /\
        buffer_wf b' /\ contents b' = contents b ++ d
  end.
Proof.
  intros Hwf Hreadv Hov. unfold ReadFromFD.
  destruct (readv (ReadFromFD_iov b) s) as [[d|e] s'] eqn:E; [|done].
  pose proof (Hreadv _ _ _ _ (ReadFromFD_iov_nonneg b) E) as Hlen.
  destruct (ReadFromFD_iov_total b) as [Htot _]. unfold extrabuf_size in *.
  split; [lia|].
  destruct (ReadFromFD_done_ok errno b d) as (b' & -> & ? & ? & _); [done|lia|eauto|eauto].
Qed.

Definition demo_readv (iov : list Z) (s : list byte) : sysres (list byte) * list byte :=
  let n := Z.to_nat (Z.min (iov_total iov) 0x7ffff000) in
  (SOk (take n s), drop n s).

Lemma demo_readv_bounded : readv_bounded demo_readv.
Proof.
  intros iov s data s' Hiov [= <- <-]. rewrite length_take.
  assert (0 <= iov_total iov); [|lia].
  clear s. induction Hiov; simpl in *; lia.
Qed.

Lemma ReadFromFD_correct_witness :
  exists b', ReadFromFD demo_readv 0 (Buffer_new 2) [x61; x62; x63] =
      (Ok (3, None, b'), []) /\
    buffer_wf b' /\ contents b' = [x61; x62; x63].
Proof.
  pose proof (ReadFromFD_correct demo_readv 0 (Buffer_new 2) [x61; x62; x63]
                (Buffer_new_wf 2) demo_readv_bounded) as H.
  destruct H as [_ (b' & E & Hwf & Hc)].
  - intros d s' E. vm_compute in E. injection E as <- <-. vm_compute. reflexivity.
  - exists b'. split_and!; [|exact Hwf|exact Hc].
    rewrite E. vm_compute. reflexivity.
Defined.
End read_from_fd.

(** ** Lines and the 4 GiB bound *)

Section lines.
Implicit Types (b : Buffer) (l : list byte).

Lemma starts_crlf_true l :
  starts_crlf l = true <-> exists rest, l = x0d :: x0a :: rest.
Proof.
  unfold starts_crlf. rewrite bool_decide_eq_true.
  split; [|by intros [rest ->]].
  destruct l as [|x [|y rest]]; simpl; naive_solver.
Qed.

Lemma search_crlf_Some l i :
  search_crlf l = Some i ->
  exists line rest, l = line ++ x0d :: x0a :: rest /\ length line = i /\
    forall pre suf, l = pre ++ suf -> starts_crlf suf = true -> (i <= length pre)%nat.
Proof.
  revert i. induction l as [|x l IH]; intros i; simpl; [done|].
  destruct (starts_crlf (x :: l)) eqn:Hs.
  - intros [= <-]. apply starts_crlf_true in Hs as [rest Hs].
    exists [], rest. split_and!; [done|done|lia].
  - intros (j & E & ->)%fmap_Some. destruct (IH j E) as (line & rest & -> & Hl & Hmin).
    exists (x :: line), rest. split_and!; [done|simpl; lia|].
    intros [|p pre] suf; simpl; [intros <-; congruence|].
    intros [= <- Heq] Hsuf. apply le_n_S. eauto.
Qed.

Lemma search_crlf_None l pre suf :
  search_crlf l = None -> l = pre ++ suf -> starts_crlf suf = false.
Proof.
  revert pre. induction l as [|x l IH]; intros pre; simpl.
  - intros _ H. symmetry in H. by apply app_eq_nil in H as [_ ->].
  - destruct (starts_crlf (x :: l)) eqn:Hs; [done|].
    intros E%fmap_None. destruct pre as [|p pre]; simpl; [by intros <-|].
    intros [= <- Heq]. eauto.
Qed.

Lemma FindCRLF_search b :
  buffer_wf b ->
  FindCRLF b = Ok ((fun i => read_index_ b + Z.of_nat i) <$> search_crlf (contents b)).
Proof.
  intros Hwf. unfold FindCRLF. rewrite load_bytes_contents.
  - simpl. rewrite take_ge; [done|].
    pose proof (length_contents b Hwf). lia.
  - done.
  - rewrite ReadableBytes_eq by done. unfold buffer_wf in *. lia.
Qed.

Lemma RetrieveUntil_spec b e :
  buffer_wf b -> read_index_ b <= e <= write_index_ b ->
  buffer_wf (RetrieveUntil b e) /\
  contents (RetrieveUntil b e) = drop (Z.to_nat (e - read_index_ b)) (contents b).
Proof.
  intros Hwf He. unfold RetrieveUntil.
  rewrite !(proj2 (Z.leb_le _ _)) by lia. simpl.
  rewrite u32_small by (unfold buffer_wf in *; lia).
  destruct (ClearReadIndex_spec b (e - read_index_ b)) as (? & ? & _); [done|lia|done].
Qed.

(** C33: Line framing.  On a well-formed buffer [FindCRLF] never faults.  When
    it returns a pointer, the readable bytes are a line, CR LF and a rest, the
    pointer is at that CR, no CR LF starts earlier, and [RetrieveUntil] on it
    leaves exactly the CR LF and the rest; when it returns [nullptr], no CR LF
    is in the readable bytes. *)
Theorem FindCRLF_first_line b :
  buffer_wf b ->
  match FindCRLF b with
  | Ok (Some p) =>
      exists line rest,
        contents b = line ++ x0d :: x0a :: rest /\
        p = read_index_ b + Z.of_nat (length line) /\
        (forall pre suf, contents b = pre ++ x0d :: x0a :: suf ->
           (length line <= length pre)%nat) /\
        buffer_wf (RetrieveUntil b p) /\
        contents (RetrieveUntil b p) = x0d :: x0a :: rest
  | Ok None => forall pre suf, contents b <> pre ++ x0d :: x0a :: suf
  | Err _ => False
  end.
Proof.
  intros Hwf. rewrite FindCRLF_search by done.
  destruct (search_crlf (contents b)) as [i|] eqn:E; simpl.
  - destruct (search_crlf_Some _ _ E) as (line & rest & Hc & <- & Hmin).
    pose proof (length_contents b Hwf) as Hlen. rewrite Hc, length_app in Hlen.
    simpl in Hlen.
    destruct (RetrieveUntil_spec b (read_index_ b + Z.of_nat (length line)))
      as [? Hd]; [done|lia|].
    exists line, rest. split_and!; [done|done| |done|].
    + intros pre suf Hps. apply (Hmin pre _ Hps). apply starts_crlf_true. eauto.
    + rewrite Hd, Hc, Z.add_simpl_l, Nat2Z.id. by rewrite drop_app_length.
  - intros pre suf Hps. pose proof (search_crlf_None _ _ _ E Hps) as Hn.
    rewrite (proj2 (starts_crlf_true _)) in Hn by eauto. done.
Qed.

Lemma FindCRLF_first_line_witness :
  let b := mkBuffer 1 6 [x7a; x61; x0d; x0a; x62; x0d; x0a; x00] in
  FindCRLF b = Ok (Some 2) /\ contents (RetrieveUntil b 2) = [x0d; x0a; x62; x0d].
Proof.
  intros b. assert (buffer_wf b) as Hwf by (unfold buffer_wf, buffer_size; simpl; lia).
  pose proof (FindCRLF_first_line b Hwf) as H.
  change (FindCRLF b) with (Ok (Some 2)) in *. split; [reflexivity|].
  destruct H as (line & rest & Hc & Hp & _ & _ & Hr). rewrite Hr.
  simpl in Hp. assert (length line = 1%nat) as Hl by lia.
  destruct line as [|x [|]]; try discriminate Hl.
  vm_compute in Hc. injection Hc as <- <-. reflexivity.
Defined.

(** C40: The 4 GiB bound.  Appending to a well-formed buffer is memory safe
    whatever the length, but when the write index would reach 2^32 it wraps:
    the buffer then counts 2^32 bytes less than it holds. *)
Theorem Append_wraps_at_4GiB b d :
  buffer_wf b -> read_index_ b = 0 ->
  2 ^ 32 <= write_index_ b + Z.of_nat (length d) < 2 ^ 33 ->
  exists b', Append b d = Ok b' /\
    write_index_ b' = write_index_ b + Z.of_nat (length d) - 2 ^ 32 /\
    ReadableBytes b' = Z.of_nat (length (contents b ++ d)) - 2 ^ 32.
Proof.
  intros Hwf Hr Hov. pose proof (length_contents b Hwf) as Hl.
  pose proof (WritableBytes_eq b Hwf) as HW.
  unfold Append, EnsureWritableBytes. rewrite HW.
  rewrite (proj2 (Z.ltb_lt _ _)) by (unfold buffer_wf in *; lia).
  rewrite store_bytes_spec; [|unfold buffer_wf in *; simpl; lia|].
  2:{ rewrite vec_resize_size, u64_small by (unfold buffer_wf in *; lia).
      unfold buffer_wf in *; simpl; lia. }
  simpl. eexists; split_and!; [done|..].
  - simpl. unfold u32, buffer_wf in *.
    replace (write_index_ b + Z.of_nat (length d))
      with (write_index_ b + Z.of_nat (length d) - 2 ^ 32 + 1 * 2 ^ 32) at 1 by lia.
    rewrite Z.mod_add, Z.mod_small by lia. lia.
  - unfold ReadableBytes; simpl. rewrite Hr, Z.sub_0_r, u32_u32.
    rewrite length_app. unfold u32, buffer_wf in *.
    replace (write_index_ b + Z.of_nat (length d))
      with (write_index_ b + Z.of_nat (length d) - 2 ^ 32 + 1 * 2 ^ 32) by lia.
    rewrite Z.mod_add, Z.mod_small by lia. lia.
Qed.

Lemma Append_wraps_at_4GiB_witness :
  let b := Buffer_new 0 in
  let d := replicate (Z.to_nat (2 ^ 32 + 5)) x61 in
  exists b', Append b d = Ok b' /\ ReadableBytes b' = 5.
Proof.
  intros b d.
  assert (Z.of_nat (length d) = 2 ^ 32 + 5) as Hd
    by (unfold d; rewrite length_replicate; apply Z2Nat.id; lia).
  destruct (Append_wraps_at_4GiB b d) as (b' & E & _ & Hr).
  - apply Buffer_new_wf.
  - reflexivity.
  - rewrite Hd. split; simpl; lia.
  - exists b'. split; [exact E|]. rewrite Hr, length_app, Nat2Z.inj_add, Hd. reflexivity.
Defined.
End lines.
