(* ===== verification/Kernel.v ===== *)
(** * Kernel: the system calls the program relies on

    The Linux kernel is not part of the repository.  It appears as the class
    [Kernel]: a type of kernel states and one function per system call the
    sources make, each returning a result or an errno.  What the program
    relies on of the documented behaviour of the calls is stated as the
    classes at the end of this file; theorems name the ones they use.  RefKernel.v gives a concrete kernel that satisfies all of them. *)

From stdpp Require Import base list gmap strings numbers.
From Stdlib Require Import ZArith Lia Init.Byte.
From S2P Require Import Prelude Buffer.

(** Addresses of heap objects and identities of threads. *)
Abbreviation ptr := positive (only parsing).
Abbreviation tid := positive (only parsing).

(** The memory image of a [struct sockaddr_in6] (28 bytes), which the sources
    also use, through a union, for a [struct sockaddr_in]. *)
Abbreviation sockaddr := (list byte) (only parsing).

(** ** errno values and flags of the Linux ABI that the sources name *)

Definition EPERM := 1.
Definition EINTR := 4.
Definition EBADF := 9.
Definition EAGAIN := 11.
Definition EWOULDBLOCK := EAGAIN.
Definition ENOMEM := 12.
Definition EACCES := 13.
Definition EFAULT := 14.
Definition EEXIST := 17.
Definition ENOENT := 2.
Definition EINVAL := 22.
Definition ENFILE := 23.
Definition EMFILE := 24.
Definition EPIPE := 32.
Definition EPROTO := 71.
Definition ENOTSOCK := 88.
Definition EOPNOTSUPP := 95.
Definition EAFNOSUPPORT := 97.
Definition EADDRINUSE := 98.
Definition EADDRNOTAVAIL := 99.
Definition ENETUNREACH := 101.
Definition ECONNABORTED := 103.
Definition ECONNRESET := 104.
Definition ENOBUFS := 105.
Definition EISCONN := 106.
Definition ECONNREFUSED := 111.
Definition EALREADY := 114.
Definition EINPROGRESS := 115.

Inductive epoll_op := EPOLL_CTL_ADD | EPOLL_CTL_DEL | EPOLL_CTL_MOD.

#[global] Instance epoll_op_eq_dec : EqDecision epoll_op.
Proof. solve_decision. Defined.

(** ** The interface *)

Class Kernel := {
  kstate : Type;
  sys_epoll_create1 : Z -> kstate -> sysres Z * kstate;
  (** [epoll_ctl(epfd, op, fd, &{events, data.ptr})] *)
  sys_epoll_ctl : Z -> epoll_op -> Z -> Z -> ptr -> kstate -> sysres unit * kstate;
  (** [epoll_wait(epfd, _, maxevents, timeout)]: the ready events, each with the
      [data.ptr] it was registered with *)
  sys_epoll_wait : Z -> Z -> Z -> kstate -> sysres (list (Z * ptr)) * kstate;
  sys_eventfd : Z -> Z -> kstate -> sysres Z * kstate;
  sys_close : Z -> kstate -> sysres unit * kstate;
  sys_read : Z -> Z -> kstate -> sysres (list byte) * kstate;
  sys_readv : Z -> list Z -> kstate -> sysres (list byte) * kstate;
  sys_write : Z -> list byte -> kstate -> sysres Z * kstate;
  sys_socket : Z -> Z -> Z -> kstate -> sysres Z * kstate;
  sys_bind : Z -> sockaddr -> Z -> kstate -> sysres unit * kstate;
  sys_listen : Z -> Z -> kstate -> sysres unit * kstate;
  sys_accept4 : Z -> Z -> kstate -> sysres (Z * sockaddr) * kstate;
  sys_connect : Z -> sockaddr -> Z -> kstate -> sysres unit * kstate;
  (** [getsockopt(fd, SOL_SOCKET, SO_ERROR)] *)
  sys_so_error : Z -> kstate -> sysres Z * kstate;
  sys_getpeername : Z -> kstate -> sysres sockaddr * kstate;
  sys_getsockname : Z -> kstate -> sysres sockaddr * kstate;
  sys_setsockopt : Z -> Z -> Z -> Z -> kstate -> sysres unit * kstate;
  sys_shutdown : Z -> Z -> kstate -> sysres unit * kstate;
  sys_open : string -> Z -> kstate -> sysres Z * kstate
}.

(** ** Documented behaviour *)

(** read(2), write(2), readv(2): a successful transfer is not longer than what
    was asked for, and at most 0x7ffff000 bytes. *)
Class IoLaws `{Kernel} := {
  sys_readv_bounded fd : readv_bounded (sys_readv fd);
  sys_write_bounded fd d k n k' :
    sys_write fd d k = (SOk n, k') -> 0 <= n <= Z.of_nat (length d)
}.

(** epoll_ctl(2), epoll_wait(2): [k_interest k ep] is the interest list of the
    epoll instance [ep], with the events and the [data.ptr] of each entry. *)
Class EpollLaws `{Kernel} := {
  k_interest : kstate -> Z -> gmap Z (Z * ptr);
  (** A failing call changes no interest list; a successful one is the
      documented update of the list of [ep] and leaves the others alone. *)
  epoll_ctl_err ep op fd ev p k e k' :
    sys_epoll_ctl ep op fd ev p k = (SErr e, k') -> forall ep', k_interest k' ep' = k_interest k ep';
  epoll_ctl_ok ep op fd ev p k k' :
    sys_epoll_ctl ep op fd ev p k = (SOk tt, k') ->
    k_interest k' ep =
      match op with
      | EPOLL_CTL_ADD | EPOLL_CTL_MOD => <[fd := (ev, p)]> (k_interest k ep)
      | EPOLL_CTL_DEL => delete fd (k_interest k ep)
      end /\
    forall ep', ep' <> ep -> k_interest k' ep' = k_interest k ep';
  (** EEXIST and ENOENT. *)
  epoll_ctl_add_new ep fd ev p k k' :
    sys_epoll_ctl ep EPOLL_CTL_ADD fd ev p k = (SOk tt, k') -> k_interest k ep !! fd = None;
  epoll_ctl_old ep op fd ev p k k' :
    op <> EPOLL_CTL_ADD ->
    sys_epoll_ctl ep op fd ev p k = (SOk tt, k') -> is_Some (k_interest k ep !! fd);
  (** epoll_wait reports at most [maxevents] events, each for a registered
      descriptor; failing or not, it changes no interest list. *)
  epoll_wait_ok ep n t k evs k' :
    sys_epoll_wait ep n t k = (SOk evs, k') ->
    Z.of_nat (length evs) <= n /\
    (forall ev p, In (ev, p) evs -> exists fd reg, k_interest k ep !! fd = Some (reg, p));
  epoll_wait_frame ep n t k ep' :
    k_interest (sys_epoll_wait ep n t k).2 ep' = k_interest k ep';
  (** A new epoll instance watches nothing. *)
  epoll_create1_ok fl k ep k' :
    sys_epoll_create1 fl k = (SOk ep, k') ->
    k_interest k' ep = ∅ /\ forall ep', ep' <> ep -> k_interest k' ep' = k_interest k ep'
}.

(** No exhaustion of kernel resources, and open descriptors: with these,
    epoll_ctl(2) fails only with EEXIST or ENOENT. *)
Class EpollReliable `{EpollLaws} := {
  epoll_add_succeeds ep fd ev p k :
    k_interest k ep !! fd = None ->
    (sys_epoll_ctl ep EPOLL_CTL_ADD fd ev p k).1 = SOk tt;
  epoll_old_succeeds ep op fd ev p k :
    op <> EPOLL_CTL_ADD -> is_Some (k_interest k ep !! fd) ->
    (sys_epoll_ctl ep op fd ev p k).1 = SOk tt
}.

(** eventfd(2): reads and writes of fewer than 8 bytes fail with EINVAL. *)
Class EventFdLaws `{Kernel} := {
  k_eventfd : kstate -> Z -> Prop;
  eventfd_short_write fd d k :
    k_eventfd k fd -> Z.of_nat (length d) < 8 -> sys_write fd d k = (SErr EINVAL, k);
  eventfd_short_read fd n k :
    k_eventfd k fd -> 0 <= n < 8 -> sys_read fd n k = (SErr EINVAL, k);
  eventfd_ok n fl k fd k' : sys_eventfd n fl k = (SOk fd, k') -> k_eventfd k' fd
}.

(** Calls that are no epoll_ctl(2) change no interest list; close(2) of a
    descriptor that is in none of them does not either. *)
Class EpollFrame `{EpollLaws} := {
  frame_eventfd n fl k ep : k_interest (sys_eventfd n fl k).2 ep = k_interest k ep;
  frame_read fd n k ep : k_interest (sys_read fd n k).2 ep = k_interest k ep;
  frame_readv fd iov k ep : k_interest (sys_readv fd iov k).2 ep = k_interest k ep;
  frame_write fd d k ep : k_interest (sys_write fd d k).2 ep = k_interest k ep;
  frame_socket d t p k ep : k_interest (sys_socket d t p k).2 ep = k_interest k ep;
  frame_connect fd a n k ep : k_interest (sys_connect fd a n k).2 ep = k_interest k ep;
  frame_getpeername fd k ep : k_interest (sys_getpeername fd k).2 ep = k_interest k ep;
  frame_getsockname fd k ep : k_interest (sys_getsockname fd k).2 ep = k_interest k ep;
  frame_so_error fd k ep : k_interest (sys_so_error fd k).2 ep = k_interest k ep;
  frame_shutdown fd how k ep : k_interest (sys_shutdown fd how k).2 ep = k_interest k ep;
  frame_setsockopt fd lv o v k ep : k_interest (sys_setsockopt fd lv o v k).2 ep = k_interest k ep;
  frame_close fd k ep : ep <> fd -> k_interest k ep !! fd = None ->
    k_interest (sys_close fd k).2 ep = k_interest k ep
}.

(** Connected stream sockets: what was accepted for sending so far, what waits to
    be received, and whether the peer has closed its side. *)
Record stream := mkStream {
  st_sent : list byte;
  st_incoming : list byte;
  st_eof : bool
}.

(** write(2) accepts a prefix; readv(2) delivers a prefix of what waits, nothing
    only at the end of the stream, and EAGAIN only when nothing waits. *)
Class StreamLaws `{Kernel} := {
  k_stream : kstate -> Z -> option stream;
  stream_write fd d k st :
    k_stream k fd = Some st ->
    match sys_write fd d k with
    | (SOk n, k') => k_stream k' fd =
        Some (mkStream (st_sent st ++ take (Z.to_nat n) d) (st_incoming st) (st_eof st))
    | (SErr _, k') => k_stream k' fd = Some st
    end;
  stream_readv fd iov k st :
    k_stream k fd = Some st -> Forall (Z.le 0) iov -> 0 < iov_total iov ->
    match sys_readv fd iov k with
    | (SOk d, k') => exists rest, st_incoming st = d ++ rest /\
        k_stream k' fd = Some (mkStream (st_sent st) rest (st_eof st)) /\
        (d = [] -> st_incoming st = [] /\ st_eof st = true)
    | (SErr e, k') => k_stream k' fd = Some st /\ (e = EAGAIN -> st_incoming st = [])
    end;
  stream_epoll_ctl ep op fd ev p k fd' :
    k_stream (sys_epoll_ctl ep op fd ev p k).2 fd' = k_stream k fd';
  stream_so_error fd k fd' : k_stream (sys_so_error fd k).2 fd' = k_stream k fd';
  stream_shutdown fd how k fd' : k_stream (sys_shutdown fd how k).2 fd' = k_stream k fd';
  stream_getpeername fd k fd' : k_stream (sys_getpeername fd k).2 fd' = k_stream k fd';
  stream_getsockname fd k fd' : k_stream (sys_getsockname fd k).2 fd' = k_stream k fd';
  stream_setsockopt fd lv o v k fd' : k_stream (sys_setsockopt fd lv o v k).2 fd' = k_stream k fd'
}.

(** Descriptors: a call that opens one returns the lowest number that is free. *)
Definition lowest_free (s : gset Z) (n : Z) : Prop :=
  0 <= n /\ (n ∉ s) /\ (forall m, 0 <= m < n -> m ∈ s).

Class FdLaws `{Kernel} := {
  k_open : kstate -> gset Z;
  close_open fd k : k_open (sys_close fd k).2 = k_open k ∖ {[fd]};
  accept_open fd fl k :
    match sys_accept4 fd fl k with
    | (SOk (n, _), k') => lowest_free (k_open k) n /\ k_open k' = {[n]} ∪ k_open k
    | (SErr _, k') => k_open k' = k_open k
    end;
  open_open path fl k :
    match sys_open path fl k with
    | (SOk n, k') => lowest_free (k_open k) n /\ k_open k' = {[n]} ∪ k_open k
    | (SErr _, k') => k_open k' = k_open k
    end;
  setsockopt_open fd lv o v k : k_open (sys_setsockopt fd lv o v k).2 = k_open k
}.

(** The listening sockets and the connections that wait at them: accept4(2) takes the
    first, and fails with EAGAIN when there is none.  It may fail for other reasons. *)
Class BacklogLaws `{Kernel} := {
  k_backlog : kstate -> Z -> option (list sockaddr);
  accept_first fd fl k a rest n peer k' :
    k_backlog k fd = Some (a :: rest) -> sys_accept4 fd fl k = (SOk (n, peer), k') ->
    peer = a /\ 0 <= n /\ k_backlog k' fd = Some rest;
  accept_empty fd fl k :
    k_backlog k fd = Some [] ->
    exists k', sys_accept4 fd fl k = (SErr EAGAIN, k') /\ k_backlog k' fd = Some [];
  backlog_setsockopt fd lv o v k fd' : k_backlog (sys_setsockopt fd lv o v k).2 fd' = k_backlog k fd';
  (** A socket that is bound to an address on which no other listens: listen(2)
      makes it a listening one. *)
  k_bound : kstate -> Z -> bool;
  listen_bound fd n k : k_bound k fd = true -> is_Some (k_backlog (sys_listen fd n k).2 fd)
}.

(** An assumption, and no law: accept4(2) does not fail while a connection waits (no
    ECONNABORTED, EINTR, EMFILE, ENFILE, ENOBUFS, ...).  For what the program does
    otherwise see [full_table_recovery_keeps_reserve] and [accept_error_leaks_connection]
    in Acceptor.v, which do not make it. *)
Class AcceptReliable `{BacklogLaws} := {
  accept_succeeds fd fl k a rest :
    k_backlog k fd = Some (a :: rest) -> exists n peer k', sys_accept4 fd fl k = (SOk (n, peer), k')
}.

Lemma accept_next `{AcceptReliable} fd fl k a rest :
  k_backlog k fd = Some (a :: rest) ->
  exists n k', sys_accept4 fd fl k = (SOk (n, a), k') /\ 0 <= n /\ k_backlog k' fd = Some rest.
Proof.
  intros Hb. destruct (accept_succeeds fd fl k a rest Hb) as (n & peer & k' & E).
  destruct (accept_first _ _ _ _ _ _ _ _ Hb E) as (-> & Hn & Hr). eauto.
Qed.

(** ** Descriptors and what stands behind them

    What one call leaves alone of the other descriptors. *)
Section descriptors.
Context `{FdLaws} `{!StreamLaws} `{!BacklogLaws}.

(** No descriptor is opened or closed, and what stands behind those other than
    [fd] is as it was. *)
Definition undisturbed_but (fd : Z) (k k' : kstate) : Prop :=
  k_open k' = k_open k /\
  forall fd', fd' <> fd ->
    k_stream k' fd' = k_stream k fd' /\ k_backlog k' fd' = k_backlog k fd' /\ k_bound k' fd' = k_bound k fd'.

Definition undisturbed (k k' : kstate) : Prop :=
  k_open k' = k_open k /\
  forall fd, k_stream k' fd = k_stream k fd /\ k_backlog k' fd = k_backlog k fd /\ k_bound k' fd = k_bound k fd.
End descriptors.

Class DescriptorLaws `{Kernel} `{!EpollLaws} `{!FdLaws} `{!StreamLaws} `{!BacklogLaws} := {
  quiet_epoll_ctl ep op fd ev p k : undisturbed k (sys_epoll_ctl ep op fd ev p k).2;
  quiet_so_error fd k : undisturbed k (sys_so_error fd k).2;
  quiet_setsockopt fd lv o v k : undisturbed k (sys_setsockopt fd lv o v k).2;
  quiet_listen fd n k : undisturbed_but fd k (sys_listen fd n k).2 /\
    (is_Some (k_backlog k fd) -> is_Some (k_backlog (sys_listen fd n k).2 fd)) /\
    (forall fd', k_stream (sys_listen fd n k).2 fd' = k_stream k fd') /\
    forall ep, k_interest (sys_listen fd n k).2 ep = k_interest k ep;
  quiet_read fd n k : undisturbed_but fd k (sys_read fd n k).2;
  quiet_readv fd iov k : undisturbed_but fd k (sys_readv fd iov k).2;
  (** close(2) and accept4(2): besides what [FdLaws] and [BacklogLaws] say, what
      stands behind other descriptors stays; an accepted descriptor is a stream. *)
  close_others fd k fd' : fd' <> fd ->
    k_stream (sys_close fd k).2 fd' = k_stream k fd' /\
    k_backlog (sys_close fd k).2 fd' = k_backlog k fd' /\
    k_bound (sys_close fd k).2 fd' = k_bound k fd';
  accept_others fd fl k fd' :
    match sys_accept4 fd fl k with
    | (SOk (n, _), k') => is_Some (k_stream k' n) /\ (fd' <> n -> k_stream k' fd' = k_stream k fd')
    | (SErr _, k') => k_stream k' fd' = k_stream k fd'
    end;
  accept_interest fd fl k ep : k_interest (sys_accept4 fd fl k).2 ep = k_interest k ep;
  (** While epoll_wait(2) waits, peers send, close and connect; sockets stay what
      they are. *)
  wait_open ep n t k : k_open (sys_epoll_wait ep n t k).2 = k_open k;
  wait_others ep n t k fd :
    (is_Some (k_stream k fd) -> is_Some (k_stream (sys_epoll_wait ep n t k).2 fd)) /\
    (is_Some (k_backlog k fd) -> is_Some (k_backlog (sys_epoll_wait ep n t k).2 fd)) /\
    (k_bound k fd = true -> k_bound (sys_epoll_wait ep n t k).2 fd = true);
  (** One event per registered descriptor. *)
  wait_once ep n t k evs k' :
    sys_epoll_wait ep n t k = (SOk evs, k') ->
    (forall fd fd' reg reg' p, k_interest k ep !! fd = Some (reg, p) ->
       k_interest k ep !! fd' = Some (reg', p) -> fd = fd') -> NoDup (evs.*2);
  (** A socket whose peer has hung up (EPOLLHUP, bit 4) is readable (EPOLLIN, bit
      0): reading returns the end of the stream. *)
  wait_hup ep n t k evs k' ev p :
    sys_epoll_wait ep n t k = (SOk evs, k') -> In (ev, p) evs ->
    (forall fd reg, k_interest k ep !! fd = Some (reg, p) -> Z.testbit reg 0 = true) ->
    Z.testbit ev 4 = true -> Z.testbit ev 0 = true
}.

(** The other calls that open a descriptor, and those that set one up. *)
Class OpenLaws `{Kernel} `{!EpollLaws} `{!FdLaws} := {
  create1_open fl k :
    match sys_epoll_create1 fl k with
    | (SOk n, k') => lowest_free (k_open k) n /\ k_open k' = {[n]} ∪ k_open k
    | (SErr _, k') => k_open k' = k_open k
    end;
  eventfd_open n fl k :
    match sys_eventfd n fl k with
    | (SOk fd, k') => lowest_free (k_open k) fd /\ k_open k' = {[fd]} ∪ k_open k
    | (SErr _, k') => k_open k' = k_open k
    end;
  socket_open d t p k :
    match sys_socket d t p k with
    | (SOk fd, k') => lowest_free (k_open k) fd /\ k_open k' = {[fd]} ∪ k_open k
    | (SErr _, k') => k_open k' = k_open k
    end;
  bind_open fd a n k : k_open (sys_bind fd a n k).2 = k_open k;
  interest_open path fl k ep : k_interest (sys_open path fl k).2 ep = k_interest k ep;
  interest_bind fd a n k ep : k_interest (sys_bind fd a n k).2 ep = k_interest k ep
}.

(** socket(2) and connect(2) leave the other streams alone. *)
Class DialLaws `{StreamLaws} := {
  stream_socket d t p k fd st : k_stream k fd = Some st -> k_stream (sys_socket d t p k).2 fd = Some st;
  stream_connect fd a n k fd' : fd' <> fd -> k_stream (sys_connect fd a n k).2 fd' = k_stream k fd'
}.

(** The receive buffer of a socket and the backlog of a listening one are bounded. *)
Class KernelLimits `{StreamLaws} `{!BacklogLaws} := {
  k_limit : nat;
  limit_32 : Z.of_nat k_limit < 2 ^ 32;
  stream_limit k fd st : k_stream k fd = Some st -> (length (st_incoming st) < k_limit)%nat;
  backlog_limit k fd q : k_backlog k fd = Some q -> (length q < k_limit)%nat
}.
