(* ===== verification/RefKernel.v ===== *)
(** * RefKernel: a concrete kernel

    A small executable kernel that satisfies the laws of Kernel.v.  It is no
    part of the program: it shows that the laws can hold together, and gives
    the concrete runs of the witnesses something to run on.

    Sockets have a queue of bytes to be received, an end-of-file mark, the
    bytes sent so far and a remaining send capacity, an error that is pending, and
    a backlog of connections; what epoll_wait reports is
    a script of (events, data.ptr) lists, filtered by the interest list; a list
    that epoll would not report is skipped. *)

From stdpp Require Import base list gmap strings numbers.
From Stdlib Require Import ZArith Lia Init.Byte.
From S2P Require Import Prelude Buffer Kernel.

Record rsock := mkRsock {
  rs_recv : list byte;
  rs_eof : bool;
  rs_sent : list byte;
  rs_cap : Z;
  rs_error : Z;
  rs_shutdown : bool;
  rs_pending : list sockaddr
}.

Inductive rfile :=
| RSock (s : rsock)
| REpoll
| REventFd (n : Z)
| RNull.

Record rkernel := mkRkernel {
  rk_files : gmap Z rfile;
  rk_interest : gmap Z (gmap Z (Z * ptr));
  rk_script : list (list (Z * ptr))
}.

Definition rk_set_files v k := mkRkernel v (rk_interest k) (rk_script k).
Definition rk_set_interest v k := mkRkernel (rk_files k) v (rk_script k).
Definition rk_set_script v k := mkRkernel (rk_files k) (rk_interest k) v.

Definition new_sock : rsock := mkRsock [] false [] 0 0 false [].

(** The lowest free descriptor from [n] on. *)
Fixpoint rk_lowest (fuel : nat) (n : Z) (files : gmap Z rfile) : Z :=
  match fuel, files !! n with
  | S fuel', Some _ => rk_lowest fuel' (n + 1) files
  | _, _ => n
  end.

Definition rk_next_fd (k : rkernel) : Z := rk_lowest (size (rk_files k)) 0 (rk_files k).

Definition rk_open_file (f : rfile) (k : rkernel) : sysres Z * rkernel :=
  (SOk (rk_next_fd k), rk_set_files (<[rk_next_fd k := f]> (rk_files k)) k).

Definition rk_epoll_create1 (k : rkernel) : sysres Z * rkernel :=
  let '(r, k1) := rk_open_file REpoll k in
  (r, rk_set_interest (<[rk_next_fd k := ∅]> (rk_interest k1)) k1).

Definition rk_epoll_ctl (ep : Z) (op : epoll_op) (fd ev : Z) (p : ptr) (k : rkernel)
    : sysres unit * rkernel :=
  let i := default ∅ (rk_interest k !! ep) in
  match op, i !! fd with
  | EPOLL_CTL_ADD, Some _ => (SErr EEXIST, k)
  | EPOLL_CTL_ADD, None | EPOLL_CTL_MOD, Some _ =>
      (SOk tt, rk_set_interest (<[ep := <[fd := (ev, p)]> i]> (rk_interest k)) k)
  | EPOLL_CTL_DEL, Some _ =>
      (SOk tt, rk_set_interest (<[ep := delete fd i]> (rk_interest k)) k)
  | _, None => (SErr ENOENT, k)
  end.

(** Is some descriptor of [ep] registered with the address [p]? *)
Definition rk_registered (k : rkernel) (ep : Z) (p : ptr) : bool :=
  existsb (fun x => bool_decide (x.2.2 = p)) (map_to_list (default ∅ (rk_interest k !! ep))).

(** One event per address, and readable whenever the peer has hung up. *)
Definition rk_plausible (evs : list (Z * ptr)) : bool :=
  bool_decide (NoDup (evs.*2)) && forallb (fun e => implb (Z.testbit e.1 4) (Z.testbit e.1 0)) evs.

Definition rk_epoll_wait (ep n t : Z) (k : rkernel) : sysres (list (Z * ptr)) * rkernel :=
  if n <=? 0 then (SErr EINVAL, k)
  else match rk_script k with
  | [] => (SOk [], k)
  | evs :: rest =>
      (SOk (take (Z.to_nat n) (base.filter (fun e => rk_registered k ep e.2 = true)
              (if rk_plausible evs then evs else []))),
       rk_set_script rest k)
  end.

Definition rk_recv (fd total : Z) (k : rkernel) : sysres (list byte) * rkernel :=
  match rk_files k !! fd with
  | Some (RSock s) =>
      match rs_recv s with
      | [] => if rs_eof s then (SOk [], k) else (SErr EAGAIN, k)
      | d => let n := Z.to_nat (Z.min total 0x7ffff000) in
             (SOk (take n d), rk_set_files (<[fd := RSock (mkRsock (drop n d) (rs_eof s)
                (rs_sent s) (rs_cap s) (rs_error s) (rs_shutdown s) (rs_pending s))]> (rk_files k)) k)
      end
  | _ => (SErr EBADF, k)
  end.

Definition rk_read (fd n : Z) (k : rkernel) : sysres (list byte) * rkernel :=
  match rk_files k !! fd with
  | Some (REventFd v) =>
      if n <? 8 then (SErr EINVAL, k)
      else if v =? 0 then (SErr EAGAIN, k)
      else (SOk (replicate 8 x00), rk_set_files (<[fd := REventFd 0]> (rk_files k)) k)
  | _ => rk_recv fd n k
  end.

Definition rk_write (fd : Z) (d : list byte) (k : rkernel) : sysres Z * rkernel :=
  match rk_files k !! fd with
  | Some (REventFd v) =>
      if Z.of_nat (length d) <? 8 then (SErr EINVAL, k)
      else (SOk 8, rk_set_files (<[fd := REventFd (v + 1)]> (rk_files k)) k)
  | Some (RSock s) =>
      if rs_shutdown s then (SErr EPIPE, k)
      else if rs_cap s <=? 0 then (SErr EAGAIN, k)
      else let n := Z.min (rs_cap s) (Z.of_nat (length d)) in
        (SOk n, rk_set_files (<[fd := RSock (mkRsock (rs_recv s) (rs_eof s)
           (rs_sent s ++ take (Z.to_nat n) d) (rs_cap s - n) (rs_error s) (rs_shutdown s)
           (rs_pending s))]> (rk_files k)) k)
  | _ => (SErr EBADF, k)
  end.

Definition rk_accept4 (fd flags : Z) (k : rkernel) : sysres (Z * sockaddr) * rkernel :=
  match rk_files k !! fd with
  | Some (RSock s) =>
      if negb (rs_error s =? 0) then
        (SErr (rs_error s), rk_set_files (<[fd := RSock (mkRsock (rs_recv s) (rs_eof s) (rs_sent s)
           (rs_cap s) 0 (rs_shutdown s) (rs_pending s))]> (rk_files k)) k)
      else match rs_pending s with
      | [] => (SErr EAGAIN, k)
      | a :: rest =>
          let k1 := rk_set_files (<[fd := RSock (mkRsock (rs_recv s) (rs_eof s) (rs_sent s)
                      (rs_cap s) (rs_error s) (rs_shutdown s) rest)]> (rk_files k)) k in
          let '(r, k2) := rk_open_file (RSock new_sock) k1 in
          (match r with SOk n => SOk (n, a) | SErr e => SErr e end, k2)
      end
  | _ => (SErr EBADF, k)
  end.

Definition rk_shutdown (fd how : Z) (k : rkernel) : sysres unit * rkernel :=
  match rk_files k !! fd with
  | Some (RSock s) =>
      (SOk tt, rk_set_files (<[fd := RSock (mkRsock (rs_recv s) (rs_eof s) (rs_sent s)
         (rs_cap s) (rs_error s) true (rs_pending s))]> (rk_files k)) k)
  | _ => (SErr EBADF, k)
  end.

Definition rk_close (fd : Z) (k : rkernel) : sysres unit * rkernel :=
  match rk_files k !! fd with
  | Some _ => (SOk tt, mkRkernel (delete fd (rk_files k)) (delete fd <$> rk_interest k)
                         (rk_script k))
  | None => (SErr EBADF, k)
  end.

Definition rk_if_sock {A} (fd : Z) (a : A) (k : rkernel) : sysres A * rkernel :=
  match rk_files k !! fd with Some (RSock _) => (SOk a, k) | _ => (SErr ENOTSOCK, k) end.

(** Connecting to 127.x.x.x succeeds at once. *)
Definition rk_connect (fd : Z) (addr : sockaddr) (k : rkernel) : sysres unit * rkernel :=
  match rk_files k !! fd with
  | Some (RSock _) => (if decide (addr !! 4%nat = Some x7f) then SOk tt else SErr EINPROGRESS, k)
  | _ => (SErr ENOTSOCK, k)
  end.

Definition rk_so_error (fd : Z) (k : rkernel) : sysres Z * rkernel :=
  match rk_files k !! fd with Some (RSock s) => (SOk (rs_error s), k) | _ => (SErr ENOTSOCK, k) end.

#[global] Instance RefKernel : Kernel := {|
  kstate := rkernel;
  sys_epoll_create1 _ := rk_epoll_create1;
  sys_epoll_ctl := rk_epoll_ctl;
  sys_epoll_wait := rk_epoll_wait;
  sys_eventfd n _ := rk_open_file (REventFd n);
  sys_close := rk_close;
  sys_read := rk_read;
  sys_readv fd iov := rk_recv fd (iov_total iov);
  sys_write := rk_write;
  sys_socket _ _ _ := rk_open_file (RSock new_sock);
  sys_bind fd _ _ := rk_if_sock fd tt;
  sys_listen fd _ := rk_if_sock fd tt;
  sys_accept4 := rk_accept4;
  sys_connect fd addr _ := rk_connect fd addr;
  sys_so_error := rk_so_error;
  sys_getpeername fd := rk_if_sock fd (replicate 28 x00);
  sys_getsockname fd := rk_if_sock fd (replicate 28 x00);
  sys_setsockopt fd _ _ _ := rk_if_sock fd tt;
  sys_shutdown := rk_shutdown;
  sys_open _ _ := rk_open_file RNull
|}.

(** ** The laws hold *)

#[global] Instance RefKernel_io : IoLaws (H := RefKernel).
Proof.
  split; simpl.
  - intros fd iov k data k' Hiov. unfold rk_recv.
    assert (0 <= iov_total iov) by (clear k; induction Hiov; simpl in *; lia).
    repeat case_match; intros; simplify_eq; try rewrite length_take; simpl; lia.
  - intros fd d k n k'. unfold rk_write. repeat case_match; intros; simplify_eq; zlia.
Qed.

#[global] Instance RefKernel_epoll : EpollLaws (H := RefKernel).
Proof.
  refine {| k_interest (k : kstate) ep := default ∅ (rk_interest k !! ep) |}; simpl.
  - intros ep op fd ev p k e k'. unfold rk_epoll_ctl. repeat case_match; naive_solver.
  - intros ep op fd ev p k k'. unfold rk_epoll_ctl.
    repeat case_match; intros [= <-]; simpl; rewrite lookup_insert_eq; simpl;
      (split; [done|]); intros; by rewrite lookup_insert_ne by done.
  - intros ep fd ev p k k'. unfold rk_epoll_ctl. case_match; naive_solver.
  - intros ep op fd ev p k k' Hop. unfold rk_epoll_ctl. repeat case_match; naive_solver.
  - intros ep n t k evs k'. unfold rk_epoll_wait. case_match; [done|].
    case_match; intros [= <- <-]; simpl; [split; [zlia|done]|].
    split; [rewrite length_take; zlia|].
    intros ev p Hin. apply list_elem_of_In, elem_of_take in Hin as (i & Hi & _).
    apply list_elem_of_lookup_2, list_elem_of_filter in Hi as [Hr _].
    unfold rk_registered in Hr; simpl in Hr.
    apply existsb_exists in Hr as ([fd [reg p']] & Hin & Hp).
    apply bool_decide_eq_true in Hp as <-. exists fd, reg.
    by apply elem_of_map_to_list, list_elem_of_In.
  - intros ep n t k ep'. unfold rk_epoll_wait. by repeat case_match.
  - intros _ k ep k' [= <- <-]; simpl. rewrite lookup_insert_eq. split; [done|].
    intros ep' Hne. by rewrite lookup_insert_ne.
Defined.

#[global] Instance RefKernel_reliable : EpollReliable (H := RefKernel).
Proof.
  split; simpl.
  - intros ep fd ev p k Hi. unfold rk_epoll_ctl. by rewrite Hi.
  - intros ep op fd ev p k Hop [x Hi]. unfold rk_epoll_ctl. rewrite Hi. by destruct op.
Qed.

#[global] Instance RefKernel_eventfd : EventFdLaws (H := RefKernel).
Proof.
  refine {| k_eventfd (k : kstate) fd := exists v, rk_files k !! fd = Some (REventFd v) |}; simpl.
  - intros fd d k [v E] Hd. unfold rk_write. rewrite E. by rewrite (proj2 (Z.ltb_lt _ _)).
  - intros fd n k [v E] Hn. unfold rk_read. rewrite E. rewrite (proj2 (Z.ltb_lt _ _)); [done|lia].
  - intros n _ k fd k' [= <- <-]; simpl. exists n. by rewrite lookup_insert_eq.
Defined.

#[global] Instance RefKernel_frame : EpollFrame (H := RefKernel).
Proof.
  split; cycle -1.
  { intros fd k ep _ Hfd. simpl in *. unfold rk_close. case_match; [|done]. simpl.
    rewrite lookup_fmap. destruct (rk_interest k !! ep) as [m|]; [|done].
    simpl in *. by apply delete_id. }
  all: intros; simpl;
    unfold rk_read, rk_recv, rk_write, rk_so_error, rk_shutdown, rk_if_sock, rk_connect;
    repeat case_match; done.
Qed.

(** A socket that holds more is not in order. *)
Definition rk_limit : Z := 1024.

Definition rk_stream (k : rkernel) (fd : Z) : option stream :=
  match rk_files k !! fd with
  | Some (RSock s) =>
      if Z.of_nat (length (rs_recv s)) <? rk_limit
      then Some (mkStream (rs_sent s) (rs_recv s) (rs_eof s)) else None
  | _ => None
  end.

#[global] Instance RefKernel_stream : StreamLaws (H := RefKernel).
Proof.
  refine {| k_stream := (rk_stream : @kstate RefKernel -> Z -> option stream) |}; simpl;
    unfold rk_stream.
  - intros fd d k st Hst. unfold rk_write.
    destruct (rk_files k !! fd) as [[s| | |]|] eqn:E; simplify_eq/=.
    destruct (Z.of_nat (length (rs_recv s)) <? rk_limit) eqn:Hlim; simplify_eq.
    destruct (rs_shutdown s); [by rewrite E, Hlim|].
    destruct (rs_cap s <=? 0); [by rewrite E, Hlim|]. simpl. by rewrite lookup_insert_eq; simpl; rewrite Hlim.
  - intros fd iov k st Hst Hpos Htot. unfold rk_recv.
    destruct (rk_files k !! fd) as [[s| | |]|] eqn:E; simplify_eq/=.
    destruct (Z.of_nat (length (rs_recv s)) <? rk_limit) eqn:Hlim; simplify_eq.
    destruct (rs_recv s) as [|x d] eqn:Hr.
    + destruct (rs_eof s) eqn:He; simpl; rewrite E, Hr, He; [|done]. by exists [].
    + cbv zeta. cbn [rk_files rk_set_files]. rewrite lookup_insert_eq. cbn [rs_recv rs_sent rs_eof].
      set (n := Z.to_nat (Z.min (iov_total iov) 2147479552)).
      exists (drop n (x :: d)). rewrite take_drop. split; [done|].
      rewrite (proj2 (Z.ltb_lt _ _)) by (apply Z.ltb_lt in Hlim; rewrite length_drop; lia).
      split; [done|]. destruct n eqn:En; [lia|done].
  - intros ep op fd ev p k fd'. unfold rk_epoll_ctl. cbv zeta.
    destruct op, (default ∅ (rk_interest k !! ep) !! fd); reflexivity.
  - intros fd k fd'. unfold rk_so_error. destruct (rk_files k !! fd) as [[]|]; reflexivity.
  - intros fd how k fd'. unfold rk_shutdown. destruct (rk_files k !! fd) as [[]|] eqn:E; simpl; try done.
    destruct (decide (fd = fd')) as [<-|]; [by rewrite lookup_insert_eq, E|by rewrite lookup_insert_ne].
  - intros fd k fd'. unfold rk_if_sock. by destruct (rk_files k !! fd) as [[]|].
  - intros fd k fd'. unfold rk_if_sock. by destruct (rk_files k !! fd) as [[]|].
  - intros fd lv o v k fd'. unfold rk_if_sock. by destruct (rk_files k !! fd) as [[]|].
Defined.

(** The lowest free descriptor is found among the first [size] numbers. *)
Lemma rk_lowest_below fuel n (files : gmap Z rfile) m :
  n <= m < rk_lowest fuel n files -> is_Some (files !! m).
Proof.
  revert n. induction fuel as [|fuel IH]; intros n Hm; simpl in Hm; [lia|].
  destruct (files !! n) as [f|] eqn:E; [|lia].
  destruct (decide (m = n)) as [->|]; [by rewrite E|]. apply (IH (n + 1)). lia.
Qed.

Lemma rk_lowest_ge fuel n (files : gmap Z rfile) : n <= rk_lowest fuel n files.
Proof.
  revert n. induction fuel as [|fuel IH]; intros n; simpl; [lia|].
  destruct (files !! n); [specialize (IH (n + 1)); lia|lia].
Qed.

Lemma rk_lowest_stuck fuel n (files : gmap Z rfile) :
  is_Some (files !! rk_lowest fuel n files) -> rk_lowest fuel n files = n + Z.of_nat fuel.
Proof.
  revert n. induction fuel as [|fuel IH]; intros n; simpl; [lia|].
  destruct (files !! n) as [f|] eqn:E; [intros H; rewrite IH by done; lia|].
  rewrite E. by intros [? ?].
Qed.

Lemma rk_next_fd_free k : rk_files k !! rk_next_fd k = None.
Proof.
  destruct (rk_files k !! rk_next_fd k) as [f|] eqn:E; [exfalso|done].
  pose proof (rk_lowest_stuck (size (rk_files k)) 0 (rk_files k) (ex_intro _ f E)) as Hn.
  assert (list_to_set (seqZ 0 (Z.of_nat (size (rk_files k)) + 1)) ⊆ dom (rk_files k)) as Hsub.
  { intros m Hm. rewrite elem_of_list_to_set, elem_of_seqZ in Hm. apply elem_of_dom.
    destruct (decide (m = rk_next_fd k)) as [->|Hne]; [by rewrite E|].
    apply (rk_lowest_below (size (rk_files k)) 0). unfold rk_next_fd in *. lia. }
  apply subseteq_size in Hsub. rewrite size_dom, size_list_to_set, length_seqZ in Hsub
    by apply NoDup_seqZ. lia.
Qed.

Lemma rk_open_lowest k : lowest_free (dom (rk_files k)) (rk_next_fd k).
Proof.
  split_and!.
  - apply rk_lowest_ge.
  - rewrite not_elem_of_dom. apply rk_next_fd_free.
  - intros m Hm. apply elem_of_dom. by eapply rk_lowest_below.
Qed.

#[global] Instance RefKernel_fd : FdLaws (H := RefKernel).
Proof.
  refine {| k_open := fun k : @kstate RefKernel => dom (rk_files k) |}; simpl.
  - intros fd k. unfold rk_close. destruct (rk_files k !! fd) eqn:E; simpl.
    + by rewrite dom_delete_L.
    + apply not_elem_of_dom in E. set_solver.
  - intros fd fl k. unfold rk_accept4. destruct (rk_files k !! fd) as [[s| | |]|] eqn:E; try done.
    destruct (negb (rs_error s =? 0)).
    { simpl. rewrite dom_insert_L. apply elem_of_dom_2 in E. set_solver. }
    destruct (rs_pending s) as [|a rest]; [done|]. cbv zeta. simpl.
    match goal with |- context [rk_next_fd ?k1] =>
      pose proof (rk_open_lowest k1) as Hl; assert (dom (rk_files k1) = dom (rk_files k)) as Hd end.
    { simpl. rewrite dom_insert_L. apply elem_of_dom_2 in E. set_solver. }
    rewrite Hd in Hl. split; [exact Hl|]. rewrite dom_insert_L. simpl in Hd. by rewrite Hd.
  - intros path fl k. split; [apply rk_open_lowest|]. by rewrite dom_insert_L.
  - intros fd lv o v k. unfold rk_if_sock. by destruct (rk_files k !! fd) as [[]|].
Defined.

Definition rk_backlog (k : rkernel) (fd : Z) : option (list sockaddr) :=
  match rk_files k !! fd with
  | Some (RSock s) =>
      if (rs_error s =? 0) && (Z.of_nat (length (rs_pending s)) <? rk_limit)
      then Some (rs_pending s) else None
  | _ => None
  end.

Lemma rk_accept_next fd fl k a rest :
  rk_backlog k fd = Some (a :: rest) ->
  exists n k', rk_accept4 fd fl k = (SOk (n, a), k') /\ 0 <= n /\ rk_backlog k' fd = Some rest.
Proof.
  unfold rk_backlog, rk_accept4. intros Hb. destruct (rk_files k !! fd) as [[s| | |]|] eqn:E; simplify_eq/=.
  destruct (rs_error s =? 0) eqn:He; [|done]. simpl in Hb. case_match eqn:Hlim; [|done].
  injection Hb as Hb. simpl. rewrite Hb in *. cbv zeta. simpl. eexists _, _. split; [reflexivity|].
  match goal with |- context [rk_next_fd ?k1] =>
    pose proof (rk_open_lowest k1) as Hl; pose proof (rk_next_fd_free k1) as Hf end.
  split; [apply Hl|]. simpl in *. rewrite lookup_insert_ne.
  - rewrite lookup_insert_eq; simpl. rewrite He, (proj2 (Z.ltb_lt _ _)) by zlia. done.
  - intros Heq. rewrite Heq, lookup_insert_eq in Hf. done.
Qed.

#[global] Instance RefKernel_backlog : BacklogLaws (H := RefKernel).
Proof.
  refine {| k_backlog := (rk_backlog : @kstate RefKernel -> Z -> option (list sockaddr));
    k_bound := (fun k fd => bool_decide (is_Some (rk_backlog k fd))) |};
    simpl; [| | |by intros fd n k Hb%bool_decide_eq_true; unfold rk_if_sock; destruct (rk_files k !! fd) as [[]|]].
  - intros fd fl k a rest n peer k' Hb E.
    destruct (rk_accept_next fd fl k a rest Hb) as (n' & k2 & E' & Hn & Hr). rewrite E in E'. by simplify_eq.
  - unfold rk_backlog, rk_accept4. intros fd fl k Hb. destruct (rk_files k !! fd) as [[s| | |]|] eqn:E; simplify_eq/=.
    destruct (rs_error s =? 0) eqn:He; [|done]. simpl in Hb. case_match eqn:Hlim; [|done].
    injection Hb as Hb. simpl. rewrite Hb in *. eexists. split; [reflexivity|]. by rewrite E, He, Hb.
  - intros fd lv o v k fd'. unfold rk_backlog, rk_if_sock. by destruct (rk_files k !! fd) as [[]|].
Defined.

#[global] Instance RefKernel_accepts : AcceptReliable (H := RefKernel).
Proof.
  split. intros fd fl k a rest Hb. destruct (rk_accept_next fd fl k a rest Hb) as (n & k' & E & _). by eexists _, _, _.
Qed.

(** Changing an open file. *)
Lemma rk_quiet_but k fd f f' :
  rk_files k !! fd = Some f ->
  undisturbed_but fd (k : @kstate RefKernel) (rk_set_files (<[fd := f']> (rk_files k)) k).
Proof.
  intros E. split; simpl.
  - rewrite dom_insert_L. apply elem_of_dom_2 in E. set_solver.
  - intros fd' Hne. unfold rk_stream, rk_backlog. simpl. by rewrite lookup_insert_ne.
Qed.

Lemma rk_recv_quiet fd n k : undisturbed_but fd (k : @kstate RefKernel) (rk_recv fd n k).2.
Proof.
  unfold rk_recv. destruct (rk_files k !! fd) as [[s| | |]|] eqn:E; try done.
  destruct (rs_recv s) eqn:Hr; [by destruct (rs_eof s)|]. by eapply rk_quiet_but.
Qed.

Lemma rk_accept_files fd fl k n p k' :
  rk_accept4 fd fl k = (SOk (n, p), k') ->
  n <> fd /\ rk_files k' !! n = Some (RSock new_sock) /\
  (forall fd', fd' <> n -> fd' <> fd -> rk_files k' !! fd' = rk_files k !! fd') /\
  (rk_stream k' fd = rk_stream k fd).
Proof.
  unfold rk_accept4. destruct (rk_files k !! fd) as [[s| | |]|] eqn:E; try done.
  destruct (negb (rs_error s =? 0)); [done|]. destruct (rs_pending s) as [|a rest]; [done|].
  cbv zeta. simpl. match goal with |- context [rk_next_fd ?k1] => pose proof (rk_next_fd_free k1) as Hf end.
  intros [= <- <- <-]. simpl in *. split_and!.
  - intros Heq. by rewrite Heq, lookup_insert_eq in Hf.
  - apply lookup_insert_eq.
  - intros fd' Hne Hne'. by rewrite !lookup_insert_ne.
  - unfold rk_stream. simpl. rewrite lookup_insert_ne, lookup_insert_eq, E; [done|].
    intros Heq. by rewrite Heq, lookup_insert_eq in Hf.
Qed.

#[global] Instance RefKernel_descriptors : DescriptorLaws (H := RefKernel).
Proof.
  split; simpl.
  - intros ep op fd ev p k. unfold rk_epoll_ctl. cbv zeta.
    by destruct op, (default ∅ (rk_interest k !! ep) !! fd).
  - intros fd k. unfold rk_so_error. by destruct (rk_files k !! fd) as [[]|].
  - intros fd _ _ _ k. unfold rk_if_sock. by destruct (rk_files k !! fd) as [[]|].
  - intros fd _ k. unfold rk_if_sock. by destruct (rk_files k !! fd) as [[]|].
  - intros fd n k. unfold rk_read. destruct (rk_files k !! fd) as [[| |v|]|] eqn:E; try exact (rk_recv_quiet _ _ _).
    destruct (n <? 8); [done|]. destruct (v =? 0); [done|]. by eapply rk_quiet_but.
  - intros fd iov k. apply rk_recv_quiet.
  - intros fd k fd' Hne. unfold rk_close. destruct (rk_files k !! fd); [|done].
    unfold rk_stream, rk_backlog. simpl. by rewrite lookup_delete_ne.
  - intros fd fl k fd'. destruct (rk_accept4 fd fl k) as [[[n p]|e] k'] eqn:E.
    + destruct (rk_accept_files _ _ _ _ _ _ E) as (Hn & Hf & Ho & Hs). split.
      * unfold rk_stream. rewrite Hf. by eexists.
      * intros Hne. destruct (decide (fd' = fd)) as [->|]; [done|]. unfold rk_stream. by rewrite Ho.
    + revert E. unfold rk_accept4. destruct (rk_files k !! fd) as [[s| | |]|] eqn:E; try (by intros [= _ <-]).
      destruct (negb (rs_error s =? 0)); [|by destruct (rs_pending s); intros [= _ <-]].
      intros [= _ <-]. unfold rk_stream. simpl.
      destruct (decide (fd' = fd)) as [->|]; [by rewrite lookup_insert_eq, E|by rewrite lookup_insert_ne].
  - intros fd fl k ep. unfold rk_accept4. destruct (rk_files k !! fd) as [[s| | |]|]; try done.
    destruct (negb (rs_error s =? 0)); [done|]. by destruct (rs_pending s).
  - intros ep n t k. unfold rk_epoll_wait. by repeat case_match.
  - intros ep n t k fd. unfold rk_epoll_wait. by repeat case_match.
  - intros ep n t k evs k'. unfold rk_epoll_wait. destruct (n <=? 0); [done|].
    destruct (rk_script k) as [|evs0 rest]; intros [= <- _] _; [constructor|].
    eapply (sublist_NoDup _ ((if rk_plausible evs0 then evs0 else []).*2)).
    { unfold rk_plausible. case_bool_decide as Hnd; [|constructor].
      destruct (forallb _ evs0); [done|constructor]. }
    apply fmap_sublist. etrans; [apply sublist_take|apply sublist_filter].
  - intros ep n t k evs k' ev p. unfold rk_epoll_wait. destruct (n <=? 0); [done|].
    destruct (rk_script k) as [|evs0 rest]; intros [= <- _] Hin _ H4; [done|].
    apply list_elem_of_In, elem_of_take in Hin as (i & Hi & _).
    apply list_elem_of_lookup_2, list_elem_of_filter in Hi as [_ Hin].
    destruct (rk_plausible evs0) eqn:Hp; [|by apply list_elem_of_In in Hin].
    apply andb_true_iff in Hp as [_ Hp]. rewrite forallb_forall in Hp.
    apply list_elem_of_In in Hin. specialize (Hp _ Hin). simpl in Hp. by rewrite H4 in Hp.
Qed.

#[global] Instance RefKernel_opens : OpenLaws (H := RefKernel).
Proof.
  split; simpl.
  - intros fl k. split; [apply rk_open_lowest|]. by rewrite dom_insert_L.
  - intros n fl k. split; [apply rk_open_lowest|]. by rewrite dom_insert_L.
  - intros d t p k. split; [apply rk_open_lowest|]. by rewrite dom_insert_L.
  - intros fd a n k. unfold rk_if_sock. by destruct (rk_files k !! fd) as [[]|].
  - done.
  - intros fd a n k ep. unfold rk_if_sock. by destruct (rk_files k !! fd) as [[]|].
Qed.

#[global] Instance RefKernel_dial : DialLaws (H := RefKernel).
Proof.
  split; simpl.
  - intros d t p k fd st. unfold rk_stream. simpl. intros Hst. rewrite lookup_insert_ne; [done|].
    intros <-. by rewrite (rk_next_fd_free k) in Hst.
  - intros fd a n k fd' _. unfold rk_connect. by destruct (rk_files k !! fd) as [[]|].
Qed.

#[global] Instance RefKernel_limits : KernelLimits (H := RefKernel).
Proof.
  refine {| k_limit := Z.to_nat rk_limit |}.
  - by vm_compute.
  - intros k fd st. simpl. unfold rk_stream. repeat case_match; intros; simplify_eq/=. zlia.
  - intros k fd q. simpl. unfold rk_backlog. repeat case_match; intros; simplify_eq/=. zlia.
Defined.
