(* ===== verification/State.v ===== *)
(** * State: the objects of the program, the world and its monad

    One record per class of the sources (its data members, under the source's
    names with a short prefix), the callbacks and queued tasks as data
    ([std::function] and [std::bind] values are defunctionalised: one
    constructor per bound method), and the world: the heap of live objects,
    the kernel, the running thread and its errno.

    A [std::unique_ptr] or raw pointer is a [ptr]; a pointer that may be
    [nullptr] is an [option ptr]; following a pointer whose object is not in
    the heap is undefined behaviour. *)

From stdpp Require Import base list gmap strings numbers.
From Stdlib Require Import ZArith Lia Init.Byte.
From S2P Require Import Prelude Buffer Kernel.

Open Scope np_scope.

(** ** Callbacks and tasks *)

(** A callback supplied by the user of the library, by its identity. *)
Abbreviation user_cb := nat (only parsing).

(** The [std::function<void()>] values installed on event channels. *)
Inductive channel_cb :=
| HandleWakeupEvent_cb (loop : ptr)
| AcceptHandle_cb (acceptor : ptr)
| CloseHandler_cb (conn : ptr)
| ErrorHandler_cb (conn : ptr)
| ReadHandler_cb (conn : ptr)
| WriteHandler_cb (conn : ptr)
| ConnectorWrite_cb (connector : ptr)
| ConnectorError_cb (connector : ptr)
| UserChannel_cb (cb : user_cb).

(** The [close_cb_] values installed on connections. *)
Inductive close_cb :=
| ServerRemoveConnection_cb (server : ptr)
| ClientRemoveConnection_cb (client : ptr)
| FreeRemoveConnection_cb (loop : ptr)
| UserClose_cb (cb : user_cb).

(** The [Functor] values queued in loops. *)
Inductive task :=
| SendInLoop_task (conn : ptr) (msg : list byte) (msg_size : Z)
| StartReadInLoop_task (conn : ptr)
| StopReadInLoop_task (conn : ptr)
| ShutdownInLoop_task (conn : ptr)
| ForceCloseInLoop_task (conn : ptr)
| ConnectEstablished_task (conn : ptr)
| ConnectDestoryed_task (conn : ptr)
| Written_task (cb : user_cb) (conn : ptr)
| HighWater_task (cb : user_cb) (conn : ptr) (high_water : Z)
| SetCloseCB_task (conn : ptr) (cb : close_cb)
| RemoveConnectionInLoop_task (server conn : ptr)
| Listen_task (acceptor : ptr)
| StartInLoop_task (connector : ptr)
| StopInLoop_task (connector : ptr)
| ResetChannelPtr_task (connector : ptr)
| User_task (cb : user_cb).

#[global] Instance channel_cb_eq_dec : EqDecision channel_cb.
Proof. solve_decision. Defined.
#[global] Instance close_cb_eq_dec : EqDecision close_cb.
Proof. solve_decision. Defined.
#[global] Instance task_eq_dec : EqDecision task.
Proof. solve_decision. Defined.

(** ** EventChannel *)

Inductive ChannelStatus := NEW_CHANNEL | ADDED_CHANNEL | DELETE_CHANNEL.

#[global] Instance ChannelStatus_eq_dec : EqDecision ChannelStatus.
Proof. solve_decision. Defined.

Record EventChannel := mkEventChannel {
  ch_fd_ : Z;
  ch_events_ : Z;
  ch_recieved_events : Z;
  ch_poller_status_ : ChannelStatus;
  ch_event_loop_ : ptr;
  ch_read_event_cb_ : option channel_cb;
  ch_write_event_cb_ : option channel_cb;
  ch_close_event_cb_ : option channel_cb;
  ch_error_event_cb_ : option channel_cb
}.

Definition ch_set_events_ v (c : EventChannel) : EventChannel :=
  mkEventChannel (ch_fd_ c) v (ch_recieved_events c) (ch_poller_status_ c)
    (ch_event_loop_ c) (ch_read_event_cb_ c) (ch_write_event_cb_ c) (ch_close_event_cb_ c)
    (ch_error_event_cb_ c).
Definition ch_set_recieved_events v (c : EventChannel) : EventChannel :=
  mkEventChannel (ch_fd_ c) (ch_events_ c) v (ch_poller_status_ c) (ch_event_loop_ c)
    (ch_read_event_cb_ c) (ch_write_event_cb_ c) (ch_close_event_cb_ c)
    (ch_error_event_cb_ c).
Definition ch_set_poller_status_ v (c : EventChannel) : EventChannel :=
  mkEventChannel (ch_fd_ c) (ch_events_ c) (ch_recieved_events c) v (ch_event_loop_ c)
    (ch_read_event_cb_ c) (ch_write_event_cb_ c) (ch_close_event_cb_ c)
    (ch_error_event_cb_ c).
Definition ch_set_read_event_cb_ v (c : EventChannel) : EventChannel :=
  mkEventChannel (ch_fd_ c) (ch_events_ c) (ch_recieved_events c) (ch_poller_status_ c)
    (ch_event_loop_ c) v (ch_write_event_cb_ c) (ch_close_event_cb_ c)
    (ch_error_event_cb_ c).
Definition ch_set_write_event_cb_ v (c : EventChannel) : EventChannel :=
  mkEventChannel (ch_fd_ c) (ch_events_ c) (ch_recieved_events c) (ch_poller_status_ c)
    (ch_event_loop_ c) (ch_read_event_cb_ c) v (ch_close_event_cb_ c) (ch_error_event_cb_ c).
Definition ch_set_close_event_cb_ v (c : EventChannel) : EventChannel :=
  mkEventChannel (ch_fd_ c) (ch_events_ c) (ch_recieved_events c) (ch_poller_status_ c)
    (ch_event_loop_ c) (ch_read_event_cb_ c) (ch_write_event_cb_ c) v (ch_error_event_cb_ c).
Definition ch_set_error_event_cb_ v (c : EventChannel) : EventChannel :=
  mkEventChannel (ch_fd_ c) (ch_events_ c) (ch_recieved_events c) (ch_poller_status_ c)
    (ch_event_loop_ c) (ch_read_event_cb_ c) (ch_write_event_cb_ c) (ch_close_event_cb_ c) v.

(** ** Poller (and its only implementation, EpollPoller) *)

Record EpollPoller := mkEpollPoller {
  po_thread_id_ : tid;
  po_evt_channel_list_ : gmap Z ptr;
  po_epoll_fd_ : Z;
  po_events_ready_size : Z
}.

Definition po_set_evt_channel_list_ v (p : EpollPoller) : EpollPoller :=
  mkEpollPoller (po_thread_id_ p) v (po_epoll_fd_ p) (po_events_ready_size p).
Definition po_set_events_ready_size v (p : EpollPoller) : EpollPoller :=
  mkEpollPoller (po_thread_id_ p) (po_evt_channel_list_ p) (po_epoll_fd_ p) v.

(** ** EventLoop *)

Record EventLoop := mkEventLoop {
  lo_thread_id_ : tid;
  lo_name_ : string;
  lo_quit_ : bool;
  lo_looping_ : bool;
  lo_poller_ : EpollPoller;
  lo_wakeup_fd_ : Z;
  lo_wakeup_channel_ : ptr;
  lo_evt_channel_list_ : list ptr;
  lo_evt_channel_active_ : option ptr;
  lo_queue_task_funcs_ : list task
}.

Definition lo_set_quit_ v (l : EventLoop) : EventLoop :=
  mkEventLoop (lo_thread_id_ l) (lo_name_ l) v (lo_looping_ l) (lo_poller_ l)
    (lo_wakeup_fd_ l) (lo_wakeup_channel_ l) (lo_evt_channel_list_ l)
    (lo_evt_channel_active_ l) (lo_queue_task_funcs_ l).
Definition lo_set_looping_ v (l : EventLoop) : EventLoop :=
  mkEventLoop (lo_thread_id_ l) (lo_name_ l) (lo_quit_ l) v (lo_poller_ l) (lo_wakeup_fd_ l)
    (lo_wakeup_channel_ l) (lo_evt_channel_list_ l) (lo_evt_channel_active_ l)
    (lo_queue_task_funcs_ l).
Definition lo_set_poller_ v (l : EventLoop) : EventLoop :=
  mkEventLoop (lo_thread_id_ l) (lo_name_ l) (lo_quit_ l) (lo_looping_ l) v
    (lo_wakeup_fd_ l) (lo_wakeup_channel_ l) (lo_evt_channel_list_ l)
    (lo_evt_channel_active_ l) (lo_queue_task_funcs_ l).
Definition lo_set_wakeup_fd_ v (l : EventLoop) : EventLoop :=
  mkEventLoop (lo_thread_id_ l) (lo_name_ l) (lo_quit_ l) (lo_looping_ l) (lo_poller_ l) v
    (lo_wakeup_channel_ l) (lo_evt_channel_list_ l) (lo_evt_channel_active_ l)
    (lo_queue_task_funcs_ l).
Definition lo_set_evt_channel_list_ v (l : EventLoop) : EventLoop :=
  mkEventLoop (lo_thread_id_ l) (lo_name_ l) (lo_quit_ l) (lo_looping_ l) (lo_poller_ l)
    (lo_wakeup_fd_ l) (lo_wakeup_channel_ l) v (lo_evt_channel_active_ l)
    (lo_queue_task_funcs_ l).
Definition lo_set_evt_channel_active_ v (l : EventLoop) : EventLoop :=
  mkEventLoop (lo_thread_id_ l) (lo_name_ l) (lo_quit_ l) (lo_looping_ l) (lo_poller_ l)
    (lo_wakeup_fd_ l) (lo_wakeup_channel_ l) (lo_evt_channel_list_ l) v
    (lo_queue_task_funcs_ l).
Definition lo_set_queue_task_funcs_ v (l : EventLoop) : EventLoop :=
  mkEventLoop (lo_thread_id_ l) (lo_name_ l) (lo_quit_ l) (lo_looping_ l) (lo_poller_ l)
    (lo_wakeup_fd_ l) (lo_wakeup_channel_ l) (lo_evt_channel_list_ l)
    (lo_evt_channel_active_ l) v.

(** ** TcpConnection *)

Inductive ConnState := CONNECTING | CONNECTED | DISCONNECTING | DISCONNECTED.

#[global] Instance ConnState_eq_dec : EqDecision ConnState.
Proof. solve_decision. Defined.

Record TcpConnection := mkTcpConnection {
  co_name_ : string;
  co_state_ : ConnState;
  co_loop_ : ptr;
  co_socket_fd_ : Z;
  co_channel_ : ptr;
  co_fd_ : Z;
  co_read_buffer_ : Buffer;
  co_write_buffer_ : Buffer;
  co_high_water_ : Z;
  co_msg_cb_ : option user_cb;
  co_close_cb_ : option close_cb;
  co_written_cb_ : option user_cb;
  co_high_water_cb_ : option user_cb;
  co_conn_status_cb_ : option user_cb
}.

Definition co_set_state_ v (c : TcpConnection) : TcpConnection :=
  mkTcpConnection (co_name_ c) v (co_loop_ c) (co_socket_fd_ c) (co_channel_ c) (co_fd_ c)
    (co_read_buffer_ c) (co_write_buffer_ c) (co_high_water_ c) (co_msg_cb_ c)
    (co_close_cb_ c) (co_written_cb_ c) (co_high_water_cb_ c) (co_conn_status_cb_ c).
Definition co_set_read_buffer_ v (c : TcpConnection) : TcpConnection :=
  mkTcpConnection (co_name_ c) (co_state_ c) (co_loop_ c) (co_socket_fd_ c) (co_channel_ c)
    (co_fd_ c) v (co_write_buffer_ c) (co_high_water_ c) (co_msg_cb_ c) (co_close_cb_ c)
    (co_written_cb_ c) (co_high_water_cb_ c) (co_conn_status_cb_ c).
Definition co_set_write_buffer_ v (c : TcpConnection) : TcpConnection :=
  mkTcpConnection (co_name_ c) (co_state_ c) (co_loop_ c) (co_socket_fd_ c) (co_channel_ c)
    (co_fd_ c) (co_read_buffer_ c) v (co_high_water_ c) (co_msg_cb_ c) (co_close_cb_ c)
    (co_written_cb_ c) (co_high_water_cb_ c) (co_conn_status_cb_ c).
Definition co_set_msg_cb_ v (c : TcpConnection) : TcpConnection :=
  mkTcpConnection (co_name_ c) (co_state_ c) (co_loop_ c) (co_socket_fd_ c) (co_channel_ c)
    (co_fd_ c) (co_read_buffer_ c) (co_write_buffer_ c) (co_high_water_ c) v
    (co_close_cb_ c) (co_written_cb_ c) (co_high_water_cb_ c) (co_conn_status_cb_ c).
Definition co_set_close_cb_ v (c : TcpConnection) : TcpConnection :=
  mkTcpConnection (co_name_ c) (co_state_ c) (co_loop_ c) (co_socket_fd_ c) (co_channel_ c)
    (co_fd_ c) (co_read_buffer_ c) (co_write_buffer_ c) (co_high_water_ c) (co_msg_cb_ c) v
    (co_written_cb_ c) (co_high_water_cb_ c) (co_conn_status_cb_ c).
Definition co_set_written_cb_ v (c : TcpConnection) : TcpConnection :=
  mkTcpConnection (co_name_ c) (co_state_ c) (co_loop_ c) (co_socket_fd_ c) (co_channel_ c)
    (co_fd_ c) (co_read_buffer_ c) (co_write_buffer_ c) (co_high_water_ c) (co_msg_cb_ c)
    (co_close_cb_ c) v (co_high_water_cb_ c) (co_conn_status_cb_ c).
Definition co_set_high_water v hw' (c : TcpConnection) : TcpConnection :=
  mkTcpConnection (co_name_ c) (co_state_ c) (co_loop_ c) (co_socket_fd_ c) (co_channel_ c)
    (co_fd_ c) (co_read_buffer_ c) (co_write_buffer_ c) hw' (co_msg_cb_ c) (co_close_cb_ c)
    (co_written_cb_ c) v (co_conn_status_cb_ c).
Definition co_set_conn_status_cb_ v (c : TcpConnection) : TcpConnection :=
  mkTcpConnection (co_name_ c) (co_state_ c) (co_loop_ c) (co_socket_fd_ c) (co_channel_ c)
    (co_fd_ c) (co_read_buffer_ c) (co_write_buffer_ c) (co_high_water_ c) (co_msg_cb_ c)
    (co_close_cb_ c) (co_written_cb_ c) (co_high_water_cb_ c) v.

(** ** TcpAcceptor, TcpServer, TcpConnector, TcpClient *)

(** [new_conn_cb_] is only ever bound to [TcpServer::NewConnected]. *)
Record TcpAcceptor := mkTcpAcceptor {
  ac_loop_ : ptr;
  ac_socket_addr_ : sockaddr;
  ac_socket_fd_ : Z;
  ac_channel_ : ptr;
  ac_idle_fd_ : Z;
  ac_new_conn_cb_ : option ptr
}.

Definition ac_set_new_conn_cb_ v (a : TcpAcceptor) : TcpAcceptor :=
  mkTcpAcceptor (ac_loop_ a) (ac_socket_addr_ a) (ac_socket_fd_ a) (ac_channel_ a)
    (ac_idle_fd_ a) v.

(** An [EventLoopThread] is its thread, the object it hands over its loop, which
    may be null. *)
Record EventLoopThreadPool := mkEventLoopThreadPool {
  tp_pool_name_ : string;
  tp_thread_num_ : Z;
  tp_main_loop_ : ptr;
  tp_owner_thread_id_ : tid;
  tp_next_index_ : Z;
  tp_thread_list_ : list tid;
  tp_loop_list_ : list (option ptr)
}.

Definition tp_set_next_index_ v (p : EventLoopThreadPool) : EventLoopThreadPool :=
  mkEventLoopThreadPool (tp_pool_name_ p) (tp_thread_num_ p) (tp_main_loop_ p)
    (tp_owner_thread_id_ p) v (tp_thread_list_ p) (tp_loop_list_ p).
Definition tp_push (t : tid) (loop : option ptr) (p : EventLoopThreadPool) : EventLoopThreadPool :=
  mkEventLoopThreadPool (tp_pool_name_ p) (tp_thread_num_ p) (tp_main_loop_ p)
    (tp_owner_thread_id_ p) (tp_next_index_ p) (tp_thread_list_ p ++ [t])
    (tp_loop_list_ p ++ [loop]).

Record TcpServer := mkTcpServer {
  sv_thread_num_ : Z;
  sv_started_ : bool;
  sv_server_loop_ : ptr;
  sv_thread_pool_ : option EventLoopThreadPool;
  sv_acceptor_ : ptr;
  sv_connections_ : gmap Z ptr;
  sv_msg_cb_ : option user_cb;
  sv_wrote_cb_ : option user_cb;
  sv_connection_cb_ : option user_cb;
  sv_close_conn_cb_ : option close_cb;
  sv_high_water_cb_ : option user_cb;
  sv_conn_status_cb_ : option user_cb
}.

Definition sv_set_thread_num_ v (s : TcpServer) : TcpServer :=
  mkTcpServer v (sv_started_ s) (sv_server_loop_ s) (sv_thread_pool_ s) (sv_acceptor_ s)
    (sv_connections_ s) (sv_msg_cb_ s) (sv_wrote_cb_ s) (sv_connection_cb_ s)
    (sv_close_conn_cb_ s) (sv_high_water_cb_ s) (sv_conn_status_cb_ s).
Definition sv_set_started_ v (s : TcpServer) : TcpServer :=
  mkTcpServer (sv_thread_num_ s) v (sv_server_loop_ s) (sv_thread_pool_ s) (sv_acceptor_ s)
    (sv_connections_ s) (sv_msg_cb_ s) (sv_wrote_cb_ s) (sv_connection_cb_ s)
    (sv_close_conn_cb_ s) (sv_high_water_cb_ s) (sv_conn_status_cb_ s).
Definition sv_set_thread_pool_ v (s : TcpServer) : TcpServer :=
  mkTcpServer (sv_thread_num_ s) (sv_started_ s) (sv_server_loop_ s) v (sv_acceptor_ s)
    (sv_connections_ s) (sv_msg_cb_ s) (sv_wrote_cb_ s) (sv_connection_cb_ s)
    (sv_close_conn_cb_ s) (sv_high_water_cb_ s) (sv_conn_status_cb_ s).
Definition sv_set_connections_ v (s : TcpServer) : TcpServer :=
  mkTcpServer (sv_thread_num_ s) (sv_started_ s) (sv_server_loop_ s) (sv_thread_pool_ s)
    (sv_acceptor_ s) v (sv_msg_cb_ s) (sv_wrote_cb_ s) (sv_connection_cb_ s)
    (sv_close_conn_cb_ s) (sv_high_water_cb_ s) (sv_conn_status_cb_ s).
Definition sv_set_msg_cb_ v (s : TcpServer) : TcpServer :=
  mkTcpServer (sv_thread_num_ s) (sv_started_ s) (sv_server_loop_ s) (sv_thread_pool_ s)
    (sv_acceptor_ s) (sv_connections_ s) v (sv_wrote_cb_ s) (sv_connection_cb_ s)
    (sv_close_conn_cb_ s) (sv_high_water_cb_ s) (sv_conn_status_cb_ s).
Definition sv_set_wrote_cb_ v (s : TcpServer) : TcpServer :=
  mkTcpServer (sv_thread_num_ s) (sv_started_ s) (sv_server_loop_ s) (sv_thread_pool_ s)
    (sv_acceptor_ s) (sv_connections_ s) (sv_msg_cb_ s) v (sv_connection_cb_ s)
    (sv_close_conn_cb_ s) (sv_high_water_cb_ s) (sv_conn_status_cb_ s).
Definition sv_set_connection_cb_ v (s : TcpServer) : TcpServer :=
  mkTcpServer (sv_thread_num_ s) (sv_started_ s) (sv_server_loop_ s) (sv_thread_pool_ s)
    (sv_acceptor_ s) (sv_connections_ s) (sv_msg_cb_ s) (sv_wrote_cb_ s) v
    (sv_close_conn_cb_ s) (sv_high_water_cb_ s) (sv_conn_status_cb_ s).
Definition sv_set_close_conn_cb_ v (s : TcpServer) : TcpServer :=
  mkTcpServer (sv_thread_num_ s) (sv_started_ s) (sv_server_loop_ s) (sv_thread_pool_ s)
    (sv_acceptor_ s) (sv_connections_ s) (sv_msg_cb_ s) (sv_wrote_cb_ s)
    (sv_connection_cb_ s) v (sv_high_water_cb_ s) (sv_conn_status_cb_ s).
Definition sv_set_conn_status_cb_ v (s : TcpServer) : TcpServer :=
  mkTcpServer (sv_thread_num_ s) (sv_started_ s) (sv_server_loop_ s) (sv_thread_pool_ s)
    (sv_acceptor_ s) (sv_connections_ s) (sv_msg_cb_ s) (sv_wrote_cb_ s)
    (sv_connection_cb_ s) (sv_close_conn_cb_ s) (sv_high_water_cb_ s) v.

Inductive ConnectorState := kDisconnected | kConnecting | kConnected.

#[global] Instance ConnectorState_eq_dec : EqDecision ConnectorState.
Proof. solve_decision. Defined.

(** [new_connection_cb_] is only ever bound to [TcpClient::NewConnection]. *)
Record TcpConnector := mkTcpConnector {
  ct_loop_ : ptr;
  ct_addr_ : sockaddr;
  ct_state_ : ConnectorState;
  ct_channel_ : option ptr;
  ct_new_connection_cb_ : option ptr
}.

Definition ct_set_state_ v (c : TcpConnector) : TcpConnector :=
  mkTcpConnector (ct_loop_ c) (ct_addr_ c) v (ct_channel_ c) (ct_new_connection_cb_ c).
Definition ct_set_channel_ v (c : TcpConnector) : TcpConnector :=
  mkTcpConnector (ct_loop_ c) (ct_addr_ c) (ct_state_ c) v (ct_new_connection_cb_ c).
Definition ct_set_new_connection_cb_ v (c : TcpConnector) : TcpConnector :=
  mkTcpConnector (ct_loop_ c) (ct_addr_ c) (ct_state_ c) (ct_channel_ c) v.

Record TcpClient := mkTcpClient {
  cl_loop_ : ptr;
  cl_addr_ : sockaddr;
  cl_connector_ : ptr;
  cl_connection_ : option ptr;
  cl_msg_cb_ : option user_cb;
  cl_wrote_cb_ : option user_cb;
  cl_conn_status_cb_ : option user_cb
}.

Definition cl_set_connection_ v (c : TcpClient) : TcpClient :=
  mkTcpClient (cl_loop_ c) (cl_addr_ c) (cl_connector_ c) v (cl_msg_cb_ c) (cl_wrote_cb_ c)
    (cl_conn_status_cb_ c).
Definition cl_set_msg_cb_ v (c : TcpClient) : TcpClient :=
  mkTcpClient (cl_loop_ c) (cl_addr_ c) (cl_connector_ c) (cl_connection_ c) v
    (cl_wrote_cb_ c) (cl_conn_status_cb_ c).
Definition cl_set_wrote_cb_ v (c : TcpClient) : TcpClient :=
  mkTcpClient (cl_loop_ c) (cl_addr_ c) (cl_connector_ c) (cl_connection_ c) (cl_msg_cb_ c)
    v (cl_conn_status_cb_ c).
Definition cl_set_conn_status_cb_ v (c : TcpClient) : TcpClient :=
  mkTcpClient (cl_loop_ c) (cl_addr_ c) (cl_connector_ c) (cl_connection_ c) (cl_msg_cb_ c)
    (cl_wrote_cb_ c) v.
