(* ===== verification/World.v ===== *)
(** * World: the heap, the kernel, the running thread

    The state every operation of the program runs in, the monad [M] over it,
    access to heap objects through the class [Heap], system calls with
    errno, and the calls into user code.

    A thread runs between two points where it may be interrupted; the current
    thread is a component of the state ([w_tid], what
    [std::this_thread::get_id()] returns).  Interleavings of threads are
    sequences of runs with different [w_tid]. *)

From stdpp Require Import base list gmap strings numbers.
From Stdlib Require Import ZArith Lia Init.Byte.
From S2P Require Import Prelude Buffer Kernel State.

Open Scope np_scope.

(** A call into user code. *)
Inductive user_event :=
| Message_ev (cb : user_cb) (conn : ptr)
| ConnStatus_ev (cb : user_cb) (conn : ptr) (state : ConnState)
| Written_ev (cb : user_cb) (conn : ptr)
| HighWater_ev (cb : user_cb) (conn : ptr) (high_water : Z)
| Close_ev (cb : user_cb) (conn : ptr)
| Channel_ev (cb : user_cb)
| Task_ev (cb : user_cb).

#[global] Instance user_event_eq_dec : EqDecision user_event.
Proof. solve_decision. Defined.

(** [w_trace] is a ghost component: the calls into user code, latest first. *)
Record World `{Kernel} := mkWorld {
  w_kern : kstate;
  w_tid : tid;
  w_errno : gmap tid Z;
  w_evt_loop_this_thread : gmap tid ptr;
  w_channels : gmap ptr EventChannel;
  w_loops : gmap ptr EventLoop;
  w_conns : gmap ptr TcpConnection;
  w_acceptors : gmap ptr TcpAcceptor;
  w_servers : gmap ptr TcpServer;
  w_connectors : gmap ptr TcpConnector;
  w_clients : gmap ptr TcpClient;
  w_next : ptr;
  w_trace : list user_event
}.

Abbreviation M := (St World).

Section setters.
Context `{Kernel}.
Implicit Type w : World.
Definition set_w_kern v w : World :=
  mkWorld _ v (w_tid w) (w_errno w) (w_evt_loop_this_thread w) (w_channels w) (w_loops w)
    (w_conns w) (w_acceptors w) (w_servers w) (w_connectors w) (w_clients w) (w_next w)
    (w_trace w).
Definition set_w_tid v w : World :=
  mkWorld _ (w_kern w) v (w_errno w) (w_evt_loop_this_thread w) (w_channels w) (w_loops w)
    (w_conns w) (w_acceptors w) (w_servers w) (w_connectors w) (w_clients w) (w_next w)
    (w_trace w).
Definition set_w_errno v w : World :=
  mkWorld _ (w_kern w) (w_tid w) v (w_evt_loop_this_thread w) (w_channels w) (w_loops w)
    (w_conns w) (w_acceptors w) (w_servers w) (w_connectors w) (w_clients w) (w_next w)
    (w_trace w).
Definition set_w_evt_loop_this_thread v w : World :=
  mkWorld _ (w_kern w) (w_tid w) (w_errno w) v (w_channels w) (w_loops w) (w_conns w)
    (w_acceptors w) (w_servers w) (w_connectors w) (w_clients w) (w_next w) (w_trace w).
Definition set_w_channels v w : World :=
  mkWorld _ (w_kern w) (w_tid w) (w_errno w) (w_evt_loop_this_thread w) v (w_loops w)
    (w_conns w) (w_acceptors w) (w_servers w) (w_connectors w) (w_clients w) (w_next w)
    (w_trace w).
Definition set_w_loops v w : World :=
  mkWorld _ (w_kern w) (w_tid w) (w_errno w) (w_evt_loop_this_thread w) (w_channels w) v
    (w_conns w) (w_acceptors w) (w_servers w) (w_connectors w) (w_clients w) (w_next w)
    (w_trace w).
Definition set_w_conns v w : World :=
  mkWorld _ (w_kern w) (w_tid w) (w_errno w) (w_evt_loop_this_thread w) (w_channels w)
    (w_loops w) v (w_acceptors w) (w_servers w) (w_connectors w) (w_clients w) (w_next w)
    (w_trace w).
Definition set_w_acceptors v w : World :=
  mkWorld _ (w_kern w) (w_tid w) (w_errno w) (w_evt_loop_this_thread w) (w_channels w)
    (w_loops w) (w_conns w) v (w_servers w) (w_connectors w) (w_clients w) (w_next w)
    (w_trace w).
Definition set_w_servers v w : World :=
  mkWorld _ (w_kern w) (w_tid w) (w_errno w) (w_evt_loop_this_thread w) (w_channels w)
    (w_loops w) (w_conns w) (w_acceptors w) v (w_connectors w) (w_clients w) (w_next w)
    (w_trace w).
Definition set_w_connectors v w : World :=
  mkWorld _ (w_kern w) (w_tid w) (w_errno w) (w_evt_loop_this_thread w) (w_channels w)
    (w_loops w) (w_conns w) (w_acceptors w) (w_servers w) v (w_clients w) (w_next w)
    (w_trace w).
Definition set_w_clients v w : World :=
  mkWorld _ (w_kern w) (w_tid w) (w_errno w) (w_evt_loop_this_thread w) (w_channels w)
    (w_loops w) (w_conns w) (w_acceptors w) (w_servers w) (w_connectors w) v (w_next w)
    (w_trace w).
Definition set_w_next v w : World :=
  mkWorld _ (w_kern w) (w_tid w) (w_errno w) (w_evt_loop_this_thread w) (w_channels w)
    (w_loops w) (w_conns w) (w_acceptors w) (w_servers w) (w_connectors w) (w_clients w) v
    (w_trace w).
Definition set_w_trace v w : World :=
  mkWorld _ (w_kern w) (w_tid w) (w_errno w) (w_evt_loop_this_thread w) (w_channels w)
    (w_loops w) (w_conns w) (w_acceptors w) (w_servers w) (w_connectors w) (w_clients w)
    (w_next w) v.
End setters.

(** ** Heap objects *)

Class Heap `{Kernel} (T : Type) := {
  heap : World -> gmap ptr T;
  heap_put : gmap ptr T -> World -> World
}.
#[global] Hint Mode Heap - ! : typeclass_instances.

Section heap_instances.
Context `{Kernel}.
#[global] Instance heap_channels : Heap EventChannel := {| heap := w_channels; heap_put := set_w_channels |}.
#[global] Instance heap_loops : Heap EventLoop := {| heap := w_loops; heap_put := set_w_loops |}.
#[global] Instance heap_conns : Heap TcpConnection := {| heap := w_conns; heap_put := set_w_conns |}.
#[global] Instance heap_acceptors : Heap TcpAcceptor := {| heap := w_acceptors; heap_put := set_w_acceptors |}.
#[global] Instance heap_servers : Heap TcpServer := {| heap := w_servers; heap_put := set_w_servers |}.
#[global] Instance heap_connectors : Heap TcpConnector := {| heap := w_connectors; heap_put := set_w_connectors |}.
#[global] Instance heap_clients : Heap TcpClient := {| heap := w_clients; heap_put := set_w_clients |}.
End heap_instances.

Section heap_ops.
Context `{Kernel} {T : Type} `{!Heap T}.

Definition load (p : ptr) : M T :=
  let! o := gets (fun w => heap w !! p) in deref o.
Definition store (p : ptr) (v : T) : M unit :=
  modify (fun w => heap_put (<[p := v]> (heap w)) w).
Definition update (p : ptr) (f : T -> T) : M unit :=
  let! v := load p in store p (f v).
(** [new T(...)]: a fresh address. *)
Definition alloc (v : T) : M ptr :=
  let! p := gets w_next in
  do! modify (fun w => set_w_next (Pos.succ p) w);
  do! store p v;
  ret p.
(** [delete p] *)
Definition free (p : ptr) : M unit :=
  modify (fun w => heap_put (T := T) (delete p (heap w)) w).

Lemma wp_load p Q w :
  wp (load p) Q w <-> exists v, heap w !! p = Some v /\ Q v w.
Proof. unfold load. rewrite wp_bind, wp_gets. apply wp_deref. Qed.

Lemma wp_store p v Q w :
  wp (store p v) Q w <-> Q tt (heap_put (<[p := v]> (heap w)) w).
Proof. exact (wp_modify _ _ _). Qed.

Lemma wp_update p f Q w :
  wp (update p f) Q w <->
  exists v, heap w !! p = Some v /\ Q tt (heap_put (<[p := f v]> (heap w)) w).
Proof. unfold update. rewrite wp_bind, wp_load. done. Qed.

Lemma wp_free p Q w :
  wp (free p) Q w <-> Q tt (heap_put (T := T) (delete p (heap w)) w).
Proof. exact (wp_modify _ _ _). Qed.

(** Runs, for symbolic execution with the object in hand. *)
Lemma run_load p v w : heap w !! p = Some v -> load p w = Ok (v, w).
Proof. unfold load, bind, gets. by intros ->. Qed.

Lemma run_update p f v w :
  heap w !! p = Some v -> update p f w = Ok (tt, heap_put (<[p := f v]> (heap w)) w).
Proof. intros E. unfold update, bind. by rewrite (run_load _ _ _ E). Qed.
End heap_ops.

#[export] Hint Rewrite @wp_load @wp_store @wp_update @wp_free : wp.

(** ** System calls, errno, the running thread *)

Section system.
Context `{Kernel}.

Definition this_thread : M tid := gets w_tid.

(** errno of the running thread; [0] when no call has failed yet. *)
Definition get_errno : M Z := gets (fun w => default 0 (w_errno w !! w_tid w)).
Definition set_errno (e : Z) : M unit :=
  modify (fun w => set_w_errno (<[w_tid w := e]> (w_errno w)) w).

(** A failing call sets errno; a successful one leaves it alone. *)
Definition syscall {A} (f : kstate -> sysres A * kstate) : M (sysres A) :=
  let! rk := gets (fun w => f (w_kern w)) in
  do! modify (set_w_kern rk.2);
  match rk.1 with
  | SErr e => do! set_errno e; ret rk.1
  | SOk _ => ret rk.1
  end.

(** The [int] result of a call: -1 on failure. *)
Definition syscall_int (f : kstate -> sysres Z * kstate) : M Z :=
  let! r := syscall f in ret (match r with SOk n => n | SErr _ => -1 end).
Definition syscall_unit (f : kstate -> sysres unit * kstate) : M Z :=
  let! r := syscall f in ret (match r with SOk _ => 0 | SErr _ => -1 end).

Definition after_syscall {A} (r : sysres A) (k : kstate) (w : World) : World :=
  match r with
  | SErr e => set_w_errno (<[w_tid w := e]> (w_errno w)) (set_w_kern k w)
  | SOk _ => set_w_kern k w
  end.

Lemma run_syscall {A} (f : kstate -> sysres A * kstate) w :
  syscall f w = Ok ((f (w_kern w)).1, after_syscall (f (w_kern w)).1 (f (w_kern w)).2 w).
Proof. unfold syscall, bind, gets; simpl. by destruct (f (w_kern w)) as [[]]. Qed.

Lemma wp_syscall {A} (f : kstate -> sysres A * kstate) Q w :
  wp (syscall f) Q w <->
  Q (f (w_kern w)).1 (after_syscall (f (w_kern w)).1 (f (w_kern w)).2 w).
Proof. unfold wp. rewrite run_syscall. done. Qed.

(** Only the kernel and errno change. *)
Lemma set_channels_after_syscall {A} v (r : sysres A) k w :
  set_w_channels v (after_syscall r k w) = after_syscall r k (set_w_channels v w).
Proof. by destruct r. Qed.
Lemma set_loops_after_syscall {A} v (r : sysres A) k w :
  set_w_loops v (after_syscall r k w) = after_syscall r k (set_w_loops v w).
Proof. by destruct r. Qed.
Lemma set_conns_after_syscall {A} v (r : sysres A) k w :
  set_w_conns v (after_syscall r k w) = after_syscall r k (set_w_conns v w).
Proof. by destruct r. Qed.
Lemma after_syscall_tid {A} (r : sysres A) k w : w_tid (after_syscall r k w) = w_tid w.
Proof. by destruct r. Qed.
Lemma after_syscall_evt_loop_this_thread {A} (r : sysres A) k w : w_evt_loop_this_thread (after_syscall r k w) = w_evt_loop_this_thread w.
Proof. by destruct r. Qed.
Lemma after_syscall_channels {A} (r : sysres A) k w : w_channels (after_syscall r k w) = w_channels w.
Proof. by destruct r. Qed.
Lemma after_syscall_loops {A} (r : sysres A) k w : w_loops (after_syscall r k w) = w_loops w.
Proof. by destruct r. Qed.
Lemma after_syscall_conns {A} (r : sysres A) k w : w_conns (after_syscall r k w) = w_conns w.
Proof. by destruct r. Qed.
Lemma after_syscall_acceptors {A} (r : sysres A) k w : w_acceptors (after_syscall r k w) = w_acceptors w.
Proof. by destruct r. Qed.
Lemma after_syscall_servers {A} (r : sysres A) k w : w_servers (after_syscall r k w) = w_servers w.
Proof. by destruct r. Qed.
Lemma after_syscall_connectors {A} (r : sysres A) k w : w_connectors (after_syscall r k w) = w_connectors w.
Proof. by destruct r. Qed.
Lemma after_syscall_clients {A} (r : sysres A) k w : w_clients (after_syscall r k w) = w_clients w.
Proof. by destruct r. Qed.
Lemma after_syscall_next {A} (r : sysres A) k w : w_next (after_syscall r k w) = w_next w.
Proof. by destruct r. Qed.
Lemma after_syscall_trace {A} (r : sysres A) k w : w_trace (after_syscall r k w) = w_trace w.
Proof. by destruct r. Qed.
(** [w'] differs from [w] in the kernel and errno only. *)
Definition only_kernel w w' : Prop := w' = set_w_kern (w_kern w') (set_w_errno (w_errno w') w).
#[global] Instance only_kernel_preorder : PreOrder only_kernel.
Proof.
  split; [by intros []|]. unfold only_kernel. intros w1 w2 w3 E1 E2. rewrite E2 at 1. by rewrite E1.
Qed.
Lemma only_kernel_syscall {A} (r : sysres A) k w : only_kernel w (after_syscall r k w).
Proof. by destruct r, w. Qed.
Lemma after_syscall_kern {A} (r : sysres A) k w : w_kern (after_syscall r k w) = k.
Proof. by destruct r. Qed.
End system.

#[export] Hint Rewrite @wp_syscall : wp.

Create Rewrite HintDb world.
#[export] Hint Rewrite @set_channels_after_syscall @set_loops_after_syscall
  @set_conns_after_syscall @after_syscall_tid @after_syscall_evt_loop_this_thread @after_syscall_channels @after_syscall_loops @after_syscall_conns @after_syscall_acceptors @after_syscall_servers @after_syscall_connectors @after_syscall_clients @after_syscall_next @after_syscall_trace @after_syscall_kern : world.

(** Stepping over the loads, updates and assertions at the head of a run; the
    lookups are looked for in the context. *)
Ltac solve_lookup :=
  cbn; autorewrite with world; cbn; rewrite ?lookup_insert_eq;
  first [eassumption | reflexivity | simplify_map_eq; reflexivity].
Ltac run1 :=
  match goal with
  | |- context [bind (load _) _ _] => erewrite run_bind; [|apply run_load; solve_lookup]
  | |- context [bind (update _ _) _ _] => erewrite run_bind; [|apply run_update; solve_lookup]
  | |- context [bind (assert_ _) _ _] =>
      rewrite run_bind_assert; [|first [reflexivity | by apply bool_decide_eq_true_2]]
  | |- context [bind (syscall _) _ _] => erewrite run_bind; [|apply run_syscall]
  | |- context [bind (ret _) _ _] => erewrite run_bind; [|reflexivity]
  | |- context [bind (bind _ _) _ _] => rewrite run_bind_assoc
  end.

(** One step of a straight-line program. *)
Ltac wp_step :=
  lazymatch goal with
  | |- wp (bind _ _) _ _ => apply wp_bind
  | |- wp (gets _) _ _ => apply wp_gets
  | |- wp (modify _) _ _ => apply wp_modify
  | |- wp (store _ _) _ _ => apply wp_store
  | |- wp (syscall _) _ _ => apply wp_syscall
  | |- wp (ret _) _ _ => apply wp_ret
  end; cbn beta.

(** ** User code

    The callbacks a user of the library installs are code outside the
    repository: [user_run] is what they do.  [call_user] records the call and
    runs it. *)
Class UserCode `{Kernel} := { user_run : user_event -> M unit }.

Definition call_user `{Kernel} `{!UserCode} (ev : user_event) : M unit :=
  do! modify (fun w => set_w_trace (ev :: w_trace w) w);
  user_run ev.
