(* ===== verification/Demo.v ===== *)
(** * Demo: concrete worlds over the reference kernel

    Small closed states on which the witnesses of the theorems run: one loop
    (address 1, thread 1, epoll descriptor 3, wake-up descriptor 4, wake-up
    channel 2) and what the individual witnesses add to it. *)

From stdpp Require Import base list gmap strings numbers.
From Stdlib Require Import ZArith Lia Init.Byte.
From S2P Require Import Prelude Buffer Kernel RefKernel State World.

Definition demo_poller (table : gmap Z ptr) : EpollPoller := mkEpollPoller 1 table 3 16.

Definition demo_loop (table : gmap Z ptr) (active : list ptr) (queue : list task) : EventLoop :=
  mkEventLoop 1 "demo"%string false true (demo_poller table) 4 2 active None queue.

Definition demo_channel (fd ev recv : Z) (st : ChannelStatus) : EventChannel :=
  mkEventChannel fd ev recv st 1 (Some (UserChannel_cb 1)) (Some (UserChannel_cb 2))
    (Some (UserChannel_cb 3)) (Some (UserChannel_cb 4)).

Definition demo_kernel (files : gmap Z rfile) (interest : gmap Z (Z * ptr))
    (script : list (list (Z * ptr))) : rkernel :=
  mkRkernel files {[3 := interest]} script.

Definition demo_world (k : rkernel) (chans : gmap ptr EventChannel)
    (loops : gmap ptr EventLoop) (conns : gmap ptr TcpConnection) : World :=
  mkWorld RefKernel k 1 ∅ ∅ chans loops conns ∅ ∅ ∅ ∅ 1000 [].

(** What a witness looks at in the outcome of a run. *)
Definition outcome {A B} (f : A -> @World RefKernel -> B) (r : res (A * @World RefKernel))
    : option B :=
  match r with Ok (a, w) => Some (f a w) | Err _ => None end.
