(* ===== verification/Poller.v ===== *)
(** * Poller: event channels and the epoll poller

    Models [Event] (event.h/.cpp), [EventChannel] (event_channel.h/.cpp),
    [Poller] (poller.h/.cpp), [EpollPoller] (epoll_poller.h/.cpp) and the two
    methods of [EventLoop] through which a channel reaches the poller.  The
    channel and the poller are one state machine: the status of a channel, the
    poller's table and the kernel's interest list change together.  The
    invariant [poller_inv] says how they agree. *)

From stdpp Require Import base list gmap strings numbers pretty.
From Stdlib Require Import ZArith Lia Init.Byte.
From S2P Require Import Prelude Buffer Kernel RefKernel State World Demo.

Open Scope np_scope.

(** ** Event flags *)

Definition EPOLLIN : Z := 0x001.
Definition EPOLLPRI : Z := 0x002.
Definition EPOLLOUT : Z := 0x004.
Definition EPOLLERR : Z := 0x008.
Definition EPOLLHUP : Z := 0x010.
Definition EPOLLET : Z := 0x80000000.
Definition POLLIN : Z := 0x001.
Definition POLLPRI : Z := 0x002.
Definition POLLOUT : Z := 0x004.
Definition POLLERR : Z := 0x008.
Definition POLLHUP : Z := 0x010.
Definition POLLNVAL : Z := 0x020.
Definition POLLRDHUP : Z := 0x2000.

(** Constants of type [int]: bit 31 of [EPOLLET] makes the value negative. *)
Definition none_event_flag : Z := 0.
Definition read_event_flag : Z := s32 (Z.lor (Z.lor EPOLLIN EPOLLPRI) EPOLLET).
Definition write_event_flag : Z := EPOLLOUT.
Definition error_event_flag : Z := EPOLLERR.

(** [x & y] as a condition. *)
Definition has_flag (x y : Z) : bool := negb (Z.land x y =? 0).

(** ** EventChannel: queries *)

Definition IsNoneEvent (ch : EventChannel) : bool := none_event_flag =? ch_events_ ch.
Definition IsReading (ch : EventChannel) : bool := has_flag read_event_flag (ch_events_ ch).
Definition IsWriting (ch : EventChannel) : bool := has_flag write_event_flag (ch_events_ ch).

Definition EventsToString (fd ev : Z) : string :=
  (pretty fd +:+ ": "
   +:+ (if has_flag ev POLLIN then "IN " else "")
   +:+ (if has_flag ev POLLPRI then "PRI " else "")
   +:+ (if has_flag ev POLLOUT then "OUT " else "")
   +:+ (if has_flag ev POLLHUP then "HUP " else "")
   +:+ (if has_flag ev POLLRDHUP then "RDHUP " else "")
   +:+ (if has_flag ev POLLERR then "ERR " else "")
   +:+ (if has_flag ev POLLNVAL then "NVAL " else ""))%string.

Definition ReceivedEventToString (ch : EventChannel) : string :=
  EventsToString (ch_fd_ ch) (ch_events_ ch).

Section operations.
Context `{Kernel}.

(** [std::this_thread::get_id() == obj.OwnerThreadId()] *)
Definition IsOwnerThread (owner : tid) : M bool :=
  let! t := this_thread in ret (bool_decide (t = owner)).

Definition assert_owner (owner : tid) : M unit :=
  let! b := IsOwnerThread owner in assert_ b.

(** ** EventChannel: construction and callbacks *)

(** The member [recieved_events] is left indeterminate; it is read only after
    [SetRecievedEvent]. *)
Definition EventChannel_new (loop : ptr) (fd : Z) : M ptr :=
  alloc (mkEventChannel fd none_event_flag 0 NEW_CHANNEL loop None None None None).

Definition SetReadEventCallBack (c : ptr) (cb : channel_cb) : M unit :=
  update c (ch_set_read_event_cb_ (Some cb)).
Definition SetWriteEventCallBack (c : ptr) (cb : channel_cb) : M unit :=
  update c (ch_set_write_event_cb_ (Some cb)).
Definition SetErrorEventCallBack (c : ptr) (cb : channel_cb) : M unit :=
  update c (ch_set_error_event_cb_ (Some cb)).
Definition SetCloseEventCallBack (c : ptr) (cb : channel_cb) : M unit :=
  update c (ch_set_close_event_cb_ (Some cb)).

Definition SetStatusInPoller (c : ptr) (st : ChannelStatus) : M unit :=
  update c (ch_set_poller_status_ st).
Definition SetRecievedEvent (c : ptr) (event : Z) : M unit :=
  update c (ch_set_recieved_events (s32 event)).

(** ** EpollPoller

    A poller is part of its loop: [l] is the loop's address. *)

Definition UpdateEpollCtrl (l : ptr) (operation : epoll_op) (c : ptr) : M unit :=
  let! lp := load (T := EventLoop) l in
  let! ch := load (T := EventChannel) c in
  let! _ := syscall (sys_epoll_ctl (po_epoll_fd_ (lo_poller_ lp)) operation
                       (ch_fd_ ch) (u32 (ch_events_ ch)) c) in
  ret tt.

Definition set_poller_entry (l : ptr) (fd : Z) (c : ptr) : M unit :=
  update l (fun lp : EventLoop => lo_set_poller_ (po_set_evt_channel_list_
    (<[fd := c]> (po_evt_channel_list_ (lo_poller_ lp))) (lo_poller_ lp)) lp).

Definition EpollPoller_UpdateEventChannel (l c : ptr) : M unit :=
  let! lp := load (T := EventLoop) l in
  do! assert_owner (po_thread_id_ (lo_poller_ lp));
  let! ch := load (T := EventChannel) c in
  let fd := ch_fd_ ch in
  let entry := po_evt_channel_list_ (lo_poller_ lp) !! fd in
  match ch_poller_status_ ch with
  | NEW_CHANNEL =>
      do! assert_ (bool_decide (entry = None));
      do! set_poller_entry l fd c;
      do! SetStatusInPoller c ADDED_CHANNEL;
      UpdateEpollCtrl l EPOLL_CTL_ADD c
  | ADDED_CHANNEL =>
      do! assert_ (bool_decide (entry <> None));
      do! assert_ (bool_decide (entry = Some c));
      if IsNoneEvent ch then
        do! UpdateEpollCtrl l EPOLL_CTL_DEL c;
        SetStatusInPoller c DELETE_CHANNEL
      else UpdateEpollCtrl l EPOLL_CTL_MOD c
  | DELETE_CHANNEL =>
      do! assert_ (bool_decide (entry <> None));
      do! set_poller_entry l fd c;
      do! SetStatusInPoller c ADDED_CHANNEL;
      UpdateEpollCtrl l EPOLL_CTL_ADD c
  end.

Definition EpollPoller_RemoveEventChannel (l c : ptr) : M unit :=
  let! lp := load (T := EventLoop) l in
  do! assert_owner (po_thread_id_ (lo_poller_ lp));
  let! ch := load (T := EventChannel) c in
  let fd := ch_fd_ ch in
  do! assert_ (bool_decide (po_evt_channel_list_ (lo_poller_ lp) !! fd = Some c));
  do! assert_ (IsNoneEvent ch);
  do! assert_ (bool_decide (ch_poller_status_ ch = ADDED_CHANNEL \/
                            ch_poller_status_ ch = DELETE_CHANNEL));
  do! update l (fun lp : EventLoop => lo_set_poller_ (po_set_evt_channel_list_
        (delete fd (po_evt_channel_list_ (lo_poller_ lp))) (lo_poller_ lp)) lp);
  do! when (bool_decide (ch_poller_status_ ch = ADDED_CHANNEL))
        (UpdateEpollCtrl l EPOLL_CTL_DEL c);
  SetStatusInPoller c NEW_CHANNEL.

(** The body of the loop over the ready events. *)
Definition poll_step (l : ptr) (e : Z * ptr) : M unit :=
  let! ch := load (T := EventChannel) e.2 in
  do! SetRecievedEvent e.2 e.1;
  update l (fun lp : EventLoop => lo_set_evt_channel_list_ (lo_evt_channel_list_ lp ++ [e.2]) lp).

(** [Poll(timeoutMS, &evt_channel_list_)]: the active list is the loop's, as
    in the only call. *)
Definition EpollPoller_Poll (l : ptr) (timeoutMS : Z) : M unit :=
  let! lp := load (T := EventLoop) l in
  let po := lo_poller_ lp in
  do! assert_owner (po_thread_id_ po);
  let! r := syscall (sys_epoll_wait (po_epoll_fd_ po) (s32 (po_events_ready_size po)) timeoutMS) in
  match r with
  | SOk evs =>
      do! forM evs (poll_step l);
      when ((0 <? Z.of_nat (length evs)) &&
            (Z.of_nat (length evs) =? po_events_ready_size po))
        (update l (fun lp : EventLoop => lo_set_poller_
           (po_set_events_ready_size (u64 (po_events_ready_size po * 2)) (lo_poller_ lp)) lp))
  | SErr _ => ret tt
  end.

(** ** EventLoop: the way to the poller *)

Definition EventLoop_UpdateEventChannel (l c : ptr) : M unit :=
  EpollPoller_UpdateEventChannel l c.

Definition EventLoop_RemoveEventChannel (l c : ptr) : M unit :=
  let! ch := load (T := EventChannel) c in
  do! assert_ (bool_decide (ch_event_loop_ ch = l));
  let! lp := load (T := EventLoop) l in
  do! assert_owner (lo_thread_id_ lp);
  do! when (bool_decide (lo_evt_channel_active_ lp <> None))
        (assert_ (bool_decide (Some c = lo_evt_channel_active_ lp) ||
                  bool_decide (c ∉ lo_evt_channel_list_ lp)));
  EpollPoller_RemoveEventChannel l c.

(** ** EventChannel: interest *)

Definition set_interest (c : ptr) (f : Z -> Z) : M unit :=
  do! update c (fun ch => ch_set_events_ (f (ch_events_ ch)) ch);
  let! ch := load (T := EventChannel) c in
  EventLoop_UpdateEventChannel (ch_event_loop_ ch) c.

Definition EnableReading (c : ptr) : M unit :=
  set_interest c (fun e => Z.lor e read_event_flag).
Definition DisableReading (c : ptr) : M unit :=
  set_interest c (fun e => Z.land e (Z.lnot read_event_flag)).
Definition EnableWriting (c : ptr) : M unit :=
  set_interest c (fun e => Z.lor e write_event_flag).
Definition DisableWriting (c : ptr) : M unit :=
  set_interest c (fun e => Z.land e (Z.lnot write_event_flag)).
Definition DisableAll (c : ptr) : M unit :=
  set_interest c (fun _ => none_event_flag).

Definition RemoveFromLoop (c : ptr) : M unit :=
  let! ch := load (T := EventChannel) c in
  EventLoop_RemoveEventChannel (ch_event_loop_ ch) c.

(** ** EventChannel: dispatch

    [call] runs a callback.  The members are read again before each test, as
    the callbacks may change them (or free the channel). *)
Definition call_if (call : channel_cb -> M unit) (c : ptr) (test : Z -> bool)
    (cb : EventChannel -> option channel_cb) : M unit :=
  let! ch := load (T := EventChannel) c in
  when (test (ch_recieved_events ch))
    (match cb ch with Some f => call f | None => ret tt end).

Definition is_close_event (ev : Z) : bool := has_flag ev POLLHUP && negb (has_flag POLLIN ev).
Definition is_error_event (ev : Z) : bool := has_flag ev (Z.lor POLLERR POLLNVAL).
Definition is_read_event (ev : Z) : bool :=
  has_flag ev (Z.lor (Z.lor POLLIN POLLPRI) POLLRDHUP).
Definition is_write_event (ev : Z) : bool := has_flag ev POLLOUT.

Definition HandleEvent (call : channel_cb -> M unit) (c : ptr) : M unit :=
  do! call_if call c is_close_event ch_close_event_cb_;
  do! call_if call c is_error_event ch_error_event_cb_;
  do! call_if call c is_read_event ch_read_event_cb_;
  call_if call c is_write_event ch_write_event_cb_.
End operations.

(** ** Runs of the interest operations *)

Definition interest_op (st : ChannelStatus) (ev : Z) : epoll_op :=
  match st with
  | NEW_CHANNEL | DELETE_CHANNEL => EPOLL_CTL_ADD
  | ADDED_CHANNEL => if none_event_flag =? ev then EPOLL_CTL_DEL else EPOLL_CTL_MOD
  end.

Definition interest_status (st : ChannelStatus) (ev : Z) : ChannelStatus :=
  match st with
  | NEW_CHANNEL | DELETE_CHANNEL => ADDED_CHANNEL
  | ADDED_CHANNEL => if none_event_flag =? ev then DELETE_CHANNEL else ADDED_CHANNEL
  end.

Definition with_interest (f : Z -> Z) (ch : EventChannel) : EventChannel :=
  ch_set_poller_status_ (interest_status (ch_poller_status_ ch) (f (ch_events_ ch)))
    (ch_set_events_ (f (ch_events_ ch)) ch).

Definition with_entry (fd : Z) (c : ptr) (lp : EventLoop) : EventLoop :=
  lo_set_poller_ (po_set_evt_channel_list_
    (<[fd := c]> (po_evt_channel_list_ (lo_poller_ lp))) (lo_poller_ lp)) lp.

Definition without_entry (fd : Z) (lp : EventLoop) : EventLoop :=
  lo_set_poller_ (po_set_evt_channel_list_
    (delete fd (po_evt_channel_list_ (lo_poller_ lp))) (lo_poller_ lp)) lp.

Lemma with_entry_id fd c lp :
  po_evt_channel_list_ (lo_poller_ lp) !! fd = Some c -> with_entry fd c lp = lp.
Proof.
  intros E. unfold with_entry. rewrite insert_id by done.
  by destruct lp as [????[]].
Qed.

Section runs.
Context `{Kernel}.
Implicit Types (w : World) (l c : ptr) (lp : EventLoop) (ch : EventChannel).

Lemma run_assert_owner {A} t (k : unit -> M A) w :
  w_tid w = t -> bind (assert_owner t) k w = k tt w.
Proof.
  intros <-. unfold assert_owner, IsOwnerThread, this_thread, bind, gets, ret; simpl.
  by rewrite bool_decide_eq_true_2.
Qed.

(** The channel [c] and its loop agree on whether [c] is in the table. *)
Definition entry_ok lp c ch : Prop :=
  match ch_poller_status_ ch with
  | NEW_CHANNEL => po_evt_channel_list_ (lo_poller_ lp) !! ch_fd_ ch = None
  | _ => po_evt_channel_list_ (lo_poller_ lp) !! ch_fd_ ch = Some c
  end.

Lemma run_UpdateEpollCtrl l op c lp ch w :
  w_loops w !! l = Some lp -> w_channels w !! c = Some ch ->
  let rk := sys_epoll_ctl (po_epoll_fd_ (lo_poller_ lp)) op (ch_fd_ ch)
              (u32 (ch_events_ ch)) c (w_kern w) in
  UpdateEpollCtrl l op c w = Ok (tt, after_syscall rk.1 rk.2 w).
Proof. intros Hl Hc rk. unfold UpdateEpollCtrl. do 3 run1. done. Qed.

(** The whole effect of [EnableReading] and its like, as an equation. *)
Lemma run_set_interest f l c lp ch w :
  w_loops w !! l = Some lp -> w_channels w !! c = Some ch ->
  ch_event_loop_ ch = l -> w_tid w = po_thread_id_ (lo_poller_ lp) ->
  entry_ok lp c ch ->
  let ev := f (ch_events_ ch) in
  let rk := sys_epoll_ctl (po_epoll_fd_ (lo_poller_ lp))
              (interest_op (ch_poller_status_ ch) ev) (ch_fd_ ch) (u32 ev) c (w_kern w) in
  set_interest c f w =
    Ok (tt, after_syscall rk.1 rk.2
              (set_w_loops (<[l := with_entry (ch_fd_ ch) c lp]> (w_loops w))
                 (set_w_channels (<[c := with_interest f ch]> (w_channels w)) w))).
Proof.
  intros Hl Hc Hlo Ht He ev rk. unfold set_interest. do 2 run1. cbn. rewrite Hlo.
  unfold EventLoop_UpdateEventChannel, EpollPoller_UpdateEventChannel.
  run1. rewrite run_assert_owner by done. run1. cbn.
  unfold entry_ok in He. unfold rk, ev, with_interest.
  destruct (ch_poller_status_ ch) eqn:Hst; cbn; rewrite He.
  - unfold set_poller_entry, SetStatusInPoller. do 3 run1.
    erewrite run_UpdateEpollCtrl by solve_lookup. cbn. rewrite insert_insert_eq. done.
  - do 2 run1. rewrite with_entry_id, (insert_id (w_loops w)) by done.
    unfold IsNoneEvent; cbn. case_match.
    + erewrite run_bind by (apply run_UpdateEpollCtrl; solve_lookup).
      unfold SetStatusInPoller. erewrite run_update by solve_lookup.
      cbn. autorewrite with world. cbn. rewrite insert_insert_eq.
      done.
    + erewrite run_UpdateEpollCtrl by solve_lookup. cbn. do 3 f_equal.
      by destruct ch; cbn in *; subst.
  - unfold set_poller_entry, SetStatusInPoller. do 3 run1.
    erewrite run_UpdateEpollCtrl by solve_lookup. cbn. rewrite insert_insert_eq. done.
Qed.

(** ... and of [RemoveFromLoop]. *)
Lemma run_RemoveFromLoop l c lp ch w :
  w_loops w !! l = Some lp -> w_channels w !! c = Some ch ->
  ch_event_loop_ ch = l -> w_tid w = po_thread_id_ (lo_poller_ lp) ->
  lo_thread_id_ lp = po_thread_id_ (lo_poller_ lp) ->
  po_evt_channel_list_ (lo_poller_ lp) !! ch_fd_ ch = Some c ->
  ch_poller_status_ ch <> NEW_CHANNEL -> IsNoneEvent ch = true ->
  lo_evt_channel_active_ lp = None \/ lo_evt_channel_active_ lp = Some c \/
    c ∉ lo_evt_channel_list_ lp ->
  let rk := sys_epoll_ctl (po_epoll_fd_ (lo_poller_ lp)) EPOLL_CTL_DEL (ch_fd_ ch)
              (u32 (ch_events_ ch)) c (w_kern w) in
  let w1 := set_w_loops (<[l := without_entry (ch_fd_ ch) lp]> (w_loops w))
              (set_w_channels (<[c := ch_set_poller_status_ NEW_CHANNEL ch]> (w_channels w)) w) in
  RemoveFromLoop c w =
    Ok (tt, if bool_decide (ch_poller_status_ ch = ADDED_CHANNEL)
            then after_syscall rk.1 rk.2 w1 else w1).
Proof.
  intros Hl Hc Hlo Ht Htt He Hst Hn Hact rk w1.
  unfold RemoveFromLoop, EventLoop_RemoveEventChannel, EpollPoller_RemoveEventChannel.
  run1. rewrite Hlo. do 3 run1. rewrite run_assert_owner by congruence.
  erewrite run_bind with (s' := w) (a := tt).
  2:{ unfold when. case_bool_decide; [|done]. apply run_assert.
      rewrite orb_true_iff, !bool_decide_eq_true. naive_solver. }
  run1. rewrite run_assert_owner by done. do 2 run1. rewrite run_bind_assert by done.
  rewrite run_bind_assert.
  2:{ apply bool_decide_eq_true. destruct (ch_poller_status_ ch); naive_solver. }
  run1. unfold when, SetStatusInPoller. case_bool_decide.
  - erewrite run_bind by (apply run_UpdateEpollCtrl; solve_lookup).
    erewrite run_update by solve_lookup.
    cbn. autorewrite with world. done.
  - run1. erewrite run_update by solve_lookup. done.
Qed.
End runs.

(** ** The invariant

    The poller's table, the status of the channels and the kernel's interest
    list agree: the table maps the descriptor of each channel of the loop that
    is not [NEW_CHANNEL] to that channel; the kernel watches exactly the
    [ADDED_CHANNEL] ones, for the events they ask for, and hands back their
    address. *)

Section invariant.
Context `{EpollLaws}.
Implicit Types (w : World) (l c : ptr) (lp : EventLoop) (ch : EventChannel) (fd : Z).

Abbreviation table lp := (po_evt_channel_list_ (lo_poller_ lp)).
Abbreviation epfd lp := (po_epoll_fd_ (lo_poller_ lp)).

Definition watched ch c : option (Z * ptr) :=
  if decide (ch_poller_status_ ch = ADDED_CHANNEL) then Some (u32 (ch_events_ ch), c) else None.

Definition expected_interest (chans : gmap ptr EventChannel) lp fd : option (Z * ptr) :=
  c ← table lp !! fd; ch ← chans !! c; watched ch c.

Record poller_inv w l lp : Prop := {
  pi_loop : w_loops w !! l = Some lp;
  pi_thread : lo_thread_id_ lp = po_thread_id_ (lo_poller_ lp);
  pi_entry fd c : table lp !! fd = Some c ->
    exists ch, w_channels w !! c = Some ch /\ ch_fd_ ch = fd /\ ch_event_loop_ ch = l /\
      ch_poller_status_ ch <> NEW_CHANNEL;
  pi_chan c ch : w_channels w !! c = Some ch -> ch_event_loop_ ch = l ->
    ch_poller_status_ ch <> NEW_CHANNEL -> table lp !! ch_fd_ ch = Some c;
  pi_kernel fd : k_interest (w_kern w) (epfd lp) !! fd = expected_interest (w_channels w) lp fd
}.

(** A channel of the loop on its own thread; the descriptor of a fresh channel
    is not in use by another channel of the loop. *)
Record channel_of w l lp c ch : Prop := {
  co_chan : w_channels w !! c = Some ch;
  co_loop : ch_event_loop_ ch = l;
  co_thread : w_tid w = lo_thread_id_ lp;
  co_fresh : ch_poller_status_ ch = NEW_CHANNEL -> table lp !! ch_fd_ ch = None
}.

Lemma channel_of_entry w l lp c ch :
  poller_inv w l lp -> channel_of w l lp c ch -> entry_ok lp c ch.
Proof.
  intros [] []. unfold entry_ok. destruct (ch_poller_status_ ch) eqn:?; eauto.
  - apply pi_chan0; congruence.
  - apply pi_chan0; congruence.
Qed.

Lemma watched_kernel w l lp c ch :
  poller_inv w l lp -> channel_of w l lp c ch ->
  k_interest (w_kern w) (epfd lp) !! ch_fd_ ch = watched ch c.
Proof.
  intros Hinv Hco. pose proof (channel_of_entry _ _ _ _ _ Hinv Hco) as He.
  rewrite (pi_kernel _ _ _ Hinv). unfold entry_ok, expected_interest in *.
  destruct (ch_poller_status_ ch) eqn:E; rewrite He; simpl;
    rewrite ?(co_chan _ _ _ _ _ Hco); simpl; unfold watched; by rewrite E.
Qed.

(** Other channels keep their entries when the record and the entry of [c]
    change. *)
Lemma expected_interest_frame chans lp lp' c ch ch' fd :
  chans !! c = Some ch -> table lp' !! fd = table lp !! fd ->
  (forall c', table lp !! fd = Some c' -> c' <> c) ->
  expected_interest (<[c := ch']> chans) lp' fd = expected_interest chans lp fd.
Proof.
  intros Hc Ht Hne. unfold expected_interest. rewrite Ht.
  destruct (table lp !! fd) as [c'|] eqn:E; simpl; [|done].
  by rewrite lookup_insert_ne by (intros <-; by eapply Hne).
Qed.

Context `{!EpollReliable}.

(** The kernel's side of an interest operation. *)
Lemma interest_ctl w l lp c ch ev :
  poller_inv w l lp -> channel_of w l lp c ch ->
  let rk := sys_epoll_ctl (epfd lp) (interest_op (ch_poller_status_ ch) ev)
              (ch_fd_ ch) (u32 ev) c (w_kern w) in
  rk.1 = SOk tt /\
  k_interest rk.2 (epfd lp) =
    match interest_status (ch_poller_status_ ch) ev with
    | ADDED_CHANNEL => <[ch_fd_ ch := (u32 ev, c)]> (k_interest (w_kern w) (epfd lp))
    | _ => delete (ch_fd_ ch) (k_interest (w_kern w) (epfd lp))
    end /\
  forall ep, ep <> epfd lp -> k_interest rk.2 ep = k_interest (w_kern w) ep.
Proof.
  intros Hinv Hco rk. pose proof (watched_kernel _ _ _ _ _ Hinv Hco) as Hk.
  assert (rk.1 = SOk tt) as Hok.
  { unfold rk, watched, interest_op in *.
    destruct (ch_poller_status_ ch); case_decide; try done;
      first [by apply epoll_add_succeeds | case_match; apply epoll_old_succeeds; eauto]. }
  split; [done|].
  destruct (epoll_ctl_ok (epfd lp) (interest_op (ch_poller_status_ ch) ev) (ch_fd_ ch)
    (u32 ev) c (w_kern w) rk.2) as [Hi Ho]; [by rewrite <-Hok; apply surjective_pairing|].
  split; [|done]. rewrite Hi. unfold interest_op, interest_status.
  destruct (ch_poller_status_ ch); [done| |done]. by destruct (none_event_flag =? ev).
Qed.

(** Every interest operation succeeds, and keeps the invariant. *)
Lemma set_interest_correct f w l lp c ch :
  poller_inv w l lp -> channel_of w l lp c ch ->
  exists w', set_interest c f w = Ok (tt, w') /\
    poller_inv w' l (with_entry (ch_fd_ ch) c lp) /\
    channel_of w' l (with_entry (ch_fd_ ch) c lp) c (with_interest f ch) /\
    w' = set_w_kern (w_kern w')
           (set_w_loops (<[l := with_entry (ch_fd_ ch) c lp]> (w_loops w))
              (set_w_channels (<[c := with_interest f ch]> (w_channels w)) w)) /\
    (forall ep, ep <> epfd lp -> k_interest (w_kern w') ep = k_interest (w_kern w) ep).
Proof.
  intros Hinv Hco. pose proof (channel_of_entry _ _ _ _ _ Hinv Hco) as He.
  destruct (interest_ctl w l lp c ch (f (ch_events_ ch)) Hinv Hco) as (Hok & Hi & Ho).
  pose proof (run_set_interest f l c lp ch w (pi_loop _ _ _ Hinv) (co_chan _ _ _ _ _ Hco)
    (co_loop _ _ _ _ _ Hco)) as Hrun.
  cbv zeta in Hrun. rewrite Hok in Hrun. simpl in Hrun.
  eexists; split.
  { apply Hrun; [|done]. rewrite (co_thread _ _ _ _ _ Hco). apply Hinv. }
  set (k' := (sys_epoll_ctl _ _ _ _ _ _).2) in *.
  destruct Hinv, Hco. split_and!; [| |done|exact Ho].
  - split; simpl.
    + by rewrite lookup_insert_eq.
    + done.
    + intros fd c' [[<- <-]|[Hne E]]%lookup_insert_Some.
      * rewrite lookup_insert_eq. eexists; split_and!; [done|done|done|].
        simpl. unfold interest_status. repeat case_match; done.
      * destruct (pi_entry0 _ _ E) as (ch' & E' & <- & ? & ?). exists ch'.
        rewrite lookup_insert_ne; [done|]. intros <-. congruence.
    + intros c' ch' [[<- <-]|[Hne E]]%lookup_insert_Some Hl Hst; simpl in *.
      * by rewrite lookup_insert_eq.
      * rewrite lookup_insert_ne; [by apply pi_chan0|].
        intros Hfd. pose proof (pi_chan0 _ _ E Hl Hst) as E2. rewrite <-Hfd in E2.
        unfold entry_ok in He. destruct (ch_poller_status_ ch); congruence.
    + intros fd. rewrite Hi. destruct (decide (fd = ch_fd_ ch)) as [->|Hne].
      * unfold expected_interest; simpl. rewrite lookup_insert_eq; simpl.
        rewrite lookup_insert_eq; simpl. unfold watched; simpl.
        destruct (interest_status _ _); simpl; by simplify_map_eq.
      * assert (forall X : gmap Z (Z * ptr), match interest_status (ch_poller_status_ ch)
          (f (ch_events_ ch)) with ADDED_CHANNEL => <[ch_fd_ ch := (u32 (f (ch_events_ ch)), c)]> X
          | _ => delete (ch_fd_ ch) X end !! fd = X !! fd) as ->.
        { intros X. by destruct (interest_status _ _); simplify_map_eq. }
        rewrite pi_kernel0. symmetry. eapply expected_interest_frame; [done|..]; simpl.
        -- by rewrite lookup_insert_ne.
        -- intros c' E ->. destruct (pi_entry0 _ _ E) as (ch' & ? & ? & ? & ?). congruence.
  - split; simpl; [by rewrite lookup_insert_eq|done|done|].
    intros Hst. exfalso. revert Hst. unfold interest_status. repeat case_match; done.
Qed.

(** The loop lets [c] go: no event is being handled, or [c]'s is, or [c] has
    none pending in this iteration. *)
Definition removable lp c : Prop :=
  lo_evt_channel_active_ lp = None \/ lo_evt_channel_active_ lp = Some c \/
  c ∉ lo_evt_channel_list_ lp.

Lemma table_without_entry lp fd : table (without_entry fd lp) = delete fd (table lp).
Proof. done. Qed.

Lemma expected_interest_removed w l lp c ch fd :
  poller_inv w l lp -> channel_of w l lp c ch -> ch_poller_status_ ch <> NEW_CHANNEL ->
  expected_interest (<[c := ch_set_poller_status_ NEW_CHANNEL ch]> (w_channels w))
    (without_entry (ch_fd_ ch) lp) fd =
  delete (ch_fd_ ch) (k_interest (w_kern w) (epfd lp)) !! fd.
Proof.
  intros [] [] Hst. destruct (decide (fd = ch_fd_ ch)) as [->|Hne].
  - rewrite lookup_delete_eq. unfold expected_interest. rewrite table_without_entry.
    by rewrite lookup_delete_eq.
  - rewrite lookup_delete_ne, pi_kernel0 by done.
    eapply expected_interest_frame; [done|..].
    + rewrite table_without_entry. by rewrite lookup_delete_ne.
    + intros c' E ->. destruct (pi_entry0 _ _ E) as (ch' & ? & ? & ? & ?). congruence.
Qed.

Lemma run_RemoveFromLoop_ok w l lp c ch :
  poller_inv w l lp -> channel_of w l lp c ch ->
  ch_poller_status_ ch <> NEW_CHANNEL -> IsNoneEvent ch = true -> removable lp c ->
  exists k', RemoveFromLoop c w =
      Ok (tt, set_w_kern k' (set_w_loops (<[l := without_entry (ch_fd_ ch) lp]> (w_loops w))
        (set_w_channels (<[c := ch_set_poller_status_ NEW_CHANNEL ch]> (w_channels w)) w))) /\
    k_interest k' (epfd lp) = delete (ch_fd_ ch) (k_interest (w_kern w) (epfd lp)) /\
    forall ep, ep <> epfd lp -> k_interest k' ep = k_interest (w_kern w) ep.
Proof.
  intros Hinv Hco Hst Hn Hrem. pose proof (watched_kernel _ _ _ _ _ Hinv Hco) as Hk.
  rewrite (run_RemoveFromLoop l c lp ch w (pi_loop _ _ _ Hinv) (co_chan _ _ _ _ _ Hco)
    (co_loop _ _ _ _ _ Hco));
    [|rewrite (co_thread _ _ _ _ _ Hco); apply Hinv|apply Hinv| |done..].
  2:{ apply Hinv; [apply Hco|apply Hco|done]. }
  unfold watched in Hk. case_bool_decide as Hadd; case_decide; try done.
  - assert ((sys_epoll_ctl (epfd lp) EPOLL_CTL_DEL (ch_fd_ ch) (u32 (ch_events_ ch)) c
      (w_kern w)).1 = SOk tt) as Hok by (apply epoll_old_succeeds; eauto).
    rewrite Hok. eexists; split; [done|]. eapply (epoll_ctl_ok _ EPOLL_CTL_DEL).
    rewrite <-Hok. apply surjective_pairing.
  - exists (w_kern w). split; [done|]. by rewrite delete_id.
Qed.

(** [RemoveFromLoop] of a channel without events succeeds; the channel is in
    neither the table nor the kernel's list afterwards. *)
Lemma RemoveFromLoop_correct w l lp c ch :
  poller_inv w l lp -> channel_of w l lp c ch ->
  ch_poller_status_ ch <> NEW_CHANNEL -> IsNoneEvent ch = true -> removable lp c ->
  let lp' := without_entry (ch_fd_ ch) lp in
  let ch' := ch_set_poller_status_ NEW_CHANNEL ch in
  exists w', RemoveFromLoop c w = Ok (tt, w') /\
    poller_inv w' l lp' /\ channel_of w' l lp' c ch' /\
    w' = set_w_kern (w_kern w') (set_w_loops (<[l := lp']> (w_loops w))
           (set_w_channels (<[c := ch']> (w_channels w)) w)) /\
    k_interest (w_kern w') (epfd lp) !! ch_fd_ ch = None /\
    (forall ep, ep <> epfd lp -> k_interest (w_kern w') ep = k_interest (w_kern w) ep).
Proof.
  intros Hinv Hco Hst Hn Hrem lp' ch'.
  destruct (run_RemoveFromLoop_ok w l lp c ch) as (k' & Hr & Hi & Ho); [done..|].
  eexists; split; [exact Hr|]. simpl.
  pose proof (expected_interest_removed w l lp c ch) as Hexp.
  split_and!; [| |done| |done].
  - split; simpl.
    + by rewrite lookup_insert_eq.
    + apply Hinv.
    + intros fd c' [Hne E]%lookup_delete_Some.
      destruct (pi_entry _ _ _ Hinv _ _ E) as (ch2 & E2 & Hfd & ? & ?). exists ch2.
      rewrite lookup_insert_ne; [done|]. intros <-. rewrite (co_chan _ _ _ _ _ Hco) in E2. congruence.
    + intros c' ch2 [[<- <-]|[Hne E]]%lookup_insert_Some Hl Hst2; [done|].
      pose proof (pi_chan _ _ _ Hinv _ _ E Hl Hst2) as E2.
      rewrite lookup_delete_ne; [done|]. intros Hfd. rewrite <-Hfd in E2.
      rewrite (pi_chan _ _ _ Hinv _ _ (co_chan _ _ _ _ _ Hco) (co_loop _ _ _ _ _ Hco) Hst) in E2.
      congruence.
    + intros fd. rewrite Hi. symmetry. by eapply Hexp.
  - split; simpl; [by rewrite lookup_insert_eq|apply Hco|apply Hco|].
    intros _. by rewrite lookup_delete_eq.
  - by rewrite Hi, lookup_delete_eq.
Qed.

(** ** The operations on channels, as a client issues them *)

Inductive chan_op :=
| EnableReading_op (c : ptr)
| DisableReading_op (c : ptr)
| EnableWriting_op (c : ptr)
| DisableWriting_op (c : ptr)
| DisableAll_op (c : ptr)
| Unregister_op (c : ptr).

Definition op_chan (op : chan_op) : ptr :=
  match op with
  | EnableReading_op c | DisableReading_op c | EnableWriting_op c | DisableWriting_op c
  | DisableAll_op c | Unregister_op c => c
  end.

(** The sequence [DisableAll(); RemoveFromLoop()] is how the sources take a
    channel out of a loop. *)
Definition run_chan_op (op : chan_op) : M unit :=
  match op with
  | EnableReading_op c => EnableReading c
  | DisableReading_op c => DisableReading c
  | EnableWriting_op c => EnableWriting c
  | DisableWriting_op c => DisableWriting c
  | DisableAll_op c => DisableAll c
  | Unregister_op c => do! DisableAll c; RemoveFromLoop c
  end.

Definition op_events (op : chan_op) (ev : Z) : Z :=
  match op with
  | EnableReading_op _ => Z.lor ev read_event_flag
  | DisableReading_op _ => Z.land ev (Z.lnot read_event_flag)
  | EnableWriting_op _ => Z.lor ev write_event_flag
  | DisableWriting_op _ => Z.land ev (Z.lnot write_event_flag)
  | DisableAll_op _ | Unregister_op _ => none_event_flag
  end.

(** The events channel [c] asks for after the operations. *)
Definition events_after (c : ptr) (ops : list chan_op) (ev : Z) : Z :=
  foldl (fun ev op => if decide (op_chan op = c) then op_events op ev else ev) ev ops.

(** What an operation leaves alone. *)
Definition same_loop lp lp' : Prop :=
  lo_thread_id_ lp' = lo_thread_id_ lp /\
  lo_evt_channel_active_ lp' = lo_evt_channel_active_ lp /\
  lo_evt_channel_list_ lp' = lo_evt_channel_list_ lp /\
  lo_queue_task_funcs_ lp' = lo_queue_task_funcs_ lp /\ epfd lp' = epfd lp.

(** Two changes of the same loop and channel, one after the other. *)
Lemma registered_twice w w1 k1 k2 l lp1 lp2 c ch1 ch2 :
  w1 = set_w_kern k1 (set_w_loops (<[l := lp1]> (w_loops w))
         (set_w_channels (<[c := ch1]> (w_channels w)) w)) ->
  set_w_kern k2 (set_w_loops (<[l := lp2]> (w_loops w1))
    (set_w_channels (<[c := ch2]> (w_channels w1)) w1)) =
  set_w_kern k2 (set_w_loops (<[l := lp2]> (w_loops w))
    (set_w_channels (<[c := ch2]> (w_channels w)) w)).
Proof.
  intros ->. set (w1 := set_w_kern k1 _).
  change (w_loops w1) with (<[l := lp1]> (w_loops w)).
  change (w_channels w1) with (<[c := ch1]> (w_channels w)).
  rewrite !insert_insert_eq. reflexivity.
Qed.

Lemma Unregister_correct w l lp c ch :
  poller_inv w l lp -> channel_of w l lp c ch -> removable lp c ->
  exists w' lp' ch', (do! DisableAll c; RemoveFromLoop c) w = Ok (tt, w') /\
    poller_inv w' l lp' /\ channel_of w' l lp' c ch' /\ same_loop lp lp' /\
    w' = set_w_kern (w_kern w') (set_w_loops (<[l := lp']> (w_loops w))
           (set_w_channels (<[c := ch']> (w_channels w)) w)) /\
    ch' = ch_set_poller_status_ NEW_CHANNEL (ch_set_events_ none_event_flag ch) /\
    k_interest (w_kern w') (epfd lp) !! ch_fd_ ch = None.
Proof.
  intros Hinv Hco Hrem.
  destruct (set_interest_correct (fun _ => none_event_flag) w l lp c ch)
    as (w1 & E1 & Hinv1 & Hco1 & Hw1 & _); [done..|].
  destruct (RemoveFromLoop_correct w1 l (with_entry (ch_fd_ ch) c lp) c
    (with_interest (fun _ => none_event_flag) ch))
    as (w2 & E2 & Hinv2 & Hco2 & Hw2 & Hk2 & _); [done|done| |done|exact Hrem|].
  { simpl. unfold interest_status. repeat case_match; done. }
  do 3 eexists. split; [by rewrite (run_bind _ _ _ _ _ E1)|].
  split_and!; [exact Hinv2|exact Hco2|done| |done|exact Hk2].
  rewrite Hw2. cbn [w_kern set_w_kern]. exact (registered_twice _ _ _ _ _ _ _ _ _ _ Hw1).
Qed.

Lemma chan_op_step op w l lp ch :
  poller_inv w l lp -> channel_of w l lp (op_chan op) ch -> removable lp (op_chan op) ->
  exists w' lp' ch', run_chan_op op w = Ok (tt, w') /\ poller_inv w' l lp' /\
    same_loop lp lp' /\ w_tid w' = w_tid w /\
    w_channels w' = <[op_chan op := ch']> (w_channels w) /\
    ch_fd_ ch' = ch_fd_ ch /\ ch_event_loop_ ch' = ch_event_loop_ ch /\
    ch_events_ ch' = op_events op (ch_events_ ch).
Proof.
  intros Hinv Hco Hrem.
  assert (forall f, exists w' lp' ch', set_interest (op_chan op) f w = Ok (tt, w') /\
    poller_inv w' l lp' /\ same_loop lp lp' /\ w_tid w' = w_tid w /\
    w_channels w' = <[op_chan op := ch']> (w_channels w) /\
    ch_fd_ ch' = ch_fd_ ch /\ ch_event_loop_ ch' = ch_event_loop_ ch /\
    ch_events_ ch' = f (ch_events_ ch)) as Hset.
  { intros f. destruct (set_interest_correct f w l lp (op_chan op) ch)
      as (w' & E & Hinv' & _ & Hw & _); [done..|].
    exists w', (with_entry (ch_fd_ ch) (op_chan op) lp), (with_interest f ch).
    split_and!; try done; try (by rewrite Hw); by split_and!. }
  destruct op; try apply Hset.
  destruct (Unregister_correct w l lp c ch)
    as (w' & lp' & ch' & E & ? & _ & ? & Hw & -> & _); [done..|].
  exists w', lp', (ch_set_poller_status_ NEW_CHANNEL (ch_set_events_ none_event_flag ch)).
  split_and!; try done; by rewrite Hw.
Qed.

Definition distinct_fds w l : Prop :=
  forall c1 c2 ch1 ch2, w_channels w !! c1 = Some ch1 -> w_channels w !! c2 = Some ch2 ->
    ch_event_loop_ ch1 = l -> ch_event_loop_ ch2 = l -> ch_fd_ ch1 = ch_fd_ ch2 -> c1 = c2.

Lemma distinct_channel_of w l lp c ch :
  poller_inv w l lp -> distinct_fds w l -> w_tid w = lo_thread_id_ lp ->
  w_channels w !! c = Some ch -> ch_event_loop_ ch = l -> channel_of w l lp c ch.
Proof.
  intros Hinv Hd Ht Hc Hl. split; try done. intros Hst.
  destruct (table lp !! ch_fd_ ch) as [c'|] eqn:E; [|done].
  destruct (pi_entry _ _ _ Hinv _ _ E) as (ch' & ? & ? & ? & ?).
  assert (c = c') as <- by eauto. congruence.
Qed.

Lemma chan_ops_in_sync ops w l lp :
  poller_inv w l lp -> distinct_fds w l -> w_tid w = lo_thread_id_ lp ->
  Forall (fun op => removable lp (op_chan op) /\
            exists ch, w_channels w !! op_chan op = Some ch /\ ch_event_loop_ ch = l) ops ->
  exists w' lp', forM ops run_chan_op w = Ok (tt, w') /\ poller_inv w' l lp' /\
    forall c ch, w_channels w !! c = Some ch ->
      exists ch', w_channels w' !! c = Some ch' /\ ch_fd_ ch' = ch_fd_ ch /\
        ch_events_ ch' = events_after c ops (ch_events_ ch).
Proof.
  revert w lp. induction ops as [|op ops IH]; intros w lp Hinv Hd Ht Hops.
  { exists w, lp. split_and!; [done|done|eauto]. }
  apply Forall_cons_1 in Hops as [[Hrem (ch & Hc & Hl)] Hops].
  destruct (chan_op_step op w l lp ch) as (w1 & lp1 & ch1 & E & Hinv1 & Hsame & Ht1 & Hch1
    & Hfd1 & Hl1 & Hev1); [done|by apply distinct_channel_of|done|].
  pose proof Hsame as (Hst & Ha & Hli & _).
  destruct (IH w1 lp1) as (w' & lp' & E' & Hinv' & Hfin); [done| |congruence| |].
  - intros c1 c2 x1 x2. rewrite Hch1, !lookup_insert_Some.
    intros [[<- <-]|[? ?]] [[<- <-]|[? ?]]; rewrite ?Hl1, ?Hfd1; eauto.
  - eapply Forall_impl; [exact Hops|]. intros op' [Hr (ch' & Hc' & Hl')].
    unfold removable. rewrite Ha, Hli. split; [done|]. rewrite Hch1.
    destruct (decide (op_chan op = op_chan op')) as [<-|].
    + exists ch1. rewrite lookup_insert_eq. split; congruence.
    + exists ch'. by rewrite lookup_insert_ne.
  - exists w', lp'. split_and!; [by simpl; rewrite (run_bind _ _ _ _ _ E)|done|].
    intros c x Hx. unfold events_after; simpl. destruct (decide (op_chan op = c)) as [<-|Hne].
    + replace x with ch in * by congruence.
      destruct (Hfin (op_chan op) ch1) as (ch' & ? & ? & ?); [by rewrite Hch1, lookup_insert_eq|].
      exists ch'. rewrite <-Hfd1, <-Hev1. done.
    + apply (Hfin c x). by rewrite Hch1, lookup_insert_ne.
Qed.

(** C4: The poller never loses track.  Whatever sequence of [EnableReading],
    [DisableReading], [EnableWriting], [DisableWriting], [DisableAll] and
    [DisableAll]-then-[RemoveFromLoop] the loop's thread runs on live channels of
    a loop, no assertion fails, and afterwards the poller's table, the status of
    every channel and the kernel's interest list still agree; each channel asks
    for exactly the events its operations left it with. *)
Theorem poller_stays_in_sync ops w l lp :
  poller_inv w l lp -> distinct_fds w l -> w_tid w = lo_thread_id_ lp ->
  Forall (fun op => removable lp (op_chan op) /\
            exists ch, w_channels w !! op_chan op = Some ch /\ ch_event_loop_ ch = l) ops ->
  exists w' lp', forM ops run_chan_op w = Ok (tt, w') /\ poller_inv w' l lp' /\
    forall c ch, w_channels w !! c = Some ch ->
      exists ch', w_channels w' !! c = Some ch' /\ ch_fd_ ch' = ch_fd_ ch /\
        ch_events_ ch' = events_after c ops (ch_events_ ch).
Proof. apply chan_ops_in_sync. Qed.

(** ** The values of [events_] *)

(** The four values that a channel can ask for. *)
Definition event_mask (ev : Z) : Prop :=
  ev = none_event_flag \/ ev = read_event_flag \/ ev = write_event_flag \/
  ev = Z.lor read_event_flag write_event_flag.

Lemma op_events_mask op ev : event_mask ev -> event_mask (op_events op ev).
Proof.
  unfold event_mask. intros Hev. destruct op; simpl; [| | | |by left|by left];
    destruct Hev as [->|[->|[->| ->]]]; (left; reflexivity) || (right; left; reflexivity) ||
    (right; right; left; reflexivity) || (right; right; right; reflexivity).
Qed.

Lemma events_after_mask c ops ev : event_mask ev -> event_mask (events_after c ops ev).
Proof.
  unfold events_after. revert ev. induction ops as [|op ops IH]; intros ev Hev; simpl; [done|].
  apply IH. case_decide; [by apply op_events_mask|done].
Qed.

(** C30: What a channel asks for is a mask.  [events_] is an [int] that is combined
    with [|=] and [&= ~], and is passed to epoll as an [uint32_t]: whatever
    operations run on channels whose [events_] is one of the four masks, it is one
    of them afterwards, in the range of [int], the conversion to [uint32_t] loses
    nothing, and [IsReading], [IsWriting] and [IsNoneEvent] tell the four apart. *)
Theorem channel_events_are_masks ops w l lp c ch :
  poller_inv w l lp -> distinct_fds w l -> w_tid w = lo_thread_id_ lp ->
  Forall (fun op => removable lp (op_chan op) /\
            exists ch, w_channels w !! op_chan op = Some ch /\ ch_event_loop_ ch = l) ops ->
  w_channels w !! c = Some ch -> event_mask (ch_events_ ch) ->
  exists w' ch', forM ops run_chan_op w = Ok (tt, w') /\ w_channels w' !! c = Some ch' /\
    let ev := ch_events_ ch' in
    event_mask ev /\ - 2 ^ 31 <= ev < 2 ^ 31 /\ s32 (u32 ev) = ev /\
    ev = Z.lor (if IsReading ch' then read_event_flag else 0) (if IsWriting ch' then write_event_flag else 0) /\
    IsNoneEvent ch' = negb (IsReading ch' || IsWriting ch').
Proof.
  intros Hinv Hd Ht Hops Hc Hm. destruct (chan_ops_in_sync ops w l lp Hinv Hd Ht Hops) as (w' & lp' & E & _ & Hch).
  destruct (Hch c ch Hc) as (ch' & Hc' & _ & Hev). exists w', ch'. split_and!; [done..|].
  assert (event_mask (ch_events_ ch')) as Hm' by (rewrite Hev; by apply events_after_mask).
  split; [done|]. unfold IsReading, IsWriting, IsNoneEvent. destruct Hm' as [->|[->|[->| ->]]]; by vm_compute.
Qed.
End invariant.

(** ** Dispatch of received events *)

Section dispatch.
Context `{Kernel}.
Implicit Types (w : World) (c : ptr) (ch : EventChannel).

Lemma has_flag_bit n ev : 0 <= n -> has_flag (2 ^ n) ev = Z.testbit ev n.
Proof.
  intros Hn. unfold has_flag. destruct (Z.testbit ev n) eqn:E.
  - apply negb_true_iff, Z.eqb_neq. intros Hz. apply (f_equal (fun z => Z.testbit z n)) in Hz.
    rewrite Z.land_spec, Z.pow2_bits_true, E, Z.bits_0 in Hz by done. done.
  - apply negb_false_iff, Z.eqb_eq. apply Z.bits_inj'. intros m Hm.
    rewrite Z.land_spec, Z.bits_0. destruct (decide (m = n)) as [->|Hne]; [by rewrite E, andb_false_r|].
    by rewrite Z.pow2_bits_false.
Qed.

Lemma has_flag_lor ev x y : has_flag ev (Z.lor x y) = has_flag ev x || has_flag ev y.
Proof.
  unfold has_flag. rewrite Z.land_lor_distr_r, <-negb_andb. f_equal. apply eq_true_iff_eq.
  rewrite andb_true_iff, !Z.eqb_eq. apply Z.lor_eq_0_iff.
Qed.

Lemma has_flag_comm x y : has_flag x y = has_flag y x.
Proof. unfold has_flag. by rewrite Z.land_comm. Qed.

(** The callbacks [HandleEvent] is to run, in order, from the bits of poll(2): POLLIN 0,
    POLLPRI 1, POLLOUT 2, POLLERR 3, POLLHUP 4, POLLNVAL 5, POLLRDHUP 13. *)
Definition dispatch ch : list channel_cb :=
  let bit := Z.testbit (ch_recieved_events ch) in
  (if bit 4 && negb (bit 0) then option_list (ch_close_event_cb_ ch) else []) ++
  (if bit 3 || bit 5 then option_list (ch_error_event_cb_ ch) else []) ++
  (if bit 0 || bit 1 || bit 13 then option_list (ch_read_event_cb_ ch) else []) ++
  (if bit 2 then option_list (ch_write_event_cb_ ch) else []).

Lemma event_tests ev :
  let bit := Z.testbit ev in
  is_close_event ev = bit 4 && negb (bit 0) /\ is_error_event ev = bit 3 || bit 5 /\
  is_read_event ev = bit 0 || bit 1 || bit 13 /\ is_write_event ev = bit 2.
Proof.
  assert (forall n, 0 <= n -> has_flag ev (2 ^ n) = Z.testbit ev n) as Hbit
    by (intros n Hn; rewrite has_flag_comm; by apply has_flag_bit).
  unfold is_close_event, is_error_event, is_read_event, is_write_event. rewrite (has_flag_comm POLLIN), !has_flag_lor.
  change POLLHUP with (2 ^ 4). change POLLIN with (2 ^ 0). change POLLERR with (2 ^ 3). change POLLNVAL with (2 ^ 5).
  change POLLPRI with (2 ^ 1). change POLLRDHUP with (2 ^ 13). change POLLOUT with (2 ^ 2). by rewrite !Hbit by lia.
Qed.

Definition same_callbacks ch ch' : Prop :=
  ch_recieved_events ch' = ch_recieved_events ch /\
  ch_read_event_cb_ ch' = ch_read_event_cb_ ch /\
  ch_write_event_cb_ ch' = ch_write_event_cb_ ch /\
  ch_close_event_cb_ ch' = ch_close_event_cb_ ch /\
  ch_error_event_cb_ ch' = ch_error_event_cb_ ch.

(** A callback keeps the channel alive, with its callbacks and its received
    events (it may change the interest and the status). *)
Definition keeps_channel (call : channel_cb -> M unit) c : Prop :=
  forall cb w w' ch, call cb w = Ok (tt, w') -> w_channels w !! c = Some ch ->
    exists ch', w_channels w' !! c = Some ch' /\ same_callbacks ch ch'.

Lemma forM_keeps call c l w w' ch :
  keeps_channel call c -> forM l call w = Ok (tt, w') -> w_channels w !! c = Some ch ->
  exists ch', w_channels w' !! c = Some ch' /\ same_callbacks ch ch'.
Proof.
  intros Hk. revert w ch. induction l as [|cb l IH]; intros w ch; simpl.
  - intros [= ->] ?. exists ch. unfold same_callbacks. by split_and!.
  - unfold bind. destruct (call cb w) as [[[] w1]|] eqn:E; [|done]. intros E' Hc.
    destruct (Hk _ _ _ _ E Hc) as (ch1 & Hc1 & Hs1).
    destruct (IH _ _ E' Hc1) as (ch' & Hc' & Hs'). exists ch'. split; [done|].
    unfold same_callbacks in *. naive_solver congruence.
Qed.

Lemma run_call_if call c test cb w ch :
  w_channels w !! c = Some ch ->
  call_if call c test cb w =
    forM (if test (ch_recieved_events ch) then option_list (cb ch) else []) call w.
Proof.
  intros Hc. unfold call_if. run1. unfold when. case_match; [|done].
  destruct (cb ch); simpl; [|done]. unfold bind, ret. by destruct (call c0 w) as [[[]]|].
Qed.

(** C18: What [HandleEvent] does with the received events, bit by bit: it runs, in this
    order, the close callback (POLLHUP without POLLIN), the error callback (POLLERR or
    POLLNVAL), the read callback (POLLIN, POLLPRI or POLLRDHUP) and the write callback
    (POLLOUT), each at most once and only if installed; when a callback faults, so does
    [HandleEvent].  The callbacks leave the channel alive, with its callbacks. *)
Theorem HandleEvent_dispatch call c w ch :
  w_channels w !! c = Some ch -> keeps_channel call c ->
  HandleEvent call c w = forM (dispatch ch) call w.
Proof.
  intros Hc Hk. unfold HandleEvent, dispatch. destruct (event_tests (ch_recieved_events ch)) as (<- & <- & <- & <-).
  rewrite forM_app. unfold bind.
  rewrite (run_call_if _ _ _ _ _ _ Hc).
  destruct (forM _ call w) as [[[] w1]|] eqn:E1; [|done].
  destruct (forM_keeps _ _ _ _ _ _ Hk E1 Hc) as (ch1 & Hc1 & Hr1 & Hrd1 & Hw1 & Hcl1 & He1).
  rewrite forM_app. unfold bind. rewrite (run_call_if _ _ _ _ _ _ Hc1), Hr1, He1.
  destruct (forM _ call w1) as [[[] w2]|] eqn:E2; [|done].
  destruct (forM_keeps _ _ _ _ _ _ Hk E2 Hc1) as (ch2 & Hc2 & Hr2 & Hrd2 & Hw2 & _).
  rewrite forM_app. unfold bind. rewrite (run_call_if _ _ _ _ _ _ Hc2), Hr2, Hrd2, Hr1, Hrd1.
  destruct (forM _ call w2) as [[[] w3]|] eqn:E3; [|done].
  destruct (forM_keeps _ _ _ _ _ _ Hk E3 Hc2) as (ch3 & Hc3 & Hr3 & _ & Hw3 & _).
  by rewrite (run_call_if _ _ _ _ _ _ Hc3), Hr3, Hw3, Hr2, Hw2, Hr1, Hw1.
Qed.
End dispatch.

(** A run that logs which callbacks it calls. *)
Definition log_call (cb : channel_cb) : St (@World RefKernel) unit :=
  match cb with
  | UserChannel_cb n => modify (fun w => set_w_trace (Channel_ev n :: w_trace w) w)
  | _ => ret tt
  end.

Lemma log_call_keeps c : keeps_channel log_call c.
Proof.
  intros cb w w' ch E Hc. exists ch. unfold same_callbacks. split; [|by split_and!].
  destruct cb; simpl in E; injection E as <-; done.
Qed.

(** Hang-up with writability: close first, then write; no read.  Hang-up with input: no
    close.  The peer's shutdown: read. *)
Definition demo_received (ev : Z) : @World RefKernel :=
  demo_world (demo_kernel ∅ ∅ []) {[7%positive := demo_channel 5 0 ev ADDED_CHANNEL]} ∅ ∅.

Lemma HandleEvent_dispatch_witness :
  outcome (fun _ => w_trace) (HandleEvent log_call 7 (demo_received (Z.lor POLLHUP POLLOUT))) = Some [Channel_ev 2; Channel_ev 3] /\
  outcome (fun _ => w_trace) (HandleEvent log_call 7 (demo_received (Z.lor POLLHUP POLLIN))) = Some [Channel_ev 1] /\
  outcome (fun _ => w_trace) (HandleEvent log_call 7 (demo_received POLLRDHUP)) = Some [Channel_ev 1].
Proof.
  split_and!; (erewrite (HandleEvent_dispatch log_call 7); [|reflexivity|apply log_call_keeps]); vm_compute; reflexivity.
Defined.

(** ** Polling *)

Section poll.
Context `{EpollLaws}.
Implicit Types (w : World) (l c : ptr) (lp : EventLoop) (ch : EventChannel).

(** The part of a channel the poller's invariant is about. *)
Definition registration ch : Z * Z * ChannelStatus * ptr :=
  (ch_fd_ ch, ch_events_ ch, ch_poller_status_ ch, ch_event_loop_ ch).

Lemma registration_inj ch ch' : registration ch' = registration ch ->
  ch_fd_ ch' = ch_fd_ ch /\ ch_events_ ch' = ch_events_ ch /\
  ch_poller_status_ ch' = ch_poller_status_ ch /\ ch_event_loop_ ch' = ch_event_loop_ ch.
Proof. by intros [= -> -> -> ->]. Qed.

(** The invariant depends on nothing else. *)
Lemma poller_inv_frame w w' l lp lp' :
  poller_inv w l lp ->
  w_loops w' !! l = Some lp' -> lo_thread_id_ lp' = lo_thread_id_ lp ->
  po_thread_id_ (lo_poller_ lp') = po_thread_id_ (lo_poller_ lp) ->
  po_evt_channel_list_ (lo_poller_ lp') = po_evt_channel_list_ (lo_poller_ lp) ->
  po_epoll_fd_ (lo_poller_ lp') = po_epoll_fd_ (lo_poller_ lp) ->
  (forall ep, k_interest (w_kern w') ep = k_interest (w_kern w) ep) ->
  (forall c, registration <$> w_channels w' !! c = registration <$> w_channels w !! c) ->
  poller_inv w' l lp'.
Proof.
  intros [] Hl Ht Hpt Htab Hep Hk Hreg.
  assert (forall c ch, w_channels w !! c = Some ch ->
    exists ch', w_channels w' !! c = Some ch' /\ registration ch' = registration ch) as Hfw.
  { intros c ch E. specialize (Hreg c). rewrite E in Hreg.
    destruct (w_channels w' !! c); [|done]. apply (inj Some) in Hreg. eauto. }
  assert (forall c ch', w_channels w' !! c = Some ch' ->
    exists ch, w_channels w !! c = Some ch /\ registration ch' = registration ch) as Hbw.
  { intros c ch E. specialize (Hreg c). rewrite E in Hreg.
    destruct (w_channels w !! c); [|done]. apply (inj Some) in Hreg. eauto. }
  split; rewrite ?Htab, ?Hpt; try congruence.
  - intros fd c E. destruct (pi_entry0 _ _ E) as (ch & Hc & ? & ? & ?).
    destruct (Hfw _ _ Hc) as (ch' & ? & (? & ? & ? & ?)%registration_inj).
    exists ch'. split_and!; congruence.
  - intros c ch' E Hlo Hst. destruct (Hbw _ _ E) as (ch & Hc & (Hfd & ? & ? & ?)%registration_inj).
    rewrite Hfd. apply pi_chan0; congruence.
  - intros fd. rewrite Hep, Hk, pi_kernel0. unfold expected_interest. rewrite Htab.
    destruct (po_evt_channel_list_ _ !! fd) as [c|]; simpl; [|done].
    destruct (w_channels w !! c) as [ch|] eqn:E; simpl.
    + destruct (Hfw _ _ E) as (ch' & -> & (_ & Hev & Hst & _)%registration_inj).
      simpl. unfold watched. by rewrite Hev, Hst.
    + destruct (w_channels w' !! c) as [ch'|] eqn:E'; [|done].
      destruct (Hbw _ _ E') as (? & ? & _). congruence.
Qed.

(** The invariant looks at three components of the world, ... *)
Lemma poller_inv_ext w w' l lp :
  poller_inv w l lp -> w_loops w' = w_loops w -> w_channels w' = w_channels w ->
  w_kern w' = w_kern w -> poller_inv w' l lp.
Proof. intros [] El Ec Ek. split; rewrite ?El, ?Ec, ?Ek; done. Qed.

(** ... and a channel that is not registered does not disturb it. *)
Lemma poller_inv_new_channel w l lp c ch :
  poller_inv w l lp -> w_channels w !! c = None -> ch_poller_status_ ch = NEW_CHANNEL ->
  poller_inv (set_w_channels (<[c := ch]> (w_channels w)) w) l lp.
Proof.
  intros [] Hc Hst. split; simpl; [done|done|..].
  - intros fd c' E. destruct (pi_entry0 _ _ E) as (ch' & Hc' & ?). exists ch'.
    rewrite lookup_insert_ne by congruence. done.
  - intros c' ch' [[<- <-]|[_ E]]%lookup_insert_Some; [done|]. by apply pi_chan0.
  - intros fd. rewrite pi_kernel0. unfold expected_interest.
    destruct (po_evt_channel_list_ _ !! fd) as [c'|] eqn:E; simpl; [|done].
    destruct (pi_entry0 _ _ E) as (ch' & Hc' & _). by rewrite lookup_insert_ne by congruence.
Qed.

(** ... nor does deleting it. *)
Lemma poller_inv_free_channel w l lp c ch :
  poller_inv w l lp -> w_channels w !! c = Some ch -> ch_poller_status_ ch = NEW_CHANNEL ->
  poller_inv (set_w_channels (delete c (w_channels w)) w) l lp.
Proof.
  intros [] Hc Hst. assert (forall fd c', po_evt_channel_list_ (lo_poller_ lp) !! fd = Some c' -> c' <> c) as Hne.
  { intros fd c' E ->. destruct (pi_entry0 _ _ E) as (ch' & Hc' & _ & _ & Hn). congruence. }
  split; simpl; [done|done|..].
  - intros fd c' E. rewrite lookup_delete_ne by (symmetry; eauto). eauto.
  - intros c' ch' [_ E]%lookup_delete_Some. by apply pi_chan0.
  - intros fd. rewrite pi_kernel0. unfold expected_interest.
    destruct (po_evt_channel_list_ _ !! fd) as [c'|] eqn:E; simpl; [|done].
    by rewrite lookup_delete_ne by (symmetry; eauto).
Qed.

(** What [RemoveFromLoop] comes to when its own assertions hold, and what becomes of
    it for a channel that the table does not have. *)
Lemma RemoveFromLoop_reaches_poller w l lp c ch :
  w_loops w !! l = Some lp -> w_channels w !! c = Some ch -> ch_event_loop_ ch = l ->
  w_tid w = lo_thread_id_ lp -> removable lp c ->
  RemoveFromLoop c w = EpollPoller_RemoveEventChannel l c w.
Proof.
  intros Hl Hc El Ht Hrem. unfold RemoveFromLoop, EventLoop_RemoveEventChannel.
  run1. rewrite El. do 3 run1. rewrite run_assert_owner by done.
  erewrite run_bind with (s' := w) (a := tt); [done|].
  unfold when. case_bool_decide; [|done]. apply run_assert.
  rewrite orb_true_iff, !bool_decide_eq_true. unfold removable in Hrem. naive_solver.
Qed.

Lemma run_RemoveEventChannel_absent w l lp c ch :
  w_loops w !! l = Some lp -> w_channels w !! c = Some ch -> w_tid w = po_thread_id_ (lo_poller_ lp) ->
  po_evt_channel_list_ (lo_poller_ lp) !! ch_fd_ ch = None ->
  EpollPoller_RemoveEventChannel l c w = Err AssertFailure.
Proof.
  intros Hl Hc Ht Htab. unfold EpollPoller_RemoveEventChannel. run1. rewrite run_assert_owner by done.
  run1. by rewrite bool_decide_eq_false_2 by congruence.
Qed.

(** The channels after the ready events [evs] have been recorded. *)
Definition received (evs : list (Z * ptr)) (chans : gmap ptr EventChannel)
    : gmap ptr EventChannel :=
  foldl (fun m e => alter (ch_set_recieved_events (s32 e.1)) e.2 m) chans evs.

(** The event of a channel that is reported once. *)
Lemma received_cons ev p evs (chans : gmap ptr EventChannel) :
  received ((ev, p) :: evs) chans = received evs (alter (ch_set_recieved_events (s32 ev)) p chans).
Proof. done. Qed.

Lemma received_other evs (chans : gmap ptr EventChannel) c :
  c ∉ evs.*2 -> received evs chans !! c = chans !! c.
Proof.
  revert chans. induction evs as [|[ev p] evs IH]; intros chans; [done|].
  cbn [fmap list_fmap snd]. rewrite not_elem_of_cons. intros [Hne Hin]. rewrite received_cons, IH by done. by apply lookup_alter_ne.
Qed.

Lemma received_once evs (chans : gmap ptr EventChannel) ev c ch :
  NoDup (evs.*2) -> (ev, c) ∈ evs -> chans !! c = Some ch ->
  received evs chans !! c = Some (ch_set_recieved_events (s32 ev) ch).
Proof.
  revert chans ch. induction evs as [|[ev' p] evs IH]; intros chans ch; [by intros _ ?%elem_of_nil|].
  cbn [fmap list_fmap snd]. intros Hnd [[= -> ->]|Hin]%elem_of_cons Hc;
    pose proof (NoDup_cons_1_1 _ _ Hnd) as Hp; apply NoDup_cons_1_2 in Hnd; rewrite received_cons.
  - rewrite received_other by done. by rewrite lookup_alter_eq, Hc.
  - apply IH; [done..|]. rewrite lookup_alter_ne; [done|]. intros <-. apply Hp.
    by apply (list_elem_of_fmap_2 snd) in Hin.
Qed.

Lemma received_registration evs chans c :
  registration <$> received evs chans !! c = registration <$> chans !! c.
Proof.
  revert chans. induction evs as [|[ev p] evs IH]; intros chans; [done|].
  unfold received in *; simpl. rewrite IH, lookup_alter. case_decide; subst; [|done].
  by destruct (chans !! c).
Qed.

Lemma alter_insert_Some {A} (f : A -> A) (m : gmap ptr A) i x :
  m !! i = Some x -> alter f i m = <[i := f x]> m.
Proof.
  intros E. apply map_eq. intros j. rewrite lookup_alter, lookup_insert.
  case_decide; subst; [by rewrite E|done].
Qed.

Lemma run_poll_steps l evs w lp :
  w_loops w !! l = Some lp -> Forall (fun e => is_Some (w_channels w !! e.2)) evs ->
  forM evs (poll_step l) w =
    Ok (tt, set_w_loops (<[l := lo_set_evt_channel_list_ (lo_evt_channel_list_ lp ++ evs.*2) lp]>
               (w_loops w)) (set_w_channels (received evs (w_channels w)) w)).
Proof.
  revert w lp. induction evs as [|[ev c] evs IH]; intros w lp Hl Hevs; simpl.
  - rewrite app_nil_r. replace (lo_set_evt_channel_list_ _ lp) with lp by (by destruct lp).
    rewrite insert_id by done. by destruct w.
  - apply Forall_cons_1 in Hevs as [[ch Hc] Hevs]. simpl in Hc.
    erewrite run_bind.
    2:{ unfold poll_step, SetRecievedEvent; simpl. do 2 run1. apply run_update. solve_lookup. }
    erewrite IH; [|solve_lookup|].
    + simpl. rewrite insert_insert_eq, <-app_assoc.
      rewrite <-(alter_insert_Some _ _ _ _ Hc). done.
    + eapply Forall_impl; [exact Hevs|]. intros [ev' c'] ?; simpl.
      rewrite lookup_insert_is_Some'. auto.
Qed.

Lemma run_EpollPoller_Poll w l lp timeout r k' :
  w_loops w !! l = Some lp -> w_tid w = po_thread_id_ (lo_poller_ lp) ->
  let po := lo_poller_ lp in
  sys_epoll_wait (po_epoll_fd_ po) (s32 (po_events_ready_size po)) timeout (w_kern w) = (r, k') ->
  EpollPoller_Poll l timeout w =
    match r with
    | SOk evs => bind (forM evs (poll_step l)) (fun _ =>
        when ((0 <? Z.of_nat (length evs)) && (Z.of_nat (length evs) =? po_events_ready_size po))
        (update l (fun lp : EventLoop => lo_set_poller_
           (po_set_events_ready_size (u64 (po_events_ready_size po * 2)) (lo_poller_ lp)) lp)))
        (set_w_kern k' w)
    | SErr e => Ok (tt, after_syscall (SErr e : sysres unit) k' w)
    end.
Proof.
  intros Hl Ht po Hw. unfold EpollPoller_Poll. run1. rewrite run_assert_owner by done.
  run1. fold po. rewrite Hw; simpl. by destruct r.
Qed.

(** The loop after a successful poll. *)
Definition polled_loop (evs : list (Z * ptr)) lp : EventLoop :=
  let size := po_events_ready_size (lo_poller_ lp) in
  let lp1 := lo_set_evt_channel_list_ (lo_evt_channel_list_ lp ++ evs.*2) lp in
  if (0 <? Z.of_nat (length evs)) && (Z.of_nat (length evs) =? size)
  then lo_set_poller_ (po_set_events_ready_size (u64 (size * 2)) (lo_poller_ lp1)) lp1
  else lp1.

Definition polled_world l lp (evs : list (Z * ptr)) k w : World :=
  set_w_loops (<[l := polled_loop evs lp]> (w_loops w))
    (set_w_channels (received evs (w_channels w)) (set_w_kern k w)).

(** Under the invariant the kernel hands out addresses of live channels only. *)
Lemma ready_channels_live w l lp n timeout evs k' :
  poller_inv w l lp ->
  sys_epoll_wait (po_epoll_fd_ (lo_poller_ lp)) n timeout (w_kern w) = (SOk evs, k') ->
  Forall (fun e => is_Some (w_channels w !! e.2)) evs.
Proof.
  intros Hinv Hw. destruct (epoll_wait_ok _ _ _ _ _ _ Hw) as (_ & Hreg).
  apply Forall_forall. intros [ev c] Hin%list_elem_of_In.
  destruct (Hreg _ _ Hin) as (fd & reg & E).
  rewrite (pi_kernel _ _ _ Hinv) in E. unfold expected_interest in E.
  apply bind_Some in E as (c' & _ & (ch & Hc & E)%bind_Some).
  unfold watched in E. case_decide; simplify_eq. eauto.
Qed.

Lemma Poll_ok w l lp timeout evs k' :
  poller_inv w l lp -> w_tid w = lo_thread_id_ lp ->
  let po := lo_poller_ lp in
  sys_epoll_wait (po_epoll_fd_ po) (s32 (po_events_ready_size po)) timeout (w_kern w)
    = (SOk evs, k') ->
  EpollPoller_Poll l timeout w = Ok (tt, polled_world l lp evs k' w) /\
  poller_inv (polled_world l lp evs k' w) l (polled_loop evs lp).
Proof.
  intros Hinv Ht po Hw. pose proof (pi_loop _ _ _ Hinv) as Hl. split.
  - rewrite (run_EpollPoller_Poll w l lp timeout _ _ Hl) with (2 := Hw)
      by (rewrite Ht; apply Hinv). fold po.
    erewrite run_bind
      by (apply run_poll_steps; [done|by eapply (ready_channels_live w)]).
    unfold polled_world, polled_loop, when. fold po. case_match; [|done].
    erewrite run_update by solve_lookup. simpl. by rewrite insert_insert_eq.
  - pose proof (epoll_wait_frame (po_epoll_fd_ po) (s32 (po_events_ready_size po)) timeout
      (w_kern w)) as Hint. rewrite Hw in Hint.
    eapply poller_inv_frame; [exact Hinv|by simpl; rewrite lookup_insert_eq|..];
      try (by unfold polled_loop; case_match); [exact Hint|].
    apply received_registration.
Qed.

(** C17: One call of [Poll].  Under the invariant no pointer it gets from the
    kernel dangles: the channels of the ready events are appended to the active
    list in the kernel's order, each with its received events recorded, nothing
    else of any channel changes, the invariant is kept, and the event array
    doubles exactly when it was filled; on an error (EINTR or other) nothing but
    errno changes. *)
Theorem Poll_collects_ready_events w l lp timeout :
  poller_inv w l lp -> w_tid w = lo_thread_id_ lp ->
  let po := lo_poller_ lp in
  match sys_epoll_wait (po_epoll_fd_ po) (s32 (po_events_ready_size po)) timeout (w_kern w) with
  | (SErr e, k') => EpollPoller_Poll l timeout w = Ok (tt, after_syscall (SErr e : sysres unit) k' w)
  | (SOk evs, k') =>
      exists w' lp', EpollPoller_Poll l timeout w = Ok (tt, w') /\
        poller_inv w' l lp' /\
        lo_evt_channel_list_ lp' = lo_evt_channel_list_ lp ++ evs.*2 /\
        w_channels w' = received evs (w_channels w) /\
        po_events_ready_size (lo_poller_ lp') =
          (if (0 <? Z.of_nat (length evs)) && (Z.of_nat (length evs) =? po_events_ready_size po)
           then u64 (po_events_ready_size po * 2) else po_events_ready_size po)
  end.
Proof.
  intros Hinv Ht po. destruct (sys_epoll_wait _ _ _ _) as [[evs|e] k'] eqn:Hw.
  - destruct (Poll_ok w l lp timeout evs k') as [E Hinv']; [done..|].
    exists (polled_world l lp evs k' w), (polled_loop evs lp). split; [done|].
    split; [done|]. unfold polled_loop. fold po. by case_match.
  - rewrite (run_EpollPoller_Poll w l lp timeout _ _ (pi_loop _ _ _ Hinv)) with (2 := Hw); [done|].
    rewrite Ht. apply Hinv.
Qed.
End poll.

Section poller_claims.
Context `{EpollReliable}.
Implicit Types (w : World) (l c : ptr) (lp : EventLoop) (ch : EventChannel).

(** Taking a channel out of its loop works from every state.  Whether the
    channel was never registered, is registered, or was dropped from epoll,
    [DisableAll] followed by [RemoveFromLoop] runs without a failed assertion and
    leaves the channel [NEW_CHANNEL] without events, its descriptor absent from
    the poller's table and from the kernel's interest list, and every other
    channel untouched. *)
Theorem unregister_from_any_state w l lp c ch :
  poller_inv w l lp -> channel_of w l lp c ch -> removable lp c ->
  exists w' lp' ch', (do! DisableAll c; RemoveFromLoop c) w = Ok (tt, w') /\
    poller_inv w' l lp' /\
    w_channels w' = <[c := ch']> (w_channels w) /\
    ch_poller_status_ ch' = NEW_CHANNEL /\ IsNoneEvent ch' = true /\
    po_evt_channel_list_ (lo_poller_ lp') !! ch_fd_ ch = None /\
    k_interest (w_kern w') (po_epoll_fd_ (lo_poller_ lp)) !! ch_fd_ ch = None.
Proof.
  intros Hinv Hco Hrem.
  destruct (Unregister_correct w l lp c ch)
    as (w' & lp' & ch' & E & Hinv' & Hco' & _ & Hw & -> & Hk); [done..|].
  exists w', lp', (ch_set_poller_status_ NEW_CHANNEL (ch_set_events_ none_event_flag ch)).
  split_and!; [done|done| |done|done| |done].
  - by rewrite Hw.
  - by apply (co_fresh _ _ _ _ _ Hco').
Qed.

(** [DisableAll] is not idempotent.  Called twice on a registered channel (as
    when a connection's close handler runs twice) it puts the descriptor back
    into the kernel's interest list, with an empty event mask, and the channel
    counts as added again: errors and hang-ups would be reported once more. *)
Theorem DisableAll_twice_reregisters w l lp c ch :
  poller_inv w l lp -> channel_of w l lp c ch -> ch_poller_status_ ch = ADDED_CHANNEL ->
  exists w1 w2 ch2, DisableAll c w = Ok (tt, w1) /\ DisableAll c w1 = Ok (tt, w2) /\
    k_interest (w_kern w1) (po_epoll_fd_ (lo_poller_ lp)) !! ch_fd_ ch = None /\
    w_channels w2 !! c = Some ch2 /\ ch_poller_status_ ch2 = ADDED_CHANNEL /\
    k_interest (w_kern w2) (po_epoll_fd_ (lo_poller_ lp)) !! ch_fd_ ch = Some (0, c).
Proof.
  intros Hinv Hco Hst.
  destruct (set_interest_correct (fun _ => none_event_flag) w l lp c ch)
    as (w1 & E1 & Hinv1 & Hco1 & _); [done..|].
  pose proof (watched_kernel _ _ _ _ _ Hinv1 Hco1) as Hk1.
  destruct (set_interest_correct (fun _ => none_event_flag) w1 l _ c _ Hinv1 Hco1)
    as (w2 & E2 & Hinv2 & Hco2 & _).
  pose proof (watched_kernel _ _ _ _ _ Hinv2 Hco2) as Hk2.
  unfold watched in Hk1, Hk2; simpl in Hk1, Hk2. rewrite Hst in Hk1, Hk2.
  exists w1, w2. eexists. split; [done|]. split; [done|]. split; [exact Hk1|].
  split; [apply Hco2|]. split; [|exact Hk2].
  simpl. by rewrite Hst.
Qed.
End poller_claims.

(** ** Witnesses *)

Definition demo_reg (ev : Z) (script : list (list (Z * ptr))) : @World RefKernel :=
  demo_world (demo_kernel ∅ {[5 := (u32 ev, 7%positive)]} script)
    {[7%positive := demo_channel 5 ev 0 ADDED_CHANNEL]}
    {[1%positive := demo_loop {[5 := 7%positive]} [] []]} ∅.

Lemma demo_reg_inv ev script :
  poller_inv (demo_reg ev script) 1 (demo_loop {[5 := 7%positive]} [] []).
Proof.
  split; simpl; [done|done|..].
  - intros fd c [<- <-]%lookup_singleton_Some. eexists. by split_and!.
  - by intros c ch [<- <-]%lookup_singleton_Some.
  - intros fd. unfold expected_interest; simpl.
    destruct (decide (fd = 5)) as [->|Hne]; [done|].
    change (({[5 := (u32 ev, 7%positive)]} : gmap Z (Z * ptr)) !! fd =
      (c ← ({[5 := 7%positive]} : gmap Z ptr) !! fd;
       ch ← w_channels (demo_reg ev script) !! c; watched ch c)).
    by rewrite !lookup_singleton_ne by done.
Qed.

Lemma demo_reg_channel ev script :
  channel_of (demo_reg ev script) 1 (demo_loop {[5 := 7%positive]} [] []) 7
    (demo_channel 5 ev 0 ADDED_CHANNEL).
Proof. by split. Qed.

Lemma demo_reg_distinct ev script : distinct_fds (demo_reg ev script) 1.
Proof.
  intros c1 c2 ch1 ch2; simpl.
  by intros [<- <-]%lookup_singleton_Some [<- <-]%lookup_singleton_Some.
Qed.

Lemma poller_stays_in_sync_witness :
  exists w' lp', forM [EnableReading_op 7; EnableWriting_op 7; DisableReading_op 7]
      run_chan_op (demo_reg 0 []) = Ok (tt, w') /\ poller_inv w' 1 lp' /\
    exists ch', w_channels w' !! 7%positive = Some ch' /\ ch_events_ ch' = EPOLLOUT.
Proof.
  destruct (poller_stays_in_sync [EnableReading_op 7; EnableWriting_op 7; DisableReading_op 7]
    (demo_reg 0 []) 1 _ (demo_reg_inv 0 []) (demo_reg_distinct 0 []) eq_refl)
    as (w' & lp' & E & Hinv & Hev).
  - repeat constructor; try (by left); eexists; by split.
  - exists w', lp'. split; [exact E|]. split; [exact Hinv|].
    destruct (Hev 7%positive (demo_channel 5 0 0 ADDED_CHANNEL) eq_refl) as (ch' & Hc & _ & Hch).
    exists ch'. split; [exact Hc|]. rewrite Hch. vm_compute. reflexivity.
Defined.

Lemma channel_events_are_masks_witness :
  exists w' ch', forM [EnableReading_op 7; EnableWriting_op 7] run_chan_op (demo_reg 0 []) = Ok (tt, w') /\
    w_channels w' !! 7%positive = Some ch' /\ s32 (u32 (ch_events_ ch')) = ch_events_ ch'.
Proof.
  destruct (channel_events_are_masks [EnableReading_op 7; EnableWriting_op 7] (demo_reg 0 []) 1 _ 7
    (demo_channel 5 0 0 ADDED_CHANNEL) (demo_reg_inv 0 []) (demo_reg_distinct 0 []) eq_refl)
    as (w' & ch' & E & Hc & _ & _ & Hs & _).
  - repeat constructor; try (by left); eexists; by split.
  - reflexivity.
  - by left.
  - exists w', ch'. split; [exact E|]. split; [exact Hc|exact Hs].
Defined.

Lemma unregister_from_any_state_witness :
  exists w' lp' ch', (do! DisableAll 7; RemoveFromLoop 7) (demo_reg read_event_flag []) = Ok (tt, w') /\
    poller_inv w' 1 lp' /\ w_channels w' !! 7%positive = Some ch' /\
    ch_poller_status_ ch' = NEW_CHANNEL.
Proof.
  destruct (unregister_from_any_state _ _ _ _ _ (demo_reg_inv read_event_flag [])
    (demo_reg_channel read_event_flag [])) as (w' & lp' & ch' & E & Hinv & Hc & Hst & _).
  - by left.
  - exists w', lp', ch'. rewrite Hc, lookup_insert_eq. by split_and!.
Defined.

Lemma DisableAll_twice_reregisters_witness :
  exists w1 w2, DisableAll 7 (demo_reg read_event_flag []) = Ok (tt, w1) /\
    DisableAll 7 w1 = Ok (tt, w2) /\
    k_interest (w_kern w1) 3 !! 5 = None /\ k_interest (w_kern w2) 3 !! 5 = Some (0, 7%positive).
Proof.
  destruct (DisableAll_twice_reregisters _ _ _ _ _ (demo_reg_inv read_event_flag [])
    (demo_reg_channel read_event_flag []) eq_refl) as (w1 & w2 & ch2 & E1 & E2 & H1 & _ & _ & H2).
  exists w1, w2. by split_and!.
Defined.

Lemma Poll_collects_ready_events_witness :
  outcome (fun _ w => lo_evt_channel_list_ <$> w_loops w !! 1%positive)
    (EpollPoller_Poll 1 0 (demo_reg EPOLLIN [[(1, 7%positive); (4, 9%positive)]])) =
  Some (Some [7%positive]).
Proof.
  destruct (Poll_collects_ready_events _ 1 _ 0
    (demo_reg_inv EPOLLIN [[(1, 7%positive); (4, 9%positive)]]) eq_refl)
    as (w' & lp' & E & Hinv & Hl & _).
  rewrite E; simpl. rewrite (pi_loop _ _ _ Hinv). simpl. rewrite Hl. vm_compute. reflexivity.
Defined.
