(* ===== verification/EventLoop.v ===== *)
(** * EventLoop: the reactor's loop and its task queue

    Models [EventLoop] (event_loop.h/.cpp).  Running a callback of a channel
    ([call]), running a queued task ([exec]) and dropping the references a task
    held ([release]) are parameters of this file: Reactor.v ties them to the
    connections, servers and clients.  The task queue is the list of its
    elements, what [moodycamel::ReaderWriterQueue] promises to its one producer
    and one consumer. *)

From stdpp Require Import base list gmap strings numbers.
From Stdlib Require Import ZArith Lia Init.Byte.
From S2P Require Import Prelude Buffer Kernel RefKernel State World Demo Poller.

Open Scope np_scope.

Section operations.
Context `{Kernel}.

(** ** Construction and destruction *)

Definition EPOLL_CLOEXEC : Z := 0x80000.
Definition EFD_NONBLOCK_CLOEXEC : Z := 0x80800.

(** The constructor of the base class looks at the owner of the loop. *)
Definition Poller_new (thread_id : tid) : M unit := assert_owner thread_id.

Definition EpollPoller_new (thread_id : tid) : M EpollPoller :=
  do! Poller_new thread_id;
  let! fd := syscall_int (sys_epoll_create1 EPOLL_CLOEXEC) in
  ret (mkEpollPoller thread_id ∅ fd 16).

Definition EpollPoller_destroy (po : EpollPoller) : M unit :=
  let! _ := syscall (sys_close (po_epoll_fd_ po)) in
  ret tt.

(** [Poller::NewPoller(this)] *)
Definition NewPoller (thread_id : tid) : M EpollPoller := EpollPoller_new thread_id.

(** [active] is the indeterminate initial value of [evt_channel_active_]. *)
Definition EventLoop_new (name : string) (active : option ptr) : M ptr :=
  let! t := this_thread in
  let! po := NewPoller t in
  let! wfd := syscall_int (sys_eventfd 0 EFD_NONBLOCK_CLOEXEC) in
  let! l := gets w_next in
  do! modify (set_w_next (Pos.succ l));
  let! c := EventChannel_new l wfd in
  do! store l (mkEventLoop t name false false po wfd c [] active []);
  let! cur := gets (fun w => w_evt_loop_this_thread w !! t) in
  do! assert_ (bool_decide (cur = None));
  do! modify (fun w => set_w_evt_loop_this_thread (<[t := l]> (w_evt_loop_this_thread w)) w);
  do! SetReadEventCallBack c (HandleWakeupEvent_cb l);
  do! EnableReading c;
  ret l.

(** The destructor, with that of the member [poller_]; the wake-up channel is
    not deleted. *)
Definition EventLoop_destroy (l : ptr) : M unit :=
  let! lp := load (T := EventLoop) l in
  do! DisableAll (lo_wakeup_channel_ lp);
  do! RemoveFromLoop (lo_wakeup_channel_ lp);
  let! _ := syscall (sys_close (lo_wakeup_fd_ lp)) in
  do! update l (lo_set_wakeup_fd_ 0);
  let! t := this_thread in
  do! modify (fun w => set_w_evt_loop_this_thread (delete t (w_evt_loop_this_thread w)) w);
  do! EpollPoller_destroy (lo_poller_ lp);
  free (T := EventLoop) l.

(** ** Tasks *)

Definition IsInLoopThread (l : ptr) : M bool :=
  let! lp := load (T := EventLoop) l in IsOwnerThread (lo_thread_id_ lp).

Lemma run_IsInLoopThread l lp w :
  w_loops w !! l = Some lp ->
  IsInLoopThread l w = Ok (bool_decide (w_tid w = lo_thread_id_ lp), w).
Proof. intros Hl. unfold IsInLoopThread. by run1. Qed.

Definition QueueInLoop (l : ptr) (callback : task) : M unit :=
  update l (fun lp => lo_set_queue_task_funcs_ (lo_queue_task_funcs_ lp ++ [callback]) lp).

Definition RunInLoop (exec : task -> M unit) (l : ptr) (callback : task) : M unit :=
  let! b := IsInLoopThread l in
  if b then exec callback else QueueInLoop l callback.

(** At most one task per call; [release] is the end of life of the local
    [Functor]. *)
Definition RunTaskFuncs (exec release : task -> M unit) (l : ptr) : M unit :=
  let! lp := load (T := EventLoop) l in
  match lo_queue_task_funcs_ lp with
  | [] => ret tt
  | t :: rest =>
      do! store l (lo_set_queue_task_funcs_ rest lp);
      do! exec t;
      release t
  end.

(** ** Wake-up

    [uint32_t one] is written without having been initialised: four bytes of
    whatever value. *)
Definition Wakeup (l : ptr) (one : list byte) : M unit :=
  let! lp := load (T := EventLoop) l in
  let! _ := syscall (sys_write (lo_wakeup_fd_ lp) (take 4 one)) in
  ret tt.

Definition HandleWakeupEvent (l : ptr) : M unit :=
  let! lp := load (T := EventLoop) l in
  let! _ := syscall (sys_read (lo_wakeup_fd_ lp) 4) in
  ret tt.

Definition Quit (l : ptr) (one : list byte) : M unit :=
  do! update l (lo_set_quit_ true);
  let! b := IsInLoopThread l in
  when (negb b) (Wakeup l one).

(** ** The loop *)

Definition set_active (l : ptr) (c : option ptr) : M unit :=
  update l (lo_set_evt_channel_active_ c).

Definition HandleEventContext (call : channel_cb -> M unit) (l : ptr) (ctx_list : list ptr)
    : M unit :=
  do! set_active l None;
  do! forM ctx_list (fun ctx => do! set_active l (Some ctx); HandleEvent call ctx);
  set_active l None.

Definition loop_iteration (call : channel_cb -> M unit) (exec release : task -> M unit) (l : ptr)
    : M unit :=
  do! update l (lo_set_evt_channel_list_ []);
  do! EpollPoller_Poll l 0;
  let! lp := load (T := EventLoop) l in
  do! HandleEventContext call l (lo_evt_channel_list_ lp);
  RunTaskFuncs exec release l.

(** [fuel] bounds the number of iterations. *)
Fixpoint while_not_quit (call : channel_cb -> M unit) (exec release : task -> M unit)
    (fuel : nat) (l : ptr) : M unit :=
  let! lp := load (T := EventLoop) l in
  if lo_quit_ lp then ret tt
  else match fuel with
       | O => throw OutOfFuel
       | S fuel' =>
           do! loop_iteration call exec release l;
           while_not_quit call exec release fuel' l
       end.

Definition Loop (call : channel_cb -> M unit) (exec release : task -> M unit)
    (fuel : nat) (l : ptr) : M unit :=
  do! update l (lo_set_looping_ true);
  do! update l (lo_set_quit_ false);
  do! while_not_quit call exec release fuel l;
  update l (lo_set_looping_ false).
End operations.

(** ** What the loop changes by itself

    [bookkeeping l w w'] says that between [w] and [w'] the loop [l] only
    polled, recorded received events and set its iteration variables
    ([evt_channel_list_], [evt_channel_active_], the size of the event array). *)

Section contract.
Context `{EpollLaws}.
Implicit Types (w : World) (l c : ptr) (lp : EventLoop) (ch : EventChannel).

Definition loop_core lp :=
  (lo_thread_id_ lp, lo_name_ lp, lo_quit_ lp, lo_looping_ lp, lo_wakeup_fd_ lp,
   lo_wakeup_channel_ lp, lo_queue_task_funcs_ lp,
   (po_thread_id_ (lo_poller_ lp), po_evt_channel_list_ (lo_poller_ lp),
    po_epoll_fd_ (lo_poller_ lp))).

Definition channel_core ch :=
  (registration ch, ch_read_event_cb_ ch, ch_write_event_cb_ ch, ch_close_event_cb_ ch,
   ch_error_event_cb_ ch).

Definition polled (k k' : kstate) : Prop :=
  exists ep n t, k' = (sys_epoll_wait ep n t k).2.

Record bookkeeping l w w' : Prop := {
  bk_rest : w' = set_w_kern (w_kern w') (set_w_errno (w_errno w')
                  (set_w_loops (w_loops w') (set_w_channels (w_channels w') w)));
  bk_kern : rtc polled (w_kern w) (w_kern w');
  bk_loops l' : l' <> l -> w_loops w' !! l' = w_loops w !! l';
  bk_loop : loop_core <$> w_loops w' !! l = loop_core <$> w_loops w !! l;
  bk_chan c : channel_core <$> w_channels w' !! c = channel_core <$> w_channels w !! c
}.

#[global] Instance bookkeeping_preorder l : PreOrder (bookkeeping l).
Proof.
  split.
  - intros w. split; [by destruct w|done..].
  - intros w1 w2 w3 [R1 K1 L1 O1 C1] [R2 K2 L2 O2 C2]. split.
    + rewrite R2 at 1. rewrite R1. done.
    + by etrans.
    + intros l' Hl'. by rewrite L2, L1.
    + by rewrite O2.
    + intros c. by rewrite C2.
Qed.

Lemma bookkeeping_loop l w lp lp' :
  w_loops w !! l = Some lp -> loop_core lp' = loop_core lp ->
  bookkeeping l w (set_w_loops (<[l := lp']> (w_loops w)) w).
Proof.
  intros Hl Hc. split; [by destruct w|done| | |done]; simpl.
  - intros l' Hl'. by rewrite lookup_insert_ne.
  - rewrite lookup_insert_eq, Hl; simpl. by rewrite Hc.
Qed.

Lemma received_core evs (chans : gmap ptr EventChannel) c :
  channel_core <$> received evs chans !! c = channel_core <$> chans !! c.
Proof.
  revert chans. induction evs as [|[ev p] evs IH]; intros chans; [done|].
  unfold received in *; simpl. rewrite IH, lookup_alter. case_decide; subst; [|done].
  by destruct (chans !! c).
Qed.

(** A poll that succeeds, and one that fails. *)
Lemma polled_loop_core evs lp : loop_core (polled_loop evs lp) = loop_core lp.
Proof. unfold polled_loop. by case_match. Qed.

Lemma polled_bookkeeping l w lp evs k' :
  w_loops w !! l = Some lp -> polled (w_kern w) k' -> bookkeeping l w (polled_world l lp evs k' w).
Proof.
  intros Hl Hp. split; simpl; [by destruct w|by apply rtc_once| | |intros c; apply received_core].
  - intros l' Hne. by rewrite lookup_insert_ne.
  - rewrite lookup_insert_eq, Hl; simpl. by rewrite polled_loop_core.
Qed.

Lemma failed_poll_bookkeeping {A} l w (r : sysres A) k' :
  polled (w_kern w) k' -> bookkeeping l w (after_syscall r k' w).
Proof.
  intros Hp. split; autorewrite with world; try done; [by destruct r, w|by apply rtc_once].
Qed.

(** A loop with its invariant, on its own thread. *)
Definition loop_inv w l lp : Prop := poller_inv w l lp /\ w_tid w = lo_thread_id_ lp.

Lemma polled_interest k k' ep : rtc polled k k' -> k_interest k' ep = k_interest k ep.
Proof.
  induction 1 as [|k1 k2 k3 (ep' & n & t & ->) _ IH]; [done|].
  by rewrite IH, epoll_wait_frame.
Qed.

Lemma bookkeeping_inv l w w' lp :
  loop_inv w l lp -> bookkeeping l w w' ->
  exists lp', loop_inv w' l lp' /\ loop_core lp' = loop_core lp.
Proof.
  intros [Hinv Ht] [R K L O C]. pose proof (pi_loop _ _ _ Hinv) as Hl. rewrite Hl in O.
  destruct (w_loops w' !! l) as [lp'|] eqn:Hl'; [|done].
  apply (inj Some) in O. exists lp'. split; [|done]. injection O as ??????????.
  split; [|rewrite R; simpl; congruence].
  eapply poller_inv_frame; [exact Hinv|done..| |].
  - intros ep. by apply polled_interest.
  - intros c. specialize (C c).
    destruct (w_channels w' !! c), (w_channels w !! c); try done; simpl in *.
    injection C as ????????. unfold registration. congruence.
Qed.

(** ** The contract of the code the loop runs

    [Inv done w] is an invariant of the client, with the tasks run so far.  A
    callback is called for the channel whose event is being handled; it may
    queue tasks and set [quit_], and frees no channel.  A task may free
    channels too: it runs when no event is being handled. *)
Definition extends l (frees : bool) w w' lp lp' : Prop :=
  w_loops w' !! l = Some lp' /\
  (exists new, lo_queue_task_funcs_ lp' = lo_queue_task_funcs_ lp ++ new) /\
  (lo_quit_ lp = true -> lo_quit_ lp' = true) /\
  lo_evt_channel_active_ lp' = lo_evt_channel_active_ lp /\
  (frees = false -> forall c, is_Some (w_channels w !! c) -> is_Some (w_channels w' !! c)).

Definition installed ch (cb : channel_cb) : Prop :=
  ch_read_event_cb_ ch = Some cb \/ ch_write_event_cb_ ch = Some cb \/
  ch_close_event_cb_ ch = Some cb \/ ch_error_event_cb_ ch = Some cb.

Definition popped l lp (rest : list task) w : World :=
  set_w_loops (<[l := lo_set_queue_task_funcs_ rest lp]> (w_loops w)) w.

Class LoopClient (l : ptr) (call : channel_cb -> M unit) (exec release : task -> M unit)
    (Inv : list task -> World -> Prop) := {
  lc_frame done w w' : Inv done w -> bookkeeping l w w' -> Inv done w';
  lc_flags done w lp looping quit :
    Inv done w -> w_loops w !! l = Some lp ->
    Inv done (set_w_loops (<[l := lo_set_quit_ quit (lo_set_looping_ looping lp)]> (w_loops w)) w);
  lc_call done w lp c ch cb :
    Inv done w -> loop_inv w l lp -> lo_evt_channel_active_ lp = Some c ->
    w_channels w !! c = Some ch -> installed ch cb ->
    wp (call cb) (fun _ w' => Inv done w' /\
      exists lp', loop_inv w' l lp' /\ extends l false w w' lp lp') w;
  lc_task done w lp t rest :
    Inv done w -> loop_inv w l lp -> lo_evt_channel_active_ lp = None ->
    lo_queue_task_funcs_ lp = t :: rest ->
    wp (do! exec t; release t) (fun _ w' => Inv (done ++ [t]) w' /\
      exists lp', loop_inv w' l lp' /\
        extends l true (popped l lp rest w) w' (lo_set_queue_task_funcs_ rest lp) lp')
      (popped l lp rest w)
}.

Lemma extends_trans l b w1 w2 w3 lp1 lp2 lp3 :
  extends l b w1 w2 lp1 lp2 -> extends l b w2 w3 lp2 lp3 -> extends l b w1 w3 lp1 lp3.
Proof.
  intros (_ & [n1 E1] & Q1 & A1 & C1) (L & [n2 E2] & Q2 & A2 & C2).
  split_and!; [done| |auto|congruence|auto].
  exists (n1 ++ n2). by rewrite E2, E1, app_assoc.
Qed.

Lemma extends_refl l b w lp : w_loops w !! l = Some lp -> extends l b w w lp lp.
Proof. intros. split_and!; auto. exists []. by rewrite app_nil_r. Qed.
End contract.

Section iterations.
Context `{EpollLaws} {l : ptr} {call : channel_cb -> M unit} {exec release : task -> M unit}
  {Inv : list task -> World -> Prop} `{!LoopClient l call exec release Inv}.
Implicit Types (w : World) (c : ptr) (lp : EventLoop) (ch : EventChannel).

(** The queue only grew, and [quit_] was not taken back. *)
Definition grows lp lp' : Prop :=
  (exists new, lo_queue_task_funcs_ lp' = lo_queue_task_funcs_ lp ++ new) /\
  (lo_quit_ lp = true -> lo_quit_ lp' = true).

#[local] Instance grows_preorder : PreOrder grows.
Proof.
  split.
  - intros lp. split; [exists []; by rewrite app_nil_r|done].
  - intros lp1 lp2 lp3 [[n1 E1] Q1] [[n2 E2] Q2]. split; [|auto].
    exists (n1 ++ n2). by rewrite E2, E1, app_assoc.
Qed.

Lemma grows_core lp lp' : loop_core lp' = loop_core lp -> grows lp lp'.
Proof. intros [=]. split; [exists []; rewrite app_nil_r|]; congruence. Qed.

Lemma extends_grows b w w' lp lp' : extends l b w w' lp lp' -> grows lp lp'.
Proof. intros (_ & ? & ? & _). by split. Qed.

Lemma wp_call_if done w lp c ch test cb :
  Inv done w -> loop_inv w l lp -> lo_evt_channel_active_ lp = Some c ->
  w_channels w !! c = Some ch -> (forall f, cb ch = Some f -> installed ch f) ->
  wp (call_if call c test cb) (fun _ w' => Inv done w' /\
    exists lp', loop_inv w' l lp' /\ extends l false w w' lp lp') w.
Proof.
  intros HI Hl Ha Hc Hcb. unfold call_if. wp_simpl. exists ch. split; [done|]. wp_simpl.
  assert (Inv done w /\ exists lp', loop_inv w l lp' /\ extends l false w w lp lp').
  { split; [done|]. exists lp. split; [done|]. apply extends_refl, Hl. }
  case_match; [|done]. destruct (cb ch) as [f|] eqn:E; [|done].
  eapply lc_call; eauto.
Qed.

(** One guarded call, in a sequence of them begun in [w]. *)
Lemma wp_call_if_then done w lp c test cb w1 lp1 (m : M unit) Q :
  is_Some (w_channels w !! c) -> lo_evt_channel_active_ lp = Some c ->
  (forall ch f, cb ch = Some f -> installed ch f) ->
  Inv done w1 -> loop_inv w1 l lp1 -> extends l false w w1 lp lp1 ->
  (forall w2 lp2, Inv done w2 -> loop_inv w2 l lp2 -> extends l false w w2 lp lp2 -> wp m Q w2) ->
  wp (do! call_if call c test cb; m) Q w1.
Proof.
  intros Hc Ha Hcb HI1 Hl1 Hx Hm. apply wp_bind.
  pose proof Hx as (_ & _ & _ & Hact & Hliv). destruct (Hliv eq_refl c Hc) as [ch Hch].
  eapply wp_mono; [eapply wp_call_if; [done..|by rewrite Hact|done|by apply Hcb]|].
  intros _ w2 (HI2 & lp2 & Hl2 & Hx2). eapply Hm; [done..|by eapply extends_trans].
Qed.

Lemma wp_HandleEvent done w lp c :
  Inv done w -> loop_inv w l lp -> lo_evt_channel_active_ lp = Some c ->
  is_Some (w_channels w !! c) ->
  wp (HandleEvent call c) (fun _ w' => Inv done w' /\
    exists lp', loop_inv w' l lp' /\ extends l false w w' lp lp') w.
Proof.
  intros HI Hl Ha Hc. unfold HandleEvent.
  eapply (wp_call_if_then done w lp);
    [done|done|unfold installed; by auto|done|done|apply extends_refl, Hl|].
  do 2 (intros ? ? ? ? ?; eapply (wp_call_if_then done w lp);
    [done|done|unfold installed; by auto|done..|]).
  intros w3 lp3 HI3 Hl3 Hx. pose proof Hx as (_ & _ & _ & Hact & Hliv).
  destruct (Hliv eq_refl c Hc) as [ch Hch].
  eapply wp_mono; [eapply wp_call_if; [done..|by rewrite Hact|done|unfold installed; by auto]|].
  intros _ w4 (HI4 & lp4 & Hl4 & Hx4). split; [done|]. exists lp4. split; [done|].
  by eapply extends_trans.
Qed.

(** The loop's own updates keep everything. *)
Lemma own_update done w lp f :
  Inv done w -> loop_inv w l lp -> loop_core (f lp) = loop_core lp ->
  exists w', update (T := EventLoop) l f w = Ok (tt, w') /\ Inv done w' /\ loop_inv w' l (f lp) /\
    w_channels w' = w_channels w.
Proof.
  intros HI Hl Hf. pose proof (pi_loop _ _ _ (proj1 Hl)) as E.
  exists (set_w_loops (<[l := f lp]> (w_loops w)) w).
  assert (bookkeeping l w (set_w_loops (<[l := f lp]> (w_loops w)) w)) as B
    by by eapply bookkeeping_loop.
  split_and!; [exact (run_update l f lp w E)|by eapply lc_frame| |done].
  destruct (bookkeeping_inv _ _ _ _ Hl B) as (lp' & Hl' & _).
  pose proof (pi_loop _ _ _ (proj1 Hl')) as E'. simpl in E'. rewrite lookup_insert_eq in E'.
  by injection E' as <-.
Qed.

Lemma wp_set_active done w lp a :
  Inv done w -> loop_inv w l lp ->
  wp (set_active l a) (fun _ w' => Inv done w' /\ w_channels w' = w_channels w /\
    exists lp', loop_inv w' l lp' /\ lo_evt_channel_active_ lp' = a /\ grows lp lp') w.
Proof.
  intros HI Hl. destruct (own_update done w lp (lo_set_evt_channel_active_ a)) as (w' & E & ? & ? & ?);
    [done..|]. unfold wp, set_active. rewrite E. split_and!; [done..|].
  eexists; split_and!; [done|done|by apply grows_core].
Qed.

Lemma wp_HandleEventContext done w lp cs :
  Inv done w -> loop_inv w l lp -> Forall (fun c => is_Some (w_channels w !! c)) cs ->
  wp (HandleEventContext call l cs) (fun _ w' => Inv done w' /\
    exists lp', loop_inv w' l lp' /\ lo_evt_channel_active_ lp' = None /\ grows lp lp') w.
Proof.
  intros HI Hl Hcs. unfold HandleEventContext. apply wp_bind.
  eapply wp_mono; [by eapply wp_set_active|]. intros _ w1 (HI1 & Ec & lp1 & Hl1 & _ & G1).
  apply wp_bind. eapply wp_mono.
  - apply (wp_forM cs _ (fun rest w' => Inv done w' /\
      Forall (fun c => is_Some (w_channels w' !! c)) rest /\
      exists lp', loop_inv w' l lp' /\ grows lp lp')).
    + rewrite Ec. eauto.
    + intros c rest w2 (HI2 & [Hc Hrest]%Forall_cons_1 & lp2 & Hl2 & G2). apply wp_bind.
      eapply wp_mono; [by eapply wp_set_active|].
      intros _ w3 (HI3 & Ec3 & lp3 & Hl3 & Ha3 & G3).
      eapply wp_mono; [eapply wp_HandleEvent; [done..|by rewrite Ec3]|].
      intros _ w4 (HI4 & lp4 & Hl4 & Hx). split_and!; [done| |].
      * eapply Forall_impl; [|exact Hrest]. intros c' ?.
        destruct Hx as (_ & _ & _ & _ & Hx). apply Hx; [done|by rewrite Ec3].
      * exists lp4. split; [done|]. etrans; [exact G2|]. etrans; [exact G3|].
        by eapply extends_grows.
  - intros _ w2 (HI2 & _ & lp2 & Hl2 & G2).
    eapply wp_mono; [by eapply wp_set_active|].
    intros _ w3 (HI3 & _ & lp3 & Hl3 & Ha3 & G3). split; [done|].
    exists lp3. split_and!; [done|done|by etrans].
Qed.

Lemma wp_Poll done w lp timeout :
  Inv done w -> loop_inv w l lp -> lo_evt_channel_list_ lp = [] ->
  wp (EpollPoller_Poll l timeout) (fun _ w' => Inv done w' /\
    exists lp', loop_inv w' l lp' /\ grows lp lp' /\
      Forall (fun c => is_Some (w_channels w' !! c)) (lo_evt_channel_list_ lp')) w.
Proof.
  intros HI [Hinv Ht] Hnil. pose proof (pi_loop _ _ _ Hinv) as Hl. unfold wp.
  set (po := lo_poller_ lp).
  assert (forall w', bookkeeping l w w' -> Inv done w' /\
    exists lp', loop_inv w' l lp' /\ loop_core lp' = loop_core lp) as Hbk.
  { intros w' B. split; [by eapply lc_frame|]. by eapply bookkeeping_inv. }
  destruct (sys_epoll_wait (po_epoll_fd_ po) (s32 (po_events_ready_size po)) timeout (w_kern w))
    as [[evs|e] k'] eqn:Hw;
  (assert (polled (w_kern w) k') as Hp by (eexists _, _, _; by rewrite Hw)).
  - destruct (Poll_ok w l lp timeout evs k') as [-> Hinv']; [done..|].
    pose proof (polled_loop_core evs lp) as Hcore.
    destruct (Hbk (polled_world l lp evs k' w)) as [HI' _]; [by apply polled_bookkeeping|].
    split; [done|]. exists (polled_loop evs lp). split_and!.
    + split; [done|]. injection Hcore as ?????????. simpl. congruence.
    + by apply grows_core.
    + replace (lo_evt_channel_list_ (polled_loop evs lp)) with (evs.*2)
        by (unfold polled_loop; case_match; simpl; by rewrite Hnil).
      apply Forall_fmap. eapply Forall_impl; [|by eapply (ready_channels_live w)].
      intros [ev c] [ch Hc]; simpl in *. apply fmap_is_Some with channel_core.
      rewrite received_core, Hc. eauto.
  - rewrite (run_EpollPoller_Poll w l lp timeout _ _ Hl) with (2 := Hw)
      by (rewrite Ht; apply Hinv).
    set (w' := after_syscall _ _ _).
    destruct (Hbk w') as [HI' (lp' & Hl' & Hcore)]; [by apply failed_poll_bookkeeping|].
    split; [done|]. exists lp'. split_and!; [done|by apply grows_core|].
    pose proof (pi_loop _ _ _ (proj1 Hl')) as E. simpl in E. rewrite Hl in E.
    injection E as <-. by rewrite Hnil.
Qed.

(** At most one task per iteration, exactly one when the queue is not empty. *)
Definition ran_one lp lp' (run : list task) : Prop :=
  (exists new, run ++ lo_queue_task_funcs_ lp' = lo_queue_task_funcs_ lp ++ new) /\
  (length run <= 1)%nat /\ (lo_queue_task_funcs_ lp <> [] -> length run = 1%nat) /\
  (lo_quit_ lp = true -> lo_quit_ lp' = true).

Lemma ran_one_grows lp lp1 lp2 run : grows lp lp1 -> ran_one lp1 lp2 run -> ran_one lp lp2 run.
Proof.
  intros [[n1 E1] Q1] ([n2 E2] & L & N & Q2). split_and!; [|done| |auto].
  - exists (n1 ++ n2). by rewrite E2, E1, app_assoc.
  - intros Hne. apply N. rewrite E1. by destruct (lo_queue_task_funcs_ lp).
Qed.

Lemma wp_RunTaskFuncs done w lp :
  Inv done w -> loop_inv w l lp -> lo_evt_channel_active_ lp = None ->
  wp (RunTaskFuncs exec release l) (fun _ w' => exists lp' run,
    Inv (done ++ run) w' /\ loop_inv w' l lp' /\ ran_one lp lp' run /\
    run = take 1 (lo_queue_task_funcs_ lp)) w.
Proof.
  intros HI Hl Ha. pose proof (pi_loop _ _ _ (proj1 Hl)) as E. unfold RunTaskFuncs.
  apply wp_bind, wp_load. exists lp. split; [done|].
  destruct (lo_queue_task_funcs_ lp) as [|t rest] eqn:Hq.
  - apply wp_ret. exists lp, []. rewrite app_nil_r. split_and!; [done..| |done].
    split_and!; [exists []; by rewrite Hq|simpl; lia|by rewrite Hq|done].
  - apply wp_bind, wp_store. eapply wp_mono; [by eapply lc_task|].
    intros _ w' (HI' & lp' & Hl' & _ & [new En] & Hquit & _).
    exists lp', [t]. split_and!; [done..| |done].
    split_and!; [|simpl; lia|done|done]. exists new. simpl in *. by rewrite En, Hq.
Qed.

(** An iteration comes to its task with no event being handled. *)
Lemma wp_loop_iteration_tasks done w lp Q :
  Inv done w -> loop_inv w l lp ->
  (forall w3 lp3, Inv done w3 -> loop_inv w3 l lp3 -> lo_evt_channel_active_ lp3 = None ->
    grows lp lp3 -> wp (RunTaskFuncs exec release l) Q w3) ->
  wp (loop_iteration call exec release l) Q w.
Proof.
  intros HI Hl HQ. unfold loop_iteration. apply wp_bind.
  destruct (own_update done w lp (lo_set_evt_channel_list_ [])) as (w1 & E1 & HI1 & Hl1 & _);
    [done..|]. unfold wp at 1. rewrite E1.
  apply wp_bind. eapply wp_mono; [by eapply wp_Poll|].
  intros _ w2 (HI2 & lp2 & Hl2 & G2 & Hliv). apply wp_bind, wp_load.
  exists lp2. split; [apply Hl2|]. apply wp_bind.
  eapply wp_mono; [by eapply wp_HandleEventContext|].
  intros _ w3 (HI3 & lp3 & Hl3 & Ha3 & G3). eapply HQ; [done..|]. etrans; [|exact G3].
  by apply (transitivity (y := lo_set_evt_channel_list_ [] lp)); [apply grows_core|].
Qed.

Lemma wp_loop_iteration done w lp :
  Inv done w -> loop_inv w l lp ->
  wp (loop_iteration call exec release l) (fun _ w' => exists lp' run,
    Inv (done ++ run) w' /\ loop_inv w' l lp' /\ ran_one lp lp' run) w.
Proof.
  intros HI Hl. eapply wp_loop_iteration_tasks; [done..|]. intros w3 lp3 HI3 Hl3 Ha3 G3.
  eapply wp_mono; [by eapply wp_RunTaskFuncs|].
  intros _ w4 (lp4 & run & HI4 & Hl4 & R & _). exists lp4, run. split_and!; [done..|].
  by eapply ran_one_grows.
Qed.

(** Several iterations. *)
Fixpoint iterations (n : nat) : M unit :=
  match n with
  | O => ret tt
  | S n' => do! loop_iteration call exec release l; iterations n'
  end.

Definition ran (n : nat) lp lp' (run : list task) : Prop :=
  (exists new, run ++ lo_queue_task_funcs_ lp' = lo_queue_task_funcs_ lp ++ new) /\
  (length run <= n)%nat /\ (n `min` length (lo_queue_task_funcs_ lp) <= length run)%nat.

Lemma ran_S n lp lp1 lp2 run1 run2 :
  ran_one lp lp1 run1 -> ran n lp1 lp2 run2 -> ran (S n) lp lp2 (run1 ++ run2).
Proof.
  intros ([n1 E1] & L1 & N1 & _) ([n2 E2] & L2 & N2). split_and!.
  - exists (n1 ++ n2). rewrite <-app_assoc, E2, app_assoc, E1, app_assoc. done.
  - rewrite length_app. lia.
  - rewrite length_app. apply (f_equal length) in E1. rewrite !length_app in E1.
    destruct (lo_queue_task_funcs_ lp) as [|t q]; [simpl in *; lia|].
    rewrite N1 in * by done. simpl in *. lia.
Qed.

Lemma iterations_ok n done w lp :
  Inv done w -> loop_inv w l lp ->
  wp (iterations n) (fun _ w' => exists lp' run,
    Inv (done ++ run) w' /\ loop_inv w' l lp' /\ ran n lp lp' run) w.
Proof.
  revert done w lp. induction n as [|n IH]; intros done w lp HI Hl; simpl.
  - apply wp_ret. exists lp, []. rewrite app_nil_r. split_and!; [done..|].
    split_and!; [exists []; by rewrite app_nil_r|simpl; lia..].
  - apply wp_bind. eapply wp_mono; [by eapply wp_loop_iteration|].
    intros _ w1 (lp1 & run1 & HI1 & Hl1 & R1).
    eapply wp_mono; [by apply IH|]. intros _ w2 (lp2 & run2 & HI2 & Hl2 & R2).
    exists lp2, (run1 ++ run2). rewrite app_assoc. split_and!; [done..|by eapply ran_S].
Qed.

(** C5: Iterations run, and tasks run in the order they were queued.  For any
    handlers that meet the contract [LoopClient], [n] iterations of the loop
    return, whatever epoll reports; no callback is called on a channel that is
    gone; the tasks that ran and the tasks left in the queue are, in this
    order, the tasks that were queued at the start and those queued meanwhile;
    at most [n] tasks ran, and the first [n] that were waiting did. *)
Theorem tasks_run_in_order n done w lp :
  Inv done w -> loop_inv w l lp ->
  exists w' lp' run, iterations n w = Ok (tt, w') /\
    Inv (done ++ run) w' /\ loop_inv w' l lp' /\
    (exists new, run ++ lo_queue_task_funcs_ lp' = lo_queue_task_funcs_ lp ++ new) /\
    (length run <= n)%nat /\
    take n (lo_queue_task_funcs_ lp) `prefix_of` run.
Proof.
  intros HI Hl.
  destruct (proj1 (wp_run _ _ _) (iterations_ok n done w lp HI Hl))
    as ([] & w' & E & lp' & run & HI' & Hl' & [new En] & L & N).
  exists w', lp', run. split_and!; eauto. set (q := lo_queue_task_funcs_ lp) in *.
  exists (drop (length (take n q)) run).
  assert (take (length (take n q)) run = take n q) as T.
  { transitivity (take (length (take n q)) (run ++ lo_queue_task_funcs_ lp')).
    - rewrite take_app_le; [done|]. rewrite length_take. lia.
    - rewrite En, length_take, take_app_le by lia. by rewrite <-take_take, take_ge with (l := q) at 1 by lia. }
  rewrite <-T at 1. by rewrite take_drop.
Qed.

(** ** Leaving the loop *)

(** The task [t] ends with [quit_] set. *)
Definition sets_quit (t : task) : Prop :=
  forall done w lp rest, Inv done w -> loop_inv w l lp -> lo_evt_channel_active_ lp = None ->
    lo_queue_task_funcs_ lp = t :: rest ->
    wp (do! exec t; release t)
      (fun _ w' => forall lp', w_loops w' !! l = Some lp' -> lo_quit_ lp' = true)
      (popped l lp rest w).

Lemma wp_loop_iteration_quit done w lp t rest :
  Inv done w -> loop_inv w l lp -> lo_queue_task_funcs_ lp = t :: rest -> sets_quit t ->
  wp (loop_iteration call exec release l)
    (fun _ w' => forall lp', w_loops w' !! l = Some lp' -> lo_quit_ lp' = true) w.
Proof.
  intros HI Hl Hq Ht. eapply wp_loop_iteration_tasks; [done..|].
  intros w3 lp3 HI3 Hl3 Ha3 [[new En] _]. rewrite Hq in En. simpl in En.
  unfold RunTaskFuncs. apply wp_bind, wp_load. exists lp3. split; [apply Hl3|].
  rewrite En. apply wp_bind, wp_store. by eapply Ht.
Qed.

(** Either [quit_] is set already, or a task that sets it is at position [i]. *)
Definition quits_within (i : nat) lp : Prop :=
  lo_quit_ lp = true \/
  exists j t, (j < i)%nat /\ lo_queue_task_funcs_ lp !! j = Some t /\ sets_quit t.

Lemma quits_within_step i done w lp :
  Inv done w -> loop_inv w l lp -> quits_within (S i) lp -> lo_quit_ lp = false ->
  wp (loop_iteration call exec release l) (fun _ w' => exists lp' run,
    Inv (done ++ run) w' /\ loop_inv w' l lp' /\ quits_within i lp') w.
Proof.
  intros HI Hl [Hq|(j & t & Hj & Ht & Hs)] Hnq; [congruence|].
  assert (exists t0 rest, lo_queue_task_funcs_ lp = t0 :: rest) as (t0 & rest & Hq).
  { destruct (lo_queue_task_funcs_ lp); [by rewrite lookup_nil in Ht|eauto]. }
  rewrite Hq in Ht. destruct j as [|j]; simpl in Ht.
  - injection Ht as ->.
    eapply wp_mono; [apply wp_conj;
      [by eapply wp_loop_iteration|by eapply wp_loop_iteration_quit]|].
    intros _ w' [(lp' & run & HI' & Hl' & _) HQ]. exists lp', run. split_and!; [done..|].
    left. apply HQ, Hl'.
  - eapply wp_mono; [by eapply wp_loop_iteration|].
    intros _ w' (lp' & run & HI' & Hl' & [new En] & L & N & _).
    exists lp', run. split_and!; [done..|]. right. exists j, t. split_and!; [lia| |done].
    rewrite Hq in N, En. specialize (N ltac:(done)).
    destruct run as [|t1 [|]]; [done| |done]. simpl in En. injection En as -> En.
    rewrite En. by apply lookup_app_l_Some.
Qed.

Lemma wp_while_not_quit i done w lp :
  Inv done w -> loop_inv w l lp -> quits_within i lp ->
  wp (while_not_quit call exec release i l) (fun _ w' => exists lp' run,
    Inv (done ++ run) w' /\ loop_inv w' l lp' /\ lo_quit_ lp' = true) w.
Proof.
  revert done w lp. induction i as [|i IH]; intros done w lp HI Hl Hq; simpl;
    apply wp_bind, wp_load; exists lp; (split; [apply Hl|]);
    destruct (lo_quit_ lp) eqn:Hlq.
  - exists lp, []. rewrite app_nil_r. eauto.
  - destruct Hq as [Hq|(j & t & ? & _)]; [congruence|lia].
  - exists lp, []. rewrite app_nil_r. eauto.
  - apply wp_bind. eapply wp_mono; [by eapply quits_within_step|].
    intros _ w1 (lp1 & run1 & HI1 & Hl1 & Hq1). eapply wp_mono; [by eapply IH|].
    intros _ w2 (lp2 & run2 & ? & ? & ?). exists lp2, (run1 ++ run2). by rewrite app_assoc.
Qed.

Lemma flags_inv w lp looping quit :
  loop_inv w l lp ->
  let lp' := lo_set_quit_ quit (lo_set_looping_ looping lp) in
  loop_inv (set_w_loops (<[l := lp']> (w_loops w)) w) l lp'.
Proof.
  intros [Hinv Ht] lp'. split; [|done].
  by eapply poller_inv_frame; [exact Hinv|simpl; by rewrite lookup_insert_eq|..].
Qed.

Lemma Loop_ok i done w lp t :
  Inv done w -> loop_inv w l lp -> lo_queue_task_funcs_ lp !! i = Some t -> sets_quit t ->
  wp (Loop call exec release (S i) l) (fun _ w' => exists lp' run,
    Inv (done ++ run) w' /\ loop_inv w' l lp' /\
    lo_quit_ lp' = true /\ lo_looping_ lp' = false) w.
Proof.
  intros HI Hl Ht Hs. pose proof (pi_loop _ _ _ (proj1 Hl)) as E.
  pose (lp1 := lo_set_quit_ false (lo_set_looping_ true lp)). unfold Loop.
  apply wp_bind, wp_update. exists lp. split; [done|].
  apply wp_bind, wp_update. eexists. split; [apply lookup_insert_eq|]. simpl.
  rewrite insert_insert_eq. apply wp_bind.
  eapply wp_mono; [eapply (wp_while_not_quit (S i) done _ lp1)|].
  - by apply (lc_flags done w lp true false).
  - by apply (flags_inv w lp true false).
  - right. exists i, t. by split_and!; [lia|..].
  - intros _ w2 (lp2 & run & HI2 & Hl2 & Hq2). pose proof (pi_loop _ _ _ (proj1 Hl2)) as E2.
    apply wp_update. exists lp2. split; [done|].
    assert (lo_set_looping_ false lp2 = lo_set_quit_ true (lo_set_looping_ false lp2)) as ->
      by (destruct lp2; simpl in *; by subst).
    exists (lo_set_quit_ true (lo_set_looping_ false lp2)), run.
    split_and!; [by apply lc_flags|by apply flags_inv|done|done].
Qed.

(** C24: The loop can be left.  If the task at position [i] of the queue sets
    [quit_], [Loop] returns after at most [i + 1] iterations, whatever epoll
    reports and whatever is queued meanwhile; [looping_] is false again and the
    loop's invariant holds. *)
Theorem Loop_returns_after_quit i done w lp t :
  Inv done w -> loop_inv w l lp -> lo_queue_task_funcs_ lp !! i = Some t -> sets_quit t ->
  exists w' lp' run, Loop call exec release (S i) l w = Ok (tt, w') /\
    Inv (done ++ run) w' /\ loop_inv w' l lp' /\
    lo_quit_ lp' = true /\ lo_looping_ lp' = false.
Proof.
  intros HI Hl Ht Hs.
  destruct (proj1 (wp_run _ _ _) (Loop_ok i done w lp t HI Hl Ht Hs))
    as ([] & w' & E & lp' & run & ?). eauto 10.
Qed.

(** [Quit()] before [Loop()] is lost.  [Loop] begins by clearing [quit_]: the
    run of the loop is the same whether or not [Quit] was called by the loop's
    thread before.  A thread that asks a loop to quit before that loop has
    entered [Loop()] is not heard. *)
Theorem Quit_before_Loop_is_lost fuel w lp one :
  w_loops w !! l = Some lp -> w_tid w = lo_thread_id_ lp ->
  (do! Quit l one; Loop call exec release fuel l) w = Loop call exec release fuel l w.
Proof.
  intros Hl Ht. unfold Quit. rewrite run_bind_assoc. run1. rewrite run_bind_assoc.
  erewrite run_bind by (apply run_IsInLoopThread; solve_lookup). simpl.
  rewrite bool_decide_eq_true_2 by done. simpl. run1. unfold Loop.
  run1. run1. symmetry. run1. run1. simpl. rewrite !insert_insert_eq. done.
Qed.
End iterations.

(** ** The wake-up descriptor *)

Section wakeup.
Context `{EventFdLaws}.
Implicit Types (w : World) (l : ptr) (lp : EventLoop).

(** Waking a loop up never does anything.  [Wakeup] writes, and
    [HandleWakeupEvent] reads, 4 bytes where an eventfd takes 8: both calls fail
    with EINVAL, the counter of the descriptor is left as it was (so epoll has
    nothing to report), and only errno of the calling thread changes. *)
Theorem Wakeup_is_rejected w l lp one :
  w_loops w !! l = Some lp -> k_eventfd (w_kern w) (lo_wakeup_fd_ lp) ->
  let failed := set_w_errno (<[w_tid w := EINVAL]> (w_errno w)) w in
  Wakeup l one w = Ok (tt, failed) /\ HandleWakeupEvent l w = Ok (tt, failed).
Proof.
  intros Hl Hfd failed. unfold Wakeup, HandleWakeupEvent.
  assert (forall A (f : kstate -> sysres A * kstate),
    f (w_kern w) = (SErr EINVAL, w_kern w) ->
    syscall f w = Ok (SErr EINVAL, failed)) as Hs.
  { intros A f E. rewrite run_syscall, E. simpl. by destruct w. }
  split; run1.
  - erewrite run_bind; [done|]. apply Hs, eventfd_short_write; [done|].
    rewrite length_take. lia.
  - erewrite run_bind; [done|]. apply Hs, eventfd_short_read; [done|lia].
Qed.
End wakeup.

(** ** A new loop *)

Section construction.
Context `{EpollReliable} `{!EpollFrame}.
Implicit Types (w : World) (l c : ptr) (lp : EventLoop) (ch : EventChannel).

(** Addresses not handed out yet are in nobody's hands. *)
Definition fresh_addresses w : Prop :=
  forall c ch, w_channels w !! c = Some ch ->
    (c < w_next w)%positive /\ (ch_event_loop_ ch < w_next w)%positive.

Definition new_loop w name active ep wfd : EventLoop :=
  mkEventLoop (w_tid w) name false false (mkEpollPoller (w_tid w) ∅ ep 16) wfd
    (Pos.succ (w_next w)) [] active [].

(** The world before the wake-up channel is enabled. *)
Definition new_loop_world w name active ep wfd k : World :=
  let l := w_next w in
  let c := Pos.succ l in
  set_w_channels (<[c := mkEventChannel wfd none_event_flag 0 NEW_CHANNEL l
      (Some (HandleWakeupEvent_cb l)) None None None]> (w_channels w))
  (set_w_evt_loop_this_thread (<[w_tid w := l]> (w_evt_loop_this_thread w))
  (set_w_loops (<[l := new_loop w name active ep wfd]> (w_loops w))
  (set_w_next (Pos.succ c) (set_w_kern k w)))).

Lemma run_EventLoop_new w name active ep k1 wfd k2 :
  sys_epoll_create1 EPOLL_CLOEXEC (w_kern w) = (SOk ep, k1) ->
  sys_eventfd 0 EFD_NONBLOCK_CLOEXEC k1 = (SOk wfd, k2) ->
  EventLoop_new name active w =
    match w_evt_loop_this_thread w !! w_tid w with
    | Some _ => Err AssertFailure
    | None => (do! EnableReading (Pos.succ (w_next w)); ret (w_next w))
                (new_loop_world w name active ep wfd k2)
    end.
Proof.
  intros E1 E2. unfold EventLoop_new, NewPoller, EpollPoller_new, Poller_new, syscall_int, EventChannel_new, alloc.
  erewrite run_bind by reflexivity.
  rewrite run_bind_assoc, run_assert_owner by done.
  rewrite !run_bind_assoc. erewrite run_bind by apply run_syscall. rewrite E1; simpl.
  do 2 run1. rewrite !run_bind_assoc. erewrite run_bind by apply run_syscall. simpl.
  rewrite E2; simpl. run1. do 2 (erewrite run_bind; [|reflexivity]).
  rewrite !run_bind_assoc. do 4 (rewrite ?run_bind_assoc; erewrite run_bind; [|reflexivity]).
  do 2 (erewrite run_bind; [|reflexivity]). simpl.
  destruct (w_evt_loop_this_thread w !! w_tid w); [done|]. run1.
  erewrite run_bind by reflexivity. unfold SetReadEventCallBack. run1.
  simpl. rewrite insert_insert_eq. done.
Qed.

Lemma new_loop_world_inv w name active ep k1 wfd k2 :
  fresh_addresses w ->
  sys_epoll_create1 EPOLL_CLOEXEC (w_kern w) = (SOk ep, k1) ->
  sys_eventfd 0 EFD_NONBLOCK_CLOEXEC k1 = (SOk wfd, k2) ->
  poller_inv (new_loop_world w name active ep wfd k2) (w_next w) (new_loop w name active ep wfd).
Proof.
  intros Hf E1 E2. split; simpl; [by rewrite lookup_insert_eq|done|done| |].
  - intros c ch [[<- <-]|[_ E]]%lookup_insert_Some Hlo Hst; [done|].
    destruct (Hf _ _ E). lia.
  - intros fd. pose proof (frame_eventfd 0 EFD_NONBLOCK_CLOEXEC k1 ep) as F.
    rewrite E2 in F; simpl in F. rewrite F.
    destruct (epoll_create1_ok _ _ _ _ E1) as [-> _].
    unfold expected_interest; simpl. by rewrite !lookup_empty.
Qed.

(** What the constructor does on a thread that has no loop yet. *)
Lemma EventLoop_new_ok w name active ep k1 wfd k2 :
  fresh_addresses w ->
  sys_epoll_create1 EPOLL_CLOEXEC (w_kern w) = (SOk ep, k1) ->
  sys_eventfd 0 EFD_NONBLOCK_CLOEXEC k1 = (SOk wfd, k2) ->
  w_evt_loop_this_thread w !! w_tid w = None ->
  exists w' lp, EventLoop_new name active w = Ok (w_next w, w') /\
    loop_inv w' (w_next w) lp /\
    w' = set_w_kern (w_kern w') (set_w_channels (w_channels w')
           (set_w_loops (<[w_next w := lp]> (w_loops w))
           (set_w_evt_loop_this_thread (<[w_tid w := w_next w]> (w_evt_loop_this_thread w))
           (set_w_next (Pos.succ (Pos.succ (w_next w))) w)))) /\
    lo_queue_task_funcs_ lp = [] /\ lo_wakeup_channel_ lp = Pos.succ (w_next w) /\
    (lo_name_ lp = name /\ lo_quit_ lp = false) /\
    k_interest (w_kern w') ep !! wfd = Some (u32 read_event_flag, Pos.succ (w_next w)) /\
    (forall ep', ep' <> ep -> k_interest (w_kern w') ep' = k_interest (w_kern w) ep') /\
    fresh_addresses w'.
Proof.
  intros Hf E1 E2 Hth. rewrite (run_EventLoop_new _ _ _ _ _ _ _ E1 E2), Hth.
  pose proof (new_loop_world_inv w name active ep k1 wfd k2 Hf E1 E2) as Hinv.
  set (w1 := new_loop_world w name active ep wfd k2) in *.
  pose (ch := mkEventChannel wfd none_event_flag 0 NEW_CHANNEL (w_next w)
    (Some (HandleWakeupEvent_cb (w_next w))) None None None).
  assert (channel_of w1 (w_next w) (new_loop w name active ep wfd) (Pos.succ (w_next w)) ch) as Hco.
  { split; simpl; [by rewrite lookup_insert_eq|done..]. }
  destruct (set_interest_correct (fun e => Z.lor e read_event_flag) _ _ _ _ _ Hinv Hco)
    as (w2 & E & Hinv2 & Hco2 & Hw2 & Ho).
  erewrite run_bind by exact E.
  eexists w2, _. split_and!; [done|split; [exact Hinv2|apply Hco2]| |done|done|done|done| | |].
  - assert (w_channels w2 = <[Pos.succ (w_next w) :=
      with_interest (fun e => Z.lor e read_event_flag) ch]> (w_channels w1)) as -> by by rewrite Hw2.
    rewrite Hw2 at 1.
    unfold set_w_kern, set_w_channels, set_w_loops, set_w_evt_loop_this_thread, set_w_next; simpl.
    unfold w1, new_loop_world, set_w_channels, set_w_loops; simpl. by rewrite !insert_insert_eq.
  - exact (watched_kernel _ _ _ _ _ Hinv2 Hco2).
  - intros ep' Hne. rewrite Ho by done. simpl.
    pose proof (frame_eventfd 0 EFD_NONBLOCK_CLOEXEC k1 ep') as F.
    rewrite E2 in F; simpl in F. rewrite F. by apply (epoll_create1_ok _ _ _ _ E1).
  - rewrite Hw2. intros c' ch' Hc'. simpl in *.
    apply lookup_insert_Some in Hc' as [[<- <-]|[Hne Hc']]; simpl; [lia|].
    rewrite lookup_insert_ne in Hc' by done. destruct (Hf _ _ Hc'). lia.
Qed.

(** C29: The constructor establishes the loop's invariant.  On a thread that has
    no loop yet, and when the kernel grants the two descriptors, a new loop is
    registered for the thread, satisfies [loop_inv], has an empty queue, and the
    kernel watches the wake-up descriptor for the wake-up channel; the interest
    lists of other loops are untouched.  On a thread that has a loop already the
    assertion fails. *)
Theorem EventLoop_new_correct w name active ep k1 wfd k2 :
  fresh_addresses w ->
  sys_epoll_create1 EPOLL_CLOEXEC (w_kern w) = (SOk ep, k1) ->
  sys_eventfd 0 EFD_NONBLOCK_CLOEXEC k1 = (SOk wfd, k2) ->
  match w_evt_loop_this_thread w !! w_tid w with
  | Some _ => EventLoop_new name active w = Err AssertFailure
  | None => exists w' lp, EventLoop_new name active w = Ok (w_next w, w') /\
      loop_inv w' (w_next w) lp /\
      w_evt_loop_this_thread w' !! w_tid w = Some (w_next w) /\
      lo_queue_task_funcs_ lp = [] /\ lo_wakeup_channel_ lp = Pos.succ (w_next w) /\
      k_interest (w_kern w') ep !! wfd = Some (u32 read_event_flag, Pos.succ (w_next w)) /\
      (forall ep', ep' <> ep -> k_interest (w_kern w') ep' = k_interest (w_kern w) ep') /\
      fresh_addresses w'
  end.
Proof.
  intros Hf E1 E2. destruct (w_evt_loop_this_thread w !! w_tid w) eqn:Hth.
  { by rewrite (run_EventLoop_new _ _ _ _ _ _ _ E1 E2), Hth. }
  destruct (EventLoop_new_ok w name active ep k1 wfd k2 Hf E1 E2 Hth)
    as (w' & lp & E & Hinv & Hw & Hq & Hc & _ & Hi & Ho & Hf').
  exists w', lp. split_and!; [done..| |done|done|done|done|done].
  rewrite Hw. simpl. by rewrite lookup_insert_eq.
Qed.
End construction.

(** ** Witnesses

    A small client: callbacks and user tasks are recorded in the trace, and the
    user task 0 quits the loop. *)

Definition demo_exec (t : task) : St (@World RefKernel) unit :=
  match t with
  | User_task n =>
      do! modify (fun w => set_w_trace (Task_ev n :: w_trace w) w);
      when (n =? 0)%nat (update 1%positive (lo_set_quit_ true))
  | _ => ret tt
  end.
Definition demo_release (t : task) : St (@World RefKernel) unit := ret tt.

Definition user_tasks (ts : list task) : list nat :=
  omap (fun t => match t with User_task n => Some n | _ => None end) ts.
Definition traced_tasks (w : @World RefKernel) : list nat :=
  rev (omap (fun e => match e with Task_ev n => Some n | _ => None end) (w_trace w)).

Definition demo_inv (ran : list task) (w : @World RefKernel) : Prop :=
  traced_tasks w = user_tasks ran.

Lemma demo_loop_inv_frame (w w' : @World RefKernel) lp lp' :
  loop_inv w 1 lp -> w_loops w' !! 1%positive = Some lp' ->
  lo_thread_id_ lp' = lo_thread_id_ lp -> lo_poller_ lp' = lo_poller_ lp ->
  w_kern w' = w_kern w -> w_channels w' = w_channels w -> w_tid w' = w_tid w ->
  loop_inv w' 1 lp'.
Proof.
  intros [Hinv Ht] Hl E1 E2 E3 E4 E5. split; [|congruence].
  eapply poller_inv_frame; [exact Hinv|done|done|congruence..| |]; intros; congruence.
Qed.

#[global] Instance demo_client : LoopClient 1 log_call demo_exec demo_release demo_inv.
Proof.
  split; unfold demo_inv, traced_tasks.
  - intros d w w' <- [R _ _ _ _]. by rewrite R.
  - done.
  - intros d w lp c ch cb HI Hl Ha Hc Hi. pose proof (pi_loop _ _ _ (proj1 Hl)) as E.
    unfold log_call. destruct cb; try (apply wp_ret; split; [done|]; exists lp;
      split; [done|by apply extends_refl]).
    apply wp_modify. split; [by rewrite <-HI|]. exists lp.
    split; [by eapply demo_loop_inv_frame|].
    split_and!; eauto. exists []. by rewrite app_nil_r.
  - intros d w lp t rest HI Hl Ha Hq. unfold user_tasks in *. rewrite omap_app.
    pose proof (pi_loop _ _ _ (proj1 Hl)) as E.
    apply wp_bind. unfold demo_release, demo_exec.
    destruct t; try (apply wp_ret, wp_ret; simpl; rewrite app_nil_r; split; [done|];
      eexists; split; [by eapply demo_loop_inv_frame; [exact Hl|simpl; by rewrite lookup_insert_eq|..]
                      |apply extends_refl; simpl; by rewrite lookup_insert_eq]).
    apply wp_bind, wp_modify, wp_when. simpl.
    rewrite <-HI. destruct (cb =? 0)%nat.
    + apply wp_update. eexists. split; [simpl; by rewrite lookup_insert_eq|]. apply wp_ret.
      split; [done|]. eexists. split.
      * eapply demo_loop_inv_frame; [exact Hl|simpl; by rewrite lookup_insert_eq|done..].
      * split_and!; simpl; [by rewrite lookup_insert_eq|exists []; by rewrite app_nil_r|done|done|done].
    + apply wp_ret. split; [done|]. eexists. split.
      * eapply demo_loop_inv_frame; [exact Hl|simpl; by rewrite lookup_insert_eq|done..].
      * split_and!; simpl; [by rewrite lookup_insert_eq|exists []; by rewrite app_nil_r|done|done|done].
Qed.

(** One loop with a registered channel whose descriptor becomes readable, and
    two tasks waiting. *)
Definition demo_queue : list task := [User_task 1; User_task 0].

Definition demo_tasks : @World RefKernel :=
  demo_world (demo_kernel {[4 := REventFd 0]} ∅ [[(1, 7%positive)]]) ∅
    {[1%positive := demo_loop ∅ [] demo_queue]} ∅.

Lemma demo_tasks_inv : loop_inv demo_tasks 1 (demo_loop ∅ [] demo_queue).
Proof.
  split; [|done]. split; simpl; [done|done|done|by intros c ch E; rewrite lookup_empty in E|].
  intros fd. unfold expected_interest; simpl. rewrite lookup_empty. simpl.
  by rewrite lookup_singleton_eq.
Qed.

Lemma tasks_run_in_order_witness :
  exists w', iterations (l := 1) (call := log_call) (exec := demo_exec) (release := demo_release)
    2 demo_tasks = Ok (tt, w') /\ traced_tasks w' = [1%nat; 0%nat].
Proof.
  destruct (tasks_run_in_order (Inv := demo_inv) 2 [] demo_tasks (demo_loop ∅ [] demo_queue))
    as (w' & lp' & run & E & HI & _ & _ & Hn & [rest Hrest]); [done|apply demo_tasks_inv|].
  exists w'. split; [exact E|]. unfold demo_inv in HI. rewrite HI, Hrest in *. simpl in *.
  by destruct rest; [|simpl in Hn; lia].
Defined.

Lemma Loop_returns_after_quit_witness :
  exists w', Loop log_call demo_exec demo_release 2 1 demo_tasks = Ok (tt, w') /\
    lo_looping_ <$> w_loops w' !! 1%positive = Some false.
Proof.
  destruct (Loop_returns_after_quit (Inv := demo_inv) (l := 1) (call := log_call)
    (exec := demo_exec) (release := demo_release) 1 [] demo_tasks
    (demo_loop ∅ [] demo_queue) (User_task 0)) as (w' & lp' & run & E & _ & Hl & _ & Hf);
    [done|apply demo_tasks_inv|done| |].
  - intros d w lp rest HI Hl _ Hq. unfold demo_exec, demo_release. apply wp_bind, wp_bind, wp_modify.
    apply wp_update. eexists. split; [simpl; by rewrite lookup_insert_eq|]. apply wp_ret.
    simpl. rewrite lookup_insert_eq. by intros lp' [= <-].
  - exists w'. split; [exact E|]. rewrite (pi_loop _ _ _ (proj1 Hl)). simpl. by rewrite Hf.
Defined.

Lemma Quit_before_Loop_is_lost_witness :
  (do! Quit 1 []; Loop log_call demo_exec demo_release 2 1) demo_tasks =
  Loop log_call demo_exec demo_release 2 1 demo_tasks.
Proof.
  apply (Quit_before_Loop_is_lost (l := 1) 2 demo_tasks (demo_loop ∅ [] demo_queue) []); reflexivity.
Defined.

Lemma Wakeup_is_rejected_witness :
  outcome (fun _ w => (w_errno w !! 1%positive, rk_files (w_kern w) !! 4))
    (Wakeup 1 [x00; x00; x00; x00] demo_tasks) = Some (Some 22, Some (REventFd 0)).
Proof.
  destruct (Wakeup_is_rejected demo_tasks 1 (demo_loop ∅ [] demo_queue) [x00; x00; x00; x00])
    as [-> _]; [reflexivity|by exists 0|]. vm_compute. reflexivity.
Defined.

Lemma EventLoop_new_correct_witness :
  exists w', EventLoop_new "main" None (demo_world (demo_kernel ∅ ∅ []) ∅ ∅ ∅) =
      Ok (1000%positive, w') /\
    k_interest (w_kern w') 0 !! 1 = Some (0x80000003, 1001%positive).
Proof.
  destruct (EventLoop_new_correct (demo_world (demo_kernel ∅ ∅ []) ∅ ∅ ∅) "main" None 0
    (rk_epoll_create1 (demo_kernel ∅ ∅ [])).2 1
    (rk_open_file (REventFd 0) (rk_epoll_create1 (demo_kernel ∅ ∅ [])).2).2)
    as (w' & lp & E & _ & _ & _ & _ & Hk & _); [|reflexivity|reflexivity|].
  - intros c ch Hc. simpl in Hc. by rewrite lookup_empty in Hc.
  - exists w'. split; [exact E|]. exact Hk.
Defined.
