(* ===== verification/Socket.v ===== *)
(** * Socket: addresses and the socket calls

    Models [SocketAddr] (socket_addr.h/.cpp), [SocketUtility]
    (socket_utility.h/.cpp) and [Socket] (socket.h/.cpp).  An address is the
    28-byte memory image of the union of [sockaddr_in] and [sockaddr_in6] on
    the little-endian ABI; inet_pton(3) and inet_ntop(3) are the parameters of
    the class [Inet]; the other calls are those of Kernel.v.  Logging is not
    modelled. *)

From stdpp Require Import base list gmap strings numbers pretty.
From Stdlib Require Import ZArith Lia Init.Byte Strings.Byte.
From S2P Require Import Prelude Buffer Kernel RefKernel State World Demo.

Open Scope np_scope.

(** ** Constants of the Linux ABI *)

Definition AF_INET : Z := 2.
Definition AF_INET6 : Z := 10.
Definition SOCK_STREAM : Z := 1.
Definition SOCK_NONBLOCK : Z := 0x800.
Definition SOCK_CLOEXEC : Z := 0x80000.
Definition IPPROTO_TCP : Z := 6.
Definition TCP_NODELAY : Z := 1.
Definition SOL_SOCKET : Z := 1.
Definition SO_REUSEADDR : Z := 2.
Definition SO_KEEPALIVE : Z := 9.
Definition SO_REUSEPORT : Z := 15.
Definition SOMAXCONN : Z := 4096.
Definition SHUT_WR : Z := 1.
(** [sizeof(sockaddr_in6)] *)
Definition sockaddr_size : Z := 28.

(** ** Bytes and 16-bit words *)

Definition byte_of_Z (z : Z) : byte := default x00 (of_N (Z.to_N (z mod 256))).
Definition Z_of_byte (b : byte) : Z := Z.of_N (to_N b).

(** A [uint16_t] in memory. *)
Definition le16 (v : Z) : list byte := [byte_of_Z v; byte_of_Z (Z.shiftr v 8)].
Definition read16 (img : list byte) (off : nat) : Z :=
  match img !! off, img !! S off with
  | Some lo, Some hi => Z_of_byte lo + 256 * Z_of_byte hi
  | _, _ => 0
  end.

(** [htons] of a little-endian machine, which is also its [ntohs]. *)
Definition htons (v : Z) : Z := Z.lor (Z.shiftl (Z.land v 255) 8) (Z.shiftr v 8).

(** ** SocketAddr *)

(** inet_pton(3) ([None] when it does not return 1) and inet_ntop(3). *)
Class Inet := {
  inet_pton : Z -> string -> option (list byte);
  inet_ntop : Z -> list byte -> string
}.

Section addresses.
Context `{Inet}.

(** The result of the function, and what it left in [*addrIn]. *)
Definition toAddrIpv4 (ip : string) (port : Z) (addrIn : sockaddr) : bool * sockaddr :=
  let img := splice 0 (le16 AF_INET) addrIn in
  let img := splice 2 (le16 (htons port)) img in
  match inet_pton AF_INET ip with
  | Some a => (true, splice 4 a img)
  | None => (false, img)
  end.

Definition toAddrIpv6 (ip : string) (port : Z) (addrIn : sockaddr) : bool * sockaddr :=
  let img := splice 0 (le16 AF_INET6) addrIn in
  let img := splice 2 (le16 (htons port)) img in
  match inet_pton AF_INET6 ip with
  | Some a => (false, splice 8 a img)
  | None => (true, img)
  end.

(** The members are not initialised before: [init] is what the memory held. *)
Definition SocketAddr_new (ip : string) (port : Z) (ipv6 : bool) (init : sockaddr) : sockaddr :=
  if ipv6 then (toAddrIpv6 ip port init).2 else (toAddrIpv4 ip port init).2.

Definition Family (addr : sockaddr) : Z := read16 addr 0.

(** [snprintf(buf + strlen(buf), sizeof(buf) - strlen(buf), ...)] with a buffer
    of 64 bytes that holds the string [s]. *)
Definition snprintf_append (s extra : string) : string :=
  (s +:+ String.substring 0 (63 - String.length s) extra)%string.

Definition ToString (addr : sockaddr) : string :=
  if Family addr =? AF_INET6 then
    snprintf_append (inet_ntop AF_INET6 (take 16 (drop 8 addr))) (pretty (htons (read16 addr 2)))
  else
    snprintf_append (inet_ntop AF_INET (take 4 (drop 4 addr)))
      (":" +:+ pretty (htons (read16 addr 2))).
End addresses.

(** ** SocketUtility *)

Section utility.
Context `{Kernel}.

Definition CreateNonblocking (family : Z) : M Z :=
  syscall_int (sys_socket family (Z.lor (Z.lor SOCK_STREAM SOCK_NONBLOCK) SOCK_CLOEXEC) IPPROTO_TCP).

Definition Bind (sockfd : Z) (addr : sockaddr) : M unit :=
  let! _ := syscall_unit (sys_bind sockfd addr sockaddr_size) in ret tt.

Definition Listen (sockfd : Z) : M unit :=
  let! _ := syscall_unit (sys_listen sockfd SOMAXCONN) in ret tt.

Definition expected_accept_error (e : Z) : bool :=
  bool_decide (e ∈ [EAGAIN; ECONNABORTED; EINTR; EPROTO; EPERM; EMFILE]).

(** The descriptor, and the address left in [*addr]: on failure that of an
    uninitialised local ([junk]). *)
Definition Accept (sockfd : Z) (junk : sockaddr) : M (Z * sockaddr) :=
  let! r := syscall (sys_accept4 sockfd (Z.lor SOCK_NONBLOCK SOCK_CLOEXEC)) in
  match r with
  | SOk (connFd, addr) => ret (connFd, addr)
  | SErr _ =>
      let! origin_errno := get_errno in
      do! when (expected_accept_error origin_errno) (set_errno origin_errno);
      ret (-1, junk)
  end.

Definition Connect (sockfd : Z) (addr : sockaddr) : M Z :=
  syscall_unit (sys_connect sockfd addr sockaddr_size).

Definition Read (sockfd buf_size : Z) : M (sysres (list byte)) := syscall (sys_read sockfd buf_size).
Definition ReadV (sockfd : Z) (iov : list Z) : M (sysres (list byte)) := syscall (sys_readv sockfd iov).
Definition Write (sockfd : Z) (buf : list byte) : M (sysres Z) := syscall (sys_write sockfd buf).

Definition Close (sockfd : Z) : M unit := let! _ := syscall (sys_close sockfd) in ret tt.

Definition SocketError (sockfd : Z) : M Z :=
  let! r := syscall (sys_so_error sockfd) in
  match r with SOk opt_val => ret opt_val | SErr _ => get_errno end.

Definition GetPeerAddr (sockfd : Z) : M sockaddr :=
  let! r := syscall (sys_getpeername sockfd) in
  ret (match r with SOk a => a | SErr _ => replicate 28 x00 end).
Definition GetLocalAddr (sockfd : Z) : M sockaddr :=
  let! r := syscall (sys_getsockname sockfd) in
  ret (match r with SOk a => a | SErr _ => replicate 28 x00 end).

Definition set_option (sockfd level opt : Z) (on : bool) : M unit :=
  let! _ := syscall_unit (sys_setsockopt sockfd level opt (if on then 1 else 0)) in ret tt.

Definition SetTcpNoDelay (sockfd : Z) (on : bool) : M unit := set_option sockfd IPPROTO_TCP TCP_NODELAY on.
Definition SetKeepAlived (sockfd : Z) (on : bool) : M unit := set_option sockfd SOL_SOCKET SO_KEEPALIVE on.
Definition SetReuseAddr (sockfd : Z) (on : bool) : M unit := set_option sockfd SOL_SOCKET SO_REUSEADDR on.
Definition SetReusePort (sockfd : Z) (on : bool) : M unit := set_option sockfd SOL_SOCKET SO_REUSEPORT on.

Definition ShutdownWrite (sockfd : Z) : M unit :=
  let! _ := syscall (sys_shutdown sockfd SHUT_WR) in ret tt.

(** ** Socket

    The object is its descriptor. *)
Definition Socket_destroy (socket_fd_ : Z) : M unit := Close socket_fd_.
Definition Socket_Bind (socket_fd_ : Z) (addr : sockaddr) : M unit := Bind socket_fd_ addr.
Definition Socket_Listen (socket_fd_ : Z) : M unit := Listen socket_fd_.
Definition Socket_Accept (socket_fd_ : Z) (junk : sockaddr) : M (Z * sockaddr) := Accept socket_fd_ junk.
Definition Socket_SetTcpNoDelay (socket_fd_ : Z) (on : bool) : M unit := SetTcpNoDelay socket_fd_ on.
Definition Socket_SetKeepAlived (socket_fd_ : Z) (on : bool) : M unit := SetKeepAlived socket_fd_ on.
Definition Socket_SetReuseAddr (socket_fd_ : Z) (on : bool) : M unit := SetReuseAddr socket_fd_ on.
Definition Socket_SetReusePort (socket_fd_ : Z) (on : bool) : M unit := SetReusePort socket_fd_ on.
Definition Socket_ShutdownWrite (socket_fd_ : Z) : M unit := ShutdownWrite socket_fd_.
End utility.

(** ** Lemmas *)

Lemma Z_of_byte_of_Z z : Z_of_byte (byte_of_Z z) = z mod 256.
Proof.
  unfold Z_of_byte, byte_of_Z. pose proof (Z.mod_pos_bound z 256 ltac:(lia)).
  destruct (of_N (Z.to_N (z mod 256))) as [b|] eqn:E; simpl.
  - apply to_of_N in E. lia.
  - apply of_N_None_iff in E. lia.
Qed.

Lemma lor_shiftl_add a b : 0 <= b < 256 -> Z.lor (Z.shiftl a 8) b = a * 256 + b.
Proof.
  intros Hb. rewrite <-Z.lxor_lor, <-Z.add_nocarry_lxor; rewrite ?Z.shiftl_mul_pow2 by lia; [lia|..];
    change (2 ^ 8) with 256;
    apply Z.bits_inj'; intros n Hn; rewrite Z.land_spec, Z.bits_0, <-Z.shiftl_mul_pow2 with (n := 8) by lia;
    (destruct (Z.ltb_spec n 8); [by rewrite Z.shiftl_spec_low|]);
    rewrite andb_false_intro2; try done;
    (destruct (decide (b = 0)) as [->|]; [by rewrite Z.bits_0|]);
    apply Z.bits_above_log2; try lia;
    apply Z.log2_lt_pow2; try lia;
    (apply Z.lt_le_trans with (2 ^ 8); [lia|apply Z.pow_le_mono_r; lia]).
Qed.

Lemma htons_spec v : 0 <= v < 2 ^ 16 -> htons v = (v mod 256) * 256 + v / 256.
Proof.
  intros Hv. unfold htons. change 255 with (Z.ones 8). rewrite (Z.land_ones v 8), Z.shiftr_div_pow2 by lia.
  apply lor_shiftl_add. change (2 ^ 8) with 256. split; [apply Z.div_pos; lia|].
  apply Z.div_lt_upper_bound; lia.
Qed.

Lemma htons_bound v : 0 <= v < 2 ^ 16 -> 0 <= htons v < 2 ^ 16.
Proof.
  intros Hv. rewrite htons_spec by done.
  pose proof (Z.mod_pos_bound v 256). assert (0 <= v / 256 < 256); [|lia].
  split; [apply Z.div_pos; lia|apply Z.div_lt_upper_bound; lia].
Qed.

(** [ntohs(htons(v)) == v] *)
Lemma htons_htons v : 0 <= v < 2 ^ 16 -> htons (htons v) = v.
Proof.
  intros Hv. rewrite htons_spec by by apply htons_bound. rewrite htons_spec by done.
  assert (0 <= v / 256 < 256) as Hd
    by (split; [apply Z.div_pos; lia|apply Z.div_lt_upper_bound; lia]).
  rewrite (Z.add_comm (v mod 256 * 256)), Z.mod_add, (Z.mod_small (v / 256)), Z.div_add,
    (Z.div_small (v / 256)) by lia.
  rewrite (Z.div_mod v 256) at 3 by lia. lia.
Qed.

Lemma splice_in {A} off (d pre post : list A) :
  length pre = off -> forall old, length old = length d ->
  splice off d (pre ++ old ++ post) = pre ++ d ++ post.
Proof.
  intros <- old Hold. unfold splice. rewrite take_app_length. f_equal. f_equal.
  by rewrite app_assoc, drop_app_length' by (rewrite length_app; lia).
Qed.

Lemma splice_0 {A} (d old post : list A) :
  length old = length d -> splice 0 d (old ++ post) = d ++ post.
Proof. intros E. exact (splice_in 0 d [] post eq_refl old E). Qed.

Lemma read16_le16 v (pre post : list byte) off :
  0 <= v < 2 ^ 16 -> length pre = off -> read16 (pre ++ le16 v ++ post) off = v.
Proof.
  intros Hv <-. unfold read16, le16.
  rewrite lookup_app_r by lia. rewrite (lookup_app_r _ _ (S _)) by lia.
  replace (S (length pre) - length pre)%nat with 1%nat by lia.
  rewrite Nat.sub_diag. cbn [lookup list_lookup app].
  rewrite !Z_of_byte_of_Z, Z.shiftr_div_pow2 by lia.
  change (2 ^ 8) with 256. rewrite (Z.mod_small (v / 256)).
  - rewrite (Z.div_mod v 256) at 3 by lia. lia.
  - split; [apply Z.div_pos; lia|apply Z.div_lt_upper_bound; lia].
Qed.

Lemma substring_all (s : string) n : (String.length s <= n)%nat -> String.substring 0 n s = s.
Proof.
  revert n. induction s as [|c s IH]; intros [|n] Hn; simpl in *; try done; [lia|].
  f_equal. apply IH. lia.
Qed.

Lemma pretty_N_go_length (n : nat) (x : N) str :
  (x < 10 ^ N.of_nat n)%N -> (String.length (pretty_N_go x str) <= n + String.length str)%nat.
Proof.
  revert x str. induction n as [|n IH]; intros x str Hx.
  - assert (x = 0%N) as -> by (simpl in Hx; lia). by rewrite pretty_N_go_0.
  - destruct (decide (x = 0%N)) as [->|Hne]; [rewrite pretty_N_go_0; lia|].
    rewrite pretty_N_go_step by lia.
    etrans; [apply IH|simpl; lia].
    apply N.Div0.div_lt_upper_bound.
    rewrite Nat2N.inj_succ, N.pow_succ_r' in Hx. done.
Qed.

(** A port has at most five digits. *)
Lemma port_digits port : 0 <= port < 2 ^ 16 -> (String.length (pretty port) <= 5)%nat.
Proof.
  intros Hp. destruct port as [|p|p]; [simpl; lia| |lia].
  change (pretty (Z.pos p)) with (pretty (N.pos p)). unfold pretty, pretty_N.
  case_decide; [done|]. apply (pretty_N_go_length 5). simpl. lia.
Qed.

Lemma snprintf_append_all s extra :
  (String.length s + String.length extra <= 63)%nat -> snprintf_append s extra = (s +:+ extra)%string.
Proof. intros Hn. unfold snprintf_append. by rewrite substring_all by lia. Qed.

Section address_claims.
Context `{Inet}.

(** Where the constructor puts what: family, port, address, in an image that had
    room for them. *)
Lemma toAddr_image (fam port : Z) (n off : nat) (init a : sockaddr) :
  length init = 28%nat -> length a = n -> (4 <= off)%nat -> (off + n <= 28)%nat ->
  splice off a (splice 2 (le16 (htons port)) (splice 0 (le16 fam) init)) =
    le16 fam ++ le16 (htons port) ++ take (off - 4) (drop 4 init) ++ a ++ drop (off + n) init.
Proof.
  intros Hi Ha Ho Hn.
  transitivity (splice off a (splice 2 (le16 (htons port)) (splice 0 (le16 fam)
    (take 2 init ++ take 2 (drop 2 init) ++ take (off - 4) (drop 4 init) ++
     take n (drop off init) ++ drop (off + n) init)))).
  { do 3 f_equal. rewrite <-(take_drop 2 init) at 1. f_equal.
    rewrite <-(take_drop 2 (drop 2 init)) at 1. f_equal. rewrite drop_drop. simpl.
    rewrite <-(take_drop (off - 4) (drop 4 init)) at 1. f_equal. rewrite drop_drop.
    replace (4 + (off - 4))%nat with off by lia.
    rewrite <-(take_drop n (drop off init)) at 1. by rewrite drop_drop. }
  rewrite (splice_0 (le16 fam)) by (by rewrite length_take, Hi).
  rewrite (splice_in 2 _ (le16 fam) _ eq_refl)
    by (by rewrite length_take, length_drop, Hi).
  rewrite !app_assoc. rewrite <-(app_assoc _ (take n _)).
  rewrite (splice_in off a _ _)
    by (rewrite ?length_app, ?length_take, ?length_drop, Hi; cbn [le16 length]; lia).
  by rewrite <-!app_assoc.
Qed.

Lemma toAddr_fields fam port (n off : nat) (init a : sockaddr) :
  0 <= fam < 2 ^ 16 -> 0 <= port < 2 ^ 16 ->
  length init = 28%nat -> length a = n -> (4 <= off)%nat -> (off + n <= 28)%nat ->
  let addr := splice off a (splice 2 (le16 (htons port)) (splice 0 (le16 fam) init)) in
  length addr = 28%nat /\ Family addr = fam /\ htons (read16 addr 2) = port /\
  take 2 (drop 2 addr) = [byte_of_Z (port / 256); byte_of_Z port] /\
  take n (drop off addr) = a.
Proof.
  intros Hf Hp Hi Ha Ho Hn addr. unfold addr. rewrite (toAddr_image _ _ n) by done. split_and!.
  - rewrite !length_app, length_take, !length_drop, Hi. cbn [le16 length]. lia.
  - unfold Family. by apply (read16_le16 fam []).
  - rewrite (read16_le16 (htons port) (le16 fam)) by (done || by apply htons_bound).
    by apply htons_htons.
  - cbn [le16 app drop take]. unfold byte_of_Z.
    pose proof (htons_spec port Hp) as E. rewrite Z.shiftr_div_pow2 by lia.
    assert (0 <= port / 256 < 256) as Hd
      by (split; [apply Z.div_pos; lia|apply Z.div_lt_upper_bound; lia]).
    change (2 ^ 8) with 256. rewrite E, Z.div_add_l, (Z.div_small (port / 256)), Z.add_0_r by lia.
    rewrite Z.mod_mod by lia. by rewrite (Z.add_comm (port mod 256 * 256)), Z.mod_add by lia.
  - rewrite !app_assoc, <-app_assoc. rewrite drop_app_length'.
    + by rewrite take_app_length'.
    + rewrite !length_app, length_take, length_drop, Hi. cbn [le16 length]. lia.
Qed.

(** C32: IPv4 addresses.  When inet_pton(3) accepts the text, the constructor of
    [SocketAddr] leaves an image with the family, the port in network byte order
    and the address, whatever was in memory before; the family and the port read
    back, and [ToString] prints the address and the port it was made from. *)
Theorem SocketAddr_ipv4_roundtrip ip port a init :
  0 <= port < 2 ^ 16 -> length init = 28%nat ->
  inet_pton AF_INET ip = Some a -> length a = 4%nat ->
  inet_ntop AF_INET a = ip -> (String.length ip <= 15)%nat ->
  let addr := SocketAddr_new ip port false init in
  (toAddrIpv4 ip port init).1 = true /\ length addr = 28%nat /\ Family addr = AF_INET /\
  take 2 (drop 2 addr) = [byte_of_Z (port / 256); byte_of_Z port] /\
  ToString addr = (ip +:+ ":" +:+ pretty port)%string.
Proof.
  intros Hp Hi Hpt Ha Hnt Hip addr. unfold addr, SocketAddr_new, toAddrIpv4. rewrite Hpt. simpl.
  destruct (toAddr_fields AF_INET port 4 4 init a) as (Hl & Hf & Hport & Hnet & Hadr);
    [done..|lia|lia|].
  split_and!; [done..|]. unfold ToString. rewrite Hf, Hport, Hadr, Hnt. simpl.
  rewrite snprintf_append_all; [done|]. pose proof (port_digits port Hp).
  change (String.length (":" +:+ pretty port)) with (S (String.length (pretty port))). lia.
Qed.

(** [toAddrIpv6] reports success and failure the wrong way round: it tests the
    result of inet_pton(3) against 0.  The image is filled in correctly all the
    same. *)
Theorem toAddrIpv6_result_inverted ip port init :
  0 <= port < 2 ^ 16 -> length init = 28%nat ->
  (forall a, inet_pton AF_INET6 ip = Some a -> length a = 16%nat) ->
  let '(ok, addr) := toAddrIpv6 ip port init in
  (ok = true <-> inet_pton AF_INET6 ip = None) /\
  (forall a, inet_pton AF_INET6 ip = Some a ->
    Family addr = AF_INET6 /\ htons (read16 addr 2) = port /\ take 16 (drop 8 addr) = a).
Proof.
  intros Hp Hi Hlen. unfold toAddrIpv6. destruct (inet_pton AF_INET6 ip) as [a|] eqn:Hpt.
  - split; [done|]. intros a' [= <-].
    destruct (toAddr_fields AF_INET6 port 16 8 init a) as (_ & ? & ? & _ & ?);
      [done|done|done|by apply Hlen|lia|lia|done].
  - by split.
Qed.

(** [ToString] of an IPv6 address prints the port right after the address,
    without a separator, so that different endpoints print alike: [::1] with
    port 23 and [::12] with port 3. *)
Theorem ToString_ipv6_ambiguous a1 a2 init :
  length init = 28%nat -> length a1 = 16%nat -> length a2 = 16%nat ->
  inet_pton AF_INET6 "::1" = Some a1 -> inet_ntop AF_INET6 a1 = "::1"%string ->
  inet_pton AF_INET6 "::12" = Some a2 -> inet_ntop AF_INET6 a2 = "::12"%string ->
  ToString (SocketAddr_new "::1" 23 true init) = "::123"%string /\
  ToString (SocketAddr_new "::12" 3 true init) = "::123"%string.
Proof.
  intros Hi H1 H2 P1 N1 P2 N2. unfold SocketAddr_new, toAddrIpv6. rewrite P1, P2. simpl.
  destruct (toAddr_fields AF_INET6 23 16 8 init a1) as (_ & F1 & Q1 & _ & A1); [done..|lia|lia|].
  destruct (toAddr_fields AF_INET6 3 16 8 init a2) as (_ & F2 & Q2 & _ & A2); [done..|lia|lia|].
  unfold ToString. by rewrite F1, Q1, A1, N1, F2, Q2, A2, N2.
Qed.
End address_claims.

(** ** Witnesses *)

(** A fragment of inet_pton(3) and inet_ntop(3): a table. *)
Definition demo_texts : list (Z * string * list byte) :=
  [(AF_INET, "127.0.0.1"%string, [x7f; x00; x00; x01]);
   (AF_INET6, "::1"%string, replicate 15 x00 ++ [x01]);
   (AF_INET6, "::12"%string, replicate 15 x00 ++ [x12])].

#[global] Instance demo_inet : Inet := {|
  inet_pton af ip := snd <$> List.find (fun e => bool_decide (e.1 = (af, ip))) demo_texts;
  inet_ntop af a := default ""%string ((fun e => e.1.2) <$>
    List.find (fun e => bool_decide (e.1.1 = af /\ e.2 = a)) demo_texts)
|}.

Lemma SocketAddr_ipv4_roundtrip_witness :
  ToString (SocketAddr_new "127.0.0.1" 8080 false (replicate 28 xff)) = "127.0.0.1:8080"%string.
Proof.
  destruct (SocketAddr_ipv4_roundtrip "127.0.0.1" 8080 [x7f; x00; x00; x01] (replicate 28 xff))
    as (_ & _ & _ & _ & E); [lia|reflexivity..|simpl; lia|]. rewrite E. vm_compute. reflexivity.
Defined.

Lemma toAddrIpv6_result_inverted_witness :
  (toAddrIpv6 "::1" 80 (replicate 28 x00)).1 = false /\
  (toAddrIpv6 "nonsense" 80 (replicate 28 x00)).1 = true.
Proof.
  split.
  - destruct (toAddrIpv6 "::1" 80 (replicate 28 x00)) as [ok addr] eqn:E.
    pose proof (toAddrIpv6_result_inverted "::1" 80 (replicate 28 x00) ltac:(lia) eq_refl) as T.
    rewrite E in T. destruct T as [T _]; [by intros a [= <-]|]. destruct ok; [|done].
    by specialize (proj1 T eq_refl).
  - destruct (toAddrIpv6 "nonsense" 80 (replicate 28 x00)) as [ok addr] eqn:E.
    pose proof (toAddrIpv6_result_inverted "nonsense" 80 (replicate 28 x00) ltac:(lia) eq_refl) as T.
    rewrite E in T. destruct T as [T _]; [done|]. by apply T.
Defined.

Lemma ToString_ipv6_ambiguous_witness :
  ToString (SocketAddr_new "::1" 23 true (replicate 28 x00)) =
  ToString (SocketAddr_new "::12" 3 true (replicate 28 x00)).
Proof.
  destruct (ToString_ipv6_ambiguous (replicate 15 x00 ++ [x01]) (replicate 15 x00 ++ [x12])
    (replicate 28 x00)) as [-> ->]; reflexivity.
Defined.

