(* ===== verification/Connection.v ===== *)
(** * Connection: TcpConnection

    Models [TcpConnection] (tcp_connection.h/.cpp).  The callbacks of the users
    of the library go through [call_user]; the [close_cb_] (a method of the
    server or of the client that owns the connection) is the parameter
    [call_close], and the code that runs a task is the parameter [exec]:
    Reactor.v ties both.  A [std::shared_ptr<uint8_t>] message is the list of
    the bytes it points to. *)

From stdpp Require Import base list gmap strings numbers.
From Stdlib Require Import ZArith Lia Init.Byte.
From S2P Require Import Prelude Buffer Kernel RefKernel State World Demo Poller EventLoop Socket.

Open Scope np_scope.

Section operations.
Context `{Kernel} `{!Inet} `{!UserCode}.
Variable call_close : close_cb -> ptr -> M unit.
Variable exec : task -> M unit.

(** ** Construction and destruction *)

Definition default_high_water : Z := 6 * 1024 * 1024.

Definition TcpConnection_new (fd : Z) (loop : ptr) (local_addr peer_addr : sockaddr) : M ptr :=
  let! conn := gets w_next in
  do! modify (set_w_next (Pos.succ conn));
  let! channel := EventChannel_new loop fd in
  do! store conn (mkTcpConnection (ToString local_addr +:+ "_" +:+ ToString peer_addr)%string
        CONNECTING loop fd channel fd (Buffer_new InitSize) (Buffer_new InitSize)
        default_high_water None None None None None);
  do! SetCloseEventCallBack channel (CloseHandler_cb conn);
  do! SetErrorEventCallBack channel (ErrorHandler_cb conn);
  do! SetReadEventCallBack channel (ReadHandler_cb conn);
  do! SetWriteEventCallBack channel (WriteHandler_cb conn);
  do! Socket_SetKeepAlived fd true;
  ret conn.

(** The destructors of the members [channel_] and [socket_]. *)
Definition TcpConnection_destroy (conn : ptr) : M unit :=
  let! co := load (T := TcpConnection) conn in
  do! free (T := EventChannel) (co_channel_ co);
  do! Socket_destroy (co_socket_fd_ co);
  free (T := TcpConnection) conn.

Definition SetMessagCB (conn : ptr) cb : M unit := update conn (co_set_msg_cb_ cb).
Definition SetCloseCB (conn : ptr) cb : M unit := update conn (co_set_close_cb_ cb).
Definition SetWriteCompleteCB (conn : ptr) cb : M unit := update conn (co_set_written_cb_ cb).
Definition SetHighWaterCB (conn : ptr) cb (high_water : Z) : M unit :=
  update conn (co_set_high_water cb high_water).
Definition SetConnStatusCB (conn : ptr) cb : M unit := update conn (co_set_conn_status_cb_ cb).
Definition SetState (conn : ptr) (state : ConnState) : M unit := update conn (co_set_state_ state).

(** ** Helpers *)

(** [assert(loop_->IsInLoopThread())] *)
Definition assert_in_loop (conn : ptr) : M unit :=
  let! co := load (T := TcpConnection) conn in
  let! b := IsInLoopThread (co_loop_ co) in
  assert_ b.

(** [state_.compare_exchange_weak(expected, desired)], which may fail spuriously. *)
Definition compare_exchange_weak (conn : ptr) (expected desired : ConnState) (spurious : bool)
    : M bool :=
  let! co := load (T := TcpConnection) conn in
  if bool_decide (co_state_ co = expected) && negb spurious
  then do! SetState conn desired; ret true
  else ret false.

(** [if (conn_status_cb_) conn_status_cb_(shared_from_this())] *)
Definition call_conn_status (conn : ptr) : M unit :=
  let! co := load (T := TcpConnection) conn in
  match co_conn_status_cb_ co with
  | Some cb => call_user (ConnStatus_ev cb conn (co_state_ co))
  | None => ret tt
  end.

(** ** Handlers *)

Definition CloseHandler (conn : ptr) : M unit :=
  do! assert_in_loop conn;
  do! SetState conn DISCONNECTED;
  let! co := load (T := TcpConnection) conn in
  do! DisableAll (co_channel_ co);
  do! call_conn_status conn;
  let! co := load (T := TcpConnection) conn in
  match co_close_cb_ co with
  | Some cb => call_close cb conn
  | None => throw AssertFailure
  end.

Definition ErrorHandler (conn : ptr) : M unit :=
  let! co := load (T := TcpConnection) conn in
  let! _ := SocketError (co_fd_ co) in
  ret tt.

(** [read_buffer_.ReadFromFD(channel_->Fd(), readErr)] *)
Definition read_from_fd (conn : ptr) : M (Z * option Z) :=
  let! co := load (T := TcpConnection) conn in
  let! ch := load (T := EventChannel) (co_channel_ co) in
  let! errno0 := get_errno in
  let! r := ReadV (ch_fd_ ch) (ReadFromFD_iov (co_read_buffer_ co)) in
  let! '(n, readErr, b) := lift (ReadFromFD_done errno0 (co_read_buffer_ co) r) in
  do! update conn (co_set_read_buffer_ b);
  ret (n, readErr).

(** [fuel] bounds the iterations of [while (1)]. *)
Fixpoint ReadHandler_loop (fuel : nat) (conn : ptr) : M unit :=
  match fuel with
  | O => throw OutOfFuel
  | S fuel' =>
      let! '(len, readErr) := read_from_fd conn in
      if 0 <? len then
        let! co := load (T := TcpConnection) conn in
        match co_msg_cb_ co with
        | Some cb => do! call_user (Message_ev cb conn); ReadHandler_loop fuel' conn
        | None => CloseHandler conn
        end
      else if 0 =? len then CloseHandler conn
      else match readErr with
        | Some e => if e =? EAGAIN then ret tt else do! set_errno e; ErrorHandler conn
        | None => throw UndefinedBehaviour
        end
  end.

Definition ReadHandler (fuel : nat) (conn : ptr) : M unit :=
  do! assert_in_loop conn;
  ReadHandler_loop fuel conn.

Definition ShutdownInLoop (conn : ptr) : M unit :=
  do! assert_in_loop conn;
  let! co := load (T := TcpConnection) conn in
  let! ch := load (T := EventChannel) (co_channel_ co) in
  when (negb (IsWriting ch)) (Socket_ShutdownWrite (co_socket_fd_ co)).

(** What [WriteHandler] does when the write buffer has become empty. *)
Definition write_completed (conn : ptr) : M unit :=
  let! co := load (T := TcpConnection) conn in
  do! DisableWriting (co_channel_ co);
  let! co := load (T := TcpConnection) conn in
  do! match co_written_cb_ co with
      | Some cb => RunInLoop exec (co_loop_ co) (Written_task cb conn)
      | None => ret tt
      end;
  let! co := load (T := TcpConnection) conn in
  when (bool_decide (DISCONNECTING = co_state_ co))
    (RunInLoop exec (co_loop_ co) (ShutdownInLoop_task conn)).

Definition WriteHandler (conn : ptr) : M unit :=
  do! assert_in_loop conn;
  let! co := load (T := TcpConnection) conn in
  let! ch := load (T := EventChannel) (co_channel_ co) in
  when (IsWriting ch)
    (let wb := co_write_buffer_ co in
     let! data := lift (load_bytes wb (read_index_ wb) (ReadableBytes wb)) in
     let! r := Write (ch_fd_ ch) data in
     match r with
     | SOk n_size =>
         when (0 <? n_size)
           (do! update conn (co_set_write_buffer_ (ClearReadIndex wb (u32 n_size)));
            when (IsEmpty (ClearReadIndex wb (u32 n_size))) (write_completed conn))
     | SErr _ => ret tt
     end).

(** ** Operations run in the loop *)

Definition ForceCloseInLoop (conn : ptr) : M unit :=
  do! assert_in_loop conn;
  let! co := load (T := TcpConnection) conn in
  when (bool_decide (CONNECTED = co_state_ co) || bool_decide (DISCONNECTING = co_state_ co))
    (CloseHandler conn).

(** The memory [msg] points to, as a range of [len] bytes. *)
Definition msg_bytes (msg : list byte) (len : Z) : res (list byte) :=
  if len <=? Z.of_nat (length msg) then Ok (take (Z.to_nat len) msg) else Err UndefinedBehaviour.

(** The attempt to write at once: [nwrite], [remaining] and [faultErr]. *)
Definition send_directly (conn : ptr) (co : TcpConnection) (ch : EventChannel)
    (msg : list byte) (msg_size : Z) : M (Z * Z * bool) :=
  let remaining := u64 msg_size in
  if negb (IsWriting ch) && (ReadableBytes (co_write_buffer_ co) =? 0) then
    let! data := lift (msg_bytes msg (u64 msg_size)) in
    let! r := Write (ch_fd_ ch) data in
    match r with
    | SOk nwrite =>
        let remaining := u64 (remaining - nwrite) in
        do! match co_written_cb_ co with
            | Some cb => when (0 =? remaining) (QueueInLoop (co_loop_ co) (Written_task cb conn))
            | None => ret tt
            end;
        ret (nwrite, remaining, false)
    | SErr _ =>
        let! errno := get_errno in
        let faultErr :=
          (negb (errno =? EWOULDBLOCK) || negb (errno =? EAGAIN)) &&
          ((errno =? EPIPE) || (errno =? ECONNRESET)) in
        ret (0, remaining, faultErr)
    end
  else ret (0, remaining, false).

Definition highWaterMark_ : Z := 6 * 1024 * 1024.

(** What could not be written goes to the write buffer. *)
Definition buffer_rest (conn : ptr) (msg : list byte) (nwrite remaining : Z) : M unit :=
  let! co := load (T := TcpConnection) conn in
  let readable_len := ReadableBytes (co_write_buffer_ co) in
  do! when (highWaterMark_ <? u64 (readable_len + remaining))
        (match co_high_water_cb_ co with
         | Some cb => QueueInLoop (co_loop_ co) (HighWater_task cb conn (co_high_water_ co))
         | None => ret tt
         end);
  let! data := lift (msg_bytes (drop (Z.to_nat nwrite) msg) remaining) in
  let! wb := lift (Append (co_write_buffer_ co) data) in
  do! update conn (co_set_write_buffer_ wb);
  let! ch := load (T := EventChannel) (co_channel_ co) in
  when (negb (IsWriting ch)) (EnableWriting (co_channel_ co)).

Definition SendInLoop (conn : ptr) (msg : list byte) (msg_size : Z) : M unit :=
  do! assert_in_loop conn;
  let! co := load (T := TcpConnection) conn in
  if bool_decide (DISCONNECTED = co_state_ co) then ret tt
  else
    let! ch := load (T := EventChannel) (co_channel_ co) in
    let! '(nwrite, remaining, faultErr) := send_directly conn co ch msg msg_size in
    do! when faultErr (CloseHandler conn);
    when (negb faultErr && (0 <? remaining)) (buffer_rest conn msg nwrite remaining).

Definition StartReadInLoop (conn : ptr) : M unit :=
  do! assert_in_loop conn;
  let! co := load (T := TcpConnection) conn in
  let! ch := load (T := EventChannel) (co_channel_ co) in
  when (negb (IsReading ch)) (EnableReading (co_channel_ co)).

Definition StopReadInLoop (conn : ptr) : M unit :=
  do! assert_in_loop conn;
  let! co := load (T := TcpConnection) conn in
  let! ch := load (T := EventChannel) (co_channel_ co) in
  when (IsReading ch) (DisableReading (co_channel_ co)).

Definition ConnectEstablished (conn : ptr) : M unit :=
  do! assert_in_loop conn;
  do! SetState conn CONNECTED;
  let! co := load (T := TcpConnection) conn in
  do! EnableReading (co_channel_ co);
  call_conn_status conn.

Definition ConnectDestoryed (conn : ptr) : M unit :=
  do! assert_in_loop conn;
  let! co := load (T := TcpConnection) conn in
  do! when (bool_decide (CONNECTED = co_state_ co))
        (do! SetState conn DISCONNECTED;
         do! DisableAll (co_channel_ co);
         call_conn_status conn);
  let! co := load (T := TcpConnection) conn in
  RemoveFromLoop (co_channel_ co).

(** ** Operations any thread may call *)

Definition Send (conn : ptr) (msg : list byte) (msg_size : Z) : M unit :=
  let! co := load (T := TcpConnection) conn in
  let! b := IsInLoopThread (co_loop_ co) in
  if b then SendInLoop conn msg msg_size
  else QueueInLoop (co_loop_ co) (SendInLoop_task conn msg msg_size).

Definition queue_for (conn : ptr) (t : task) : M unit :=
  let! co := load (T := TcpConnection) conn in QueueInLoop (co_loop_ co) t.

Definition StartRead (conn : ptr) : M unit := queue_for conn (StartReadInLoop_task conn).
Definition StopRead (conn : ptr) : M unit := queue_for conn (StopReadInLoop_task conn).

Definition Shutdown (conn : ptr) (spurious : bool) : M unit :=
  let! b := compare_exchange_weak conn CONNECTED DISCONNECTING spurious in
  when b (queue_for conn (ShutdownInLoop_task conn)).

Definition ForceClose (conn : ptr) (spurious1 spurious2 : bool) : M unit :=
  let! b := compare_exchange_weak conn CONNECTED DISCONNECTING spurious1 in
  do! when b (queue_for conn (ForceCloseInLoop_task conn));
  let! b := compare_exchange_weak conn DISCONNECTING DISCONNECTING spurious2 in
  when b (queue_for conn (ForceCloseInLoop_task conn)).
End operations.

(** ** The write flag of a channel *)

Lemma IsWriting_testbit ch : IsWriting ch = Z.testbit (ch_events_ ch) 2.
Proof. exact (has_flag_bit 2 _ ltac:(lia)). Qed.

(** Which of the interest operations change it. *)
Lemma IsWriting_enabled ch :
  IsWriting (with_interest (fun e => Z.lor e write_event_flag) ch) = true.
Proof. rewrite IsWriting_testbit. cbn [with_interest ch_events_ ch_set_poller_status_ ch_set_events_]. rewrite Z.lor_spec. apply orb_true_r. Qed.
Lemma IsWriting_disabled ch :
  IsWriting (with_interest (fun e => Z.land e (Z.lnot write_event_flag)) ch) = false.
Proof. rewrite IsWriting_testbit. cbn [with_interest ch_events_ ch_set_poller_status_ ch_set_events_]. rewrite Z.land_spec. apply andb_false_r. Qed.

(** ** A connection in its loop *)

Section view.
Context `{EpollReliable} `{!EpollFrame} `{!StreamLaws}.
Implicit Types (w : World) (conn l c : ptr) (co : TcpConnection) (ch : EventChannel) (lp : EventLoop).

(** The connection, its channel and its loop are alive and agree; the running
    thread is the loop's; the descriptor is a stream socket. *)
Record conn_core w conn co ch lp st : Prop := {
  cc_conn : w_conns w !! conn = Some co;
  cc_inv : poller_inv w (co_loop_ co) lp;
  cc_chan : channel_of w (co_loop_ co) lp (co_channel_ co) ch;
  cc_fd : ch_fd_ ch = co_fd_ co;
  cc_stream : k_stream (w_kern w) (co_fd_ co) = Some st
}.

(** The buffers are well formed, and the connection waits for writability
    exactly while something waits to be written. *)
Record conn_bufs co ch : Prop := {
  cb_read : buffer_wf (co_read_buffer_ co);
  cb_write : buffer_wf (co_write_buffer_ co);
  cb_writing : IsWriting ch = true <-> contents (co_write_buffer_ co) <> []
}.

Definition conn_view w conn co ch lp st : Prop :=
  conn_core w conn co ch lp st /\ conn_bufs co ch.

(** Everything the connection was given to send and the peer has not been sent
    yet follows what the kernel has accepted. *)
Definition outgoing co (st : stream) : list byte := st_sent st ++ contents (co_write_buffer_ co).

Lemma run_assert_in_loop {A} w conn co ch lp st (k : unit -> M A) :
  conn_core w conn co ch lp st -> bind (assert_in_loop conn) k w = k tt w.
Proof.
  intros []. unfold assert_in_loop. rewrite run_bind_assoc. run1. rewrite run_bind_assoc.
  erewrite run_bind by (apply run_IsInLoopThread; apply cc_inv0).
  rewrite bool_decide_eq_true_2 by apply cc_chan0. by run1.
Qed.

Lemma core_channel w conn co ch lp st :
  conn_core w conn co ch lp st -> w_channels w !! co_channel_ co = Some ch.
Proof. intros []. apply cc_chan0. Qed.

Lemma core_loop w conn co ch lp st :
  conn_core w conn co ch lp st -> w_loops w !! co_loop_ co = Some lp.
Proof. intros []. apply cc_inv0. Qed.

(** A system call that leaves the interest lists alone. *)
Lemma core_syscall {A} w conn co ch lp st (r : sysres A) k st' :
  conn_core w conn co ch lp st -> (forall ep, k_interest k ep = k_interest (w_kern w) ep) ->
  k_stream k (co_fd_ co) = Some st' ->
  conn_core (after_syscall r k w) conn co ch lp st'.
Proof.
  intros [] Hi Hst. split; autorewrite with world; [done| | |done|done].
  - eapply poller_inv_frame; [done|..]; autorewrite with world; try done. apply cc_inv0.
  - destruct cc_chan0. split; autorewrite with world; done.
Qed.

(** Changes of the connection's own members. *)
Lemma core_update w conn co ch lp st co' :
  conn_core w conn co ch lp st -> co_loop_ co' = co_loop_ co ->
  co_channel_ co' = co_channel_ co -> co_fd_ co' = co_fd_ co ->
  conn_core (set_w_conns (<[conn := co']> (w_conns w)) w) conn co' ch lp st.
Proof.
  intros [] El Ec Ef. split; simpl; rewrite ?El, ?Ec, ?Ef; [by rewrite lookup_insert_eq| | |done|done].
  - by destruct cc_inv0; split.
  - by destruct cc_chan0; split.
Qed.

(** Changes of the loop that its poller does not see. *)
Lemma core_loop_update w conn co ch lp st lp' :
  conn_core w conn co ch lp st -> lo_thread_id_ lp' = lo_thread_id_ lp ->
  lo_poller_ lp' = lo_poller_ lp ->
  conn_core (set_w_loops (<[co_loop_ co := lp']> (w_loops w)) w) conn co ch lp' st.
Proof.
  intros [] Et Ep. split; simpl; [done| | |done|done].
  - eapply poller_inv_frame; [done|by simpl; rewrite lookup_insert_eq|done|by rewrite Ep..|done|done].
  - destruct cc_chan0. split; simpl; rewrite ?Ep, ?Et; done.
Qed.

Definition queued lp (ts : list task) : EventLoop :=
  lo_set_queue_task_funcs_ (lo_queue_task_funcs_ lp ++ ts) lp.

Lemma run_QueueInLoop w conn co ch lp st t :
  conn_core w conn co ch lp st ->
  exists w', QueueInLoop (co_loop_ co) t w = Ok (tt, w') /\
    conn_core w' conn co ch (queued lp [t]) st /\
    w' = set_w_loops (<[co_loop_ co := queued lp [t]]> (w_loops w)) w.
Proof.
  intros Hc. exists (set_w_loops (<[co_loop_ co := queued lp [t]]> (w_loops w)) w). split_and!.
  - exact (run_update (T := EventLoop) _ _ _ w (core_loop _ _ _ _ _ _ Hc)).
  - by apply (core_loop_update w conn co ch lp).
  - done.
Qed.

(** The objects that own connections. *)
Definition owners w := (w_clients w, w_servers w, w_connectors w, w_acceptors w).

(** The interest operations. *)
Lemma core_interest f w conn co ch lp st :
  conn_core w conn co ch lp st ->
  exists w', set_interest (co_channel_ co) f w = Ok (tt, w') /\
    conn_core w' conn co (with_interest f ch) (with_entry (ch_fd_ ch) (co_channel_ co) lp) st /\
    (w_conns w' = w_conns w /\ owners w' = owners w /\
     w_loops w' = <[co_loop_ co := with_entry (ch_fd_ ch) (co_channel_ co) lp]> (w_loops w) /\
     w_channels w' = <[co_channel_ co := with_interest f ch]> (w_channels w) /\ w_next w' = w_next w) /\
    w_trace w' = w_trace w.
Proof.
  intros []. destruct (set_interest_correct f _ _ _ _ _ cc_inv0 cc_chan0)
    as (w' & E & Hinv' & Hco' & Hw' & _).
  exists w'. split_and!; [done| |by rewrite Hw'..].
  split; [by rewrite Hw'|done|done|done|].
  pose proof (run_set_interest f (co_loop_ co) (co_channel_ co) lp ch w) as R. cbv zeta in R.
  rewrite R in E; [|apply cc_inv0|apply cc_chan0|apply cc_chan0| |by eapply channel_of_entry].
  - injection E as <-. autorewrite with world. by rewrite stream_epoll_ctl.
  - rewrite (co_thread _ _ _ _ _ cc_chan0). apply cc_inv0.
Qed.
End view.

(** ** Sending *)

Section send.
Context `{EpollReliable} `{!EpollFrame} `{!StreamLaws} `{!IoLaws} `{!Inet} `{!UserCode}.
Variable call_close : close_cb -> ptr -> M unit.
Variable exec : task -> M unit.
Implicit Types (w : World) (conn : ptr) (co : TcpConnection) (ch : EventChannel) (lp : EventLoop).

Definition written_tasks conn co (remaining : Z) : list task :=
  if 0 =? remaining then match co_written_cb_ co with Some cb => [Written_task cb conn] | None => [] end
  else [].

Definition high_water_tasks conn co (total : Z) : list task :=
  if highWaterMark_ <? total then
    match co_high_water_cb_ co with
    | Some cb => [HighWater_task cb conn (co_high_water_ co)]
    | None => []
    end
  else [].

(** What sending leaves alone: everything but the connection itself, which keeps all
    but its write buffer, its channel, its loop and the kernel. *)
Definition sent_frame conn co co' w w' : Prop :=
  owners w' = owners w /\ (w_next w' = w_next w)%positive /\
  (exists wb, co' = co_set_write_buffer_ wb co) /\
  (forall conn', conn' <> conn -> w_conns w' !! conn' = w_conns w !! conn') /\
  forall c, c <> co_channel_ co -> w_channels w' !! c = w_channels w !! c.

Lemma sent_frame_same conn co w w' :
  owners w' = owners w -> (w_next w' = w_next w)%positive -> w_conns w' = w_conns w ->
  w_channels w' = w_channels w -> sent_frame conn co co w w'.
Proof.
  intros O N C H'. split_and!; [done|done|by exists (co_write_buffer_ co); destruct co|by rewrite C|by rewrite H'].
Qed.

Lemma sent_frame_trans conn co co1 co2 w w1 w2 :
  sent_frame conn co co1 w w1 -> sent_frame conn co1 co2 w1 w2 -> sent_frame conn co co2 w w2.
Proof.
  intros (O1 & N1 & (wb1 & ->) & C1 & H1') (O2 & N2 & (wb2 & ->) & C2 & H2').
  split_and!; [congruence|congruence|by exists wb2|intros; by rewrite C2, C1|intros; by rewrite H2', H1'].
Qed.

Lemma sent_frame_buffer conn co wb w :
  sent_frame conn co (co_set_write_buffer_ wb co) w (set_w_conns (<[conn := co_set_write_buffer_ wb co]> (w_conns w)) w).
Proof. split_and!; [done|done|by exists wb| |done]. intros. simpl. by rewrite lookup_insert_ne. Qed.

Lemma queued_nil lp : queued lp [] = lp.
Proof. unfold queued. rewrite app_nil_r. by destruct lp. Qed.

Lemma queued_queued lp ts ts' : queued (queued lp ts) ts' = queued lp (ts ++ ts').
Proof. unfold queued; simpl. by rewrite app_assoc. Qed.

(** The queueing of at most one task, under a test. *)
Lemma run_queue_opt {A} w conn co ch lp st (ts : list task) (m : M unit) (k : unit -> M A) :
  conn_core w conn co ch lp st ->
  (ts = [] /\ m = ret tt) \/ (exists t, ts = [t] /\ m = QueueInLoop (co_loop_ co) t) ->
  exists w1, bind m k w = k tt w1 /\ conn_core w1 conn co ch (queued lp ts) st /\
    w1 = set_w_loops (w_loops w1) w.
Proof.
  intros Hc [[-> ->]|(t & -> & ->)].
  - exists w. rewrite queued_nil. split_and!; [done|done|by destruct w].
  - destruct (run_QueueInLoop w conn co ch lp st t Hc) as (w1 & E & Hc1 & ->).
    eexists. erewrite run_bind by exact E. by split_and!.
Qed.

Lemma msg_bytes_all (msg : list byte) : msg_bytes msg (Z.of_nat (length msg)) = Ok msg.
Proof. unfold msg_bytes. rewrite Z.leb_refl, Nat2Z.id, firstn_all. done. Qed.

Lemma buffer_rest_ok w conn co ch lp st msg n :
  conn_view w conn co ch lp st -> (n < length msg)%nat ->
  write_index_ (co_write_buffer_ co) + Z.of_nat (length msg) < 2 ^ 32 ->
  let rest := drop n msg in
  exists w' wb ch' lp',
    buffer_rest conn msg (Z.of_nat n) (Z.of_nat (length rest)) w = Ok (tt, w') /\
    conn_view w' conn (co_set_write_buffer_ wb co) ch' lp' st /\
    contents wb = contents (co_write_buffer_ co) ++ rest /\
    lo_queue_task_funcs_ lp' = lo_queue_task_funcs_ lp ++ high_water_tasks conn co
      (Z.of_nat (length (contents (co_write_buffer_ co) ++ rest))) /\
    sent_frame conn co (co_set_write_buffer_ wb co) w w'.
Proof.
  intros [Hc [Hrw Hww Hiff]] Hn Hov rest.
  assert (length rest = (length msg - n)%nat) as Hlr by apply length_drop.
  unfold buffer_rest. erewrite run_bind by (apply run_load; apply Hc).
  rewrite ReadableBytes_contents by done.
  pose proof (length_contents _ Hww) as Hlc.
  rewrite u64_small by (unfold buffer_wf in Hww; lia).
  rewrite <-Nat2Z.inj_add, <-length_app.
  destruct (run_queue_opt w conn co ch lp st (high_water_tasks conn co
      (Z.of_nat (length (contents (co_write_buffer_ co) ++ rest))))
    (when (highWaterMark_ <? Z.of_nat (length (contents (co_write_buffer_ co) ++ rest)))
       (match co_high_water_cb_ co with
        | Some cb => QueueInLoop (co_loop_ co) (HighWater_task cb conn (co_high_water_ co))
        | None => ret tt end))
    (fun _ => let! data := lift (msg_bytes (drop (Z.to_nat (Z.of_nat n)) msg) (Z.of_nat (length rest))) in
      let! wb := lift (Append (co_write_buffer_ co) data) in
      do! update conn (co_set_write_buffer_ wb);
      let! ch := load (T := EventChannel) (co_channel_ co) in
      when (negb (IsWriting ch)) (EnableWriting (co_channel_ co))) Hc) as (w1 & -> & Hc1 & Ew1).
  { unfold high_water_tasks, when. case_match; [|by left].
    destruct (co_high_water_cb_ co); [right; eauto|by left]. }
  rewrite Nat2Z.id. fold rest. rewrite msg_bytes_all. erewrite run_bind by reflexivity.
  destruct (Append_spec (co_write_buffer_ co) rest) as (wb & EA & Hwb & Hcont & _); [done|lia|].
  rewrite EA. erewrite run_bind by reflexivity.
  erewrite run_bind by (apply run_update; apply Hc1).
  pose proof (core_update _ _ _ _ _ _ (co_set_write_buffer_ wb co) Hc1 eq_refl eq_refl eq_refl) as Hc2.
  erewrite run_bind by (apply run_load; apply (core_channel _ _ _ _ _ _ Hc2)).
  assert (contents wb <> []) as Hne.
  { rewrite Hcont. intros [_ E]%app_eq_nil. apply (f_equal length) in E. simpl in E. lia. }
  assert (sent_frame conn co (co_set_write_buffer_ wb co) w
    (set_w_conns (<[conn := co_set_write_buffer_ wb co]> (w_conns w1)) w1)) as Hfr.
  { eapply sent_frame_trans; [|apply sent_frame_buffer]. by apply sent_frame_same; rewrite Ew1. }
  unfold when. destruct (IsWriting ch) eqn:Hw; simpl.
  - eexists _, wb, ch, _. split_and!; [done|split; [exact Hc2|]|done|done|exact Hfr].
    split; simpl; [done|done|]. by rewrite Hw.
  - destruct (core_interest (fun e => Z.lor e write_event_flag) _ _ _ _ _ _ Hc2)
      as (w3 & E3 & Hc3 & (C3 & O3 & _ & Hch3 & N3) & _). unfold EnableWriting. simpl in E3.
    eexists w3, wb, _, _. split_and!; [exact E3|split; [exact Hc3|]|done|done|].
    + split; simpl; [done|done|]. by rewrite IsWriting_enabled.
    + eapply sent_frame_trans; [exact Hfr|].
      split_and!; [exact O3|exact N3|by exists wb|by rewrite C3|].
      intros c Hne'. rewrite Hch3. by rewrite lookup_insert_ne by done.
Qed.

Definition fault_errno (e : Z) : Prop := e = EPIPE \/ e = ECONNRESET.

(** What [send_directly] does when the write buffer is empty. *)
Lemma send_directly_write {A} w conn co ch lp st msg (k : Z * Z * bool -> M A) :
  conn_view w conn co ch lp st -> contents (co_write_buffer_ co) = [] ->
  Z.of_nat (length msg) < 2 ^ 31 ->
  let len := Z.of_nat (length msg) in
  match sys_write (co_fd_ co) msg (w_kern w) with
  | (SOk n, k') => exists w1,
      bind (send_directly conn co ch msg len) k w = k (n, len - n, false) w1 /\
      0 <= n <= len /\
      conn_view w1 conn co ch (queued lp (written_tasks conn co (len - n)))
        (mkStream (st_sent st ++ take (Z.to_nat n) msg) (st_incoming st) (st_eof st)) /\
      sent_frame conn co co w w1
  | (SErr e, k') => exists faultErr,
      bind (send_directly conn co ch msg len) k w =
        k (0, len, faultErr) (after_syscall (SErr e : sysres Z) k' w) /\
      (faultErr = true <-> fault_errno e) /\
      conn_view (after_syscall (SErr e : sysres Z) k' w) conn co ch lp st
  end.
Proof.
  intros [Hc Hb] Hnil Hlen len. pose proof Hb as [Hrw Hww Hiff].
  assert (IsWriting ch = false) as Hw.
  { apply not_true_is_false. intros E. by apply Hiff. }
  pose proof (ReadableBytes_contents _ Hww) as Hrb. rewrite Hnil in Hrb. simpl in Hrb.
  unfold send_directly. rewrite Hw, Hrb. simpl. rewrite u64_small by lia.
  assert (msg_bytes msg len = Ok msg) as -> by apply msg_bytes_all. rewrite run_bind_assoc.
  erewrite run_bind by reflexivity. unfold Write. rewrite run_bind_assoc.
  erewrite run_bind by apply run_syscall. rewrite (cc_fd _ _ _ _ _ _ Hc).
  pose proof (stream_write (co_fd_ co) msg _ _ (cc_stream _ _ _ _ _ _ Hc)) as Hs.
  pose proof (frame_write (co_fd_ co) msg (w_kern w)) as Hf.
  destruct (sys_write (co_fd_ co) msg (w_kern w)) as [[n|e] k'] eqn:Ew; simpl in *.
  - pose proof (sys_write_bounded _ _ _ _ _ Ew) as Hn. fold len in Hn.
    rewrite u64_small by lia.
    pose proof (core_syscall _ _ _ _ _ _ (SOk n) k' _ Hc Hf Hs) as Hc1. simpl in Hc1.
    rewrite run_bind_assoc.
    destruct (run_queue_opt _ _ _ _ _ _ (written_tasks conn co (len - n))
      (match co_written_cb_ co with
       | Some cb => when (0 =? len - n) (QueueInLoop (co_loop_ co) (Written_task cb conn))
       | None => ret tt end)
      (fun _ => bind (ret (n, len - n, false)) k) Hc1) as (w1 & E & Hc2 & Ew1).
    { unfold written_tasks, when. destruct (co_written_cb_ co); case_match; eauto. }
    rewrite E. exists w1. split; [done|]. split; [done|]. split; [by split|]. by apply sent_frame_same; rewrite Ew1.
  - pose proof (core_syscall _ _ _ _ _ _ (SErr e : sysres Z) k' _ Hc Hf Hs) as Hc1. simpl in Hc1.
    unfold get_errno. rewrite run_bind_assoc. erewrite run_bind by reflexivity.
    simpl. rewrite lookup_insert_eq. simpl. eexists. split; [reflexivity|]. split; [|by split].
    unfold EWOULDBLOCK, fault_errno. rewrite orb_diag, andb_true_iff, orb_true_iff, !Z.eqb_eq.
    split; [by intros [_ ?]|]. intros Hf'. split; [|done].
    apply negb_true_iff, Z.eqb_neq. by destruct Hf' as [-> | ->].
Qed.

(** What the theorem on [SendInLoop] says of a send that does not find the
    connection broken. *)
Definition sent_ok conn co lp st msg w' co' ch' lp' st' : Prop :=
  conn_view w' conn co' ch' lp' st' /\
  outgoing co' st' = outgoing co st ++ msg /\
  co_state_ co' = co_state_ co /\ co_read_buffer_ co' = co_read_buffer_ co /\
  st_incoming st' = st_incoming st /\
  lo_queue_task_funcs_ lp' = lo_queue_task_funcs_ lp ++
    (if decide (contents (co_write_buffer_ co') = []) then written_tasks conn co 0
     else high_water_tasks conn co (Z.of_nat (length (contents (co_write_buffer_ co'))))).

(** The tail of [SendInLoop]: [n] bytes are written, the others are buffered. *)
Lemma send_rest conn co ch lp st sent msg n w w1 :
  sent_frame conn co co w w1 -> (n < length msg)%nat -> msg <> [] ->
  conn_view w1 conn co ch lp
    (mkStream (st_sent st ++ take n msg) (st_incoming st) (st_eof st)) ->
  write_index_ (co_write_buffer_ co) + Z.of_nat (length msg) < 2 ^ 32 ->
  (n = 0%nat \/ contents (co_write_buffer_ co) = []) ->
  sent = Z.of_nat n ->
  exists w' co' ch' lp' st',
    when (negb false && (0 <? Z.of_nat (length msg) - sent))
      (buffer_rest conn msg sent (Z.of_nat (length msg) - sent)) w1 = Ok (tt, w') /\
    sent_ok conn co lp st msg w' co' ch' lp' st' /\ sent_frame conn co co' w w'.
Proof.
  intros Hfr Hn Hm Hv Hov Hor ->.
  destruct (buffer_rest_ok w1 conn co ch lp _ msg n Hv Hn Hov) as (w' & wb & ch' & lp' & E & Hv' & Hcont & Hq & Hfr').
  exists w', (co_set_write_buffer_ wb co), ch', lp'. eexists.
  assert (length (drop n msg) = (length msg - n)%nat) as Hld by apply length_drop.
  replace (Z.of_nat (length msg) - Z.of_nat n) with (Z.of_nat (length (drop n msg))) by lia.
  simpl. rewrite (proj2 (Z.ltb_lt _ _)) by lia. split; [exact E|].
  split; [split_and!; [exact Hv'| |done|done|done|]|by eapply sent_frame_trans].
  - unfold outgoing; simpl. rewrite Hcont. destruct Hor as [-> | ->].
    + by rewrite drop_0, take_0, app_nil_r, app_assoc.
    + by rewrite !app_nil_l, app_nil_r, <-app_assoc, take_drop.
  - rewrite Hq; simpl. rewrite Hcont. case_decide as Hd; [|done].
    apply app_eq_nil in Hd as [_ Hd]. apply (f_equal length) in Hd. simpl in Hd. lia.
Qed.

Lemma bind_ret_tt (m : M unit) w : bind m (fun _ => ret tt) w = m w.
Proof. unfold bind. by destruct (m w) as [[[] ?]|]. Qed.

Lemma stream_eta st : mkStream (st_sent st ++ []) (st_incoming st) (st_eof st) = st.
Proof. rewrite app_nil_r. by destruct st. Qed.

Lemma SendInLoop_cases w conn co ch lp st msg :
  conn_view w conn co ch lp st -> co_state_ co <> DISCONNECTED -> msg <> [] ->
  Z.of_nat (length msg) < 2 ^ 31 ->
  write_index_ (co_write_buffer_ co) + Z.of_nat (length msg) < 2 ^ 32 ->
  (exists e k', contents (co_write_buffer_ co) = [] /\
     sys_write (co_fd_ co) msg (w_kern w) = (SErr e, k') /\ fault_errno e /\
     SendInLoop call_close conn msg (Z.of_nat (length msg)) w =
       CloseHandler call_close conn (after_syscall (SErr e : sysres Z) k' w)) \/
  (exists w' co' ch' lp' st',
     SendInLoop call_close conn msg (Z.of_nat (length msg)) w = Ok (tt, w') /\
     sent_ok conn co lp st msg w' co' ch' lp' st' /\ sent_frame conn co co' w w').
Proof.
  intros Hv Hst Hm Hlen Hov. pose proof Hv as [Hc [_ Hww Hiff]].
  assert (0 < length msg)%nat as Hpos by (destruct msg; [done|simpl; lia]).
  unfold SendInLoop. erewrite run_assert_in_loop by exact Hc.
  erewrite run_bind by (apply run_load; apply Hc). rewrite bool_decide_eq_false_2 by congruence.
  erewrite run_bind by (apply run_load; apply (core_channel _ _ _ _ _ _ Hc)).
  destruct (decide (contents (co_write_buffer_ co) = [])) as [Hnil|Hne].
  - epose proof (send_directly_write w conn co ch lp st msg _ Hv Hnil Hlen) as Hd. cbv zeta in Hd.
    destruct (sys_write (co_fd_ co) msg (w_kern w)) as [[n|e] k'] eqn:Ew.
    + right. destruct Hd as (w1 & -> & Hn & Hv1 & Hfr). cbn beta iota.
      erewrite run_bind by reflexivity.
      destruct (decide (n = Z.of_nat (length msg))) as [->|Hnl].
      * exists w1, co, ch. eexists _, _. rewrite Z.sub_diag in *. split; [reflexivity|].
        rewrite Nat2Z.id, firstn_all in Hv1. split; [split_and!; [exact Hv1| |done|done|done|]|exact Hfr].
        -- unfold outgoing; simpl. by rewrite Hnil, !app_nil_r.
        -- simpl. by rewrite decide_True.
      * assert (written_tasks conn co (Z.of_nat (length msg) - n) = []) as Hwt
          by (unfold written_tasks; case_match; [zlia|done]).
        rewrite Hwt, queued_nil in Hv1.
        apply (send_rest conn co ch lp st n msg (Z.to_nat n) w); [done|lia|done|done|done|by right|lia].
    + destruct Hd as (f & -> & Hf & Hv1). cbn beta iota. destruct f.
      * left. exists e, k'. split_and!; [done|done|by apply Hf|]. apply bind_ret_tt.
      * right. erewrite run_bind by reflexivity.
        rewrite <-(Z.sub_0_r (Z.of_nat (length msg))).
        eapply (send_rest conn co ch lp st 0 msg 0 w); [by apply sent_frame_same|lia|done| |done|by left|done].
        by rewrite take_0, stream_eta.
  - right. unfold send_directly. rewrite (proj2 Hiff Hne). simpl.
    erewrite run_bind by reflexivity. cbn beta iota. erewrite run_bind by reflexivity.
    rewrite u64_small by lia. rewrite <-(Z.sub_0_r (Z.of_nat (length msg))).
    eapply (send_rest conn co ch lp st 0 msg 0 w); [by apply sent_frame_same|lia|done| |done|by left|done].
    by rewrite take_0, stream_eta.
Qed.

(** On the thread of its loop a connection sends at once. *)
Lemma run_Send w conn co ch lp st msg n :
  conn_core w conn co ch lp st -> Send call_close conn msg n w = SendInLoop call_close conn msg n w.
Proof.
  intros Hc. unfold Send. erewrite run_bind by (apply run_load; apply Hc).
  erewrite run_bind by (apply run_IsInLoopThread; apply Hc).
  by rewrite bool_decide_eq_true_2 by apply Hc.
Qed.

(** C7: Sending loses nothing and keeps the order.  For a connection that is not
    disconnected, [SendInLoop] appends the message to what the connection has to
    deliver (the bytes the kernel accepted followed by the write buffer), however
    much of it the kernel takes at once; the connection waits for writability
    exactly while its buffer is not empty; the write-complete callback is queued
    when the whole message was taken at once, and the high-water callback when
    the buffer grew beyond 6 MiB.  Only when the direct write finds the connection
    broken (EPIPE, ECONNRESET) is it closed instead. *)
Theorem SendInLoop_appends_to_stream w conn co ch lp st msg :
  conn_view w conn co ch lp st -> co_state_ co <> DISCONNECTED -> msg <> [] ->
  Z.of_nat (length msg) < 2 ^ 31 ->
  write_index_ (co_write_buffer_ co) + Z.of_nat (length msg) < 2 ^ 32 ->
  (exists e k', contents (co_write_buffer_ co) = [] /\
     sys_write (co_fd_ co) msg (w_kern w) = (SErr e, k') /\ fault_errno e /\
     SendInLoop call_close conn msg (Z.of_nat (length msg)) w =
       CloseHandler call_close conn (after_syscall (SErr e : sysres Z) k' w)) \/
  (exists w' co' ch' lp' st',
     SendInLoop call_close conn msg (Z.of_nat (length msg)) w = Ok (tt, w') /\
     sent_ok conn co lp st msg w' co' ch' lp' st').
Proof.
  intros Hv Hst Hm Hlen Hov.
  destruct (SendInLoop_cases _ _ _ _ _ _ _ Hv Hst Hm Hlen Hov) as [?|(w' & co' & ch' & lp' & st' & ? & ? & _)];
    [by left|right; eauto 8].
Qed.
End send.

(** ** Flushing *)

Section flush.
Context `{EpollReliable} `{!EpollFrame} `{!StreamLaws} `{!IoLaws} `{!Inet} `{!UserCode}.
Variable exec : task -> M unit.
Variable conn : ptr.
Implicit Types (w : World) (co : TcpConnection) (ch : EventChannel) (lp : EventLoop).

(** The tasks [WriteHandler] runs at once. *)
Hypothesis exec_written : forall cb, exec (Written_task cb conn) = call_user (Written_ev cb conn).
Hypothesis exec_shutdown : exec (ShutdownInLoop_task conn) = ShutdownInLoop conn.

(** The connection is in order, nothing of what it had to send is lost, and what
    the kernel has accepted stays accepted. *)
Definition still_sending co (st : stream) w' co' ch' lp' (st' : stream) : Prop :=
  conn_view w' conn co' ch' lp' st' /\
  outgoing co st `prefix_of` outgoing co' st' /\ st_sent st `prefix_of` st_sent st'.

Lemma still_sending_refl w co ch lp st :
  conn_view w conn co ch lp st -> still_sending co st w co ch lp st.
Proof. by split. Qed.

Lemma still_sending_trans co st w1 co1 ch1 lp1 st1 w2 co2 ch2 lp2 st2 :
  still_sending co st w1 co1 ch1 lp1 st1 -> still_sending co1 st1 w2 co2 ch2 lp2 st2 ->
  still_sending co st w2 co2 ch2 lp2 st2.
Proof. intros (_ & ? & ?) (? & ? & ?). split_and!; [done|by etrans..]. Qed.

(** User code leaves the connection in order; it may send more. *)
Definition user_sends_only : Prop :=
  forall ev w co ch lp st, conn_view w conn co ch lp st ->
    wp (call_user ev) (fun _ w' => exists co' ch' lp' st', still_sending co st w' co' ch' lp' st') w.

Lemma run_RunInLoop w co ch lp st t :
  conn_core w conn co ch lp st -> RunInLoop exec (co_loop_ co) t w = exec t w.
Proof.
  intros Hc. unfold RunInLoop.
  erewrite run_bind by (apply run_IsInLoopThread; apply (core_loop _ _ _ _ _ _ Hc)).
  by rewrite bool_decide_eq_true_2 by apply Hc.
Qed.

Lemma ShutdownInLoop_ok w co ch lp st :
  conn_view w conn co ch lp st ->
  ShutdownInLoop conn w =
    if IsWriting ch then Ok (tt, w)
    else let rk := sys_shutdown (co_socket_fd_ co) SHUT_WR (w_kern w) in
         Ok (tt, after_syscall rk.1 rk.2 w).
Proof.
  intros [Hc _]. unfold ShutdownInLoop. erewrite run_assert_in_loop by exact Hc.
  erewrite run_bind by (apply run_load; apply Hc).
  erewrite run_bind by (apply run_load; apply (core_channel _ _ _ _ _ _ Hc)).
  unfold when. destruct (IsWriting ch); simpl; [done|].
  unfold Socket_ShutdownWrite, ShutdownWrite. by erewrite run_bind by apply run_syscall.
Qed.

Lemma ShutdownInLoop_view w co ch lp st :
  conn_view w conn co ch lp st ->
  wp (ShutdownInLoop conn) (fun _ w' => conn_view w' conn co ch lp st) w.
Proof.
  intros Hv. unfold wp. erewrite ShutdownInLoop_ok by exact Hv. destruct (IsWriting ch); [done|].
  destruct Hv as [Hc Hb]. split; [|done].
  eapply core_syscall; [done| |].
  - intros ep. apply frame_shutdown.
  - rewrite stream_shutdown. apply Hc.
Qed.

(** The state [write_completed] starts from: everything is written, the channel
    still waits for writability. *)
Definition flushed w co ch lp st : Prop :=
  conn_core w conn co ch lp st /\ buffer_wf (co_read_buffer_ co) /\
  buffer_wf (co_write_buffer_ co) /\ contents (co_write_buffer_ co) = [].

Lemma flushed_disable w co ch lp st :
  flushed w co ch lp st ->
  exists w' ch' lp', DisableWriting (co_channel_ co) w = Ok (tt, w') /\
    conn_view w' conn co ch' lp' st.
Proof.
  intros (Hc & Hr & Hw & Hn).
  destruct (core_interest (fun e => Z.land e (Z.lnot write_event_flag)) _ _ _ _ _ _ Hc)
    as (w1 & E & Hc1 & _).
  eexists w1, _, _. split; [exact E|]. split; [exact Hc1|]. split; [done|done|].
  by rewrite IsWriting_disabled, Hn.
Qed.

Lemma write_completed_ok w co ch lp st :
  user_sends_only -> flushed w co ch lp st ->
  wp (write_completed exec conn)
    (fun _ w' => exists co' ch' lp' st', still_sending co st w' co' ch' lp' st') w.
Proof.
  intros Hu Hfl. pose proof Hfl as [Hc _]. unfold write_completed.
  eapply wp_run_bind; [apply run_load; apply Hc|].
  destruct (flushed_disable _ _ _ _ _ Hfl) as (w1 & ch1 & lp1 & E1 & Hv1).
  eapply wp_run_bind; [exact E1|]. eapply wp_run_bind; [apply run_load; apply Hv1|].
  apply wp_bind.
  eapply (wp_mono _ (fun _ w' => exists co' ch' lp' st', still_sending co st w' co' ch' lp' st')).
  - destruct (co_written_cb_ co) as [cb|].
    + eapply wp_same_run; [by apply (run_RunInLoop w1 co ch1 lp1 st), Hv1|].
      rewrite exec_written. by eapply Hu.
    + apply wp_ret. eexists _, _, _, _. by apply still_sending_refl.
  - intros _ w2 (co2 & ch2 & lp2 & st2 & Hs2). pose proof Hs2 as [Hv2 Hout]. apply wp_bind, wp_load.
    exists co2. split; [apply Hv2|]. apply wp_when. case_match; [|by exists co2, ch2, lp2, st2].
    eapply wp_same_run; [by apply (run_RunInLoop w2 co2 ch2 lp2 st2), Hv2|].
    rewrite exec_shutdown. eapply wp_mono; [exact (ShutdownInLoop_view w2 co2 ch2 lp2 st2 Hv2)|].
    intros u w3 Hv3. exists co2, ch2, lp2, st2. split; [exact Hv3|exact Hout].
Qed.

(** After a write of [n] bytes. *)
Lemma written_view w co ch lp st n k' :
  conn_view w conn co ch lp st -> IsWriting ch = true ->
  sys_write (co_fd_ co) (contents (co_write_buffer_ co)) (w_kern w) = (SOk n, k') -> 0 < n ->
  let wb := ClearReadIndex (co_write_buffer_ co) (u32 n) in
  let co1 := co_set_write_buffer_ wb co in
  let st1 := mkStream (st_sent st ++ take (Z.to_nat n) (contents (co_write_buffer_ co)))
               (st_incoming st) (st_eof st) in
  conn_core (set_w_conns (<[conn := co1]> (w_conns w)) (set_w_kern k' w)) conn co1 ch lp st1 /\
  buffer_wf wb /\ contents wb = drop (Z.to_nat n) (contents (co_write_buffer_ co)) /\
  outgoing co1 st1 = outgoing co st.
Proof.
  intros [Hc [Hr Hw Hiff]] Hwr Ew Hn wb co1 st1.
  pose proof (sys_write_bounded _ _ _ _ _ Ew) as Hb.
  pose proof (length_contents _ Hw) as Hl. unfold buffer_wf in Hw.
  assert (u32 n = n) as Hu by (apply u32_small; lia).
  pose proof (stream_write (co_fd_ co) (contents (co_write_buffer_ co)) _ _ (cc_stream _ _ _ _ _ _ Hc)) as Hs.
  pose proof (frame_write (co_fd_ co) (contents (co_write_buffer_ co)) (w_kern w)) as Hf.
  rewrite Ew in Hs, Hf; simpl in Hf.
  destruct (ClearReadIndex_spec (co_write_buffer_ co) (u32 n)) as (Hwf & Hcont & _); [done|lia|].
  rewrite Hu in Hcont.
  split_and!; [|done|by unfold wb; rewrite Hu in *|].
  - pose proof (core_syscall _ _ _ _ _ _ (SOk n) k' _ Hc Hf Hs) as Hc1.
    exact (core_update _ _ _ _ _ _ co1 Hc1 eq_refl eq_refl eq_refl).
  - unfold outgoing, st1, co1; simpl. unfold wb. rewrite Hu, Hcont, <-app_assoc, take_drop. done.
Qed.

(** Up to the write, [WriteHandler] is this. *)
Lemma run_WriteHandler w co ch lp st :
  conn_view w conn co ch lp st -> IsWriting ch = true ->
  WriteHandler exec conn w =
    match sys_write (co_fd_ co) (contents (co_write_buffer_ co)) (w_kern w) with
    | (SErr e, k') => Ok (tt, after_syscall (SErr e : sysres Z) k' w)
    | (SOk n, k') =>
        let wb := ClearReadIndex (co_write_buffer_ co) (u32 n) in
        if 0 <? n then
          when (IsEmpty wb) (write_completed exec conn)
            (set_w_conns (<[conn := co_set_write_buffer_ wb co]> (w_conns w)) (set_w_kern k' w))
        else Ok (tt, set_w_kern k' w)
    end.
Proof.
  intros [Hc [Hr Hw Hiff]] Hwr. unfold WriteHandler. erewrite run_assert_in_loop by exact Hc.
  erewrite run_bind by (apply run_load; apply Hc).
  erewrite run_bind by (apply run_load; apply (core_channel _ _ _ _ _ _ Hc)).
  rewrite Hwr. simpl. rewrite load_bytes_contents, ReadableBytes_contents, Nat2Z.id, firstn_all
    by (done || rewrite ReadableBytes_contents by done; lia).
  erewrite run_bind by reflexivity. unfold Write. erewrite run_bind by apply run_syscall.
  rewrite (cc_fd _ _ _ _ _ _ Hc).
  destruct (sys_write _ _ _) as [[n|e] k']; simpl; [|done].
  unfold when at 1. destruct (0 <? n); [|done].
  erewrite run_bind by (apply run_update; apply Hc). done.
Qed.

(** What the kernel accepted of the write buffer. *)
Definition accepted co (r : sysres Z) : list byte :=
  match r with SOk n => take (Z.to_nat n) (contents (co_write_buffer_ co)) | SErr _ => [] end.

Lemma WriteHandler_ok w co ch lp st :
  user_sends_only -> conn_view w conn co ch lp st -> IsWriting ch = true ->
  let r := (sys_write (co_fd_ co) (contents (co_write_buffer_ co)) (w_kern w)).1 in
  wp (WriteHandler exec conn) (fun _ w' => exists co' ch' lp' st',
    still_sending co st w' co' ch' lp' st' /\
    st_sent st ++ accepted co r `prefix_of` st_sent st') w.
Proof.
  intros Hu Hv Hwr r. pose proof Hv as [Hc Hb].
  unfold wp. rewrite (run_WriteHandler _ _ _ _ _ Hv Hwr). unfold r.
  pose proof (stream_write (co_fd_ co) (contents (co_write_buffer_ co)) _ _ (cc_stream _ _ _ _ _ _ Hc)) as Hs.
  pose proof (frame_write (co_fd_ co) (contents (co_write_buffer_ co)) (w_kern w)) as Hf.
  destruct (sys_write _ _ _) as [[n|e] k'] eqn:Ew; simpl in Hf; cbn [fst accepted].
  - destruct (Z.ltb_spec 0 n) as [Hn|Hn].
    + destruct (written_view w co ch lp st n k' Hv Hwr Ew Hn) as (Hc1 & Hwf & Hcont & Hout).
      cbv zeta. set (wb := ClearReadIndex _ _) in *. set (st1 := mkStream _ _ _) in *.
      assert (st_sent st `prefix_of` st_sent st1) as Hp by by eexists.
      destruct (IsEmpty wb) eqn:Hem; simpl.
      * apply (IsEmpty_contents _ Hwf) in Hem.
        eapply wp_mono; [apply (write_completed_ok _ (co_set_write_buffer_ wb co) ch lp st1); [done|]|].
        { split_and!; [done|apply Hb|done|done]. }
        intros _ w' (co' & ch' & lp' & st' & Hv' & Hpre & Hs').
        exists co', ch', lp', st'. rewrite Hout in Hpre. split; [|done].
        split; [done|]. split; [done|by etrans].
      * eexists (co_set_write_buffer_ wb co), ch, lp, st1. split; [|done].
        split; [|by rewrite Hout]. split; [exact Hc1|]. split; simpl; [apply Hb|done|].
        split; [|done]. intros _ E. apply (IsEmpty_contents _ Hwf) in E. congruence.
    + pose proof (sys_write_bounded _ _ _ _ _ Ew) as Hbd. assert (n = 0) as -> by lia.
      exists co, ch, lp, st. rewrite take_0, app_nil_r. split; [|done].
      apply still_sending_refl. split; [|done].
      rewrite take_0, stream_eta in Hs.
      exact (core_syscall _ _ _ _ _ _ (SOk 0) k' _ Hc Hf Hs).
  - exists co, ch, lp, st. rewrite app_nil_r. split; [|done]. apply still_sending_refl. split; [|done].
    exact (core_syscall _ _ _ _ _ _ (SErr e : sysres Z) k' _ Hc Hf Hs).
Qed.

(** C8: Flushing keeps the stream.  When the descriptor of a connection with a
    pending write buffer becomes writable, [WriteHandler] hands the buffered bytes
    to the kernel in order: what the kernel accepts is exactly the front of the
    buffer, everything the connection still had to deliver stays in order behind
    it, and the connection goes on waiting for writability exactly while its
    buffer is not empty, also when the write-complete callback sends more. *)
Theorem WriteHandler_flushes_stream w co ch lp st :
  user_sends_only -> conn_view w conn co ch lp st -> IsWriting ch = true ->
  let r := (sys_write (co_fd_ co) (contents (co_write_buffer_ co)) (w_kern w)).1 in
  exists w' co' ch' lp' st', WriteHandler exec conn w = Ok (tt, w') /\
    conn_view w' conn co' ch' lp' st' /\
    outgoing co st `prefix_of` outgoing co' st' /\
    st_sent st ++ accepted co r `prefix_of` st_sent st'.
Proof.
  intros Hu Hv Hwr r.
  destruct (proj1 (wp_run _ _ _) (WriteHandler_ok w co ch lp st Hu Hv Hwr))
    as ([] & w' & E & co' & ch' & lp' & st' & (? & ? & _) & ?).
  by exists w', co', ch', lp', st'.
Qed.

(** The kernel after the channel has stopped waiting for writability. *)
Definition quiet_kernel co ch lp (k : kstate) : kstate :=
  let ev := Z.land (ch_events_ ch) (Z.lnot write_event_flag) in
  (sys_epoll_ctl (po_epoll_fd_ (lo_poller_ lp)) (interest_op (ch_poller_status_ ch) ev) (ch_fd_ ch) (u32 ev)
     (co_channel_ co) k).2.
Definition shut_kernel co (k : kstate) : kstate := (sys_shutdown (co_socket_fd_ co) SHUT_WR k).2.

Lemma flushed_disable_kernel w co ch lp st :
  flushed w co ch lp st ->
  exists w' ch' lp', DisableWriting (co_channel_ co) w = Ok (tt, w') /\
    conn_view w' conn co ch' lp' st /\ w_kern w' = quiet_kernel co ch lp (w_kern w).
Proof.
  intros Hf. destruct (flushed_disable w co ch lp st Hf) as (w' & ch' & lp' & E & Hv).
  exists w', ch', lp'. split_and!; [done..|]. destruct Hf as [[_ Hi Hch _ _] _].
  pose proof (run_set_interest (fun e => Z.land e (Z.lnot write_event_flag)) _ _ _ _ w (pi_loop _ _ _ Hi)
    (co_chan _ _ _ _ _ Hch) (co_loop _ _ _ _ _ Hch)) as R. cbv zeta in R. unfold DisableWriting in E.
  rewrite R in E; [|rewrite (co_thread _ _ _ _ _ Hch); apply Hi|by eapply channel_of_entry].
  injection E as <-. by autorewrite with world.
Qed.

(** What follows the last write, when the write-complete callback looks on. *)
Lemma run_write_completed w co ch lp st :
  (forall cb w, user_run (Written_ev cb conn) w = Ok (tt, w)) -> flushed w co ch lp st ->
  exists w' ch' lp', write_completed exec conn w = Ok (tt, w') /\ conn_view w' conn co ch' lp' st /\
    let ks := quiet_kernel co ch lp (w_kern w) in
    w_kern w' = if decide (co_state_ co = DISCONNECTING) then shut_kernel co ks else ks.
Proof.
  intros Hu Hfl. destruct (flushed_disable_kernel w co ch lp st Hfl) as (w2 & ch2 & lp2 & E2 & Hv2 & K2).
  assert (exists w3, (match co_written_cb_ co with
      | Some cb => RunInLoop exec (co_loop_ co) (Written_task cb conn) | None => ret tt end) w2 = Ok (tt, w3) /\
    conn_view w3 conn co ch2 lp2 st /\ w_kern w3 = w_kern w2) as (w3 & E3 & Hv3 & K3).
  { destruct (co_written_cb_ co) as [cb|]; [|by exists w2].
    exists (set_w_trace (Written_ev cb conn :: w_trace w2) w2). split; [|split; [|done]].
    - rewrite (run_RunInLoop w2 co ch2 lp2 st) by apply Hv2. rewrite exec_written. unfold call_user.
      erewrite run_bind by reflexivity. apply Hu.
    - destruct Hv2 as [[? Hi Hch ? ?] Hb]. split; [|exact Hb].
      split; [done|by destruct Hi; split|by destruct Hch; split|done|done]. }
  unfold write_completed. erewrite run_bind by (apply run_load; apply Hfl).
  erewrite run_bind by exact E2. erewrite run_bind by (apply run_load; apply Hv2).
  erewrite run_bind by exact E3. erewrite run_bind by (apply run_load; apply Hv3).
  destruct (decide (co_state_ co = DISCONNECTING)) as [Hst|Hst].
  - rewrite bool_decide_eq_true_2 by congruence. cbn [when].
    pose proof (run_RunInLoop _ _ _ _ _ (ShutdownInLoop_task conn) (proj1 Hv3)) as ER. simpl in ER. rewrite ER.
    rewrite exec_shutdown. pose proof (ShutdownInLoop_view _ _ _ _ _ Hv3) as Hsv. revert Hsv. unfold wp.
    rewrite (ShutdownInLoop_ok _ _ _ _ _ Hv3).
    destruct (IsWriting ch2) eqn:Hw2; [|intros Hsv; eexists _, ch2, lp2; split; [reflexivity|split; [exact Hsv|]]].
    + exfalso. apply (cb_writing _ _ (proj2 Hv3)) in Hw2. by apply Hw2, Hfl.
    + autorewrite with world. by rewrite K3, K2.
  - rewrite bool_decide_eq_false_2 by congruence. exists w3, ch2, lp2. split; [done|]. split; [done|]. by rewrite K3.
Qed.

(** What [ShutdownInLoop] asks of the kernel. *)
Lemma ShutdownInLoop_kernel w co ch lp st :
  conn_view w conn co ch lp st ->
  exists w', ShutdownInLoop conn w = Ok (tt, w') /\ conn_view w' conn co ch lp st /\
    w_kern w' = if decide (contents (co_write_buffer_ co) = []) then shut_kernel co (w_kern w) else w_kern w.
Proof.
  intros Hv. pose proof (ShutdownInLoop_view _ _ _ _ _ Hv) as Hsv. revert Hsv. unfold wp.
  rewrite (ShutdownInLoop_ok _ _ _ _ _ Hv). pose proof (cb_writing _ _ (proj2 Hv)) as Hiff.
  destruct (IsWriting ch); intros Hsv; eexists; (split; [reflexivity|split; [exact Hsv|]]).
  - rewrite decide_False by by apply Hiff. done.
  - destruct (decide (contents (co_write_buffer_ co) = [])) as [|Hne]; [by autorewrite with world|].
    apply Hiff in Hne. discriminate.
Qed.

(** C25: A graceful shutdown waits for the data.  The calls to the kernel, for a user
    whose write-complete callback does nothing.  [ShutdownInLoop] shuts the write side
    down exactly when the write buffer is empty, and asks for nothing otherwise.
    [WriteHandler], when the kernel takes less than the whole buffer or fails, asks
    for nothing after the write; when the kernel takes the whole buffer it stops
    waiting for writability, and then shuts the write side down exactly if the
    connection is disconnecting.  So the write side is shut down only after every
    byte was accepted; none is lost. *)
Theorem Shutdown_waits_for_flush w co ch lp st :
  (forall cb w, user_run (Written_ev cb conn) w = Ok (tt, w)) -> conn_view w conn co ch lp st ->
  let data := contents (co_write_buffer_ co) in
  (exists w', ShutdownInLoop conn w = Ok (tt, w') /\ conn_view w' conn co ch lp st /\
     w_kern w' = if decide (data = []) then shut_kernel co (w_kern w) else w_kern w) /\
  (IsWriting ch = true ->
   let rk := sys_write (co_fd_ co) data (w_kern w) in
   let ks := quiet_kernel co ch lp rk.2 in
   exists w' co' ch' lp' st', WriteHandler exec conn w = Ok (tt, w') /\ conn_view w' conn co' ch' lp' st' /\
     outgoing co' st' = outgoing co st /\
     (contents (co_write_buffer_ co') = [] <-> rk.1 = SOk (Z.of_nat (length data))) /\
     w_kern w' = if decide (contents (co_write_buffer_ co') = [])
                 then if decide (co_state_ co = DISCONNECTING) then shut_kernel co ks else ks
                 else rk.2).
Proof.
  intros Hu Hv data. split; [by eapply ShutdownInLoop_kernel|]. intros Hwr rk ks.
  pose proof Hv as [Hc [Hr Hw Hiff]]. rewrite (run_WriteHandler _ _ _ _ _ Hv Hwr).
  assert (data <> []) as Hne by by apply Hiff.
  pose proof (stream_write (co_fd_ co) data _ _ (cc_stream _ _ _ _ _ _ Hc)) as Hs.
  pose proof (frame_write (co_fd_ co) data (w_kern w)) as Hf. fold rk in Hs, Hf. fold data rk.
  assert (forall n, rk.1 = SOk n -> 0 <= n <= Z.of_nat (length data)) as Hbd.
  { intros n En. apply (sys_write_bounded (co_fd_ co) data (w_kern w) n rk.2). fold rk. rewrite <-En. apply surjective_pairing. }
  destruct rk as [[n|e] k'] eqn:Erk; cbn [fst snd] in *.
  2:{ exists (after_syscall (SErr e : sysres Z) k' w), co, ch, lp, st. rewrite decide_False by done. split_and!; [done| |done|done|done].
      split; [|by split]. exact (core_syscall _ _ _ _ _ _ (SErr e : sysres Z) k' _ Hc Hf Hs). }
  specialize (Hbd n eq_refl). destruct (Z.ltb_spec 0 n) as [Hn|Hn].
  2:{ assert (n = 0) as -> by lia. exists (set_w_kern k' w), co, ch, lp, st. rewrite decide_False by done.
      split_and!; [done| |done| |done].
      - split; [|by split]. rewrite take_0, stream_eta in Hs. exact (core_syscall _ _ _ _ _ _ (SOk 0) k' _ Hc Hf Hs).
      - split; [done|]. intros [= Hl]. destruct data; [done|simpl in Hl; lia]. }
  destruct (written_view w co ch lp st n k' Hv Hwr Erk Hn) as (Hc1 & Hwf & Hcont & Hout).
  cbv zeta. set (wb := ClearReadIndex _ _) in *. set (st1 := mkStream _ _ _) in *. set (w1 := set_w_conns _ _) in *.
  fold data in Hcont.
  assert (contents wb = [] <-> SOk n = SOk (Z.of_nat (length data))) as Hall.
  { rewrite Hcont. split; [|intros [= ->]; by rewrite Nat2Z.id, drop_all].
    intros Hd%(f_equal length). rewrite length_drop in Hd. simpl in Hd. f_equal. lia. }
  destruct (IsEmpty wb) eqn:Hem; simpl.
  - apply (IsEmpty_contents _ Hwf) in Hem.
    destruct (run_write_completed w1 (co_set_write_buffer_ wb co) ch lp st1 Hu) as (w' & ch' & lp' & E & Hv' & K);
      [by split_and!|]. exists w', (co_set_write_buffer_ wb co), ch', lp', st1. split_and!; [exact E|exact Hv'|exact Hout|done..|].
    simpl. by rewrite decide_True.
  - assert (contents wb <> []) as Hne' by (intros Hd; apply (IsEmpty_contents _ Hwf) in Hd; congruence).
    exists w1, (co_set_write_buffer_ wb co), ch, lp, st1. split_and!; [done| |exact Hout|done..|].
    + split; [exact Hc1|]. by split.
    + simpl. by rewrite decide_False.
Qed.
End flush.

(** ** Receiving *)

Section receive.
Context `{EpollReliable} `{!EpollFrame} `{!StreamLaws} `{!IoLaws} `{!Inet} `{!UserCode}.
Variable call_close : close_cb -> ptr -> M unit.
Variable conn : ptr.
Implicit Types (w : World) (co : TcpConnection) (ch : EventChannel) (lp : EventLoop).

Abbreviation rbuf co := (co_read_buffer_ co).

Definition receiving w co ch lp st : Prop :=
  conn_core w conn co ch lp st /\ buffer_wf (rbuf co) /\
  write_index_ (rbuf co) + Z.of_nat (length (st_incoming st)) < 2 ^ 32.

(** One call of [ReadFromFD] on the connection. *)
Lemma run_read_from_fd w co ch lp st :
  receiving w co ch lp st ->
  match sys_readv (co_fd_ co) (ReadFromFD_iov (rbuf co)) (w_kern w) with
  | (SErr e, k') => exists w1, read_from_fd conn w = Ok ((-1, Some e), w1) /\
      receiving w1 co ch lp st /\ (e = EAGAIN -> st_incoming st = []) /\
      w1 = set_w_conns (<[conn := co]> (w_conns w)) (after_syscall (SErr e : sysres unit) k' w)
  | (SOk d, k') => exists w1 b rest, read_from_fd conn w = Ok ((Z.of_nat (length d), None), w1) /\
      st_incoming st = d ++ rest /\ contents b = contents (rbuf co) ++ d /\
      (d = [] -> rest = [] /\ st_eof st = true) /\
      receiving w1 (co_set_read_buffer_ b co) ch lp (mkStream (st_sent st) rest (st_eof st)) /\
      w1 = set_w_conns (<[conn := co_set_read_buffer_ b co]> (w_conns w)) (set_w_kern k' w)
  end.
Proof.
  intros (Hc & Hwf & Hov). unfold read_from_fd.
  erewrite run_bind by (apply run_load; apply Hc).
  erewrite run_bind by (apply run_load; apply (core_channel _ _ _ _ _ _ Hc)).
  erewrite run_bind by reflexivity. unfold ReadV. erewrite run_bind by apply run_syscall.
  rewrite (cc_fd _ _ _ _ _ _ Hc). set (iov := ReadFromFD_iov (rbuf co)).
  assert (0 < iov_total iov) as Hpos.
  { destruct (ReadFromFD_iov_total (rbuf co)) as [_ Hor].
    pose proof (WritableBytes_nonneg (rbuf co)). unfold iov, ReadFromFD_iov, iov_total, extrabuf_size in *.
    case_match; simpl in *; zlia. }
  pose proof (stream_readv (co_fd_ co) iov _ _ (cc_stream _ _ _ _ _ _ Hc)
    (ReadFromFD_iov_nonneg _) Hpos) as Hs.
  pose proof (frame_readv (co_fd_ co) iov (w_kern w)) as Hf.
  destruct (sys_readv (co_fd_ co) iov (w_kern w)) as [[d|e] k'] eqn:Er; simpl in Hf.
  - destruct Hs as (rest & Hin & Hst & Hnil). cbn [fst snd].
    pose proof (sys_readv_bounded _ _ _ _ _ (ReadFromFD_iov_nonneg _) Er) as Hlen.
    assert (length (st_incoming st) = length d + length rest)%nat as Hli
      by (rewrite Hin; apply length_app).
    match goal with |- context [ReadFromFD_done ?e0 _ _] =>
      destruct (ReadFromFD_done_ok e0 (rbuf co) d) as (b & E & Hwfb & Hcb & Hwi) end; [done|lia|lia|].
    rewrite E. erewrite run_bind by reflexivity. cbn beta iota.
    pose proof (core_syscall _ _ _ _ _ _ (SOk d) k' _ Hc Hf Hst) as Hc1.
    erewrite run_bind by (apply run_update; apply Hc1).
    eexists _, b, rest. split; [reflexivity|]. split; [done|]. split; [done|]. split; [|split; [|done]].
    + intros ->. destruct (Hnil eq_refl) as [Hn ?]. split; [|done]. by rewrite Hin in Hn.
    + split_and!; [|done|simpl; rewrite Hwi; lia].
      exact (core_update _ _ _ _ _ _ (co_set_read_buffer_ b co) Hc1 eq_refl eq_refl eq_refl).
  - destruct Hs as [Hst Hag]. simpl. erewrite run_bind by reflexivity. cbn beta iota.
    pose proof (core_syscall _ _ _ _ _ _ (SErr e : sysres Z) k' _ Hc Hf Hst) as Hc1. simpl in Hc1.
    erewrite run_bind by (apply run_update; apply Hc1).
    assert (co_set_read_buffer_ (rbuf co) co = co) as Eco by by destruct co.
    eexists. split; [reflexivity|]. split; [|split; [done|simpl; by rewrite Eco]].
    split_and!; [|done|done]. rewrite Eco.
    exact (core_update _ _ _ _ _ _ co Hc1 eq_refl eq_refl eq_refl).
Qed.

(** User code takes bytes from the front of the read buffer, and does not touch
    what the kernel still has for the connection. *)
Definition user_takes : Prop :=
  forall cb w co ch lp st, receiving w co ch lp st -> co_msg_cb_ co = Some cb ->
    wp (call_user (Message_ev cb conn)) (fun _ w' => exists co' ch' lp' st' taken,
      receiving w' co' ch' lp' st' /\ contents (rbuf co) = taken ++ contents (rbuf co') /\
      st_incoming st' = st_incoming st /\ st_eof st' = st_eof st /\
      co_msg_cb_ co' = co_msg_cb_ co) w.

(** The bytes in the read buffer, those the user took out of it and those the
    kernel still has are those of before, in order. *)
Definition delivered co (st : stream) (taken : list byte) co' (st' : stream) : Prop :=
  taken ++ contents (rbuf co') ++ st_incoming st' = contents (rbuf co) ++ st_incoming st.

(** How [ReadHandler] ends, from a state [w1] where it has nothing more to read. *)
Definition read_outcome (r : res (unit * World)) w1 (st1 : stream) : Prop :=
  (r = Ok (tt, w1) /\ st_incoming st1 = []) \/
  (r = CloseHandler call_close conn w1 /\ st_incoming st1 = [] /\ st_eof st1 = true) \/
  (exists e, e <> EAGAIN /\ r = (do! set_errno e; ErrorHandler conn) w1).

Lemma ReadHandler_loop_ok fuel w co ch lp st cb :
  user_takes -> receiving w co ch lp st -> co_msg_cb_ co = Some cb ->
  (length (st_incoming st) < fuel)%nat ->
  exists w1 co1 ch1 lp1 st1 taken,
    read_outcome (ReadHandler_loop call_close fuel conn w) w1 st1 /\
    receiving w1 co1 ch1 lp1 st1 /\ delivered co st taken co1 st1.
Proof.
  intros Hu. revert w co ch lp st. induction fuel as [|fuel IH]; intros w co ch lp st Hr Hcb Hfuel; [lia|].
  simpl. pose proof (run_read_from_fd w co ch lp st Hr) as Hrd.
  destruct (sys_readv _ _ _) as [[d|e] k'].
  - destruct Hrd as (w1 & b & rest & E & Hin & Hb & Hnil & Hr1 & _).
    erewrite run_bind by exact E. cbn beta iota.
    destruct d as [|x d].
    + destruct (Hnil eq_refl) as [-> He]. simpl.
      eexists w1, _, ch, lp, _, []. split; [|split; [exact Hr1|]].
      * right; left. by split_and!.
      * unfold delivered. simpl. rewrite Hb, Hin. simpl. by rewrite !app_nil_r.
    + rewrite (proj2 (Z.ltb_lt _ _)) by (simpl; lia).
      erewrite run_bind by (apply run_load; apply Hr1). simpl. rewrite Hcb.
      assert (co_msg_cb_ (co_set_read_buffer_ b co) = Some cb) as Hcb' by done.
      pose proof (proj1 (wp_run _ _ _) (Hu _ _ _ _ _ _ Hr1 Hcb'))
        as ([] & w2 & E2 & co2 & ch2 & lp2 & st2 & taken & Hr2 & Ht & Hi2 & _ & Hcb2).
      erewrite run_bind by exact E2. simpl in *.
      destruct (IH w2 co2 ch2 lp2 st2) as (w3 & co3 & ch3 & lp3 & st3 & taken' & Ho & Hr3 & Hd);
        [done|congruence| |].
      { rewrite Hi2. rewrite Hin in Hfuel. simpl in Hfuel. rewrite length_app in Hfuel. simpl. lia. }
      exists w3, co3, ch3, lp3, st3, (taken ++ taken'). split_and!; [done|done|].
      unfold delivered in *. rewrite <-app_assoc, Hd, Hi2, app_assoc, <-Ht, Hb, Hin.
      by rewrite <-app_assoc.
  - destruct Hrd as (w1 & E & Hr1 & Hag & _). erewrite run_bind by exact E. cbn beta iota.
    rewrite (proj2 (Z.ltb_ge 0 (-1))) by lia. rewrite (proj2 (Z.eqb_neq 0 (-1))) by lia.
    exists w1, co, ch, lp, st, []. split; [|by split].
    destruct (Z.eqb_spec e EAGAIN) as [->|Hne]; [left|right; right]; eauto.
Qed.

End receive.

(** ** The life of a connection *)

Section lifecycle.
Context `{EpollReliable} `{!EpollFrame} `{!StreamLaws} `{!Inet} `{!UserCode}.
Variable call_close : close_cb -> ptr -> M unit.
Variable conn : ptr.
Implicit Types (w : World) (co : TcpConnection) (ch : EventChannel) (lp : EventLoop).

(** User code that looks and does not touch. *)
Definition user_observes : Prop := forall ev w, user_run ev w = Ok (tt, w).

Definition status_events co : list user_event :=
  match co_conn_status_cb_ co with
  | Some cb => [ConnStatus_ev cb conn (co_state_ co)]
  | None => []
  end.

Lemma run_call_conn_status w co :
  user_observes -> w_conns w !! conn = Some co ->
  call_conn_status conn w = Ok (tt, set_w_trace (status_events co ++ w_trace w) w).
Proof.
  intros Hu Hc. unfold call_conn_status, status_events, call_user. run1.
  destruct (co_conn_status_cb_ co); [|by destruct w].
  erewrite run_bind by reflexivity. apply Hu.
Qed.

Lemma core_trace w co ch lp st tr :
  conn_core w conn co ch lp st -> conn_core (set_w_trace tr w) conn co ch lp st.
Proof. intros [? Hi Hch ? ?]. split; [done|by destruct Hi; split|by destruct Hch; split|done|done]. Qed.

Lemma run_SetState w co ch lp st s :
  conn_core w conn co ch lp st ->
  exists w', SetState conn s w = Ok (tt, w') /\ conn_core w' conn (co_set_state_ s co) ch lp st /\
    w_trace w' = w_trace w /\ owners w' = owners w /\ w_loops w' = w_loops w /\
    w_channels w' = w_channels w /\ w_next w' = w_next w.
Proof.
  intros Hc. eexists. split; [apply run_update, Hc|]. split; [|done].
  exact (core_update _ _ _ _ _ _ (co_set_state_ s co) Hc eq_refl eq_refl eq_refl).
Qed.

(** Setting a state, an interest, and telling the user: the common part of
    [ConnectEstablished], [CloseHandler] and [ConnectDestoryed]. *)
Lemma run_transition {A} w co ch lp st s f (k : unit -> M A) :
  user_observes -> conn_core w conn co ch lp st ->
  exists w', bind (SetState conn s) (fun _ => let! co := load (T := TcpConnection) conn in
      do! set_interest (co_channel_ co) f; bind (call_conn_status conn) k) w = k tt w' /\
    conn_core w' conn (co_set_state_ s co) (with_interest f ch)
      (with_entry (ch_fd_ ch) (co_channel_ co) lp) st /\
    w_trace w' = status_events (co_set_state_ s co) ++ w_trace w /\ owners w' = owners w /\
    w_loops w' = <[co_loop_ co := with_entry (ch_fd_ ch) (co_channel_ co) lp]> (w_loops w) /\
    w_channels w' = <[co_channel_ co := with_interest f ch]> (w_channels w) /\ w_next w' = w_next w.
Proof.
  intros Hu Hc. destruct (run_SetState w co ch lp st s Hc) as (w1 & E1 & Hc1 & T1 & O1 & L1 & C1 & N1).
  erewrite run_bind by exact E1. erewrite run_bind by (apply run_load; apply Hc1).
  destruct (core_interest f _ _ _ _ _ _ Hc1) as (w2 & E2 & Hc2 & (_ & O2 & L2 & C2 & N2) & T2).
  erewrite run_bind by exact E2.
  erewrite run_bind by (apply run_call_conn_status; [done|apply Hc2]).
  eexists. split; [reflexivity|]. split; [by apply core_trace|]. simpl.
  split; [by rewrite T2, T1|]. split; [exact (eq_trans O2 O1)|]. rewrite L2, L1. by rewrite C2, C1, N2, N1.
Qed.

Lemma ConnectEstablished_ok w co ch lp st :
  user_observes -> conn_core w conn co ch lp st ->
  let co' := co_set_state_ CONNECTED co in
  let ch' := with_interest (fun e => Z.lor e read_event_flag) ch in
  let lp' := with_entry (ch_fd_ ch) (co_channel_ co) lp in
  exists w', ConnectEstablished conn w = Ok (tt, w') /\
    conn_core w' conn co' ch' lp' st /\ IsReading ch' = true /\
    w_trace w' = status_events co' ++ w_trace w /\
    (owners w' = owners w /\ w_channels w' = <[co_channel_ co := ch']> (w_channels w) /\ w_next w' = w_next w) /\
    (ch_poller_status_ ch = NEW_CHANNEL ->
     k_interest (w_kern w') (po_epoll_fd_ (lo_poller_ lp')) !! co_fd_ co =
       Some (u32 (Z.lor (ch_events_ ch) read_event_flag), co_channel_ co)).
Proof.
  intros Hu Hc co' ch' lp'. unfold ConnectEstablished. erewrite run_assert_in_loop by exact Hc.
  destruct (run_transition w co ch lp st CONNECTED (fun e => Z.lor e read_event_flag) ret Hu Hc)
    as (w1 & E1 & Hc1 & T1 & O1 & _ & C1 & N1).
  exists w1. split; [|split; [exact Hc1|]].
  - etransitivity; [|exact E1]. unfold EnableReading, bind.
    destruct (SetState conn CONNECTED w) as [[? w2]|]; [|done].
    destruct (load conn w2) as [[co2 w3]|]; [|done].
    destruct (set_interest _ _ w3) as [[? w4]|]; [|done].
    by destruct (call_conn_status conn w4) as [[[] ?]|].
  - split_and!; [|done|done|exact C1|exact N1|].
    + unfold IsReading, has_flag. simpl. apply negb_true_iff, Z.eqb_neq. intros Hz.
      apply (f_equal (fun z => Z.testbit z 0)) in Hz.
      rewrite Z.land_spec, Z.lor_spec, orb_true_r in Hz. done.
    + intros Hnew. pose proof (watched_kernel _ _ _ _ _ (cc_inv _ _ _ _ _ _ Hc1) (cc_chan _ _ _ _ _ _ Hc1)) as Hk.
      rewrite (cc_fd _ _ _ _ _ _ Hc1) in Hk. etrans; [exact Hk|]. unfold watched. simpl.
      rewrite Hnew. done.
Qed.

(** Establishing.  [ConnectEstablished], run by the loop's thread, makes the
    connection CONNECTED, registers its descriptor for reading with the kernel and
    tells the user of the new state. *)
Theorem ConnectEstablished_registers w co ch lp st :
  user_observes -> conn_core w conn co ch lp st ->
  let co' := co_set_state_ CONNECTED co in
  exists w' ch' lp', ConnectEstablished conn w = Ok (tt, w') /\
    conn_core w' conn co' ch' lp' st /\ IsReading ch' = true /\
    w_trace w' = status_events co' ++ w_trace w /\
    (ch_poller_status_ ch = NEW_CHANNEL ->
     k_interest (w_kern w') (po_epoll_fd_ (lo_poller_ lp')) !! co_fd_ co =
       Some (u32 (Z.lor (ch_events_ ch) read_event_flag), co_channel_ co)).
Proof.
  intros Hu Hc co'. destruct (ConnectEstablished_ok w co ch lp st Hu Hc)
    as (w' & ? & ? & ? & ? & _ & ?). eexists w', _, _. done.
Qed.

(** How [CloseHandler] runs, up to the owner's callback. *)
Lemma run_CloseHandler w co ch lp st cb :
  user_observes -> conn_core w conn co ch lp st -> co_close_cb_ co = Some cb ->
  exists w', CloseHandler call_close conn w = call_close cb conn w' /\
    conn_core w' conn (co_set_state_ DISCONNECTED co) (with_interest (fun _ => none_event_flag) ch)
      (with_entry (ch_fd_ ch) (co_channel_ co) lp) st /\
    w_trace w' = status_events (co_set_state_ DISCONNECTED co) ++ w_trace w /\ owners w' = owners w /\
    w_loops w' = <[co_loop_ co := with_entry (ch_fd_ ch) (co_channel_ co) lp]> (w_loops w).
Proof.
  intros Hu Hc Hcb. unfold CloseHandler. erewrite run_assert_in_loop by exact Hc.
  destruct (run_transition w co ch lp st DISCONNECTED (fun _ => none_event_flag)
    (fun _ => let! co := load (T := TcpConnection) conn in
      match co_close_cb_ co with Some cb => call_close cb conn | None => throw AssertFailure end)
    Hu Hc) as (w1 & E1 & Hc1 & T1 & O1 & L1 & _).
  exists w1. split; [|done]. unfold DisableAll. rewrite E1.
  erewrite run_bind by (apply run_load; apply Hc1). simpl. by rewrite Hcb.
Qed.

(** Closing.  [CloseHandler] makes the connection DISCONNECTED, takes its
    descriptor out of the kernel's interest list, tells the user, and hands the
    connection to its owner's callback, in this order; without an owner its
    assertion fails. *)
Theorem CloseHandler_disconnects w co ch lp st :
  user_observes -> conn_core w conn co ch lp st -> ch_poller_status_ ch = ADDED_CHANNEL ->
  match co_close_cb_ co with
  | None => CloseHandler call_close conn w = Err AssertFailure
  | Some cb =>
      let co' := co_set_state_ DISCONNECTED co in
      exists w' ch' lp', CloseHandler call_close conn w = call_close cb conn w' /\
      conn_core w' conn co' ch' lp' st /\
      IsNoneEvent ch' = true /\ ch_poller_status_ ch' = DELETE_CHANNEL /\
      k_interest (w_kern w') (po_epoll_fd_ (lo_poller_ lp')) !! co_fd_ co = None /\
      w_trace w' = status_events co' ++ w_trace w
  end.
Proof.
  intros Hu Hc Hst. destruct (co_close_cb_ co) as [cb|] eqn:Hcb.
  - destruct (run_CloseHandler w co ch lp st cb Hu Hc Hcb) as (w1 & E1 & Hc1 & T1 & O1).
    eexists w1, _, _. split; [exact E1|]. split; [exact Hc1|].
    split; [done|]. split; [simpl; by rewrite Hst|]. split; [|exact T1].
    pose proof (watched_kernel _ _ _ _ _ (cc_inv _ _ _ _ _ _ Hc1) (cc_chan _ _ _ _ _ _ Hc1)) as Hk.
    rewrite (cc_fd _ _ _ _ _ _ Hc1) in Hk. etrans; [exact Hk|]. unfold watched. simpl.
    by rewrite Hst.
  - unfold CloseHandler. erewrite run_assert_in_loop by exact Hc.
    destruct (run_transition w co ch lp st DISCONNECTED (fun _ => none_event_flag)
      (fun _ => let! co := load (T := TcpConnection) conn in
        match co_close_cb_ co with Some cb => call_close cb conn | None => throw AssertFailure end)
      Hu Hc) as (w1 & E1 & Hc1 & T1 & O1).
    unfold DisableAll. rewrite E1. erewrite run_bind by (apply run_load; apply Hc1).
    simpl. by rewrite Hcb.
Qed.

(** The last step of [ConnectDestoryed]. *)
Lemma run_destroy_tail w co ch lp st :
  conn_core w conn co ch lp st -> removable lp (co_channel_ co) ->
  IsNoneEvent ch = true -> ch_poller_status_ ch <> NEW_CHANNEL ->
  exists w' lp', (let! co := load (T := TcpConnection) conn in RemoveFromLoop (co_channel_ co)) w
      = Ok (tt, w') /\
    w_conns w' !! conn = Some co /\ poller_inv w' (co_loop_ co) lp' /\
    po_evt_channel_list_ (lo_poller_ lp') !! co_fd_ co = None /\
    k_interest (w_kern w') (po_epoll_fd_ (lo_poller_ lp')) !! co_fd_ co = None /\
    w_trace w' = w_trace w.
Proof.
  intros Hc Hrem Hn Hst. erewrite run_bind by (apply run_load; apply Hc).
  destruct (RemoveFromLoop_correct w (co_loop_ co) lp (co_channel_ co) ch) as
    (w' & E & Hinv & Hco & Hw & Hk & _); [apply Hc|apply Hc|done..|].
  exists w'. eexists. split; [exact E|]. rewrite <-(cc_fd _ _ _ _ _ _ Hc).
  split; [rewrite Hw; apply Hc|]. split; [exact Hinv|].
  split; [by apply (co_fresh _ _ _ _ _ Hco)|]. split; [exact Hk|]. by rewrite Hw.
Qed.

(** [ConnectDestoryed] after [CloseHandler], in full. *)
Lemma run_ConnectDestoryed_closed w co ch lp st :
  conn_core w conn co ch lp st -> removable lp (co_channel_ co) ->
  IsNoneEvent ch = true -> ch_poller_status_ ch <> NEW_CHANNEL -> co_state_ co <> CONNECTED ->
  let lp' := without_entry (co_fd_ co) lp in
  let ch' := ch_set_poller_status_ NEW_CHANNEL ch in
  exists w', ConnectDestoryed conn w = Ok (tt, w') /\
    poller_inv w' (co_loop_ co) lp' /\
    w' = set_w_kern (w_kern w') (set_w_loops (<[co_loop_ co := lp']> (w_loops w))
           (set_w_channels (<[co_channel_ co := ch']> (w_channels w)) w)) /\
    k_interest (w_kern w') (po_epoll_fd_ (lo_poller_ lp)) !! co_fd_ co = None.
Proof.
  intros Hc Hrem Hn Hst Hs lp' ch'. unfold ConnectDestoryed.
  erewrite run_assert_in_loop by exact Hc. erewrite run_bind by (apply run_load; apply Hc).
  rewrite bool_decide_eq_false_2 by done. cbn [when]. erewrite run_bind by reflexivity.
  erewrite run_bind by (apply run_load; apply Hc).
  destruct (RemoveFromLoop_correct w (co_loop_ co) lp (co_channel_ co) ch) as
    (w' & E & Hinv & Hco & Hw & Hk & _); [apply Hc|apply Hc|done..|].
  exists w'. rewrite (cc_fd _ _ _ _ _ _ Hc) in *. done.
Qed.

(** ... and on a connection that is not connected it is the poller's removal. *)
Lemma run_ConnectDestoryed_removal w co ch lp :
  w_conns w !! conn = Some co -> w_loops w !! co_loop_ co = Some lp -> w_tid w = lo_thread_id_ lp ->
  w_channels w !! co_channel_ co = Some ch -> ch_event_loop_ ch = co_loop_ co ->
  removable lp (co_channel_ co) -> co_state_ co <> CONNECTED ->
  ConnectDestoryed conn w = EpollPoller_RemoveEventChannel (co_loop_ co) (co_channel_ co) w.
Proof.
  intros Hc Hl Ht Hch El Hrem Hs. unfold ConnectDestoryed, assert_in_loop.
  rewrite run_bind_assoc. run1. rewrite run_bind_assoc. erewrite run_bind by by apply run_IsInLoopThread.
  rewrite bool_decide_eq_true_2 by done. run1. run1. rewrite bool_decide_eq_false_2 by done.
  cbn [when]. erewrite run_bind by reflexivity. run1. by eapply RemoveFromLoop_reaches_poller.
Qed.

(** Destroying.  [ConnectDestoryed] on a connection that is connected, or was
    closed by [CloseHandler], leaves it DISCONNECTED and its descriptor in neither
    the poller's table nor the kernel's interest list, so that the channel can be
    freed; a connected one is disconnected first and the user is told. *)
Theorem ConnectDestoryed_unregisters w co ch lp st :
  user_observes -> conn_core w conn co ch lp st -> removable lp (co_channel_ co) ->
  ch_poller_status_ ch <> NEW_CHANNEL ->
  co_state_ co = CONNECTED \/ (co_state_ co = DISCONNECTED /\ IsNoneEvent ch = true) ->
  let co' := co_set_state_ DISCONNECTED co in
  exists w' lp', ConnectDestoryed conn w = Ok (tt, w') /\ w_conns w' !! conn = Some co' /\
    poller_inv w' (co_loop_ co) lp' /\
    po_evt_channel_list_ (lo_poller_ lp') !! co_fd_ co = None /\
    k_interest (w_kern w') (po_epoll_fd_ (lo_poller_ lp')) !! co_fd_ co = None /\
    w_trace w' = (if decide (co_state_ co = CONNECTED) then status_events co' else []) ++ w_trace w.
Proof.
  intros Hu Hc Hrem Hnew Hst co'. unfold ConnectDestoryed. erewrite run_assert_in_loop by exact Hc.
  erewrite run_bind by (apply run_load; apply Hc).
  destruct Hst as [Hst|[Hst Hn]]; rewrite Hst.
  - rewrite bool_decide_eq_true_2 by done. cbn [when].
    destruct (run_SetState w co ch lp st DISCONNECTED Hc) as (w1 & E1 & Hc1 & T1 & O1).
    destruct (core_interest (fun _ => none_event_flag) _ _ _ _ _ _ Hc1) as (w2 & E2 & Hc2 & _ & T2).
    rewrite run_bind_assoc. erewrite run_bind by exact E1.
    rewrite run_bind_assoc. unfold DisableAll. simpl in E2. erewrite run_bind by exact E2.
    erewrite run_bind by (apply run_call_conn_status; [done|apply Hc2]).
    destruct (run_destroy_tail _ _ _ _ _ (core_trace _ _ _ _ _
      (status_events (co_set_state_ DISCONNECTED co) ++ w_trace w2) Hc2)) as (w' & lp' & E & Hcn & Hi & Ht & Hk & T);
      [done|done|simpl; unfold interest_status; by repeat case_match|].
    exists w', lp'. split_and!; [exact E|done..|].
    rewrite T. simpl. by rewrite T2, T1.
  - rewrite bool_decide_eq_false_2 by done. cbn [when]. erewrite run_bind by reflexivity.
    destruct (run_destroy_tail _ _ _ _ _ Hc Hrem Hn Hnew) as (w' & lp' & E & Hcn & Hi & Ht & Hk & T).
    exists w', lp'. split_and!; try done. unfold co'. rewrite <-Hst. rewrite Hcn. by destruct co.
Qed.

(** Destroying in the middle of a shutdown aborts.  [ConnectDestoryed] on a
    connection that is DISCONNECTING (a [Shutdown] whose data or whose peer's close
    is pending) leaves the channel's events alone and removes it, so that the
    assertion of the poller fails.  The components of the library call
    [ConnectDestoryed] only after [CloseHandler]; the method is public. *)
Theorem ConnectDestoryed_while_disconnecting_aborts w co ch lp st :
  conn_core w conn co ch lp st -> removable lp (co_channel_ co) ->
  co_state_ co = DISCONNECTING -> ch_poller_status_ ch <> NEW_CHANNEL -> IsNoneEvent ch = false ->
  ConnectDestoryed conn w = Err AssertFailure.
Proof.
  intros Hc Hrem Hst Hnew Hn. unfold ConnectDestoryed. erewrite run_assert_in_loop by exact Hc.
  erewrite run_bind by (apply run_load; apply Hc). rewrite Hst. simpl.
  erewrite run_bind by reflexivity. erewrite run_bind by (apply run_load; apply Hc).
  pose proof Hc as [_ Hinv [Hch Hlo Ht Hf] _ _]. pose proof (pi_loop _ _ _ Hinv) as Hl.
  unfold RemoveFromLoop, EventLoop_RemoveEventChannel, EpollPoller_RemoveEventChannel.
  run1. rewrite Hlo. do 3 run1. rewrite run_assert_owner by done.
  erewrite run_bind with (s' := w) (a := tt).
  2:{ unfold when. case_bool_decide; [|done]. apply run_assert.
      rewrite orb_true_iff, !bool_decide_eq_true. unfold removable in Hrem. naive_solver. }
  run1. rewrite run_assert_owner by (rewrite Ht; apply Hinv). run1.
  rewrite run_bind_assert by (apply bool_decide_eq_true; by apply Hinv).
  by rewrite Hn.
Qed.

(** Forcing a close.  [ForceClose] on a connected connection queues
    [ForceCloseInLoop] twice (its second test succeeds because the first changed
    the state); once the connection is disconnected, running it again does
    nothing. *)
Theorem ForceClose_queues_twice w co ch lp st :
  conn_core w conn co ch lp st -> co_state_ co = CONNECTED ->
  (exists w' lp', ForceClose conn false false w = Ok (tt, w') /\
    conn_core w' conn (co_set_state_ DISCONNECTING co) ch lp' st /\
    lo_queue_task_funcs_ lp' =
      lo_queue_task_funcs_ lp ++ [ForceCloseInLoop_task conn; ForceCloseInLoop_task conn]) /\
  (forall w1 co1 ch1 lp1 st1, conn_core w1 conn co1 ch1 lp1 st1 -> co_state_ co1 = DISCONNECTED ->
    ForceCloseInLoop call_close conn w1 = Ok (tt, w1)).
Proof.
  intros Hc Hst. split.
  - unfold ForceClose, compare_exchange_weak, queue_for.
    destruct (run_SetState w co ch lp st DISCONNECTING Hc) as (w1 & E1 & Hc1 & T1 & O1).
    destruct (run_QueueInLoop _ _ _ _ _ _ (ForceCloseInLoop_task conn) Hc1) as (w2 & E2 & Hc2 & _).
    destruct (run_SetState w2 _ _ _ _ DISCONNECTING Hc2) as (w3 & E3 & Hc3 & T3 & _).
    destruct (run_QueueInLoop _ _ _ _ _ _ (ForceCloseInLoop_task conn) Hc3) as (w4 & E4 & Hc4 & _).
    exists w4. eexists. split; [|split; [exact Hc4|]].
    + erewrite run_bind; [|erewrite run_bind by (apply run_load; apply Hc); rewrite Hst; simpl;
        erewrite run_bind by exact E1; reflexivity]. cbn [when].
      rewrite run_bind_assoc. erewrite run_bind by (apply run_load; apply Hc1).
      erewrite run_bind by exact E2.
      erewrite run_bind; [|erewrite run_bind by (apply run_load; apply Hc2); simpl;
        erewrite run_bind by exact E3; reflexivity]. cbn [when].
      erewrite run_bind by (apply run_load; apply Hc3). exact E4.
    + simpl. by rewrite <-app_assoc.
  - intros w1 co1 ch1 lp1 st1 Hc1 Hst1. unfold ForceCloseInLoop.
    erewrite run_assert_in_loop by exact Hc1. erewrite run_bind by (apply run_load; apply Hc1).
    by rewrite Hst1.
Qed.

(** The world after the destructor of a connection. *)
Definition destroyed w co : World :=
  let rk := sys_close (co_socket_fd_ co) (w_kern w) in
  after_syscall rk.1 rk.2 (set_w_conns (delete conn (w_conns w))
    (set_w_channels (delete (co_channel_ co) (w_channels w)) w)).

Lemma run_TcpConnection_destroy w co :
  w_conns w !! conn = Some co -> TcpConnection_destroy conn w = Ok (tt, destroyed w co).
Proof.
  intros Hc. unfold TcpConnection_destroy, Socket_destroy, Close. run1.
  erewrite run_bind by reflexivity. rewrite run_bind_assoc. run1. run1.
  unfold free, modify. cbn. by autorewrite with world.
Qed.

Lemma destroyed_owners w co : owners (destroyed w co) = owners w /\ w_loops (destroyed w co) = w_loops w.
Proof. unfold destroyed, owners. by autorewrite with world. Qed.

(** Its channel has been taken out of the loop before: the loop is in order. *)
Lemma destroyed_loop_inv w co ch lp :
  w_channels w !! co_channel_ co = Some ch -> ch_poller_status_ ch = NEW_CHANNEL ->
  loop_inv w (co_loop_ co) lp -> po_epoll_fd_ (lo_poller_ lp) <> co_socket_fd_ co ->
  k_interest (w_kern w) (po_epoll_fd_ (lo_poller_ lp)) !! co_socket_fd_ co = None ->
  loop_inv (destroyed w co) (co_loop_ co) lp.
Proof.
  intros Hch Hst [Hinv Ht] Hne Hi. unfold destroyed. split; autorewrite with world; [|done].
  eapply (poller_inv_free_channel w _ lp) in Hinv; [|done|done].
  destruct Hinv as [Hl Htp He Hcs Hk]. split; cbn; autorewrite with world; [done..|].
  intros fd. rewrite frame_close by done. apply Hk.
Qed.
End lifecycle.

(** ** A new connection *)

Section construction.
Context `{Kernel} `{!Inet}.

Definition new_conn_channel fd loop conn : EventChannel :=
  mkEventChannel fd none_event_flag 0 NEW_CHANNEL loop (Some (ReadHandler_cb conn))
    (Some (WriteHandler_cb conn)) (Some (CloseHandler_cb conn)) (Some (ErrorHandler_cb conn)).
Definition new_conn_object fd loop local peer channel : TcpConnection :=
  mkTcpConnection (ToString local +:+ "_" +:+ ToString peer)%string CONNECTING loop fd channel fd
    (Buffer_new InitSize) (Buffer_new InitSize) default_high_water None None None None None.

Definition keep_alive fd (k : kstate) : sysres unit * kstate :=
  sys_setsockopt fd SOL_SOCKET SO_KEEPALIVE 1 k.

(** The world after the construction of a connection at address [w_next w]. *)
Definition new_conn_world fd loop local peer (w : World) : World :=
  let conn := w_next w in
  let channel := Pos.succ conn in
  set_w_channels (<[channel := new_conn_channel fd loop conn]> (w_channels w))
  (set_w_conns (<[conn := new_conn_object fd loop local peer channel]> (w_conns w))
  (set_w_next (Pos.succ channel)
  (after_syscall (keep_alive fd (w_kern w)).1 (keep_alive fd (w_kern w)).2 w))).

Lemma run_TcpConnection_new fd loop local peer w :
  TcpConnection_new fd loop local peer w = Ok (w_next w, new_conn_world fd loop local peer w).
Proof.
  unfold TcpConnection_new, EventChannel_new, alloc, SetCloseEventCallBack, SetErrorEventCallBack,
    SetReadEventCallBack, SetWriteEventCallBack, Socket_SetKeepAlived, SetKeepAlived, set_option, syscall_unit.
  do 2 (erewrite run_bind by reflexivity).
  rewrite run_bind_assoc. erewrite run_bind by reflexivity.
  rewrite run_bind_assoc. erewrite run_bind by reflexivity.
  rewrite run_bind_assoc. erewrite run_bind by reflexivity. run1.
  erewrite run_bind by reflexivity. do 4 run1. rewrite !run_bind_assoc.
  erewrite run_bind by apply run_syscall. simpl.
  rewrite !insert_insert_eq. unfold new_conn_world, keep_alive.
  by destruct (sys_setsockopt _ _ _ _ _) as [[]].
Qed.

(** The setters of a connection, one after the other. *)
Lemma run_update_conn {A} (conn : ptr) f (co : TcpConnection) cs (w : World) (k : unit -> M A) :
  bind (update conn f) k (set_w_conns (<[conn := co]> cs) w) =
  k tt (set_w_conns (<[conn := f co]> cs) w).
Proof.
  erewrite run_bind by (apply run_update; apply lookup_insert_eq). simpl. by rewrite insert_insert_eq.
Qed.

Lemma set_w_conns_eta (w : World) cs : w_conns w = cs -> w = set_w_conns cs w.
Proof. intros <-. by destruct w. Qed.
End construction.

(** ** Witnesses

    A connection (address 20) on descriptor 5 with channel 7, in the loop 1; user
    code that only observes. *)

#[global] Instance demo_user : @UserCode RefKernel := {| user_run _ := ret tt |}.

Definition demo_call_close (cb : close_cb) (c : ptr) : St (@World RefKernel) unit := ret tt.
Definition demo_conn_exec (t : task) : St (@World RefKernel) unit :=
  match t with
  | Written_task cb c => call_user (Written_ev cb c)
  | ShutdownInLoop_task c => ShutdownInLoop c
  | _ => ret tt
  end.

Definition demo_buffer (d : list byte) : Buffer := mkBuffer 0 (Z.of_nat (length d)) d.

Definition demo_conn (s : ConnState) (wb : list byte) : TcpConnection :=
  mkTcpConnection "demo"%string s 1 5 7 5 (Buffer_new InitSize) (demo_buffer wb)
    default_high_water (Some 1%nat) (Some (UserClose_cb 9)) None (Some 4%nat) (Some 5%nat).

Definition demo_sock (recv : list byte) (cap : Z) : rsock := mkRsock recv false [] cap 0 false [].

Definition demo_connected (s : rsock) (ev : Z) (co : TcpConnection) : @World RefKernel :=
  demo_world (demo_kernel {[5 := RSock s]} {[5 := (u32 ev, 7%positive)]} [])
    {[7%positive := demo_channel 5 ev 0 ADDED_CHANNEL]}
    {[1%positive := demo_loop {[5 := 7%positive]} [] []]} {[20%positive := co]}.

Lemma demo_conn_core recv cap ev s wb :
  (Z.of_nat (length recv) <? rk_limit) = true ->
  conn_core (demo_connected (demo_sock recv cap) ev (demo_conn s wb)) 20 (demo_conn s wb)
    (demo_channel 5 ev 0 ADDED_CHANNEL) (demo_loop {[5 := 7%positive]} [] [])
    (mkStream [] recv false).
Proof.
  intros Hlim. split; [done| | |done|
    unfold k_stream, RefKernel_stream, rk_stream; simpl; rewrite lookup_singleton_eq; simpl; by rewrite Hlim].
  - eapply (poller_inv_frame (demo_reg ev [])); [apply demo_reg_inv|done..].
  - by split.
Qed.

Lemma demo_buffer_wf d : Z.of_nat (length d) < 2 ^ 32 -> buffer_wf (demo_buffer d).
Proof. unfold buffer_wf, demo_buffer, buffer_size; simpl. lia. Qed.

Lemma demo_conn_view recv cap s :
  (Z.of_nat (length recv) <? rk_limit) = true ->
  conn_view (demo_connected (demo_sock recv cap) read_event_flag (demo_conn s [])) 20
    (demo_conn s []) (demo_channel 5 read_event_flag 0 ADDED_CHANNEL)
    (demo_loop {[5 := 7%positive]} [] []) (mkStream [] recv false).
Proof.
  intros Hlim. split; [by apply demo_conn_core|]. split; simpl; [apply Buffer_new_wf|by apply demo_buffer_wf|done].
Qed.

Lemma demo_conn_writing recv cap s :
  (Z.of_nat (length recv) <? rk_limit) = true ->
  conn_view (demo_connected (demo_sock recv cap) write_event_flag (demo_conn s [x61; x62])) 20
    (demo_conn s [x61; x62]) (demo_channel 5 write_event_flag 0 ADDED_CHANNEL)
    (demo_loop {[5 := 7%positive]} [] []) (mkStream [] recv false).
Proof.
  intros Hlim. split; [by apply demo_conn_core|]. split; simpl; [apply Buffer_new_wf|by apply demo_buffer_wf|done].
Qed.

Lemma demo_user_observes : user_observes.
Proof. done. Qed.

Lemma demo_user_sends_only : user_sends_only 20.
Proof.
  intros ev w co ch lp st [Hc Hb]. unfold call_user. apply wp_bind, wp_modify, wp_ret.
  exists co, ch, lp, st. apply still_sending_refl. split; [by apply core_trace|done].
Qed.

Lemma demo_user_takes : user_takes 20.
Proof.
  intros cb w co ch lp st (Hc & Hb & Hi) Hcb. unfold call_user. apply wp_bind, wp_modify, wp_ret.
  exists co, ch, lp, st, []. split_and!; try done. split_and!; [by apply core_trace|done..].
Qed.

Lemma SendInLoop_appends_to_stream_witness :
  let w := demo_connected (demo_sock [] 2) read_event_flag (demo_conn CONNECTED []) in
  exists w' co' ch' lp' st',
    SendInLoop demo_call_close 20 [x61; x62; x63] 3 w = Ok (tt, w') /\
    conn_view w' 20 co' ch' lp' st' /\ outgoing co' st' = [x61; x62; x63].
Proof.
  intros w.
  destruct (SendInLoop_appends_to_stream demo_call_close w 20 _ _ _ _ [x61; x62; x63]
    (demo_conn_view [] 2 CONNECTED eq_refl)) as [(e & k' & _ & Ew & _)|(w' & co' & ch' & lp' & st' & E & Hv & Ho & _)];
    [done|done|done|done| |].
  - vm_compute in Ew. discriminate.
  - exists w', co', ch', lp', st'. split; [exact E|]. split; [exact Hv|]. by rewrite Ho.
Defined.

Lemma WriteHandler_flushes_stream_witness :
  let w := demo_connected (demo_sock [] 1) write_event_flag (demo_conn CONNECTED [x61; x62]) in
  exists w' co' ch' lp' st', WriteHandler demo_conn_exec 20 w = Ok (tt, w') /\
    conn_view w' 20 co' ch' lp' st' /\ [x61] `prefix_of` st_sent st'.
Proof.
  intros w.
  destruct (WriteHandler_flushes_stream demo_conn_exec 20 (fun _ => eq_refl) eq_refl w _ _ _ _
    demo_user_sends_only (demo_conn_writing [] 1 CONNECTED eq_refl) eq_refl)
    as (w' & co' & ch' & lp' & st' & E & Hv & _ & Hs).
  exists w', co', ch', lp', st'. split; [exact E|]. split; [exact Hv|exact Hs].
Defined.

Lemma Shutdown_waits_for_flush_witness :
  let w := demo_connected (demo_sock [] 9) write_event_flag (demo_conn DISCONNECTING [x61; x62]) in
  exists w1, ShutdownInLoop 20 w = Ok (tt, w1) /\ w_kern w1 = w_kern w /\
  exists w2 co' st', WriteHandler demo_conn_exec 20 w = Ok (tt, w2) /\
    outgoing co' st' = [x61; x62] /\ contents (co_write_buffer_ co') = [] /\
    w_kern w2 = shut_kernel (demo_conn DISCONNECTING [x61; x62])
      (quiet_kernel (demo_conn DISCONNECTING [x61; x62]) (demo_channel 5 write_event_flag 0 ADDED_CHANNEL)
         (demo_loop {[5 := 7%positive]} [] []) (sys_write 5 [x61; x62] (w_kern w)).2).
Proof.
  intros w.
  destruct (Shutdown_waits_for_flush demo_conn_exec 20 (fun _ => eq_refl) eq_refl w _ _ _ _
    (fun _ _ => eq_refl) (demo_conn_writing [] 9 DISCONNECTING eq_refl))
    as ((w1 & E1 & _ & K1) & Hw).
  exists w1. split; [exact E1|]. split; [exact K1|].
  destruct (Hw eq_refl) as (w2 & co' & ch' & lp' & st' & E2 & _ & Ho & Hall & K2).
  exists w2, co', st'. split; [exact E2|]. split; [exact Ho|].
  assert (contents (co_write_buffer_ co') = []) as Hn by (apply Hall; vm_compute; reflexivity).
  split; [exact Hn|]. rewrite K2, decide_True by exact Hn. reflexivity.
Defined.


Lemma ConnectEstablished_registers_witness :
  let w := demo_connected (demo_sock [] 0) EPOLLIN (demo_conn CONNECTING []) in
  exists w', ConnectEstablished 20 w = Ok (tt, w') /\ w_trace w' = [ConnStatus_ev 5 20 CONNECTED].
Proof.
  intros w.
  destruct (ConnectEstablished_registers 20 w _ _ _ _ demo_user_observes
    (demo_conn_core [] 0 EPOLLIN CONNECTING [] eq_refl)) as (w' & ch' & lp' & E & Hc & _ & T & _).
  exists w'. split; [exact E|exact T].
Defined.

Lemma CloseHandler_disconnects_witness :
  let w := demo_connected (demo_sock [] 0) read_event_flag (demo_conn CONNECTED []) in
  exists w', CloseHandler demo_call_close 20 w = Ok (tt, w') /\
    w_trace w' = [ConnStatus_ev 5 20 DISCONNECTED].
Proof.
  intros w.
  destruct (CloseHandler_disconnects demo_call_close 20 w _ _ _ _ demo_user_observes
    (demo_conn_core [] 0 read_event_flag CONNECTED [] eq_refl) eq_refl)
    as (w' & ch' & lp' & E & _ & _ & _ & _ & T).
  exists w'. split; [exact E|exact T].
Defined.

Lemma ConnectDestoryed_unregisters_witness :
  let w := demo_connected (demo_sock [] 0) read_event_flag (demo_conn CONNECTED []) in
  exists w', ConnectDestoryed 20 w = Ok (tt, w') /\
    w_trace w' = [ConnStatus_ev 5 20 DISCONNECTED].
Proof.
  intros w.
  destruct (ConnectDestoryed_unregisters 20 w _ _ _ _ demo_user_observes
    (demo_conn_core [] 0 read_event_flag CONNECTED [] eq_refl))
    as (w' & lp' & E & _ & _ & _ & _ & T); [by left|done|by left|].
  exists w'. split; [exact E|exact T].
Defined.

Lemma ConnectDestoryed_while_disconnecting_aborts_witness :
  ConnectDestoryed 20 (demo_connected (demo_sock [] 0) read_event_flag (demo_conn DISCONNECTING []))
    = Err AssertFailure.
Proof.
  apply (ConnectDestoryed_while_disconnecting_aborts 20 _ _ _ _ _
    (demo_conn_core [] 0 read_event_flag DISCONNECTING [] eq_refl)); [by left|done|done|reflexivity].
Defined.

Lemma ForceClose_queues_twice_witness :
  let w := demo_connected (demo_sock [] 0) read_event_flag (demo_conn CONNECTED []) in
  exists w', ForceClose 20 false false w = Ok (tt, w') /\
    lo_queue_task_funcs_ <$> w_loops w' !! 1%positive =
      Some [ForceCloseInLoop_task 20; ForceCloseInLoop_task 20].
Proof.
  intros w.
  destruct (ForceClose_queues_twice demo_call_close 20 w _ _ _ _
    (demo_conn_core [] 0 read_event_flag CONNECTED [] eq_refl) eq_refl)
    as [(w' & lp' & E & Hc & Hq) _].
  exists w'. split; [exact E|]. pose proof (core_loop _ _ _ _ _ _ Hc) as Hl. simpl in Hl.
  rewrite Hl. simpl. by rewrite Hq.
Defined.
