(* ===== verification/Acceptor.v ===== *)
(** * Acceptor: TcpAcceptor

    Models [TcpAcceptor] (tcp_acceptor.h/.cpp).  What is done with a new
    connection (the [new_conn_cb_] bound to a server) is the parameter
    [new_conn]; Reactor.v ties it to [TcpServer::NewConnected]. *)

From stdpp Require Import base list gmap strings numbers.
From Stdlib Require Import ZArith Lia Init.Byte.
From S2P Require Import Prelude Buffer Kernel RefKernel State World Demo Poller EventLoop Socket.

Open Scope np_scope.

Definition O_RDONLY_CLOEXEC : Z := 0x80000.

Section operations.
Context `{Kernel}.
Variable new_conn : ptr -> Z -> sockaddr -> sockaddr -> M unit.

(** ** Construction, destruction, listening *)

Definition TcpAcceptor_new (loop : ptr) (addr : sockaddr) (resueport : bool) : M ptr :=
  let! a := gets w_next in
  do! modify (set_w_next (Pos.succ a));
  let! fd := CreateNonblocking (Family addr) in
  let! channel := EventChannel_new loop fd in
  let! idle_fd := syscall_int (sys_open "/dev/null" O_RDONLY_CLOEXEC) in
  do! store a (mkTcpAcceptor loop addr fd channel idle_fd None);
  do! Socket_SetReuseAddr fd true;
  do! Socket_SetReusePort fd resueport;
  do! Socket_Bind fd addr;
  do! SetReadEventCallBack channel (AcceptHandle_cb a);
  ret a.

(** With the destructors of the members [channel_] and [socket_]. *)
Definition TcpAcceptor_destroy (a : ptr) : M unit :=
  let! ac := load (T := TcpAcceptor) a in
  do! DisableAll (ac_channel_ ac);
  do! RemoveFromLoop (ac_channel_ ac);
  do! Close (ac_idle_fd_ ac);
  do! free (T := EventChannel) (ac_channel_ ac);
  do! Socket_destroy (ac_socket_fd_ ac);
  free (T := TcpAcceptor) a.

Definition Acceptor_SetNewConnectionCB (a : ptr) (server : ptr) : M unit :=
  update a (ac_set_new_conn_cb_ (Some server)).

(** [assert(loop_->IsInLoopThread())] *)
Definition acceptor_in_loop (a : ptr) : M unit :=
  let! ac := load (T := TcpAcceptor) a in
  let! b := IsInLoopThread (ac_loop_ ac) in
  assert_ b.

Definition Acceptor_Listen (a : ptr) : M unit :=
  do! acceptor_in_loop a;
  let! ac := load (T := TcpAcceptor) a in
  do! Socket_Listen (ac_socket_fd_ ac);
  EnableReading (ac_channel_ ac).

(** ** Accepting *)

(** The branch for a descriptor table that is full. *)
Definition accept_recovery (ac : TcpAcceptor) : M unit :=
  do! Close (ac_idle_fd_ ac);
  let! _ := syscall (sys_accept4 (ac_socket_fd_ ac) 0) in
  do! Close (ac_idle_fd_ ac);
  let! _ := syscall (sys_open "/dev/null" O_RDONLY_CLOEXEC) in
  ret tt.

(** [fuel] bounds the iterations of [while (1)]; [junk] is what the
    uninitialised address of a failed call holds. *)
Fixpoint AcceptHandle_loop (fuel : nat) (a : ptr) (junk : sockaddr) : M unit :=
  match fuel with
  | O => throw OutOfFuel
  | S fuel' =>
      let! ac := load (T := TcpAcceptor) a in
      let! '(connFd, peer_addr) := Socket_Accept (ac_socket_fd_ ac) junk in
      if 0 <=? connFd then
        do! match ac_new_conn_cb_ ac with
            | Some server => new_conn server connFd (ac_socket_addr_ ac) peer_addr
            | None => Close connFd
            end;
        AcceptHandle_loop fuel' a junk
      else
        let! errno := get_errno in
        if (EAGAIN =? errno) || (EWOULDBLOCK =? errno) then ret tt
        else
          do! when ((ENFILE =? errno) || negb (EMFILE =? 0) || negb (errno =? 0))
                (accept_recovery ac);
          AcceptHandle_loop fuel' a junk
  end.

Definition AcceptHandle (fuel : nat) (a : ptr) (junk : sockaddr) : M unit :=
  do! acceptor_in_loop a;
  AcceptHandle_loop fuel a junk.
End operations.

(** ** Accepting everything that waits *)

Section accepting.
Context `{AcceptReliable}.
Variable new_conn : ptr -> Z -> sockaddr -> sockaddr -> M unit.
Implicit Types (w : World) (a s : ptr) (ac : TcpAcceptor).

(** The listening socket and its thread. *)
Record acceptor_ok w a ac (q : list sockaddr) : Prop := {
  ao_acceptor : w_acceptors w !! a = Some ac;
  ao_thread : exists lp, w_loops w !! ac_loop_ ac = Some lp /\ w_tid w = lo_thread_id_ lp;
  ao_backlog : k_backlog (w_kern w) (ac_socket_fd_ ac) = Some q
}.

Lemma acceptor_ok_syscall {A} w a ac q (r : sysres A) k q' :
  acceptor_ok w a ac q -> k_backlog k (ac_socket_fd_ ac) = Some q' ->
  acceptor_ok (after_syscall r k w) a ac q'.
Proof. intros [? (lp & ? & ?) ?] Hb. split; autorewrite with world; eauto. Qed.

(** The connections of the backlog are handed to the server one by one, in order,
    each with its own address; then the call finds nothing left. *)
Inductive hands_over s ac : World -> list sockaddr -> World -> Prop :=
| ho_done w k' :
    sys_accept4 (ac_socket_fd_ ac) (Z.lor SOCK_NONBLOCK SOCK_CLOEXEC) (w_kern w) = (SErr EAGAIN, k') ->
    hands_over s ac w [] (after_syscall (SErr EAGAIN : sysres unit) k' w)
| ho_next w n peer k' w2 rest w' :
    sys_accept4 (ac_socket_fd_ ac) (Z.lor SOCK_NONBLOCK SOCK_CLOEXEC) (w_kern w)
      = (SOk (n, peer), k') ->
    new_conn s n (ac_socket_addr_ ac) peer (set_w_kern k' w) = Ok (tt, w2) ->
    hands_over s ac w2 rest w' ->
    hands_over s ac w (peer :: rest) w'.

(** What the acceptor asks of the server's callback, with an invariant of the
    server: each waiting connection, once accepted, is taken and leaves the listening
    socket alone. *)
Class AcceptClient s a ac (Inv : World -> Prop) := {
  acc_taken w peer rest n k' :
    acceptor_ok w a ac (peer :: rest) -> Inv w ->
    sys_accept4 (ac_socket_fd_ ac) (Z.lor SOCK_NONBLOCK SOCK_CLOEXEC) (w_kern w)
      = (SOk (n, peer), k') -> 0 <= n ->
    k_backlog k' (ac_socket_fd_ ac) = Some rest ->
    wp (new_conn s n (ac_socket_addr_ ac) peer)
      (fun _ w' => acceptor_ok w' a ac rest /\ Inv w') (set_w_kern k' w);
  acc_empty w k' :
    acceptor_ok w a ac [] -> Inv w ->
    sys_accept4 (ac_socket_fd_ ac) (Z.lor SOCK_NONBLOCK SOCK_CLOEXEC) (w_kern w)
      = (SErr EAGAIN, k') ->
    k_backlog k' (ac_socket_fd_ ac) = Some [] ->
    Inv (after_syscall (SErr EAGAIN : sysres unit) k' w)
}.

(** One call of [Accept]. *)
Lemma run_Accept fd junk w :
  Socket_Accept fd junk w =
    match sys_accept4 fd (Z.lor SOCK_NONBLOCK SOCK_CLOEXEC) (w_kern w) with
    | (SOk np, k') => Ok (np, set_w_kern k' w)
    | (SErr e, k') => Ok ((-1, junk), after_syscall (SErr e : sysres unit) k' w)
    end.
Proof.
  unfold Socket_Accept, Accept. erewrite run_bind by apply run_syscall.
  destruct (sys_accept4 _ _ _) as [[[n p]|e] k']; simpl; [done|].
  erewrite run_bind by reflexivity. simpl. rewrite lookup_insert_eq. simpl.
  unfold when, set_errno. case_match; [|done].
  erewrite run_bind by reflexivity. simpl. rewrite insert_insert_eq. done.
Qed.

Lemma AcceptHandle_loop_ok `{!AcceptClient s a ac Inv} fuel w q junk :
  ac_new_conn_cb_ ac = Some s -> acceptor_ok w a ac q -> Inv w ->
  (length q < fuel)%nat ->
  exists w', AcceptHandle_loop new_conn fuel a junk w = Ok (tt, w') /\
    hands_over s ac w q w' /\ acceptor_ok w' a ac [] /\ Inv w'.
Proof.
  intros Hcb. revert w q. induction fuel as [|fuel IH]; intros w q Ho HI Hf; [lia|].
  simpl. erewrite run_bind by (apply run_load; apply Ho).
  destruct q as [|peer rest].
  - destruct (accept_empty _ (Z.lor SOCK_NONBLOCK SOCK_CLOEXEC) _ (ao_backlog _ _ _ _ Ho))
      as (k' & E & Hb).
    erewrite run_bind by (rewrite run_Accept, E; reflexivity). cbn beta iota.
    rewrite (proj2 (Z.leb_gt 0 (-1))) by lia. erewrite run_bind by reflexivity.
    simpl. rewrite lookup_insert_eq. simpl.
    eexists. split; [reflexivity|]. split; [by apply (ho_done s ac w k')|].
    split; [by apply (acceptor_ok_syscall w a ac [] (SErr EAGAIN : sysres unit))|].
    by eapply acc_empty.
  - destruct (accept_next _ (Z.lor SOCK_NONBLOCK SOCK_CLOEXEC) _ _ _ (ao_backlog _ _ _ _ Ho))
      as (n & k' & E & Hn & Hb).
    erewrite run_bind by (rewrite run_Accept, E; reflexivity). cbn beta iota.
    rewrite (proj2 (Z.leb_le 0 n)) by lia. rewrite Hcb.
    destruct (proj1 (wp_run _ _ _) (acc_taken w peer rest n k' Ho HI E Hn Hb))
      as ([] & w2 & E2 & Ho2 & HI2).
    erewrite run_bind by exact E2.
    destruct (IH w2 rest Ho2 HI2) as (w' & E' & Hh & Ho'); [simpl in Hf; lia|].
    exists w'. split; [exact E'|]. split; [by eapply ho_next|done].
Qed.

Lemma AcceptHandle_ok `{!AcceptClient s a ac Inv} fuel w q junk :
  ac_new_conn_cb_ ac = Some s -> acceptor_ok w a ac q -> Inv w ->
  (length q < fuel)%nat ->
  exists w', AcceptHandle new_conn fuel a junk w = Ok (tt, w') /\
    hands_over s ac w q w' /\ acceptor_ok w' a ac [] /\ Inv w'.
Proof.
  intros Hcb Ho HI Hf. unfold AcceptHandle, acceptor_in_loop.
  rewrite run_bind_assoc. erewrite run_bind by (apply run_load; apply Ho).
  destruct (ao_thread _ _ _ _ Ho) as (lp & Hl & Ht).
  rewrite run_bind_assoc. erewrite run_bind by by apply run_IsInLoopThread.
  rewrite bool_decide_eq_true_2 by done. run1. by apply AcceptHandle_loop_ok.
Qed.

(** C14: Accepting drains the backlog.  The listening socket is edge triggered as
    every read event, so [AcceptHandle] must accept until nothing is left: while
    accept4 takes what waits ([AcceptReliable]), given more fuel than there are connections waiting it ends, every one of them has
    been handed to the server's callback exactly once, in order, with its own peer
    address, the backlog is empty, and the server's invariant holds. *)
Theorem AcceptHandle_drains_backlog `{!AcceptClient s a ac Inv} fuel w q junk :
  ac_new_conn_cb_ ac = Some s -> acceptor_ok w a ac q -> Inv w ->
  (length q < fuel)%nat ->
  exists w', AcceptHandle new_conn fuel a junk w = Ok (tt, w') /\
    hands_over s ac w q w' /\ acceptor_ok w' a ac [] /\ Inv w'.
Proof.
  intros Hcb Ho HI Hf. by apply AcceptHandle_ok.
Qed.
End accepting.

(** ** A full descriptor table *)

Section recovery.
Context `{FdLaws}.
Variable new_conn : ptr -> Z -> sockaddr -> sockaddr -> M unit.
Implicit Types (w : World) (a : ptr) (ac : TcpAcceptor).

(** The kernel after each of the four calls. *)
Definition recovery_accept ac (k : kstate) : sysres (Z * sockaddr) * kstate :=
  sys_accept4 (ac_socket_fd_ ac) 0 (sys_close (ac_idle_fd_ ac) k).2.
Definition recovery_open ac (k : kstate) : sysres Z * kstate :=
  sys_open "/dev/null" O_RDONLY_CLOEXEC (sys_close (ac_idle_fd_ ac) (recovery_accept ac k).2).2.

Lemma run_accept_recovery ac w :
  exists w', accept_recovery ac w = Ok (tt, w') /\ w_kern w' = (recovery_open ac (w_kern w)).2 /\
    only_kernel w w'.
Proof.
  unfold accept_recovery, Close, recovery_open, recovery_accept.
  rewrite run_bind_assoc. erewrite run_bind by apply run_syscall. run1.
  erewrite run_bind by apply run_syscall.
  rewrite run_bind_assoc. erewrite run_bind by apply run_syscall. run1.
  erewrite run_bind by apply run_syscall.
  autorewrite with world. eexists. split; [reflexivity|]. autorewrite with world.
  split; [done|]. do 3 (etrans; [|apply only_kernel_syscall]). apply only_kernel_syscall.
Qed.

(** Every error but EAGAIN takes this branch. *)
Lemma AcceptHandle_loop_error fuel w a ac junk e k' :
  w_acceptors w !! a = Some ac ->
  sys_accept4 (ac_socket_fd_ ac) (Z.lor SOCK_NONBLOCK SOCK_CLOEXEC) (w_kern w) = (SErr e, k') ->
  e <> EAGAIN ->
  AcceptHandle_loop new_conn (S fuel) a junk w =
    (do! accept_recovery ac; AcceptHandle_loop new_conn fuel a junk)
      (after_syscall (SErr e : sysres unit) k' w).
Proof.
  intros Ha E He. simpl. run1. erewrite run_bind by (rewrite run_Accept, E; reflexivity).
  cbn beta iota. rewrite (proj2 (Z.leb_gt 0 (-1))) by lia. erewrite run_bind by reflexivity.
  simpl. rewrite lookup_insert_eq. simpl. unfold EWOULDBLOCK.
  rewrite (proj2 (Z.eqb_neq EAGAIN e)) by done. simpl. rewrite orb_true_r. done.
Qed.

(** The open descriptors, through the four calls. *)
Lemma recovery_descriptors ac (k : kstate) n p k2 m k4 :
  recovery_accept ac k = (SOk (n, p), k2) -> recovery_open ac k = (SOk m, k4) ->
  let idle := ac_idle_fd_ ac in
  lowest_free (k_open k ∖ {[idle]}) n /\
  lowest_free (({[n]} ∪ k_open k ∖ {[idle]}) ∖ {[idle]}) m /\
  k_open k4 = {[m]} ∪ ({[n]} ∪ k_open k ∖ {[idle]}) ∖ {[idle]}.
Proof.
  intros Ea Eo idle. unfold recovery_open in Eo. rewrite Ea in Eo. simpl in Eo.
  pose proof (accept_open (ac_socket_fd_ ac) 0 (sys_close idle k).2) as Ha.
  unfold recovery_accept in Ea. fold idle in Ea. rewrite Ea, close_open in Ha.
  destruct Ha as [Hn Ho2].
  pose proof (open_open "/dev/null" O_RDONLY_CLOEXEC (sys_close idle k2).2) as Hp.
  fold idle in Eo. rewrite Eo, close_open, Ho2 in Hp. by destruct Hp.
Qed.

(** C34: The reserve descriptor works when the table is full.  When every number up
    to the reserve descriptor is in use (EMFILE), the branch closes it, accepts
    the waiting connection under the number just freed, closes that, and gets the
    number back for /dev/null: afterwards the same descriptors are open as before
    (the connection was refused), although the code does not assign the result of
    open() to [idle_fd_]. *)
Theorem full_table_recovery_keeps_reserve w ac n p k2 m k4 :
  ac_idle_fd_ ac ∈ k_open (w_kern w) -> 0 <= ac_idle_fd_ ac ->
  (forall i, 0 <= i < ac_idle_fd_ ac -> i ∈ k_open (w_kern w)) ->
  recovery_accept ac (w_kern w) = (SOk (n, p), k2) ->
  recovery_open ac (w_kern w) = (SOk m, k4) ->
  exists w', accept_recovery ac w = Ok (tt, w') /\ only_kernel w w' /\
    n = ac_idle_fd_ ac /\ m = ac_idle_fd_ ac /\ k_open (w_kern w') = k_open (w_kern w).
Proof.
  intros Hin Hnn Hfull Ea Eo. destruct (run_accept_recovery ac w) as (w' & E & Hk & Hw).
  destruct (recovery_descriptors _ _ _ _ _ _ _ Ea Eo) as ((Hn1 & Hn2 & Hn3) & (Hm1 & Hm2 & Hm3) & Ho).
  set (idle := ac_idle_fd_ ac) in *.
  assert (n = idle) as ->.
  { destruct (Z.lt_total n idle) as [Hlt|[?|Hgt]]; [|done|].
    - specialize (Hfull n). set_solver by lia.
    - specialize (Hn3 idle). set_solver by lia. }
  assert (m = idle) as ->.
  { destruct (Z.lt_total m idle) as [Hlt|[?|Hgt]]; [|done|].
    - specialize (Hfull m). set_solver by lia.
    - specialize (Hm3 idle). set_solver by lia. }
  exists w'. rewrite Hk, Eo. simpl. rewrite Ho. split_and!; [done..|].
  apply set_eq. intros x. destruct (decide (x = idle)); set_solver.
Qed.

(** The branch is taken for every error, and then leaks a connection.  The
    test [EMFILE || ...] is always true: an accept that fails for another reason
    than EAGAIN (an aborted connection, a signal) enters the branch with free
    descriptors below the reserve one.  The next waiting connection is accepted
    under such a number, and stays open although nobody was told of it. *)
Theorem accept_error_leaks_connection fuel w a ac junk e k1 :
  w_acceptors w !! a = Some ac ->
  sys_accept4 (ac_socket_fd_ ac) (Z.lor SOCK_NONBLOCK SOCK_CLOEXEC) (w_kern w) = (SErr e, k1) ->
  e <> EAGAIN ->
  AcceptHandle_loop new_conn (S fuel) a junk w =
    (do! accept_recovery ac; AcceptHandle_loop new_conn fuel a junk)
      (after_syscall (SErr e : sysres unit) k1 w) /\
  forall i n p k2 m k4, 0 <= i < ac_idle_fd_ ac -> (i ∉ k_open k1) ->
    recovery_accept ac k1 = (SOk (n, p), k2) -> recovery_open ac k1 = (SOk m, k4) ->
    (n ∉ k_open k1) /\ (n ∈ k_open k4).
Proof.
  intros Ha E He. split; [by apply AcceptHandle_loop_error|].
  intros i n p k2 m k4 Hi Hfree Ea Eo.
  destruct (recovery_descriptors _ _ _ _ _ _ _ Ea Eo) as ((Hn1 & Hn2 & Hn3) & _ & Ho).
  assert (n <= i) as Hni.
  { destruct (Z.le_gt_cases n i) as [|Hgt]; [done|]. specialize (Hn3 i). set_solver by lia. }
  rewrite Ho. assert (n <> ac_idle_fd_ ac) by lia. set_solver.
Qed.
End recovery.

(** ** Witnesses

    An acceptor (address 30) on descriptor 1 with the reserve descriptor 2. *)

Definition demo_acceptor : TcpAcceptor := mkTcpAcceptor 1 (replicate 28 x00) 1 7 2 (Some 40%positive).

Definition demo_listening (err : Z) (q : list sockaddr) (files : gmap Z rfile) : @World RefKernel :=
  set_w_acceptors {[30%positive := demo_acceptor]}
    (demo_world (demo_kernel (<[1 := RSock (mkRsock [] false [] 0 err false q)]> files) ∅ []) ∅
      {[1%positive := demo_loop ∅ [] []]} ∅).

(** A server that notes the descriptors it is given. *)
Definition demo_new_conn (s : ptr) (n : Z) (local peer : sockaddr) : St (@World RefKernel) unit :=
  modify (fun w => set_w_trace (Channel_ev (Z.to_nat n) :: w_trace w) w).

#[global] Instance demo_accept_client :
  AcceptClient demo_new_conn 40 30 demo_acceptor (fun _ => True).
Proof.
  split; [|done]. intros w peer rest n k' [? (lp & ? & ?) _] _ _ _ Hb. apply wp_modify.
  split; [|done]. split; [done|by exists lp|done].
Qed.

Lemma AcceptHandle_drains_backlog_witness :
  let w := demo_listening 0 [[x01]; [x02]] ∅ in
  exists w', AcceptHandle demo_new_conn 3 30 [] w = Ok (tt, w') /\
    hands_over demo_new_conn 40 demo_acceptor w [[x01]; [x02]] w'.
Proof.
  intros w.
  destruct (AcceptHandle_drains_backlog demo_new_conn (s := 40) (a := 30) (ac := demo_acceptor)
    (Inv := fun _ => True) 3 w [[x01]; [x02]] []) as (w' & E & Hh & _);
    [reflexivity| |exact I|simpl; lia|].
  - split; [reflexivity| |reflexivity]. by exists (demo_loop ∅ [] []).
  - exists w'. split; [exact E|exact Hh].
Defined.

Lemma full_table_recovery_keeps_reserve_witness :
  let w := demo_listening 0 [[x01]] {[0 := RNull; 2 := RNull]} in
  exists w', accept_recovery demo_acceptor w = Ok (tt, w') /\
    k_open (w_kern w') = k_open (w_kern w).
Proof.
  intros w.
  assert (forall i, i ∈ k_open (w_kern w) <-> i = 1 \/ i = 0 \/ i = 2) as Hopen.
  { intros i. unfold w; simpl. rewrite !dom_insert_L, dom_singleton_L. set_solver. }
  destruct (full_table_recovery_keeps_reserve w demo_acceptor 2 [x01]
    (recovery_accept demo_acceptor (w_kern w)).2 2 (recovery_open demo_acceptor (w_kern w)).2)
    as (w' & E & _ & _ & _ & Ho).
  - apply Hopen. auto.
  - simpl. lia.
  - intros i Hi. apply Hopen. simpl in Hi. lia.
  - vm_compute. reflexivity.
  - vm_compute. reflexivity.
  - exists w'. split; [exact E|exact Ho].
Defined.

(** An aborted connection (ECONNABORTED) in front of a good one: the good one is
    accepted as descriptor 0 and forgotten. *)
Lemma accept_error_leaks_connection_witness :
  let w := demo_listening ECONNABORTED [[x01]] {[2 := RNull]} in
  exists k1, sys_accept4 1 (Z.lor SOCK_NONBLOCK SOCK_CLOEXEC) (w_kern w) = (SErr ECONNABORTED, k1) /\
    (0 ∉ k_open k1) /\ (0 ∈ k_open (recovery_open demo_acceptor k1).2).
Proof.
  intros w.
  pose (k1 := (sys_accept4 1 (Z.lor SOCK_NONBLOCK SOCK_CLOEXEC) (w_kern w)).2).
  destruct (accept_error_leaks_connection demo_new_conn 1 w 30 demo_acceptor [] ECONNABORTED k1)
    as [_ Hleak]; [reflexivity|reflexivity|done|].
  exists k1. split; [reflexivity|].
  apply (Hleak 0 0 [x01] (recovery_accept demo_acceptor k1).2 2).
  - simpl. lia.
  - apply not_elem_of_dom. vm_compute. reflexivity.
  - vm_compute. reflexivity.
  - vm_compute. reflexivity.
Defined.
