(* ===== verification/Connector.v ===== *)
(** * Connector: TcpConnector

    Models [TcpConnector] (tcp_connector.h/.cpp).  The callback
    [new_connection_cb_] (bound to a client) is the parameter [new_connection],
    the code that runs a task is the parameter [exec]; Reactor.v ties both. *)

From stdpp Require Import base list gmap strings numbers.
From Stdlib Require Import ZArith Lia Init.Byte.
From S2P Require Import Prelude Buffer Kernel RefKernel State World Demo Poller EventLoop Socket.

Open Scope np_scope.

Section operations.
Context `{Kernel}.
Variable exec : task -> M unit.
Variable new_connection : ptr -> Z -> M unit.

Definition TcpConnector_new (loop : ptr) (addr : sockaddr) : M ptr :=
  alloc (mkTcpConnector loop addr kDisconnected None None).

Definition Connector_SetNewConnectionCB (k client : ptr) : M unit :=
  update k (ct_set_new_connection_cb_ (Some client)).

(** [compare_exchange_weak] may fail spuriously. *)
Definition Connector_Start (k : ptr) (spurious : bool) : M unit :=
  let! ct := load (T := TcpConnector) k in
  when (bool_decide (ct_state_ ct = kDisconnected) && negb spurious)
    (do! update k (ct_set_state_ kConnecting);
     RunInLoop exec (ct_loop_ ct) (StartInLoop_task k)).

Definition Connector_Stop (k : ptr) : M unit :=
  let! ct := load (T := TcpConnector) k in
  if bool_decide (kDisconnected = ct_state_ ct) then ret tt
  else RunInLoop exec (ct_loop_ ct) (StopInLoop_task k).

(** [assert(loop_->IsInLoopThread())] *)
Definition connector_in_loop (k : ptr) : M unit :=
  let! ct := load (T := TcpConnector) k in
  let! b := IsInLoopThread (ct_loop_ ct) in
  assert_ b.

(** [channel_.reset(p)]: the old channel is deleted. *)
Definition reset_channel (k : ptr) (p : option ptr) : M unit :=
  let! ct := load (T := TcpConnector) k in
  do! store k (ct_set_channel_ p ct);
  match ct_channel_ ct with
  | Some old => free (T := EventChannel) old
  | None => ret tt
  end.

(** The first group of cases of the switch: connected, or connecting. *)
Definition watch_connecting (k : ptr) (fd : Z) : M unit :=
  do! connector_in_loop k;
  let! ct := load (T := TcpConnector) k in
  let! c := EventChannel_new (ct_loop_ ct) fd in
  do! reset_channel k (Some c);
  do! SetWriteEventCallBack c (ConnectorWrite_cb k);
  do! SetErrorEventCallBack c (ConnectorError_cb k);
  EnableWriting c.

(** The switch is on errno, whatever connect() returned.  The other three groups
    of cases (errors to retry, to give up, unknown) all close the socket. *)
Definition StartInLoop (k : ptr) : M unit :=
  do! connector_in_loop k;
  let! ct := load (T := TcpConnector) k in
  do! assert_ (bool_decide (kConnecting = ct_state_ ct));
  let! fd := CreateNonblocking (Family (ct_addr_ ct)) in
  let! _ := Connect fd (ct_addr_ ct) in
  let! orig_errno := get_errno in
  if bool_decide (orig_errno ∈ [0; EINPROGRESS; EINTR; EISCONN])
  then watch_connecting k fd
  else if bool_decide (orig_errno ∈ [EAGAIN; EADDRINUSE; EADDRNOTAVAIL; ECONNREFUSED; ENETUNREACH])
  then Close fd
  else if bool_decide (orig_errno ∈ [EACCES; EPERM; EAFNOSUPPORT; EALREADY; EBADF; EFAULT; ENOTSOCK])
  then Close fd
  else Close fd.

Definition StopInLoop (k : ptr) : M unit := ret tt.

Definition RetryConn (k : ptr) (fd : Z) : M unit :=
  do! Close fd;
  let! ct := load (T := TcpConnector) k in
  QueueInLoop (ct_loop_ ct) (StartInLoop_task k).

Definition RemoveChannel (k : ptr) : M Z :=
  let! ct := load (T := TcpConnector) k in
  let! c := deref (ct_channel_ ct) in
  do! DisableAll c;
  do! RemoveFromLoop c;
  let! ch := load (T := EventChannel) c in
  do! QueueInLoop (ct_loop_ ct) (ResetChannelPtr_task k);
  ret (ch_fd_ ch).

Definition WriteEventHandler (k : ptr) : M unit :=
  let! ct := load (T := TcpConnector) k in
  do! assert_ (bool_decide (kConnecting = ct_state_ ct));
  let! fd := RemoveChannel k in
  let! err := SocketError fd in
  if negb (err =? 0) then RetryConn k fd
  else
    let! ct := load (T := TcpConnector) k in
    match ct_new_connection_cb_ ct with
    | Some client =>
        let! c := deref (ct_channel_ ct) in
        let! ch := load (T := EventChannel) c in
        new_connection client (ch_fd_ ch)
    | None => ret tt
    end.

Definition ErrorEventHandler (k : ptr) : M unit := ret tt.

Definition ResetChannelPtr (k : ptr) : M unit := reset_channel k None.
End operations.

(** ** Connecting *)

Section connecting.
Context `{EpollReliable} `{!EpollFrame} `{!StreamLaws} `{!DialLaws}.
Implicit Types (w : World) (k : ptr) (ct : TcpConnector) (lp : EventLoop) (ch : EventChannel).

Record connector_ok w k ct lp : Prop := {
  ck_connector : w_connectors w !! k = Some ct;
  ck_loop : loop_inv w (ct_loop_ ct) lp;
  ck_fresh : fresh_addresses w /\ (ct_loop_ ct < w_next w)%positive
}.

Lemma connector_ok_syscall {A} w k ct lp (r : sysres A) ks :
  connector_ok w k ct lp -> (forall ep, k_interest ks ep = k_interest (w_kern w) ep) ->
  connector_ok (after_syscall r ks w) k ct lp.
Proof.
  intros [Hk [Hinv Ht] Hf] Hi. split; autorewrite with world; [done| |].
  - split; autorewrite with world; [|done].
    eapply poller_inv_frame; [exact Hinv|..]; autorewrite with world; try done. apply Hinv.
  - split; [|apply Hf]. intros c ch. autorewrite with world. apply Hf.
Qed.

Lemma run_connector_in_loop {A} w k ct lp (f : unit -> M A) :
  connector_ok w k ct lp -> bind (connector_in_loop k) f w = f tt w.
Proof.
  intros [Hk [Hinv Ht] _]. unfold connector_in_loop. rewrite run_bind_assoc. run1.
  rewrite run_bind_assoc. erewrite run_bind by (apply run_IsInLoopThread; apply Hinv).
  rewrite bool_decide_eq_true_2 by done. by run1.
Qed.

(** errno after the two calls: what the last failing call left, or what was there
    before. *)
Definition errno_after w (r1 : sysres Z) (r2 : sysres unit) : Z :=
  match r2, r1 with
  | SErr e, _ => e
  | SOk _, SErr e => e
  | SOk _, SOk _ => default 0 (w_errno w !! w_tid w)
  end.

Definition connecting_errno (e : Z) : bool := bool_decide (e ∈ [0; EINPROGRESS; EINTR; EISCONN]).

Lemma run_StartInLoop w k ct lp r1 ks1 r2 ks2 :
  connector_ok w k ct lp -> ct_state_ ct = kConnecting ->
  sys_socket (Family (ct_addr_ ct)) (Z.lor (Z.lor SOCK_STREAM SOCK_NONBLOCK) SOCK_CLOEXEC)
    IPPROTO_TCP (w_kern w) = (r1, ks1) ->
  let fd := match r1 with SOk n => n | SErr _ => -1 end in
  sys_connect fd (ct_addr_ ct) sockaddr_size ks1 = (r2, ks2) ->
  let w2 := after_syscall r2 ks2 (after_syscall r1 ks1 w) in
  connector_ok w2 k ct lp /\
  StartInLoop k w =
    if connecting_errno (errno_after w r1 r2) then watch_connecting k fd w2 else Close fd w2.
Proof.
  intros Hok Hst E1 fd E2 w2.
  pose proof (frame_socket (Family (ct_addr_ ct))
    (Z.lor (Z.lor SOCK_STREAM SOCK_NONBLOCK) SOCK_CLOEXEC) IPPROTO_TCP (w_kern w)) as F1.
  rewrite E1 in F1. pose proof (connector_ok_syscall w k ct lp r1 ks1 Hok F1) as Hok1.
  pose proof (frame_connect fd (ct_addr_ ct) sockaddr_size ks1) as F2. rewrite E2 in F2. simpl in F2.
  split. { apply connector_ok_syscall; [done|]. intros ep. autorewrite with world. apply F2. }
  unfold StartInLoop. erewrite run_connector_in_loop by exact Hok.
  erewrite run_bind by (apply run_load; apply Hok). rewrite Hst. run1.
  unfold CreateNonblocking, syscall_int. rewrite run_bind_assoc.
  erewrite run_bind by apply run_syscall. rewrite E1. cbn [fst snd]. run1. fold fd.
  unfold Connect, syscall_unit. rewrite run_bind_assoc. erewrite run_bind by apply run_syscall.
  autorewrite with world. rewrite E2. cbn [fst snd]. run1. fold w2.
  erewrite run_bind by reflexivity.
  replace (default 0 (w_errno w2 !! w_tid w2)) with (errno_after w r1 r2).
  { unfold connecting_errno. case_bool_decide; [done|]. by repeat case_bool_decide. }
  unfold w2, errno_after. destruct r2; simpl; destruct r1; simpl; by rewrite ?lookup_insert_eq.
Qed.

(** The channel of the connector [k], registered in its loop. *)
Definition connecting_channel w k l lp c ch fd : Prop :=
  channel_of w l lp c ch /\ ch_fd_ ch = fd /\ ch_poller_status_ ch = ADDED_CHANNEL /\
  ch_write_event_cb_ ch = Some (ConnectorWrite_cb k) /\ ch_error_event_cb_ ch = Some (ConnectorError_cb k) /\
  ch_read_event_cb_ ch = None /\ ch_close_event_cb_ ch = None.

(** What is new in the loop and the heap, and what is not. *)
Definition watch_frame w w' lp lp' c ch fd : Prop :=
  lp' = with_entry fd c lp /\ w_clients w' = w_clients w /\ w_conns w' = w_conns w /\
  w_channels w' = <[c := ch]> (w_channels w).

(** The new channel. *)
Lemma run_watch_connecting w k ct lp fd :
  connector_ok w k ct lp -> ct_channel_ ct = None ->
  po_evt_channel_list_ (lo_poller_ lp) !! fd = None ->
  let c := w_next w in
  exists w' lp', watch_connecting k fd w = Ok (tt, w') /\
    connector_ok w' k (ct_set_channel_ (Some c) ct) lp' /\
    (forall fd', k_stream (w_kern w') fd' = k_stream (w_kern w) fd') /\
    k_interest (w_kern w') (po_epoll_fd_ (lo_poller_ lp')) !! fd = Some (EPOLLOUT, c) /\
    exists ch, watch_frame w w' lp lp' c ch fd /\ connecting_channel w' k (ct_loop_ ct) lp' c ch fd.
Proof.
  intros Hok Hch Hfd c. pose proof Hok as [Hk [Hinv Ht] [Hf Hlt]].
  assert (w_channels w !! c = None) as Hc.
  { destruct (w_channels w !! c) as [ch0|] eqn:E; [|done]. destruct (Hf _ _ E). unfold c in *. lia. }
  pose (ch := mkEventChannel fd none_event_flag 0 NEW_CHANNEL (ct_loop_ ct) None
    (Some (ConnectorWrite_cb k)) None (Some (ConnectorError_cb k))).
  pose (w1 := set_w_channels (<[c := ch]> (w_channels w))
    (set_w_connectors (<[k := ct_set_channel_ (Some c) ct]> (w_connectors w))
      (set_w_next (Pos.succ c) w))).
  assert (poller_inv w1 (ct_loop_ ct) lp) as Hinv1.
  { eapply (poller_inv_ext (set_w_channels (<[c := ch]> (w_channels w)) w)); [|done..].
    by apply poller_inv_new_channel. }
  assert (channel_of w1 (ct_loop_ ct) lp c ch) as Hco1.
  { split; [simpl; by rewrite lookup_insert_eq|done|done|done]. }
  destruct (set_interest_correct (fun e => Z.lor e write_event_flag) _ _ _ _ _ Hinv1 Hco1)
    as (w2 & E2 & Hinv2 & Hco2 & Hw2 & _).
  exists w2. eexists. split; [|split; [split; [by rewrite Hw2; simpl; rewrite lookup_insert_eq| |]|]].
  - unfold watch_connecting, reset_channel, EventChannel_new, alloc.
    erewrite run_connector_in_loop by exact Hok. run1.
    rewrite run_bind_assoc. erewrite run_bind by reflexivity.
    rewrite run_bind_assoc. erewrite run_bind by reflexivity.
    rewrite run_bind_assoc. erewrite run_bind by reflexivity. run1.
    rewrite run_bind_assoc. run1. rewrite run_bind_assoc. erewrite run_bind by reflexivity.
    rewrite Hch. run1. unfold SetWriteEventCallBack, SetErrorEventCallBack.
    run1. run1. simpl. rewrite !insert_insert_eq. exact E2.
  - split; [exact Hinv2|]. rewrite Hw2. done.
  - rewrite Hw2. split; [|simpl; unfold c; lia]. intros c' ch' E'. simpl in *.
    rewrite insert_insert_eq in E'.
    apply lookup_insert_Some in E' as [[<- <-]|[_ E']]; simpl; [unfold c; lia|].
    destruct (Hf _ _ E'). unfold c. lia.
  - split; [|split; [exact (watched_kernel _ _ _ _ _ Hinv2 Hco2)|]].
    + pose proof (run_set_interest (fun e => Z.lor e write_event_flag) _ _ _ _ _ (pi_loop _ _ _ Hinv1) (co_chan _ _ _ _ _ Hco1) eq_refl) as R.
      cbv zeta in R. rewrite R in E2; [|rewrite (co_thread _ _ _ _ _ Hco1); apply Hinv1|by eapply channel_of_entry]. injection E2 as <-.
      intros fd'. autorewrite with world. apply stream_epoll_ctl.
    + eexists. split; [|split; [exact Hco2|done]]. unfold watch_frame. rewrite Hw2. simpl. by rewrite insert_insert_eq.
Qed.

Definition socket_call ct (ks : kstate) : sysres Z * kstate :=
  sys_socket (Family (ct_addr_ ct)) (Z.lor (Z.lor SOCK_STREAM SOCK_NONBLOCK) SOCK_CLOEXEC)
    IPPROTO_TCP ks.

Lemma StartInLoop_ok w k ct lp fd ks1 e ks2 :
  connector_ok w k ct lp -> ct_state_ ct = kConnecting -> ct_channel_ ct = None ->
  po_evt_channel_list_ (lo_poller_ lp) !! fd = None ->
  socket_call ct (w_kern w) = (SOk fd, ks1) ->
  sys_connect fd (ct_addr_ ct) sockaddr_size ks1 = (SErr e, ks2) ->
  e = EINPROGRESS \/ e = EINTR ->
  let c := w_next w in
  exists w' lp' ch, StartInLoop k w = Ok (tt, w') /\
    connector_ok w' k (ct_set_channel_ (Some c) ct) lp' /\
    (watch_frame w w' lp lp' c ch fd /\
     forall fd' st, fd' <> fd -> k_stream (w_kern w) fd' = Some st -> k_stream (w_kern w') fd' = Some st) /\
    k_interest (w_kern w') (po_epoll_fd_ (lo_poller_ lp')) !! fd = Some (EPOLLOUT, c) /\
    connecting_channel w' k (ct_loop_ ct) lp' c ch fd.
Proof.
  intros Hok Hst Hch Hfd E1 E2 He c.
  destruct (run_StartInLoop w k ct lp _ _ _ _ Hok Hst E1 E2) as [Hok2 ->].
  set (w2 := after_syscall _ _ _) in *.
  assert (connecting_errno (errno_after w (SOk fd) (SErr e)) = true) as ->
    by (destruct He; subst; reflexivity).
  destruct (run_watch_connecting w2 k ct lp fd Hok2 Hch Hfd)
    as (w' & lp' & E & Hok' & Hs & Hk & ch & Hfr & Hcc).
  exists w', lp', ch. split_and!; [done|done| | |done|apply Hcc..].
  - unfold watch_frame in *. unfold w2 in Hfr. autorewrite with world in Hfr. exact Hfr.
  - intros fd' st Hne Hst'. rewrite Hs. unfold w2. autorewrite with world.
    pose proof (stream_connect fd (ct_addr_ ct) sockaddr_size ks1 fd' Hne) as S2. rewrite E2 in S2. simpl in S2. rewrite S2.
    pose proof (stream_socket (Family (ct_addr_ ct)) (Z.lor (Z.lor SOCK_STREAM SOCK_NONBLOCK) SOCK_CLOEXEC) IPPROTO_TCP _ _ _ Hst') as S1.
    unfold socket_call in E1. by rewrite E1 in S1.
Qed.

(** Starting a connection.  When connect() is in progress (or was interrupted),
    [StartInLoop] creates a channel for the new socket, owned by the connector,
    whose write callback is the connector's, and the kernel watches the socket for
    writability; the loop's invariant is kept. *)
Theorem StartInLoop_watches_socket w k ct lp fd ks1 e ks2 :
  connector_ok w k ct lp -> ct_state_ ct = kConnecting -> ct_channel_ ct = None ->
  po_evt_channel_list_ (lo_poller_ lp) !! fd = None ->
  socket_call ct (w_kern w) = (SOk fd, ks1) ->
  sys_connect fd (ct_addr_ ct) sockaddr_size ks1 = (SErr e, ks2) ->
  e = EINPROGRESS \/ e = EINTR ->
  let c := w_next w in
  exists w' lp' ch, StartInLoop k w = Ok (tt, w') /\
    connector_ok w' k (ct_set_channel_ (Some c) ct) lp' /\
    k_interest (w_kern w') (po_epoll_fd_ (lo_poller_ lp')) !! fd = Some (EPOLLOUT, c) /\
    w_channels w' !! c = Some ch /\ ch_fd_ ch = fd /\
    ch_write_event_cb_ ch = Some (ConnectorWrite_cb k).
Proof.
  intros Hok Hst Hch Hfd E1 E2 He c.
  destruct (StartInLoop_ok w k ct lp fd ks1 e ks2) as (w' & lp' & ch & E & Hok' & _ & Hk & Hcc & Hf & _ & Hw & _); [done..|].
  exists w', lp', ch. split_and!; [done..|apply Hcc|done|done].
Qed.

(** A successful connect() can be mistaken for a failure.  [StartInLoop] looks
    at errno whatever connect() returned; a successful call leaves errno as an
    earlier call set it, for instance EAGAIN, which every drained read leaves.
    The connected socket is then closed, no channel is made, and the connector
    stays in the state connecting, in which [Start] does nothing more. *)
Theorem StartInLoop_stale_errno_drops_connection exec w k ct lp fd ks1 ks2 spurious :
  connector_ok w k ct lp -> ct_state_ ct = kConnecting ->
  socket_call ct (w_kern w) = (SOk fd, ks1) ->
  sys_connect fd (ct_addr_ ct) sockaddr_size ks1 = (SOk tt, ks2) ->
  w_errno w !! w_tid w = Some EAGAIN ->
  exists w', StartInLoop k w = Ok (tt, w') /\ w_kern w' = (sys_close fd ks2).2 /\
    w_connectors w' !! k = Some ct /\ w_channels w' = w_channels w /\
    Connector_Start exec k spurious w' = Ok (tt, w').
Proof.
  intros Hok Hst E1 E2 He.
  destruct (run_StartInLoop w k ct lp _ _ _ _ Hok Hst E1 E2) as [Hok2 ->].
  assert (connecting_errno (errno_after w (SOk fd) (SOk tt)) = false) as ->
    by (simpl; by rewrite He).
  unfold Close. erewrite run_bind by apply run_syscall. eexists. split; [reflexivity|].
  autorewrite with world. simpl. split_and!; [done|apply Hok|done|].
  unfold Connector_Start. erewrite run_bind.
  2:{ apply run_load. simpl. autorewrite with world. apply Hok. }
  rewrite Hst. done.
Qed.

Variable new_connection : ptr -> Z -> M unit.

Lemma run_QueueInLoop_connector w k ct lp t :
  connector_ok w k ct lp ->
  exists w' lp', QueueInLoop (ct_loop_ ct) t w = Ok (tt, w') /\ connector_ok w' k ct lp' /\
    lo_queue_task_funcs_ lp' = lo_queue_task_funcs_ lp ++ [t] /\
    lo_poller_ lp' = lo_poller_ lp /\ w_kern w' = w_kern w /\ w_channels w' = w_channels w.
Proof.
  intros [Hk [Hinv Ht] Hf]. eexists _, (lo_set_queue_task_funcs_ (lo_queue_task_funcs_ lp ++ [t]) lp).
  split; [exact (run_update (T := EventLoop) _ _ _ w (pi_loop _ _ _ Hinv))|].
  split; [|done]. split; simpl; [done| |done]. split; [|done].
  by eapply poller_inv_frame; [exact Hinv|simpl; by rewrite lookup_insert_eq|..].
Qed.

(** What the handler has done before it looks at the socket's error. *)
Lemma run_RemoveChannel w k ct lp c ch :
  connector_ok w k ct lp -> ct_channel_ ct = Some c ->
  channel_of w (ct_loop_ ct) lp c ch -> removable lp c ->
  exists w1 lp1 ch1, RemoveChannel k w = Ok (ch_fd_ ch, w1) /\ connector_ok w1 k ct lp1 /\
    lo_queue_task_funcs_ lp1 = lo_queue_task_funcs_ lp ++ [ResetChannelPtr_task k] /\
    po_evt_channel_list_ (lo_poller_ lp1) !! ch_fd_ ch = None /\
    w_channels w1 !! c = Some ch1 /\ ch_fd_ ch1 = ch_fd_ ch.
Proof.
  intros Hok Hch Hco Hrem. pose proof Hok as [Hk [Hinv Ht] [Hf Hlt]].
  destruct (Unregister_correct w (ct_loop_ ct) lp c ch)
    as (w1 & lp1 & ch1 & E1 & Hinv1 & Hco1 & (S1 & _ & _ & S4 & _) & Hw1 & Hch1 & _); [done..|].
  assert (connector_ok w1 k ct lp1) as Hok1.
  { split; [by rewrite Hw1|split; [done|by rewrite S1; rewrite Hw1]|].
    rewrite Hw1. split; [|done]. intros c' ch' E'. simpl in E'.
    apply lookup_insert_Some in E' as [[<- <-]|[_ E']]; [|by apply (Hf _ _ E')].
    rewrite Hch1. simpl. exact (Hf _ _ (co_chan _ _ _ _ _ Hco)). }
  destruct (run_QueueInLoop_connector w1 k ct lp1 (ResetChannelPtr_task k) Hok1)
    as (w2 & lp2 & E2 & Hok2 & Q2 & P2 & _ & C2).
  exists w2, lp2, ch1. split.
  - unfold RemoveChannel. run1. rewrite Hch. erewrite run_bind by reflexivity.
    revert E1. unfold bind at 1. intros E1. 
    destruct (DisableAll c w) as [[u wa]|] eqn:Ed; [|done].
    erewrite run_bind by exact Ed. destruct u. erewrite run_bind by exact E1.
    erewrite run_bind by (apply run_load; apply Hco1). erewrite run_bind by exact E2.
    rewrite Hch1. done.
  - split_and!; [done|by rewrite Q2, S4| |by rewrite C2; apply Hco1|by rewrite Hch1].
    rewrite P2. replace (ch_fd_ ch) with (ch_fd_ ch1) by by rewrite Hch1.
    apply (co_fresh _ _ _ _ _ Hco1). by rewrite Hch1.
Qed.

(** The error that a socket reports. *)
Definition so_error fd (ks : kstate) : Z := match (sys_so_error fd ks).1 with SOk v => v | SErr e => e end.

Lemma run_SocketError {A} w fd (f : Z -> M A) :
  let rk := sys_so_error fd (w_kern w) in
  bind (SocketError fd) f w = f (so_error fd (w_kern w)) (after_syscall rk.1 rk.2 w).
Proof.
  intros rk. unfold SocketError, so_error. rewrite run_bind_assoc. erewrite run_bind by apply run_syscall.
  fold rk. destruct rk.1; [done|]. erewrite run_bind by reflexivity. simpl. by rewrite lookup_insert_eq.
Qed.

(** The outcome of connecting.  When the socket becomes writable the connector
    takes its channel out of the loop (so that the connection may register the
    descriptor anew) and queues its deletion.  If the socket has no error the
    descriptor is handed to the client, with the loop's invariant and no entry for
    the descriptor; otherwise it is closed and another attempt is queued, behind
    the deletion of the old channel. *)
Theorem WriteEventHandler_outcome w k ct lp c ch client :
  connector_ok w k ct lp -> ct_state_ ct = kConnecting -> ct_channel_ ct = Some c ->
  ct_new_connection_cb_ ct = Some client ->
  channel_of w (ct_loop_ ct) lp c ch -> removable lp c ->
  let fd := ch_fd_ ch in
  exists w1 lp1, connector_ok w1 k ct lp1 /\
    lo_queue_task_funcs_ lp1 = lo_queue_task_funcs_ lp ++ [ResetChannelPtr_task k] /\
    po_evt_channel_list_ (lo_poller_ lp1) !! fd = None /\
    let rk := sys_so_error fd (w_kern w1) in
    if so_error fd (w_kern w1) =? 0
    then WriteEventHandler new_connection k w = new_connection client fd (after_syscall rk.1 rk.2 w1)
    else exists w' lp', WriteEventHandler new_connection k w = Ok (tt, w') /\
      w_loops w' !! ct_loop_ ct = Some lp' /\ w_kern w' = (sys_close fd rk.2).2 /\
      lo_queue_task_funcs_ lp' =
        lo_queue_task_funcs_ lp ++ [ResetChannelPtr_task k; StartInLoop_task k].
Proof.
  intros Hok Hst Hch Hcb Hco Hrem fd.
  destruct (run_RemoveChannel w k ct lp c ch) as (w1 & lp1 & ch1 & E1 & Hok1 & Q1 & T1 & C1 & F1);
    [done..|].
  exists w1, lp1. split_and!; [done..|]. intros rk.
  unfold WriteEventHandler. erewrite run_bind by (apply run_load; apply Hok). rewrite Hst. run1.
  erewrite run_bind by exact E1. rewrite run_SocketError. fold fd. fold rk.
  pose proof (connector_ok_syscall w1 k ct lp1 rk.1 rk.2 Hok1 (frame_so_error fd (w_kern w1))) as Hok2.
  set (w2 := after_syscall rk.1 rk.2 w1) in *.
  destruct (so_error fd (w_kern w1) =? 0); simpl.
  - erewrite run_bind by (apply run_load; apply Hok2). rewrite Hcb, Hch.
    erewrite run_bind by reflexivity. erewrite run_bind.
    2:{ apply run_load. unfold w2. simpl. autorewrite with world. exact C1. }
    by rewrite F1.
  - unfold RetryConn, Close. rewrite run_bind_assoc. erewrite run_bind by apply run_syscall. run1.
    erewrite run_bind.
    2:{ apply run_load. simpl. autorewrite with world. apply Hok2. }
    eexists _, _. split.
    { apply (run_update (T := EventLoop) _ _ lp1). simpl. autorewrite with world.
      unfold w2. autorewrite with world. apply Hok1. }
    simpl. rewrite lookup_insert_eq. split; [reflexivity|]. autorewrite with world.
    unfold w2. autorewrite with world. split; [done|]. simpl. by rewrite Q1, <-app_assoc.
Qed.
End connecting.

(** ** Witnesses

    A connector (address 40) on the loop of Demo.v, whose client is at 50. *)

Definition demo_connector (addr : sockaddr) (c : option ptr) : TcpConnector :=
  mkTcpConnector 1 addr kConnecting c (Some 50%positive).

Definition demo_connecting (addr : sockaddr) (errno : gmap tid Z) : @World RefKernel :=
  set_w_errno errno (set_w_connectors {[40%positive := demo_connector addr None]}
    (demo_world (demo_kernel ∅ ∅ []) ∅ {[1%positive := demo_loop ∅ [] []]} ∅)).

Lemma demo_connecting_ok addr errno :
  connector_ok (demo_connecting addr errno) 40 (demo_connector addr None) (demo_loop ∅ [] []).
Proof. split; [done|split; [split; done|done]|]. split; [|done]. intros c ch. simpl. by rewrite lookup_empty. Qed.

(** 192.168.0.1, and 127.0.0.1 *)
Definition demo_remote : sockaddr := [x02; x00; x00; x50; xc0; xa8; x00; x01].
Definition demo_local : sockaddr := [x02; x00; x00; x50; x7f; x00; x00; x01].

Lemma StartInLoop_watches_socket_witness :
  let w := demo_connecting demo_remote ∅ in
  exists w' ch, StartInLoop 40 w = Ok (tt, w') /\ w_channels w' !! 1000%positive = Some ch /\
    ch_fd_ ch = 0.
Proof.
  intros w.
  destruct (StartInLoop_watches_socket w 40 (demo_connector demo_remote None) (demo_loop ∅ [] []) 0
    (socket_call (demo_connector demo_remote None) (w_kern w)).2 EINPROGRESS
    (socket_call (demo_connector demo_remote None) (w_kern w)).2)
    as (w' & lp' & ch & E & _ & _ & Hc & Hf & _).
  - apply demo_connecting_ok.
  - reflexivity.
  - reflexivity.
  - reflexivity.
  - vm_compute. reflexivity.
  - vm_compute. reflexivity.
  - by left.
  - exists w', ch. split; [exact E|]. split; [exact Hc|exact Hf].
Defined.

Lemma StartInLoop_stale_errno_drops_connection_witness :
  let w := demo_connecting demo_local {[1%positive := EAGAIN]} in
  exists w', StartInLoop 40 w = Ok (tt, w') /\ w_channels w' = ∅.
Proof.
  intros w.
  destruct (StartInLoop_stale_errno_drops_connection (fun _ => ret tt) w 40
    (demo_connector demo_local None) (demo_loop ∅ [] []) 0
    (socket_call (demo_connector demo_local None) (w_kern w)).2
    (socket_call (demo_connector demo_local None) (w_kern w)).2 false)
    as (w' & E & _ & _ & Hc & _).
  - apply demo_connecting_ok.
  - reflexivity.
  - vm_compute. reflexivity.
  - vm_compute. reflexivity.
  - reflexivity.
  - exists w'. split; [exact E|exact Hc].
Defined.

(** The channel (address 7, descriptor 5) of a connection that was refused. *)
Definition demo_refused : @World RefKernel :=
  let k := demo_kernel {[5 := RSock (mkRsock [] false [] 0 ECONNREFUSED false [])]}
             {[5 := (EPOLLOUT, 7%positive)]} [] in
  set_w_connectors {[40%positive := demo_connector demo_remote (Some 7%positive)]}
    (demo_world k {[7%positive := demo_channel 5 EPOLLOUT 0 ADDED_CHANNEL]}
      {[1%positive := demo_loop {[5 := 7%positive]} [] []]} ∅).

Lemma WriteEventHandler_outcome_witness :
  exists w1 lp1, connector_ok w1 40 (demo_connector demo_remote (Some 7%positive)) lp1 /\
    lo_queue_task_funcs_ lp1 = [ResetChannelPtr_task 40] /\
    po_evt_channel_list_ (lo_poller_ lp1) !! 5 = None.
Proof.
  assert (poller_inv demo_refused 1 (demo_loop {[5 := 7%positive]} [] [])) as Hinv.
  { eapply (poller_inv_frame (demo_reg EPOLLOUT [])); [apply demo_reg_inv|done..]. }
  destruct (WriteEventHandler_outcome (fun _ _ => ret tt) demo_refused 40
    (demo_connector demo_remote (Some 7%positive)) (demo_loop {[5 := 7%positive]} [] []) 7
    (demo_channel 5 EPOLLOUT 0 ADDED_CHANNEL) 50) as (w1 & lp1 & Hok & Hq & Ht & _).
  - split; [done|by split|]. split; [|done].
    intros c ch. simpl. intros [<- <-]%lookup_singleton_Some. done.
  - reflexivity.
  - reflexivity.
  - reflexivity.
  - by split.
  - by left.
  - exists w1, lp1. split; [exact Hok|]. split; [exact Hq|exact Ht].
Defined.
