(* ===== verification/Thread.v ===== *)
(** * Thread: EncThread and EventLoopThread

    Models [EncThread] (thread.h/.cpp) and [EventLoopThread]
    (event_loop_thread.h/.cpp): the start of a thread, the hand-over of the loop
    the thread creates, and the destruction of both, as the interleaving of two
    threads.  The owner calls the constructor, [Start], [GetLoopInThread] and, at
    the end, the destructor; the worker runs [ThreadFunc] and [run].  A step is
    one access to what the two share; a thread that waits for a mutex, a
    condition variable or a join has no step. *)

From stdpp Require Import base list relations.
From Stdlib Require Import Lia.
From S2P Require Import Prelude.

(** ** Program counters *)

Inductive owner_pc :=
| Start_test | Start_lock | Start_create | Start_set | Start_notify | Start_unlock
| Get_lock | Get_test | Get_wait | Get_relock | Get_unlock | Get_read
| Returned (loop : bool)
| Dtor_test | Dtor_quit | Dtor_thread | Dtor_quited | Dtor_join | Dtor_done
| Use_after_free.

Inductive worker_pc :=
| Not_created
| Func_lock | Func_test | Func_wait | Func_relock | Func_quited | Func_return | Func_unlock
| Run_construct | Run_lock | Run_set | Run_notify | Run_unlock
| Loop_looping | Loop_quit | Loop_test | Loop_iterate | Loop_end
| Run_destroy | Finished.

Inductive actor := Owner | Worker.

#[global] Instance owner_pc_eq_dec : EqDecision owner_pc.
Proof. solve_decision. Defined.
#[global] Instance worker_pc_eq_dec : EqDecision worker_pc.
Proof. solve_decision. Defined.
#[global] Instance actor_eq_dec : EqDecision actor.
Proof. solve_decision. Defined.

(** What the threads share.  [mutex_] and [condition_] are those of [EncThread],
    [loop_mutex_] and [cond_] those of [EventLoopThread]; a condition variable is
    whether its only possible waiter sleeps on it; [loop_] is whether the
    pointer is set, [loop_alive] whether the object it is set to exists. *)
Record thread_state := mkThread {
  owner : owner_pc;
  worker : worker_pc;
  threadobj_ : bool;
  started_ : bool;
  quited_ : bool;
  mutex_ : option actor;
  condition_ : bool;
  loop_mutex_ : option actor;
  cond_ : bool;
  loop_ : bool;
  loop_alive : bool;
  looping_ : bool;
  quit_ : bool
}.

(** The constructors of [EncThread] and [EventLoopThread]. *)
Definition EventLoopThread_new : thread_state :=
  mkThread Start_test Not_created false false false None false None false false false false false.

Definition at_owner v s := mkThread v (worker s) (threadobj_ s) (started_ s) (quited_ s)
  (mutex_ s) (condition_ s) (loop_mutex_ s) (cond_ s) (loop_ s) (loop_alive s) (looping_ s) (quit_ s).
Definition at_worker v s := mkThread (owner s) v (threadobj_ s) (started_ s) (quited_ s)
  (mutex_ s) (condition_ s) (loop_mutex_ s) (cond_ s) (loop_ s) (loop_alive s) (looping_ s) (quit_ s).
Definition set_threadobj_ v s := mkThread (owner s) (worker s) v (started_ s) (quited_ s)
  (mutex_ s) (condition_ s) (loop_mutex_ s) (cond_ s) (loop_ s) (loop_alive s) (looping_ s) (quit_ s).
Definition set_started_ v s := mkThread (owner s) (worker s) (threadobj_ s) v (quited_ s)
  (mutex_ s) (condition_ s) (loop_mutex_ s) (cond_ s) (loop_ s) (loop_alive s) (looping_ s) (quit_ s).
Definition set_quited_ v s := mkThread (owner s) (worker s) (threadobj_ s) (started_ s) v
  (mutex_ s) (condition_ s) (loop_mutex_ s) (cond_ s) (loop_ s) (loop_alive s) (looping_ s) (quit_ s).
Definition set_mutex_ v s := mkThread (owner s) (worker s) (threadobj_ s) (started_ s) (quited_ s)
  v (condition_ s) (loop_mutex_ s) (cond_ s) (loop_ s) (loop_alive s) (looping_ s) (quit_ s).
Definition set_condition_ v s := mkThread (owner s) (worker s) (threadobj_ s) (started_ s) (quited_ s)
  (mutex_ s) v (loop_mutex_ s) (cond_ s) (loop_ s) (loop_alive s) (looping_ s) (quit_ s).
Definition set_loop_mutex_ v s := mkThread (owner s) (worker s) (threadobj_ s) (started_ s) (quited_ s)
  (mutex_ s) (condition_ s) v (cond_ s) (loop_ s) (loop_alive s) (looping_ s) (quit_ s).
Definition set_cond_ v s := mkThread (owner s) (worker s) (threadobj_ s) (started_ s) (quited_ s)
  (mutex_ s) (condition_ s) (loop_mutex_ s) v (loop_ s) (loop_alive s) (looping_ s) (quit_ s).
Definition set_loop_ v s := mkThread (owner s) (worker s) (threadobj_ s) (started_ s) (quited_ s)
  (mutex_ s) (condition_ s) (loop_mutex_ s) (cond_ s) v (loop_alive s) (looping_ s) (quit_ s).
Definition set_loop_alive v s := mkThread (owner s) (worker s) (threadobj_ s) (started_ s) (quited_ s)
  (mutex_ s) (condition_ s) (loop_mutex_ s) (cond_ s) (loop_ s) v (looping_ s) (quit_ s).
Definition set_looping_ v s := mkThread (owner s) (worker s) (threadobj_ s) (started_ s) (quited_ s)
  (mutex_ s) (condition_ s) (loop_mutex_ s) (cond_ s) (loop_ s) (loop_alive s) v (quit_ s).
Definition set_quit_ v s := mkThread (owner s) (worker s) (threadobj_ s) (started_ s) (quited_ s)
  (mutex_ s) (condition_ s) (loop_mutex_ s) (cond_ s) (loop_ s) (loop_alive s) (looping_ s) v.

(** ** The owner *)

Definition lock_mutex (a : actor) (s : thread_state) : option thread_state :=
  match mutex_ s with Some _ => None | None => Some (set_mutex_ (Some a) s) end.
Definition lock_loop_mutex (a : actor) (s : thread_state) : option thread_state :=
  match loop_mutex_ s with Some _ => None | None => Some (set_loop_mutex_ (Some a) s) end.

(** [EncThread::Start]; the scoped lock lasts to its end. *)
Definition Start_step (pc : owner_pc) (s : thread_state) : option thread_state :=
  match pc with
  | Start_test => Some (at_owner (if threadobj_ s then Get_lock else Start_lock) s)
  | Start_lock => at_owner Start_create <$> lock_mutex Owner s
  | Start_create => Some (at_owner Start_set (set_threadobj_ true (at_worker Func_lock s)))
  | Start_set => Some (at_owner Start_notify (set_started_ true s))
  | Start_notify => Some (at_owner Start_unlock (set_condition_ false s))
  | Start_unlock => Some (at_owner Get_lock (set_mutex_ None s))
  | _ => None
  end.

(** [EventLoopThread::GetLoopInThread]: one [cond_.wait], outside of any loop;
    [loop_] is read again after the lock is released. *)
Definition GetLoopInThread_step (pc : owner_pc) (s : thread_state) : option thread_state :=
  match pc with
  | Get_lock => at_owner Get_test <$> lock_loop_mutex Owner s
  | Get_test => Some (if loop_ s then at_owner Get_unlock s
                      else at_owner Get_wait (set_cond_ true (set_loop_mutex_ None s)))
  | Get_wait => if cond_ s then None else Some (at_owner Get_relock s)
  | Get_relock => at_owner Get_unlock <$> lock_loop_mutex Owner s
  | Get_unlock => Some (at_owner Get_read (set_loop_mutex_ None s))
  | Get_read => Some (at_owner (Returned (loop_ s)) s)
  | _ => None
  end.

(** [~EventLoopThread], which calls [EventLoop::Quit], and then [~EncThread].  An
    owner that was given no loop is not followed further. *)
Definition Dtor_step (pc : owner_pc) (s : thread_state) : option thread_state :=
  match pc with
  | Returned true => Some (at_owner Dtor_test s)
  | Dtor_test => Some (at_owner (if loop_ s then Dtor_quit else Dtor_thread) s)
  | Dtor_quit => Some (if loop_alive s then at_owner Dtor_thread (set_quit_ true s)
                       else at_owner Use_after_free s)
  | Dtor_thread => Some (at_owner (if threadobj_ s then Dtor_quited else Dtor_done) s)
  | Dtor_quited => Some (at_owner Dtor_join (set_quited_ true s))
  | Dtor_join => if decide (worker s = Finished) then Some (at_owner Dtor_done s) else None
  | _ => None
  end.

Definition owner_step (s : thread_state) : option thread_state :=
  match owner s with
  | Start_test | Start_lock | Start_create | Start_set | Start_notify | Start_unlock =>
      Start_step (owner s) s
  | Get_lock | Get_test | Get_wait | Get_relock | Get_unlock | Get_read =>
      GetLoopInThread_step (owner s) s
  | _ => Dtor_step (owner s) s
  end.

(** ** The worker *)

(** [EncThread::ThreadFunc] *)
Definition ThreadFunc_step (pc : worker_pc) (s : thread_state) : option thread_state :=
  match pc with
  | Func_lock => at_worker Func_test <$> lock_mutex Worker s
  | Func_test => Some (if started_ s then at_worker Func_unlock s
                       else at_worker Func_wait (set_condition_ true (set_mutex_ None s)))
  | Func_wait => if condition_ s then None else Some (at_worker Func_relock s)
  | Func_relock => at_worker Func_quited <$> lock_mutex Worker s
  | Func_quited => Some (at_worker (if quited_ s then Func_return else Func_unlock) s)
  | Func_return => Some (at_worker Finished (set_mutex_ None s))
  | Func_unlock => Some (at_worker Run_construct (set_mutex_ None s))
  | _ => None
  end.

(** [EventLoopThread::run], with the variables [looping_] and [quit_] of
    [EventLoop] and its [Loop]; an iteration may run a task that calls [Quit]. *)
Definition run_step (quits : bool) (pc : worker_pc) (s : thread_state) : option thread_state :=
  match pc with
  | Run_construct => Some (at_worker Run_lock (set_loop_alive true (set_looping_ false (set_quit_ false s))))
  | Run_lock => at_worker Run_set <$> lock_loop_mutex Worker s
  | Run_set => Some (at_worker Run_notify (set_loop_ true s))
  | Run_notify => Some (at_worker Run_unlock (set_cond_ false s))
  | Run_unlock => Some (at_worker Loop_looping (set_loop_mutex_ None s))
  | Loop_looping => Some (at_worker Loop_quit (set_looping_ true s))
  | Loop_quit => Some (at_worker Loop_test (set_quit_ false s))
  | Loop_test => Some (at_worker (if quit_ s then Loop_end else Loop_iterate) s)
  | Loop_iterate => Some (at_worker Loop_test (if quits then set_quit_ true s else s))
  | Loop_end => Some (at_worker Run_destroy (set_looping_ false s))
  | Run_destroy => Some (at_worker Finished (set_loop_alive false s))
  | _ => None
  end.

Definition worker_step (quits : bool) (s : thread_state) : option thread_state :=
  match worker s with
  | Not_created | Finished => None
  | Func_lock | Func_test | Func_wait | Func_relock | Func_quited | Func_return | Func_unlock =>
      ThreadFunc_step (worker s) s
  | _ => run_step quits (worker s) s
  end.

(** ** Interleavings *)

(** Who moves; a sleeper on a condition variable may also wake up by itself. *)
Inductive choice := Owner_moves | Worker_moves (quits : bool) | Owner_wakes | Worker_wakes.

Definition thread_step (c : choice) (s : thread_state) : option thread_state :=
  match c with
  | Owner_moves => owner_step s
  | Worker_moves quits => worker_step quits s
  | Owner_wakes => match owner s with Get_wait => Some (set_cond_ false s) | _ => None end
  | Worker_wakes => match worker s with Func_wait => Some (set_condition_ false s) | _ => None end
  end.

(** The steps of the choices that [allowed] admits. *)
Inductive steps (allowed : choice -> bool) (s : thread_state) : thread_state -> Prop :=
| steps_refl : steps allowed s s
| steps_more s' s'' c : steps allowed s s' -> allowed c = true ->
    thread_step c s' = Some s'' -> steps allowed s s''.

Definition no_spurious (c : choice) : bool :=
  match c with Owner_wakes | Worker_wakes => false | _ => true end.
Definition anything (c : choice) : bool := true.
(** No spurious wake-up, and no task of the loop calls [Quit]. *)
Definition no_quit (c : choice) : bool :=
  match c with Owner_moves | Worker_moves false => true | _ => false end.

Fixpoint schedule (cs : list choice) (s : thread_state) : option thread_state :=
  match cs with
  | [] => Some s
  | c :: cs' => match thread_step c s with Some s' => schedule cs' s' | None => None end
  end.

(** ** The invariant of the hand-over *)

Definition owner_locks (pc : owner_pc) : bool :=
  match pc with Start_create | Start_set | Start_notify | Start_unlock => true | _ => false end.
Definition worker_locks (pc : worker_pc) : bool :=
  match pc with Func_test | Func_quited | Func_return | Func_unlock => true | _ => false end.
Definition owner_locks_loop (pc : owner_pc) : bool :=
  match pc with Get_test | Get_unlock => true | _ => false end.
Definition worker_locks_loop (pc : worker_pc) : bool :=
  match pc with Run_set | Run_notify | Run_unlock => true | _ => false end.

Definition holder (o w : bool) : option actor :=
  if o then Some Owner else if w then Some Worker else None.

(** The owner has created the thread; it has also set [started_]. *)
Definition created (pc : owner_pc) : bool :=
  match pc with Start_test | Start_lock | Start_create => false | _ => true end.
Definition has_started (pc : owner_pc) : bool :=
  match pc with Start_test | Start_lock | Start_create | Start_set => false | _ => true end.
(** The worker has published its loop. *)
Definition published (pc : worker_pc) : bool :=
  match pc with
  | Run_notify | Run_unlock | Loop_looping | Loop_quit | Loop_test | Loop_iterate | Loop_end
  | Run_destroy | Finished => true
  | _ => false
  end.
Definition loop_exists (pc : worker_pc) : bool :=
  match pc with
  | Run_lock | Run_set | Run_notify | Run_unlock | Loop_looping | Loop_quit | Loop_test
  | Loop_iterate | Loop_end | Run_destroy => true
  | _ => false
  end.
Definition sleeps_on_condition (pc : worker_pc) : bool :=
  match pc with Func_wait | Func_relock | Func_quited | Func_return => true | _ => false end.
(** The owner is past the wait. *)
Definition has_waited (pc : owner_pc) : bool :=
  match pc with
  | Start_test | Start_lock | Start_create | Start_set | Start_notify | Start_unlock
  | Get_lock | Get_test | Get_wait => false
  | _ => true
  end.

(** The program counters determine the mutexes and most of the variables, and not
    all pairs of program counters occur. *)
Definition shape (po : owner_pc) (pw : worker_pc) (sleeping qd lg qt : bool) : thread_state :=
  mkThread po pw (created po) (has_started po) qd (holder (owner_locks po) (worker_locks pw)) false
    (holder (owner_locks_loop po) (worker_locks_loop pw)) sleeping (published pw) (loop_exists pw)
    lg qt.

Definition compatible (po : owner_pc) (pw : worker_pc) (sleeping : bool) : bool :=
  negb (owner_locks po && worker_locks pw) &&
  negb (owner_locks_loop po && worker_locks_loop pw) &&
  Bool.eqb (created po) (bool_decide (pw <> Not_created)) &&
  negb (sleeps_on_condition pw) &&
  (if sleeping
   then bool_decide (po = Get_wait) && (negb (published pw) || bool_decide (pw = Run_notify))
   else bool_decide (po <> Get_wait) || published pw) &&
  (negb (has_waited po) || published pw) &&
  bool_decide (po <> Returned false).

Definition handover_inv (s : thread_state) : Prop :=
  s = shape (owner s) (worker s) (cond_ s) (quited_ s) (looping_ s) (quit_ s) /\
  compatible (owner s) (worker s) (cond_ s) = true.

Lemma handover_inv_init : handover_inv EventLoopThread_new.
Proof. done. Qed.

Lemma handover_inv_step c s s' :
  no_spurious c = true -> handover_inv s -> thread_step c s = Some s' -> handover_inv s'.
Proof.
  intros Hc [Hs Hok] Hstep. rewrite Hs in Hstep. clear Hs. revert Hok Hstep.
  generalize (owner s) (worker s) (cond_ s) (quited_ s) (looping_ s) (quit_ s).
  intros po pw cn qd lg qt Hok Hstep.
  destruct c as [|q| |]; try discriminate Hc; clear Hc.
  - destruct po as [| | | | | | | | | | | | []| | | | | | |];
      destruct pw, cn; try discriminate Hok; cbn in Hstep;
      try discriminate Hstep; injection Hstep as <-; split; reflexivity.
  - destruct pw; try discriminate Hstep;
    destruct po as [| | | | | | | | | | | | []| | | | | | |], cn;
      try discriminate Hok; cbn in Hstep; try destruct qt; try destruct q;
      try discriminate Hstep; injection Hstep as <-; split; reflexivity.
Qed.

Lemma handover_inv_steps s : steps no_spurious EventLoopThread_new s -> handover_inv s.
Proof.
  induction 1 as [|s' s'' c _ IH Hc Hstep]; [apply handover_inv_init|].
  by eapply handover_inv_step.
Qed.

(** ** Theorems *)

(** C19: The hand-over of the loop.  Whatever the interleaving of the two threads,
    without spurious wake-ups: a [GetLoopInThread] that returns gives a loop that
    the worker has constructed and published, and a worker never sleeps on
    [condition_] of [EncThread], because [Start] keeps [mutex_] locked from before
    the creation of the thread until [started_] is set. *)
Theorem GetLoopInThread_returns_a_loop s :
  steps no_spurious EventLoopThread_new s ->
  sleeps_on_condition (worker s) = false /\
  forall loop, owner s = Returned loop -> loop = true /\ loop_ s = true /\ published (worker s) = true.
Proof.
  intros [Hs Hok]%handover_inv_steps. rewrite Hs. simpl. revert Hok.
  generalize (owner s) (worker s) (cond_ s). unfold compatible. intros po pw cn Hok.
  rewrite !andb_true_iff in Hok. destruct Hok as ((((_ & Hsl) & _) & Hw) & Hr%bool_decide_eq_true).
  split; [by destruct (sleeps_on_condition pw)|].
  intros loop ->. destruct loop; [|done]. simpl in Hw. by destruct (published pw).
Qed.

(** The owner first; the worker when the owner has to wait. *)
Definition owner_rank (pc : owner_pc) : nat :=
  match pc with
  | Start_test => 12%nat | Start_lock => 11%nat | Start_create => 10%nat | Start_set => 9%nat | Start_notify => 8%nat
  | Start_unlock => 7%nat | Get_lock => 6%nat | Get_test => 5%nat | Get_wait => 4%nat | Get_relock => 3%nat
  | Get_unlock => 2%nat | Get_read => 1%nat | _ => 0%nat
  end.
Definition worker_rank (pc : worker_pc) : nat :=
  match pc with
  | Not_created => 13%nat | Func_lock => 12%nat | Func_test => 11%nat | Func_wait => 10%nat | Func_relock => 9%nat
  | Func_quited => 8%nat | Func_return => 7%nat | Func_unlock => 7%nat | Run_construct => 6%nat | Run_lock => 5%nat
  | Run_set => 4%nat | Run_notify => 3%nat | Run_unlock => 2%nat | Loop_looping => 1%nat | _ => 0%nat
  end.
Definition handover_rank (s : thread_state) : nat := (owner_rank (owner s) + worker_rank (worker s))%nat.

Lemma handover_progress s :
  handover_inv s -> owner_rank (owner s) <> 0%nat ->
  exists c s', no_spurious c = true /\ thread_step c s = Some s' /\ (handover_rank s' < handover_rank s)%nat.
Proof.
  intros [Hs Hok] Hr. rewrite Hs. clear Hs. revert Hok Hr.
  generalize (owner s) (worker s) (cond_ s) (quited_ s) (looping_ s) (quit_ s).
  intros po pw cn qd lg qt Hok Hr.
  destruct (thread_step Owner_moves (shape po pw cn qd lg qt)) as [s'|] eqn:E.
  - exists Owner_moves, s'. split; [done|]. split; [done|]. unfold thread_step, owner_step in E.
    destruct po; try done; destruct pw, cn; try discriminate Hok; cbn in E;
      try discriminate E; injection E as <-; cbn; lia.
  - exists (Worker_moves false).
    destruct po; try done; destruct pw, cn; try discriminate Hok; try discriminate E;
      (eexists; split; [done|split; [reflexivity|]]; cbn; lia).
Qed.

(** Before the return a step goes to the return or to a state before it. *)
Lemma handover_next c s s' :
  handover_inv s' -> no_spurious c = true -> thread_step c s = Some s' ->
  owner_rank (owner s) <> 0%nat -> owner_rank (owner s') <> 0%nat \/ owner s' = Returned true.
Proof.
  intros [_ Hok] Hc E Hr. destruct c as [|q| |]; try discriminate Hc.
  - cbn in E. unfold owner_step, Start_step, GetLoopInThread_step, lock_mutex, lock_loop_mutex in E.
    destruct (owner s) eqn:Ho; try done; repeat case_match; simplify_eq/=; auto.
    right. destruct (loop_ s); [done|]. unfold compatible in Hok.
    rewrite !andb_true_iff in Hok. by destruct Hok as [_ ?%bool_decide_eq_true].
  - left. replace (owner s') with (owner s); [done|]. cbn in E.
    unfold worker_step, ThreadFunc_step, run_step, lock_mutex, lock_loop_mutex in E.
    by destruct (worker s); repeat case_match; simplify_eq/=.
Qed.

Lemma steps_trans allowed s1 s2 s3 : steps allowed s1 s2 -> steps allowed s2 s3 -> steps allowed s1 s3.
Proof. intros H1 H2. induction H2; [done|]. by econstructor. Qed.

(** C28: No deadlock.  Without spurious wake-ups, from every state that the two
    threads can reach before [GetLoopInThread] has returned, they can go on until
    it returns a loop: neither the order of the locks nor a notification sent
    before the wait can block the owner for good. *)
Theorem GetLoopInThread_can_return s :
  steps no_spurious EventLoopThread_new s -> has_waited (owner s) = false ->
  exists s', steps no_spurious s s' /\ owner s' = Returned true.
Proof.
  intros Hreach Hw. apply handover_inv_steps in Hreach.
  assert (owner_rank (owner s) <> 0%nat \/ owner s = Returned true) as Hor
    by (left; by destruct (owner s)).
  clear Hw. remember (handover_rank s) as n eqn:En.
  revert s En Hreach Hor. induction (lt_wf n) as [n _ IH]. intros s -> Hinv [Hr|Hret].
  2:{ exists s. split; [constructor|done]. }
  destruct (handover_progress s Hinv Hr) as (c & s1 & Hc & E1 & Hlt).
  pose proof (handover_inv_step _ _ _ Hc Hinv E1) as Hinv1.
  pose proof (handover_next _ _ _ Hinv1 Hc E1 Hr) as Hor1.
  destruct (IH _ Hlt s1 eq_refl Hinv1 Hor1) as (s' & Hs' & Hret).
  exists s'. split; [|done]. eapply steps_trans; [|exact Hs'].
  eapply steps_more; [constructor|exact Hc|exact E1].
Qed.

Lemma steps_schedule allowed cs s s' :
  schedule cs s = Some s' -> forallb allowed cs = true -> steps allowed s s'.
Proof.
  revert s. induction cs as [|c cs IH]; intros s; simpl; [intros [= ->]; constructor|].
  destruct (thread_step c s) as [s1|] eqn:E; [|done].
  intros Hs [Hc Hcs]%andb_prop. eapply steps_trans; [|by eapply IH].
  eapply steps_more; [constructor|done|done].
Qed.

(** [n] steps of one thread. *)
Definition owner_moves (n : nat) : list choice := replicate n Owner_moves.
Definition worker_moves (n : nat) : list choice := replicate n (Worker_moves false).

(** The state after a schedule. *)
Definition after (cs : list choice) : thread_state :=
  default EventLoopThread_new (schedule cs EventLoopThread_new).

(** The wait has no predicate.  A spurious wake-up of [cond_.wait], which the
    standard allows, makes [GetLoopInThread] return a null pointer before the
    worker has created its loop; [EventLoopThreadPool::Initialize] puts that
    pointer into its list. *)
Theorem GetLoopInThread_may_return_null :
  exists s, steps anything EventLoopThread_new s /\ owner s = Returned false /\
    loop_alive s = false.
Proof.
  pose (cs := owner_moves 8 ++ [Owner_wakes] ++ owner_moves 4).
  exists (after cs). split; [apply (steps_schedule _ cs); vm_compute; reflexivity|split; vm_compute; reflexivity].
Qed.

(** The owner joins a worker that loops with [quit_] unset. *)
Definition joins_for_ever (s : thread_state) : Prop :=
  owner s = Dtor_join /\ quit_ s = false /\ (worker s = Loop_test \/ worker s = Loop_iterate).

Lemma joins_for_ever_step c s s' :
  no_quit c = true -> joins_for_ever s -> thread_step c s = Some s' -> joins_for_ever s'.
Proof.
  intros Hc (Ho & Hq & Hw) E. destruct c as [|[]| |]; try discriminate Hc; cbn in E.
  - unfold owner_step in E. rewrite Ho in E. simpl in E. destruct Hw as [Hw|Hw]; by rewrite Hw in E.
  - unfold worker_step in E. destruct Hw as [Hw|Hw]; rewrite Hw in E; simpl in E; simplify_eq.
    + rewrite Hq. split; simpl; auto.
    + split; simpl; auto.
Qed.

(** The destructor may hang.  [Loop] clears [quit_] when it starts, so the
    [Quit] of a destructor that runs between the hand-over and that moment is
    lost: there is an interleaving after which, unless a task calls [Quit], the
    destructor joins the worker for ever. *)
Theorem destructor_may_join_for_ever :
  exists s, steps no_quit EventLoopThread_new s /\ owner s = Dtor_join /\
    forall s', steps no_quit s s' -> owner s' = Dtor_join.
Proof.
  pose (cs := owner_moves 6 ++ worker_moves 9 ++ owner_moves 9 ++ worker_moves 2).
  exists (after cs). split; [apply (steps_schedule _ cs); vm_compute; reflexivity|]. split; [vm_compute; reflexivity|].
  intros s' Hs. cut (joins_for_ever s'); [by intros []|].
  induction Hs as [|s1 s2 c _ IH Hc Hstep]; [vm_compute; auto|].
  by eapply joins_for_ever_step.
Qed.

(** The pointer [loop_] outlives the loop: when a task has made the loop quit (as
    in event_loop_thread_test.cpp), the destructor calls [Quit] of an object that
    [run] has destroyed. *)
Theorem destructor_uses_dead_loop :
  exists s, steps no_spurious EventLoopThread_new s /\ owner s = Use_after_free.
Proof.
  pose (cs := owner_moves 6 ++ worker_moves 11 ++ [Worker_moves true] ++ worker_moves 3 ++
    owner_moves 7).
  exists (after cs). split; [apply (steps_schedule _ cs); vm_compute; reflexivity|vm_compute; reflexivity].
Qed.

(** ** Witnesses *)

(** The worker has published its loop before the owner asks. *)
Definition demo_handover : list choice := owner_moves 6 ++ worker_moves 8 ++ owner_moves 4.
Definition demo_returned : thread_state := after demo_handover.

Lemma GetLoopInThread_returns_a_loop_witness : loop_ demo_returned = true.
Proof.
  apply (GetLoopInThread_returns_a_loop demo_returned) with (loop := true); [|reflexivity].
  apply (steps_schedule _ demo_handover); vm_compute; reflexivity.
Defined.

(** The owner sleeps before the worker has begun. *)
Definition demo_asleep : thread_state := after (owner_moves 8).

Lemma GetLoopInThread_can_return_witness :
  exists s', steps no_spurious demo_asleep s' /\ owner s' = Returned true.
Proof.
  apply (GetLoopInThread_can_return demo_asleep); [|reflexivity].
  apply (steps_schedule _ (owner_moves 8)); vm_compute; reflexivity.
Defined.
