(* ===== verification/EncThread.v ===== *)
(** * EncThread: a thread that is not derived from

    Models [EncThread] (thread.h/.cpp) by itself, with its own [run], which sleeps
    until [quited_] is set, and with [Join].  The owner calls [Start], and then
    either [Join] or the destructor; Thread.v has the derived [EventLoopThread].  A
    step is one access to what the two threads share; [quited_] is a plain [bool],
    taken as if its accesses were atomic. *)

From stdpp Require Import base list.
From Stdlib Require Import Lia.
From S2P Require Import Prelude.

Module EncThread.

Inductive owner_pc :=
| Start_test | Start_lock | Start_create | Start_set | Start_notify | Start_unlock | Started
| Join_test | Join_join | Join_done
| Dtor_test | Dtor_quited | Dtor_joinable | Dtor_join | Dtor_done.

Inductive worker_pc :=
| Not_created
| Func_lock | Func_test | Func_wait | Func_relock | Func_quited | Func_return | Func_unlock
| Run_test | Run_sleep
| Finished.

Inductive actor := Owner | Worker.

#[global] Instance owner_pc_eq_dec : EqDecision owner_pc.
Proof. solve_decision. Defined.
#[global] Instance worker_pc_eq_dec : EqDecision worker_pc.
Proof. solve_decision. Defined.

(** [joined] is whether the thread has been joined: it is not [joinable()] then. *)
Record EncThread_state := mkEncThread {
  owner : owner_pc;
  worker : worker_pc;
  threadobj_ : bool;
  started_ : bool;
  quited_ : bool;
  joined : bool;
  mutex_ : option actor;
  condition_ : bool
}.

Definition EncThread_new : EncThread_state := mkEncThread Start_test Not_created false false false false None false.

Definition at_owner v s := mkEncThread v (worker s) (threadobj_ s) (started_ s) (quited_ s) (joined s) (mutex_ s) (condition_ s).
Definition at_worker v s := mkEncThread (owner s) v (threadobj_ s) (started_ s) (quited_ s) (joined s) (mutex_ s) (condition_ s).
Definition set_threadobj_ v s := mkEncThread (owner s) (worker s) v (started_ s) (quited_ s) (joined s) (mutex_ s) (condition_ s).
Definition set_started_ v s := mkEncThread (owner s) (worker s) (threadobj_ s) v (quited_ s) (joined s) (mutex_ s) (condition_ s).
Definition set_quited_ v s := mkEncThread (owner s) (worker s) (threadobj_ s) (started_ s) v (joined s) (mutex_ s) (condition_ s).
Definition set_joined v s := mkEncThread (owner s) (worker s) (threadobj_ s) (started_ s) (quited_ s) v (mutex_ s) (condition_ s).
Definition set_mutex_ v s := mkEncThread (owner s) (worker s) (threadobj_ s) (started_ s) (quited_ s) (joined s) v (condition_ s).
Definition set_condition_ v s := mkEncThread (owner s) (worker s) (threadobj_ s) (started_ s) (quited_ s) (joined s) (mutex_ s) v.

Definition lock (a : actor) (s : EncThread_state) : option EncThread_state :=
  match mutex_ s with Some _ => None | None => Some (set_mutex_ (Some a) s) end.

(** ** The owner *)

Definition EncThread_Start_step (pc : owner_pc) (s : EncThread_state) : option EncThread_state :=
  match pc with
  | Start_test => Some (at_owner (if threadobj_ s then Started else Start_lock) s)
  | Start_lock => at_owner Start_create <$> lock Owner s
  | Start_create => Some (at_owner Start_set (set_threadobj_ true (at_worker Func_lock s)))
  | Start_set => Some (at_owner Start_notify (set_started_ true s))
  | Start_notify => Some (at_owner Start_unlock (set_condition_ false s))
  | Start_unlock => Some (at_owner Started (set_mutex_ None s))
  | _ => None
  end.

(** [join()] waits for the end of the worker. *)
Definition EncThread_Join_step (pc : owner_pc) (s : EncThread_state) : option EncThread_state :=
  match pc with
  | Join_test => Some (at_owner (if joined s then Join_done else Join_join) s)
  | Join_join => if decide (worker s = Finished) then Some (at_owner Join_done (set_joined true s)) else None
  | _ => None
  end.

Definition EncThread_Dtor_step (pc : owner_pc) (s : EncThread_state) : option EncThread_state :=
  match pc with
  | Dtor_test => Some (at_owner (if threadobj_ s then Dtor_quited else Dtor_done) s)
  | Dtor_quited => Some (at_owner Dtor_joinable (set_quited_ true s))
  | Dtor_joinable => Some (at_owner (if joined s then Dtor_done else Dtor_join) s)
  | Dtor_join => if decide (worker s = Finished) then Some (at_owner Dtor_done (set_joined true s)) else None
  | _ => None
  end.

(** What a started owner calls next: [Join] or the destructor; after [Join] the
    destructor. *)
Definition EncThread_owner_step (joins : bool) (s : EncThread_state) : option EncThread_state :=
  match owner s with
  | Started => Some (at_owner (if joins then Join_test else Dtor_test) s)
  | Join_test | Join_join => EncThread_Join_step (owner s) s
  | Join_done => Some (at_owner Dtor_test s)
  | Dtor_test | Dtor_quited | Dtor_joinable | Dtor_join | Dtor_done => EncThread_Dtor_step (owner s) s
  | _ => EncThread_Start_step (owner s) s
  end.

(** ** The worker *)

Definition EncThread_ThreadFunc_step (pc : worker_pc) (s : EncThread_state) : option EncThread_state :=
  match pc with
  | Func_lock => at_worker Func_test <$> lock Worker s
  | Func_test => Some (if started_ s then at_worker Func_unlock s
                       else at_worker Func_wait (set_condition_ true (set_mutex_ None s)))
  | Func_wait => if condition_ s then None else Some (at_worker Func_relock s)
  | Func_relock => at_worker Func_quited <$> lock Worker s
  | Func_quited => Some (at_worker (if quited_ s then Func_return else Func_unlock) s)
  | Func_return => Some (at_worker Finished (set_mutex_ None s))
  | Func_unlock => Some (at_worker Run_test (set_mutex_ None s))
  | _ => None
  end.

(** [while (!quited_) sleep_for(1s)] *)
Definition EncThread_run_step (pc : worker_pc) (s : EncThread_state) : option EncThread_state :=
  match pc with
  | Run_test => Some (at_worker (if quited_ s then Finished else Run_sleep) s)
  | Run_sleep => Some (at_worker Run_test s)
  | _ => None
  end.

Definition EncThread_worker_step (s : EncThread_state) : option EncThread_state :=
  match worker s with
  | Not_created | Finished => None
  | Run_test | Run_sleep => EncThread_run_step (worker s) s
  | _ => EncThread_ThreadFunc_step (worker s) s
  end.

(** ** Interleavings *)

Inductive choice := Owner_moves (joins : bool) | Worker_moves | Worker_wakes.

Definition step (c : choice) (s : EncThread_state) : option EncThread_state :=
  match c with
  | Owner_moves joins => EncThread_owner_step joins s
  | Worker_moves => EncThread_worker_step s
  | Worker_wakes => match worker s with Func_wait => Some (set_condition_ false s) | _ => None end
  end.

Inductive steps (s : EncThread_state) : EncThread_state -> Prop :=
| steps_refl : steps s s
| steps_more s' s'' c : steps s s' -> step c s' = Some s'' -> steps s s''.

Fixpoint schedule (cs : list choice) (s : EncThread_state) : option EncThread_state :=
  match cs with
  | [] => Some s
  | c :: cs' => match step c s with Some s' => schedule cs' s' | None => None end
  end.

(** ** The invariant *)

Definition owner_locks (pc : owner_pc) : bool :=
  match pc with Start_create | Start_set | Start_notify | Start_unlock => true | _ => false end.
Definition worker_locks (pc : worker_pc) : bool :=
  match pc with Func_test | Func_quited | Func_return | Func_unlock => true | _ => false end.
Definition created (pc : owner_pc) : bool :=
  match pc with Start_test | Start_lock | Start_create => false | _ => true end.
Definition has_started (pc : owner_pc) : bool :=
  match pc with Start_test | Start_lock | Start_create | Start_set => false | _ => true end.
Definition asleep (pc : worker_pc) : bool :=
  match pc with Func_wait | Func_relock | Func_quited | Func_return => true | _ => false end.
(** The destructor has set [quited_]; the owner has not waited for the worker. *)
Definition has_quited (pc : owner_pc) : bool :=
  match pc with Dtor_joinable | Dtor_join | Dtor_done => true | _ => false end.

Definition holder (o w : bool) : option actor :=
  if o then Some Owner else if w then Some Worker else None.

Definition shape (po : owner_pc) (pw : worker_pc) (jn : bool) : EncThread_state :=
  mkEncThread po pw (created po) (has_started po) (has_quited po) jn
    (holder (owner_locks po) (worker_locks pw)) false.

Definition compatible (po : owner_pc) (pw : worker_pc) (jn : bool) : bool :=
  negb (owner_locks po && worker_locks pw) &&
  Bool.eqb (created po) (bool_decide (pw <> Not_created)) &&
  negb (asleep pw) &&
  implb jn (bool_decide (po = Dtor_done)) &&
  negb (bool_decide (po = Join_done)) &&
  implb (bool_decide (pw = Finished)) (has_quited po).

Definition thread_inv (s : EncThread_state) : Prop :=
  s = shape (owner s) (worker s) (joined s) /\ compatible (owner s) (worker s) (joined s) = true.

Lemma thread_inv_step c s s' : thread_inv s -> step c s = Some s' -> thread_inv s'.
Proof.
  intros [Hs Hok] Hstep. rewrite Hs in Hstep. clear Hs. revert Hok Hstep.
  generalize (owner s) (worker s) (joined s). intros po pw jn Hok Hstep.
  destruct c as [j| |].
  - destruct po, pw, jn; try discriminate Hok; cbn in Hstep; try destruct j;
      try discriminate Hstep; injection Hstep as <-; split; reflexivity.
  - destruct pw; try discriminate Hstep; destruct po, jn; try discriminate Hok; cbn in Hstep;
      try discriminate Hstep; injection Hstep as <-; split; reflexivity.
  - destruct pw, po, jn; try discriminate Hok; discriminate Hstep.
Qed.

Lemma thread_inv_steps s : steps EncThread_new s -> thread_inv s.
Proof. induction 1 as [|s' s'' c _ IH Hstep]; [done|]. by eapply thread_inv_step. Qed.

(** ** Theorems *)

(** C31: The destructor of a thread ends.  Whatever the two threads have done before,
    once the destructor has set [quited_] and joins, the worker finishes after at
    most four steps of its own (it need not have begun [run] yet), and the
    destructor returns. *)
Theorem EncThread_destructor_ends s :
  steps EncThread_new s -> owner s = Dtor_join ->
  exists n s', (n <= 4)%nat /\ schedule (replicate n Worker_moves ++ [Owner_moves false]) s = Some s' /\
    owner s' = Dtor_done /\ worker s' = Finished.
Proof.
  intros [Hs Hok]%thread_inv_steps Ho. rewrite Ho in Hs, Hok. rewrite Hs. clear Hs Ho. revert Hok.
  generalize (worker s) (joined s). intros pw jn Hok. destruct jn; [by destruct pw|].
  destruct pw; try discriminate Hok;
    first [exists 0%nat; eexists; split; [lia|split; [reflexivity|done]]
          |exists 1%nat; eexists; split; [lia|split; [reflexivity|done]]
          |exists 2%nat; eexists; split; [lia|split; [reflexivity|done]]
          |exists 3%nat; eexists; split; [lia|split; [reflexivity|done]]
          |exists 4%nat; eexists; split; [lia|split; [reflexivity|done]]].
Qed.

(** [Join] never returns.  Only the destructor sets [quited_], and [run] goes on
    until it is set: an owner that waits in [Join] waits for ever, whatever steps
    are taken. *)
Theorem EncThread_Join_never_returns s s' :
  steps EncThread_new s -> owner s = Join_join -> steps s s' -> owner s' = Join_join.
Proof.
  intros Hinv%thread_inv_steps Ho Hst.
  assert (thread_inv s' /\ owner s' = Join_join) as [_ ?]; [|done].
  induction Hst as [|s1 s2 c _ [IHinv IHo] Hstep]; [done|]. split; [by eapply thread_inv_step|].
  destruct IHinv as [_ Hok]. rewrite IHo in Hok. destruct c as [j| |].
  - cbn in Hstep. unfold EncThread_owner_step in Hstep. rewrite IHo in Hstep. cbn in Hstep.
    destruct (worker s1), (joined s1); try discriminate Hok; discriminate Hstep.
  - cbn in Hstep. unfold EncThread_worker_step, EncThread_run_step, EncThread_ThreadFunc_step, lock in Hstep.
    by repeat case_match; simplify_eq/=.
  - cbn in Hstep. by repeat case_match; simplify_eq/=.
Qed.

(** ** Witnesses *)

Lemma schedule_steps cs s s' : schedule cs s = Some s' -> steps s s'.
Proof.
  assert (forall s0 s, steps s0 s -> schedule cs s = Some s' -> steps s0 s') as Hgen.
  { induction cs as [|c cs IH]; intros s0 s1 H0; simpl; [by intros [= ->]|].
    destruct (step c s1) as [s2|] eqn:E; [|done]. apply IH. by eapply steps_more. }
  apply Hgen. constructor.
Qed.

(** The owner has started the thread, which has not run yet, and destroys it, or
    joins it. *)
Definition demo_dying : list choice := replicate 10 (Owner_moves false).
Definition demo_joining : list choice := replicate 8 (Owner_moves true).
Definition after (cs : list choice) : EncThread_state := default EncThread_new (schedule cs EncThread_new).

Lemma EncThread_destructor_ends_witness :
  exists n s', (n <= 4)%nat /\ schedule (replicate n Worker_moves ++ [Owner_moves false]) (after demo_dying) = Some s' /\
    owner s' = Dtor_done /\ worker s' = Finished.
Proof.
  apply (EncThread_destructor_ends (after demo_dying)); [|reflexivity].
  apply (schedule_steps demo_dying). vm_compute. reflexivity.
Defined.

Lemma EncThread_Join_never_returns_witness :
  owner (after (demo_joining ++ replicate 9 Worker_moves)) = Join_join.
Proof.
  apply (EncThread_Join_never_returns (after demo_joining)).
  - apply (schedule_steps demo_joining). vm_compute. reflexivity.
  - reflexivity.
  - apply (schedule_steps (replicate 9 Worker_moves)). vm_compute. reflexivity.
Defined.
End EncThread.
