(* ===== verification/ThreadPool.v ===== *)
(** * ThreadPool: EventLoopThreadPool

    Models [EventLoopThreadPool] (event_loop_thread_pool.h/.cpp).  The pool is
    owned by one server and is a value of the model; its operations return the
    pool they leave. *)

From stdpp Require Import base list gmap strings numbers pretty.
From Stdlib Require Import ZArith Lia Init.Byte.
From S2P Require Import Prelude Buffer Kernel RefKernel State World Demo Poller EventLoop.

Open Scope np_scope.

(** ** Choosing a loop *)

Definition EventLoopThreadPool_new (name : string) (num : Z) (loop : ptr) (owner : tid)
    : EventLoopThreadPool :=
  mkEventLoopThreadPool name num loop owner 0 [] [].

(** [loop_list_[i]] of a [std::vector]: undefined out of range. *)
Definition loop_at (p : EventLoopThreadPool) (i : Z) : res (option ptr) :=
  match tp_loop_list_ p !! Z.to_nat i with
  | Some l => if 0 <=? i then Ok l else Err UndefinedBehaviour
  | None => Err UndefinedBehaviour
  end.

(** [static_cast<int>(loop_list_.size())] is compared with a [uint32_t]: both are
    unsigned in the comparison. *)
Definition GetEventLoopFromPool (p : EventLoopThreadPool)
    : res (option ptr * EventLoopThreadPool) :=
  if bool_decide (tp_loop_list_ p = []) then Ok (Some (tp_main_loop_ p), p)
  else
    letr! loop := loop_at p (tp_next_index_ p) in
    let next := u32 (tp_next_index_ p + 1) in
    Ok (loop, tp_set_next_index_ (if u32 (Z.of_nat (length (tp_loop_list_ p))) <=? next then 0 else next) p).

Definition GetEventLoopFromPoolForHash (hash_code : Z) (p : EventLoopThreadPool)
    : res (option ptr) :=
  if bool_decide (tp_loop_list_ p = []) then Ok (Some (tp_main_loop_ p))
  else loop_at p (u32 (hash_code mod Z.of_nat (length (tp_loop_list_ p)))).

(** ** Filling the pool *)

Section operations.
Context `{Kernel}.

(** What the environment decides when a thread is started: the thread's identity,
    the indeterminate member of its loop, and whether [GetLoopInThread] is woken
    up too early (Thread.v). *)
Record thread_choice := mkThreadChoice {
  tc_tid : tid;
  tc_active : option ptr;
  tc_spurious : bool
}.

(** [Start] and [GetLoopInThread] of an [EventLoopThread]: until the loop is handed
    over the new thread does nothing but construct it (Thread.v). *)
Definition start_loop_thread (tc : thread_choice) (name : string) : M (option ptr) :=
  let! me := this_thread in
  do! modify (set_w_tid (tc_tid tc));
  let! l := EventLoop_new name (tc_active tc) in
  do! modify (set_w_tid me);
  ret (if tc_spurious tc then None else Some l).

Fixpoint nul_padding (n : nat) : string :=
  match n with O => "" | S n' => String Ascii.zero (nul_padding n') end.

(** [char name[64]{0}], [snprintf] into it, and [std::string(name, sizeof(name))]. *)
Definition loop_thread_name (pool_name : string) (i : Z) : string :=
  let s := String.substring 0 63 (pool_name +:+ "_loop_thread_" +:+ pretty i) in
  s +:+ nul_padding (64 - String.length s).

(** [left] iterations are to come, the next one is number [i]. *)
Fixpoint Initialize_loop (choices : nat -> thread_choice) (left i : nat) (p : EventLoopThreadPool)
    : M EventLoopThreadPool :=
  match left with
  | O => ret p
  | S left' =>
      let! loop := start_loop_thread (choices i) (loop_thread_name (tp_pool_name_ p) (Z.of_nat i)) in
      Initialize_loop choices left' (S i) (tp_push (tc_tid (choices i)) loop p)
  end.

Definition Initialize (choices : nat -> thread_choice) (p : EventLoopThreadPool)
    : M EventLoopThreadPool :=
  Initialize_loop choices (Z.to_nat (tp_thread_num_ p)) 0 p.
End operations.

(** ** Choosing: theorems *)

(** The index is in range and the size fits an [int]. *)
Record pool_ok (p : EventLoopThreadPool) : Prop := {
  pk_index : 0 <= tp_next_index_ p;
  pk_range : tp_loop_list_ p <> [] -> tp_next_index_ p < Z.of_nat (length (tp_loop_list_ p));
  pk_size : Z.of_nat (length (tp_loop_list_ p)) < 2 ^ 31
}.

Lemma loop_at_ok p i : 
  0 <= i < Z.of_nat (length (tp_loop_list_ p)) ->
  exists loop, loop_at p i = Ok loop /\ tp_loop_list_ p !! Z.to_nat i = Some loop.
Proof.
  intros Hi. unfold loop_at.
  destruct (lookup_lt_is_Some_2 (tp_loop_list_ p) (Z.to_nat i)) as [loop E]; [lia|].
  exists loop. rewrite E. split; [|done]. by rewrite (proj2 (Z.leb_le 0 i)) by lia.
Qed.

(** [k] calls in a row. *)
Fixpoint calls (k : nat) (p : EventLoopThreadPool) : res (list (option ptr) * EventLoopThreadPool) :=
  match k with
  | O => Ok ([], p)
  | S k' =>
      letr! r := GetEventLoopFromPool p in
      letr! rs := calls k' r.2 in
      Ok (r.1 :: rs.1, rs.2)
  end.

Lemma GetEventLoopFromPool_next p :
  pool_ok p -> tp_loop_list_ p <> [] ->
  let n := Z.of_nat (length (tp_loop_list_ p)) in
  let p' := tp_set_next_index_ ((tp_next_index_ p + 1) mod n) p in
  exists loop, tp_loop_list_ p !! Z.to_nat (tp_next_index_ p) = Some loop /\
    GetEventLoopFromPool p = Ok (loop, p') /\ pool_ok p'.
Proof.
  intros [Hi Hr Hs] Hne n p'. specialize (Hr Hne). fold n in Hr.
  destruct (loop_at_ok p (tp_next_index_ p)) as (loop & E & El); [lia|].
  exists loop. split; [done|]. unfold GetEventLoopFromPool.
  rewrite bool_decide_eq_false_2 by done. rewrite E. cbn [res_bind]. fold n.
  rewrite !u32_small by lia. split.
  - unfold p'. do 3 f_equal. case_match.
    + replace (tp_next_index_ p + 1) with n by lia. by rewrite Z.mod_same by lia.
    + by rewrite Z.mod_small by lia.
  - split; simpl; [|intros _|done]; fold n; pose proof (Z.mod_pos_bound (tp_next_index_ p + 1) n); lia.
Qed.

Lemma calls_no_loops k p :
  tp_loop_list_ p = [] -> calls k p = Ok (replicate k (Some (tp_main_loop_ p)), p).
Proof.
  intros Hnil. induction k as [|k IH]; [done|]. simpl. unfold GetEventLoopFromPool.
  rewrite bool_decide_eq_true_2 by done. simpl. by rewrite IH.
Qed.

Lemma calls_loops k p :
  pool_ok p -> tp_loop_list_ p <> [] ->
  exists ls p', calls k p = Ok (ls, p') /\ pool_ok p' /\ tp_loop_list_ p' = tp_loop_list_ p /\
    length ls = k /\
    forall i, (i < k)%nat -> ls !! i =
      tp_loop_list_ p !! Z.to_nat ((tp_next_index_ p + Z.of_nat i) mod Z.of_nat (length (tp_loop_list_ p))).
Proof.
  revert p. induction k as [|k IH]; intros p Hok Hne.
  { exists [], p. split_and!; [done..|]. lia. }
  destruct (GetEventLoopFromPool_next p Hok Hne) as (loop & El & E & Hok').
  set (n := Z.of_nat (length (tp_loop_list_ p))) in *.
  destruct (IH _ Hok' Hne) as (ls & p' & Es & Hok2 & Hl & Hlen & Hi). simpl in Hl, Hi. fold n in Hi.
  exists (loop :: ls), p'. simpl. rewrite E. cbn [res_bind fst snd]. rewrite Es. simpl.
  assert (0 < n) by (unfold n; destruct (tp_loop_list_ p); simpl; [done|lia]).
  split_and!; [done..|by f_equal|]. intros [|i] Hlt.
  - rewrite Z.add_0_r, Z.mod_small; [by rewrite El|]. destruct Hok as [? Hr _]. specialize (Hr Hne). lia.
  - simpl. rewrite Hi by lia. rewrite Zplus_mod_idemp_l. do 3 f_equal. lia.
Qed.

(** A list read off from position [start] on, modulo the length, is a rotation. *)
Lemma rotation_of {A} (l ls : list A) (start : Z) :
  0 <= start -> length ls = length l ->
  (forall i, (i < length l)%nat ->
    ls !! i = l !! Z.to_nat ((start + Z.of_nat i) mod Z.of_nat (length l))) ->
  ls = rotate (Z.to_nat start) l.
Proof.
  intros Hs Hlen Hi. apply list_eq. intros i.
  destruct (decide (i < length l)%nat) as [Hlt|Hge].
  - rewrite Hi, lookup_rotate_r by done. unfold rotate_nat_add. by rewrite Z2Nat.id.
  - rewrite !lookup_ge_None_2; [done|rewrite length_rotate|]; lia.
Qed.

Lemma rotate_permutation {A} n (l : list A) : rotate n l ≡ₚ l.
Proof.
  unfold rotate. rewrite Permutation_app_comm. by rewrite take_drop.
Qed.

(** C20: Round robin.  In a pool that holds loops, [k] calls of
    [GetEventLoopFromPool] return the loops at the positions [next_index_],
    [next_index_ + 1], ... taken modulo the number of loops, never read out of
    range, and leave the pool well formed; as many calls as there are loops return
    each loop of the list once.  A pool without threads always returns the main
    loop. *)
Theorem GetEventLoopFromPool_round_robin k p :
  pool_ok p ->
  exists ls p', calls k p = Ok (ls, p') /\ pool_ok p' /\ tp_loop_list_ p' = tp_loop_list_ p /\
    (tp_loop_list_ p = [] -> ls = replicate k (Some (tp_main_loop_ p))) /\
    (tp_loop_list_ p <> [] ->
      length ls = k /\
      (forall i, (i < k)%nat -> ls !! i =
        tp_loop_list_ p !! Z.to_nat ((tp_next_index_ p + Z.of_nat i) mod Z.of_nat (length (tp_loop_list_ p)))) /\
      (k = length (tp_loop_list_ p) -> ls ≡ₚ tp_loop_list_ p)).
Proof.
  intros Hok. destruct (decide (tp_loop_list_ p = [])) as [Hnil|Hne].
  - exists (replicate k (Some (tp_main_loop_ p))), p. rewrite calls_no_loops by done.
    by split_and!; [..|intros []].
  - destruct (calls_loops k p Hok Hne) as (ls & p' & E & Hok' & Hl & Hlen & Hi).
    exists ls, p'. split_and!; [done..|intros _]. split_and!; [done..|].
    intros Hk. rewrite (rotation_of (tp_loop_list_ p) ls (tp_next_index_ p)); [apply rotate_permutation|..].
    + apply Hok.
    + congruence.
    + intros i Hlt. apply Hi. lia.
Qed.

(** The same hash code, the descriptor of a connection, always gives the same loop
    of the pool. *)
Lemma GetEventLoopFromPoolForHash_ok hash p :
  pool_ok p -> 0 <= hash -> tp_loop_list_ p <> [] ->
  exists loop, GetEventLoopFromPoolForHash hash p = Ok loop /\
    tp_loop_list_ p !! Z.to_nat (hash mod Z.of_nat (length (tp_loop_list_ p))) = Some loop.
Proof.
  intros [_ _ Hs] Hh Hne. unfold GetEventLoopFromPoolForHash. rewrite bool_decide_eq_false_2 by done.
  set (n := Z.of_nat (length (tp_loop_list_ p))) in *.
  assert (0 < n) by (unfold n; destruct (tp_loop_list_ p); simpl; [done|lia]).
  pose proof (Z.mod_pos_bound hash n). rewrite u32_small by lia.
  destruct (loop_at_ok p (hash mod n)) as (loop & E & El); [fold n; lia|]. eauto.
Qed.

(** ** Filling the pool: theorems *)

Section filling.
Context `{EpollReliable} `{!EpollFrame}.
Implicit Types (w : World) (l : ptr) (lp : EventLoop) (p : EventLoopThreadPool).

(** The kernel has descriptors left. *)
Definition grants_descriptors : Prop :=
  (forall k, exists ep k1, sys_epoll_create1 EPOLL_CLOEXEC k = (SOk ep, k1)) /\
  (forall k, exists fd k1, sys_eventfd 0 EFD_NONBLOCK_CLOEXEC k = (SOk fd, k1)).

Definition loop_of_thread w (t : tid) (name : string) l : Prop :=
  exists lp, w_loops w !! l = Some lp /\ lo_thread_id_ lp = t /\ lo_name_ lp = name /\
    lo_queue_task_funcs_ lp = [] /\ lo_quit_ lp = false.

Lemma run_start_loop_thread w tc name :
  grants_descriptors -> fresh_addresses w -> w_evt_loop_this_thread w !! tc_tid tc = None ->
  exists w' lp, start_loop_thread tc name w =
      Ok (if tc_spurious tc then None else Some (w_next w), w') /\
    w_tid w' = w_tid w /\ fresh_addresses w' /\ (w_next w < w_next w')%positive /\
    w_loops w' = <[w_next w := lp]> (w_loops w) /\
    loop_of_thread w' (tc_tid tc) name (w_next w) /\
    w_evt_loop_this_thread w' = <[tc_tid tc := w_next w]> (w_evt_loop_this_thread w) /\
    w_servers w' = w_servers w.
Proof.
  intros [Hep Hev] Hf Hth. pose (w1 := set_w_tid (tc_tid tc) w).
  destruct (Hep (w_kern w1)) as (ep & k1 & E1). destruct (Hev k1) as (wfd & k2 & E2).
  destruct (EventLoop_new_ok w1 name (tc_active tc) ep k1 wfd k2 Hf E1 E2 Hth)
    as (w2 & lp & E & [Hinv Ht] & Hw & Hq & _ & [Hn Hquit] & _ & _ & Hf2).
  rewrite Hw in Ht. simpl in Ht. exists (set_w_tid (w_tid w) w2), lp. split_and!.
  - unfold start_loop_thread, this_thread. do 2 (erewrite run_bind by reflexivity).
    fold w1. erewrite run_bind by exact E. by erewrite run_bind by reflexivity.
  - done.
  - exact Hf2.
  - rewrite Hw. simpl. lia.
  - rewrite Hw. done.
  - exists lp. rewrite Hw. simpl. rewrite lookup_insert_eq. by split_and!.
  - rewrite Hw. done.
  - rewrite Hw. done.
Qed.

(** Between the iterations [i] and [i + left]. *)
Lemma Initialize_loop_ok choices :
  grants_descriptors -> (forall i, tc_spurious (choices i) = false) ->
  (forall i j, tc_tid (choices i) = tc_tid (choices j) -> i = j) ->
  forall left i w p, fresh_addresses w ->
  (forall j, (i <= j)%nat -> w_evt_loop_this_thread w !! tc_tid (choices j) = None) ->
  exists w' p' loops, Initialize_loop choices left i p w = Ok (p', w') /\
    tp_loop_list_ p' = tp_loop_list_ p ++ map Some loops /\
    length loops = left /\ NoDup loops /\ w_tid w' = w_tid w /\ w_servers w' = w_servers w /\
    (forall l, l ∈ loops -> (w_next w <= l)%positive) /\
    (forall j l, loops !! j = Some l -> loop_of_thread w' (tc_tid (choices (i + j)%nat))
      (loop_thread_name (tp_pool_name_ p) (Z.of_nat (i + j))) l) /\
    (forall l, (l < w_next w)%positive -> w_loops w' !! l = w_loops w !! l).
Proof.
  intros Hg Hsp Hinj left. induction left as [|left IH]; intros i w p Hf Hth.
  { exists w, p, []. simpl. rewrite app_nil_r. split_and!; [done..|constructor|done|done|set_solver|done|done]. }
  destruct (run_start_loop_thread w (choices i) (loop_thread_name (tp_pool_name_ p) (Z.of_nat i)))
    as (w1 & lp & E1 & Ht1 & Hf1 & Hn1 & Hl1 & Hlt1 & He1 & Hs1); [done|done|by apply Hth|].
  rewrite Hsp in E1.
  destruct (IH (S i) w1 (tp_push (tc_tid (choices i)) (Some (w_next w)) p) Hf1)
    as (w' & p' & loops & E & Hl & Hlen & Hnd & Ht & Hs & Hge & Hi & Ho).
  { intros j Hj. rewrite He1, lookup_insert_ne; [apply Hth; lia|]. intros Heq%Hinj. lia. }
  exists w', p', (w_next w :: loops). split_and!.
  - simpl. by erewrite run_bind by exact E1.
  - rewrite Hl. simpl. by rewrite <-app_assoc.
  - simpl. by rewrite Hlen.
  - constructor; [|done]. intros Hin%Hge. lia.
  - by rewrite Ht.
  - by rewrite Hs.
  - intros l [->|Hin%Hge]%elem_of_cons; lia.
  - intros [|j] l; simpl.
    + intros [= <-]. rewrite Nat.add_0_r. destruct Hlt1 as (lp1 & Hlp1 & ?).
      exists lp1. by rewrite Ho.
    + intros Hj. rewrite Nat.add_succ_r. by apply (Hi j l).
  - intros l Hlt. rewrite Ho by lia. rewrite Hl1, lookup_insert_ne by lia. done.
Qed.

(** Filling a pool.  While the kernel has descriptors left, and when the new
    threads are distinct, have no loop yet and are waited for properly,
    [Initialize] returns a pool of [thread_num_] distinct loops in the order of
    their threads: the loop number [i] is alive, belongs to the thread number [i],
    carries the name made from the pool's and has no task queued.  The thread that
    filled the pool runs on, and no other loop is touched. *)
Theorem Initialize_fills_pool choices w p :
  grants_descriptors -> fresh_addresses w ->
  (forall l, is_Some (w_loops w !! l) -> (l < w_next w)%positive) ->
  (forall i, tc_spurious (choices i) = false) ->
  (forall i j, tc_tid (choices i) = tc_tid (choices j) -> i = j) ->
  (forall i, w_evt_loop_this_thread w !! tc_tid (choices i) = None) ->
  let n := Z.to_nat (tp_thread_num_ p) in
  exists w' p' loops, Initialize choices p w = Ok (p', w') /\
    tp_loop_list_ p' = tp_loop_list_ p ++ map Some loops /\
    length loops = n /\ NoDup loops /\ w_tid w' = w_tid w /\
    (forall i l, loops !! i = Some l -> loop_of_thread w' (tc_tid (choices i))
      (loop_thread_name (tp_pool_name_ p) (Z.of_nat i)) l) /\
    (forall l, is_Some (w_loops w !! l) -> w_loops w' !! l = w_loops w !! l).
Proof.
  intros Hg Hf Hlive Hsp Hinj Hth n.
  destruct (Initialize_loop_ok choices Hg Hsp Hinj n 0 w p Hf) as
    (w' & p' & loops & E & Hl & Hlen & Hnd & Ht & _ & _ & Hi & Ho); [auto|].
  exists w', p', loops. split_and!; [done..|]. intros l Hls. apply Ho, Hlive, Hls.
Qed.
End filling.

(** ** Witnesses *)

Definition demo_pool (n next : Z) (loops : list (option ptr)) : EventLoopThreadPool :=
  mkEventLoopThreadPool "tcpserver" n 1 1 next [] loops.

Lemma GetEventLoopFromPool_round_robin_witness :
  let p := demo_pool 3 1 [Some 11%positive; Some 12%positive; Some 13%positive] in
  exists p', calls 4 p = Ok ([Some 12; Some 13; Some 11; Some 12]%positive, p').
Proof.
  intros p. destruct (GetEventLoopFromPool_round_robin 4 p) as (ls & p' & E & _ & _ & _ & Hls).
  - split; simpl; lia.
  - exists p'. rewrite E. do 2 f_equal. destruct Hls as (Hlen & Hi & _); [done|].
    apply list_eq. intros i. destruct (decide (i < 4)%nat) as [Hlt|Hge].
    + rewrite Hi by done. by do 4 (destruct i as [|i]; [done|]); lia.
    + rewrite !lookup_ge_None_2; [done|simpl; lia|lia].
Defined.

Definition demo_choices (i : nat) : thread_choice := mkThreadChoice (Pos.of_succ_nat (9 + i)) None false.

Lemma RefKernel_grants : grants_descriptors (H := RefKernel).
Proof. split; intros k; eexists _, _; reflexivity. Qed.

Lemma Initialize_fills_pool_witness :
  let w := demo_world (demo_kernel ∅ ∅ []) ∅ ∅ ∅ in
  exists w' p' loops, Initialize demo_choices (demo_pool 2 0 []) w = Ok (p', w') /\
    tp_loop_list_ p' = map Some loops /\ length loops = 2%nat /\
    forall l, loops !! 1%nat = Some l -> exists lp, w_loops w' !! l = Some lp /\ lo_thread_id_ lp = 11%positive.
Proof.
  intros w. destruct (Initialize_fills_pool demo_choices w (demo_pool 2 0 []))
    as (w' & p' & loops & E & Hl & Hlen & _ & _ & Hi & _).
  - apply RefKernel_grants.
  - intros c ch. simpl. by rewrite lookup_empty.
  - intros l. simpl. rewrite lookup_empty. by intros [].
  - done.
  - intros i j. simpl. lia.
  - intros i. simpl. by rewrite lookup_empty.
  - exists w', p', loops. split; [exact E|]. split; [exact Hl|]. split; [exact Hlen|].
    intros l Hl1. destruct (Hi _ _ Hl1) as (lp & Hlp & Ht & _).
    exists lp. split; [exact Hlp|exact Ht].
Defined.
