(* ===== verification/Server.v ===== *)
(** * Server: TcpServer

    Models [TcpServer] (tcp_server.h/.cpp).  Every place where the server lets go
    of a [std::shared_ptr<TcpConnection>] other than the one it is working on
    calls the parameter [release_conn], which Reactor.v defines from the owners
    that are left. *)

From stdpp Require Import base list gmap strings numbers.
From Stdlib Require Import ZArith Lia Init.Byte.
From S2P Require Import Prelude Buffer Kernel RefKernel State World Demo Poller EventLoop Socket.
From S2P Require Import Connection Acceptor ThreadPool.

Open Scope np_scope.

Inductive Option := kNoReusePort | kReusePort.

#[global] Instance Option_eq_dec : EqDecision Option.
Proof. solve_decision. Defined.

Section operations.
Context `{Kernel} `{!Inet}.
Variable release_conn : ptr -> M unit.

Definition TcpServer_new (loop : ptr) (addr : sockaddr) (option : Option) : M ptr :=
  let! s := gets w_next in
  do! modify (set_w_next (Pos.succ s));
  let! a := TcpAcceptor_new loop addr (bool_decide (kReusePort = option)) in
  do! store s (mkTcpServer 0 false loop None a ∅ None None None None None None);
  do! Acceptor_SetNewConnectionCB a s;
  do! update s (sv_set_close_conn_cb_ (Some (ServerRemoveConnection_cb s)));
  ret s.

(** [hardware_concurrency] is what std::thread::hardware_concurrency() returns. *)
Definition SetThreadNum (s : ptr) (thread_num hardware_concurrency : Z) : M unit :=
  update s (sv_set_thread_num_
    (if hardware_concurrency <? thread_num then u16 hardware_concurrency else thread_num)).

Definition Server_SetMessageCB (s : ptr) cb : M unit := update s (sv_set_msg_cb_ cb).
Definition Server_SetWriteCompleteCB (s : ptr) cb : M unit := update s (sv_set_wrote_cb_ cb).
Definition Server_SetConnectionCB (s : ptr) cb : M unit := update s (sv_set_connection_cb_ cb).
Definition Server_SetConnStatusCB (s : ptr) cb : M unit := update s (sv_set_conn_status_cb_ cb).

(** [compare_exchange_weak] may fail spuriously; [choices] is for the threads of
    the pool (ThreadPool.v). *)
Definition Server_Start (s : ptr) (spurious : bool) (choices : nat -> thread_choice) : M unit :=
  let! sv := load (T := TcpServer) s in
  when (negb (sv_started_ sv) && negb spurious)
    (do! update s (sv_set_started_ true);
     let! me := this_thread in
     let pool := EventLoopThreadPool_new "tcpserver" (sv_thread_num_ sv) (sv_server_loop_ sv) me in
     do! update s (sv_set_thread_pool_ (Some pool));
     let! pool := Initialize choices pool in
     do! update s (sv_set_thread_pool_ (Some pool));
     QueueInLoop (sv_server_loop_ sv) (Listen_task (sv_acceptor_ sv))).

(** [assert(server_loop_->IsInLoopThread())] *)
Definition server_in_loop (s : ptr) : M unit :=
  let! sv := load (T := TcpServer) s in
  let! b := IsInLoopThread (sv_server_loop_ sv) in
  assert_ b.

(** [connections_[fd] = conn] *)
Definition put_connection (s : ptr) (fd : Z) (conn : ptr) : M unit :=
  let! sv := load (T := TcpServer) s in
  do! store s (sv_set_connections_ (<[fd := conn]> (sv_connections_ sv)) sv);
  match sv_connections_ sv !! fd with
  | Some old => release_conn old
  | None => ret tt
  end.

(** [connections_.erase(fd)], while the caller holds [conn]. *)
Definition erase_connection (s : ptr) (fd : Z) (conn : ptr) : M unit :=
  let! sv := load (T := TcpServer) s in
  do! store s (sv_set_connections_ (delete fd (sv_connections_ sv)) sv);
  match sv_connections_ sv !! fd with
  | Some old => if decide (old = conn) then ret tt else release_conn old
  | None => ret tt
  end.

(** [SetWriteCompleteCB] is called three times, the last time with
    [high_water_cb_]. *)
Definition NewConnected (s : ptr) (fd : Z) (local_addr peer_addr : sockaddr) : M unit :=
  do! server_in_loop s;
  let! sv := load (T := TcpServer) s in
  let! pool := deref (sv_thread_pool_ sv) in
  let! work_pool := lift (GetEventLoopFromPoolForHash (u32 fd) pool) in
  let! work_pool := deref work_pool in
  let! conn_new := TcpConnection_new fd work_pool local_addr peer_addr in
  do! put_connection s fd conn_new;
  do! SetCloseCB conn_new (sv_close_conn_cb_ sv);
  do! SetWriteCompleteCB conn_new (sv_wrote_cb_ sv);
  do! SetConnStatusCB conn_new (sv_conn_status_cb_ sv);
  do! SetMessagCB conn_new (sv_msg_cb_ sv);
  do! SetWriteCompleteCB conn_new (sv_wrote_cb_ sv);
  do! SetWriteCompleteCB conn_new (sv_high_water_cb_ sv);
  QueueInLoop work_pool (ConnectEstablished_task conn_new).

Definition RemoveConnectionInLoop (s conn : ptr) : M unit :=
  do! server_in_loop s;
  let! co := load (T := TcpConnection) conn in
  do! erase_connection s (co_fd_ co) conn;
  QueueInLoop (co_loop_ co) (ConnectDestoryed_task conn).

Definition Server_RemoveConnection (s conn : ptr) : M unit :=
  let! sv := load (T := TcpServer) s in
  let! b := IsInLoopThread (sv_server_loop_ sv) in
  if b then RemoveConnectionInLoop s conn
  else QueueInLoop (sv_server_loop_ sv) (RemoveConnectionInLoop_task s conn).

Definition ClosedConnection (s conn : ptr) : M unit :=
  let! sv := load (T := TcpServer) s in
  let! b := IsInLoopThread (sv_server_loop_ sv) in
  if b then RemoveConnectionInLoop s conn
  else QueueInLoop (sv_server_loop_ sv) (RemoveConnectionInLoop_task s conn).
End operations.

(** The destructor of the members, in the reverse order of their declaration; the
    body of [~TcpServer] is empty.  [join_pool] is the destructor of the pool, which
    joins its threads (Thread.v). *)
Section destruction.
Context `{Kernel}.
Variable release_conn : ptr -> M unit.
Variable join_pool : EventLoopThreadPool -> M unit.

Definition TcpServer_destroy (s : ptr) : M unit :=
  let! sv := load (T := TcpServer) s in
  do! store s (sv_set_connections_ ∅ sv);
  do! forM (map_to_list (sv_connections_ sv)) (fun e => release_conn e.2);
  do! TcpAcceptor_destroy (sv_acceptor_ sv);
  do! match sv_thread_pool_ sv with Some pool => join_pool pool | None => ret tt end;
  free (T := TcpServer) s.
End destruction.

(** ** The registry of connections *)

Section registry.
Context `{Kernel} `{!Inet}.
Variable release_conn : ptr -> M unit.
Implicit Types (w : World) (s conn : ptr) (sv : TcpServer) (co : TcpConnection) (lp : EventLoop).

(** The server and its loop are alive; every connection of the registry is alive,
    under its own descriptor, and so is its loop; addresses are handed out once. *)
Record server_inv w s sv : Prop := {
  si_server : w_servers w !! s = Some sv;
  si_loop : is_Some (w_loops w !! sv_server_loop_ sv);
  si_close : sv_close_conn_cb_ sv = Some (ServerRemoveConnection_cb s);
  si_registry fd conn : sv_connections_ sv !! fd = Some conn ->
    exists co, w_conns w !! conn = Some co /\ co_fd_ co = fd /\ is_Some (w_loops w !! co_loop_ co);
  si_fresh conn : is_Some (w_conns w !! conn) -> (conn < w_next w)%positive
}.

Definition on_thread w l : Prop := exists lp, w_loops w !! l = Some lp /\ w_tid w = lo_thread_id_ lp.

(** The loop a connection is given, by its descriptor. *)
Definition serves sv fd l : Prop :=
  exists pool, sv_thread_pool_ sv = Some pool /\
    GetEventLoopFromPoolForHash (u32 fd) pool = Ok (Some l).

Definition enqueue (t : task) lp : EventLoop :=
  lo_set_queue_task_funcs_ (lo_queue_task_funcs_ lp ++ [t]) lp.

Lemma run_server_in_loop {A} w s sv (k : unit -> M A) :
  w_servers w !! s = Some sv -> on_thread w (sv_server_loop_ sv) ->
  bind (server_in_loop s) k w = k tt w.
Proof.
  intros Hs (lp & Hl & Ht). unfold server_in_loop. rewrite run_bind_assoc. run1.
  rewrite run_bind_assoc. erewrite run_bind by by apply run_IsInLoopThread.
  rewrite bool_decide_eq_true_2 by done. by run1.
Qed.

(** The connection that [NewConnected] makes. *)
Definition served_conn sv fd l local peer channel : TcpConnection :=
  co_set_written_cb_ (sv_high_water_cb_ sv) (co_set_msg_cb_ (sv_msg_cb_ sv)
    (co_set_conn_status_cb_ (sv_conn_status_cb_ sv) (co_set_close_cb_ (sv_close_conn_cb_ sv)
      (new_conn_object fd l local peer channel)))).

Definition accepted_world w s sv fd l lp local peer : World :=
  let conn := w_next w in
  let w1 := new_conn_world fd l local peer w in
  set_w_loops (<[l := enqueue (ConnectEstablished_task conn) lp]> (w_loops w))
  (set_w_servers (<[s := sv_set_connections_ (<[fd := conn]> (sv_connections_ sv)) sv]> (w_servers w))
  (set_w_conns (<[conn := served_conn sv fd l local peer (Pos.succ conn)]> (w_conns w)) w1)).

Lemma run_NewConnected w s sv fd l lp local peer :
  w_servers w !! s = Some sv -> on_thread w (sv_server_loop_ sv) -> serves sv fd l ->
  w_loops w !! l = Some lp -> sv_connections_ sv !! fd = None ->
  NewConnected release_conn s fd local peer w = Ok (tt, accepted_world w s sv fd l lp local peer).
Proof.
  intros Hs Ht (pool & Hp & Hh) Hl Hfd. unfold NewConnected.
  erewrite run_server_in_loop by done. run1. rewrite Hp. erewrite run_bind by reflexivity.
  rewrite Hh. do 2 (erewrite run_bind by reflexivity).
  erewrite run_bind by apply run_TcpConnection_new.
  set (w1 := new_conn_world fd l local peer w).
  assert (w_servers w1 = w_servers w) as Hs1 by (unfold w1, new_conn_world; simpl; by autorewrite with world).
  unfold put_connection. rewrite run_bind_assoc. erewrite run_bind by (apply (run_load s sv); change (w_servers w1 !! s = Some sv); by rewrite Hs1).
  rewrite run_bind_assoc. erewrite run_bind by reflexivity. rewrite Hfd. run1.
  unfold SetCloseCB, SetWriteCompleteCB, SetConnStatusCB, SetMessagCB.
  set (sv' := sv_set_connections_ _ sv). pose (w2 := set_w_servers (<[s := sv']> (w_servers w)) w1).
  change (heap_put _ w1) with (set_w_servers (<[s := sv']> (w_servers w1)) w1). rewrite Hs1.
  change (set_w_servers (<[s := sv']> (w_servers w)) w1) with
    (set_w_conns (<[w_next w := new_conn_object fd l local peer (Pos.succ (w_next w))]> (w_conns w)) w2).
  rewrite !run_update_conn. unfold QueueInLoop. rewrite (run_update (T := EventLoop) l _ lp).
  2:{ change (w_loops w1 !! l = Some lp). unfold w1, new_conn_world. simpl. by autorewrite with world. }
  unfold accepted_world. fold w1. fold sv'. do 2 f_equal.
  change (heap _) with (w_loops w1). 
  replace (w_loops w1) with (w_loops w) by (unfold w1, new_conn_world; simpl; by autorewrite with world).
  reflexivity.
Qed.

Lemma enqueue_alive t lp l (loops : gmap ptr EventLoop) l' :
  is_Some (loops !! l') -> is_Some (<[l := enqueue t lp]> loops !! l').
Proof. intros Hl. destruct (decide (l = l')); simplify_map_eq; eauto. Qed.

Lemma accepted_world_inv w s sv fd l lp local peer :
  server_inv w s sv -> w_loops w !! l = Some lp ->
  server_inv (accepted_world w s sv fd l lp local peer) s
    (sv_set_connections_ (<[fd := w_next w]> (sv_connections_ sv)) sv).
Proof.
  intros [Hs Hsl Hc Hr Hf] Hl. split; simpl.
  - by rewrite lookup_insert_eq.
  - by apply enqueue_alive.
  - done.
  - intros fd' conn' [[<- <-]|[Hne Hin]]%lookup_insert_Some.
    + eexists. rewrite lookup_insert_eq. split; [done|]. split; [done|].
      apply enqueue_alive. simpl. by exists lp.
    + destruct (Hr _ _ Hin) as (co & Hco & Hcfd & Hal). exists co.
      rewrite lookup_insert_ne; [auto using enqueue_alive|].
      intros <-. assert (is_Some (w_conns w !! w_next w)) as Hlt%Hf by eauto. lia.
  - intros conn' [co Hco]. apply lookup_insert_Some in Hco as [[<- _]|[_ Hco]]; [lia|].
    assert (is_Some (w_conns w !! conn')) as Hlt%Hf by eauto. lia.
Qed.

(** C12: A new connection.  On the server's thread, for a descriptor that is not in
    the registry, [NewConnected] makes a connection in the state CONNECTING with a
    channel of its own, registers it under its descriptor, gives it the server's
    callbacks and queues [ConnectEstablished] in the loop that the descriptor
    selects, and in no other; the invariant of the registry is kept.  What the
    connection is given as its write-complete callback is the server's
    [high_water_cb_], never its [wrote_cb_]. *)
Theorem NewConnected_registers w s sv fd l lp local peer :
  server_inv w s sv -> on_thread w (sv_server_loop_ sv) -> serves sv fd l ->
  w_loops w !! l = Some lp -> sv_connections_ sv !! fd = None ->
  let conn := w_next w in
  exists w' sv' co, NewConnected release_conn s fd local peer w = Ok (tt, w') /\
    server_inv w' s sv' /\
    sv_connections_ sv' = <[fd := conn]> (sv_connections_ sv) /\
    w_loops w' = <[l := enqueue (ConnectEstablished_task conn) lp]> (w_loops w) /\
    w_conns w' = <[conn := co]> (w_conns w) /\
    co_state_ co = CONNECTING /\ co_fd_ co = fd /\ co_loop_ co = l /\
    co_close_cb_ co = Some (ServerRemoveConnection_cb s) /\
    co_msg_cb_ co = sv_msg_cb_ sv /\ co_conn_status_cb_ co = sv_conn_status_cb_ sv /\
    co_written_cb_ co = sv_high_water_cb_ sv /\
    w_channels w' !! co_channel_ co = Some (new_conn_channel fd l conn).
Proof.
  intros Hinv Ht Hserves Hl Hfd conn. pose proof (si_close _ _ _ Hinv) as Hc.
  rewrite (run_NewConnected w s sv fd l lp local peer) by (try done; apply Hinv).
  exists (accepted_world w s sv fd l lp local peer),
    (sv_set_connections_ (<[fd := conn]> (sv_connections_ sv)) sv),
    (served_conn sv fd l local peer (Pos.succ conn)).
  split; [done|]. split; [by apply accepted_world_inv|]. simpl. by rewrite lookup_insert_eq.
Qed.

(** What [RemoveConnectionInLoop] leaves. *)
Lemma run_RemoveConnectionInLoop w s sv conn co lp :
  w_servers w !! s = Some sv -> on_thread w (sv_server_loop_ sv) ->
  w_conns w !! conn = Some co -> w_loops w !! co_loop_ co = Some lp ->
  (forall old, sv_connections_ sv !! co_fd_ co = Some old -> old = conn) ->
  RemoveConnectionInLoop release_conn s conn w = Ok (tt,
    set_w_loops (<[co_loop_ co := enqueue (ConnectDestoryed_task conn) lp]> (w_loops w))
    (set_w_servers (<[s := sv_set_connections_ (delete (co_fd_ co) (sv_connections_ sv)) sv]> (w_servers w)) w)).
Proof.
  intros Hs Ht Hco Hl Hold. unfold RemoveConnectionInLoop, erase_connection, QueueInLoop.
  erewrite run_server_in_loop by done. run1. rewrite run_bind_assoc. run1.
  rewrite run_bind_assoc. erewrite run_bind by reflexivity.
  erewrite run_bind.
  2:{ destruct (sv_connections_ sv !! co_fd_ co) as [old|] eqn:E; [|reflexivity].
      rewrite (Hold old eq_refl), decide_True by done. reflexivity. }
  by erewrite run_update by exact Hl.
Qed.

Lemma run_Server_RemoveConnection w s sv conn slp :
  w_servers w !! s = Some sv -> w_loops w !! sv_server_loop_ sv = Some slp ->
  Server_RemoveConnection release_conn s conn w =
    if bool_decide (w_tid w = lo_thread_id_ slp) then RemoveConnectionInLoop release_conn s conn w
    else QueueInLoop (sv_server_loop_ sv) (RemoveConnectionInLoop_task s conn) w.
Proof.
  intros Hs Hl. unfold Server_RemoveConnection. run1. erewrite run_bind by by apply run_IsInLoopThread.
  by case_match.
Qed.

(** C13: The removal of a connection.  [RemoveConnection] called on another thread
    (the connection's) only queues [RemoveConnectionInLoop] in the server's loop;
    on the server's thread the entry of the connection is erased, the other
    entries stay, the connection stays alive, and [ConnectDestoryed] is queued in
    the connection's own loop, where the channel has to be taken out. *)
Theorem RemoveConnection_unregisters w s sv conn co slp lp :
  server_inv w s sv -> w_loops w !! sv_server_loop_ sv = Some slp ->
  sv_connections_ sv !! co_fd_ co = Some conn -> w_conns w !! conn = Some co ->
  w_loops w !! co_loop_ co = Some lp ->
  (w_tid w <> lo_thread_id_ slp ->
    Server_RemoveConnection release_conn s conn w = Ok (tt,
      set_w_loops (<[sv_server_loop_ sv := enqueue (RemoveConnectionInLoop_task s conn) slp]> (w_loops w)) w)) /\
  (w_tid w = lo_thread_id_ slp ->
    exists w' sv', Server_RemoveConnection release_conn s conn w = Ok (tt, w') /\
      RemoveConnectionInLoop release_conn s conn w = Ok (tt, w') /\
      server_inv w' s sv' /\
      sv_connections_ sv' = delete (co_fd_ co) (sv_connections_ sv) /\
      w_conns w' = w_conns w /\ w_channels w' = w_channels w /\
      w_loops w' = <[co_loop_ co := enqueue (ConnectDestoryed_task conn) lp]> (w_loops w)).
Proof.
  intros [Hs Hsl Hc Hr Hf] Hslp Hin Hco Hl.
  rewrite (run_Server_RemoveConnection w s sv conn slp) by done.
  split; intros Ht.
  - rewrite bool_decide_eq_false_2 by done. unfold QueueInLoop. by erewrite run_update by exact Hslp.
  - rewrite bool_decide_eq_true_2 by done.
    erewrite run_RemoveConnectionInLoop; [|done|by exists slp|done|done|congruence].
    eexists _, (sv_set_connections_ (delete (co_fd_ co) (sv_connections_ sv)) sv).
    split; [done|]. split; [done|]. split; [|done]. split; simpl.
    + by rewrite lookup_insert_eq.
    + by apply enqueue_alive.
    + done.
    + intros fd' conn' [_ Hin']%lookup_delete_Some.
      destruct (Hr _ _ Hin') as (co' & ? & ? & ?). exists co'. auto using enqueue_alive.
    + done.
Qed.
End registry.

(** ** Starting *)

Section start.
Context `{EpollReliable} `{!EpollFrame}.
Implicit Types (w : World) (s l : ptr) (sv : TcpServer) (lp : EventLoop).

(** C27: Starting a server.  The number of threads asked for is cut down to
    [hardware_concurrency]; the first [Start] fills a pool with exactly that many
    loops, each alive and on a thread of its own, and queues the acceptor's
    [Listen] behind what the server's loop has to do; every later [Start] does
    nothing. *)
Theorem Start_starts_once w s sv slp n hw choices :
  w_servers w !! s = Some sv -> sv_started_ sv = false ->
  w_loops w !! sv_server_loop_ sv = Some slp ->
  0 <= n < 2 ^ 16 -> 0 <= hw ->
  grants_descriptors -> fresh_addresses w -> (sv_server_loop_ sv < w_next w)%positive ->
  (forall i, tc_spurious (choices i) = false) ->
  (forall i j, tc_tid (choices i) = tc_tid (choices j) -> i = j) ->
  (forall i, w_evt_loop_this_thread w !! tc_tid (choices i) = None) ->
  exists w' sv' pool loops,
    (do! SetThreadNum s n hw; Server_Start s false choices) w = Ok (tt, w') /\
    w_servers w' !! s = Some sv' /\ sv_thread_pool_ sv' = Some pool /\
    tp_loop_list_ pool = map Some loops /\ length loops = Z.to_nat (Z.min n hw) /\ NoDup loops /\
    (forall i l, loops !! i = Some l -> exists lp, w_loops w' !! l = Some lp /\
      lo_thread_id_ lp = tc_tid (choices i)) /\
    w_loops w' !! sv_server_loop_ sv = Some (enqueue (Listen_task (sv_acceptor_ sv)) slp) /\
    forall spurious choices', Server_Start s spurious choices' w' = Ok (tt, w').
Proof.
  intros Hs Hst Hl Hn Hhw Hg Hf Hlt Hsp Hinj Hth.
  pose (sv1 := sv_set_thread_num_ (Z.min n hw) sv).
  assert ((if hw <? n then u16 hw else n) = Z.min n hw) as Hnum.
  { case_match; [rewrite u16_small by lia|]; lia. }
  pose (p0 := EventLoopThreadPool_new "tcpserver" (Z.min n hw) (sv_server_loop_ sv) (w_tid w)).
  pose (w1 := set_w_servers (<[s := sv_set_thread_pool_ (Some p0) (sv_set_started_ true sv1)]> (w_servers w)) w).
  destruct (Initialize_loop_ok choices Hg Hsp Hinj (Z.to_nat (Z.min n hw)) 0 w1 p0 Hf)
    as (w2 & p2 & loops & E & Hll & Hlen & Hnd & Ht2 & Hs2 & Hge & Hi & Ho); [by intros; apply Hth|].
  assert (w_loops w2 !! sv_server_loop_ sv = Some slp) as Hl2 by by rewrite Ho.
  eexists _, (sv_set_thread_pool_ (Some p2) (sv_set_started_ true sv1)), p2, loops. split.
  { unfold SetThreadNum. run1. rewrite Hnum. unfold Server_Start. run1. simpl. rewrite Hst. simpl.
    run1. unfold this_thread. erewrite run_bind by reflexivity. run1. simpl. rewrite !insert_insert_eq.
    unfold Initialize. simpl. fold p0 sv1 w1. erewrite run_bind by exact E.
    erewrite run_bind.
    2:{ apply run_update. simpl. rewrite Hs2. simpl. apply lookup_insert_eq. }
    apply (run_update (T := EventLoop) _ _ slp). exact Hl2. }
  assert (w_servers w2 = <[s := sv_set_thread_pool_ (Some p0) (sv_set_started_ true sv1)]> (w_servers w))
    as Hs2' by by rewrite Hs2.
  simpl. rewrite Hs2', insert_insert_eq, lookup_insert_eq. split_and!; [done..| | |].
  - intros i l Hil. destruct (Hi i l Hil) as (lp & Hlp & Htid & _).
    exists lp. split; [|done]. rewrite lookup_insert_ne; [done|].
    intros <-. assert (sv_server_loop_ sv ∈ loops) as Hin%Hge by by eapply list_elem_of_lookup_2. simpl in Hin. lia.
  - by rewrite lookup_insert_eq.
  - intros spurious choices'. unfold Server_Start.
    erewrite run_bind by (apply run_load; simpl; apply lookup_insert_eq). done.
Qed.
End start.

(** ** Witnesses

    A server (address 40) on the loop of Demo.v, with one working loop (address
    11, thread 2) and one connection (address 20, descriptor 5). *)

Definition demo_server (started : bool) (conns : gmap Z ptr) : TcpServer :=
  mkTcpServer 0 started 1 (Some (demo_pool 1 0 [Some 11%positive])) 30 conns (Some 1%nat) (Some 2%nat)
    None (Some (ServerRemoveConnection_cb 40)) None (Some 3%nat).

Definition demo_worker : EventLoop :=
  mkEventLoop 2 "worker" false true (mkEpollPoller 2 ∅ 6 16) 7 12 [] None [].

Definition demo_served_conn : TcpConnection :=
  mkTcpConnection "c" CONNECTED 11 5 21 5 (demo_buffer []) (demo_buffer []) 0 None
    (Some (ServerRemoveConnection_cb 40)) None None None.

Definition demo_serving : @World RefKernel :=
  set_w_servers {[40%positive := demo_server true {[5 := 20%positive]}]}
    (demo_world (demo_kernel ∅ ∅ []) ∅
      {[1%positive := demo_loop ∅ [] []; 11%positive := demo_worker]}
      {[20%positive := demo_served_conn]}).

Lemma demo_serving_inv : server_inv demo_serving 40 (demo_server true {[5 := 20%positive]}).
Proof.
  split; [done|by eexists|done| |].
  - intros fd conn E. simpl in E. apply lookup_singleton_Some in E as [<- <-]. exists demo_served_conn. by split_and!; [..|eexists].
  - intros conn [co E]. simpl in E. apply lookup_singleton_Some in E as [<- _]. done.
Qed.

Definition demo_release_conn (conn : ptr) : St (@World RefKernel) unit := ret tt.

Lemma NewConnected_registers_witness :
  exists w', NewConnected demo_release_conn 40 8 [] [] demo_serving = Ok (tt, w') /\
    w_loops w' !! 11%positive = Some (enqueue (ConnectEstablished_task 1000) demo_worker).
Proof.
  destruct (NewConnected_registers demo_release_conn demo_serving 40
    (demo_server true {[5 := 20%positive]}) 8 11 demo_worker [] [])
    as (w' & sv' & co & E & _ & _ & Hl & _).
  - apply demo_serving_inv.
  - by exists (demo_loop ∅ [] []).
  - by exists (demo_pool 1 0 [Some 11%positive]).
  - reflexivity.
  - reflexivity.
  - exists w'. split; [exact E|]. rewrite Hl. reflexivity.
Defined.

Lemma RemoveConnection_unregisters_witness :
  exists w', Server_RemoveConnection demo_release_conn 40 20 demo_serving = Ok (tt, w') /\
    w_loops w' !! 11%positive = Some (enqueue (ConnectDestoryed_task 20) demo_worker).
Proof.
  destruct (RemoveConnection_unregisters demo_release_conn demo_serving 40
    (demo_server true {[5 := 20%positive]}) 20 demo_served_conn (demo_loop ∅ [] []) demo_worker)
    as [_ Hin].
  - apply demo_serving_inv.
  - reflexivity.
  - reflexivity.
  - reflexivity.
  - reflexivity.
  - destruct Hin as (w' & sv' & E & _ & _ & _ & _ & _ & Hl); [reflexivity|].
    exists w'. split; [exact E|]. rewrite Hl. reflexivity.
Defined.

Definition demo_stopped : @World RefKernel :=
  set_w_servers {[40%positive := demo_server false ∅]}
    (demo_world (demo_kernel ∅ ∅ []) ∅ {[1%positive := demo_loop ∅ [] []]} ∅).

Lemma Start_starts_once_witness :
  exists w', (do! SetThreadNum 40 5 2; Server_Start 40 false demo_choices) demo_stopped = Ok (tt, w') /\
    w_loops w' !! 1%positive = Some (enqueue (Listen_task 30) (demo_loop ∅ [] [])).
Proof.
  destruct (Start_starts_once demo_stopped 40 (demo_server false ∅) (demo_loop ∅ [] []) 5 2 demo_choices)
    as (w' & sv' & pool & loops & E & _ & _ & _ & _ & _ & _ & Hl & _).
  - reflexivity.
  - reflexivity.
  - reflexivity.
  - lia.
  - lia.
  - apply RefKernel_grants.
  - intros c ch. simpl. by rewrite lookup_empty.
  - reflexivity.
  - reflexivity.
  - intros i j. simpl. lia.
  - intros i. simpl. by rewrite lookup_empty.
  - exists w'. split; [exact E|exact Hl].
Defined.
