(* ===== verification/Client.v ===== *)
(** * Client: TcpClient

    Models [TcpClient] (tcp_client.h/.cpp).  As in Server.v, [release_conn] is
    called where a [std::shared_ptr<TcpConnection>] is let go of. *)

From stdpp Require Import base list gmap strings numbers.
From Stdlib Require Import ZArith Lia Init.Byte.
From S2P Require Import Prelude Buffer Kernel RefKernel State World Demo Poller EventLoop Socket.
From S2P Require Import Connection Connector.

Open Scope np_scope.

Section operations.
Context `{Kernel} `{!Inet} `{!UserCode}.
Variable exec : task -> M unit.
Variable release_conn : ptr -> M unit.

(** The function of the namespace, not the method. *)
Definition RemoveConnection (loop conn : ptr) : M unit :=
  QueueInLoop loop (ConnectDestoryed_task conn).

Definition TcpClient_new (loop : ptr) (addr : sockaddr) : M ptr :=
  let! c := gets w_next in
  do! modify (set_w_next (Pos.succ c));
  let! k := TcpConnector_new loop addr in
  do! store c (mkTcpClient loop addr k None None None None);
  do! Connector_SetNewConnectionCB k c;
  ret c.

(** The body of the destructor, then the destructors of the members
    [connection_] and [connector_] (which deletes its channel). *)
Definition TcpClient_destroy (c : ptr) : M unit :=
  let! cl := load (T := TcpClient) c in
  do! match cl_connection_ cl with
      | Some conn =>
          RunInLoop exec (cl_loop_ cl)
            (SetCloseCB_task conn (FreeRemoveConnection_cb (cl_loop_ cl)))
      | None => ret tt
      end;
  do! free (T := TcpClient) c;
  do! match cl_connection_ cl with Some conn => release_conn conn | None => ret tt end;
  do! reset_channel (cl_connector_ cl) None;
  free (T := TcpConnector) (cl_connector_ cl).

Definition Client_SetMessageCB (c : ptr) cb : M unit := update c (cl_set_msg_cb_ cb).
Definition Client_SetWriteCompleteCB (c : ptr) cb : M unit := update c (cl_set_wrote_cb_ cb).
Definition Client_SetConnStatusCB (c : ptr) cb : M unit := update c (cl_set_conn_status_cb_ cb).

Definition Client_Connect (c : ptr) (spurious : bool) : M unit :=
  let! cl := load (T := TcpClient) c in
  Connector_Start exec (cl_connector_ cl) spurious.

Definition Client_Disconnect (c : ptr) (spurious : bool) : M unit :=
  let! cl := load (T := TcpClient) c in
  match cl_connection_ cl with
  | Some conn => Shutdown conn spurious
  | None => ret tt
  end.

Definition Client_Stop (c : ptr) : M unit :=
  let! cl := load (T := TcpClient) c in
  Connector_Stop exec (cl_connector_ cl).

(** [connection_ = p]: the old connection is let go of. *)
Definition assign_connection (c : ptr) (p : option ptr) : M unit :=
  let! cl := load (T := TcpClient) c in
  do! store c (cl_set_connection_ p cl);
  match cl_connection_ cl with Some old => release_conn old | None => ret tt end.

Definition NewConnection (c : ptr) (fd : Z) : M unit :=
  let! cl := load (T := TcpClient) c in
  let! b := IsInLoopThread (cl_loop_ cl) in
  do! assert_ b;
  let! peer_addr := GetPeerAddr fd in
  let! local_addr := GetLocalAddr fd in
  let! conn := TcpConnection_new fd (cl_loop_ cl) local_addr peer_addr in
  do! assign_connection c (Some conn);
  do! SetConnStatusCB conn (cl_conn_status_cb_ cl);
  do! SetMessagCB conn (cl_msg_cb_ cl);
  do! SetWriteCompleteCB conn (cl_wrote_cb_ cl);
  do! SetCloseCB conn (Some (ClientRemoveConnection_cb c));
  ConnectEstablished conn.

(** [connection_.reset()] while the caller holds [conn]. *)
Definition reset_connection (c conn : ptr) : M unit :=
  let! cl := load (T := TcpClient) c in
  do! store c (cl_set_connection_ None cl);
  match cl_connection_ cl with
  | Some old => if decide (old = conn) then ret tt else release_conn old
  | None => ret tt
  end.

Definition Client_RemoveConnection (c conn : ptr) : M unit :=
  let! cl := load (T := TcpClient) c in
  let! b := IsInLoopThread (cl_loop_ cl) in
  do! assert_ b;
  let! co := load (T := TcpConnection) conn in
  do! assert_ (bool_decide (cl_loop_ cl = co_loop_ co));
  do! reset_connection c conn;
  QueueInLoop (cl_loop_ cl) (ConnectDestoryed_task conn).
End operations.

(** ** A client and its connection *)

Section client.
Context `{EpollReliable} `{!EpollFrame} `{!StreamLaws} `{!Inet} `{!UserCode}.
Variable exec : task -> M unit.
Variable release_conn : ptr -> M unit.
Implicit Types (w : World) (c conn l : ptr) (cl : TcpClient) (co : TcpConnection)
  (ch : EventChannel) (lp : EventLoop).

(** What a system call that leaves the interest lists and the streams alone keeps. *)
Definition quiet (k k' : kstate) : Prop :=
  (forall ep, k_interest k' ep = k_interest k ep) /\ (forall fd, k_stream k' fd = k_stream k fd).

Lemma quiet_trans k1 k2 k3 : quiet k1 k2 -> quiet k2 k3 -> quiet k1 k3.
Proof. intros [I1 S1] [I2 S2]. split; intros; congruence. Qed.

Lemma loop_inv_quiet {A} w l lp (r : sysres A) k' :
  loop_inv w l lp -> quiet (w_kern w) k' -> loop_inv (after_syscall r k' w) l lp.
Proof.
  intros [Hinv Ht] [Hi _]. split; autorewrite with world; [|done].
  eapply poller_inv_frame; [exact Hinv|autorewrite with world; try done..]. apply Hinv.
Qed.

(** A connection that has just been made in a loop, on the loop's thread. *)
Lemma new_conn_core w l lp fd local peer st :
  loop_inv w l lp -> fresh_addresses w -> po_evt_channel_list_ (lo_poller_ lp) !! fd = None ->
  k_stream (w_kern w) fd = Some st ->
  forall co cs, co_loop_ co = l -> co_channel_ co = Pos.succ (w_next w) -> co_fd_ co = fd ->
  cs !! w_next w = Some co ->
  conn_core (set_w_conns cs (new_conn_world fd l local peer w)) (w_next w) co
    (new_conn_channel fd l (w_next w)) lp st.
Proof.
  intros Hl Hf Hfd Hst co cs El Ech Efd Ecs.
  assert (quiet (w_kern w) (keep_alive fd (w_kern w)).2) as Hq
    by (split; intros; [apply frame_setsockopt|apply stream_setsockopt]).
  pose proof (loop_inv_quiet w l lp (keep_alive fd (w_kern w)).1 _ Hl Hq) as [Hinv Ht].
  set (w0 := after_syscall _ _ w) in *.
  assert (w_channels w0 !! Pos.succ (w_next w) = None) as Hc0.
  { unfold w0. autorewrite with world. destruct (w_channels w !! _) as [ch0|] eqn:E; [|done].
    destruct (Hf _ _ E). lia. }
  assert (poller_inv (set_w_conns cs (new_conn_world fd l local peer w)) l lp) as Hinv1.
  { eapply poller_inv_ext; [by apply (poller_inv_new_channel w0 l lp (Pos.succ (w_next w))
      (new_conn_channel fd l (w_next w)))|..];
      simpl; unfold w0; by autorewrite with world. }
  split.
  - done.
  - by rewrite El.
  - rewrite El, Ech. split; simpl; [by rewrite lookup_insert_eq|done|exact Ht|done].
  - done.
  - rewrite Efd. unfold new_conn_world. simpl. autorewrite with world.
    destruct Hq as [_ Hs]. by rewrite Hs.
Qed.

(** The calls of [NewConnection] before the connection is made. *)
Definition after_names fd w : World :=
  let r1 := sys_getpeername fd (w_kern w) in
  let w1 := after_syscall r1.1 r1.2 w in
  let r2 := sys_getsockname fd r1.2 in
  after_syscall r2.1 r2.2 w1.

Definition addr_or_zero (r : sysres sockaddr) : sockaddr :=
  match r with SOk a => a | SErr _ => replicate 28 x00 end.

(** The connection that a client makes. *)
Definition client_conn c cl fd local peer channel : TcpConnection :=
  co_set_close_cb_ (Some (ClientRemoveConnection_cb c)) (co_set_written_cb_ (cl_wrote_cb_ cl)
    (co_set_msg_cb_ (cl_msg_cb_ cl) (co_set_conn_status_cb_ (cl_conn_status_cb_ cl)
      (new_conn_object fd (cl_loop_ cl) local peer channel)))).

Lemma run_NewConnection w c cl lp fd :
  w_clients w !! c = Some cl -> cl_connection_ cl = None -> loop_inv w (cl_loop_ cl) lp ->
  let conn := w_next w in
  exists local peer,
    let w2 := new_conn_world fd (cl_loop_ cl) local peer (after_names fd w) in
    NewConnection release_conn c fd w = ConnectEstablished conn
      (set_w_conns (<[conn := client_conn c cl fd local peer (Pos.succ conn)]> (w_conns w))
        (set_w_clients (<[c := cl_set_connection_ (Some conn) cl]> (w_clients w)) w2)).
Proof.
  intros Hc Hnone [Hinv Ht] conn. pose (r1 := sys_getpeername fd (w_kern w)).
  pose (r2 := sys_getsockname fd r1.2). exists (addr_or_zero r2.1), (addr_or_zero r1.1). intros w2.
  unfold NewConnection. run1. erewrite run_bind by (apply run_IsInLoopThread; apply Hinv).
  rewrite bool_decide_eq_true_2 by done. run1. unfold GetPeerAddr, GetLocalAddr.
  rewrite run_bind_assoc. erewrite run_bind by apply run_syscall. run1. fold r1.
  rewrite run_bind_assoc. erewrite run_bind by apply run_syscall. run1. autorewrite with world. fold r2.
  erewrite run_bind by apply run_TcpConnection_new.
  change (after_syscall r2.1 r2.2 (after_syscall r1.1 r1.2 w)) with (after_names fd w).
  assert (w_next (after_names fd w) = conn) as -> by (unfold after_names; by autorewrite with world).
  fold (addr_or_zero r1.1) (addr_or_zero r2.1). fold w2. assert (w_clients w2 = w_clients w) as Hcl
    by (unfold w2, new_conn_world, after_names; simpl; by autorewrite with world).
  unfold assign_connection. rewrite run_bind_assoc.
  erewrite run_bind by (apply (run_load c cl); change (w_clients w2 !! c = Some cl); by rewrite Hcl).
  rewrite run_bind_assoc. erewrite run_bind by reflexivity. rewrite Hnone. run1.
  unfold SetConnStatusCB, SetMessagCB, SetWriteCompleteCB, SetCloseCB.
  set (cl' := cl_set_connection_ (Some conn) cl).
  change (heap_put _ w2) with (set_w_clients (<[c := cl']> (w_clients w2)) w2). rewrite Hcl. 
  set (w3 := set_w_clients _ w2).
  rewrite (set_w_conns_eta w3 (<[conn := new_conn_object fd (cl_loop_ cl) (addr_or_zero r2.1)
    (addr_or_zero r1.1) (Pos.succ conn)]> (w_conns w))).
  { by rewrite !run_update_conn. }
  unfold w3, w2, new_conn_world, after_names. simpl. by autorewrite with world.
Qed.

Lemma after_names_ok w l lp fd :
  loop_inv w l lp -> loop_inv (after_names fd w) l lp /\ quiet (w_kern w) (w_kern (after_names fd w)).
Proof.
  intros Hl. unfold after_names. set (r1 := sys_getpeername fd (w_kern w)).
  set (r2 := sys_getsockname fd r1.2).
  assert (quiet (w_kern w) r1.2) as Q1 by (split; intros; [apply frame_getpeername|apply stream_getpeername]).
  assert (quiet r1.2 r2.2) as Q2 by (split; intros; [apply frame_getsockname|apply stream_getsockname]).
  split.
  - apply loop_inv_quiet; [by apply loop_inv_quiet|]. by autorewrite with world.
  - autorewrite with world. by eapply quiet_trans.
Qed.

(** The connection that the connector's descriptor becomes, and what is left alone. *)
Lemma NewConnection_ok w c cl lp fd st :
  user_observes -> w_clients w !! c = Some cl -> cl_connection_ cl = None ->
  loop_inv w (cl_loop_ cl) lp -> fresh_addresses w ->
  po_evt_channel_list_ (lo_poller_ lp) !! fd = None -> k_stream (w_kern w) fd = Some st ->
  let conn := w_next w in
  let ch' := with_interest (fun e => Z.lor e read_event_flag) (new_conn_channel fd (cl_loop_ cl) conn) in
  exists w' local peer, NewConnection release_conn c fd w = Ok (tt, w') /\
    let co' := co_set_state_ CONNECTED (client_conn c cl fd local peer (Pos.succ conn)) in
    let lp' := with_entry fd (Pos.succ conn) lp in
    conn_core w' conn co' ch' lp' st /\
    w_clients w' = <[c := cl_set_connection_ (Some conn) cl]> (w_clients w) /\
    (w_connectors w' = w_connectors w /\ w_servers w' = w_servers w /\
     w_channels w' = <[Pos.succ conn := ch']> (w_channels w) /\ w_next w' = Pos.succ (Pos.succ conn)) /\
    k_interest (w_kern w') (po_epoll_fd_ (lo_poller_ lp')) !! fd = Some (u32 read_event_flag, Pos.succ conn) /\
    w_trace w' = status_events conn co' ++ w_trace w.
Proof.
  intros Hu Hc Hnone Hl Hf Hfd Hst conn ch'.
  destruct (run_NewConnection w c cl lp fd Hc Hnone Hl) as (local & peer & E).
  destruct (after_names_ok w _ lp fd Hl) as [Hl1 [_ Hs1]]. set (w1 := after_names fd w) in *.
  assert (w_next w1 = conn) as Hn1 by (unfold w1, after_names; by autorewrite with world).
  assert (fresh_addresses w1) as Hf1.
  { intros c' ch0. unfold w1, after_names. autorewrite with world. apply Hf. }
  set (co := client_conn c cl fd local peer (Pos.succ conn)) in *.
  set (cs := <[conn := co]> (w_conns w)) in *.
  pose proof (new_conn_core w1 (cl_loop_ cl) lp fd local peer st Hl1 Hf1 Hfd) as Hcc.
  rewrite Hs1, Hn1 in Hcc. specialize (Hcc Hst co cs eq_refl eq_refl eq_refl (lookup_insert_eq _ _ _)).
  set (cls := <[c := _]> (w_clients w)) in *.
  assert (conn_core (set_w_conns cs (set_w_clients cls
    (new_conn_world fd (cl_loop_ cl) local peer w1))) conn co
    (new_conn_channel fd (cl_loop_ cl) conn) lp st) as Hcc'.
  { destruct Hcc as [? Hi Hch ? ?]. split; [done|by destruct Hi; split|by destruct Hch; split|done|done]. }
  destruct (ConnectEstablished_ok conn _ _ _ _ _ Hu Hcc') as (w' & E' & Hcc2 & _ & T & (O & C & N) & Hk).
  exists w', local, peer. rewrite E. injection O as Ocl Osv Oct _.
  split; [exact E'|]. split; [exact Hcc2|]. split_and!; [by rewrite Ocl|..].
  - rewrite Oct. simpl. unfold w1, after_names. by autorewrite with world.
  - rewrite Osv. simpl. unfold w1, after_names. by autorewrite with world.
  - rewrite C. simpl. rewrite Hn1, insert_insert_eq. unfold w1, after_names. by autorewrite with world.
  - rewrite N. simpl. by rewrite Hn1.
  - by apply Hk.
  - rewrite T. simpl. unfold w1, after_names. by autorewrite with world.
Qed.

(** A client's connection.  When the connector hands over a connected descriptor
    that the loop does not know, [NewConnection] makes the connection of the client
    from it: CONNECTED, with the client's callbacks and its close callback bound to
    the client, the descriptor watched for reading, the user told, and the invariant
    of the loop kept. *)
Theorem NewConnection_establishes w c cl lp fd st :
  user_observes -> w_clients w !! c = Some cl -> cl_connection_ cl = None ->
  loop_inv w (cl_loop_ cl) lp -> fresh_addresses w ->
  po_evt_channel_list_ (lo_poller_ lp) !! fd = None -> k_stream (w_kern w) fd = Some st ->
  let conn := w_next w in
  exists w' co ch lp', NewConnection release_conn c fd w = Ok (tt, w') /\
    conn_core w' conn co ch lp' st /\ co_state_ co = CONNECTED /\ co_fd_ co = fd /\
    w_clients w' = <[c := cl_set_connection_ (Some conn) cl]> (w_clients w) /\
    co_close_cb_ co = Some (ClientRemoveConnection_cb c) /\
    co_msg_cb_ co = cl_msg_cb_ cl /\ co_written_cb_ co = cl_wrote_cb_ cl /\
    k_interest (w_kern w') (po_epoll_fd_ (lo_poller_ lp')) !! fd = Some (u32 read_event_flag, co_channel_ co) /\
    w_trace w' = match cl_conn_status_cb_ cl with
                 | Some cb => [ConnStatus_ev cb conn CONNECTED] | None => [] end ++ w_trace w.
Proof.
  intros Hu Hc Hnone Hl Hf Hfd Hst conn.
  destruct (NewConnection_ok w c cl lp fd st) as (w' & local & peer & E & Hcc & Hcl & _ & Hk & T); [done..|].
  eexists w', _, _, _. split; [exact E|]. split; [exact Hcc|]. by split_and!.
Qed.

(** The end of a client's connection.  [RemoveConnection] on the loop's thread
    lets the client go of its connection, which stays alive, and queues
    [ConnectDestoryed] once, behind what is queued; for a connection of another
    loop its assertion fails. *)
Theorem Client_RemoveConnection_queues_destruction w c cl conn co lp :
  w_clients w !! c = Some cl -> w_conns w !! conn = Some co ->
  w_loops w !! cl_loop_ cl = Some lp -> w_tid w = lo_thread_id_ lp ->
  (forall old, cl_connection_ cl = Some old -> old = conn) ->
  Client_RemoveConnection release_conn c conn w =
    if decide (co_loop_ co = cl_loop_ cl) then
      Ok (tt, set_w_loops (<[cl_loop_ cl := lo_set_queue_task_funcs_
                (lo_queue_task_funcs_ lp ++ [ConnectDestoryed_task conn]) lp]> (w_loops w))
        (set_w_clients (<[c := cl_set_connection_ None cl]> (w_clients w)) w))
    else Err AssertFailure.
Proof.
  intros Hc Hco Hl Ht Hold. unfold Client_RemoveConnection. run1.
  erewrite run_bind by by apply run_IsInLoopThread. rewrite bool_decide_eq_true_2 by done. run1. run1.
  destruct (decide (co_loop_ co = cl_loop_ cl)) as [El|Hne].
  2:{ rewrite bool_decide_eq_false_2 by congruence. done. }
  run1. unfold reset_connection, QueueInLoop. rewrite run_bind_assoc. run1.
  rewrite run_bind_assoc. erewrite run_bind by reflexivity. erewrite run_bind.
  2:{ destruct (cl_connection_ cl) as [old|]; [|reflexivity].
      rewrite (Hold old eq_refl), decide_True by done. reflexivity. }
  by erewrite run_update by exact Hl.
Qed.
End client.

(** ** Witnesses

    A client (address 50) on the loop of Demo.v; the descriptor 5 is connected. *)

Definition demo_client_obj (conn : option ptr) : TcpClient :=
  mkTcpClient 1 [] 40 conn (Some 1%nat) (Some 2%nat) (Some 3%nat).

Definition demo_client_world : @World RefKernel :=
  set_w_clients {[50%positive := demo_client_obj None]}
    (demo_world (demo_kernel {[5 := RSock (demo_sock [] 10)]} ∅ []) ∅
      {[1%positive := demo_loop ∅ [] []]} ∅).

(** A connection that another owner keeps. *)
Definition demo_let_go (conn : ptr) : St (@World RefKernel) unit := ret tt.

Lemma NewConnection_establishes_witness :
  exists w' co, NewConnection demo_let_go 50 5 demo_client_world = Ok (tt, w') /\
    w_conns w' !! 1000%positive = Some co /\ co_state_ co = CONNECTED.
Proof.
  destruct (NewConnection_establishes demo_let_go demo_client_world 50
    (demo_client_obj None) (demo_loop ∅ [] []) 5 (mkStream [] [] false))
    as (w' & co & ch & lp' & E & Hc & Hst & _).
  - apply demo_user_observes.
  - reflexivity.
  - reflexivity.
  - by split.
  - intros c ch. simpl. by rewrite lookup_empty.
  - reflexivity.
  - reflexivity.
  - exists w', co. split; [exact E|]. split; [apply Hc|exact Hst].
Defined.

Lemma Client_RemoveConnection_queues_destruction_witness :
  let w := set_w_clients {[50%positive := demo_client_obj (Some 20%positive)]}
    (demo_connected (demo_sock [] 10) 1 (demo_conn CONNECTED [])) in
  exists w', Client_RemoveConnection demo_let_go 50 20 w = Ok (tt, w') /\
    w_clients w' !! 50%positive = Some (demo_client_obj None).
Proof.
  intros w. eexists. split.
  - rewrite (Client_RemoveConnection_queues_destruction demo_let_go w 50
      (demo_client_obj (Some 20%positive)) 20 (demo_conn CONNECTED []) (demo_loop {[5 := 7%positive]} [] [])).
    + reflexivity.
    + reflexivity.
    + reflexivity.
    + reflexivity.
    + reflexivity.
    + by intros old [= <-].
  - reflexivity.
Defined.
