(* ===== verification/Reactor.v ===== *)
(** * Reactor: the components together

    Ties the parameters of the other files: what the callbacks of channels and
    connections and the queued tasks run, and when a connection that several
    [std::shared_ptr] own is destroyed.  The theorems follow a connection through
    the components it passes. *)

From stdpp Require Import base list gmap strings numbers.
From Stdlib Require Import ZArith Lia Init.Byte.
From S2P Require Import Prelude Buffer Kernel RefKernel State World Demo Poller EventLoop Socket.
From S2P Require Import Connection Acceptor Connector ThreadPool Server Client.

Open Scope np_scope.

Section reactor.
Context `{Kernel} `{!Inet} `{!UserCode}.

(** The connections of which user code keeps a [std::shared_ptr]. *)
Variable user_holds : World -> ptr -> bool.

(** ** Ownership *)

(** The connection that a queued task shares. *)
Definition task_conn (t : task) : option ptr :=
  match t with
  | SendInLoop_task conn _ _ | StartReadInLoop_task conn | StopReadInLoop_task conn
  | ShutdownInLoop_task conn | ForceCloseInLoop_task conn | ConnectEstablished_task conn
  | ConnectDestoryed_task conn | Written_task _ conn | HighWater_task _ conn _
  | SetCloseCB_task conn _ | RemoveConnectionInLoop_task _ conn => Some conn
  | Listen_task _ | StartInLoop_task _ | StopInLoop_task _ | ResetChannelPtr_task _
  | User_task _ => None
  end.

Definition server_owns (conn : ptr) (sv : TcpServer) : bool :=
  existsb (fun e => bool_decide (e.2 = conn)) (map_to_list (sv_connections_ sv)).
Definition client_owns (conn : ptr) (cl : TcpClient) : bool :=
  bool_decide (cl_connection_ cl = Some conn).
Definition loop_owns (conn : ptr) (lp : EventLoop) : bool :=
  existsb (fun t => bool_decide (task_conn t = Some conn)) (lo_queue_task_funcs_ lp).

(** Some [std::shared_ptr] to [conn] is left. *)
Definition owned (w : World) (conn : ptr) : bool :=
  existsb (fun e => server_owns conn e.2) (map_to_list (w_servers w)) ||
  existsb (fun e => client_owns conn e.2) (map_to_list (w_clients w)) ||
  existsb (fun e => loop_owns conn e.2) (map_to_list (w_loops w)) ||
  user_holds w conn.

(** One owner has let go of [conn]. *)
Definition release_conn (conn : ptr) : M unit :=
  let! b := gets (fun w => owned w conn) in
  if b then ret tt else TcpConnection_destroy conn.

(** The end of the local [Functor] of [RunTaskFuncs]. *)
Definition release (t : task) : M unit :=
  match task_conn t with Some conn => release_conn conn | None => ret tt end.

(** ** What callbacks and tasks run *)

Definition call_close (cb : close_cb) (conn : ptr) : M unit :=
  match cb with
  | ServerRemoveConnection_cb server => Server_RemoveConnection release_conn server conn
  | ClientRemoveConnection_cb client => Client_RemoveConnection release_conn client conn
  | FreeRemoveConnection_cb loop => RemoveConnection loop conn
  | UserClose_cb cb => call_user (Close_ev cb conn)
  end.

Definition exec (t : task) : M unit :=
  match t with
  | SendInLoop_task conn msg msg_size => SendInLoop call_close conn msg msg_size
  | StartReadInLoop_task conn => StartReadInLoop conn
  | StopReadInLoop_task conn => StopReadInLoop conn
  | ShutdownInLoop_task conn => ShutdownInLoop conn
  | ForceCloseInLoop_task conn => ForceCloseInLoop call_close conn
  | ConnectEstablished_task conn => ConnectEstablished conn
  | ConnectDestoryed_task conn => ConnectDestoryed conn
  | Written_task cb conn => call_user (Written_ev cb conn)
  | HighWater_task cb conn high_water => call_user (HighWater_ev cb conn high_water)
  | SetCloseCB_task conn cb => SetCloseCB conn (Some cb)
  | RemoveConnectionInLoop_task server conn => RemoveConnectionInLoop release_conn server conn
  | Listen_task acceptor => Acceptor_Listen acceptor
  | StartInLoop_task connector => StartInLoop connector
  | StopInLoop_task connector => StopInLoop connector
  | ResetChannelPtr_task connector => ResetChannelPtr connector
  | User_task cb => call_user (Task_ev cb)
  end.

(** [fuel] bounds the loops of [ReadHandler] and [AcceptHandle]; [junk] is what an
    uninitialised address holds. *)
Definition call (fuel : nat) (junk : sockaddr) (cb : channel_cb) : M unit :=
  match cb with
  | HandleWakeupEvent_cb loop => HandleWakeupEvent loop
  | AcceptHandle_cb acceptor => AcceptHandle (NewConnected release_conn) fuel acceptor junk
  | CloseHandler_cb conn => CloseHandler call_close conn
  | ErrorHandler_cb conn => ErrorHandler conn
  | ReadHandler_cb conn => ReadHandler call_close fuel conn
  | WriteHandler_cb conn => WriteHandler exec conn
  | ConnectorWrite_cb connector => WriteEventHandler (NewConnection release_conn) connector
  | ConnectorError_cb connector => ErrorEventHandler connector
  | UserChannel_cb cb => call_user (Channel_ev cb)
  end.
End reactor.

(** ** From the listening socket to the registry *)

Section accepting.
Context `{FdLaws} `{!BacklogLaws} `{!AcceptReliable} `{!Inet}.
Variable let_go : ptr -> M unit.
Implicit Types (w : World) (s a l : ptr) (sv : TcpServer) (ac : TcpAcceptor).

(** A server that is ready to take connections: the descriptors of its registry are
    open, every descriptor selects a loop that is alive, what is registered and what
    still waits make up [total], and the connections [before] are still there. *)
Record server_ready w s ac (before : gmap Z ptr) sv (total : nat) : Prop := {
  sr_inv : server_inv w s sv;
  sr_loop : sv_server_loop_ sv = ac_loop_ ac;
  sr_open fd : is_Some (sv_connections_ sv !! fd) -> fd ∈ k_open (w_kern w);
  sr_pool : exists pool, sv_thread_pool_ sv = Some pool /\
    forall hash, 0 <= hash -> exists l, GetEventLoopFromPoolForHash hash pool = Ok (Some l) /\
      is_Some (w_loops w !! l);
  sr_total : exists q, k_backlog (w_kern w) (ac_socket_fd_ ac) = Some q /\
    (size (sv_connections_ sv) + length q = total)%nat;
  sr_before : before ⊆ sv_connections_ sv
}.

Lemma server_ready_accepted w s ac before sv total n l lp peer q k' :
  server_ready w s ac before sv total -> w_loops w !! l = Some lp ->
  lowest_free (k_open (w_kern w)) n -> k_open k' = {[n]} ∪ k_open (w_kern w) ->
  k_backlog (w_kern w) (ac_socket_fd_ ac) = Some (peer :: q) ->
  k_backlog k' (ac_socket_fd_ ac) = Some q ->
  server_ready (accepted_world (set_w_kern k' w) s sv n l lp (ac_socket_addr_ ac) peer) s ac before
    (sv_set_connections_ (<[n := w_next w]> (sv_connections_ sv)) sv) total.
Proof.
  intros [Hinv Hlo Hop (pool & Hp & Hsel) (q' & Hq' & Htot) Hbef] Hl (_ & Hfree & _) Hk Hb Hb'.
  assert (sv_connections_ sv !! n = None) as Hnone
    by (apply eq_None_not_Some; by intros Hin%Hop).
  split.
  - apply (accepted_world_inv (set_w_kern k' w)); [|done]. destruct Hinv. by split.
  - done.
  - intros fd Hfd. simpl in *. autorewrite with world. unfold keep_alive. rewrite setsockopt_open, Hk.
    apply lookup_insert_is_Some' in Hfd as [->|Hfd]; [set_solver|]. apply Hop in Hfd. set_solver.
  - exists pool. split; [done|]. intros hash Hh. destruct (Hsel hash Hh) as (l' & Hs & Hal).
    exists l'. split; [done|]. simpl. by apply enqueue_alive.
  - exists q. simpl. autorewrite with world. unfold keep_alive. rewrite backlog_setsockopt.
    split; [done|]. rewrite Hb in Hq'. injection Hq' as <-. simpl in Htot.
    rewrite map_size_insert_None by done. lia.
  - simpl. etrans; [exact Hbef|by apply insert_subseteq].
Qed.

(** The server meets the contract of the acceptor. *)
#[global] Instance server_accept_client s a ac before total :
  AcceptClient (NewConnected let_go) s a ac (fun w => exists sv, server_ready w s ac before sv total).
Proof.
  split.
  - intros w peer rest n k' [Ha (lpa & Hla & Hta) Hq] (sv & Hr) Eacc Hn Hb.
    pose proof (accept_open (ac_socket_fd_ ac) (Z.lor SOCK_NONBLOCK SOCK_CLOEXEC) (w_kern w)) as Ho.
    rewrite Eacc in Ho. destruct Ho as [Hlow Hop].
    destruct (sr_pool _ _ _ _ _ _ Hr) as (pool & Hp & Hsel).
    destruct (Hsel (u32 n)) as (l & Hs & [lp Hl]); [apply u32_bound|].
    apply wp_run. eexists tt, _. split.
    { apply (run_NewConnected _ (set_w_kern k' w) s sv n l lp).
      - apply Hr.
      - exists lpa. by rewrite (sr_loop _ _ _ _ _ _ Hr).
      - by exists pool.
      - exact Hl.
      - apply eq_None_not_Some. intros Hin%(sr_open _ _ _ _ _ _ Hr). by destruct Hlow as (_ & ? & _). }
    split; [|eexists; by eapply server_ready_accepted].
    split; simpl; autorewrite with world; [done| |].
    + destruct (decide (l = ac_loop_ ac)) as [->|Hne].
      * rewrite Hl in Hla. injection Hla as <-. eexists. by rewrite lookup_insert_eq.
      * exists lpa. by rewrite lookup_insert_ne.
    + unfold keep_alive. by rewrite backlog_setsockopt.
  - intros w k' [_ _ Hq] (sv & [Hinv Hlo Hop Hpool (q & Hq' & Htot) Hbef]) Eacc Hb. exists sv.
    pose proof (accept_open (ac_socket_fd_ ac) (Z.lor SOCK_NONBLOCK SOCK_CLOEXEC) (w_kern w)) as Ho.
    rewrite Eacc in Ho. split; simpl; try done; [by destruct Hinv; split|by rewrite Ho|].
    exists []. split; [done|]. rewrite Hq in Hq'. by injection Hq' as <-.
Qed.

(** C15: Every waiting connection is registered.  When the listening socket of a
    started server is readable, and while accept4 takes what waits ([AcceptReliable]),
    [AcceptHandle] through [NewConnected] returns with
    an empty backlog and as many connections more in the registry as were waiting,
    whose descriptors are open; the invariant of the registry holds and no
    registered connection was displaced. *)
Theorem waiting_connections_are_registered fuel w s a ac sv q junk :
  ac_new_conn_cb_ ac = Some s -> acceptor_ok w a ac q -> (length q < fuel)%nat ->
  server_ready w s ac (sv_connections_ sv) sv (size (sv_connections_ sv) + length q) ->
  exists w' sv', AcceptHandle (NewConnected let_go) fuel a junk w = Ok (tt, w') /\
    acceptor_ok w' a ac [] /\ server_inv w' s sv' /\
    size (sv_connections_ sv') = (size (sv_connections_ sv) + length q)%nat /\
    sv_connections_ sv ⊆ sv_connections_ sv' /\
    (forall fd, is_Some (sv_connections_ sv' !! fd) -> fd ∈ k_open (w_kern w')).
Proof.
  intros Hcb Ho Hf Hr.
  destruct (AcceptHandle_ok (NewConnected let_go) fuel w q junk Hcb Ho (ex_intro _ sv Hr) Hf)
    as (w' & E & _ & Ho' & sv' & [Hinv _ Hop _ (q' & Hq' & Htot) Hbef]).
  exists w', sv'. split_and!; [done..| |done|done].
  rewrite (ao_backlog _ _ _ _ Ho') in Hq'. injection Hq' as <-. simpl in Htot. lia.
Qed.
End accepting.

(** ** The end of a connection

    A connection of a server that serves it in its own loop (a server without
    threads). *)

Lemma existsb_map_false {A} (f : A -> bool) (m : gmap ptr A) :
  (forall p v, m !! p = Some v -> f v = false) -> existsb (fun e => f e.2) (map_to_list m) = false.
Proof.
  intros Hm. apply not_true_is_false. intros ((p & v) & Hin & Hf)%existsb_exists.
  apply list_elem_of_In, elem_of_map_to_list in Hin. simpl in Hf. by rewrite (Hm _ _ Hin) in Hf.
Qed.

Section life.
Context `{EpollReliable} `{!EpollFrame} `{!StreamLaws} `{!Inet} `{!UserCode}.
Variable user_holds : World -> ptr -> bool.
Variable conn : ptr.
Implicit Types (w : World) (s l : ptr) (sv : TcpServer) (co : TcpConnection)
  (ch : EventChannel) (lp : EventLoop).

(** Nobody but the server [s] has a share in the connection. *)
Record sole_owner w s : Prop := {
  so_servers s' sv : w_servers w !! s' = Some sv -> s' <> s -> server_owns conn sv = false;
  so_clients c cl : w_clients w !! c = Some cl -> client_owns conn cl = false;
  so_queues l lp : w_loops w !! l = Some lp -> loop_owns conn lp = false;
  so_user w' : user_holds w' conn = false
}.

(** The connection [conn] of the server [s], as its loop sees it. *)
Record served w s sv co ch lp st : Prop := {
  sd_core : conn_core w conn co ch lp st;
  sd_server : w_servers w !! s = Some sv;
  sd_loop : sv_server_loop_ sv = co_loop_ co;
  sd_close : co_close_cb_ co = Some (ServerRemoveConnection_cb s);
  sd_entry fd : sv_connections_ sv !! fd = Some conn -> fd = co_fd_ co;
  sd_other old : sv_connections_ sv !! co_fd_ co = Some old -> old = conn
}.

(** [CloseHandler] through the server. *)
Definition closed_loop co ch lp : EventLoop :=
  enqueue (ConnectDestoryed_task conn) (with_entry (ch_fd_ ch) (co_channel_ co) lp).

Lemma core_owners w co ch lp st svs :
  conn_core w conn co ch lp st -> conn_core (set_w_servers svs w) conn co ch lp st.
Proof. intros [? Hi Hch ? ?]. split; [done|by destruct Hi; split|by destruct Hch; split|done|done]. Qed.

Lemma run_close_served w s sv co ch lp st :
  user_observes -> served w s sv co ch lp st ->
  let co1 := co_set_state_ DISCONNECTED co in
  let ch1 := with_interest (fun _ => none_event_flag) ch in
  let sv1 := sv_set_connections_ (delete (co_fd_ co) (sv_connections_ sv)) sv in
  exists w', CloseHandler (call_close user_holds) conn w = Ok (tt, w') /\
    served w' s sv1 co1 ch1 (closed_loop co ch lp) st /\
    w_servers w' = <[s := sv1]> (w_servers w) /\ w_clients w' = w_clients w /\
    w_loops w' = <[co_loop_ co := closed_loop co ch lp]> (w_loops w).
Proof.
  intros Hu [Hc Hs Hl Hcb He Ho] co1 ch1 sv1.
  destruct (run_CloseHandler (call_close user_holds) conn w co ch lp st _ Hu Hc Hcb)
    as (w1 & E1 & Hc1 & _ & O1 & L1). fold co1 ch1 in Hc1.
  set (lp1 := with_entry (ch_fd_ ch) (co_channel_ co) lp) in *.
  injection O1 as Ocl Osv _ _.
  assert (w_loops w1 !! co_loop_ co = Some lp1) as Hl1 by apply Hc1.
  pose proof (co_thread _ _ _ _ _ (cc_chan _ _ _ _ _ _ Hc1)) as Ht1.
  rewrite E1. simpl.
  erewrite run_Server_RemoveConnection; [|rewrite Osv; exact Hs|rewrite Hl; exact Hl1].
  rewrite bool_decide_eq_true_2 by done.
  rewrite (run_RemoveConnectionInLoop _ w1 s sv conn co1 lp1); cycle 1.
  { by rewrite Osv. }
  { exists lp1. by rewrite Hl. }
  { apply Hc1. }
  { exact Hl1. }
  { exact Ho. }
  eexists. split; [reflexivity|]. simpl. rewrite Osv, Ocl, L1, insert_insert_eq.
  split_and!; [|done..]. split; simpl; try done.
  - pose proof (core_loop_update _ _ _ _ _ _ (closed_loop co ch lp)
      (core_owners _ _ _ _ _ (<[s := sv1]> (w_servers w)) Hc1) eq_refl eq_refl) as Hc2.
    simpl in Hc2. rewrite L1, insert_insert_eq in Hc2. exact Hc2.
  - by rewrite lookup_insert_eq.
  - intros fd [_ Hin]%lookup_delete_Some. by apply He.
  - intros old Hold. by rewrite lookup_delete_eq in Hold.
Qed.

(** ** Reclaiming *)

Lemma server_owns_deleted sv fd :
  (forall fd', sv_connections_ sv !! fd' = Some conn -> fd' = fd) ->
  server_owns conn (sv_set_connections_ (delete fd (sv_connections_ sv)) sv) = false.
Proof.
  intros He. unfold server_owns. simpl. apply not_true_is_false.
  intros ((fd' & c) & Hin & Hc%bool_decide_eq_true)%existsb_exists. simpl in Hc. subst c.
  apply list_elem_of_In, elem_of_map_to_list, lookup_delete_Some in Hin as [Hne Hin].
  by apply Hne, eq_sym, He.
Qed.

(** Only tasks of the loop [l] have a share in the connection. *)
Record loop_is_last w l : Prop := {
  ll_servers s sv : w_servers w !! s = Some sv -> server_owns conn sv = false;
  ll_clients c cl : w_clients w !! c = Some cl -> client_owns conn cl = false;
  ll_loops l' lp : w_loops w !! l' = Some lp -> l' <> l -> loop_owns conn lp = false;
  ll_user w' : user_holds w' conn = false
}.

(** ... as when the server [s] has let go ... *)
Lemma sole_owner_last w w' s sv' l :
  sole_owner w s -> w_servers w' = <[s := sv']> (w_servers w) -> server_owns conn sv' = false ->
  w_clients w' = w_clients w ->
  (forall l' lp, w_loops w' !! l' = Some lp -> l' <> l -> loop_owns conn lp = false) ->
  loop_is_last w' l.
Proof.
  intros [Hs Hc _ Hu] Es Hsv Ec Hl. split; [|by rewrite Ec|done|done].
  intros s1 sv1. rewrite Es. intros [[<- <-]|[Hne E]]%lookup_insert_Some; eauto.
Qed.

(** ... and without them nobody is left. *)
Lemma not_owned w w' lp' l :
  loop_is_last w l -> w_servers w' = w_servers w -> w_clients w' = w_clients w ->
  w_loops w' = <[l := lp']> (w_loops w) -> loop_owns conn lp' = false ->
  owned user_holds w' conn = false.
Proof.
  intros [Hs Hc Hq Hu] Es Ec El Hlp. unfold owned. rewrite Hu, orb_false_r, !orb_false_iff, Es, Ec.
  split; [split|]; apply existsb_map_false; [done|done|].
  intros l1 lp1. rewrite El. intros [[<- <-]|[Hne E]]%lookup_insert_Some; eauto.
Qed.

Lemma owners_servers w w' : owners w' = owners w -> w_servers w' = w_servers w.
Proof. by intros [= _ -> _ _]. Qed.

(** The task that [CloseHandler] has queued, in a loop that has no other. *)
Lemma run_destroy_task w1 co1 ch1 lp1 st :
  conn_core w1 conn co1 ch1 lp1 st -> loop_is_last w1 (co_loop_ co1) ->
  lo_queue_task_funcs_ lp1 = [ConnectDestoryed_task conn] ->
  co_state_ co1 = DISCONNECTED -> IsNoneEvent ch1 = true -> ch_poller_status_ ch1 <> NEW_CHANNEL ->
  removable lp1 (co_channel_ co1) -> co_socket_fd_ co1 = co_fd_ co1 ->
  po_epoll_fd_ (lo_poller_ lp1) <> co_fd_ co1 ->
  exists w' lp', RunTaskFuncs (exec user_holds) (release user_holds) (co_loop_ co1) w1 = Ok (tt, w') /\
    loop_inv w' (co_loop_ co1) lp' /\ lo_queue_task_funcs_ lp' = [] /\
    po_evt_channel_list_ (lo_poller_ lp') !! co_fd_ co1 = None /\
    w_conns w' = delete conn (w_conns w1) /\ w_channels w' !! co_channel_ co1 = None /\
    owners w' = owners w1 /\ exists k, w_kern w' = (sys_close (co_fd_ co1) k).2.
Proof.
  intros Hc Hlast Hq Hst Hn Hnew Hrem Hsock Hep.
  pose (lp2 := lo_set_queue_task_funcs_ [] lp1).
  pose proof (core_loop_update _ _ _ _ _ _ lp2 Hc eq_refl eq_refl) as Hc2.
  set (w2 := set_w_loops (<[co_loop_ co1 := lp2]> (w_loops w1)) w1) in *.
  destruct (run_ConnectDestoryed_closed conn w2 co1 ch1 lp2 st Hc2)
    as (w3 & E3 & Hinv3 & Hw3 & Hk3); [exact Hrem|done|done|by rewrite Hst|].
  set (lp3 := without_entry (co_fd_ co1) lp2) in *.
  set (ch3 := ch_set_poller_status_ NEW_CHANNEL ch1) in *.
  assert (w_conns w3 = w_conns w1 /\ w_servers w3 = w_servers w1 /\ w_clients w3 = w_clients w1 /\
    w_loops w3 = <[co_loop_ co1 := lp3]> (w_loops w1) /\ w_tid w3 = w_tid w1 /\
    w_channels w3 = <[co_channel_ co1 := ch3]> (w_channels w1)) as (C3 & S3 & K3 & L3 & T3 & Hch3).
  { rewrite Hw3. simpl. by rewrite insert_insert_eq. }
  assert (owned user_holds w3 conn = false) as Hno.
  { by eapply not_owned. }
  assert (loop_inv w3 (co_loop_ co1) lp3) as Hl3.
  { split; [done|]. rewrite T3. apply (cc_chan _ _ _ _ _ _ Hc). }
  assert (w_conns w3 !! conn = Some co1) as Hcn3 by (rewrite C3; apply Hc).
  assert (owners w3 = owners w1) as O3 by (by rewrite Hw3).
  destruct (destroyed_owners conn w3 co1) as [O4 _].
  exists (destroyed conn w3 co1), lp3. split.
  { unfold RunTaskFuncs. erewrite run_bind by (apply run_load; apply Hc). rewrite Hq.
    erewrite run_bind by reflexivity. change (heap_put _ w1) with w2.
    erewrite run_bind by exact E3. unfold release, release_conn. simpl.
    erewrite run_bind by reflexivity. rewrite Hno. by apply run_TcpConnection_destroy. }
  split; [|split; [done|split; [by apply lookup_delete_eq|split; [|split; [|split; [by rewrite O4|]]]]]].
  - eapply destroyed_loop_inv; [by rewrite Hch3; apply lookup_insert_eq|done|exact Hl3|by rewrite Hsock|].
    rewrite Hsock. exact Hk3.
  - unfold destroyed. autorewrite with world. simpl. by rewrite C3.
  - unfold destroyed. autorewrite with world. simpl. apply lookup_delete_eq.
  - exists (w_kern w3). unfold destroyed. autorewrite with world. by rewrite Hsock.
Qed.

(** C10: A closed connection is reclaimed.  For a connection that only its server
    owns, a user that only observes and an empty task queue: [CloseHandler], and then one round of the task queue, run through the
    server and back, take the connection out of the registry, out of the poller's
    table and out of the kernel's interest list, destroy the connection and its
    channel, and close its descriptor, which nothing refers to any more; the
    invariant of the loop holds and its queue is empty. *)
Theorem closed_connection_is_reclaimed w s sv co ch lp st :
  user_observes -> served w s sv co ch lp st -> sole_owner w s ->
  ch_poller_status_ ch = ADDED_CHANNEL -> removable lp (co_channel_ co) ->
  lo_queue_task_funcs_ lp = [] -> co_socket_fd_ co = co_fd_ co ->
  po_epoll_fd_ (lo_poller_ lp) <> co_fd_ co ->
  exists w' sv' lp' k, (do! CloseHandler (call_close user_holds) conn;
      RunTaskFuncs (exec user_holds) (release user_holds) (co_loop_ co)) w = Ok (tt, w') /\
    w_servers w' !! s = Some sv' /\ sv_connections_ sv' = delete (co_fd_ co) (sv_connections_ sv) /\
    w_conns w' !! conn = None /\ w_channels w' !! co_channel_ co = None /\
    loop_inv w' (co_loop_ co) lp' /\ lo_queue_task_funcs_ lp' = [] /\
    po_evt_channel_list_ (lo_poller_ lp') !! co_fd_ co = None /\
    w_kern w' = (sys_close (co_fd_ co) k).2.
Proof.
  intros Hu Hsd Hso Hst Hrem Hq Hsock Hep.
  destruct (run_close_served w s sv co ch lp st Hu Hsd) as (w1 & E1 & Hsd1 & S1 & C1 & L1).
  destruct (run_destroy_task w1 _ _ _ _ (sd_core _ _ _ _ _ _ _ Hsd1)) as
    (w' & lp' & E & Hl & Hq' & Ht & Cn & Ch & Sv%owners_servers & k & K).
  - apply (sole_owner_last w w1 s _ _ Hso S1); [apply server_owns_deleted, Hsd|exact C1|].
    intros l' lp1. rewrite L1. intros [[<- _]|[_ E]]%lookup_insert_Some Hne; [done|by eapply so_queues].
  - simpl. by rewrite Hq.
  - done.
  - done.
  - simpl. unfold interest_status. rewrite Hst. done.
  - exact Hrem.
  - done.
  - done.
  - exists w', (sv_set_connections_ (delete (co_fd_ co) (sv_connections_ sv)) sv), lp', k.
    split; [by erewrite run_bind by exact E1|]. rewrite Sv, S1, lookup_insert_eq, Cn, lookup_delete_eq.
    done.
Qed.

(** ** A connection of a working loop *)

(** [m], run by the thread [t]. *)
Definition on (t : tid) (m : M unit) : M unit := do! modify (set_w_tid t); m.

(** What the core of a connection depends on. *)
Lemma core_ext w w' co ch lp lp' st :
  conn_core w conn co ch lp st -> w_conns w' = w_conns w -> w_channels w' = w_channels w ->
  w_kern w' = w_kern w -> w_tid w' = w_tid w -> w_loops w' !! co_loop_ co = Some lp' ->
  lo_thread_id_ lp' = lo_thread_id_ lp -> lo_poller_ lp' = lo_poller_ lp ->
  conn_core w' conn co ch lp' st.
Proof.
  intros [? Hi [] ? ?] Ec Ech Ek Et Hl Elt Ep. split; rewrite ?Ec, ?Ek; try done.
  - eapply poller_inv_frame; [exact Hi|exact Hl|done|by rewrite Ep..|by rewrite Ek|by rewrite Ech].
  - split; rewrite ?Ech, ?Et, ?Ep, ?Elt; done.
Qed.

(** The server's part: the task that the connection's thread has queued. *)
Lemma run_remove_task w s sv co lp slp :
  w_servers w !! s = Some sv -> w_conns w !! conn = Some co -> w_loops w !! co_loop_ co = Some lp ->
  w_loops w !! sv_server_loop_ sv = Some slp -> w_tid w = lo_thread_id_ slp ->
  sv_server_loop_ sv <> co_loop_ co ->
  lo_queue_task_funcs_ slp = [RemoveConnectionInLoop_task s conn] ->
  (forall old, sv_connections_ sv !! co_fd_ co = Some old -> old = conn) ->
  let slp' := lo_set_queue_task_funcs_ [] slp in
  RunTaskFuncs (exec user_holds) (release user_holds) (sv_server_loop_ sv) w = Ok (tt,
    set_w_loops (<[co_loop_ co := enqueue (ConnectDestoryed_task conn) lp]>
      (<[sv_server_loop_ sv := slp']> (w_loops w)))
    (set_w_servers (<[s := sv_set_connections_ (delete (co_fd_ co) (sv_connections_ sv)) sv]> (w_servers w)) w)).
Proof.
  intros Hs Hco Hl Hsl Ht Hne Hq Hold slp'. unfold RunTaskFuncs. run1. rewrite Hq.
  erewrite run_bind by reflexivity. cbn [exec].
  set (w1 := heap_put _ w). pose (W := set_w_loops (<[sv_server_loop_ sv := slp']> (w_loops w)) w).
  change w1 with W. clear w1.
  erewrite run_bind.
  2:{ apply (run_RemoveConnectionInLoop _ W s sv conn co lp); [done| |done| |done].
      - exists slp'. simpl. by rewrite lookup_insert_eq.
      - simpl. by rewrite lookup_insert_ne. }
  unfold release, release_conn. simpl. erewrite run_bind by reflexivity.
  replace (owned user_holds _ conn) with true; [done|]. symmetry.
  unfold owned. apply orb_true_iff. left. apply orb_true_iff. right. apply existsb_exists.
  exists (co_loop_ co, enqueue (ConnectDestoryed_task conn) lp).
  split; [by apply list_elem_of_In, elem_of_map_to_list; simpl; rewrite lookup_insert_eq|].
  unfold loop_owns. simpl. rewrite existsb_app. simpl. rewrite bool_decide_eq_true_2 by done.
  by rewrite orb_true_r.
Qed.

(** The connection's part: [CloseHandler] on its own thread. *)
Lemma run_close_worker w s sv co ch lp st slp :
  user_observes -> conn_core w conn co ch lp st -> w_servers w !! s = Some sv ->
  co_close_cb_ co = Some (ServerRemoveConnection_cb s) -> sv_server_loop_ sv <> co_loop_ co ->
  w_loops w !! sv_server_loop_ sv = Some slp -> w_tid w <> lo_thread_id_ slp ->
  let lp1 := with_entry (ch_fd_ ch) (co_channel_ co) lp in
  let slp1 := enqueue (RemoveConnectionInLoop_task s conn) slp in
  exists w1, CloseHandler (call_close user_holds) conn w =
      Ok (tt, set_w_loops (<[sv_server_loop_ sv := slp1]> (w_loops w1)) w1) /\
    conn_core w1 conn (co_set_state_ DISCONNECTED co) (with_interest (fun _ => none_event_flag) ch) lp1 st /\
    w_servers w1 = w_servers w /\ w_clients w1 = w_clients w /\
    w_loops w1 = <[co_loop_ co := lp1]> (w_loops w).
Proof.
  intros Hu Hc Hs Hcb Hne Hsl Ht lp1 slp1.
  destruct (run_CloseHandler (call_close user_holds) conn w co ch lp st _ Hu Hc Hcb)
    as (w1 & E1 & Hc1 & _ & O1 & L1). injection O1 as Ocl Osv _ _.
  assert (w_loops w1 !! sv_server_loop_ sv = Some slp) as Hsl1 by (rewrite L1, lookup_insert_ne by done; done).
  exists w1. split; [|done]. rewrite E1. simpl.
  erewrite run_Server_RemoveConnection; [|rewrite Osv; exact Hs|exact Hsl1].
  rewrite bool_decide_eq_false_2.
  - unfold QueueInLoop. by erewrite run_update by exact Hsl1.
  - rewrite (co_thread _ _ _ _ _ (cc_chan _ _ _ _ _ _ Hc1)). simpl.
    by rewrite <-(co_thread _ _ _ _ _ (cc_chan _ _ _ _ _ _ Hc)).
Qed.

(** C16: A closed connection is reclaimed across threads.  The connection lives in a
    working loop, its server, its only owner, in another; the user only observes and
    both task queues are empty.  [CloseHandler] on the connection's
    thread, a round of the server's queue on the server's thread, and a round of
    the working loop's queue on its own thread take the connection out of the
    registry, out of the poller's table and out of the kernel's interest list,
    destroy it and its channel and close its descriptor: no assertion on the running
    thread fails, and nothing refers to the connection when it is destroyed. *)
Theorem closed_connection_is_reclaimed_across_threads w s sv co ch lp st slp :
  user_observes -> conn_core w conn co ch lp st -> w_servers w !! s = Some sv ->
  co_close_cb_ co = Some (ServerRemoveConnection_cb s) -> sole_owner w s ->
  (forall fd, sv_connections_ sv !! fd = Some conn -> fd = co_fd_ co) ->
  (forall old, sv_connections_ sv !! co_fd_ co = Some old -> old = conn) ->
  sv_server_loop_ sv <> co_loop_ co -> w_loops w !! sv_server_loop_ sv = Some slp ->
  w_tid w <> lo_thread_id_ slp -> lo_queue_task_funcs_ slp = [] -> lo_queue_task_funcs_ lp = [] ->
  ch_poller_status_ ch = ADDED_CHANNEL -> removable lp (co_channel_ co) ->
  co_socket_fd_ co = co_fd_ co -> po_epoll_fd_ (lo_poller_ lp) <> co_fd_ co ->
  let round l := RunTaskFuncs (exec user_holds) (release user_holds) l in
  exists w' sv' lp' k, (do! CloseHandler (call_close user_holds) conn;
      do! on (lo_thread_id_ slp) (round (sv_server_loop_ sv));
      on (w_tid w) (round (co_loop_ co))) w = Ok (tt, w') /\
    w_servers w' !! s = Some sv' /\ sv_connections_ sv' = delete (co_fd_ co) (sv_connections_ sv) /\
    w_conns w' !! conn = None /\ w_channels w' !! co_channel_ co = None /\
    loop_inv w' (co_loop_ co) lp' /\ po_evt_channel_list_ (lo_poller_ lp') !! co_fd_ co = None /\
    w_kern w' = (sys_close (co_fd_ co) k).2.
Proof.
  intros Hu Hc Hs Hcb Hso He Ho Hne Hsl Ht Hsq Hq Hst Hrem Hsock Hep round.
  destruct (run_close_worker w s sv co ch lp st slp) as (w1 & E1 & Hc1 & Osv & Ocl & L1); [done..|].
  set (lp1 := with_entry (ch_fd_ ch) (co_channel_ co) lp) in *.
  set (co1 := co_set_state_ DISCONNECTED co) in *.
  set (sv1 := sv_set_connections_ (delete (co_fd_ co) (sv_connections_ sv)) sv).
  set (slp1 := enqueue (RemoveConnectionInLoop_task s conn) slp) in *.
  pose (w2 := set_w_tid (lo_thread_id_ slp) (set_w_loops (<[sv_server_loop_ sv := slp1]> (w_loops w1)) w1)).
  assert (w_loops w1 !! co_loop_ co = Some lp1) as Hl1 by apply Hc1.
  epose proof (run_remove_task w2 s sv co1 lp1 slp1) as E2. cbv zeta in E2.
  match type of E2 with context[Ok (tt, ?x)] => set (w3 := x) in E2 end.
  pose (w4 := set_w_tid (w_tid w) w3).
  destruct (run_destroy_task w4 co1 (with_interest (fun _ => none_event_flag) ch) (enqueue (ConnectDestoryed_task conn) lp1) st) as
    (w' & lp' & E & Hl & Hq' & Htab & Cn & Ch & Sv%owners_servers & k & K).
  - eapply (core_ext w1); [exact Hc1|done..| |apply lookup_insert_eq|done|done].
    simpl. rewrite (co_thread _ _ _ _ _ (cc_chan _ _ _ _ _ _ Hc1)). apply (cc_chan _ _ _ _ _ _ Hc).
  - apply (sole_owner_last w w4 s sv1 _ Hso); [by simpl; rewrite Osv|by apply server_owns_deleted|done|].
    intros l' lp2. simpl. rewrite insert_insert_eq, L1, !lookup_insert_Some.
    intros [[<- _]|[_ [[_ <-]|[_ [[<- _]|[_ E]]]]]] Hn; [done|done|done|by eapply so_queues].
  - simpl. by rewrite Hq.
  - done.
  - done.
  - simpl. unfold interest_status. by rewrite Hst.
  - exact Hrem.
  - done.
  - done.
  - exists w', sv1, lp', k. split.
    + erewrite run_bind by exact E1. unfold on. rewrite run_bind_assoc.
      erewrite run_bind by reflexivity. fold w2. erewrite run_bind; [|apply E2].
      * erewrite run_bind by reflexivity. exact E.
      * simpl. by rewrite Osv.
      * apply Hc1.
      * simpl. by rewrite lookup_insert_ne.
      * simpl. by rewrite lookup_insert_eq.
      * done.
      * done.
      * simpl. by rewrite Hsq.
      * exact Ho.
    + rewrite Sv, Cn, lookup_delete_eq. split_and!; try done. simpl. by rewrite Osv, lookup_insert_eq.
Qed.

(** ** A connection that is closed twice *)

(** The first of two such tasks: the second keeps the connection alive, without an
    entry in the poller's table. *)
Lemma run_first_destroy_task w s sv co ch lp st :
  served w s sv co ch lp st ->
  lo_queue_task_funcs_ lp = [ConnectDestoryed_task conn; ConnectDestoryed_task conn] ->
  removable lp (co_channel_ co) -> IsNoneEvent ch = true -> ch_poller_status_ ch <> NEW_CHANNEL ->
  co_state_ co = DISCONNECTED ->
  let lp' := without_entry (co_fd_ co) (lo_set_queue_task_funcs_ [ConnectDestoryed_task conn] lp) in
  exists w', RunTaskFuncs (exec user_holds) (release user_holds) (co_loop_ co) w = Ok (tt, w') /\
    w_loops w' !! co_loop_ co = Some lp' /\ w_conns w' = w_conns w /\ w_tid w' = w_tid w /\
    w_channels w' !! co_channel_ co = Some (ch_set_poller_status_ NEW_CHANNEL ch) /\
    lo_thread_id_ lp' = po_thread_id_ (lo_poller_ lp').
Proof.
  intros Hsd Hq Hrem Hn Hnew Hst lp'. pose proof (sd_core _ _ _ _ _ _ _ Hsd) as Hc.
  pose proof (core_loop_update _ _ _ _ _ _
    (lo_set_queue_task_funcs_ [ConnectDestoryed_task conn] lp) Hc eq_refl eq_refl) as Hc1.
  destruct (run_ConnectDestoryed_closed conn _ co ch _ st Hc1)
    as (w' & E & Hinv & Hw & _); [exact Hrem|done|done|by rewrite Hst|]. fold lp' in Hinv, Hw.
  assert (w_loops w' !! co_loop_ co = Some lp') as Hl by apply Hinv.
  assert (owned user_holds w' conn = true) as Hown.
  { unfold owned. apply orb_true_iff. left. apply orb_true_iff. right. apply existsb_exists.
    exists (co_loop_ co, lp'). split; [by apply list_elem_of_In, elem_of_map_to_list|].
    unfold lp', loop_owns. simpl. by rewrite bool_decide_eq_true_2. }
  exists w'. split_and!; [|done|by rewrite Hw|by rewrite Hw|rewrite Hw; apply lookup_insert_eq|apply Hinv].
  unfold RunTaskFuncs. erewrite run_bind by (apply run_load; apply Hc). rewrite Hq.
  erewrite run_bind by reflexivity. cbn [exec]. erewrite run_bind by exact E.
  unfold release, release_conn. simpl. erewrite run_bind by reflexivity. by rewrite Hown.
Qed.

(** C35: A connection that is closed twice aborts the program.  The connection
    belongs to a server in its own loop, the user only observes, and the task queue is
    empty.  [CloseHandler] does
    not look at the state.  It runs twice, for instance, when a message callback
    sends to a peer that has reset the connection ([SendInLoop] closes on EPIPE)
    and [ReadHandler] then reads the end of the stream.  Both calls return, and the
    server has queued [ConnectDestoryed] each time.  The first one returns and takes
    the channel out of the poller's table; the second passes the assertions before
    it and fails the assertion of [EpollPoller::RemoveEventChannel] that the channel
    is in that table. *)
Theorem closing_twice_aborts w s sv co ch lp st :
  user_observes -> served w s sv co ch lp st ->
  ch_poller_status_ ch = ADDED_CHANNEL -> removable lp (co_channel_ co) ->
  lo_queue_task_funcs_ lp = [] ->
  let run := RunTaskFuncs (exec user_holds) (release user_holds) (co_loop_ co) in
  let close := CloseHandler (call_close user_holds) conn in
  exists w2 lp2 w3 lp3, (do! close; close) w = Ok (tt, w2) /\ w_loops w2 !! co_loop_ co = Some lp2 /\
    lo_queue_task_funcs_ lp2 = [ConnectDestoryed_task conn; ConnectDestoryed_task conn] /\
    run w2 = Ok (tt, w3) /\ w_loops w3 !! co_loop_ co = Some lp3 /\
    lo_queue_task_funcs_ lp3 = [ConnectDestoryed_task conn] /\
    po_evt_channel_list_ (lo_poller_ lp3) !! co_fd_ co = None /\
    let w4 := set_w_loops (<[co_loop_ co := lo_set_queue_task_funcs_ [] lp3]> (w_loops w3)) w3 in
    ConnectDestoryed conn w4 = EpollPoller_RemoveEventChannel (co_loop_ co) (co_channel_ co) w4 /\
    EpollPoller_RemoveEventChannel (co_loop_ co) (co_channel_ co) w4 = Err AssertFailure /\
    run w3 = Err AssertFailure.
Proof.
  intros Hu Hsd Hst Hrem Hq run close.
  destruct (run_close_served w s sv co ch lp st Hu Hsd) as (w1 & E1 & Hsd1 & _ & _ & _).
  destruct (run_close_served w1 s _ _ _ _ st Hu Hsd1) as (w2 & E2 & Hsd2 & _ & _ & _).
  pose proof (sd_core _ _ _ _ _ _ _ Hsd2) as Hc.
  destruct (run_first_destroy_task _ _ _ _ _ _ _ Hsd2) as (w3 & E3 & Hl3 & C3 & T3 & H3' & Htp3);
    [unfold closed_loop; simpl; by rewrite Hq|exact Hrem|done|simpl; unfold interest_status; by rewrite Hst|done|].
  eexists w2, _, w3, _. split; [by erewrite run_bind by exact E1|]. split; [apply Hc|].
  split; [unfold closed_loop; simpl; by rewrite Hq|]. split; [exact E3|]. split; [exact Hl3|]. split; [done|].
  split; [apply lookup_delete_eq|]. intros w4.
  assert (w_tid w4 = lo_thread_id_ lp) as Ht by (simpl; rewrite T3; apply (cc_chan _ _ _ _ _ _ Hc)).
  assert (ConnectDestoryed conn w4 = EpollPoller_RemoveEventChannel (co_loop_ co) (co_channel_ co) w4) as Ed.
  { eapply (run_ConnectDestoryed_removal conn w4 (co_set_state_ DISCONNECTED (co_set_state_ DISCONNECTED co)));
      [simpl; rewrite C3; apply Hc|simpl; apply lookup_insert_eq|exact Ht
      |exact H3'|apply (cc_chan _ _ _ _ _ _ Hc)|exact Hrem|done]. }
  assert (EpollPoller_RemoveEventChannel (co_loop_ co) (co_channel_ co) w4 = Err AssertFailure) as Ea.
  { eapply run_RemoveEventChannel_absent; [simpl; apply lookup_insert_eq|exact H3'|rewrite Ht; exact Htp3|].
    simpl. rewrite <-(cc_fd _ _ _ _ _ _ (sd_core _ _ _ _ _ _ _ Hsd)). apply lookup_delete_eq. }
  split; [exact Ed|]. split; [exact Ea|]. unfold run, RunTaskFuncs.
  erewrite run_bind by (apply run_load; exact Hl3). simpl. erewrite run_bind by reflexivity. unfold bind.
  match goal with |- context [ConnectDestoryed conn ?x] => change x with w4 end. by rewrite Ed, Ea.
Qed.
End life.

(** ** The end of a client *)

Section client_end.
Context `{EpollReliable} `{!EpollFrame} `{!StreamLaws} `{!Inet} `{!UserCode}.
Variable user_holds : World -> ptr -> bool.
Implicit Types (w : World) (c conn l : ptr) (cl : TcpClient) (co : TcpConnection)
  (ch : EventChannel) (lp : EventLoop).

(** Registering a new channel for a descriptor that the table still has. *)
Lemma enable_stale w l lp c ch old :
  w_loops w !! l = Some lp -> w_tid w = po_thread_id_ (lo_poller_ lp) ->
  w_channels w !! c = Some ch -> ch_event_loop_ ch = l -> ch_poller_status_ ch = NEW_CHANNEL ->
  po_evt_channel_list_ (lo_poller_ lp) !! ch_fd_ ch = Some old ->
  EnableReading c w = Err AssertFailure.
Proof.
  intros Hl Ht Hc El Hst Htab. unfold EnableReading, set_interest, EventLoop_UpdateEventChannel,
    EpollPoller_UpdateEventChannel.
  run1. run1. simpl. rewrite El. run1. rewrite run_assert_owner by done. run1. simpl.
  rewrite Hst, Htab. by rewrite bool_decide_eq_false_2.
Qed.

(** Nobody but the client [c] has a share in the connection. *)
Record client_sole_owner w c conn : Prop := {
  cso_servers s sv : w_servers w !! s = Some sv -> server_owns conn sv = false;
  cso_clients c' cl : w_clients w !! c' = Some cl -> c' <> c -> client_owns conn cl = false;
  cso_queues l lp : w_loops w !! l = Some lp -> loop_owns conn lp = false;
  cso_user w' : user_holds w' conn = false
}.

Lemma client_not_owned w c conn cs :
  client_sole_owner w c conn ->
  owned user_holds (set_w_clients (delete c (w_clients w)) (set_w_conns cs w)) conn = false.
Proof.
  intros [Hs Hc Hq Hu]. unfold owned. rewrite Hu, orb_false_r, !orb_false_iff.
  split; [split|]; apply existsb_map_false; simpl; [done| |done].
  intros c' cl' [Hne E]%lookup_delete_Some. by apply (Hc c').
Qed.

(** The world after the destructor of a client. *)
Definition client_gone w c cl conn co : World :=
  let co1 := co_set_close_cb_ (Some (FreeRemoveConnection_cb (cl_loop_ cl))) co in
  let w1 := set_w_clients (delete c (w_clients w)) (set_w_conns (<[conn := co1]> (w_conns w)) w) in
  set_w_connectors (delete (cl_connector_ cl) (w_connectors w)) (destroyed conn w1 co1).

Lemma run_TcpClient_destroy w c cl conn co lp ct :
  w_clients w !! c = Some cl -> cl_connection_ cl = Some conn -> client_sole_owner w c conn ->
  w_conns w !! conn = Some co -> w_loops w !! cl_loop_ cl = Some lp -> w_tid w = lo_thread_id_ lp ->
  w_connectors w !! cl_connector_ cl = Some ct -> ct_channel_ ct = None ->
  TcpClient_destroy (exec user_holds) (release_conn user_holds) c w = Ok (tt, client_gone w c cl conn co).
Proof.
  intros Hcl Hcn Hso Hconn Hl Ht Hct Hctch. unfold client_gone. set (co1 := co_set_close_cb_ _ co).
  set (w1 := set_w_clients _ _).
  assert (w_connectors (destroyed conn w1 co1) = w_connectors w) as Hct2
    by (unfold destroyed; by autorewrite with world).
  unfold TcpClient_destroy. run1. rewrite Hcn. unfold RunInLoop. rewrite run_bind_assoc.
  erewrite run_bind by by apply run_IsInLoopThread.
  rewrite bool_decide_eq_true_2 by done. unfold exec, SetCloseCB. run1.
  erewrite run_bind by reflexivity. change (heap_put _ (heap_put _ w)) with w1.
  unfold release_conn. rewrite run_bind_assoc. erewrite run_bind by reflexivity.
  unfold w1 at 1. rewrite client_not_owned by done. fold w1.
  erewrite run_bind by (apply (run_TcpConnection_destroy conn w1 co1); simpl; apply lookup_insert_eq).
  unfold reset_channel. rewrite run_bind_assoc.
  erewrite run_bind by (apply (run_load (cl_connector_ cl) ct);
    change (w_connectors (destroyed conn w1 co1) !! cl_connector_ cl = Some ct); by rewrite Hct2).
  rewrite run_bind_assoc. erewrite run_bind by reflexivity. rewrite Hctch. erewrite run_bind by reflexivity.
  unfold free, modify. cbn. rewrite Hct2. f_equal. f_equal.
  unfold set_w_connectors; simpl. by rewrite delete_insert_eq.
Qed.

(** Destroying a client leaves a dangling entry.  [~TcpClient], on the loop's
    thread, with an established connection that nobody else owns: only the close
    callback is replaced, and then the connection and its channel are destroyed
    and the descriptor is closed, while the poller's table keeps the address of
    the channel under the descriptor.  The kernel hands the descriptor out again;
    the next channel for it fails the assertion of the poller when it is enabled. *)
Theorem client_destructor_leaves_stale_entry w c cl conn co ch lp st ct :
  w_clients w !! c = Some cl -> cl_connection_ cl = Some conn -> client_sole_owner w c conn ->
  conn_core w conn co ch lp st -> co_loop_ co = cl_loop_ cl -> ch_poller_status_ ch = ADDED_CHANNEL ->
  w_connectors w !! cl_connector_ cl = Some ct -> ct_channel_ ct = None ->
  exists w', TcpClient_destroy (exec user_holds) (release_conn user_holds) c w = Ok (tt, w') /\
    w_conns w' !! conn = None /\ w_channels w' !! co_channel_ co = None /\
    w_kern w' = (sys_close (co_socket_fd_ co) (w_kern w)).2 /\ w_loops w' !! co_loop_ co = Some lp /\
    po_evt_channel_list_ (lo_poller_ lp) !! co_fd_ co = Some (co_channel_ co) /\
    forall w2 c2 ch2, w_loops w2 = w_loops w' -> w_tid w2 = w_tid w' ->
      w_channels w2 !! c2 = Some ch2 -> ch_event_loop_ ch2 = co_loop_ co ->
      ch_poller_status_ ch2 = NEW_CHANNEL -> ch_fd_ ch2 = co_fd_ co ->
      EnableReading c2 w2 = Err AssertFailure.
Proof.
  intros Hcl Hcn Hso Hc El Hst Hct Hctch.
  pose proof (core_loop _ _ _ _ _ _ Hc) as Hl.
  pose proof (co_thread _ _ _ _ _ (cc_chan _ _ _ _ _ _ Hc)) as Ht.
  assert (po_evt_channel_list_ (lo_poller_ lp) !! co_fd_ co = Some (co_channel_ co)) as Htab.
  { rewrite <-(cc_fd _ _ _ _ _ _ Hc). apply (pi_chan _ _ _ (cc_inv _ _ _ _ _ _ Hc));
      [apply Hc|apply Hc|by rewrite Hst]. }
  exists (client_gone w c cl conn co).
  split; [eapply run_TcpClient_destroy; try done; [apply Hc|by rewrite <-El]|].
  assert (w_loops (client_gone w c cl conn co) = w_loops w /\ w_tid (client_gone w c cl conn co) = w_tid w)
    as [Hlg Htg] by (unfold client_gone, destroyed; simpl; by autorewrite with world).
  split_and!; [| | |by rewrite Hlg|done|].
  1,2,3: unfold client_gone, destroyed; simpl; autorewrite with world; simpl;
    rewrite ?lookup_delete_eq; done.
  intros w3 c2 ch2 Hw3 Ht3 Hc2 Hlo2 Hst2 Hfd2. eapply enable_stale; [..|by rewrite Hfd2]; try done.
  - by rewrite Hw3, Hlg.
  - rewrite Ht3, Htg, Ht. apply (cc_inv _ _ _ _ _ _ Hc).
Qed.
End client_end.

(** ** Witnesses *)

Definition demo_owned_conn (cb : close_cb) : TcpConnection :=
  co_set_close_cb_ (Some cb) (demo_conn CONNECTED []).

Definition demo_owned (cb : close_cb) : @World RefKernel :=
  demo_connected (demo_sock [] 10) read_event_flag (demo_owned_conn cb).

Lemma demo_owned_core cb :
  conn_core (demo_owned cb) 20 (demo_owned_conn cb) (demo_channel 5 read_event_flag 0 ADDED_CHANNEL)
    (demo_loop {[5 := 7%positive]} [] []) (mkStream [] [] false).
Proof.
  pose proof (demo_conn_core [] 10 read_event_flag CONNECTED [] eq_refl) as [? Hi Hch ? ?].
  split; [done|by destruct Hi; split|by destruct Hch; split|done|done].
Qed.

(** A server (address 40) without threads. *)
Definition demo_own_server : TcpServer :=
  mkTcpServer 0 true 1 (Some (demo_pool 0 0 [])) 30 {[5 := 20%positive]} None None None
    (Some (ServerRemoveConnection_cb 40)) None None.
Definition demo_own_world : @World RefKernel :=
  set_w_servers {[40%positive := demo_own_server]} (demo_owned (ServerRemoveConnection_cb 40)).

Definition demo_holds (w : @World RefKernel) (conn : ptr) : bool := false.

Lemma demo_served :
  served 20 demo_own_world 40 demo_own_server (demo_owned_conn (ServerRemoveConnection_cb 40))
    (demo_channel 5 read_event_flag 0 ADDED_CHANNEL) (demo_loop {[5 := 7%positive]} [] [])
    (mkStream [] [] false).
Proof.
  split; try done.
  - apply core_owners, demo_owned_core.
  - intros fd E. simpl in E. by apply lookup_singleton_Some in E as [<- _].
  - intros old E. simpl in E. by simplify_map_eq.
Qed.

Lemma demo_sole_owner : sole_owner demo_holds 20 demo_own_world 40.
Proof.
  split; [| | |done]; simpl.
  - intros s' sv E Hne. by apply lookup_singleton_Some in E as [<- _].
  - intros c cl E. by rewrite lookup_empty in E.
  - intros l lp E. by apply lookup_singleton_Some in E as [_ <-].
Qed.

Lemma closed_connection_is_reclaimed_witness :
  exists w', (do! CloseHandler (call_close demo_holds) 20;
      RunTaskFuncs (exec demo_holds) (release demo_holds) 1) demo_own_world = Ok (tt, w') /\
    w_conns w' !! 20%positive = None /\ w_channels w' !! 7%positive = None.
Proof.
  destruct (closed_connection_is_reclaimed demo_holds 20 demo_own_world 40 demo_own_server
    (demo_owned_conn (ServerRemoveConnection_cb 40)) (demo_channel 5 read_event_flag 0 ADDED_CHANNEL)
    (demo_loop {[5 := 7%positive]} [] []) (mkStream [] [] false))
    as (w' & sv' & lp' & k & E & _ & _ & Hc & Hch & _).
  - apply demo_user_observes.
  - apply demo_served.
  - apply demo_sole_owner.
  - reflexivity.
  - by left.
  - reflexivity.
  - reflexivity.
  - done.
  - exists w'. split; [exact E|]. split; [exact Hc|exact Hch].
Defined.

(** The same connection, with its server in the loop at address 2 of the thread 9. *)
Definition demo_server_loop : EventLoop :=
  mkEventLoop 9 "server"%string false true (mkEpollPoller 9 ∅ 33 16) 34 3 [] None [].
Definition demo_remote_server : TcpServer :=
  mkTcpServer 0 true 2 (Some (demo_pool 0 0 [])) 30 {[5 := 20%positive]} None None None
    (Some (ServerRemoveConnection_cb 40)) None None.
Definition demo_two_loops : @World RefKernel :=
  set_w_loops {[1%positive := demo_loop {[5 := 7%positive]} [] []; 2%positive := demo_server_loop]}
    (set_w_servers {[40%positive := demo_remote_server]} (demo_owned (ServerRemoveConnection_cb 40))).

Lemma closed_connection_is_reclaimed_across_threads_witness :
  exists w', (do! CloseHandler (call_close demo_holds) 20;
      do! on 9 (RunTaskFuncs (exec demo_holds) (release demo_holds) 2);
      on 1 (RunTaskFuncs (exec demo_holds) (release demo_holds) 1)) demo_two_loops = Ok (tt, w') /\
    w_conns w' !! 20%positive = None /\ w_channels w' !! 7%positive = None.
Proof.
  destruct (closed_connection_is_reclaimed_across_threads demo_holds 20 demo_two_loops 40 demo_remote_server
    (demo_owned_conn (ServerRemoveConnection_cb 40)) (demo_channel 5 read_event_flag 0 ADDED_CHANNEL)
    (demo_loop {[5 := 7%positive]} [] []) (mkStream [] [] false) demo_server_loop)
    as (w' & sv' & lp' & k & E & _ & _ & Hc & Hch & _).
  - apply demo_user_observes.
  - eapply core_ext; [apply (demo_owned_core (ServerRemoveConnection_cb 40))|reflexivity..].
  - reflexivity.
  - reflexivity.
  - split; [| | |done]; simpl.
    + intros s' sv E Hne. by apply lookup_singleton_Some in E as [<- _].
    + intros c cl E. by rewrite lookup_empty in E.
    + intros l lp [[_ <-]|[_ [_ <-]%lookup_singleton_Some]]%lookup_insert_Some; reflexivity.
  - intros fd E. simpl in E. by apply lookup_singleton_Some in E as [<- _].
  - intros old E. simpl in E. by simplify_map_eq.
  - done.
  - reflexivity.
  - done.
  - reflexivity.
  - reflexivity.
  - reflexivity.
  - by left.
  - reflexivity.
  - done.
  - exists w'. split; [exact E|]. split; [exact Hc|exact Hch].
Defined.

Lemma closing_twice_aborts_witness :
  let run := RunTaskFuncs (exec demo_holds) (release demo_holds) 1 in
  let close := CloseHandler (call_close demo_holds) 20 in
  (do! close; do! close; do! run; run) demo_own_world = Err AssertFailure.
Proof.
  intros run close.
  destruct (closing_twice_aborts demo_holds 20 demo_own_world 40 demo_own_server
    (demo_owned_conn (ServerRemoveConnection_cb 40)) (demo_channel 5 read_event_flag 0 ADDED_CHANNEL)
    (demo_loop {[5 := 7%positive]} [] []) (mkStream [] [] false))
    as (w2 & lp2 & w3 & lp3 & E2 & _ & _ & E3 & _ & _ & _ & _ & _ & E4).
  - apply demo_user_observes.
  - apply demo_served.
  - reflexivity.
  - by left.
  - reflexivity.
  - rewrite <-(run_bind_assoc close), (run_bind _ _ _ _ _ E2), (run_bind _ _ _ _ _ E3). exact E4.
Defined.

(** A client (address 50) with its connector (address 40). *)
Definition demo_own_client : @World RefKernel :=
  set_w_connectors {[40%positive := demo_connector [] None]}
    (set_w_clients {[50%positive := demo_client_obj (Some 20%positive)]}
      (demo_owned (ClientRemoveConnection_cb 50))).

Lemma demo_own_client_sole : client_sole_owner demo_holds demo_own_client 50 20.
Proof.
  split; [| | |done]; simpl.
  - intros s sv E. by rewrite lookup_empty in E.
  - intros c' cl E Hne. by apply lookup_singleton_Some in E as [<- _].
  - intros l lp E. by apply lookup_singleton_Some in E as [_ <-].
Qed.

Lemma demo_own_client_core :
  conn_core demo_own_client 20 (demo_owned_conn (ClientRemoveConnection_cb 50))
    (demo_channel 5 read_event_flag 0 ADDED_CHANNEL) (demo_loop {[5 := 7%positive]} [] []) (mkStream [] [] false).
Proof.
  destruct (demo_owned_core (ClientRemoveConnection_cb 50)) as [? Hi Hch ? ?].
  split; [done|by destruct Hi; split|by destruct Hch; split|done|done].
Qed.

Lemma client_destructor_leaves_stale_entry_witness :
  exists w', TcpClient_destroy (exec demo_holds) (release_conn demo_holds) 50 demo_own_client = Ok (tt, w') /\
    w_channels w' !! 7%positive = None.
Proof.
  destruct (client_destructor_leaves_stale_entry demo_holds demo_own_client 50
    (demo_client_obj (Some 20%positive)) 20 (demo_owned_conn (ClientRemoveConnection_cb 50))
    (demo_channel 5 read_event_flag 0 ADDED_CHANNEL) (demo_loop {[5 := 7%positive]} [] [])
    (mkStream [] [] false) (demo_connector [] None)) as (w' & E & _ & Hch & _).
  - reflexivity.
  - reflexivity.
  - apply demo_own_client_sole.
  - apply demo_own_client_core.
  - reflexivity.
  - reflexivity.
  - reflexivity.
  - reflexivity.
  - exists w'. split; [exact E|exact Hch].
Defined.

(** Two connections wait at the acceptor (address 30, descriptor 1) of a server
    without threads. *)
Definition demo_ready_server : TcpServer :=
  mkTcpServer 0 true 1 (Some (demo_pool 0 0 [])) 30 ∅ None None None
    (Some (ServerRemoveConnection_cb 40)) None None.
Definition demo_ready : @World RefKernel :=
  set_w_servers {[40%positive := demo_ready_server]} (demo_listening 0 [[x01]; [x02]] ∅).

Lemma waiting_connections_are_registered_witness :
  exists w' sv', AcceptHandle (NewConnected (release_conn demo_holds)) 3 30 [] demo_ready = Ok (tt, w') /\
    server_inv w' 40 sv' /\ size (sv_connections_ sv') = 2%nat.
Proof.
  destruct (waiting_connections_are_registered (release_conn demo_holds) 3 demo_ready 40 30 demo_acceptor
    demo_ready_server [[x01]; [x02]] []) as (w' & sv' & E & _ & Hinv & Hsize & _).
  - reflexivity.
  - split; [reflexivity| |reflexivity]. by exists (demo_loop ∅ [] []).
  - simpl. lia.
  - split; try done.
    + split; [done|by eexists|done|..]; simpl.
      * intros fd conn E. by rewrite lookup_empty in E.
      * intros conn [co E]. by rewrite lookup_empty in E.
    + intros fd [conn E]. simpl in E. by rewrite lookup_empty in E.
    + exists (demo_pool 0 0 []). split; [done|]. intros hash _. exists 1%positive. by split; [|eexists].
    + by exists [[x01]; [x02]].
  - exists w', sv'. split; [exact E|]. split; [exact Hinv|exact Hsize].
Defined.
