(* ===== verification/Contract.v ===== *)
(** * Contract: what a server promises its user

    The abstract specification of a [TcpServer]: a labelled transition system whose
    states are the live connections with the state each is in, and whose labels are
    the calls of the user's callbacks.  There are five steps; a connection goes
    through its states in one order and the user hears of each change once.  The
    consequence the user relies on is about each connection by itself: what is heard
    of it is a conversation, the news that it is established, messages, the news
    that it is closed, and then nothing.

    Serving.v shows that the loop of a server takes no other steps. *)

From stdpp Require Import base list gmap.
From Stdlib Require Import ZArith Lia.
From S2P Require Import Prelude Kernel State World.

(** The callbacks that the user has installed. *)
Record policy := mkPolicy {
  p_status : option user_cb;
  p_msg : option user_cb
}.

(** The live connections; no address from [c_next] on has been used. *)
Record contract := mkContract {
  c_conns : gmap ptr ConnState;
  c_next : ptr
}.

(** The user is told of a state, when there is a callback for it. *)
Definition told (p : policy) (conn : ptr) (st : ConnState) : list user_event :=
  match p_status p with Some cb => [ConnStatus_ev cb conn st] | None => [] end.

(** ** The steps *)

Inductive contract_step (p : policy) : contract -> list user_event -> contract -> Prop :=
| Accepts m n n' conn :
    (n <= conn < n')%positive ->
    contract_step p (mkContract m n) [] (mkContract (<[conn := CONNECTING]> m) n')
| Establishes m n conn :
    m !! conn = Some CONNECTING ->
    contract_step p (mkContract m n) (told p conn CONNECTED) (mkContract (<[conn := CONNECTED]> m) n)
| Delivers m n conn cb :
    m !! conn = Some CONNECTED -> p_msg p = Some cb ->
    contract_step p (mkContract m n) [Message_ev cb conn] (mkContract m n)
| Closes m n conn :
    m !! conn = Some CONNECTED ->
    contract_step p (mkContract m n) (told p conn DISCONNECTED) (mkContract (<[conn := DISCONNECTED]> m) n)
| Reclaims m n conn :
    m !! conn = Some DISCONNECTED ->
    contract_step p (mkContract m n) [] (mkContract (delete conn m) n).

(** Any number of steps, with what the user is told during them. *)
Inductive contract_runs (p : policy) (c : contract) : list user_event -> contract -> Prop :=
| runs_refl : contract_runs p c [] c
| runs_step evs c' es c'' :
    contract_runs p c evs c' -> contract_step p c' es c'' -> contract_runs p c (evs ++ es) c''.

Lemma runs_one p c es c' : contract_step p c es c' -> contract_runs p c es c'.
Proof. intros Hs. apply (runs_step p c [] c es); [constructor|done]. Qed.

Lemma runs_trans p c1 c2 c3 evs1 evs2 :
  contract_runs p c1 evs1 c2 -> contract_runs p c2 evs2 c3 -> contract_runs p c1 (evs1 ++ evs2) c3.
Proof.
  intros H1. induction 1 as [|evs c' es c'' _ IH Hs]; [by rewrite app_nil_r|].
  rewrite app_assoc. by eapply runs_step.
Qed.

#[export] Hint Constructors contract_step contract_runs : np.
#[export] Hint Resolve runs_one : np.

(** Messages of one connection. *)
Definition delivery (p : policy) (conn : ptr) (ev : user_event) : Prop :=
  exists cb, p_msg p = Some cb /\ ev = Message_ev cb conn.

Lemma runs_deliveries p c conn ms :
  c_conns c !! conn = Some CONNECTED -> Forall (delivery p conn) ms -> contract_runs p c ms c.
Proof.
  intros Hc. destruct c as [m n]. induction 1 as [|ev ms (cb & Hcb & ->) _ IH]; [constructor|].
  apply (runs_trans _ _ (mkContract m n) _ [_] ms); [|done]. by apply runs_one, Delivers.
Qed.

(** ** Conversations *)

Definition event_conn (ev : user_event) : option ptr :=
  match ev with
  | Message_ev _ conn | ConnStatus_ev _ conn _ | Written_ev _ conn | HighWater_ev _ conn _ | Close_ev _ conn => Some conn
  | Channel_ev _ | Task_ev _ => None
  end.

(** What is heard of one connection. *)
Definition heard_of (conn : ptr) (evs : list user_event) : list user_event :=
  base.filter (fun ev => event_conn ev = Some conn) evs.

(** Established, with the messages [ms] since. *)
Definition opened p conn (ms : list user_event) : list user_event := told p conn CONNECTED ++ ms.

Definition conversation (p : policy) (conn : ptr) (c : contract) (evs : list user_event) : Prop :=
  match c_conns c !! conn with
  | Some CONNECTING => evs = []
  | Some CONNECTED => exists ms, Forall (delivery p conn) ms /\ evs = opened p conn ms
  | Some DISCONNECTING => False
  | Some DISCONNECTED => exists ms, Forall (delivery p conn) ms /\ evs = opened p conn ms ++ told p conn DISCONNECTED
  | None => evs = [] \/ exists ms, Forall (delivery p conn) ms /\ evs = opened p conn ms ++ told p conn DISCONNECTED
  end.

Lemma heard_of_app conn evs evs' : heard_of conn (evs ++ evs') = heard_of conn evs ++ heard_of conn evs'.
Proof. apply filter_app. Qed.

Lemma heard_of_told p conn conn' st :
  heard_of conn (told p conn' st) = if decide (conn = conn') then told p conn' st else [].
Proof.
  unfold heard_of, told. destruct (p_status p) as [cb|]; [|by case_decide].
  case_decide as Hc; subst; [by rewrite filter_cons_True|]. by rewrite filter_cons_False by (simpl; congruence).
Qed.

Lemma heard_of_message conn conn' cb :
  heard_of conn [Message_ev cb conn'] = if decide (conn = conn') then [Message_ev cb conn'] else [].
Proof.
  unfold heard_of. case_decide as Hc; subst; [by rewrite filter_cons_True|].
  by rewrite filter_cons_False by (simpl; congruence).
Qed.

(** Addresses that have not been used have not been heard of. *)
Definition unused (c : contract) (evs : list user_event) : Prop :=
  forall conn, (c_next c <= conn)%positive -> c_conns c !! conn = None /\ heard_of conn evs = [].

Definition conversations (p : policy) (c : contract) (evs : list user_event) : Prop :=
  unused c evs /\ forall conn, conversation p conn c (heard_of conn evs).

(** A step concerns one connection, which is live before or after it. *)
Lemma step_local p c es c' :
  contract_step p c es c' -> exists x, heard_of x es = es /\
    (is_Some (c_conns c !! x) \/ (x < c_next c')%positive) /\ (c_next c <= c_next c')%positive /\
    forall y, y <> x -> c_conns c' !! y = c_conns c !! y /\ heard_of y es = [].
Proof.
  intros [m n n' x Hx|m n x Hx|m n x cb Hx Hcb|m n x Hx|m n x Hx]; exists x; cbn [c_conns c_next].
  all: rewrite ?heard_of_told, ?heard_of_message, ?decide_True by done.
  all: split_and!; [done|first [left; by eexists|right; lia]|lia|].
  all: intros y Hy; rewrite ?heard_of_told, ?heard_of_message, ?decide_False by done.
  all: by rewrite ?lookup_insert_ne, ?lookup_delete_ne by done.
Qed.

Lemma unused_step p c es c' evs : unused c evs -> contract_step p c es c' -> unused c' (evs ++ es).
Proof.
  intros Hu Hs y Hy. destruct (step_local _ _ _ _ Hs) as (x & _ & Hx & Hn & Ho).
  destruct (Hu y) as [Hm He]; [lia|]. destruct (Ho y) as [Hm' He'].
  - intros ->. destruct Hx as [[st Hx]|]; [congruence|lia].
  - by rewrite Hm', heard_of_app, He, He'.
Qed.

(** Every step carries the conversations on. *)
Lemma conversations_step p c es c' evs :
  conversations p c evs -> contract_step p c es c' -> conversations p c' (evs ++ es).
Proof.
  intros [Hu Hc] Hs. split; [by eapply unused_step|]. intros y. specialize (Hc y). unfold conversation in *.
  destruct Hs as [m n n' x Hx|m n x Hx|m n x cb Hx Hcb|m n x Hx|m n x Hx]; cbn [c_conns c_next] in *.
  all: rewrite ?heard_of_app, ?heard_of_told, ?heard_of_message, ?app_nil_r; destruct (decide (y = x)) as [->|Hne].
  all: rewrite ?lookup_insert_ne, ?lookup_delete_ne, ?app_nil_r by done; try exact Hc.
  all: rewrite ?lookup_insert_eq, ?lookup_delete_eq, ?Hx in *.
  - by destruct (Hu x) as [_ ?]; [simpl; lia|].
  - exists []. split; [constructor|]. unfold opened. by rewrite Hc, app_nil_r.
  - destruct Hc as (ms & Hms & ->). exists (ms ++ [Message_ev cb x]). split.
    + apply Forall_app. split; [done|]. apply Forall_singleton. by exists cb.
    + unfold opened. by rewrite app_assoc.
  - destruct Hc as (ms & Hms & ->). eauto.
  - by right.
Qed.

Lemma conversations_runs p c evs0 evs c' :
  contract_runs p c evs c' -> conversations p c evs0 -> conversations p c' (evs0 ++ evs).
Proof.
  induction 1 as [|evs c1 es c2 _ IH Hs]; intros Hc; [by rewrite app_nil_r|].
  rewrite app_assoc. eapply conversations_step; [by apply IH|done].
Qed.

(** From the start, all that is heard of a connection is a conversation. *)
Lemma runs_conversations p n evs c :
  contract_runs p (mkContract ∅ n) evs c -> forall conn, conversation p conn c (heard_of conn evs).
Proof.
  intros Hr. assert (conversations p (mkContract ∅ n) []) as Hc; [|by apply (conversations_runs _ _ _ _ _ Hr Hc)].
  split; [done|]. intros conn. unfold conversation. simpl. rewrite lookup_empty. by left.
Qed.
