(* ===== verification/Service.v ===== *)
(** * Service: the invariant of a server in one loop

    A [TcpServer] without threads, its acceptor, its connections and the loop they
    share.  [service] is the invariant of the whole program between two events:
    every live connection is in one of three phases of its life, the poller, the
    registry of the server and the task queue agree with that phase, and the open
    descriptors are those of live objects.  Four kinds of steps keep it: a step of
    one connection, a step no connection notices, the arrival of a connection and
    its departure.  Serving.v shows that the program takes no other. *)

From stdpp Require Import base list gmap strings numbers.
From Stdlib Require Import ZArith Lia Init.Byte.
From S2P Require Import Prelude Buffer Kernel RefKernel State World Demo Poller EventLoop Socket.
From S2P Require Import Connection Acceptor Connector ThreadPool Server Client Reactor Contract.

Open Scope np_scope.

(** How often a task is queued. *)
Fixpoint times (t : task) (q : list task) : nat :=
  match q with
  | [] => 0
  | t' :: q' => (if decide (t' = t) then 1 else 0) + times t q'
  end.

Lemma times_app t q q' : times t (q ++ q') = (times t q + times t q')%nat.
Proof. induction q as [|t' q IH]; simpl; [done|]. rewrite IH. lia. Qed.

Lemma times_0 t q : times t q = 0%nat <-> t ∉ q.
Proof.
  induction q as [|t' q IH]; simpl; [set_solver|]. rewrite not_elem_of_cons. case_decide; subst.
  - split; [lia|by intros []].
  - simpl. rewrite IH. split; [intros ?; by split|by intros []].
Qed.

Lemma times_pos t q : (0 < times t q)%nat -> t ∈ q.
Proof. intros Ht. destruct (decide (t ∈ q)) as [|Hn%times_0]; [done|lia]. Qed.

Section invariant.
Context `{EpollReliable} `{!EpollFrame} `{!StreamLaws} `{!FdLaws} `{!BacklogLaws}.
Variables (l s a : ptr).
(** The descriptors of the program other than those of connections. *)
Variable base : gset Z.
Implicit Types (w : World) (c conn : ptr) (sv : TcpServer) (co : TcpConnection) (ac : TcpAcceptor)
  (ch : EventChannel) (lp : EventLoop).

Abbreviation queue lp := (lo_queue_task_funcs_ lp).

(** ** The life of a connection

    Accepted, and waiting for [ConnectEstablished]; established, and watched by
    the poller; closed, out of the registry, and waiting for [ConnectDestoryed]. *)
Definition life conn co ch sv (q : list task) : Prop :=
  match co_state_ co with
  | CONNECTING =>
      ch_poller_status_ ch = NEW_CHANNEL /\ ch_events_ ch = none_event_flag /\
      sv_connections_ sv !! co_fd_ co = Some conn /\
      times (ConnectEstablished_task conn) q = 1%nat /\ times (ConnectDestoryed_task conn) q = 0%nat
  | CONNECTED =>
      ch_poller_status_ ch = ADDED_CHANNEL /\ ch_events_ ch = read_event_flag /\
      sv_connections_ sv !! co_fd_ co = Some conn /\
      times (ConnectEstablished_task conn) q = 0%nat /\ times (ConnectDestoryed_task conn) q = 0%nat
  | DISCONNECTED =>
      ch_poller_status_ ch = DELETE_CHANNEL /\ ch_events_ ch = none_event_flag /\
      sv_connections_ sv !! co_fd_ co = None /\
      times (ConnectEstablished_task conn) q = 0%nat /\ times (ConnectDestoryed_task conn) q = 1%nat
  | DISCONNECTING => False
  end.

(** The channel of a connection, and one that is only read. *)
Definition conn_channel conn co ch : Prop :=
  ch_fd_ ch = co_fd_ co /\ ch_event_loop_ ch = l /\
  ch_read_event_cb_ ch = Some (ReadHandler_cb conn) /\ ch_write_event_cb_ ch = Some (WriteHandler_cb conn) /\
  ch_close_event_cb_ ch = Some (CloseHandler_cb conn) /\ ch_error_event_cb_ ch = Some (ErrorHandler_cb conn).
Definition plain_channel ch fd cb : Prop :=
  ch_fd_ ch = fd /\ ch_event_loop_ ch = l /\ ch_read_event_cb_ ch = Some cb /\
  ch_write_event_cb_ ch = None /\ ch_close_event_cb_ ch = None /\ ch_error_event_cb_ ch = None.

Definition conn_static co : Prop :=
  co_loop_ co = l /\ co_socket_fd_ co = co_fd_ co /\ co_close_cb_ co = Some (ServerRemoveConnection_cb s) /\
  (co_fd_ co ∉ base) /\
  (co_state_ co <> DISCONNECTED -> buffer_wf (co_read_buffer_ co) /\ write_index_ (co_read_buffer_ co) = 0).

(** The callbacks that a connection has and that its server gives it. *)
Definition conn_policy co : policy := mkPolicy (co_conn_status_cb_ co) (co_msg_cb_ co).
Definition server_policy sv : policy := mkPolicy (sv_conn_status_cb_ sv) (sv_msg_cb_ sv).

(** The state of the contract (Contract.v) that a state of the program stands for,
    and that from [w] to [w'] it was kept. *)
Definition promised w : contract := mkContract (co_state_ <$> w_conns w) (w_next w).
Definition keeps (p : policy) w w' : Prop :=
  exists evs, w_trace w' = rev evs ++ w_trace w /\ contract_runs p (promised w) evs (promised w').

Record conn_ok w conn co sv lp : Prop := {
  ck_static : conn_static co;
  ck_stream : is_Some (k_stream (w_kern w) (co_fd_ co));
  ck_chan : exists ch, w_channels w !! co_channel_ co = Some ch /\ conn_channel conn co ch /\
    life conn co ch sv (queue lp);
  ck_policy : conn_policy co = server_policy sv
}.

(** ** The invariant *)

(** The acceptor's socket listens, unless its channel waits for [Listen]. *)
Definition hears (k : kstate) ac ch : Prop :=
  is_Some (k_backlog k (ac_socket_fd_ ac)) \/
  ch_poller_status_ ch = NEW_CHANNEL /\ k_bound k (ac_socket_fd_ ac) = true.

Definition server_static sv : Prop :=
  sv_server_loop_ sv = l /\ sv_close_conn_cb_ sv = Some (ServerRemoveConnection_cb s) /\
  exists pool, sv_thread_pool_ sv = Some pool /\ tp_loop_list_ pool = [] /\ tp_main_loop_ pool = l.

Definition task_ok w (t : task) : Prop :=
  t = Listen_task a \/
  exists conn, is_Some (w_conns w !! conn) /\
    (t = ConnectEstablished_task conn \/ t = ConnectDestoryed_task conn).

Record service w lp sv ac : Prop := {
  se_loop : loop_inv w l lp;
  se_loops : w_loops w = {[l := lp]};
  se_servers : w_servers w = {[s := sv]};
  se_clients : w_clients w = ∅;
  se_server : server_static sv;
  se_acceptor : w_acceptors w !! a = Some ac;
  se_accept : ac_loop_ ac = l /\ ac_new_conn_cb_ ac = Some s;
  se_acc_chan : exists ch, w_channels w !! ac_channel_ ac = Some ch /\
    plain_channel ch (ac_socket_fd_ ac) (AcceptHandle_cb a) /\ hears (w_kern w) ac ch;
  se_wake_chan : exists ch, w_channels w !! lo_wakeup_channel_ lp = Some ch /\
    plain_channel ch (lo_wakeup_fd_ lp) (HandleWakeupEvent_cb l);
  se_base : ac_socket_fd_ ac ∈ base /\ lo_wakeup_fd_ lp ∈ base /\ po_epoll_fd_ (lo_poller_ lp) ∈ base /\
    ac_socket_fd_ ac <> lo_wakeup_fd_ lp;
  se_open fd : fd ∈ k_open (w_kern w) <->
    fd ∈ base \/ exists conn co, w_conns w !! conn = Some co /\ co_fd_ co = fd;
  se_conns conn co : w_conns w !! conn = Some co -> conn_ok w conn co sv lp;
  se_inj conn co conn' co' : w_conns w !! conn = Some co -> w_conns w !! conn' = Some co' ->
    co_fd_ co = co_fd_ co' -> conn = conn';
  se_registry fd conn : sv_connections_ sv !! fd = Some conn ->
    exists co, w_conns w !! conn = Some co /\ co_fd_ co = fd;
  se_chans c ch : w_channels w !! c = Some ch ->
    c = ac_channel_ ac \/ c = lo_wakeup_channel_ lp \/
    exists conn co, w_conns w !! conn = Some co /\ co_channel_ co = c;
  se_fresh_conns conn : is_Some (w_conns w !! conn) -> (conn < w_next w)%positive;
  se_fresh_chans c : is_Some (w_channels w !! c) -> (c < w_next w)%positive;
  se_tasks t : t ∈ queue lp -> task_ok w t
}.

(** ** What follows at once *)

Lemma service_loop w lp sv ac : service w lp sv ac -> w_loops w !! l = Some lp.
Proof. intros Hs. rewrite (se_loops _ _ _ _ Hs). apply lookup_singleton_eq. Qed.

Lemma service_server w lp sv ac : service w lp sv ac -> w_servers w !! s = Some sv.
Proof. intros Hs. rewrite (se_servers _ _ _ _ Hs). apply lookup_singleton_eq. Qed.

(** The channels of two connections differ, and from the other two. *)
Lemma conn_channel_inj conn co ch conn' co' :
  conn_channel conn co ch -> conn_channel conn' co' ch -> conn = conn'.
Proof. intros (_ & _ & E & _) (_ & _ & E' & _). congruence. Qed.

Lemma conn_channel_plain conn co ch fd cb :
  conn_channel conn co ch -> plain_channel ch fd cb -> False.
Proof. intros (_ & _ & _ & E & _) (_ & _ & _ & E' & _). congruence. Qed.

(** A descriptor of the poller's table is open. *)
Lemma table_open w lp sv ac fd c :
  service w lp sv ac -> po_evt_channel_list_ (lo_poller_ lp) !! fd = Some c ->
  fd ∈ k_open (w_kern w).
Proof.
  intros Hs Hin. destruct (pi_entry _ _ _ (proj1 (se_loop _ _ _ _ Hs)) _ _ Hin) as (ch & Hc & Hfd & _).
  apply (se_open _ _ _ _ Hs). pose proof (se_base _ _ _ _ Hs) as (Hb1 & Hb2 & _).
  destruct (se_chans _ _ _ _ Hs _ _ Hc) as [->|[->|(conn & co & Hco & <-)]].
  - destruct (se_acc_chan _ _ _ _ Hs) as (ch' & Hc' & (Hf' & _) & _). left.
    rewrite Hc in Hc'. injection Hc' as <-. by rewrite <-Hfd, Hf'.
  - destruct (se_wake_chan _ _ _ _ Hs) as (ch' & Hc' & Hf' & _). left.
    rewrite Hc in Hc'. injection Hc' as <-. by rewrite <-Hfd, Hf'.
  - destruct (ck_chan _ _ _ _ _ (se_conns _ _ _ _ Hs _ _ Hco)) as (ch' & Hc' & (Hf' & _) & _).
    right. exists conn, co. rewrite Hc in Hc'. injection Hc' as <-. by rewrite <-Hfd, Hf'.
Qed.

(** The channel of a connection, as the poller sees it. *)
Lemma service_channel_of w lp sv ac conn co ch :
  service w lp sv ac -> w_conns w !! conn = Some co -> w_channels w !! co_channel_ co = Some ch ->
  conn_channel conn co ch -> channel_of w l lp (co_channel_ co) ch.
Proof.
  intros Hs Hco Hc (Hfd & Hl & Hcb). split; [done|done|apply (se_loop _ _ _ _ Hs)|].
  intros Hnew. apply eq_None_not_Some. intros [c' Hin].
  destruct (pi_entry _ _ _ (proj1 (se_loop _ _ _ _ Hs)) _ _ Hin) as (ch' & Hc' & Hfd' & _ & Hst).
  pose proof (se_base _ _ _ _ Hs) as (Hb1 & Hb2 & _).
  destruct (ck_static _ _ _ _ _ (se_conns _ _ _ _ Hs _ _ Hco)) as (_ & _ & _ & Hnb & _).
  destruct (se_chans _ _ _ _ Hs _ _ Hc') as [->|[->|(conn' & co' & Hco' & <-)]].
  - destruct (se_acc_chan _ _ _ _ Hs) as (ch2 & Hc2 & (Hf2 & _) & _). congruence.
  - destruct (se_wake_chan _ _ _ _ Hs) as (ch2 & Hc2 & Hf2 & _). congruence.
  - destruct (ck_chan _ _ _ _ _ (se_conns _ _ _ _ Hs _ _ Hco')) as (ch2 & Hc2 & (Hf2 & _) & _).
    assert (conn = conn') as <- by (eapply (se_inj _ _ _ _ Hs); [done..|congruence]).
    simplify_eq.
Qed.

(** A connection of the service, as Connection.v sees it. *)
Lemma service_core w lp sv ac conn co :
  service w lp sv ac -> w_conns w !! conn = Some co ->
  exists ch st, conn_core w conn co ch lp st /\ conn_channel conn co ch /\ life conn co ch sv (queue lp).
Proof.
  intros Hs Hco. pose proof (se_conns _ _ _ _ Hs _ _ Hco) as [(El & _) [st Hst] (ch & Hc & Hcc & Hlife)].
  exists ch, st. split; [|done]. split; rewrite ?El; [done|apply (se_loop _ _ _ _ Hs)| |apply Hcc|done].
  by eapply service_channel_of.
Qed.

(** ** A step of one connection

    What a handler or a task of the connection [conn] may change.  The phase of
    [conn] may be another one afterwards. *)
Definition same_conn co co' : Prop :=
  co_loop_ co' = co_loop_ co /\ co_socket_fd_ co' = co_socket_fd_ co /\
  co_close_cb_ co' = co_close_cb_ co /\ co_fd_ co' = co_fd_ co /\ co_channel_ co' = co_channel_ co.
Definition same_channel ch ch' : Prop :=
  (ch_fd_ ch', ch_event_loop_ ch', ch_read_event_cb_ ch', ch_write_event_cb_ ch', ch_close_event_cb_ ch',
   ch_error_event_cb_ ch') =
  (ch_fd_ ch, ch_event_loop_ ch, ch_read_event_cb_ ch, ch_write_event_cb_ ch, ch_close_event_cb_ ch,
   ch_error_event_cb_ ch).
Definition same_loop lp lp' : Prop :=
  lo_wakeup_channel_ lp' = lo_wakeup_channel_ lp /\ lo_wakeup_fd_ lp' = lo_wakeup_fd_ lp /\
  po_epoll_fd_ (lo_poller_ lp') = po_epoll_fd_ (lo_poller_ lp).
Definition same_rest w w' : Prop :=
  w_clients w' = w_clients w /\ w_acceptors w' = w_acceptors w /\ w_next w' = w_next w.

Record conn_step conn co co' ch' w w' lp lp' sv sv' : Prop := {
  cs_conns : w_conns w' = <[conn := co']> (w_conns w);
  cs_chans : w_channels w' = <[co_channel_ co := ch']> (w_channels w);
  cs_loops : w_loops w' = {[l := lp']};
  cs_servers : w_servers w' = {[s := sv']};
  cs_rest : same_rest w w';
  cs_inv : loop_inv w' l lp';
  cs_kern : undisturbed_but (co_fd_ co) (w_kern w) (w_kern w');
  cs_stream : is_Some (k_stream (w_kern w') (co_fd_ co));
  cs_same : same_conn co co';
  cs_loop : same_loop lp lp';
  cs_buf : co_state_ co' <> DISCONNECTED ->
    buffer_wf (co_read_buffer_ co') /\ write_index_ (co_read_buffer_ co') = 0;
  cs_life : life conn co' ch' sv' (queue lp');
  cs_sv : sv' = sv \/ sv' = sv_set_connections_ (delete (co_fd_ co) (sv_connections_ sv)) sv;
  cs_tasks t : t ∈ queue lp' -> t ∈ queue lp \/ t = ConnectEstablished_task conn \/ t = ConnectDestoryed_task conn;
  cs_times conn' t : conn' <> conn -> t = ConnectEstablished_task conn' \/ t = ConnectDestoryed_task conn' ->
    times t (queue lp') = times t (queue lp);
  cs_policy : conn_policy co' = conn_policy co;
  cs_keeps : keeps (conn_policy co) w w'
}.

Lemma life_other conn co ch sv q sv' q' :
  life conn co ch sv q -> sv_connections_ sv' !! co_fd_ co = sv_connections_ sv !! co_fd_ co ->
  times (ConnectEstablished_task conn) q' = times (ConnectEstablished_task conn) q ->
  times (ConnectDestoryed_task conn) q' = times (ConnectDestoryed_task conn) q ->
  life conn co ch sv' q'.
Proof. unfold life. intros Hl -> -> ->. exact Hl. Qed.

Lemma conn_step_registry conn co co' ch' w w' lp lp' sv sv' fd :
  conn_step conn co co' ch' w w' lp lp' sv sv' -> fd <> co_fd_ co ->
  sv_connections_ sv' !! fd = sv_connections_ sv !! fd.
Proof. intros Hst Hne. destruct (cs_sv _ _ _ _ _ _ _ _ _ _ Hst) as [->| ->]; [done|]. simpl. by rewrite lookup_delete_ne. Qed.

Lemma conn_step_policy conn co co' ch' w w' lp lp' sv sv' :
  conn_step conn co co' ch' w w' lp lp' sv sv' -> server_policy sv' = server_policy sv.
Proof. intros Hst. by destruct (cs_sv _ _ _ _ _ _ _ _ _ _ Hst) as [->| ->]. Qed.

(** The other connections do not notice. *)
Lemma conn_step_other w w' lp lp' sv sv' ac conn co co' ch ch' conn2 co2 :
  service w lp sv ac -> w_conns w !! conn = Some co -> w_channels w !! co_channel_ co = Some ch ->
  conn_step conn co co' ch' w w' lp lp' sv sv' ->
  w_conns w !! conn2 = Some co2 -> conn2 <> conn -> conn_ok w' conn2 co2 sv' lp'.
Proof.
  intros Hs Hco Hch Hst Hco2 Hne.
  pose proof (se_conns _ _ _ _ Hs _ _ Hco2) as [Hstat2 Hst2 (ch2 & Hc2 & Hcc2 & Hl2) Hp2].
  assert (co_fd_ co2 <> co_fd_ co) as Hfd by (intros E; by apply Hne, (se_inj _ _ _ _ Hs _ _ _ _ Hco2 Hco)).
  destruct (cs_kern _ _ _ _ _ _ _ _ _ _ Hst) as [_ Hq]. split; [done| | |by rewrite (conn_step_policy _ _ _ _ _ _ _ _ _ _ Hst)].
  - by rewrite (proj1 (Hq _ Hfd)).
  - exists ch2. rewrite (cs_chans _ _ _ _ _ _ _ _ _ _ Hst), lookup_insert_ne.
    + split; [done|]. split; [done|]. eapply life_other; [done|by eapply conn_step_registry|..];
        eapply (cs_times _ _ _ _ _ _ _ _ _ _ Hst); eauto.
    + intros E. destruct (ck_chan _ _ _ _ _ (se_conns _ _ _ _ Hs _ _ Hco)) as (ch3 & Hc3 & Hcc3 & _).
      rewrite E in Hc3. assert (ch3 = ch2) as -> by congruence. by eapply Hne, conn_channel_inj.
Qed.

(** The connections are the same, with the same descriptors and channels. *)
Lemma conn_step_fwd conn co co' ch' w w' lp lp' sv sv' conn2 co2 :
  conn_step conn co co' ch' w w' lp lp' sv sv' -> w_conns w !! conn = Some co -> w_conns w !! conn2 = Some co2 ->
  exists co2', w_conns w' !! conn2 = Some co2' /\ co_fd_ co2' = co_fd_ co2 /\ co_channel_ co2' = co_channel_ co2.
Proof.
  intros [Ec _ _ _ _ _ _ _ (_ & _ & _ & Sfd & Sch)] Hco Hco2. rewrite Ec.
  destruct (decide (conn = conn2)) as [<-|Hne]; simplify_map_eq; eauto.
Qed.

Lemma conn_step_bwd conn co co' ch' w w' lp lp' sv sv' conn2 co2' :
  conn_step conn co co' ch' w w' lp lp' sv sv' -> w_conns w !! conn = Some co -> w_conns w' !! conn2 = Some co2' ->
  exists co2, w_conns w !! conn2 = Some co2 /\ co_fd_ co2 = co_fd_ co2' /\ co_channel_ co2 = co_channel_ co2'.
Proof.
  intros [Ec _ _ _ _ _ _ _ (_ & _ & _ & Sfd & Sch)] Hco. rewrite Ec.
  intros [[<- <-]|[Hne ?]]%lookup_insert_Some; eauto.
Qed.

Lemma conn_step_conns w w' lp lp' sv sv' ac conn co co' ch ch' conn2 co2 :
  service w lp sv ac -> w_conns w !! conn = Some co -> w_channels w !! co_channel_ co = Some ch ->
  same_channel ch ch' -> conn_step conn co co' ch' w w' lp lp' sv sv' ->
  w_conns w' !! conn2 = Some co2 -> conn_ok w' conn2 co2 sv' lp'.
Proof.
  intros Hs Hco Hch Hsc Hst. pose proof Hst as [Ec Ech _ _ _ _ _ Hstr (Sl & Ss & Scb & Sfd & Sch) _ Hbuf Hlife _ _ _].
  pose proof (se_conns _ _ _ _ Hs _ _ Hco) as [(Kl & Ks & Kcb & Kb & _) _ (ch0 & Hch0 & Hcc & _) Kp].
  assert (ch0 = ch) as -> by congruence. injection Hsc as F1 F2 F3 F4 F5 F6.
  rewrite Ec. intros [[<- <-]|[Hne Hc2]]%lookup_insert_Some.
  - split.
    + unfold conn_static. rewrite Sl, Ss, Scb, Sfd. by split_and!.
    + by rewrite Sfd.
    + exists ch'. rewrite Ech, Sch, lookup_insert_eq. split; [done|]. split; [|done].
      destruct Hcc as (? & ? & ? & ? & ? & ?). unfold conn_channel. rewrite Sfd. by split_and!; congruence.
    + by rewrite (cs_policy _ _ _ _ _ _ _ _ _ _ Hst), (conn_step_policy _ _ _ _ _ _ _ _ _ _ Hst).
  - eapply (conn_step_other w _ lp _ sv _ ac conn co co' ch ch'); done.
Qed.

Lemma conn_step_plain w w' lp lp' sv sv' ac conn co co' ch' c ch2 fd cb :
  service w lp sv ac -> w_conns w !! conn = Some co -> conn_step conn co co' ch' w w' lp lp' sv sv' ->
  w_channels w !! c = Some ch2 -> plain_channel ch2 fd cb -> w_channels w' !! c = Some ch2.
Proof.
  intros Hs Hco Hst Hc2 Hp. rewrite (cs_chans _ _ _ _ _ _ _ _ _ _ Hst), lookup_insert_ne; [done|]. intros <-.
  destruct (ck_chan _ _ _ _ _ (se_conns _ _ _ _ Hs _ _ Hco)) as (ch & Hch & Hcc & _).
  assert (ch2 = ch) as -> by congruence. exact (conn_channel_plain _ _ _ _ _ Hcc Hp).
Qed.

Lemma conn_step_service w w' lp lp' sv sv' ac conn co co' ch ch' :
  service w lp sv ac -> w_conns w !! conn = Some co -> w_channels w !! co_channel_ co = Some ch ->
  same_channel ch ch' -> conn_step conn co co' ch' w w' lp lp' sv sv' -> service w' lp' sv' ac.
Proof.
  intros Hs Hco Hch Hsc Hst. pose proof Hst as [Ec Ech Elo Esv (Ecl & Eac & En) Hinv [Hop Hq] _ Hsm (Swc & Swf & Sep) _ _ Hsv Ht _].
  pose proof (se_conns _ _ _ _ Hs _ _ Hco) as [(_ & _ & _ & Kb & _) _ _]. pose proof (se_base _ _ _ _ Hs) as (B1 & B2 & B3 & B4).
  pose proof (fun c o => conn_step_fwd _ _ _ _ _ _ _ _ _ _ c o Hst Hco) as Hfwd.
  pose proof (fun c o => conn_step_bwd _ _ _ _ _ _ _ _ _ _ c o Hst Hco) as Hbwd.
  assert (forall c, is_Some (w_channels w' !! c) -> is_Some (w_channels w !! c)) as Hchans.
  { intros c [ch2 Hc2]. rewrite Ech in Hc2. apply lookup_insert_Some in Hc2 as [[<- _]|[_ ?]]; eauto. }
  split.
  - exact Hinv.
  - exact Elo.
  - exact Esv.
  - rewrite Ecl. apply Hs.
  - destruct (se_server _ _ _ _ Hs) as (? & ? & ?). destruct Hsv as [->| ->]; done.
  - rewrite Eac. apply Hs.
  - apply Hs.
  - destruct (se_acc_chan _ _ _ _ Hs) as (ch2 & Hc2 & Hp & Hh). exists ch2. split_and!; [by eapply conn_step_plain|done|].
    destruct (Hq (ac_socket_fd_ ac) ltac:(congruence)) as (_ & E1 & E2). unfold hears. by rewrite E1, E2.
  - destruct (se_wake_chan _ _ _ _ Hs) as (ch2 & Hc2 & Hp). exists ch2. rewrite Swc, Swf. split; [by eapply conn_step_plain|done].
  - by rewrite Swf, Sep.
  - intros fd. rewrite Hop, (se_open _ _ _ _ Hs fd). f_equiv. split; intros (c & o & E & <-).
    + destruct (Hfwd _ _ E) as (o' & ? & ? & _). eauto.
    + destruct (Hbwd _ _ E) as (o' & ? & ? & _). eauto.
  - intros conn2 co2. by eapply conn_step_conns.
  - intros c1 o1 c2 o2 (o1' & E1 & F1 & _)%Hbwd (o2' & E2 & F2 & _)%Hbwd Hf.
    eapply (se_inj _ _ _ _ Hs); [exact E1|exact E2|congruence].
  - intros fd conn2 Hin. assert (sv_connections_ sv !! fd = Some conn2) as Hin'.
    { destruct Hsv as [->| ->]; [done|]. simpl in Hin. by apply lookup_delete_Some in Hin as [_ ?]. }
    destruct (se_registry _ _ _ _ Hs _ _ Hin') as (co2 & (o' & ? & ? & _)%Hfwd & <-). eauto.
  - intros c ch2 Hc2. destruct (Hchans c (ex_intro _ _ Hc2)) as [ch3 Hc3]. rewrite Swc.
    destruct (se_chans _ _ _ _ Hs _ _ Hc3) as [?|[?|(conn2 & co2 & (o' & ? & _ & ?)%Hfwd & <-)]]; [by left|by right; left|].
    right; right. eauto.
  - intros conn2 [o (o' & ? & _)%Hbwd]. rewrite En. apply Hs. eauto.
  - intros c Hc%Hchans. rewrite En. by apply (se_fresh_chans _ _ _ _ Hs).
  - intros t [Hin|Hin]%Ht.
    + destruct (se_tasks _ _ _ _ Hs _ Hin) as [->|(conn2 & [o (o' & ? & _)%Hfwd] & Hor)]; [by left|]. right; eauto.
    + right. exists conn. destruct (Hfwd _ _ Hco) as (? & ? & _). split; eauto.
Qed.

(** ** A step that no connection notices

    The kernel, the flags of the loop, the events that channels have received, and
    the registration of the acceptor's channel may change. *)
Definition same_channels ac (m m' : gmap ptr EventChannel) : Prop :=
  forall c, match m !! c, m' !! c with
  | Some ch, Some ch' => same_channel ch ch' /\
      (c <> ac_channel_ ac -> ch_poller_status_ ch' = ch_poller_status_ ch /\ ch_events_ ch' = ch_events_ ch)
  | None, None => True
  | _, _ => False
  end.

Record quiet_step ac w w' lp lp' : Prop := {
  qs_inv : loop_inv w' l lp';
  qs_loops : w_loops w' = {[l := lp']};
  qs_conns : w_conns w' = w_conns w;
  qs_servers : w_servers w' = w_servers w;
  qs_rest : same_rest w w';
  qs_chans : same_channels ac (w_channels w) (w_channels w');
  qs_loop : same_loop lp lp';
  qs_tasks : forall t, t ∈ queue lp' -> t ∈ queue lp;
  qs_times : forall t, t <> Listen_task a -> times t (queue lp') = times t (queue lp);
  qs_open : k_open (w_kern w') = k_open (w_kern w);
  qs_streams fd : fd <> lo_wakeup_fd_ lp -> is_Some (k_stream (w_kern w) fd) -> is_Some (k_stream (w_kern w') fd);
  qs_hears ch ch' : w_channels w !! ac_channel_ ac = Some ch -> w_channels w' !! ac_channel_ ac = Some ch' ->
    hears (w_kern w) ac ch -> hears (w_kern w') ac ch';
  qs_trace : w_trace w' = w_trace w
}.

Lemma same_channels_fwd ac m m' c ch :
  same_channels ac m m' -> m !! c = Some ch -> exists ch', m' !! c = Some ch' /\ same_channel ch ch' /\
    (c <> ac_channel_ ac -> ch_poller_status_ ch' = ch_poller_status_ ch /\ ch_events_ ch' = ch_events_ ch).
Proof. intros Hm Hc. specialize (Hm c). rewrite Hc in Hm. destruct (m' !! c); [eauto|done]. Qed.

Lemma same_channels_bwd ac m m' c ch' :
  same_channels ac m m' -> m' !! c = Some ch' -> is_Some (m !! c).
Proof. intros Hm Hc. specialize (Hm c). rewrite Hc in Hm. destruct (m !! c); [eauto|done]. Qed.

Lemma same_channel_plain ch ch' fd cb : same_channel ch ch' -> plain_channel ch fd cb -> plain_channel ch' fd cb.
Proof. unfold plain_channel. intros [= -> -> -> -> -> ->]. done. Qed.

Lemma same_channel_conn conn co ch ch' : same_channel ch ch' -> conn_channel conn co ch -> conn_channel conn co ch'.
Proof. unfold conn_channel. intros [= -> -> -> -> -> ->]. done. Qed.

Lemma quiet_step_service w w' lp lp' sv ac :
  service w lp sv ac -> quiet_step ac w w' lp lp' -> service w' lp' sv ac.
Proof.
  intros Hs [Hinv El Ec Es (Ecl & Eac & En) Hch (Lc & Lf & Le) Ht Hn Ho Hf Hbl].
  pose proof (se_base _ _ _ _ Hs) as (B1 & B2 & B3 & B4).
  assert (forall c ch fd cb, w_channels w !! c = Some ch -> plain_channel ch fd cb ->
    exists ch', w_channels w' !! c = Some ch' /\ plain_channel ch' fd cb) as Hplain.
  { intros c ch fd cb Hc Hp. destruct (same_channels_fwd _ _ _ _ _ Hch Hc) as (ch' & Hc' & Hsc & _).
    exists ch'. split; [done|by eapply same_channel_plain]. }
  split; rewrite ?Ec, ?Es, ?Ecl, ?Eac, ?En, ?Lc, ?Lf, ?Le; try apply Hs; try done.
  - destruct (se_acc_chan _ _ _ _ Hs) as (ch & Hc & Hp & Hh). destruct (Hplain _ _ _ _ Hc Hp) as (ch' & Hc' & Hp').
    exists ch'. split_and!; [done..|by eapply Hbl].
  - destruct (se_wake_chan _ _ _ _ Hs) as (ch & Hc & Hp). eauto.
  - intros fd. rewrite Ho. apply Hs.
  - intros conn co Hco. pose proof (se_conns _ _ _ _ Hs _ _ Hco) as [Hstat Hst (ch & Hc & Hcc & Hlife) Hp].
    split; [done| | |done].
    + apply Hf; [|done]. destruct Hstat as (_ & _ & _ & Hnb & _). congruence.
    + destruct (same_channels_fwd _ _ _ _ _ Hch Hc) as (ch' & Hc' & Hsc & Hst').
      exists ch'. split; [done|]. split; [by eapply same_channel_conn|].
      destruct Hst' as [E1 E2].
      { intros E. destruct (se_acc_chan _ _ _ _ Hs) as (ch2 & Hc2 & Hp2 & _). rewrite <-E in Hc2.
        assert (ch2 = ch) as -> by congruence. exact (conn_channel_plain _ _ _ _ _ Hcc Hp2). }
      unfold life in *. by rewrite E1, E2, !Hn.
  - intros c ch Hc. apply (same_channels_bwd _ _ _ _ _ Hch) in Hc as [ch0 Hc]. by eapply (se_chans _ _ _ _ Hs).
  - intros c [ch Hc]. apply (same_channels_bwd _ _ _ _ _ Hch) in Hc. by apply (se_fresh_chans _ _ _ _ Hs).
  - intros t Hin%Ht. destruct (se_tasks _ _ _ _ Hs _ Hin) as [->|(conn & Hc & Hor)]; [by left|].
    right. exists conn. by rewrite Ec.
Qed.
(** ** A connection arrives *)
Record arrival ac conn co ch w w' lp lp' sv sv' : Prop := {
  ar_fresh : conn = w_next w /\ co_channel_ co = Pos.succ conn /\ w_next w' = Pos.succ (Pos.succ conn);
  ar_conns : w_conns w' = <[conn := co]> (w_conns w);
  ar_chans : w_channels w' = <[co_channel_ co := ch]> (w_channels w);
  ar_loops : w_loops w' = {[l := lp']};
  ar_servers : w_servers w' = {[s := sv']};
  ar_rest : w_clients w' = w_clients w /\ w_acceptors w' = w_acceptors w;
  ar_inv : loop_inv w' l lp';
  ar_sv : sv' = sv_set_connections_ (<[co_fd_ co := conn]> (sv_connections_ sv)) sv;
  ar_queue : queue lp' = queue lp ++ [ConnectEstablished_task conn];
  ar_loop : same_loop lp lp';
  ar_free : co_fd_ co ∉ k_open (w_kern w);
  ar_open : k_open (w_kern w') = {[co_fd_ co]} ∪ k_open (w_kern w);
  ar_stream : is_Some (k_stream (w_kern w') (co_fd_ co));
  ar_streams fd : fd <> co_fd_ co -> k_stream (w_kern w') fd = k_stream (w_kern w) fd;
  ar_backlog : is_Some (k_backlog (w_kern w') (ac_socket_fd_ ac));
  ar_static : co_loop_ co = l /\ co_socket_fd_ co = co_fd_ co /\
    co_close_cb_ co = Some (ServerRemoveConnection_cb s) /\ co_state_ co = CONNECTING /\
    buffer_wf (co_read_buffer_ co) /\ write_index_ (co_read_buffer_ co) = 0;
  ar_channel : conn_channel conn co ch /\ ch_poller_status_ ch = NEW_CHANNEL /\ ch_events_ ch = none_event_flag;
  ar_policy : conn_policy co = server_policy sv;
  ar_trace : w_trace w' = w_trace w
}.

(** The new addresses are not in use, and nothing is queued for them. *)
Lemma service_fresh w lp sv ac conn :
  service w lp sv ac -> conn = w_next w ->
  w_conns w !! conn = None /\ w_channels w !! Pos.succ conn = None /\
  times (ConnectEstablished_task conn) (queue lp) = 0%nat /\
  times (ConnectDestoryed_task conn) (queue lp) = 0%nat.
Proof.
  intros Hs ->. assert (w_conns w !! w_next w = None) as Hn.
  { apply eq_None_not_Some. intros Hx%(se_fresh_conns _ _ _ _ Hs). lia. }
  split_and!; [done| |apply times_0..].
  - apply eq_None_not_Some. intros Hx%(se_fresh_chans _ _ _ _ Hs). lia.
  - intros [?|(conn & [co Hc] & [[= <-]|?])]%(se_tasks _ _ _ _ Hs); congruence.
  - intros [?|(conn & [co Hc] & [?|[= <-]])]%(se_tasks _ _ _ _ Hs); congruence.
Qed.

Lemma arrival_conns w w' lp lp' sv sv' ac conn co ch :
  service w lp sv ac -> arrival ac conn co ch w w' lp lp' sv sv' ->
  forall conn2 co2, w_conns w' !! conn2 = Some co2 -> conn_ok w' conn2 co2 sv' lp'.
Proof.
  intros Hs [(Fn & Fc & _) Ec Ech _ _ _ _ Esv Eq _ Hfree _ Hst Hsts _ (K1 & K2 & K3 & K4 & K5) (C1 & C2 & C3) Hpol _].
  destruct (service_fresh w lp sv ac conn Hs Fn) as (N1 & N2 & T1 & T2).
  intros conn2 co2. rewrite Ec. intros [[<- <-]|[Hne Hc2]]%lookup_insert_Some.
  - split; [|done| |by rewrite Hpol, Esv].
    + split_and!; try done. intros Hin. apply Hfree, (se_open _ _ _ _ Hs). by left.
    + exists ch. rewrite Ech, lookup_insert_eq. split; [done|]. split; [done|]. unfold life.
      rewrite K4, Esv, Eq, !times_app, T1, T2. cbn [times sv_connections_ sv_set_connections_].
      rewrite decide_True, decide_False, lookup_insert_eq by done. done.
  - pose proof (se_conns _ _ _ _ Hs _ _ Hc2) as [Hstat [st2 Hst2] (ch2 & Hch2 & Hcc2 & Hl2) Hp2].
    assert (co_fd_ co2 <> co_fd_ co) as Hfd.
    { intros E. apply Hfree. rewrite <-E. apply (se_open _ _ _ _ Hs). eauto. }
    split; [done|by rewrite Hsts| |by rewrite Hp2, Esv]. exists ch2. rewrite Ech, lookup_insert_ne by congruence.
    split; [done|]. split; [done|]. eapply life_other; [done|..].
    + rewrite Esv. simpl. by rewrite lookup_insert_ne.
    + rewrite Eq, times_app. cbn [times]. rewrite decide_False by congruence. lia.
    + rewrite Eq, times_app. cbn [times]. rewrite decide_False by congruence. lia.
Qed.

Lemma arrival_service w w' lp lp' sv sv' ac conn co ch :
  service w lp sv ac -> arrival ac conn co ch w w' lp lp' sv sv' -> service w' lp' sv' ac.
Proof.
  intros Hs Har. pose proof (arrival_conns _ _ _ _ _ _ _ _ _ _ Hs Har) as Hconns.
  pose proof Har as [(Fn & Fc & Fx) Ec Ech El Es (Ecl & Eac) Hinv Esv Eq (Lc & Lf & Le) Hfree Hop _ _ Hb _ _].
  destruct (service_fresh w lp sv ac conn Hs Fn) as (N1 & N2 & _).
  assert (forall conn2 co2, w_conns w !! conn2 = Some co2 -> w_conns w' !! conn2 = Some co2) as Hold.
  { intros conn2 co2 Hc2. rewrite Ec, lookup_insert_ne by congruence. done. }
  assert (forall c ch2, w_channels w !! c = Some ch2 -> w_channels w' !! c = Some ch2) as Hoch.
  { intros c ch2 Hc2. rewrite Ech, lookup_insert_ne by congruence. done. }
  split; rewrite ?Ecl, ?Eac, ?Lc, ?Lf, ?Le; try apply Hs; try done.
  - destruct (se_server _ _ _ _ Hs) as (? & ? & ?). by rewrite Esv.
  - destruct (se_acc_chan _ _ _ _ Hs) as (ch2 & Hc2 & Hp & _). exists ch2. split_and!; [eauto..|by left].
  - destruct (se_wake_chan _ _ _ _ Hs) as (ch2 & Hc2 & Hp). eauto.
  - intros fd. rewrite Hop, elem_of_union, elem_of_singleton, (se_open _ _ _ _ Hs fd). split.
    + intros [->|[?|(conn2 & co2 & Hc2 & <-)]]; [right; exists conn, co|by left|right; eauto].
      by rewrite Ec, lookup_insert_eq.
    + rewrite Ec. intros [?|(conn2 & co2 & [[<- <-]|[Hne Hc2]]%lookup_insert_Some & <-)]; eauto 6.
  - assert (forall conn2 co2, w_conns w !! conn2 = Some co2 -> co_fd_ co2 <> co_fd_ co) as Hfd.
    { intros conn2 co2 Hc2 E. apply Hfree. rewrite <-E. apply (se_open _ _ _ _ Hs). eauto. }
    intros c1 o1 c2 o2. rewrite Ec.
    intros [[<- <-]|[Hn1 E1]]%lookup_insert_Some [[<- <-]|[Hn2 E2]]%lookup_insert_Some Hf; [done|..].
    + by destruct (Hfd _ _ E2).
    + by destruct (Hfd _ _ E1).
    + by eapply (se_inj _ _ _ _ Hs).
  - intros fd conn2. rewrite Esv. simpl. intros [[<- <-]|[Hne Hin]]%lookup_insert_Some.
    + exists co. by rewrite Ec, lookup_insert_eq.
    + destruct (se_registry _ _ _ _ Hs _ _ Hin) as (co2 & Hc2 & <-). eauto.
  - intros c ch2. rewrite Ech. intros [[<- <-]|[Hne Hc2]]%lookup_insert_Some.
    + right; right. exists conn, co. by rewrite Ec, lookup_insert_eq.
    + destruct (se_chans _ _ _ _ Hs _ _ Hc2) as [->|[->|(conn2 & co2 & Hc3 & <-)]]; eauto 8.
  - intros conn2 [co2 Hc2]. rewrite Fx. rewrite Ec in Hc2.
    apply lookup_insert_Some in Hc2 as [[<- _]|[_ Hc2]]; [lia|].
    pose proof (se_fresh_conns _ _ _ _ Hs conn2 (mk_is_Some _ _ Hc2)). lia.
  - intros c [ch2 Hc2]. rewrite Fx. rewrite Ech in Hc2.
    apply lookup_insert_Some in Hc2 as [[<- _]|[_ Hc2]]; [rewrite Fc; lia|].
    pose proof (se_fresh_chans _ _ _ _ Hs c (mk_is_Some _ _ Hc2)). lia.
  - intros t. rewrite Eq, elem_of_app, list_elem_of_singleton. intros [Hin| ->].
    + destruct (se_tasks _ _ _ _ Hs _ Hin) as [->|(conn2 & [co2 Hc2] & Hor)]; [by left|]. right.
      exists conn2. split; [|done]. eauto.
    + right. exists conn. rewrite Ec, lookup_insert_eq. eauto.
Qed.
(** ** A connection is gone *)
Record departure conn co w w' lp lp' : Prop := {
  dp_conn : w_conns w !! conn = Some co /\ co_state_ co = DISCONNECTED;
  dp_conns : w_conns w' = delete conn (w_conns w);
  dp_chans : w_channels w' = delete (co_channel_ co) (w_channels w);
  dp_loops : w_loops w' = {[l := lp']};
  dp_servers : w_servers w' = w_servers w;
  dp_rest : same_rest w w';
  dp_inv : loop_inv w' l lp';
  dp_loop : same_loop lp lp';
  dp_queue : queue lp = ConnectDestoryed_task conn :: queue lp';
  dp_open : k_open (w_kern w') = k_open (w_kern w) ∖ {[co_fd_ co]};
  dp_fds fd : fd <> co_fd_ co ->
    k_stream (w_kern w') fd = k_stream (w_kern w) fd /\ k_backlog (w_kern w') fd = k_backlog (w_kern w) fd /\
    k_bound (w_kern w') fd = k_bound (w_kern w) fd;
  dp_trace : w_trace w' = w_trace w
}.

(** Nothing refers to it any more. *)
Lemma departure_unreferenced w w' lp lp' sv ac conn co :
  service w lp sv ac -> departure conn co w w' lp lp' ->
  (forall fd, sv_connections_ sv !! fd <> Some conn) /\
  (ConnectEstablished_task conn ∉ queue lp') /\ (ConnectDestoryed_task conn ∉ queue lp') /\
  (forall c ch, w_channels w !! c = Some ch -> c <> co_channel_ co -> w_channels w' !! c = Some ch).
Proof.
  intros Hs [[Hco Hst] _ Ech _ _ _ _ _ Eq _ _].
  pose proof (se_conns _ _ _ _ Hs _ _ Hco) as [_ _ (ch & Hch & Hcc & Hl)].
  unfold life in Hl. rewrite Hst, Eq in Hl. destruct Hl as (_ & _ & Hreg & T1 & T2).
  cbn [times] in T1, T2. rewrite decide_False in T1 by done. rewrite decide_True in T2 by done.
  split_and!.
  - intros fd Hin. destruct (se_registry _ _ _ _ Hs _ _ Hin) as (co2 & Hc2 & <-). congruence.
  - apply times_0. lia.
  - apply times_0. lia.
  - intros c ch2 Hc2 Hne. by rewrite Ech, lookup_delete_ne.
Qed.

Lemma departure_conns w w' lp lp' sv ac conn co :
  service w lp sv ac -> departure conn co w w' lp lp' ->
  forall conn2 co2, w_conns w' !! conn2 = Some co2 ->
    co_fd_ co2 <> co_fd_ co /\ co_channel_ co2 <> co_channel_ co /\ conn_ok w' conn2 co2 sv lp'.
Proof.
  intros Hs Hdp. destruct (departure_unreferenced _ _ _ _ _ _ _ _ Hs Hdp) as (_ & _ & _ & Hchs).
  pose proof Hdp as [[Hco Hst] Ec Ech _ _ _ _ _ Eq _ Hf].
  pose proof (se_conns _ _ _ _ Hs _ _ Hco) as [_ _ (ch & Hch & Hcc & _)].
  intros conn2 co2. rewrite Ec. intros [Hne Hc2]%lookup_delete_Some.
  pose proof (se_conns _ _ _ _ Hs _ _ Hc2) as [Hstat2 Hst2 (ch2 & Hch2 & Hcc2 & Hl2) Hp2].
  assert (co_fd_ co2 <> co_fd_ co) as Hfd by (intros E; by apply Hne, eq_sym, (se_inj _ _ _ _ Hs _ _ _ _ Hc2 Hco)).
  assert (co_channel_ co2 <> co_channel_ co) as Hcn.
  { intros E. rewrite E in Hch2. assert (ch2 = ch) as -> by congruence.
    by eapply Hne, conn_channel_inj. }
  split_and!; [done..|]. split; [done|by rewrite (proj1 (Hf _ Hfd))| |done]. exists ch2. split; [by apply Hchs|].
  split; [done|]. eapply life_other; [done|done|..]; rewrite Eq; cbn [times]; by rewrite decide_False by congruence.
Qed.

Lemma departure_service w w' lp lp' sv ac conn co :
  service w lp sv ac -> departure conn co w w' lp lp' -> service w' lp' sv ac.
Proof.
  intros Hs Hdp. destruct (departure_unreferenced _ _ _ _ _ _ _ _ Hs Hdp) as (Hreg & Ht1 & Ht2 & Hchs).
  pose proof (departure_conns _ _ _ _ _ _ _ _ Hs Hdp) as Hconns.
  pose proof Hdp as [[Hco Hst] Ec Ech El Es (Ecl & Eac & En) Hinv (Lc & Lf & Le) Eq Hop Hf].
  pose proof (se_base _ _ _ _ Hs) as (B1 & B2 & B3 & B4).
  pose proof (se_conns _ _ _ _ Hs _ _ Hco) as [(_ & _ & _ & Hnb & _) _ (ch & Hch & Hcc & _)].
  assert (forall c ch2 fd cb, w_channels w !! c = Some ch2 -> plain_channel ch2 fd cb ->
    w_channels w' !! c = Some ch2) as Hplain.
  { intros c ch2 fd cb Hc2 Hp. apply Hchs; [done|]. intros ->. assert (ch2 = ch) as -> by congruence.
    exact (conn_channel_plain _ _ _ _ _ Hcc Hp). }
  assert (forall conn2 co2, w_conns w !! conn2 = Some co2 -> conn2 <> conn -> w_conns w' !! conn2 = Some co2) as Hold.
  { intros conn2 co2 Hc2 Hne. by rewrite Ec, lookup_delete_ne. }
  split; rewrite ?Es, ?Ecl, ?Eac, ?En, ?Lc, ?Lf, ?Le; try apply Hs; try done.
  - destruct (se_acc_chan _ _ _ _ Hs) as (ch2 & Hc2 & Hp & Hh). exists ch2. split_and!; [eauto..|].
    destruct (Hf (ac_socket_fd_ ac) ltac:(congruence)) as (_ & E1 & E2). unfold hears. by rewrite E1, E2.
  - destruct (se_wake_chan _ _ _ _ Hs) as (ch2 & Hc2 & Hp). eauto.
  - intros fd. rewrite Hop, elem_of_difference, elem_of_singleton, (se_open _ _ _ _ Hs fd). split.
    + intros [[?|(conn2 & co2 & Hc2 & <-)] Hne]; [by left|]. right. exists conn2, co2.
      split; [|done]. apply Hold; [done|]. congruence.
    + intros [Hb|(conn2 & co2 & Hc2 & <-)]; [split; [by left|congruence]|].
      split; [|by eapply Hconns]. right. exists conn2, co2. split; [|done].
      rewrite Ec in Hc2. by apply lookup_delete_Some in Hc2 as [_ ?].
  - intros conn2 co2 Hc2. by apply Hconns.
  - intros c1 o1 c2 o2. rewrite Ec. intros [_ E1]%lookup_delete_Some [_ E2]%lookup_delete_Some.
    by apply (se_inj _ _ _ _ Hs).
  - intros fd conn2 Hin. destruct (se_registry _ _ _ _ Hs _ _ Hin) as (co2 & Hc2 & <-).
    exists co2. split; [|done]. apply Hold; [done|]. intros ->. by apply Hreg in Hin.
  - intros c ch2. rewrite Ech. intros [Hne Hc2]%lookup_delete_Some.
    destruct (se_chans _ _ _ _ Hs _ _ Hc2) as [?|[?|(conn2 & co2 & Hc3 & <-)]]; [by left|by right; left|].
    right; right. exists conn2, co2. split; [|done]. apply Hold; [done|]. congruence.
  - intros conn2 [co2 Hc2]. rewrite Ec in Hc2. apply lookup_delete_Some in Hc2 as [_ Hc2].
    apply (se_fresh_conns _ _ _ _ Hs). eauto.
  - intros c [ch2 Hc2]. rewrite Ech in Hc2. apply lookup_delete_Some in Hc2 as [_ Hc2].
    apply (se_fresh_chans _ _ _ _ Hs). eauto.
  - intros t Hin. assert (t ∈ queue lp) as Hin' by (rewrite Eq; by right).
    destruct (se_tasks _ _ _ _ Hs _ Hin') as [->|(conn2 & [co2 Hc2] & Hor)]; [by left|]. right. exists conn2.
    split; [|done]. exists co2. apply Hold; [done|]. intros ->. by destruct Hor as [->| ->].
Qed.
(** ** The descriptors balance *)

Definition conn_fds w : list Z := (fun e => co_fd_ e.2) <$> map_to_list (w_conns w).

Lemma elem_of_conn_fds w fd :
  fd ∈ conn_fds w <-> exists conn co, w_conns w !! conn = Some co /\ co_fd_ co = fd.
Proof.
  unfold conn_fds. rewrite list_elem_of_fmap. split.
  - intros ([conn co] & -> & Hin%elem_of_map_to_list). eauto.
  - intros (conn & co & Hco & <-). exists (conn, co). split; [done|]. by apply elem_of_map_to_list.
Qed.

Lemma NoDup_conn_fds w lp sv ac : service w lp sv ac -> NoDup (conn_fds w).
Proof.
  intros Hs. unfold conn_fds. apply NoDup_fmap_2_strong; [|apply NoDup_map_to_list].
  intros [c1 o1] [c2 o2] E1%elem_of_map_to_list E2%elem_of_map_to_list Hfd. simpl in Hfd.
  assert (c1 = c2) as -> by by eapply (se_inj _ _ _ _ Hs). congruence.
Qed.

Lemma service_balance w lp sv ac :
  service w lp sv ac -> size (k_open (w_kern w)) = (size base + size (w_conns w))%nat.
Proof.
  intros Hs. assert (k_open (w_kern w) = base ∪ list_to_set (conn_fds w)) as ->.
  { apply set_eq. intros fd. rewrite elem_of_union, elem_of_list_to_set, elem_of_conn_fds. apply (se_open _ _ _ _ Hs). }
  rewrite size_union.
  - f_equal. rewrite size_list_to_set by by eapply NoDup_conn_fds. unfold conn_fds.
    by rewrite length_fmap, length_map_to_list.
  - intros fd Hb. rewrite elem_of_list_to_set, elem_of_conn_fds. intros (conn & co & Hco & <-).
    by destruct (ck_static _ _ _ _ _ (se_conns _ _ _ _ Hs _ _ Hco)) as (_ & _ & _ & Hnb & _).
Qed.
End invariant.
