(* ===== verification/Serving.v ===== *)
(** * Serving: a server in one loop, end to end

    The callbacks and tasks of Reactor.v on the state of Service.v.  Every event of
    a channel and every task is one of the steps of that file, whatever epoll
    reports; so the loop of a server runs for ever, and reclaims what it closes. *)

From stdpp Require Import base list gmap strings numbers.
From Stdlib Require Import ZArith Lia Init.Byte.
From S2P Require Import Prelude Buffer Kernel RefKernel State World Demo Poller EventLoop Socket.
From S2P Require Import Connection Acceptor Connector ThreadPool Server Client Reactor Contract Service.

Open Scope np_scope.

(** ** The handlers of a connection *)

Section handlers.
Context `{EpollReliable} `{!EpollFrame} `{!StreamLaws} `{!IoLaws} `{!FdLaws} `{!BacklogLaws}
  `{!AcceptReliable} `{!DescriptorLaws} `{!KernelLimits} `{!Inet} `{!UserCode}.
Variables (l s a : ptr) (base : gset Z).
Variable user_holds : World -> ptr -> bool.
Implicit Types (w : World) (c conn : ptr) (sv : TcpServer) (co : TcpConnection) (ac : TcpAcceptor)
  (ch : EventChannel) (lp : EventLoop).

Abbreviation queue lp := (lo_queue_task_funcs_ lp).

(** A sink: user code that empties the read buffer when a message arrives, and otherwise
    looks on.  It is the condition on the user under which the end-to-end theorems on a
    server hold.  The echo server of the repository does not meet it, since it sends, and
    they fail for it ([reset_peer_aborts_echo_server] in Echo.v). *)
Definition user_sink : Prop :=
  forall ev w, match ev with
  | Message_ev cb conn => forall co, w_conns w !! conn = Some co -> exists b,
      user_run ev w = Ok (tt, set_w_conns (<[conn := co_set_read_buffer_ b co]> (w_conns w)) w) /\
      buffer_wf b /\ write_index_ b = 0
  | _ => user_run ev w = Ok (tt, w)
  end.

Hypothesis Hsink : user_sink.

(** What reading changes: the connection's buffer, its stream, errno and what the
    user has been told. *)
Record reading conn co co1 w w1 : Prop := {
  rd_world : w1 = set_w_errno (w_errno w1) (set_w_trace (w_trace w1) (set_w_kern (w_kern w1)
    (set_w_conns (<[conn := co1]> (w_conns w)) w)));
  rd_kern : undisturbed_but (co_fd_ co) (w_kern w) (w_kern w1);
  rd_interest ep : k_interest (w_kern w1) ep = k_interest (w_kern w) ep;
  rd_same : same_conn co co1;
  rd_state : co_state_ co1 = co_state_ co /\ co_msg_cb_ co1 = co_msg_cb_ co;
  rd_policy : conn_policy co1 = conn_policy co;
  rd_trace : exists ms, w_trace w1 = rev ms ++ w_trace w /\ Forall (delivery (conn_policy co) conn) ms
}.

Lemma reading_refl conn co w : w_conns w !! conn = Some co -> reading conn co co w w.
Proof.
  intros Hc. split; try done; [|by exists []]. rewrite insert_id by done. by destruct w.
Qed.

Lemma reading_trans conn co co1 co2 w w1 w2 :
  reading conn co co1 w w1 -> reading conn co1 co2 w1 w2 -> reading conn co co2 w w2.
Proof.
  intros [R1 [K1 Q1] I1 (S1 & S2 & S3 & S4 & S5) [T1 M1] P1 (ms1 & E1 & F1)]
    [R2 [K2 Q2] I2 (S1' & S2' & S3' & S4' & S5') [T2 M2] P2 (ms2 & E2 & F2)].
  split.
  - rewrite R2 at 1. rewrite R1. simpl. by rewrite insert_insert_eq.
  - split; [congruence|]. intros fd Hfd. rewrite S4 in Q2.
    destruct (Q1 fd Hfd) as (<- & <- & <-), (Q2 fd Hfd) as (<- & <- & <-). done.
  - intros ep. by rewrite I2.
  - split_and!; congruence.
  - split; congruence.
  - congruence.
  - exists (ms1 ++ ms2). rewrite rev_app_distr, <-app_assoc, E2, E1. split; [done|].
    apply Forall_app. split; [done|]. by rewrite <-P1.
Qed.

Lemma reading_fields conn co co1 w w1 :
  reading conn co co1 w w1 ->
  w_conns w1 = <[conn := co1]> (w_conns w) /\ w_channels w1 = w_channels w /\ w_loops w1 = w_loops w /\
  w_servers w1 = w_servers w /\ same_rest w w1 /\ w_tid w1 = w_tid w.
Proof. intros [R]. rewrite R. done. Qed.

Lemma reading_core conn co co1 ch lp st st1 w w1 :
  reading conn co co1 w w1 -> conn_core w conn co ch lp st ->
  k_stream (w_kern w1) (co_fd_ co) = Some st1 -> conn_core w1 conn co1 ch lp st1.
Proof.
  intros R [Hc Hi [] Hfd _] Hst. destruct (reading_fields _ _ _ _ _ R) as (Ec & Ech & El & _ & _ & Et).
  destruct R as [_ _ I (S1 & S2 & S3 & S4 & S5)].
  split; rewrite ?S1, ?S4, ?S5; [by rewrite Ec, lookup_insert_eq| | |done|done].
  - eapply poller_inv_frame; [exact Hi|rewrite El; apply Hi|done..|exact I|]. by rewrite Ech.
  - split; rewrite ?Ech, ?Et; done.
Qed.

(** Steps of reading: a system call on the descriptor, and user code. *)
Lemma reading_syscall {A} conn co w (r : sysres A) k co1 :
  w_conns w !! conn = Some co -> undisturbed_but (co_fd_ co) (w_kern w) k ->
  (forall ep, k_interest k ep = k_interest (w_kern w) ep) ->
  same_conn co co1 -> co_state_ co1 = co_state_ co /\ co_msg_cb_ co1 = co_msg_cb_ co ->
  conn_policy co1 = conn_policy co ->
  reading conn co co1 w (set_w_conns (<[conn := co1]> (w_conns w)) (after_syscall r k w)).
Proof.
  intros Hc Hq Hi Hs Hm Hp. split; [by destruct r, w|..]; simpl; autorewrite with world; try done. by exists [].
Qed.

Lemma undisturbed_others fd (k k' : kstate) : undisturbed k k' -> undisturbed_but fd k k'.
Proof. intros [Ho Hq]. split; [exact Ho|]. intros fd' _. apply Hq. Qed.

Lemma run_message w conn co cb :
  w_conns w !! conn = Some co -> co_msg_cb_ co = Some cb -> exists w1 b, call_user (Message_ev cb conn) w = Ok (tt, w1) /\
    reading conn co (co_set_read_buffer_ b co) w w1 /\ w_kern w1 = w_kern w /\
    buffer_wf b /\ write_index_ b = 0.
Proof.
  intros Hc Hcb. unfold call_user. erewrite run_bind by reflexivity.
  destruct (Hsink (Message_ev cb conn) (set_w_trace (Message_ev cb conn :: w_trace w) w) co Hc)
    as (b & E & Hwf & Hwi).
  eexists _, b. split; [exact E|]. split; [|done]. split; try done.
  exists [Message_ev cb conn]. split; [done|]. apply Forall_singleton. by exists cb.
Qed.

Lemma run_ErrorHandler w conn co :
  w_conns w !! conn = Some co -> exists w1, ErrorHandler conn w = Ok (tt, w1) /\
    reading conn co co w w1 /\ undisturbed (w_kern w) (w_kern w1).
Proof.
  intros Hc. unfold ErrorHandler, SocketError. run1. rewrite run_bind_assoc. run1.
  set (rk := sys_so_error (co_fd_ co) (w_kern w)).
  pose proof (quiet_so_error (co_fd_ co) (w_kern w)) as Hq. fold rk in Hq.
  assert (reading conn co co w (after_syscall rk.1 rk.2 w)) as Hr.
  { split; autorewrite with world; [|by apply undisturbed_others|intros ep; apply frame_so_error|done|done|done|by exists []].
    rewrite insert_id by done. by destruct rk.1, w. }
  exists (after_syscall rk.1 rk.2 w). autorewrite with world. split; [|done].
  by destruct rk.1.
Qed.

(** ** Reading, up to closing *)

Lemma ReadHandler_loop_reads fuel w conn co ch lp st :
  conn_core w conn co ch lp st -> buffer_wf (co_read_buffer_ co) -> write_index_ (co_read_buffer_ co) = 0 ->
  (length (st_incoming st) < fuel)%nat ->
  exists w1 co1, reading conn co co1 w w1 /\ is_Some (k_stream (w_kern w1) (co_fd_ co)) /\
    (ReadHandler_loop (call_close user_holds) fuel conn w = Ok (tt, w1) /\
       buffer_wf (co_read_buffer_ co1) /\ write_index_ (co_read_buffer_ co1) = 0 \/
     ReadHandler_loop (call_close user_holds) fuel conn w = CloseHandler (call_close user_holds) conn w1).
Proof.
  revert w co st. induction fuel as [|fuel IH]; intros w co st Hc Hwf Hwi Hf; [lia|]. simpl.
  assert (receiving conn w co ch lp st) as Hr.
  { split_and!; [done..|]. pose proof (stream_limit _ _ _ (cc_stream _ _ _ _ _ _ Hc)). pose proof limit_32. lia. }
  pose proof (run_read_from_fd conn w co ch lp st Hr) as Hrd.
  pose proof (quiet_readv (co_fd_ co) (ReadFromFD_iov (co_read_buffer_ co)) (w_kern w)) as Hq.
  pose proof (frame_readv (co_fd_ co) (ReadFromFD_iov (co_read_buffer_ co)) (w_kern w)) as Hfr.
  destruct (sys_readv _ _ _) as [[d|e] k']; simpl in Hq, Hfr.
  - destruct Hrd as (w1 & b & rest & E & Hin & Hb & Hnil & Hr1 & Hw1).
    erewrite run_bind by exact E. cbn beta iota.
    assert (reading conn co (co_set_read_buffer_ b co) w w1) as R1.
    { rewrite Hw1. by apply (reading_syscall conn co w (SOk tt) k'); [apply Hc|..]. }
    destruct Hr1 as (Hc1 & Hwf1 & _).
    assert (is_Some (k_stream (w_kern w1) (co_fd_ co))) as Hs1 by (eexists; apply Hc1).
    destruct d as [|x d].
    { simpl. exists w1, (co_set_read_buffer_ b co). eauto. }
    rewrite (proj2 (Z.ltb_lt _ _)) by (simpl; lia).
    erewrite run_bind by (apply run_load; apply Hc1). simpl.
    destruct (co_msg_cb_ co) as [cb|] eqn:Hcb; [|exists w1, (co_set_read_buffer_ b co); eauto].
    destruct (run_message w1 conn _ cb (cc_conn _ _ _ _ _ _ Hc1) Hcb) as (w2 & b2 & E2 & R2 & K2 & Hwf2 & Hwi2).
    erewrite run_bind by exact E2. set (co2 := co_set_read_buffer_ b2 (co_set_read_buffer_ b co)) in *.
    assert (conn_core w2 conn co2 ch lp (mkStream (st_sent st) rest (st_eof st))) as Hc2.
    { eapply reading_core; [exact R2|exact Hc1|]. rewrite K2. apply Hc1. }
    destruct (IH w2 co2 _ Hc2 Hwf2 Hwi2) as (w3 & co3 & R3 & Hs3 & Hor).
    { simpl. rewrite Hin in Hf. simpl in Hf. rewrite length_app in Hf. lia. }
    exists w3, co3. split; [|done]. eapply reading_trans; [exact R1|]. by eapply reading_trans.
  - destruct Hrd as (w1 & E & (Hc1 & _) & _ & Hw1). erewrite run_bind by exact E. cbn beta iota.
    rewrite (proj2 (Z.ltb_ge 0 (-1))) by lia. rewrite (proj2 (Z.eqb_neq 0 (-1))) by lia.
    assert (reading conn co co w w1) as R1.
    { rewrite Hw1. by apply reading_syscall; [apply Hc|..]. }
    destruct (e =? EAGAIN).
    { exists w1, co. split_and!; [done|eexists; apply Hc1|]. left. by split_and!. }
    unfold set_errno. erewrite run_bind by reflexivity.
    set (w2 := set_w_errno _ w1).
    assert (reading conn co co w1 w2) as R2.
    { unfold w2. split; simpl; try done; [|by exists []]. rewrite (insert_id (w_conns w1)) by apply Hc1. by destruct w1. }
    assert (w_conns w2 !! conn = Some co) as Hcn2 by apply Hc1.
    destruct (run_ErrorHandler w2 conn co Hcn2) as (w3 & E3 & R3 & K3).
    exists w3, co. split; [eapply reading_trans; [exact R1|by eapply reading_trans]|].
    split; [|by left; rewrite E3]. rewrite (proj1 (proj2 K3 _)). eexists. apply Hc1.
Qed.

(** ** Closing *)

(** An interest operation on a channel, as an equation. *)
Definition watching f lo c ch lp (k' : kstate) w : World :=
  set_w_kern k' (set_w_loops (<[lo := with_entry (ch_fd_ ch) c lp]> (w_loops w))
    (set_w_channels (<[c := with_interest f ch]> (w_channels w)) w)).

Definition interest_kernel f c ch lp w : kstate :=
  (sys_epoll_ctl (po_epoll_fd_ (lo_poller_ lp)) (interest_op (ch_poller_status_ ch) (f (ch_events_ ch)))
     (ch_fd_ ch) (u32 (f (ch_events_ ch))) c (w_kern w)).2.

Lemma run_interest f w lo c ch lp :
  poller_inv w lo lp -> channel_of w lo lp c ch ->
  let k' := interest_kernel f c ch lp w in
  set_interest c f w = Ok (tt, watching f lo c ch lp k' w) /\ undisturbed (w_kern w) k' /\
    poller_inv (watching f lo c ch lp k' w) lo (with_entry (ch_fd_ ch) c lp) /\
    channel_of (watching f lo c ch lp k' w) lo (with_entry (ch_fd_ ch) c lp) c (with_interest f ch).
Proof.
  intros Hi Hch k'. destruct (set_interest_correct f w lo lp c ch Hi Hch) as (w1 & E & Hi1 & Hch1 & Hw1 & _).
  destruct (interest_ctl w lo lp c ch (f (ch_events_ ch)) Hi Hch) as (Hok & _).
  pose proof (run_set_interest f lo c lp ch w (pi_loop _ _ _ Hi) (co_chan _ _ _ _ _ Hch)
    (co_loop _ _ _ _ _ Hch)) as Hrun. cbv zeta in Hrun. rewrite Hok in Hrun.
  rewrite Hrun in E; [|rewrite (co_thread _ _ _ _ _ Hch); apply Hi|by eapply channel_of_entry].
  injection E as <-. split; [|split; [apply quiet_epoll_ctl|split; [exact Hi1|exact Hch1]]].
  apply Hrun; [rewrite (co_thread _ _ _ _ _ Hch); apply Hi|by eapply channel_of_entry].
Qed.

(** [DisableAll] and [RemoveFromLoop] of a registered channel, as an equation. *)
Definition unregistered_loop fd c lp : EventLoop := without_entry fd (with_entry fd c lp).
Definition unregistered_channel ch : EventChannel :=
  ch_set_poller_status_ NEW_CHANNEL (with_interest (fun _ => none_event_flag) ch).
Definition unregistered_kernel fd c lp w : kstate :=
  (sys_epoll_ctl (po_epoll_fd_ (lo_poller_ lp)) EPOLL_CTL_DEL fd (u32 none_event_flag) c (w_kern w)).2.
Definition unregistered lo c ch lp w : World :=
  set_w_loops (<[lo := unregistered_loop (ch_fd_ ch) c lp]> (w_loops w))
    (set_w_channels (<[c := unregistered_channel ch]> (w_channels w))
      (set_w_kern (unregistered_kernel (ch_fd_ ch) c lp w) w)).

Lemma run_unregister w lo c ch lp :
  poller_inv w lo lp -> channel_of w lo lp c ch -> ch_poller_status_ ch = ADDED_CHANNEL -> removable lp c ->
  let w' := unregistered lo c ch lp w in
  (forall A (m : M A), (do! DisableAll c; do! RemoveFromLoop c; m) w = m w') /\ undisturbed (w_kern w) (w_kern w') /\
  poller_inv w' lo (unregistered_loop (ch_fd_ ch) c lp).
Proof.
  intros Hinv Hco Hadd Hrem w'.
  destruct (run_interest (fun _ => none_event_flag) w lo c ch lp Hinv Hco) as (E1 & Hq & Hinv1 & Hco1).
  assert (interest_kernel (fun _ => none_event_flag) c ch lp w = unregistered_kernel (ch_fd_ ch) c lp w) as Ek
    by (unfold interest_kernel; by rewrite Hadd).
  rewrite Ek in *. set (ks := unregistered_kernel _ _ _ _) in *.
  set (w1 := watching _ _ _ _ _ ks w) in *. set (lp1 := with_entry _ _ lp) in *. set (ch1 := with_interest _ ch) in *.
  assert (ch_poller_status_ ch1 = DELETE_CHANNEL) as Hdel by (simpl; by rewrite Hadd).
  assert (RemoveFromLoop c w1 = Ok (tt, w')) as E2.
  { rewrite (run_RemoveFromLoop lo c lp1 ch1 w1 (pi_loop _ _ _ Hinv1) (co_chan _ _ _ _ _ Hco1) (co_loop _ _ _ _ _ Hco1)).
    - rewrite bool_decide_eq_false_2 by by rewrite Hdel. unfold w', unregistered, w1, watching. simpl. by rewrite !insert_insert_eq.
    - rewrite (co_thread _ _ _ _ _ Hco1). apply Hinv1.
    - apply Hinv1.
    - apply lookup_insert_eq.
    - by rewrite Hdel.
    - done.
    - exact Hrem. }
  destruct (RemoveFromLoop_correct w1 lo lp1 c ch1) as (w2 & E2' & Hinv2 & _);
    [done|done|by rewrite Hdel|done|exact Hrem|]. rewrite E2 in E2'. injection E2' as <-.
  split; [|split; [exact Hq|exact Hinv2]]. intros A m.
  unfold DisableAll. erewrite run_bind by exact E1. by erewrite run_bind by exact E2.
Qed.

Lemma run_conn_interest f w conn co ch lp st :
  conn_core w conn co ch lp st ->
  exists k', let w' := watching f (co_loop_ co) (co_channel_ co) ch lp k' w in
    set_interest (co_channel_ co) f w = Ok (tt, w') /\ undisturbed (w_kern w) k' /\
    conn_core w' conn co (with_interest f ch) (with_entry (ch_fd_ ch) (co_channel_ co) lp) st.
Proof.
  intros [Hc Hi Hch Hfd Hst]. destruct (run_interest f w _ _ ch lp Hi Hch) as (E & Q & Hi1 & Hch1).
  eexists. split; [exact E|]. split; [done|]. split; [done|exact Hi1|exact Hch1|done|].
  simpl. by rewrite (proj1 (proj2 Q _)).
Qed.

Lemma run_status w conn co :
  w_conns w !! conn = Some co ->
  call_conn_status conn w = Ok (tt, set_w_trace (rev (told (conn_policy co) conn (co_state_ co)) ++ w_trace w) w).
Proof.
  intros Hc. unfold call_conn_status, told. run1. simpl. destruct (co_conn_status_cb_ co) as [cb|].
  - unfold call_user. erewrite run_bind by reflexivity.
    exact (Hsink (ConnStatus_ev cb conn (co_state_ co)) _).
  - by destruct w.
Qed.

(** The outcome of [CloseHandler] for a connection of the server. *)
Definition close_loop conn co ch lp : EventLoop :=
  enqueue (ConnectDestoryed_task conn) (with_entry (ch_fd_ ch) (co_channel_ co) lp).
Definition close_server co sv : TcpServer := sv_set_connections_ (delete (co_fd_ co) (sv_connections_ sv)) sv.
Definition close_world conn co ch lp sv (k : kstate) w : World :=
  set_w_loops {[l := close_loop conn co ch lp]} (set_w_servers {[s := close_server co sv]}
    (set_w_trace (rev (told (conn_policy co) conn DISCONNECTED) ++ w_trace w) (set_w_kern k
    (set_w_channels (<[co_channel_ co := with_interest (fun _ => none_event_flag) ch]> (w_channels w))
    (set_w_conns (<[conn := co_set_state_ DISCONNECTED co]> (w_conns w)) w))))).

Lemma run_close w conn co ch lp st sv :
  conn_core w conn co ch lp st -> w_loops w = {[l := lp]} -> w_servers w = {[s := sv]} -> co_loop_ co = l ->
  co_close_cb_ co = Some (ServerRemoveConnection_cb s) -> sv_server_loop_ sv = l ->
  sv_connections_ sv !! co_fd_ co = Some conn ->
  exists k, CloseHandler (call_close user_holds) conn w = Ok (tt, close_world conn co ch lp sv k w) /\
    undisturbed (w_kern w) k /\ loop_inv (close_world conn co ch lp sv k w) l (close_loop conn co ch lp).
Proof.
  intros Hc El Es Kl Kcb Sl Hreg. unfold CloseHandler. erewrite run_assert_in_loop by exact Hc.
  set (co2 := co_set_state_ DISCONNECTED co).
  pose proof (core_update _ _ _ _ _ _ co2 Hc eq_refl eq_refl eq_refl) as Hc2.
  unfold SetState. erewrite run_bind by (apply run_update; apply Hc). fold co2.
  change (heap_put _ w) with (set_w_conns (<[conn := co2]> (w_conns w)) w). set (w2 := set_w_conns _ w) in *.
  erewrite run_bind by (apply run_load; apply Hc2).
  destruct (run_conn_interest (fun _ => none_event_flag) w2 conn co2 ch lp st Hc2) as (k3 & E3 & Q3 & Hc3).
  unfold DisableAll. erewrite run_bind by exact E3.
  set (lp3 := with_entry _ _ lp) in *. set (w3 := watching _ _ _ _ _ k3 w2) in *.
  erewrite run_bind by (apply (run_status w3 conn co2); apply Hc3). erewrite run_bind by (apply run_load; apply Hc3).
  change (co_close_cb_ co2) with (co_close_cb_ co). rewrite Kcb. cbn [call_close]. set (w4 := set_w_trace _ w3).
  assert (w_servers w4 !! s = Some sv) as Hs4 by (change (w_servers w !! s = Some sv); rewrite Es; apply lookup_singleton_eq).
  assert (w_loops w4 = {[l := lp3]}) as Hl4.
  { change (<[co_loop_ co := lp3]> (w_loops w) = {[l := lp3]}). rewrite Kl, El. apply insert_singleton_eq. }
  assert (w_loops w4 !! l = Some lp3) as Hl4' by by rewrite Hl4, lookup_singleton_eq.
  assert (w_tid w4 = lo_thread_id_ lp3) as Ht4 by apply (cc_chan _ _ _ _ _ _ Hc3).
  erewrite run_Server_RemoveConnection; [|exact Hs4|rewrite Sl; exact Hl4'].
  rewrite bool_decide_eq_true_2 by exact Ht4.
  erewrite (run_RemoveConnectionInLoop _ w4 s sv conn co2 lp3);
    [|exact Hs4|exists lp3; by rewrite Sl|apply Hc3|by change (co_loop_ co2) with (co_loop_ co); rewrite Kl
     |change (co_fd_ co2) with (co_fd_ co); congruence].
  exists k3. split; [|split; [exact Q3|split; [|exact Ht4]]].
  - change (co_loop_ co2) with (co_loop_ co). rewrite Kl, Hl4, insert_singleton_eq.
    change (w_servers w4) with (w_servers w). by rewrite Es, insert_singleton_eq.
  - pose proof (cc_inv _ _ _ _ _ _ Hc3) as Hi3. change (co_loop_ co2) with (co_loop_ co) in Hi3. rewrite Kl in Hi3.
    eapply poller_inv_frame; [exact Hi3|apply lookup_singleton_eq|done..].
Qed.

(** The states of the connections, as the contract has them. *)
Lemma promised_state w conn co st :
  w_conns w !! conn = Some co -> co_state_ co = st -> c_conns (promised w) !! conn = Some st.
Proof. intros Hco <-. simpl. by rewrite lookup_fmap, Hco. Qed.

Lemma promised_insert w w' conn co' :
  w_conns w' = <[conn := co']> (w_conns w) -> w_next w' = w_next w ->
  promised w' = mkContract (<[conn := co_state_ co']> (c_conns (promised w))) (c_next (promised w)).
Proof. intros E1 E2. unfold promised. by rewrite E1, E2, fmap_insert. Qed.

(** [CloseHandler] after reading, on an established connection. *)
Lemma CloseHandler_step w lp sv ac conn co ch st w1 co1 :
  service l s a base w lp sv ac -> conn_core w conn co ch lp st -> co_state_ co = CONNECTED ->
  life conn co ch sv (queue lp) ->
  reading conn co co1 w w1 -> is_Some (k_stream (w_kern w1) (co_fd_ co)) ->
  exists w' lp' sv' ch', CloseHandler (call_close user_holds) conn w1 = Ok (tt, w') /\
    same_channel ch ch' /\
    conn_step l s conn co (co_set_state_ DISCONNECTED co1) ch' w w' lp lp' sv sv' /\
    queue lp' = queue lp ++ [ConnectDestoryed_task conn] /\
    lo_evt_channel_active_ lp' = lo_evt_channel_active_ lp.
Proof.
  intros Hs Hc Hst Hlife R [st1 Hst1].
  pose proof (reading_core _ _ _ _ _ _ _ _ _ R Hc Hst1) as Hc1.
  destruct (reading_fields _ _ _ _ _ R) as (Fc & Fch & Fl & Fs & (Fcl & Fac & Fn) & Ft).
  pose proof R as [_ [Ko Kq] _ (S1 & S2 & S3 & S4 & S5) [Est _] Pol (ms & Etr & Hms)].
  pose proof (se_conns _ _ _ _ _ _ _ _ Hs _ _ (cc_conn _ _ _ _ _ _ Hc)) as [(Kl & Ks & Kcb & Kb & _) _ _].
  destruct (se_server _ _ _ _ _ _ _ _ Hs) as (Sl & _).
  unfold life in Hlife. rewrite Hst in Hlife. destruct Hlife as (L1 & L2 & L3 & L4 & L5).
  destruct (run_close w1 conn co1 ch lp st1 sv Hc1) as (k & E & [Q3o Q3] & Hinv); [..|congruence|].
  { rewrite Fl. apply Hs. }
  { rewrite Fs. apply Hs. }
  { congruence. }
  { congruence. }
  { done. }
  exists (close_world conn co1 ch lp sv k w1), (close_loop conn co1 ch lp), (close_server co1 sv),
    (with_interest (fun _ => none_event_flag) ch). split; [exact E|]. split; [done|]. split; [|done]. split; try done.
  - change (<[conn := co_set_state_ DISCONNECTED co1]> (w_conns w1) = <[conn := co_set_state_ DISCONNECTED co1]> (w_conns w)).
    rewrite Fc. apply insert_insert_eq.
  - simpl. by rewrite S5, Fch.
  - split; simpl; [by rewrite Q3o, <-Ko|]. intros fd Hfd. destruct (Q3 fd) as (-> & -> & ->). by apply Kq.
  - simpl. rewrite (proj1 (Q3 _)), Hst1. eauto.
  - change (interest_status (ch_poller_status_ ch) none_event_flag = DELETE_CHANNEL /\
      none_event_flag = none_event_flag /\ delete (co_fd_ co1) (sv_connections_ sv) !! co_fd_ co1 = None /\
      times (ConnectEstablished_task conn) (queue lp ++ [ConnectDestoryed_task conn]) = 0%nat /\
      times (ConnectDestoryed_task conn) (queue lp ++ [ConnectDestoryed_task conn]) = 1%nat).
    rewrite L1, lookup_delete_eq, !times_app, L4, L5. cbn [times]. by rewrite decide_False, decide_True.
  - right. unfold close_server. by rewrite S4.
  - intros t. simpl. rewrite elem_of_app, list_elem_of_singleton. naive_solver.
  - intros conn' t Hne Ht. simpl. rewrite times_app. cbn [times]. rewrite decide_False; [lia|]. naive_solver.
  - exists (ms ++ told (conn_policy co) conn DISCONNECTED).
    split; [simpl; by rewrite rev_app_distr, <-app_assoc, <-Etr, Pol|].
    eapply runs_trans; [apply (runs_deliveries _ _ conn); [by eapply promised_state; [apply Hc|]|done]|].
    rewrite (promised_insert w (close_world conn co1 ch lp sv k w1) conn (co_set_state_ DISCONNECTED co1)).
    + apply runs_one, Closes. by eapply promised_state; [apply Hc|].
    + simpl. by rewrite Fc, insert_insert_eq.
    + done.
Qed.

(** ** Events of a connection *)

(** How far a connection has come; what is not there has been destroyed. *)
Definition phase (o : option TcpConnection) : nat :=
  match o with
  | Some co => match co_state_ co with
               | CONNECTING => 0
               | CONNECTED | DISCONNECTING => 1
               | DISCONNECTED => 2
               end
  | None => 3
  end.

(** No connection goes back, no address is handed out twice, and the contract with
    the user is kept. *)
Definition world_policy w : policy :=
  match w_servers w !! s with Some sv => server_policy sv | None => mkPolicy None None end.

Record progress w w' : Prop := {
  pg_next : (w_next w <= w_next w')%positive;
  pg_phase conn : (conn < w_next w)%positive -> (phase (w_conns w !! conn) <= phase (w_conns w' !! conn))%nat;
  pg_policy : world_policy w' = world_policy w;
  pg_keeps : keeps (world_policy w) w w'
}.

Lemma keeps_refl p w w' :
  w_conns w' = w_conns w -> w_next w' = w_next w -> w_trace w' = w_trace w -> keeps p w w'.
Proof. intros E1 E2 E3. exists []. split; [done|]. unfold promised. rewrite E1, E2. constructor. Qed.

Lemma keeps_trans p w1 w2 w3 : keeps p w1 w2 -> keeps p w2 w3 -> keeps p w1 w3.
Proof.
  intros (e1 & T1 & R1) (e2 & T2 & R2). exists (e1 ++ e2).
  split; [by rewrite rev_app_distr, <-app_assoc, T2, T1|by eapply runs_trans].
Qed.

Lemma service_policy w lp sv ac : service l s a base w lp sv ac -> world_policy w = server_policy sv.
Proof. intros Hs. unfold world_policy. by rewrite (service_server _ _ _ _ _ _ _ _ Hs). Qed.

#[local] Instance progress_preorder : PreOrder progress.
Proof.
  split; [intros w; split; [done..|by apply keeps_refl]|]. intros w1 w2 w3 [N1 P1 Y1 K1] [N2 P2 Y2 K2].
  split; [lia| |congruence|rewrite Y1 in K2; by eapply keeps_trans]. intros conn Hc.
  specialize (P1 conn Hc). specialize (P2 conn ltac:(lia)). lia.
Qed.

Lemma progress_conns w w' :
  w_conns w' = w_conns w -> w_next w' = w_next w -> w_servers w' = w_servers w -> w_trace w' = w_trace w ->
  progress w w'.
Proof.
  intros E1 E2 E3 E4. split; [by rewrite E2|by rewrite E1|unfold world_policy; by rewrite E3|by apply keeps_refl].
Qed.

(** What handling an event of the channel [c] leaves: the invariant, the other
    channels as they were, the connections with their channels, and a queue that
    only grew. *)
Definition handled ac c w lp w' : Prop :=
  exists lp' sv', service l s a base w' lp' sv' ac /\ progress w w' /\
    (forall c' ch', c' <> c -> w_channels w !! c' = Some ch' -> w_channels w' !! c' = Some ch') /\
    (forall conn co, w_conns w !! conn = Some co ->
      exists co', w_conns w' !! conn = Some co' /\ co_channel_ co' = co_channel_ co) /\
    (forall ch, w_channels w !! c = Some ch -> exists ch', w_channels w' !! c = Some ch' /\ same_channel ch ch') /\
    (exists new, queue lp' = queue lp ++ new) /\
    lo_evt_channel_active_ lp' = lo_evt_channel_active_ lp.

Lemma handled_refl ac c w lp sv : service l s a base w lp sv ac -> handled ac c w lp w.
Proof. intros Hs. exists lp, sv. split_and!; [done..|eauto|intros ch ?; by exists ch|exists []; by rewrite app_nil_r|done]. Qed.

Lemma handled_then ac c w lp w1 lp1 w2 :
  handled ac c w lp w1 -> w_loops w1 !! l = Some lp1 -> handled ac c w1 lp1 w2 -> handled ac c w lp w2.
Proof.
  intros (lp1' & sv1 & Hs1 & P1 & Ho1 & Hc1 & Hx1 & [n1 E1] & A1) Hl1 (lp2 & sv2 & Hs2 & P2 & Ho2 & Hc2 & Hx2 & [n2 E2] & A2).
  assert (lp1' = lp1) as -> by (pose proof (service_loop _ _ _ _ _ _ _ _ Hs1); congruence). exists lp2, sv2.
  split_and!; [done|by etrans|eauto| | | |congruence].
  - intros conn co (co1 & H1' & Ech1)%Hc1. apply Hc2 in H1' as (co2 & ? & ?). exists co2. split; congruence.
  - intros ch (ch1 & H1' & S1)%Hx1. apply Hx2 in H1' as (ch2 & ? & S2). exists ch2. split; [done|].
    unfold same_channel in *. congruence.
  - exists (n1 ++ n2). by rewrite E2, E1, app_assoc.
Qed.

Lemma handled_trans ac c w lp w1 (m : M unit) :
  handled ac c w lp w1 ->
  (forall lp1 sv1, service l s a base w1 lp1 sv1 ac -> wp m (fun _ w2 => handled ac c w1 lp1 w2) w1) ->
  wp m (fun _ w2 => handled ac c w lp w2) w1.
Proof.
  intros Hh Hm. pose proof Hh as (lp1 & sv1 & Hs1 & _). eapply wp_mono; [by eapply Hm|].
  intros ? w2. eapply handled_then; [done|by eapply service_loop].
Qed.

Lemma conn_step_progress w w' lp lp' sv sv' ac conn co co' ch' :
  service l s a base w lp sv ac -> w_conns w !! conn = Some co -> conn_step l s conn co co' ch' w w' lp lp' sv sv' ->
  (phase (Some co) <= phase (Some co'))%nat -> progress w w'.
Proof.
  intros Hs Hco Hst Hph. destruct (cs_rest _ _ _ _ _ _ _ _ _ _ _ _ Hst) as (_ & _ & En).
  pose proof (service_policy _ _ _ _ Hs) as Ep. split.
  - by rewrite En.
  - intros conn2 _. rewrite (cs_conns _ _ _ _ _ _ _ _ _ _ _ _ Hst).
    destruct (decide (conn = conn2)) as [<-|]; [by rewrite Hco, lookup_insert_eq|by rewrite lookup_insert_ne].
  - rewrite Ep. unfold world_policy. rewrite (cs_servers _ _ _ _ _ _ _ _ _ _ _ _ Hst), lookup_singleton_eq.
    by eapply conn_step_policy.
  - rewrite Ep, <-(ck_policy _ _ _ _ _ _ _ _ (se_conns _ _ _ _ _ _ _ _ Hs _ _ Hco)). apply Hst.
Qed.

Lemma conn_step_handled w w' lp lp' sv sv' ac conn co co' ch ch' :
  service l s a base w lp sv ac -> w_conns w !! conn = Some co -> w_channels w !! co_channel_ co = Some ch ->
  same_channel ch ch' -> conn_step l s conn co co' ch' w w' lp lp' sv sv' ->
  (phase (Some co) <= phase (Some co'))%nat ->
  (exists new, queue lp' = queue lp ++ new) -> lo_evt_channel_active_ lp' = lo_evt_channel_active_ lp ->
  handled ac (co_channel_ co) w lp w'.
Proof.
  intros Hs Hco Hch Hsc Hst Hph Hq Ha. exists lp', sv'.
  split_and!; [by eapply conn_step_service|by eapply conn_step_progress| | | |done|done].
  - intros c' ch2 Hne Hc'. rewrite (cs_chans _ _ _ _ _ _ _ _ _ _ _ _ Hst). by rewrite lookup_insert_ne.
  - intros conn2 co2 Hc2. rewrite (cs_conns _ _ _ _ _ _ _ _ _ _ _ _ Hst).
    destruct (decide (conn = conn2)) as [<-|]; [|exists co2; by rewrite lookup_insert_ne].
    exists co'. rewrite lookup_insert_eq. split; [done|].
    destruct (cs_same _ _ _ _ _ _ _ _ _ _ _ _ Hst) as (_ & _ & _ & _ & ->). congruence.
  - intros ch2 Hc2. exists ch'. rewrite (cs_chans _ _ _ _ _ _ _ _ _ _ _ _ Hst), lookup_insert_eq.
    split; [done|]. congruence.
Qed.

Lemma reading_step w lp sv ac conn co co1 ch st w1 :
  service l s a base w lp sv ac -> conn_core w conn co ch lp st -> life conn co ch sv (queue lp) ->
  reading conn co co1 w w1 -> is_Some (k_stream (w_kern w1) (co_fd_ co)) ->
  (co_state_ co1 <> DISCONNECTED -> buffer_wf (co_read_buffer_ co1) /\ write_index_ (co_read_buffer_ co1) = 0) ->
  co_state_ co = CONNECTED -> conn_step l s conn co co1 ch w w1 lp lp sv sv.
Proof.
  intros Hs Hc Hlife R [st1 Hst1] Hbuf Hco.
  pose proof (reading_core _ _ _ _ _ _ _ _ _ R Hc Hst1) as Hc1.
  destruct (reading_fields _ _ _ _ _ R) as (Fc & Fch & Fl & Fs & Fr & Ft).
  pose proof R as [_ Kq _ Sm [Est _] Pol (ms & Etr & Hms)]. pose proof Sm as (S1 & S2 & S3 & S4 & S5).
  pose proof (se_conns _ _ _ _ _ _ _ _ Hs _ _ (cc_conn _ _ _ _ _ _ Hc)) as [(Kl & _) _ _].
  split; try done; [..|by left|auto|].
  - rewrite Fch. symmetry. apply insert_id, (core_channel _ _ _ _ _ _ Hc).
  - rewrite Fl. apply Hs.
  - rewrite Fs. apply Hs.
  - split; [|rewrite Ft; apply (se_loop _ _ _ _ _ _ _ _ Hs)]. rewrite <-Kl, <-S1. apply Hc1.
  - unfold life in *. by rewrite Est, S4.
  - exists ms. split; [done|]. rewrite (promised_insert w w1 conn co1 Fc (proj2 (proj2 Fr))), Est.
    pose proof (promised_state w conn co CONNECTED (cc_conn _ _ _ _ _ _ Hc) Hco) as Hpr.
    rewrite insert_id by by rewrite Hco. apply (runs_deliveries _ _ conn); [|done]. by destruct (promised w).
Qed.

Lemma ReadHandler_handled fuel w lp sv ac conn co ch st :
  service l s a base w lp sv ac -> conn_core w conn co ch lp st -> life conn co ch sv (queue lp) ->
  co_state_ co = CONNECTED -> (k_limit <= fuel)%nat ->
  wp (ReadHandler (call_close user_holds) fuel conn) (fun _ w' => handled ac (co_channel_ co) w lp w') w.
Proof.
  intros Hs Hc Hlife Hst Hf. unfold wp, ReadHandler. erewrite run_assert_in_loop by exact Hc.
  pose proof (se_conns _ _ _ _ _ _ _ _ Hs _ _ (cc_conn _ _ _ _ _ _ Hc)) as [(_ & _ & _ & _ & Hbuf) _ _].
  destruct Hbuf as [Hwf Hwi]; [by rewrite Hst|].
  pose proof (stream_limit _ _ _ (cc_stream _ _ _ _ _ _ Hc)) as Hlim.
  destruct (ReadHandler_loop_reads fuel w conn co ch lp st Hc Hwf Hwi) as (w1 & co1 & R & Hs1 & Hor); [lia|].
  destruct Hor as [(-> & Hb1)|E].
  - eapply conn_step_handled; [done|apply Hc|apply (core_channel _ _ _ _ _ _ Hc)|done|by eapply reading_step|..];
      [|exists []; by rewrite app_nil_r|done]. simpl. by rewrite (proj1 (rd_state _ _ _ _ _ R)).
  - rewrite E. destruct (CloseHandler_step w lp sv ac conn co ch st w1 co1 Hs Hc Hst Hlife R Hs1)
      as (w' & lp' & sv' & ch' & -> & Hsc & Hcs & Eq & Ea).
    eapply conn_step_handled; [done|apply Hc|apply (core_channel _ _ _ _ _ _ Hc)|done|done| |eauto|done].
    simpl. by rewrite Hst; lia.
Qed.

Lemma ErrorHandler_handled w lp sv ac conn co ch st :
  service l s a base w lp sv ac -> conn_core w conn co ch lp st -> life conn co ch sv (queue lp) ->
  co_state_ co = CONNECTED ->
  wp (ErrorHandler conn) (fun _ w' => handled ac (co_channel_ co) w lp w' /\ w_conns w' !! conn = Some co) w.
Proof.
  intros Hs Hc Hlife Hst. destruct (run_ErrorHandler w conn co) as (w1 & E & R & K); [apply Hc|].
  pose proof (se_conns _ _ _ _ _ _ _ _ Hs _ _ (cc_conn _ _ _ _ _ _ Hc)) as [(_ & _ & _ & _ & Hbuf) _ _].
  unfold wp. rewrite E. split; [|destruct (reading_fields _ _ _ _ _ R) as (-> & _); apply lookup_insert_eq].
  eapply conn_step_handled; [done|apply Hc|apply (core_channel _ _ _ _ _ _ Hc)|done| |done|exists []; by rewrite app_nil_r|done].
  eapply reading_step; [done..| |done|done]. rewrite (proj1 (proj2 K _)). eexists. apply Hc.
Qed.

Lemma WriteHandler_handled w lp sv ac conn co ch st :
  service l s a base w lp sv ac -> conn_core w conn co ch lp st -> life conn co ch sv (queue lp) ->
  wp (WriteHandler (exec user_holds) conn) (fun _ w' => handled ac (co_channel_ co) w lp w') w.
Proof.
  intros Hs Hc Hlife. unfold wp, WriteHandler. erewrite run_assert_in_loop by exact Hc.
  erewrite run_bind by (apply run_load; apply Hc).
  erewrite run_bind by (apply run_load; apply (core_channel _ _ _ _ _ _ Hc)).
  assert (IsWriting ch = false) as ->; [|by eapply handled_refl].
  unfold life, IsWriting in *. by destruct (co_state_ co); try done; destruct Hlife as (_ & -> & _).
Qed.

(** A channel that epoll reports: registered, and readable when its peer has hung
    up. *)
Definition ready w c : Prop :=
  exists ch, w_channels w !! c = Some ch /\ ch_poller_status_ ch = ADDED_CHANNEL /\
    (ch_close_event_cb_ ch <> None -> is_close_event (ch_recieved_events ch) = false).

Lemma call_if_handled w lp sv ac c ch w1 test cb fuel junk :
  handled ac c w lp w1 -> w_channels w1 !! c = Some ch ->
  (forall f lp1 sv1, cb ch = Some f -> service l s a base w1 lp1 sv1 ac ->
    wp (call user_holds fuel junk f) (fun _ w2 => handled ac c w1 lp1 w2) w1) ->
  service l s a base w lp sv ac ->
  wp (call_if (call user_holds fuel junk) c test cb) (fun _ w2 => handled ac c w lp w2) w1.
Proof.
  intros Hh Hc Hf Hs. unfold call_if. apply wp_bind, wp_load. exists ch. split; [done|].
  apply wp_when. case_match; [|done]. destruct (cb ch) as [f|]; [|done].
  eapply handled_trans; [done|]. intros lp1 sv1 Hs1. by eapply Hf.
Qed.

Lemma HandleEvent_conn fuel junk w lp sv ac conn co :
  service l s a base w lp sv ac -> w_conns w !! conn = Some co -> ready w (co_channel_ co) ->
  (k_limit <= fuel)%nat ->
  wp (HandleEvent (call user_holds fuel junk) (co_channel_ co))
    (fun _ w' => handled ac (co_channel_ co) w lp w') w.
Proof.
  intros Hs Hco (ch & Hch & Hadd & Hnc) Hf.
  destruct (service_core _ _ _ _ _ _ _ _ _ _ Hs Hco) as (ch0 & st & Hc & (_ & _ & Hr & Hw & Hcl & He) & Hlife).
  assert (ch0 = ch) as -> by (pose proof (core_channel _ _ _ _ _ _ Hc); congruence).
  assert (co_state_ co = CONNECTED) as Hst.
  { unfold life in Hlife. by destruct (co_state_ co); try done; destruct Hlife as (? & _); congruence. }
  unfold HandleEvent. apply wp_bind. unfold call_if at 1. apply wp_bind, wp_load. exists ch. split; [done|].
  rewrite Hnc by by rewrite Hcl. apply wp_ret, wp_bind.
  (* errors leave the connection as it is *)
  eapply (wp_mono _ (fun _ w1 => handled ac (co_channel_ co) w lp w1 /\ w_conns w1 !! conn = Some co)).
  { unfold call_if. apply wp_bind, wp_load. exists ch. split; [done|]. rewrite He. apply wp_when.
    case_match; [by eapply ErrorHandler_handled|]. split; [by eapply handled_refl|done]. }
  intros _ w1 [Hh1 Hco1]. apply wp_bind.
  pose proof Hh1 as (lp1 & sv1 & Hs1 & _).
  destruct (service_core _ _ _ _ _ _ _ _ _ _ Hs1 Hco1) as (ch1 & st1 & Hc1 & (_ & _ & Hr1 & _) & Hlife1).
  eapply wp_mono.
  { eapply (call_if_handled w lp sv ac _ ch1); [done|apply (core_channel _ _ _ _ _ _ Hc1)| |done].
    rewrite Hr1. intros f lp1' sv1' [= <-] Hs1'.
    destruct (service_core _ _ _ _ _ _ _ _ _ _ Hs1' Hco1) as (ch1' & st1' & Hc1' & _ & Hlife1').
    by eapply ReadHandler_handled. }
  intros ? w2 Hh2. pose proof Hh2 as (lp2 & sv2 & Hs2 & _ & _ & Hcs2 & _).
  destruct (Hcs2 _ _ Hco) as (co2 & Hco2 & Ech2).
  destruct (service_core _ _ _ _ _ _ _ _ _ _ Hs2 Hco2) as (ch2 & st2 & Hc2 & (_ & _ & _ & Hw2 & _) & _).
  rewrite <-Ech2 in Hh2 |- *.
  eapply (call_if_handled w lp sv ac _ ch2); [done|apply (core_channel _ _ _ _ _ _ Hc2)| |done].
  rewrite Hw2. intros f lp2' sv2' [= <-] Hs2'.
  destruct (service_core _ _ _ _ _ _ _ _ _ _ Hs2' Hco2) as (ch2' & st2' & Hc2' & _ & Hlife2').
  by eapply WriteHandler_handled.
Qed.
(** ** Events of the other two channels *)

Lemma quiet_handled ac c w w' lp lp' sv :
  service l s a base w lp sv ac -> quiet_step l a ac w w' lp lp' -> w_channels w' = w_channels w ->
  queue lp' = queue lp -> lo_evt_channel_active_ lp' = lo_evt_channel_active_ lp -> handled ac c w lp w'.
Proof.
  intros Hs Hq Ech Eq Ea. exists lp', sv. rewrite Ech, (qs_conns _ _ _ _ _ _ _ Hq).
  split_and!; [by eapply quiet_step_service|by apply progress_conns; apply Hq|done|eauto|intros ch ?; by exists ch| |done].
  exists []. by rewrite app_nil_r.
Qed.

(** A system call that leaves the streams alone. *)
Lemma kernel_step {A} w lp sv ac (r : sysres A) k :
  service l s a base w lp sv ac -> k_open k = k_open (w_kern w) ->
  (forall fd, fd <> lo_wakeup_fd_ lp -> k_stream k fd = k_stream (w_kern w) fd) ->
  (forall ch, hears (w_kern w) ac ch -> hears k ac ch) ->
  (forall ep, k_interest k ep = k_interest (w_kern w) ep) ->
  quiet_step l a ac w (after_syscall r k w) lp lp.
Proof.
  intros Hs Ho Hq Hb Hi. destruct (se_loop _ _ _ _ _ _ _ _ Hs) as [Hinv Ht].
  split; unfold same_rest; autorewrite with world; try done.
  - split; autorewrite with world; [|done].
    eapply poller_inv_frame; [exact Hinv|autorewrite with world; apply Hinv|done..| |];
      autorewrite with world; done.
  - apply Hs.
  - intros c. by destruct (w_channels w !! c).
  - intros fd Hfd. by rewrite Hq.
  - intros ch ch' E E'. assert (ch' = ch) as -> by congruence. apply Hb.
Qed.

(** A channel without other callbacks than for reading. *)
Lemma HandleEvent_plain w lp sv ac c ch fd cb fuel junk :
  service l s a base w lp sv ac -> w_channels w !! c = Some ch -> plain_channel l ch fd cb ->
  wp (call user_holds fuel junk cb) (fun _ w' => handled ac c w lp w') w ->
  wp (HandleEvent (call user_holds fuel junk) c) (fun _ w' => handled ac c w lp w') w.
Proof.
  intros Hs Hc (_ & _ & Er & Ew & Ec & Ee) Hcb.
  assert (forall w' test f (m : M unit) Q, (exists ch', w_channels w' !! c = Some ch' /\ f ch' = None) -> wp m Q w' ->
    wp (do! call_if (call user_holds fuel junk) c test f; m) Q w') as Hskip.
  { intros w' test f m Q (ch' & Hc' & Hf) Hm. apply wp_bind. unfold call_if. apply wp_bind, wp_load.
    exists ch'. split; [done|]. rewrite Hf. apply wp_when. by case_match. }
  unfold HandleEvent. apply Hskip; [eauto|]. apply Hskip; [eauto|]. apply wp_bind.
  eapply wp_mono.
  - eapply (call_if_handled w lp sv ac c ch w); [by eapply handled_refl|done| |done].
    rewrite Er. intros f lp1 sv1 [= <-] Hs1.
    assert (lp1 = lp) as ->; [|exact Hcb].
    pose proof (service_loop _ _ _ _ _ _ _ _ Hs). pose proof (service_loop _ _ _ _ _ _ _ _ Hs1). congruence.
  - intros ? w1 Hh1. unfold call_if. apply wp_bind, wp_load.
    destruct Hh1 as (lp1 & sv1 & Hs1 & Hpr & Ho & Hcs & Hx & Hq & Ha). destruct (Hx ch Hc) as (ch1 & Hc1 & Hsc).
    exists ch1. split; [done|]. injection Hsc as _ _ _ E _ _. rewrite E, Ew. apply wp_when.
    case_match; exists lp1, sv1; by split_and!.
Qed.

Lemma HandleEvent_wakeup w lp sv ac fuel junk :
  service l s a base w lp sv ac ->
  wp (HandleEvent (call user_holds fuel junk) (lo_wakeup_channel_ lp))
    (fun _ w' => handled ac (lo_wakeup_channel_ lp) w lp w') w.
Proof.
  intros Hs. destruct (se_wake_chan _ _ _ _ _ _ _ _ Hs) as (ch & Hc & Hp).
  eapply HandleEvent_plain; [done..|]. simpl. unfold HandleWakeupEvent.
  apply wp_bind, wp_load. exists lp. split; [by eapply service_loop|]. apply wp_bind, wp_syscall, wp_ret.
  destruct (quiet_read (lo_wakeup_fd_ lp) 4 (w_kern w)) as [Ho Hq].
  pose proof (se_base _ _ _ _ _ _ _ _ Hs) as (_ & _ & _ & Hne).
  eapply quiet_handled; [done|eapply kernel_step|..]; try done.
  - intros fd Hfd. apply (Hq fd Hfd).
  - intros ch2. destruct (Hq _ Hne) as (_ & E1 & E2). unfold hears. by rewrite E1, E2.
  - intros ep. apply frame_read.
  - by autorewrite with world.
Qed.
(** ** Accepting *)

(** Without threads every connection is given the server's own loop. *)
Lemma server_serves sv fd : server_static l s sv -> serves sv fd l.
Proof.
  intros (_ & _ & pool & Hp & Hn & Hm). exists pool. split; [done|].
  unfold GetEventLoopFromPoolForHash. rewrite Hn. simpl. by rewrite Hm.
Qed.

Lemma accepted_arrival w lp sv ac n peer k' rest :
  service l s a base w lp sv ac ->
  sys_accept4 (ac_socket_fd_ ac) (Z.lor SOCK_NONBLOCK SOCK_CLOEXEC) (w_kern w) = (SOk (n, peer), k') ->
  k_backlog k' (ac_socket_fd_ ac) = Some rest ->
  let conn := w_next w in
  let co := served_conn sv n l (ac_socket_addr_ ac) peer (Pos.succ conn) in
  let w' := accepted_world (set_w_kern k' w) s sv n l lp (ac_socket_addr_ ac) peer in
  NewConnected (release_conn user_holds) s n (ac_socket_addr_ ac) peer (set_w_kern k' w) = Ok (tt, w') /\
  k_backlog (w_kern w') (ac_socket_fd_ ac) = Some rest /\
  arrival l s ac conn co (new_conn_channel n l conn) w w' lp (enqueue (ConnectEstablished_task conn) lp)
    sv (sv_set_connections_ (<[n := conn]> (sv_connections_ sv)) sv).
Proof.
  intros Hs Eacc Hb conn co w'.
  pose proof (se_server _ _ _ _ _ _ _ _ Hs) as Hstat. pose proof Hstat as (Sl & Scb & _).
  destruct (se_loop _ _ _ _ _ _ _ _ Hs) as [Hinv Ht]. pose proof (service_loop _ _ _ _ _ _ _ _ Hs) as Hl.
  pose proof (accept_open (ac_socket_fd_ ac) (Z.lor SOCK_NONBLOCK SOCK_CLOEXEC) (w_kern w)) as Ho.
  pose proof (accept_others (ac_socket_fd_ ac) (Z.lor SOCK_NONBLOCK SOCK_CLOEXEC) (w_kern w)) as Hst.
  pose proof (accept_interest (ac_socket_fd_ ac) (Z.lor SOCK_NONBLOCK SOCK_CLOEXEC) (w_kern w)) as Hi.
  rewrite Eacc in Ho, Hst, Hi. destruct Ho as [(_ & Hfree & _) Hop]. simpl in Hi.
  destruct (service_fresh _ _ _ _ _ _ _ _ conn Hs eq_refl) as (N1 & N2 & _).
  destruct (quiet_setsockopt n SOL_SOCKET SO_KEEPALIVE 1 k') as [Qo Qs].
  change (sys_setsockopt n SOL_SOCKET SO_KEEPALIVE 1 k') with (keep_alive n k') in *.
  assert (w_kern w' = (keep_alive n k').2 /\ w_tid w' = w_tid w /\ w_trace w' = w_trace w) as (Ek & Et & Etr).
  { unfold w', accepted_world, new_conn_world. simpl. by autorewrite with world. }
  split_and!.
  - apply run_NewConnected.
    + exact (service_server _ _ _ _ _ _ _ _ Hs).
    + exists lp. by rewrite Sl.
    + by apply server_serves.
    + done.
    + apply eq_None_not_Some. intros [c Hin]. apply Hfree, (se_open _ _ _ _ _ _ _ _ Hs). right.
      destruct (se_registry _ _ _ _ _ _ _ _ Hs _ _ Hin) as (co2 & ? & ?). eauto.
  - by rewrite Ek, (proj1 (proj2 (Qs _))).
  - split; try done.
    + unfold w', accepted_world, new_conn_world. simpl. rewrite (se_loops _ _ _ _ _ _ _ _ Hs).
      apply insert_singleton_eq.
    + unfold w', accepted_world, new_conn_world. simpl. rewrite (se_servers _ _ _ _ _ _ _ _ Hs).
      apply insert_singleton_eq.
    + unfold w', accepted_world, new_conn_world. simpl. by autorewrite with world.
    + split; [|by rewrite Et].
      eapply poller_inv_frame;
        [by apply (poller_inv_new_channel w l lp (Pos.succ conn) (new_conn_channel n l conn))
        |unfold w', accepted_world; simpl; apply lookup_insert_eq|done..| |].
      * intros ep. rewrite Ek. unfold keep_alive. rewrite frame_setsockopt. apply Hi.
      * intros c. unfold w', accepted_world, new_conn_world. simpl. by autorewrite with world.
    + by rewrite Ek, Qo.
    + rewrite Ek, (proj1 (Qs _)). apply (Hst 0).
    + intros fd Hfd. rewrite Ek, (proj1 (Qs _)). by apply Hst.
    + rewrite Ek, (proj1 (proj2 (Qs _))), Hb. eauto.
Qed.

Lemma arrival_progress w w' lp lp' sv sv' ac conn co ch :
  service l s a base w lp sv ac -> arrival l s ac conn co ch w w' lp lp' sv sv' -> progress w w'.
Proof.
  intros Hs [(Fn & Fc & Fx) Ec _ _ Es _ _ Esv _ _ _ _ _ _ _ (_ & _ & _ & Est & _) _ _ Etr].
  pose proof (service_policy _ _ _ _ Hs) as Ep. split.
  - rewrite Fx. lia.
  - intros conn2 Hlt. rewrite Ec, lookup_insert_ne by lia. done.
  - rewrite Ep. unfold world_policy. by rewrite Es, lookup_singleton_eq, Esv.
  - exists []. split; [done|]. unfold promised. rewrite Ec, fmap_insert, Est, Fx. apply runs_one, Accepts. lia.
Qed.

Lemma arrival_handled w w' lp lp' sv sv' ac conn co ch c :
  service l s a base w lp sv ac -> arrival l s ac conn co ch w w' lp lp' sv sv' ->
  lo_evt_channel_active_ lp' = lo_evt_channel_active_ lp -> handled ac c w lp w'.
Proof.
  intros Hs Har Ha. pose proof Har as [(Fn & Fc & Fx) Ec Ech _ _ _ _ _ Eq _ _ _ _ _ _ _ _].
  destruct (service_fresh _ _ _ _ _ _ _ _ conn Hs Fn) as (N1 & N2 & _).
  assert (forall c' ch', w_channels w !! c' = Some ch' -> w_channels w' !! c' = Some ch') as Hold.
  { intros c' ch' Hc'. rewrite Ech, lookup_insert_ne by congruence. done. }
  exists lp', sv'. split_and!; [by eapply arrival_service|by eapply arrival_progress|eauto| | |eauto|done].
  - intros conn2 co2 Hc2. exists co2. by rewrite Ec, lookup_insert_ne by congruence.
  - intros ch' ?. exists ch'. split; [by apply Hold|done].
Qed.

Lemma service_accepting w lp sv ac q :
  service l s a base w lp sv ac -> k_backlog (w_kern w) (ac_socket_fd_ ac) = Some q -> acceptor_ok w a ac q.
Proof.
  intros Hs Hq. destruct (se_accept _ _ _ _ _ _ _ _ Hs) as (El & _). split; [apply Hs| |done].
  exists lp. rewrite El. split; [by eapply service_loop|apply (se_loop _ _ _ _ _ _ _ _ Hs)].
Qed.

(** The server, in its loop, meets the contract of the acceptor. *)
#[local] Instance service_accept_client ac w0 lp0 :
  AcceptClient (NewConnected (release_conn user_holds)) s a ac (handled ac (ac_channel_ ac) w0 lp0).
Proof.
  split.
  - intros w peer rest n k' _ Hh Eacc Hn Hb. pose proof Hh as (lp & sv & Hs & _).
    destruct (accepted_arrival w lp sv ac n peer k' rest Hs Eacc Hb) as (E & Hb' & Har).
    unfold wp. rewrite E. set (w' := accepted_world _ _ _ _ _ _ _ _) in *. split.
    + eapply service_accepting; [by eapply arrival_service|done].
    + eapply handled_then; [done|by eapply service_loop|]. by eapply arrival_handled.
  - intros w k' _ Hh Eacc Hb. pose proof Hh as (lp & sv & Hs & _).
    pose proof (accept_open (ac_socket_fd_ ac) (Z.lor SOCK_NONBLOCK SOCK_CLOEXEC) (w_kern w)) as Ho.
    pose proof (accept_others (ac_socket_fd_ ac) (Z.lor SOCK_NONBLOCK SOCK_CLOEXEC) (w_kern w)) as Hst.
    pose proof (accept_interest (ac_socket_fd_ ac) (Z.lor SOCK_NONBLOCK SOCK_CLOEXEC) (w_kern w)) as Hi.
    rewrite Eacc in Ho, Hst, Hi. eapply handled_then; [done|by eapply service_loop|].
    eapply quiet_handled; [done|eapply kernel_step; [done..| |done]|done..].
    intros ch _. left. by rewrite Hb.
Qed.

Lemma HandleEvent_accept w lp sv ac fuel junk :
  service l s a base w lp sv ac -> ready w (ac_channel_ ac) -> (k_limit <= fuel)%nat ->
  wp (HandleEvent (call user_holds fuel junk) (ac_channel_ ac))
    (fun _ w' => handled ac (ac_channel_ ac) w lp w') w.
Proof.
  intros Hs (ch' & Hc' & Hadd & _) Hf. destruct (se_acc_chan _ _ _ _ _ _ _ _ Hs) as (ch & Hc & Hp & Hh).
  eapply HandleEvent_plain; [done..|]. simpl. assert (ch' = ch) as -> by congruence.
  destruct (se_accept _ _ _ _ _ _ _ _ Hs) as [El Hcb]. destruct Hh as [[q Hq]|[Hn _]]; [|congruence].
  destruct (AcceptHandle_ok (Inv := handled ac (ac_channel_ ac) w lp) (NewConnected (release_conn user_holds))
    fuel w q junk Hcb) as (w' & E & _ & _ & Hh).
  - by eapply service_accepting.
  - by eapply handled_refl.
  - pose proof (backlog_limit _ _ _ Hq). lia.
  - unfold wp. by rewrite E.
Qed.

(** ** Any event *)
Lemma HandleEvent_handled w lp sv ac c fuel junk :
  service l s a base w lp sv ac -> ready w c -> (k_limit <= fuel)%nat ->
  wp (HandleEvent (call user_holds fuel junk) c) (fun _ w' => handled ac c w lp w') w.
Proof.
  intros Hs Hr Hf. destruct Hr as (ch & Hc & Hr).
  destruct (se_chans _ _ _ _ _ _ _ _ Hs _ _ Hc) as [->|[->|(conn & co & Hco & <-)]].
  - eapply HandleEvent_accept; [done| |done]. by exists ch.
  - by eapply HandleEvent_wakeup.
  - eapply HandleEvent_conn; [done..| |done]. by exists ch.
Qed.
(** ** The loop's own work

    Polling, and what the loop notes down for itself, is not noticed. *)
Lemma polled_kernel (k k' : kstate) :
  rtc polled k k' -> k_open k' = k_open k /\
    forall fd, (is_Some (k_stream k fd) -> is_Some (k_stream k' fd)) /\
      (is_Some (k_backlog k fd) -> is_Some (k_backlog k' fd)) /\ (k_bound k fd = true -> k_bound k' fd = true).
Proof.
  induction 1 as [|k1 k2 k3 (ep & n & t & ->) _ [IHo IHf]]; [done|]. split; [by rewrite IHo, wait_open|].
  intros fd. destruct (wait_others ep n t k1 fd) as (? & ? & ?), (IHf fd) as (? & ? & ?). auto.
Qed.

Lemma same_channels_core ac w w' :
  (forall c, channel_core <$> w_channels w' !! c = channel_core <$> w_channels w !! c) ->
  same_channels ac (w_channels w) (w_channels w').
Proof.
  intros Hc c. specialize (Hc c). destruct (w_channels w !! c), (w_channels w' !! c); try done.
  apply (inj Some) in Hc. injection Hc as ????????. unfold same_channel. split; [congruence|done].
Qed.

Lemma bookkeeping_quiet w w' lp sv ac :
  service l s a base w lp sv ac -> bookkeeping l w w' ->
  exists lp', quiet_step l a ac w w' lp lp' /\ loop_core lp' = loop_core lp.
Proof.
  intros Hs B. destruct (bookkeeping_inv _ _ _ _ (se_loop _ _ _ _ _ _ _ _ Hs) B) as (lp' & Hl' & Hcore).
  exists lp'. split; [|done]. pose proof B as [R K L O C]. destruct (polled_kernel _ _ K) as [Ho Hf].
  injection Hcore as ??????????. split.
  - exact Hl'.
  - apply map_eq. intros l2. destruct (decide (l2 = l)) as [->|Hne].
    + rewrite lookup_singleton_eq. apply Hl'.
    + by rewrite L, (se_loops _ _ _ _ _ _ _ _ Hs), !lookup_singleton_ne.
  - by rewrite R.
  - by rewrite R.
  - by rewrite R.
  - by apply same_channels_core.
  - split_and!; congruence.
  - congruence.
  - congruence.
  - done.
  - intros fd _. apply Hf.
  - intros ch ch' E E' [Hh|[Hn Hh]]; [left; by apply Hf|right]. split; [|by apply Hf].
    specialize (C (ac_channel_ ac)). rewrite E, E' in C. apply (inj Some) in C. injection C as ????????. congruence.
  - by rewrite R.
Qed.
(** *** Polling *)

Lemma close_event_bits ev : is_close_event (s32 ev) = Z.testbit ev 4 && negb (Z.testbit ev 0).
Proof.
  unfold is_close_event. f_equal.
  - unfold has_flag. rewrite Z.land_comm. change POLLHUP with (2 ^ 4).
    rewrite <-(s32_testbit ev 4) by lia. by apply has_flag_bit.
  - f_equal. rewrite <-(s32_testbit ev 0) by lia. by apply (has_flag_bit 0).
Qed.

(** A registered descriptor belongs to a channel that is registered. *)
Lemma registered_channel w lp fd reg c :
  loop_inv w l lp -> k_interest (w_kern w) (po_epoll_fd_ (lo_poller_ lp)) !! fd = Some (reg, c) ->
  exists ch, w_channels w !! c = Some ch /\ ch_poller_status_ ch = ADDED_CHANNEL /\ ch_fd_ ch = fd /\
    reg = u32 (ch_events_ ch).
Proof.
  intros [Hinv _]. rewrite (pi_kernel _ _ _ Hinv). unfold expected_interest.
  destruct (po_evt_channel_list_ (lo_poller_ lp) !! fd) as [c'|] eqn:E; [|done]. simpl.
  destruct (pi_entry _ _ _ Hinv _ _ E) as (ch & Hc & Hfd & _). rewrite Hc. simpl. unfold watched.
  case_decide; [|done]. intros [= <- <-]. eauto.
Qed.
(** Channels with a callback for closing are those of connections, which are
    watched for reading. *)
Lemma watched_for_reading w lp sv ac c ch :
  service l s a base w lp sv ac -> w_channels w !! c = Some ch -> ch_close_event_cb_ ch <> None ->
  ch_poller_status_ ch = ADDED_CHANNEL -> ch_events_ ch = read_event_flag.
Proof.
  intros Hs Hc Hcl Hadd. destruct (se_chans _ _ _ _ _ _ _ _ Hs _ _ Hc) as [->|[->|(conn & co & Hco & <-)]].
  - destruct (se_acc_chan _ _ _ _ _ _ _ _ Hs) as (ch' & Hc' & Hp & _). destruct Hp as (_ & _ & _ & _ & E & _). congruence.
  - destruct (se_wake_chan _ _ _ _ _ _ _ _ Hs) as (ch' & Hc' & Hp). destruct Hp as (_ & _ & _ & _ & E & _). congruence.
  - destruct (ck_chan _ _ _ _ _ _ _ _ (se_conns _ _ _ _ _ _ _ _ Hs _ _ Hco)) as (ch' & Hc' & _ & Hl).
    assert (ch' = ch) as -> by congruence. unfold life in Hl.
    by destruct (co_state_ co); try done; destruct Hl as (E & ? & _); congruence.
Qed.

(** What epoll reports is ready, and reported once. *)
Lemma reported_ready w lp sv ac n t evs k' :
  service l s a base w lp sv ac ->
  sys_epoll_wait (po_epoll_fd_ (lo_poller_ lp)) n t (w_kern w) = (SOk evs, k') ->
  NoDup (evs.*2) /\ Forall (ready (polled_world l lp evs k' w)) (evs.*2).
Proof.
  intros Hs Hw. pose proof (se_loop _ _ _ _ _ _ _ _ Hs) as Hl.
  assert (NoDup (evs.*2)) as Hnd.
  { eapply wait_once; [exact Hw|]. intros fd fd' reg reg' p E E'.
    destruct (registered_channel _ _ _ _ _ Hl E) as (ch & Hc & _ & <- & _).
    destruct (registered_channel _ _ _ _ _ Hl E') as (ch' & Hc' & _ & <- & _). congruence. }
  split; [done|]. apply Forall_fmap, Forall_forall. intros [ev c] Hin. simpl.
  destruct (epoll_wait_ok _ _ _ _ _ _ Hw) as (_ & Hreg).
  destruct (Hreg ev c Hin) as (fd & reg & E).
  destruct (registered_channel _ _ _ _ _ Hl E) as (ch & Hc & Hadd & _ & _).
  exists (ch_set_recieved_events (s32 ev) ch). split; [by apply received_once; [|apply list_elem_of_In|]|].
  split; [done|]. simpl. intros Hcl. rewrite close_event_bits. destruct (Z.testbit ev 4) eqn:Hhup; [|done].
  rewrite (wait_hup _ _ _ _ _ _ ev c Hw); [done..| |done].
  intros fd2 reg2 E2. destruct (registered_channel _ _ _ _ _ Hl E2) as (ch2 & Hc2 & _ & _ & ->).
  assert (ch2 = ch) as -> by congruence.
  assert (ch_events_ ch = read_event_flag) as ->; [|done].
  eapply watched_for_reading; done.
Qed.

Lemma Poll_serves w lp sv ac :
  service l s a base w lp sv ac -> lo_evt_channel_list_ lp = [] ->
  wp (EpollPoller_Poll l 0) (fun _ w' => exists lp', service l s a base w' lp' sv ac /\ progress w w' /\
    queue lp' = queue lp /\ NoDup (lo_evt_channel_list_ lp') /\ Forall (ready w') (lo_evt_channel_list_ lp')) w.
Proof.
  intros Hs Hnil. pose proof (se_loop _ _ _ _ _ _ _ _ Hs) as [Hinv Ht]. pose proof (pi_loop _ _ _ Hinv) as Hl.
  assert (forall w', bookkeeping l w w' -> exists lp', w_loops w' !! l = Some lp' /\
    service l s a base w' lp' sv ac /\ progress w w' /\ queue lp' = queue lp) as Hbk.
  { intros w' B. destruct (bookkeeping_quiet w w' lp sv ac Hs B) as (lp' & Hq & Hcore). exists lp'.
    split_and!; [apply (qs_inv _ _ _ _ _ _ _ Hq)|by eapply quiet_step_service|apply progress_conns; apply Hq|].
    by injection Hcore. }
  unfold wp. set (po := lo_poller_ lp).
  destruct (sys_epoll_wait (po_epoll_fd_ po) (s32 (po_events_ready_size po)) 0 (w_kern w))
    as [[evs|e] k'] eqn:Hw; (assert (polled (w_kern w) k') as Hp by (eexists _, _, _; by rewrite Hw)).
  - destruct (Poll_ok w l lp 0 evs k' Hinv Ht Hw) as [-> _].
    destruct (Hbk (polled_world l lp evs k' w)) as (lp' & Hl' & Hs' & Hpr & Hq); [by apply polled_bookkeeping|].
    assert (lp' = polled_loop evs lp) as ->.
    { simpl in Hl'. rewrite lookup_insert_eq in Hl'. congruence. }
    assert (lo_evt_channel_list_ (polled_loop evs lp) = evs.*2) as El
      by (unfold polled_loop; case_match; simpl; by rewrite Hnil).
    destruct (reported_ready w lp sv ac _ _ evs k' Hs Hw) as [Hnd Hrd].
    exists (polled_loop evs lp). by rewrite El.
  - rewrite (run_EpollPoller_Poll w l lp 0 _ _ Hl) with (2 := Hw) by (rewrite Ht; apply Hinv).
    destruct (Hbk (after_syscall (SErr e : sysres unit) k' w)) as (lp' & Hl' & Hs' & Hpr & Hq);
      [by apply failed_poll_bookkeeping|].
    exists lp'. simpl in Hl'. assert (lp' = lp) as -> by congruence. rewrite Hnil.
    split_and!; [done..|constructor|constructor].
Qed.
(** *** The channels that are ready, one after the other *)

Lemma own_update_serves w lp sv ac f :
  service l s a base w lp sv ac -> loop_core (f lp) = loop_core lp ->
  wp (update (T := EventLoop) l f) (fun _ w' => service l s a base w' (f lp) sv ac /\ progress w w' /\
    w_channels w' = w_channels w) w.
Proof.
  intros Hs Hf. apply wp_update. exists lp. pose proof (service_loop _ _ _ _ _ _ _ _ Hs) as Hl.
  split; [done|]. destruct (bookkeeping_quiet w _ lp sv ac Hs (bookkeeping_loop l w lp (f lp) Hl Hf))
    as (lp' & Hq & _).
  assert (lp' = f lp) as ->.
  { pose proof (pi_loop _ _ _ (proj1 (qs_inv _ _ _ _ _ _ _ Hq))) as E. simpl in E.
    rewrite lookup_insert_eq in E. congruence. }
  split_and!; [by eapply quiet_step_service|by apply progress_conns|done].
Qed.

(** The service after some events and tasks: it goes on, and its queue has been run
    up to [done] and has grown. *)
Definition goes_on ac w lp w' (done : list task) : Prop :=
  exists lp' sv', service l s a base w' lp' sv' ac /\ progress w w' /\
    exists new, done ++ queue lp' = queue lp ++ new.

Lemma HandleEventContext_serves w lp sv ac cs fuel junk :
  service l s a base w lp sv ac -> NoDup cs -> Forall (ready w) cs -> (k_limit <= fuel)%nat ->
  wp (HandleEventContext (call user_holds fuel junk) l cs) (fun _ w' => goes_on ac w lp w' [] /\
    forall lp', w_loops w' !! l = Some lp' -> lo_evt_channel_active_ lp' = None) w.
Proof.
  intros Hs Hnd Hrd Hf. unfold HandleEventContext, set_active. apply wp_bind.
  eapply wp_mono; [by apply (own_update_serves w lp sv ac)|]. intros ? w1 (Hs1 & P1 & Ech1). apply wp_bind.
  eapply wp_mono.
  - apply (wp_forM cs _ (fun rest w' => NoDup rest /\ Forall (ready w') rest /\ goes_on ac w lp w' [])).
    + split_and!; [done| |].
      * eapply Forall_impl; [|exact Hrd]. intros c. unfold ready. by rewrite Ech1.
      * eexists _, sv. split_and!; [done..|]. exists []. by rewrite app_nil_r.
    + intros c rest w2 (Hnd2 & Hrd2 & lp2 & sv2 & Hs2 & P2 & new2 & E2). apply wp_bind.
      eapply wp_mono; [by apply (own_update_serves w2 lp2 sv2 ac)|]. intros ? w3 (Hs3 & P3 & Ech3).
      apply Forall_cons_1 in Hrd2 as [Hc Hrest]. unfold ready in Hc. rewrite <-Ech3 in Hc.
      eapply wp_mono; [by eapply HandleEvent_handled|].
      intros ? w4 (lp4 & sv4 & Hs4 & P4 & Ho4 & _ & _ & [new4 E4] & _).
      split_and!; [by eapply NoDup_cons_1_2| |].
      * apply Forall_forall. intros c' Hc'. rewrite Forall_forall in Hrest.
        destruct (Hrest _ Hc') as (ch' & Hch' & Hr). exists ch'. split; [|done].
        rewrite <-Ech3 in Hch'. apply Ho4; [|done]. intros ->.
        by apply (NoDup_cons_1_1 _ _ Hnd2), list_elem_of_In.
      * exists lp4, sv4. split_and!; [done|by etrans; [|etrans]|]. exists (new2 ++ new4).
        simpl in *. by rewrite E4, E2, app_assoc.
  - intros ? w2 (_ & _ & lp2 & sv2 & Hs2 & P2 & E2).
    eapply wp_mono; [by apply (own_update_serves w2 lp2 sv2 ac)|]. intros ? w3 (Hs3 & P3 & _). split.
    + eexists _, sv2. split_and!; [done|by etrans|exact E2].
    + intros lp'. rewrite (service_loop _ _ _ _ _ _ _ _ Hs3). by intros [= <-].
Qed.
(** ** The tasks *)

(** A connection of the service, when its task has been taken from the queue. *)
Lemma popped_core w lp sv ac conn co rest :
  service l s a base w lp sv ac -> w_conns w !! conn = Some co ->
  exists ch st, conn_core (popped l lp rest w) conn co ch (lo_set_queue_task_funcs_ rest lp) st /\
    w_channels w !! co_channel_ co = Some ch /\ conn_channel l conn co ch /\ life conn co ch sv (queue lp).
Proof.
  intros Hs Hco. destruct (service_core _ _ _ _ _ _ _ _ _ _ Hs Hco) as (ch & st & Hc & Hcc & Hl).
  exists ch, st. split_and!; [|apply (core_channel _ _ _ _ _ _ Hc)|done|done].
  pose proof (core_loop_update _ _ _ _ _ _ (lo_set_queue_task_funcs_ rest lp) Hc eq_refl eq_refl) as Hc'.
  destruct (ck_static _ _ _ _ _ _ _ _ (se_conns _ _ _ _ _ _ _ _ Hs _ _ Hco)) as (El & _).
  by rewrite El in Hc'.
Qed.

(** A registered connection has an owner. *)
Lemma registered_owned w sv fd conn :
  w_servers w = {[s := sv]} -> sv_connections_ sv !! fd = Some conn -> owned user_holds w conn = true.
Proof.
  intros Es Hin. unfold owned, server_owns. apply orb_true_iff. left. apply orb_true_iff. left.
  apply orb_true_iff. left. apply existsb_exists. exists (s, sv). rewrite Es. split.
  { apply list_elem_of_In, elem_of_map_to_list, lookup_singleton_eq. }
  apply existsb_exists. exists (fd, conn). split; [by apply list_elem_of_In, elem_of_map_to_list|].
  by apply bool_decide_eq_true.
Qed.

Lemma ConnectEstablished_step w lp sv ac conn co rest :
  service l s a base w lp sv ac -> w_conns w !! conn = Some co -> co_state_ co = CONNECTING ->
  queue lp = ConnectEstablished_task conn :: rest ->
  exists w' lp' ch ch', ConnectEstablished conn (popped l lp rest w) = Ok (tt, w') /\
    w_channels w !! co_channel_ co = Some ch /\ same_channel ch ch' /\
    conn_step l s conn co (co_set_state_ CONNECTED co) ch' w w' lp lp' sv sv /\ queue lp' = rest.
Proof.
  intros Hs Hco Hst Hq.
  destruct (popped_core w lp sv ac conn co rest Hs Hco) as (ch & st & Hc & Hch & Hcc & Hl).
  unfold life in Hl. rewrite Hst, Hq in Hl. destruct Hl as (L1 & L2 & L3 & L4 & L5).
  pose proof (se_conns _ _ _ _ _ _ _ _ Hs _ _ Hco) as [(Kl & Ks & Kcb & Kb & Kbuf) _ _].
  set (w1 := popped l lp rest w) in *. set (lp1 := lo_set_queue_task_funcs_ rest lp) in *.
  unfold ConnectEstablished. erewrite run_assert_in_loop by exact Hc.
  set (co2 := co_set_state_ CONNECTED co).
  pose proof (core_update _ _ _ _ _ _ co2 Hc eq_refl eq_refl eq_refl) as Hc2.
  unfold SetState. erewrite run_bind by (apply run_update; apply Hc). fold co2.
  change (heap_put _ w1) with (set_w_conns (<[conn := co2]> (w_conns w1)) w1). set (w2 := set_w_conns _ w1) in *.
  erewrite run_bind by (apply run_load; apply Hc2).
  destruct (run_conn_interest (fun e => Z.lor e read_event_flag) w2 conn co2 ch lp1 st Hc2) as (k3 & E3 & [Qo Qs] & Hc3).
  unfold EnableReading. erewrite run_bind by exact E3.
  set (lp3 := with_entry _ _ lp1) in *. set (ch3 := with_interest _ ch) in *.
  set (w3 := watching _ _ _ _ _ k3 w2) in *.
  rewrite (run_status w3 conn co2) by apply Hc3.
  eexists _, lp3, ch, ch3. split; [reflexivity|]. split_and!; [done|done| |done].
  assert (w_loops w3 = {[l := lp3]}) as El3.
  { change (<[co_loop_ co := lp3]> (<[l := lp1]> (w_loops w)) = {[l := lp3]}).
    rewrite Kl, insert_insert_eq, (se_loops _ _ _ _ _ _ _ _ Hs). apply insert_singleton_eq. }
  split; try done.
  - apply Hs.
  - split; [|apply (cc_chan _ _ _ _ _ _ Hc3)]. pose proof (cc_inv _ _ _ _ _ _ Hc3) as Hi3.
    change (co_loop_ co2) with (co_loop_ co) in Hi3. rewrite Kl in Hi3. by eapply poller_inv_ext.
  - change (is_Some (k_stream k3 (co_fd_ co))). rewrite (proj1 (Qs _)). eexists. apply Hc2.
  - intros _. apply Kbuf. by rewrite Hst.
  - cbn [times] in L4, L5. rewrite decide_True in L4 by done. rewrite decide_False in L5 by done.
    unfold life. simpl. rewrite L1, L2. split_and!; [done..|lia|lia].
  - by left.
  - intros t Ht. left. rewrite Hq. by right.
  - intros conn' t Hne Ht. rewrite Hq. cbn [times]. rewrite decide_False; [done|]. naive_solver.
  - exists (told (conn_policy co) conn CONNECTED). split; [done|].
    match goal with |- contract_runs _ _ _ (promised ?w') => rewrite (promised_insert w w' conn co2) by done end.
    apply runs_one, Establishes. by eapply promised_state.
Qed.

(** Nobody owns a connection whose last task has been taken from the queue. *)
Lemma departing_not_owned w lp sv ac conn co rest w' lp' :
  service l s a base w lp sv ac -> w_conns w !! conn = Some co -> co_state_ co = DISCONNECTED ->
  queue lp = ConnectDestoryed_task conn :: rest -> (forall w c, user_holds w c = false) ->
  w_servers w' = w_servers w -> w_clients w' = w_clients w -> w_loops w' = {[l := lp']} -> queue lp' = rest ->
  owned user_holds w' conn = false.
Proof.
  intros Hs Hco Hst Hq Hu Es Ec El Eq.
  destruct (ck_chan _ _ _ _ _ _ _ _ (se_conns _ _ _ _ _ _ _ _ Hs _ _ Hco)) as (ch & _ & _ & Hl).
  unfold life in Hl. rewrite Hst, Hq in Hl. destruct Hl as (_ & _ & Hreg & T1 & T2). cbn [times] in T1, T2.
  rewrite decide_False in T1 by done. rewrite decide_True in T2 by done.
  unfold owned. rewrite Hu, orb_false_r, Es, Ec, El, (se_servers _ _ _ _ _ _ _ _ Hs), (se_clients _ _ _ _ _ _ _ _ Hs).
  rewrite !orb_false_iff. split_and!; apply existsb_map_false.
  - intros s' sv' [<- <-]%lookup_singleton_Some. unfold server_owns. apply not_true_is_false.
    intros ((fd & c) & Hin & Hc%bool_decide_eq_true)%existsb_exists. simpl in Hc. subst c.
    apply list_elem_of_In, elem_of_map_to_list in Hin.
    destruct (se_registry _ _ _ _ _ _ _ _ Hs _ _ Hin) as (co2 & Hc2 & <-). congruence.
  - by intros p cl; rewrite lookup_empty.
  - intros l' lp2 [<- <-]%lookup_singleton_Some. unfold loop_owns. apply not_true_is_false. rewrite Eq.
    intros (t & Hin%list_elem_of_In & Ht%bool_decide_eq_true)%existsb_exists.
    assert (t ∈ queue lp) as Hin' by (rewrite Hq; by right).
    assert (ConnectEstablished_task conn ∉ rest) as T1' by (apply times_0; lia).
    assert (ConnectDestoryed_task conn ∉ rest) as T2' by (apply times_0; lia).
    destruct (se_tasks _ _ _ _ _ _ _ _ Hs _ Hin') as [->|(conn2 & _ & [->| ->])]; [done|..];
      injection Ht as ->; done.
Qed.

(** The channel of a closed connection leaves the table; the kernel has forgotten it
    already. *)
Lemma run_ConnectDestoryed_deleted w conn co ch lp st :
  conn_core w conn co ch lp st -> removable lp (co_channel_ co) ->
  IsNoneEvent ch = true -> ch_poller_status_ ch = DELETE_CHANNEL -> co_state_ co <> CONNECTED ->
  let w' := set_w_loops (<[co_loop_ co := without_entry (co_fd_ co) lp]> (w_loops w))
    (set_w_channels (<[co_channel_ co := ch_set_poller_status_ NEW_CHANNEL ch]> (w_channels w)) w) in
  ConnectDestoryed conn w = Ok (tt, w') /\ poller_inv w' (co_loop_ co) (without_entry (co_fd_ co) lp) /\
  k_interest (w_kern w) (po_epoll_fd_ (lo_poller_ lp)) !! co_fd_ co = None.
Proof.
  intros Hc Hrem Hn Hst Hs w'.
  destruct (run_ConnectDestoryed_closed conn w co ch lp st Hc Hrem Hn) as (w2 & E2 & Hinv2 & Hw2 & Hk2);
    [by rewrite Hst|done|].
  pose proof Hc as [_ Hi Hch Hfd _].
  assert (ConnectDestoryed conn w = Ok (tt, w')) as E.
  { unfold ConnectDestoryed. erewrite run_assert_in_loop by exact Hc.
    erewrite run_bind by (apply run_load; apply Hc). rewrite bool_decide_eq_false_2 by done. cbn [when].
    erewrite run_bind by reflexivity. erewrite run_bind by (apply run_load; apply Hc).
    rewrite (run_RemoveFromLoop (co_loop_ co) (co_channel_ co) lp ch w (pi_loop _ _ _ Hi) (co_chan _ _ _ _ _ Hch)
      (co_loop _ _ _ _ _ Hch)); [|rewrite (co_thread _ _ _ _ _ Hch); apply Hi|apply Hi| |by rewrite Hst|done|done].
    - rewrite bool_decide_eq_false_2 by by rewrite Hst. by rewrite Hfd.
    - apply Hi; [apply Hch|apply Hch|by rewrite Hst]. }
  rewrite E in E2. injection E2 as <-. done.
Qed.

Lemma ConnectDestoryed_step w lp sv ac conn co rest :
  service l s a base w lp sv ac -> w_conns w !! conn = Some co -> co_state_ co = DISCONNECTED ->
  queue lp = ConnectDestoryed_task conn :: rest -> lo_evt_channel_active_ lp = None ->
  (forall w c, user_holds w c = false) ->
  exists w' lp', (do! exec user_holds (ConnectDestoryed_task conn); release user_holds (ConnectDestoryed_task conn))
      (popped l lp rest w) = Ok (tt, w') /\ departure l conn co w w' lp lp'.
Proof.
  intros Hs Hco Hst Hq Ha Hu.
  destruct (popped_core w lp sv ac conn co rest Hs Hco) as (ch & st & Hc & Hch & Hcc & Hl).
  unfold life in Hl. rewrite Hst in Hl. destruct Hl as (L1 & L2 & _).
  pose proof (se_conns _ _ _ _ _ _ _ _ Hs _ _ Hco) as [(Kl & Ks & Kcb & Kb & _) _ _].
  set (w1 := popped l lp rest w) in *. set (lp1 := lo_set_queue_task_funcs_ rest lp) in *.
  destruct (run_ConnectDestoryed_deleted w1 conn co ch lp1 st Hc) as (E2 & Hinv2 & Hk2);
    [by left|by unfold IsNoneEvent; rewrite L2|done|by rewrite Hst|].
  set (lp2 := without_entry (co_fd_ co) lp1) in *. set (w2 := set_w_loops _ _) in *.
  assert (w_loops w2 = {[l := lp2]}) as El2.
  { change (<[co_loop_ co := lp2]> (<[l := lp1]> (w_loops w)) = {[l := lp2]}).
    rewrite Kl, insert_insert_eq, (se_loops _ _ _ _ _ _ _ _ Hs). apply insert_singleton_eq. }
  assert (owned user_holds w2 conn = false) as Hno by by eapply departing_not_owned.
  pose proof (se_base _ _ _ _ _ _ _ _ Hs) as (_ & _ & B3 & _).
  assert (loop_inv (destroyed conn w2 co) (co_loop_ co) lp2) as Hinv3.
  { apply (destroyed_loop_inv conn w2 co (ch_set_poller_status_ NEW_CHANNEL ch)).
    - apply lookup_insert_eq.
    - done.
    - split; [exact Hinv2|]. apply (cc_chan _ _ _ _ _ _ Hc).
    - rewrite Ks. intros E. apply Kb. by rewrite <-E.
    - by rewrite Ks. }
  exists (destroyed conn w2 co), lp2. split.
  { erewrite run_bind by exact E2. unfold release, release_conn. simpl.
    erewrite run_bind by reflexivity. rewrite Hno. by apply run_TcpConnection_destroy. }
  rewrite Kl in Hinv3. pose proof (close_open (co_fd_ co) (w_kern w)) as Hop.
  split; unfold destroyed; unfold same_rest; autorewrite with world; try done.
  - simpl. by rewrite delete_insert_eq.
  - rewrite Ks. exact Hop.
  - intros fd Hfd. rewrite Ks. by apply close_others.
Qed.
(** The channel of the acceptor, as the poller sees it. *)
Lemma acceptor_channel_of w lp sv ac :
  service l s a base w lp sv ac -> exists ch, channel_of w l lp (ac_channel_ ac) ch /\ hears (w_kern w) ac ch.
Proof.
  intros Hs. destruct (se_acc_chan _ _ _ _ _ _ _ _ Hs) as (ch & Hc & (Hfd & Hlo & _) & Hh). exists ch.
  destruct (se_loop _ _ _ _ _ _ _ _ Hs) as [Hinv Ht]. split; [|done]. split; [done|done|done|]. intros Hnew.
  pose proof (se_base _ _ _ _ _ _ _ _ Hs) as (B1 & B2 & _ & B4).
  apply eq_None_not_Some. intros [c' Hin].
  destruct (pi_entry _ _ _ Hinv _ _ Hin) as (ch' & Hc' & Hfd' & _ & Hst).
  destruct (se_chans _ _ _ _ _ _ _ _ Hs _ _ Hc') as [->|[->|(conn & co & Hco & <-)]]; [congruence|..].
  - destruct (se_wake_chan _ _ _ _ _ _ _ _ Hs) as (ch2 & Hc2 & Hf2 & _). congruence.
  - pose proof (se_conns _ _ _ _ _ _ _ _ Hs _ _ Hco) as [(_ & _ & _ & Hnb & _) _ (ch2 & Hc2 & (Hf2 & _) & _)].
    assert (ch2 = ch') as -> by congruence. apply Hnb. by rewrite <-Hf2, Hfd', Hfd.
Qed.

Lemma Listen_step w lp sv ac rest :
  service l s a base w lp sv ac -> queue lp = Listen_task a :: rest ->
  exists w' lp', Acceptor_Listen a (popped l lp rest w) = Ok (tt, w') /\
    quiet_step l a ac w w' lp lp' /\ queue lp' = rest.
Proof.
  intros Hs Hq. destruct (acceptor_channel_of w lp sv ac Hs) as (ch & Hch & Hh).
  destruct (se_loop _ _ _ _ _ _ _ _ Hs) as [Hinv Ht]. destruct (se_accept _ _ _ _ _ _ _ _ Hs) as [Hal _].
  pose proof (se_acceptor _ _ _ _ _ _ _ _ Hs) as Ha.
  set (w1 := popped l lp rest w). set (lp1 := lo_set_queue_task_funcs_ rest lp).
  assert (w_loops w1 !! l = Some lp1) as Hl1 by apply lookup_insert_eq.
  unfold Acceptor_Listen, acceptor_in_loop, Socket_Listen, Listen, syscall_unit.
  rewrite !run_bind_assoc. erewrite run_bind by (apply run_load; exact Ha).
  rewrite run_bind_assoc. erewrite run_bind by (rewrite Hal; by apply run_IsInLoopThread).
  rewrite bool_decide_eq_true_2 by done. run1. erewrite run_bind by (apply run_load; exact Ha).
  rewrite !run_bind_assoc. erewrite run_bind by apply run_syscall. run1. run1.
  pose proof (listen_bound (ac_socket_fd_ ac) SOMAXCONN (w_kern w1)) as Qb.
  destruct (quiet_listen (ac_socket_fd_ ac) SOMAXCONN (w_kern w1)) as ([Qo Qs] & Ql & Qst & Qi).
  set (rk := sys_listen _ _ (w_kern w1)) in *. set (w2 := after_syscall rk.1 rk.2 w1).
  assert (w_channels w2 = w_channels w /\ w_tid w2 = w_tid w /\ w_kern w2 = rk.2 /\ w_loops w2 !! l = Some lp1)
    as (Ech2 & Et2 & Ek2 & El2) by (unfold w2; by autorewrite with world).
  assert (poller_inv w2 l lp1) as Hinv2.
  { eapply poller_inv_frame; [exact Hinv|exact El2|done..| |]; [rewrite Ek2; exact Qi|by rewrite Ech2]. }
  assert (channel_of w2 l lp1 (ac_channel_ ac) ch) as Hch2.
  { destruct Hch as [? ? ? Hfr]. split; rewrite ?Ech2, ?Et2; [done..|exact Hfr]. }
  destruct (run_interest (fun e => Z.lor e read_event_flag) w2 l _ ch lp1 Hinv2 Hch2) as (E3 & [Ro Rs] & Hinv3 & Hch3).
  set (k3 := interest_kernel _ _ _ _ _) in *.
  unfold EnableReading. rewrite E3. set (w3 := watching _ _ _ _ _ k3 w2) in *.
  exists w3, (with_entry (ch_fd_ ch) (ac_channel_ ac) lp1). split; [reflexivity|]. split; [|done]. rewrite Ek2 in Ro, Rs.
  assert (w_loops w3 = {[l := with_entry (ch_fd_ ch) (ac_channel_ ac) lp1]}) as El3.
  { unfold w3, watching. simpl. unfold w2. autorewrite with world. simpl.
    rewrite insert_insert_eq, (se_loops _ _ _ _ _ _ _ _ Hs). apply insert_singleton_eq. }
  split; try done; try (unfold same_rest, w3, watching, w2; simpl; by autorewrite with world).
  - split; [exact Hinv3|]. apply Hch3.
  - intros c. change (w_channels w3) with (<[ac_channel_ ac := with_interest (fun e => Z.lor e read_event_flag) ch]> (w_channels w2)).
    rewrite Ech2. destruct (decide (ac_channel_ ac = c)) as [<-|Hne].
    + rewrite lookup_insert_eq, (co_chan _ _ _ _ _ Hch). done.
    + rewrite lookup_insert_ne by done. by destruct (w_channels w !! c).
  - intros t Hin. rewrite Hq. by right.
  - intros t Hne. rewrite Hq. cbn [times]. by rewrite decide_False.
  - change (w_kern w3) with k3. by rewrite Ro, Qo.
  - intros fd _. change (w_kern w3) with k3. by rewrite (proj1 (Rs _)), Qst.
  - intros ch2 ch3 E2 _ Hh2. left. change (w_kern w3) with k3. rewrite (proj1 (proj2 (Rs _))).
    destruct Hh2 as [Hb|[_ Hb]]; [by apply Ql|by apply Qb].
Qed.

(** ** One task, one iteration, many *)

Hypothesis Hholds : forall w conn, user_holds w conn = false.

(** The connections of the tasks [done] have come further. *)
Definition advanced w w' (done : list task) : Prop :=
  forall t conn, t ∈ done -> task_conn t = Some conn -> (conn < w_next w)%positive ->
    (phase (w_conns w !! conn) < phase (w_conns w' !! conn))%nat.

Lemma departure_progress w w' lp lp' conn co : departure l conn co w w' lp lp' -> progress w w'.
Proof.
  intros [[Hco Hst] Ec _ _ Es (_ & _ & En) _ _ _ _ _ Etr]. split.
  - by rewrite En.
  - intros conn' _. rewrite Ec. destruct (decide (conn = conn')) as [<-|Hne].
    + rewrite lookup_delete_eq, Hco. simpl. rewrite Hst. lia.
    + by rewrite lookup_delete_ne.
  - unfold world_policy. by rewrite Es.
  - exists []. split; [done|]. unfold promised. rewrite Ec, En, fmap_delete. apply runs_one, Reclaims.
    by eapply promised_state.
Qed.

Lemma task_serves w lp sv ac t rest :
  service l s a base w lp sv ac -> lo_evt_channel_active_ lp = None -> queue lp = t :: rest ->
  wp (do! exec user_holds t; release user_holds t) (fun _ w' => advanced w w' [t] /\ progress w w' /\
    exists lp', service l s a base w' lp' sv ac /\ queue lp' = rest) (popped l lp rest w).
Proof.
  intros Hs Ha Hq. assert (t ∈ queue lp) as Hin by (rewrite Hq; by left). unfold wp.
  destruct (se_tasks _ _ _ _ _ _ _ _ Hs _ Hin) as [->|(conn & [co Hco] & Hor)].
  - destruct (Listen_step w lp sv ac rest Hs Hq) as (w' & lp' & E & Hqs & Eq). erewrite run_bind by exact E.
    split_and!; [by intros ? ? ->%list_elem_of_singleton|apply progress_conns; apply Hqs|].
    exists lp'. split; [by eapply quiet_step_service|done].
  - pose proof (se_conns _ _ _ _ _ _ _ _ Hs _ _ Hco) as [_ _ (ch & Hch & _ & Hl)].
    assert (co_state_ co = match t with ConnectEstablished_task _ => CONNECTING | _ => DISCONNECTED end) as Hst.
    { unfold life in Hl. destruct Hor as [->| ->], (co_state_ co); try done; destruct Hl as (_ & _ & _ & T1 & T2);
        rewrite Hq in T1, T2; cbn [times] in T1, T2; repeat case_decide; try done; lia. }
    destruct Hor as [->| ->].
    + destruct (ConnectEstablished_step w lp sv ac conn co rest Hs Hco Hst Hq) as (w' & lp' & ch1 & ch' & E & Hch1 & Hsc & Hcs & Eq).
      erewrite run_bind by exact E. unfold release, release_conn. simpl. erewrite run_bind by reflexivity.
      rewrite (registered_owned w' sv (co_fd_ co) conn).
      * split_and!; [|eapply conn_step_progress; [done..|simpl; rewrite Hst; lia]|].
        -- intros ? conn' ->%list_elem_of_singleton [= <-] _.
           rewrite Hco, (cs_conns _ _ _ _ _ _ _ _ _ _ _ _ Hcs), lookup_insert_eq. simpl. rewrite Hst. lia.
        -- exists lp'. split; [by eapply conn_step_service|done].
      * apply Hcs.
      * unfold life in Hl. rewrite Hst in Hl. apply Hl.
    + destruct (ConnectDestoryed_step w lp sv ac conn co rest Hs Hco Hst Hq Ha Hholds) as (w' & lp' & -> & Hdp).
      pose proof Hdp as [_ Ec _ _ _ (_ & _ & En) _ _ Eq _ _].
      split_and!.
      * intros ? conn' ->%list_elem_of_singleton [= <-] _. rewrite Hco, Ec, lookup_delete_eq. simpl.
        rewrite Hst. lia.
      * by eapply departure_progress.
      * exists lp'. split; [by eapply departure_service|]. rewrite Hq in Eq. by injection Eq.
Qed.

Lemma RunTaskFuncs_serves w lp sv ac :
  service l s a base w lp sv ac -> lo_evt_channel_active_ lp = None ->
  wp (RunTaskFuncs (exec user_holds) (release user_holds) l)
    (fun _ w' => goes_on ac w lp w' (take 1 (queue lp)) /\ advanced w w' (take 1 (queue lp))) w.
Proof.
  intros Hs Ha. unfold RunTaskFuncs. apply wp_bind, wp_load. exists lp. split; [by eapply service_loop|].
  destruct (queue lp) as [|t rest] eqn:Hq.
  - apply wp_ret. split; [|by intros ? ? ?%elem_of_nil]. exists lp, sv. split_and!; [done..|]. rewrite Hq. by exists [].
  - apply wp_bind, wp_store. eapply wp_mono; [by eapply task_serves|].
    intros ? w' (Hadv & Hpr & lp' & Hs' & Eq). split; [|done]. exists lp', sv. split_and!; [done..|].
    rewrite Hq, Eq. exists []. by rewrite app_nil_r.
Qed.
(** What [n] iterations leave, having run the tasks [done]. *)
Definition ran_on ac n w lp w' (done : list task) : Prop :=
  goes_on ac w lp w' done /\ advanced w w' done /\ (n `min` length (queue lp) <= length done)%nat.

Lemma loop_iteration_serves w lp sv ac fuel junk :
  service l s a base w lp sv ac -> (k_limit <= fuel)%nat ->
  wp (loop_iteration (call user_holds fuel junk) (exec user_holds) (release user_holds) l)
    (fun _ w' => exists done, ran_on ac 1 w lp w' done) w.
Proof.
  intros Hs Hf. unfold loop_iteration. apply wp_bind.
  eapply wp_mono; [by apply (own_update_serves w lp sv ac)|]. intros ? w1 (Hs1 & P1 & _). apply wp_bind.
  eapply wp_mono; [by eapply Poll_serves|]. intros ? w2 (lp2 & Hs2 & P2 & E2 & Hnd & Hrd).
  apply wp_bind, wp_load. exists lp2. split; [by eapply service_loop|]. apply wp_bind.
  eapply wp_mono; [by eapply HandleEventContext_serves|].
  intros ? w3 [(lp3 & sv3 & Hs3 & P3 & new3 & E3) Ha3].
  eapply wp_mono; [eapply RunTaskFuncs_serves; [done|]; by eapply Ha3, service_loop|].
  intros ? w4 [(lp4 & sv4 & Hs4 & P4 & new4 & E4) Hadv]. exists (take 1 (queue lp3)).
  assert (queue lp3 = queue lp ++ new3) as Eq3 by (simpl in E3; by rewrite E3, E2).
  assert (progress w w3) as P13 by (by do 2 (etrans; [eassumption|])). split_and!.
  - exists lp4, sv4. split_and!; [done|by etrans|]. exists (new3 ++ new4). by rewrite E4, Eq3, app_assoc.
  - intros t conn Hin Ht Hlt. destruct P13 as [N P]. specialize (P conn Hlt).
    specialize (Hadv t conn Hin Ht ltac:(lia)). lia.
  - rewrite length_take, Eq3, length_app. lia.
Qed.

Lemma iterations_serve n w lp sv ac fuel junk :
  service l s a base w lp sv ac -> (k_limit <= fuel)%nat ->
  wp (iterations (l := l) (call := call user_holds fuel junk) (exec := exec user_holds)
      (release := release user_holds) n) (fun _ w' => exists done, ran_on ac n w lp w' done) w.
Proof.
  intros Hs Hf. revert w lp sv Hs. induction n as [|n IH]; intros w lp sv Hs; simpl.
  - apply wp_ret. exists []. split_and!; [|by intros ? ? ?%elem_of_nil|simpl; lia].
    exists lp, sv. split_and!; [done..|]. exists []. by rewrite app_nil_r.
  - apply wp_bind. eapply wp_mono; [by eapply loop_iteration_serves|].
    intros ? w1 (d1 & (lp1 & sv1 & Hs1 & P1 & new1 & E1) & A1 & L1).
    eapply wp_mono; [by eapply IH|]. intros ? w2 (d2 & (lp2 & sv2 & Hs2 & P2 & new2 & E2) & A2 & L2).
    exists (d1 ++ d2). split_and!.
    + exists lp2, sv2. split_and!; [done|by etrans|]. exists (new1 ++ new2).
      by rewrite <-app_assoc, E2, app_assoc, E1, app_assoc.
    + intros t conn [Hin|Hin]%elem_of_app Ht Hlt.
      * specialize (A1 t conn Hin Ht Hlt). destruct P1 as [N1 _], P2 as [_ P2]. specialize (P2 conn ltac:(lia)). lia.
      * destruct P1 as [N1 P1]. specialize (P1 conn Hlt). specialize (A2 t conn Hin Ht ltac:(lia)). lia.
    + rewrite length_app. apply (f_equal length) in E1. rewrite !length_app in E1. lia.
Qed.
End handlers.
