(* ===== verification/Dialing.v ===== *)
(** * Dialing: a client, end to end

    A [TcpClient] with its connector in their loop, and the callbacks and tasks of
    Reactor.v.  [Connect] makes the client dial; when the socket becomes writable, a
    round of the loop leaves it connected or about to dial again; a connection that is
    closed is reclaimed, and the client does not dial any more. *)

From stdpp Require Import base list gmap strings numbers.
From Stdlib Require Import ZArith Lia Init.Byte.
From S2P Require Import Prelude Buffer Kernel RefKernel State World Demo Poller EventLoop Socket.
From S2P Require Import Connection Acceptor Connector ThreadPool Server Client Reactor Contract Service Serving.

Open Scope np_scope.

Section dialing.
Context `{EpollReliable} `{!EpollFrame} `{!StreamLaws} `{!FdLaws} `{!BacklogLaws} `{!DescriptorLaws}
  `{!DialLaws} `{!Inet} `{!UserCode}.
Variable user_holds : World -> ptr -> bool.
(** The client, its connector and their loop. *)
Variables (c k l : ptr).
Implicit Types (w : World) (cl : TcpClient) (ct : TcpConnector) (co : TcpConnection) (ch : EventChannel)
  (lp : EventLoop).

(** ** The states of a client *)

Record dialer w cl ct lp : Prop := {
  dl_client : w_clients w !! c = Some cl;
  dl_connector : w_connectors w !! k = Some ct;
  dl_link : cl_connector_ cl = k /\ cl_loop_ cl = l /\ ct_loop_ ct = l /\ ct_new_connection_cb_ ct = Some c;
  dl_loop : loop_inv w l lp;
  dl_fresh : fresh_addresses w /\ (l < w_next w)%positive
}.

(** The channel of a socket that is being connected. *)
Record dialing w cl ct lp chan ch : Prop := {
  dg_dialer : dialer w cl ct lp;
  dg_state : cl_connection_ cl = None /\ ct_state_ ct = kConnecting /\ ct_channel_ ct = Some chan;
  dg_channel : channel_of w l lp chan ch;
  dg_added : ch_poller_status_ ch = ADDED_CHANNEL;
  dg_callbacks : ch_write_event_cb_ ch = Some (ConnectorWrite_cb k) /\ ch_error_event_cb_ ch = Some (ConnectorError_cb k) /\
    ch_read_event_cb_ ch = None /\ ch_close_event_cb_ ch = None
}.

Lemma dialer_connector_ok w cl ct lp : dialer w cl ct lp -> connector_ok w k ct lp.
Proof. intros [_ Hk (_ & _ & El & _) Hl Hf]. split; rewrite ?El; done. Qed.

(** ** Connecting *)

Lemma run_client_dials w cl ct lp fd ks1 e ks2 :
  dialer w cl ct lp -> cl_connection_ cl = None -> ct_state_ ct = kDisconnected -> ct_channel_ ct = None ->
  po_evt_channel_list_ (lo_poller_ lp) !! fd = None ->
  socket_call ct (w_kern w) = (SOk fd, ks1) ->
  sys_connect fd (ct_addr_ ct) sockaddr_size ks1 = (SErr e, ks2) ->
  e = EINPROGRESS \/ e = EINTR ->
  exists w' ct' lp' ch, Client_Connect (exec user_holds) c false w = Ok (tt, w') /\
    dialing w' cl ct' lp' (w_next w) ch /\ ch_fd_ ch = fd /\
    k_interest (w_kern w') (po_epoll_fd_ (lo_poller_ lp')) !! fd = Some (EPOLLOUT, w_next w) /\
    watch_frame w w' lp lp' (w_next w) ch fd /\
    forall fd' st, fd' <> fd -> k_stream (w_kern w) fd' = Some st -> k_stream (w_kern w') fd' = Some st.
Proof.
  intros Hd Hn Hst Hch Hfd E1 E2 He. pose proof Hd as [Hc Hk (Lk & Ll & Lc & Lcb) Hl Hf].
  set (ct1 := ct_set_state_ kConnecting ct).
  set (w1 := set_w_connectors (<[k := ct1]> (w_connectors w)) w).
  assert (dialer w1 cl ct1 lp) as Hd1.
  { split; [done|by apply lookup_insert_eq|done| |done]. destruct Hl as [Hi Ht]. by split; [eapply poller_inv_ext|]. }
  destruct (StartInLoop_ok w1 k ct1 lp fd ks1 e ks2) as (w' & lp' & ch & E & Hok' & [Hfr Hs] & Hi & Hcc);
    [by eapply dialer_connector_ok|done..|].
  exists w', (ct_set_channel_ (Some (w_next w)) ct1), lp', ch. destruct Hcc as (Hco & Hcf & Hadd & Hcbs).
  change (ct_loop_ ct1) with (ct_loop_ ct) in Hco. rewrite Lc in Hco. pose proof Hok' as [Hk' Hl' [Hf' Hlt']].
  simpl in Hl', Hlt'. rewrite Lc in Hl', Hlt'.
  split; [|split; [|split; [done|split; [exact Hi|split; [exact Hfr|exact Hs]]]]].
  - unfold Client_Connect, Connector_Start, RunInLoop. run1. rewrite Lk. run1. rewrite Hst. simpl. run1.
    erewrite run_bind by (apply run_IsInLoopThread; rewrite Lc; apply Hl).
    rewrite bool_decide_eq_true_2 by apply Hl. exact E.
  - split; [|done|exact Hco|done|done]. split; [by rewrite (proj1 (proj2 Hfr))|done|done|exact Hl'|done].
Qed.

(** C23: [Connect] makes a client dial.  On the loop's thread, when connect() is in
    progress: there is a new channel for the socket, owned by the connector, with the
    connector's callbacks; the kernel watches the socket for writability, and the
    invariant of the loop is kept. *)
Theorem client_dials w cl ct lp fd ks1 e ks2 :
  dialer w cl ct lp -> cl_connection_ cl = None -> ct_state_ ct = kDisconnected -> ct_channel_ ct = None ->
  po_evt_channel_list_ (lo_poller_ lp) !! fd = None ->
  socket_call ct (w_kern w) = (SOk fd, ks1) ->
  sys_connect fd (ct_addr_ ct) sockaddr_size ks1 = (SErr e, ks2) ->
  e = EINPROGRESS \/ e = EINTR ->
  exists w' ct' lp' ch, Client_Connect (exec user_holds) c false w = Ok (tt, w') /\
    dialing w' cl ct' lp' (w_next w) ch /\ ch_fd_ ch = fd /\
    lo_queue_task_funcs_ lp' = lo_queue_task_funcs_ lp /\
    k_interest (w_kern w') (po_epoll_fd_ (lo_poller_ lp')) !! fd = Some (EPOLLOUT, w_next w).
Proof.
  intros Hd Hn Hst Hch Hfd E1 E2 He.
  destruct (run_client_dials w cl ct lp fd ks1 e ks2) as (w' & ct' & lp' & ch & E & Hdg & Hc & Hi & (-> & _) & _); [done..|].
  by exists w', ct', (with_entry fd (w_next w) lp), ch.
Qed.

(** The connections of the loop do not notice. *)
Lemma dialing_leaves_core w w' conn co ch lp lp' st chan ch' fd :
  conn_core w conn co ch lp st -> co_loop_ co = l -> ch_poller_status_ ch = ADDED_CHANNEL -> fresh_addresses w ->
  po_evt_channel_list_ (lo_poller_ lp) !! fd = None -> chan = w_next w ->
  loop_inv w' l lp' -> watch_frame w w' lp lp' chan ch' fd ->
  (forall fd' st, fd' <> fd -> k_stream (w_kern w) fd' = Some st -> k_stream (w_kern w') fd' = Some st) ->
  conn_core w' conn co ch lp' st.
Proof.
  intros [Hcn Hi [Hch Hlo Ht Hfresh] Hfd Hst] Lco Hadd Hf Htab -> [Hi' Ht'] (_ & _ & Ecn & Ech) Hs.
  pose proof (pi_chan _ _ _ Hi _ _ Hch Hlo) as Hin. split.
  - by rewrite Ecn.
  - by rewrite Lco.
  - split; [|done|done|by rewrite Hadd]. rewrite Ech, lookup_insert_ne; [done|]. destruct (Hf _ _ Hch). lia.
  - done.
  - apply Hs; [|done]. intros Hfd'. rewrite Hfd, Hfd', Hadd in Hin. rewrite Hin in Htab by done. done.
Qed.

(** ** The socket becomes writable *)

(** The write callback is the only one that does anything. *)
Lemma run_dialled_event w cl ct lp chan ch fuel junk :
  dialing w cl ct lp chan ch -> is_write_event (ch_recieved_events ch) = true ->
  HandleEvent (call user_holds fuel junk) chan w = WriteEventHandler (NewConnection (release_conn user_holds)) k w.
Proof.
  intros [_ _ Hco _ (Cw & Ce & Cr & Cc)] Hev. pose proof (co_chan _ _ _ _ _ Hco) as Hch. unfold HandleEvent.
  assert (forall test f (m : M unit), f ch = None \/ f ch = Some (ConnectorError_cb k) ->
    (do! call_if (call user_holds fuel junk) chan test f; m) w = m w) as Hskip.
  { intros test f m Hf. erewrite run_bind; [done|]. rewrite (run_call_if _ _ _ _ _ _ Hch).
    destruct (test _); [|done]. by destruct Hf as [-> | ->]. }
  rewrite !Hskip by auto. rewrite (run_call_if _ _ _ _ _ _ Hch), Hev, Cw. apply bind_ret_tt.
Qed.

(** The channel is taken out of the loop, and its deletion queued. *)
Definition hung_up_loop lp chan fd : EventLoop := enqueue (ResetChannelPtr_task k) (unregistered_loop fd chan lp).
Definition hung_up w lp chan ch : World :=
  set_w_loops (<[l := hung_up_loop lp chan (ch_fd_ ch)]> (w_loops w))
    (set_w_channels (<[chan := unregistered_channel ch]> (w_channels w))
      (set_w_kern (unregistered_kernel (ch_fd_ ch) chan lp w) w)).

Lemma run_hang_up w cl ct lp chan ch :
  dialing w cl ct lp chan ch -> removable lp chan ->
  RemoveChannel k w = Ok (ch_fd_ ch, hung_up w lp chan ch) /\
  undisturbed (w_kern w) (w_kern (hung_up w lp chan ch)) /\
  dialer (hung_up w lp chan ch) cl ct (hung_up_loop lp chan (ch_fd_ ch)).
Proof.
  intros [Hd (_ & _ & Hchan) Hco Hadd _] Hrem.
  pose proof Hd as [Hc Hk (Lk & Ll & Lc & Lcb) [Hinv Ht] [Hf Hlt]].
  destruct (run_unregister w l chan ch lp) as (E & Hq & Hinv2); [done..|].
  split; [|split; [exact Hq|]].
  - unfold RemoveChannel, QueueInLoop. run1. rewrite Hchan. erewrite run_bind by reflexivity. rewrite E.
    erewrite run_bind by (apply (run_load chan (unregistered_channel ch)); simpl; by rewrite lookup_insert_eq).
    rewrite Lc. erewrite run_bind by (apply run_update; simpl; by rewrite lookup_insert_eq).
    unfold hung_up. simpl. by rewrite insert_insert_eq.
  - split; [done|done|done| |].
    + split; [|exact Ht]. by eapply poller_inv_frame; [exact Hinv2|simpl; by rewrite lookup_insert_eq|..].
    + split; [|done]. intros c' ch'. simpl. intros [[<- <-]|[_ E']]%lookup_insert_Some; [|by apply (Hf _ _ E')].
      exact (Hf _ _ (co_chan _ _ _ _ _ Hco)).
Qed.

Lemma dialer_syscall {A} w cl ct lp (r : sysres A) ks :
  dialer w cl ct lp -> (let ep := po_epoll_fd_ (lo_poller_ lp) in k_interest ks ep = k_interest (w_kern w) ep) ->
  dialer (after_syscall r ks w) cl ct lp.
Proof.
  intros [Hc Hk Hl [Hinv Ht] [Hf Hlt]] Hi. split; autorewrite with world; [done..| |].
  - split; autorewrite with world; [|done]. destruct Hinv. split; autorewrite with world; [done..|].
    intros fd. by rewrite Hi.
  - split; [|done]. intros c' ch'. autorewrite with world. apply Hf.
Qed.

(** The event, up to what depends on the socket's error. *)
Definition dialled w lp chan ch : World :=
  let rk := sys_so_error (ch_fd_ ch) (w_kern (hung_up w lp chan ch)) in
  after_syscall rk.1 rk.2 (hung_up w lp chan ch).

Lemma run_dialled w cl ct lp chan ch fuel junk :
  dialing w cl ct lp chan ch -> is_write_event (ch_recieved_events ch) = true -> removable lp chan ->
  let fd := ch_fd_ ch in
  HandleEvent (call user_holds fuel junk) chan w =
    (if so_error fd (unregistered_kernel fd chan lp w) =? 0
     then NewConnection (release_conn user_holds) c fd (dialled w lp chan ch)
     else RetryConn k fd (dialled w lp chan ch)) /\
  dialer (dialled w lp chan ch) cl ct (hung_up_loop lp chan fd) /\
  undisturbed (w_kern w) (w_kern (dialled w lp chan ch)) /\
  w_channels (dialled w lp chan ch) = <[chan := unregistered_channel ch]> (w_channels w) /\
  w_next (dialled w lp chan ch) = w_next w.
Proof.
  intros Hdg Hev Hrem fd. rewrite (run_dialled_event _ _ _ _ _ _ _ _ Hdg Hev).
  destruct (run_hang_up _ _ _ _ _ _ Hdg Hrem) as (E & [Qo Q] & Hd).
  assert (dialer (dialled w lp chan ch) cl ct (hung_up_loop lp chan fd)) as Hd'
    by (apply dialer_syscall; [exact Hd|apply frame_so_error]).
  destruct (quiet_so_error fd (w_kern (hung_up w lp chan ch))) as [Qo' Q'].
  split; [|split; [exact Hd'|split; [|unfold dialled; by autorewrite with world]]].
  - destruct Hdg as [[_ Hk (_ & _ & _ & Lcb)] (_ & Hst & Hchan) _ _ _]. unfold WriteEventHandler. run1.
    rewrite Hst. run1. erewrite run_bind by exact E. rewrite run_SocketError.
    change (w_kern (hung_up w lp chan ch)) with (unregistered_kernel fd chan lp w). fold fd.
    destruct (so_error fd _ =? 0); [|done]. simpl. erewrite run_bind by (apply run_load; apply Hd').
    rewrite Lcb, Hchan. erewrite run_bind by reflexivity.
    erewrite run_bind; [|apply (run_load chan (unregistered_channel ch))]; [reflexivity|].
    simpl. autorewrite with world. simpl. by rewrite lookup_insert_eq.
  - unfold dialled. autorewrite with world. split; [exact (eq_trans Qo' Qo)|].
    intros fd'. destruct (Q fd') as (<- & <- & <-). apply Q'.
Qed.

(** The old channel is deleted by the next task. *)
Lemma run_reset_task w cl ct lp chan ch rest :
  dialer w cl ct lp -> ct_channel_ ct = Some chan -> w_channels w !! chan = Some ch ->
  ch_poller_status_ ch = NEW_CHANNEL -> lo_queue_task_funcs_ lp = ResetChannelPtr_task k :: rest ->
  let ct' := ct_set_channel_ None ct in
  let lp' := lo_set_queue_task_funcs_ rest lp in
  let w' := set_w_channels (delete chan (w_channels w)) (set_w_connectors (<[k := ct']> (w_connectors w))
              (set_w_loops (<[l := lp']> (w_loops w)) w)) in
  RunTaskFuncs (exec user_holds) (release user_holds) l w = Ok (tt, w') /\ dialer w' cl ct' lp'.
Proof.
  intros [Hc Hk Hl [Hinv Ht] [Hf Hlt]] Hchan Hch Hnew Hq ct' lp' w'. split.
  - unfold RunTaskFuncs. erewrite run_bind by (apply run_load; apply Hinv). rewrite Hq.
    erewrite run_bind by reflexivity. cbn [exec release task_conn]. unfold ResetChannelPtr, reset_channel.
    rewrite run_bind_assoc. run1. rewrite run_bind_assoc. erewrite run_bind by reflexivity. rewrite Hchan.
    erewrite run_bind by reflexivity. reflexivity.
  - split; [done|by apply lookup_insert_eq|done| |].
    + split; [|exact Ht]. apply (poller_inv_free_channel (set_w_connectors _ (set_w_loops (<[l := lp']> (w_loops w)) w)) l lp' chan ch); [|done|done].
      by eapply poller_inv_frame; [exact Hinv|simpl; by rewrite lookup_insert_eq|..].
    + split; [|done]. intros c' ch' E. simpl in E. apply lookup_delete_Some in E as [_ E]. by apply (Hf _ _ E).
Qed.

(** A client with its connection. *)
Record connected w cl ct lp conn co ch st : Prop := {
  cd_dialer : dialer w cl ct lp;
  cd_core : conn_core w conn co ch lp st;
  cd_client : cl_connection_ cl = Some conn;
  cd_conn : co_state_ co = CONNECTED /\ co_loop_ co = l /\ co_close_cb_ co = Some (ClientRemoveConnection_cb c) /\
    co_socket_fd_ co = co_fd_ co;
  cd_added : ch_poller_status_ ch = ADDED_CHANNEL;
  cd_connector : ct_state_ ct = kConnecting
}.

(** A connection outlives another channel. *)
Lemma core_channel_deleted w w' conn co ch lp lp' st chan :
  conn_core w conn co ch lp st -> co_channel_ co <> chan -> co_loop_ co = l -> loop_inv w' l lp' ->
  lo_poller_ lp' = lo_poller_ lp -> w_conns w' = w_conns w -> w_channels w' = delete chan (w_channels w) ->
  w_kern w' = w_kern w -> conn_core w' conn co ch lp' st.
Proof.
  intros [Hcn Hi Hch Hfd Hst] Hne Elo [Hi' Ht'] Epo Ecn Ech Est. split; [by rewrite Ecn|by rewrite Elo| |done|by rewrite Est].
  destruct Hch as [Hc1 Hc2 Hc3 Hc4]. split; [by rewrite Ech, lookup_delete_ne|done|done|by rewrite Epo].
Qed.

(** Without an error the client makes its connection, and the old channel is deleted. *)
Lemma run_connects w cl ct lp chan ch st fd :
  user_observes -> dialer w cl ct lp -> cl_connection_ cl = None -> ct_state_ ct = kConnecting ->
  ct_channel_ ct = Some chan -> w_channels w !! chan = Some ch -> ch_poller_status_ ch = NEW_CHANNEL ->
  lo_queue_task_funcs_ lp = [ResetChannelPtr_task k] -> po_evt_channel_list_ (lo_poller_ lp) !! fd = None ->
  k_stream (w_kern w) fd = Some st ->
  let conn := w_next w in
  exists w' lp' co ch', (do! NewConnection (release_conn user_holds) c fd;
      RunTaskFuncs (exec user_holds) (release user_holds) l) w = Ok (tt, w') /\ w_channels w' !! chan = None /\
    connected w' (cl_set_connection_ (Some conn) cl) (ct_set_channel_ None ct) lp' conn co ch' st /\
    co_fd_ co = fd /\ co_msg_cb_ co = cl_msg_cb_ cl /\ lo_queue_task_funcs_ lp' = [] /\
    k_interest (w_kern w') (po_epoll_fd_ (lo_poller_ lp')) !! fd = Some (u32 read_event_flag, co_channel_ co) /\
    w_trace w' = match cl_conn_status_cb_ cl with
                 | Some cb => [ConnStatus_ev cb conn CONNECTED] | None => [] end ++ w_trace w.
Proof.
  intros Hu Hd Hnone Hst Hchan Hch Hnew Hq Htab Hstr conn.
  pose proof Hd as [Hc Hk (Lk & Ll & Lc & Lcb) Hl [Hf Hlt]].
  destruct (NewConnection_ok (release_conn user_holds) w c cl lp fd st)
    as (w1 & local & peer & E1 & Hcc & Hcl & (Hct & Hsv & Hchs & Hnx) & Hi & T); [done|done|done|by rewrite Ll|done..|].
  fold conn in Hcc, Hcl, Hchs, Hnx, Hi, T. set (co := co_set_state_ CONNECTED _) in *.
  set (ch' := with_interest _ _) in *. set (lp1 := with_entry _ _ lp) in *.
  assert (co_loop_ co = l) as Lco by exact Ll. destruct (Hf _ _ Hch) as [Hlow _].
  assert (dialer w1 (cl_set_connection_ (Some conn) cl) ct lp1) as Hd1.
  { split; [rewrite Hcl; apply lookup_insert_eq|by rewrite Hct|done| |].
    - rewrite <-Lco. split; [apply Hcc|apply (cc_chan _ _ _ _ _ _ Hcc)].
    - rewrite Hnx. split; [|unfold conn; lia]. intros c' ch0. rewrite Hchs, Hnx.
      intros [[<- <-]|[_ E]]%lookup_insert_Some; [|destruct (Hf _ _ E)]; unfold conn; simpl; rewrite ?Ll; lia. }
  assert (w_channels w1 !! chan = Some ch) as Hch1.
  { rewrite Hchs, lookup_insert_ne; [done|]. unfold conn. lia. }
  destruct (run_reset_task w1 _ ct lp1 chan ch [] Hd1 Hchan Hch1 Hnew Hq) as [E2 Hd2].
  eexists _, (lo_set_queue_task_funcs_ [] lp1), co, ch'. split; [erewrite run_bind by exact E1; exact E2|].
  split; [apply lookup_delete_eq|]. split_and!; [|done|done|done|exact Hi|exact T].
  split; [exact Hd2| |done|done|done|done]. pose proof (dl_loop _ _ _ _ Hd2) as Hl2.
  eapply core_channel_deleted; [exact Hcc| |exact Lco|exact Hl2|done..].
  change (Pos.succ conn <> chan). unfold conn. lia.
Qed.

(** With an error it closes the socket, and will dial again. *)
Lemma run_retries w cl ct lp chan ch fd :
  dialer w cl ct lp -> ct_channel_ ct = Some chan -> w_channels w !! chan = Some ch ->
  ch_poller_status_ ch = NEW_CHANNEL -> lo_queue_task_funcs_ lp = [ResetChannelPtr_task k] ->
  po_evt_channel_list_ (lo_poller_ lp) !! fd = None -> po_epoll_fd_ (lo_poller_ lp) <> fd ->
  exists w' lp', (do! RetryConn k fd; RunTaskFuncs (exec user_holds) (release user_holds) l) w = Ok (tt, w') /\
    w_channels w' !! chan = None /\ dialer w' cl (ct_set_channel_ None ct) lp' /\
    lo_queue_task_funcs_ lp' = [StartInLoop_task k] /\ po_evt_channel_list_ (lo_poller_ lp') !! fd = None /\
    w_kern w' = (sys_close fd (w_kern w)).2.
Proof.
  intros Hd Hchan Hch Hnew Hq Htab Hep. set (rk := sys_close fd (w_kern w)).
  assert (dialer (after_syscall rk.1 rk.2 w) cl ct lp) as Hd1.
  { apply dialer_syscall; [done|]. apply frame_close; [done|].
    rewrite (pi_kernel _ _ _ (proj1 (dl_loop _ _ _ _ Hd))). unfold expected_interest. by rewrite Htab. }
  set (w1 := after_syscall rk.1 rk.2 w) in *. set (lp1 := enqueue (StartInLoop_task k) lp).
  pose proof Hd1 as [Hc Hk (Lk & Ll & Lc & Lcb) [Hinv Ht] Hf].
  set (w2 := set_w_loops (<[l := lp1]> (w_loops w1)) w1).
  assert (dialer w2 cl ct lp1) as Hd2.
  { split; [done|done|done| |done]. split; [|done].
    by eapply poller_inv_frame; [exact Hinv|simpl; by rewrite lookup_insert_eq|..]. }
  assert (w_channels w2 !! chan = Some ch) as Hch2 by (unfold w2, w1; simpl; by autorewrite with world).
  destruct (run_reset_task w2 cl ct lp1 chan ch [StartInLoop_task k] Hd2 Hchan Hch2 Hnew) as [E3 Hd3].
  { simpl. by rewrite Hq. }
  assert (RetryConn k fd w = Ok (tt, w2)) as E2.
  { unfold RetryConn, Close. rewrite run_bind_assoc. erewrite run_bind by apply run_syscall. run1.
    erewrite run_bind by (apply run_load; apply Hk). rewrite Lc. exact (run_update (T := EventLoop) _ _ _ w1 (pi_loop _ _ _ Hinv)). }
  eexists _, _. split; [erewrite run_bind by exact E2; exact E3|]. split; [apply lookup_delete_eq|].
  split; [exact Hd3|]. split_and!; [done|done|]. simpl. unfold w1. by autorewrite with world.
Qed.

(** C22: The outcome of dialling.  When the socket has become writable, the user only
    observes and the task queue is empty, dispatching the
    event and one round of the queue delete the connector's channel.  Without an error on
    the socket the client has its connection: CONNECTED, with the client's message callback
    and a close callback bound to the client, watched for reading, the user told, and
    nothing queued.  With an error the descriptor is closed and another
    attempt is queued.  The invariant of the loop holds in both cases. *)
Theorem dialled_client_connects w cl ct lp chan ch st fuel junk :
  user_observes -> dialing w cl ct lp chan ch -> is_write_event (ch_recieved_events ch) = true ->
  removable lp chan -> lo_queue_task_funcs_ lp = [] -> k_stream (w_kern w) (ch_fd_ ch) = Some st ->
  po_epoll_fd_ (lo_poller_ lp) <> ch_fd_ ch ->
  let fd := ch_fd_ ch in
  let ct' := ct_set_channel_ None ct in
  exists w' lp', (do! HandleEvent (call user_holds fuel junk) chan;
      RunTaskFuncs (exec user_holds) (release user_holds) l) w = Ok (tt, w') /\
    w_channels w' !! chan = None /\
    if so_error fd (unregistered_kernel fd chan lp w) =? 0
    then exists co ch', connected w' (cl_set_connection_ (Some (w_next w)) cl) ct' lp' (w_next w) co ch' st /\
      co_fd_ co = fd /\ co_msg_cb_ co = cl_msg_cb_ cl /\ lo_queue_task_funcs_ lp' = [] /\
      k_interest (w_kern w') (po_epoll_fd_ (lo_poller_ lp')) !! fd = Some (u32 read_event_flag, co_channel_ co) /\
      w_trace w' = match cl_conn_status_cb_ cl with
                   | Some cb => [ConnStatus_ev cb (w_next w) CONNECTED] | None => [] end ++ w_trace w
    else dialer w' cl ct' lp' /\ lo_queue_task_funcs_ lp' = [StartInLoop_task k] /\
      po_evt_channel_list_ (lo_poller_ lp') !! fd = None /\ exists ks, w_kern w' = (sys_close fd ks).2.
Proof.
  intros Hu Hdg Hev Hrem Hq Hst Hep fd ct'.
  destruct (run_dialled w cl ct lp chan ch fuel junk Hdg Hev Hrem) as (E & Hd & [_ Q] & Hchs & Hnx).
  pose proof Hdg as [_ (Hnone & Hcst & Hchan) Hco _ _]. fold fd in E.
  assert (po_evt_channel_list_ (lo_poller_ (hung_up_loop lp chan fd)) !! fd = None) as Htab
    by (simpl; apply lookup_delete_eq).
  assert (w_channels (dialled w lp chan ch) !! chan = Some (unregistered_channel ch)) as Hch
    by (rewrite Hchs; apply lookup_insert_eq).
  assert (lo_queue_task_funcs_ (hung_up_loop lp chan fd) = [ResetChannelPtr_task k]) as Hq' by (simpl; by rewrite Hq).
  destruct (so_error fd _ =? 0); erewrite run_bind_eq by exact E.
  - destruct (run_connects (dialled w lp chan ch) cl ct (hung_up_loop lp chan fd) chan (unregistered_channel ch) st fd)
      as (w' & lp' & co & ch' & E' & Hn & H'); [done..|by rewrite (proj1 (Q fd))|]. rewrite Hnx in H'.
    assert (w_trace (dialled w lp chan ch) = w_trace w) as Htr by (unfold dialled; by autorewrite with world).
    rewrite Htr in H'. exists w', lp'. split; [exact E'|]. split; [exact Hn|]. by exists co, ch'.
  - destruct (run_retries (dialled w lp chan ch) cl ct (hung_up_loop lp chan fd) chan (unregistered_channel ch) fd)
      as (w' & lp' & E' & Hn & Hd' & Hq2 & Ht & Hks); [done..|].
    exists w', lp'. by split_and!; eauto.
Qed.

(** ** The end of the connection *)

(** Closing, through the client. *)
Lemma run_client_close w cl ct lp conn co ch st :
  user_observes -> connected w cl ct lp conn co ch st ->
  let co1 := co_set_state_ DISCONNECTED co in
  let ch1 := with_interest (fun _ => none_event_flag) ch in
  let lp1 := enqueue (ConnectDestoryed_task conn) (with_entry (ch_fd_ ch) (co_channel_ co) lp) in
  exists w1, CloseHandler (call_close user_holds) conn w = Ok (tt, w1) /\ conn_core w1 conn co1 ch1 lp1 st /\
    w_clients w1 = <[c := cl_set_connection_ None cl]> (w_clients w) /\ w_loops w1 = <[l := lp1]> (w_loops w) /\
    w_servers w1 = w_servers w /\ w_connectors w1 = w_connectors w.
Proof.
  intros Hu [[Hc Hk (Lk & Ll & Lc & _) Hl _] Hcc Hcl (Hst & Lco & Hcb & Hsock) Hadd Hct] co1 ch1 lp2.
  destruct (run_CloseHandler (call_close user_holds) conn w co ch lp st _ Hu Hcc Hcb) as (w1 & E1 & Hc1 & _ & O1 & L1).
  fold co1 ch1 in Hc1. set (lp1 := with_entry _ _ lp) in *. injection O1 as Ocl Osv Oct _.
  assert (w_loops w1 !! l = Some lp1) as Hl1 by (rewrite L1, Lco; apply lookup_insert_eq).
  cbn [call_close] in E1. rewrite (Client_RemoveConnection_queues_destruction _ w1 c cl conn co1 lp1) in E1;
    [|by rewrite Ocl|apply Hc1|by rewrite Ll|by apply (cc_chan _ _ _ _ _ _ Hc1)|naive_solver congruence].
  rewrite decide_True in E1 by (change (co_loop_ co = cl_loop_ cl); congruence). rewrite Ll in E1.
  eexists. split; [exact E1|]. split; [|by simpl; rewrite Ocl, L1, Lco, insert_insert_eq].
  eapply (core_ext conn w1); [exact Hc1|done|done|done|done| |done|done].
  change (co_loop_ co1) with (co_loop_ co). rewrite Lco. apply lookup_insert_eq.
Qed.

(** C36: A client connects once.  When its connection, which it alone owns, is closed,
    while the user only observes and the queue is empty, a round of the queue reclaims it: the connection and its channel are gone, the descriptor is closed, the
    client has no connection and nothing is queued.  But the connector is still in the
    state connecting: another [Connect] does nothing at all. *)
Theorem client_connects_once w cl ct lp conn co ch st :
  user_observes -> connected w cl ct lp conn co ch st -> client_sole_owner user_holds w c conn ->
  removable lp (co_channel_ co) -> lo_queue_task_funcs_ lp = [] -> po_epoll_fd_ (lo_poller_ lp) <> co_fd_ co ->
  exists w' lp', (do! CloseHandler (call_close user_holds) conn;
      RunTaskFuncs (exec user_holds) (release user_holds) l) w = Ok (tt, w') /\
    w_conns w' !! conn = None /\ w_channels w' !! co_channel_ co = None /\
    w_clients w' !! c = Some (cl_set_connection_ None cl) /\ w_connectors w' !! k = Some ct /\
    loop_inv w' l lp' /\ lo_queue_task_funcs_ lp' = [] /\ po_evt_channel_list_ (lo_poller_ lp') !! co_fd_ co = None /\
    (exists ks, w_kern w' = (sys_close (co_fd_ co) ks).2) /\
    forall spurious, Client_Connect (exec user_holds) c spurious w' = Ok (tt, w').
Proof.
  intros Hu Hcd [Hs Hcs Hqs Hus] Hrem Hq Hep.
  destruct (run_client_close w cl ct lp conn co ch st Hu Hcd) as (w1 & E1 & Hc1 & Ocl & L1 & Osv & Oct).
  destruct Hcd as [[Hc Hk (Lk & Ll & Lc & _) Hl _] Hcc Hcl (Hst & Lco & Hcb & Hsock) Hadd Hct].
  destruct (run_destroy_task user_holds conn w1 _ _ _ st Hc1) as
    (w' & lp' & E & Hl' & Hq' & Ht & Cn & Ch & Ow & ks & K).
  - split; [by rewrite Osv| | |done].
    + intros c' cl'. rewrite Ocl. intros [[<- <-]|[Hne E]]%lookup_insert_Some; [done|by eapply Hcs].
    + intros l' lp'. change (w_loops w1 !! l' = Some lp' -> l' <> co_loop_ co -> loop_owns conn lp' = false).
      rewrite Lco, L1. intros [[<- _]|[_ E]]%lookup_insert_Some Hne; [done|by eapply Hqs].
  - simpl. by rewrite Hq.
  - done.
  - done.
  - simpl. by rewrite Hadd.
  - exact Hrem.
  - done.
  - done.
  - change (co_loop_ (co_set_state_ DISCONNECTED co)) with (co_loop_ co) in *. rewrite Lco in *. injection Ow as Ocl' _ Oct' _.
    assert (w_clients w' !! c = Some (cl_set_connection_ None cl)) as Hc' by (rewrite Ocl', Ocl; apply lookup_insert_eq).
    assert (w_connectors w' !! k = Some ct) as Hk' by (by rewrite Oct', Oct).
    exists w', lp'. rewrite Cn, lookup_delete_eq. split_and!; [by erewrite run_bind by exact E1|done..|by exists ks|].
    intros spurious. unfold Client_Connect, Connector_Start. run1. simpl. rewrite Lk. run1. by rewrite Hct.
Qed.
End dialing.

(** ** Witnesses

    The client (address 50) and the connector (address 40) on the loop of Demo.v: about
    to connect, ... *)

Definition demo_disconnected : TcpConnector := mkTcpConnector 1 demo_remote kDisconnected None (Some 50%positive).
Definition demo_dialer : @World RefKernel :=
  set_w_connectors {[40%positive := demo_disconnected]} (set_w_clients {[50%positive := demo_client_obj None]}
    (demo_connecting demo_remote ∅)).

Lemma client_dials_witness :
  exists w' ch, Client_Connect (exec demo_holds) 50 false demo_dialer = Ok (tt, w') /\
    w_channels w' !! 1000%positive = Some ch /\ ch_fd_ ch = 0.
Proof.
  destruct (client_dials demo_holds 50 40 1 demo_dialer (demo_client_obj None) demo_disconnected (demo_loop ∅ [] []) 0
    (socket_call demo_disconnected (w_kern demo_dialer)).2 EINPROGRESS
    (socket_call demo_disconnected (w_kern demo_dialer)).2) as (w' & ct' & lp' & ch & E & Hd & Hfd & _).
  - split; [reflexivity|reflexivity|done|split; [split; done|done]|].
    split; [|done]. intros c ch. simpl. by rewrite lookup_empty.
  - reflexivity.
  - reflexivity.
  - reflexivity.
  - reflexivity.
  - vm_compute. reflexivity.
  - vm_compute. reflexivity.
  - by left.
  - exists w', ch. split; [exact E|]. split; [apply Hd|exact Hfd].
Defined.

(** ... with a socket (descriptor 5, channel 7) that has become writable, and reports
    [err], ... *)
Definition demo_dialled_channel : EventChannel :=
  mkEventChannel 5 EPOLLOUT EPOLLOUT ADDED_CHANNEL 1 None (Some (ConnectorWrite_cb 40)) None (Some (ConnectorError_cb 40)).
Definition demo_dialled (err : Z) : @World RefKernel :=
  set_w_clients {[50%positive := demo_client_obj None]}
    (set_w_connectors {[40%positive := demo_connector demo_remote (Some 7%positive)]}
      (demo_world (demo_kernel {[5 := RSock (mkRsock [] false [] 10 err false [])]} {[5 := (EPOLLOUT, 7%positive)]} [])
        {[7%positive := demo_dialled_channel]} {[1%positive := demo_loop {[5 := 7%positive]} [] []]} ∅)).

Lemma demo_dialled_ok err :
  dialing 50 40 1 (demo_dialled err) (demo_client_obj None) (demo_connector demo_remote (Some 7%positive))
    (demo_loop {[5 := 7%positive]} [] []) 7 demo_dialled_channel.
Proof.
  split; [|done|by split|done|done].
  split; [reflexivity|reflexivity|done| |].
  - split; [|done]. eapply (poller_inv_frame (demo_reg EPOLLOUT [])); [apply demo_reg_inv|done..|].
    intros c. simpl. by destruct (decide (c = 7%positive)) as [->|Hne]; [|rewrite !lookup_singleton_ne].
  - split; [|done]. intros c ch. simpl. by intros [<- <-]%lookup_singleton_Some.
Qed.

Lemma dialled_client_connects_witness :
  exists w' conn, (do! HandleEvent (call demo_holds 1 []) 7;
      RunTaskFuncs (exec demo_holds) (release demo_holds) 1) (demo_dialled 0) = Ok (tt, w') /\
    w_channels w' !! 7%positive = None /\ w_conns w' !! 1000%positive = Some conn /\ co_state_ conn = CONNECTED.
Proof.
  destruct (dialled_client_connects demo_holds 50 40 1 (demo_dialled 0) (demo_client_obj None)
    (demo_connector demo_remote (Some 7%positive)) (demo_loop {[5 := 7%positive]} [] []) 7 demo_dialled_channel
    (mkStream [] [] false) 1 []) as (w' & lp' & E & Hn & co & ch' & Hcd & _).
  - apply demo_user_observes.
  - apply demo_dialled_ok.
  - reflexivity.
  - by left.
  - reflexivity.
  - reflexivity.
  - done.
  - exists w', co. split; [exact E|]. split; [exact Hn|]. destruct Hcd as [_ Hcc _ [Hst _] _ _].
    split; [apply Hcc|exact Hst].
Defined.

(** ... and connected. *)
Lemma client_connects_once_witness :
  exists w', (do! CloseHandler (call_close demo_holds) 20;
      RunTaskFuncs (exec demo_holds) (release demo_holds) 1) demo_own_client = Ok (tt, w') /\
    w_conns w' !! 20%positive = None /\ Client_Connect (exec demo_holds) 50 false w' = Ok (tt, w').
Proof.
  destruct (client_connects_once demo_holds 50 40 1 demo_own_client (demo_client_obj (Some 20%positive))
    (demo_connector [] None) (demo_loop {[5 := 7%positive]} [] []) 20 (demo_owned_conn (ClientRemoveConnection_cb 50))
    (demo_channel 5 read_event_flag 0 ADDED_CHANNEL) (mkStream [] [] false))
    as (w' & lp' & E & Hn & _ & _ & _ & _ & _ & _ & _ & Hagain).
  - apply demo_user_observes.
  - split; [|apply demo_own_client_core|done..]. split; [reflexivity|reflexivity|done| |].
    + split; [apply demo_own_client_core|done].
    + split; [|done]. intros c ch. simpl. by intros [<- <-]%lookup_singleton_Some.
  - apply demo_own_client_sole.
  - by left.
  - reflexivity.
  - done.
  - exists w'. split; [exact E|]. split; [exact Hn|]. apply Hagain.
Defined.
