(* ===== verification/Startup.v ===== *)
(** * Startup: a program that serves

    What a program does that has one loop and one server in it, from nothing: the
    constructors of [EventLoop] and [TcpServer], the setters and [Start].  The
    invariant of Service.v is established, and with Serving.v the program serves
    for ever. *)

From stdpp Require Import base list gmap strings numbers.
From Stdlib Require Import ZArith Lia Init.Byte.
From S2P Require Import Prelude Buffer Kernel RefKernel State World Demo Poller EventLoop Socket.
From S2P Require Import Connection Acceptor Connector ThreadPool Server Client Reactor Contract Service Serving.

Open Scope np_scope.

(** ** The program *)

Section program.
Context `{Kernel}.

(** A server without threads; the loop and the server. *)
Definition serve_main (name : string) (active : option ptr) (addr : sockaddr) (option : Option)
    msg_cb conn_status_cb (hardware_concurrency : Z) (choices : nat -> thread_choice) : M (ptr * ptr) :=
  let! loop := EventLoop_new name active in
  let! server := TcpServer_new loop addr option in
  do! SetThreadNum server 0 hardware_concurrency;
  do! Server_SetConnStatusCB server conn_status_cb;
  do! Server_SetMessageCB server msg_cb;
  do! Server_Start server false choices;
  ret (loop, server).
End program.

(** ** The constructors, as equations *)

Section constructors.
Context `{Kernel}.
Implicit Types (w : World) (l s a c : ptr).

Definition listening_kernel fd addr (reuseport : bool) (k : kstate) : kstate :=
  (sys_bind fd addr sockaddr_size (sys_setsockopt fd SOL_SOCKET SO_REUSEPORT (if reuseport then 1 else 0)
    (sys_setsockopt fd SOL_SOCKET SO_REUSEADDR 1 k).2).2).2.

Definition new_acceptor l addr fd c idle s : TcpAcceptor := mkTcpAcceptor l addr fd c idle (Some s).
Definition new_acceptor_channel l fd a : EventChannel :=
  mkEventChannel fd none_event_flag 0 NEW_CHANNEL l (Some (AcceptHandle_cb a)) None None None.
Definition new_server l s a : TcpServer :=
  mkTcpServer 0 false l None a ∅ None None None (Some (ServerRemoveConnection_cb s)) None None.

(** What a new acceptor adds to the world, and what a new server does. *)
Record acceptor_added w w' l addr reuseport fd idle k : Prop := {
  aa_kern : w_kern w' = listening_kernel fd addr reuseport k;
  aa_channels : w_channels w' =
    <[Pos.succ (w_next w) := new_acceptor_channel l fd (w_next w)]> (w_channels w);
  aa_acceptors : w_acceptors w' =
    <[w_next w := mkTcpAcceptor l addr fd (Pos.succ (w_next w)) idle None]> (w_acceptors w);
  aa_next : w_next w' = Pos.succ (Pos.succ (w_next w));
  aa_rest : w_loops w' = w_loops w /\ w_conns w' = w_conns w /\ w_clients w' = w_clients w /\
    w_servers w' = w_servers w /\ w_tid w' = w_tid w
}.

Record server_added w w' l addr reuseport fd idle k : Prop := {
  sa_kern : w_kern w' = listening_kernel fd addr reuseport k;
  sa_channels : w_channels w' =
    <[Pos.succ (Pos.succ (w_next w)) := new_acceptor_channel l fd (Pos.succ (w_next w))]> (w_channels w);
  sa_acceptors : w_acceptors w' = <[Pos.succ (w_next w) :=
    new_acceptor l addr fd (Pos.succ (Pos.succ (w_next w))) idle (w_next w)]> (w_acceptors w);
  sa_servers : w_servers w' = <[w_next w := new_server l (w_next w) (Pos.succ (w_next w))]> (w_servers w);
  sa_next : w_next w' = Pos.succ (Pos.succ (Pos.succ (w_next w)));
  sa_rest : w_loops w' = w_loops w /\ w_conns w' = w_conns w /\ w_clients w' = w_clients w /\ w_tid w' = w_tid w
}.

Definition socket_granted addr (k : kstate) fd k1 idle k2 : Prop :=
  sys_socket (Family addr) (Z.lor (Z.lor SOCK_STREAM SOCK_NONBLOCK) SOCK_CLOEXEC) IPPROTO_TCP k = (SOk fd, k1) /\
  sys_open "/dev/null" O_RDONLY_CLOEXEC k1 = (SOk idle, k2).

(** [set_option] and [Bind]: a call whose result is only logged. *)
Lemma wp_ignored {A} (f : kstate -> sysres unit * kstate) (m : M A) Q w :
  (forall w', only_kernel w w' -> w_kern w' = (f (w_kern w)).2 -> wp m Q w') ->
  wp (do! (let! _ := syscall_unit f in ret tt); m) Q w.
Proof.
  intros Hm. unfold syscall_unit. apply wp_bind, wp_bind, wp_bind, wp_syscall, wp_ret, wp_ret.
  apply Hm; [apply only_kernel_syscall|]. by autorewrite with world.
Qed.

Lemma wp_TcpAcceptor_new w l addr reuseport fd k1 idle k2 :
  socket_granted addr (w_kern w) fd k1 idle k2 ->
  wp (TcpAcceptor_new l addr reuseport) (fun a w' => a = w_next w /\
    acceptor_added w w' l addr reuseport fd idle k2) w.
Proof.
  intros [E1 E2]. unfold TcpAcceptor_new, CreateNonblocking, syscall_int, EventChannel_new, alloc,
    Socket_SetReuseAddr, Socket_SetReusePort, SetReuseAddr, SetReusePort, Socket_Bind, Bind, set_option,
    SetReadEventCallBack.
  do 7 wp_step. change (w_kern (set_w_next (Pos.succ (w_next w)) w)) with (w_kern w). rewrite E1.
  cbn [fst snd after_syscall]. do 9 wp_step.
  match goal with |- wp _ _ ?x => set (w1 := x) end.
  assert (w_kern w1 = k1) as K1 by done.
  do 3 wp_step. rewrite K1, E2. cbn [fst snd after_syscall]. do 3 wp_step.
  match goal with |- wp _ _ ?x => set (w2 := x) end.
  apply wp_ignored. intros w3 R3 K3. apply wp_ignored. intros w4 R4 K4. apply wp_ignored. intros w5 R5 K5.
  assert (only_kernel w2 w5) as R by (by do 2 (etrans; [eassumption|])).
  assert (w_kern w5 = listening_kernel fd addr reuseport k2) as K by (by rewrite K5, K4, K3).
  clear R3 R4 R5 K3 K4 K5. apply wp_bind, wp_update.
  assert (w_channels w5 = w_channels w2) as Ech by (by rewrite R).
  exists (mkEventChannel fd none_event_flag 0 NEW_CHANNEL l None None None None). split.
  { change (w_channels w5 !! Pos.succ (w_next w) = Some (mkEventChannel fd none_event_flag 0 NEW_CHANNEL l None None None None)).
    rewrite Ech. apply lookup_insert_eq. }
  apply wp_ret. split; [done|]. split.
  - exact K.
  - change (<[Pos.succ (w_next w) := new_acceptor_channel l fd (w_next w)]> (w_channels w5) =
      <[Pos.succ (w_next w) := new_acceptor_channel l fd (w_next w)]> (w_channels w)).
    rewrite Ech. apply insert_insert_eq.
  - change (w_acceptors w5 = w_acceptors w2). by rewrite R.
  - change (w_next w5 = w_next w2). by rewrite R.
  - change (w_loops w5 = w_loops w2 /\ w_conns w5 = w_conns w2 /\ w_clients w5 = w_clients w2 /\
      w_servers w5 = w_servers w2 /\ w_tid w5 = w_tid w2). by rewrite R.
Qed.

Lemma run_TcpServer_new w l addr opt fd k1 idle k2 :
  socket_granted addr (w_kern w) fd k1 idle k2 ->
  exists w', TcpServer_new l addr opt w = Ok (w_next w, w') /\
    server_added w w' l addr (bool_decide (kReusePort = opt)) fd idle k2.
Proof.
  intros Hg.
  assert (wp (TcpServer_new l addr opt) (fun s w' => s = w_next w /\
    server_added w w' l addr (bool_decide (kReusePort = opt)) fd idle k2) w) as Hwp.
  { unfold TcpServer_new, Acceptor_SetNewConnectionCB. do 4 wp_step.
    apply wp_bind. eapply wp_mono; [by eapply (wp_TcpAcceptor_new (set_w_next (Pos.succ (w_next w)) w))|].
    intros a w1 [-> [K C A N (Rl & Rc & Rcl & Rs & Rt)]]. simpl in *. do 2 wp_step. apply wp_bind, wp_update.
    eexists. split; [simpl; rewrite A; apply lookup_insert_eq|]. apply wp_bind, wp_update.
    eexists. split; [simpl; rewrite Rs; apply lookup_insert_eq|]. apply wp_ret. split; [done|].
    split; simpl; rewrite ?A, ?Rs, ?insert_insert_eq; done. }
  destruct (proj1 (wp_run _ _ _) Hwp) as (s & w' & E & -> & Hsa). by exists w'.
Qed.
End constructors.

(** ** From nothing to a server *)

Section startup.
Context `{EpollReliable} `{!EpollFrame} `{!StreamLaws} `{!FdLaws} `{!BacklogLaws}
  `{!DescriptorLaws} `{!OpenLaws}.
Implicit Types (w : World) (l s a c : ptr) (sv : TcpServer) (ac : TcpAcceptor) (ch : EventChannel) (lp : EventLoop).

(** No object of the library exists, and the thread has no loop. *)
Definition blank w : Prop :=
  w_channels w = ∅ /\ w_loops w = ∅ /\ w_conns w = ∅ /\ w_acceptors w = ∅ /\ w_servers w = ∅ /\
  w_clients w = ∅ /\ w_evt_loop_this_thread w !! w_tid w = None.

(** The kernel has descriptors left, for sockets and files too. *)
Definition grants_sockets : Prop :=
  forall addr k, exists fd k1 idle k2, socket_granted addr k fd k1 idle k2.

(** A loop, and nothing else. *)
Record only_loop w l lp : Prop := {
  ol_inv : loop_inv w l lp;
  ol_loops : w_loops w = {[l := lp]};
  ol_chan : exists ch, w_channels w = {[lo_wakeup_channel_ lp := ch]} /\
    plain_channel l ch (lo_wakeup_fd_ lp) (HandleWakeupEvent_cb l);
  ol_next : lo_wakeup_channel_ lp = Pos.succ l /\ w_next w = Pos.succ (Pos.succ l);
  ol_queue : lo_queue_task_funcs_ lp = [];
  ol_open : lo_wakeup_fd_ lp ∈ k_open (w_kern w) /\ po_epoll_fd_ (lo_poller_ lp) ∈ k_open (w_kern w);
  ol_rest : w_conns w = ∅ /\ w_acceptors w = ∅ /\ w_servers w = ∅ /\ w_clients w = ∅
}.

Lemma start_loop w name active :
  blank w -> grants_descriptors ->
  exists w1 lp, EventLoop_new name active w = Ok (w_next w, w1) /\ only_loop w1 (w_next w) lp.
Proof.
  intros (Bc & Bl & Bco & Ba & Bs & Bcl & Bt) [Hg1 Hg2].
  destruct (Hg1 (w_kern w)) as (ep & k1 & E1). destruct (Hg2 k1) as (wfd & k2 & E2).
  rewrite (run_EventLoop_new _ _ _ _ _ _ _ E1 E2), Bt.
  assert (fresh_addresses w) as Hf by (intros c ch; by rewrite Bc).
  pose proof (new_loop_world_inv w name active ep k1 wfd k2 Hf E1 E2) as Hinv.
  set (w1 := new_loop_world w name active ep wfd k2) in *. set (lp1 := new_loop w name active ep wfd) in *.
  set (l := w_next w) in *.
  pose (ch := mkEventChannel wfd none_event_flag 0 NEW_CHANNEL l (Some (HandleWakeupEvent_cb l)) None None None).
  assert (channel_of w1 l lp1 (Pos.succ l) ch) as Hco.
  { split; [apply lookup_insert_eq|done..]. }
  destruct (run_interest (fun e => Z.lor e read_event_flag) w1 l _ ch lp1 Hinv Hco) as (E3 & [Qo _] & Hinv3 & Hco3).
  set (k3 := interest_kernel _ _ _ _ _) in *.
  unfold EnableReading. erewrite run_bind by exact E3. set (w3 := watching _ _ _ _ _ k3 w1) in *.
  exists w3, (with_entry (ch_fd_ ch) (Pos.succ l) lp1). split; [done|]. split; try done.
  - change (<[l := with_entry (ch_fd_ ch) (Pos.succ l) lp1]> (<[l := lp1]> (w_loops w)) = {[l := with_entry (ch_fd_ ch) (Pos.succ l) lp1]}).
    by rewrite insert_insert_eq, Bl.
  - exists (with_interest (fun e => Z.lor e read_event_flag) ch). split; [|done].
    change (<[Pos.succ l := with_interest (fun e => Z.lor e read_event_flag) ch]> (<[Pos.succ l := ch]> (w_channels w)) =
      {[Pos.succ l := with_interest (fun e => Z.lor e read_event_flag) ch]}).
    by rewrite insert_insert_eq, Bc.
  - pose proof (create1_open EPOLL_CLOEXEC (w_kern w)) as O1. rewrite E1 in O1. destruct O1 as [_ O1].
    pose proof (eventfd_open 0 EFD_NONBLOCK_CLOEXEC k1) as O2. rewrite E2 in O2. destruct O2 as [_ O2].
    change (wfd ∈ k_open k3 /\ ep ∈ k_open k3). rewrite Qo.
    change (w_kern w1) with k2. rewrite O2, O1. set_solver.
Qed.

(** The setters and [Start], without threads. *)
Definition started_server sv msg status me : TcpServer :=
  let sv1 := sv_set_msg_cb_ msg (sv_set_conn_status_cb_ status (sv_set_thread_num_ 0 sv)) in
  sv_set_thread_pool_ (Some (EventLoopThreadPool_new "tcpserver" 0 (sv_server_loop_ sv) me)) (sv_set_started_ true sv1).

Lemma run_start w s sv lp msg status hw choices :
  w_servers w !! s = Some sv -> sv_started_ sv = false -> 0 <= hw ->
  w_loops w !! sv_server_loop_ sv = Some lp ->
  (do! SetThreadNum s 0 hw; do! Server_SetConnStatusCB s status; do! Server_SetMessageCB s msg;
   Server_Start s false choices) w =
  Ok (tt, set_w_loops (<[sv_server_loop_ sv := enqueue (Listen_task (sv_acceptor_ sv)) lp]> (w_loops w))
    (set_w_servers (<[s := started_server sv msg status (w_tid w)]> (w_servers w)) w)).
Proof.
  intros Hs Hst Hhw Hl. unfold SetThreadNum, Server_SetConnStatusCB, Server_SetMessageCB, Server_Start.
  rewrite (proj2 (Z.ltb_ge hw 0)) by done. do 4 run1. simpl. rewrite Hst. simpl.
  rewrite !insert_insert_eq. run1. unfold this_thread. erewrite run_bind by reflexivity. run1. simpl.
  rewrite !insert_insert_eq. erewrite run_bind by reflexivity. run1. simpl. rewrite !insert_insert_eq.
  unfold QueueInLoop. by rewrite (run_update (T := EventLoop) _ _ lp).
Qed.

(** The registration of the acceptor's channel comes later, with [Listen]. *)
Lemma server_added_loop w w' l lp addr reuseport fd idle k1 k2 :
  only_loop w l lp -> socket_granted addr (w_kern w) fd k1 idle k2 ->
  server_added w w' l addr reuseport fd idle k2 ->
  loop_inv w' l lp /\ fd <> lo_wakeup_fd_ lp /\
  {[fd]} ∪ k_open (w_kern w) ⊆ k_open (w_kern w').
Proof.
  intros [[Hinv Ht] El (ch & Ec & Hp) (Nc & Nx) Eq (O1 & O2) _] [E1 E2] [K C A S N (Rl & Rc & Rcl & Rt)].
  assert (forall ep, k_interest (w_kern w') ep = k_interest (w_kern w) ep) as Hi.
  { intros ep. rewrite K. unfold listening_kernel.
    rewrite interest_bind, frame_setsockopt, frame_setsockopt.
    pose proof (interest_open "/dev/null" O_RDONLY_CLOEXEC k1 ep) as I2. rewrite E2 in I2. simpl in I2. rewrite I2.
    pose proof (frame_socket (Family addr) (Z.lor (Z.lor SOCK_STREAM SOCK_NONBLOCK) SOCK_CLOEXEC) IPPROTO_TCP (w_kern w) ep) as I1.
    by rewrite E1 in I1. }
  assert (k_open (w_kern w') = k_open k2) as Ho.
  { rewrite K. unfold listening_kernel. by rewrite bind_open, !setsockopt_open. }
  pose proof (socket_open (Family addr) (Z.lor (Z.lor SOCK_STREAM SOCK_NONBLOCK) SOCK_CLOEXEC) IPPROTO_TCP (w_kern w)) as P1.
  rewrite E1 in P1. destruct P1 as ((_ & Hfree & _) & P1).
  pose proof (open_open "/dev/null" O_RDONLY_CLOEXEC k1) as P2. rewrite E2 in P2. destruct P2 as [_ P2].
  split_and!; [|congruence|rewrite Ho, P2, P1; set_solver].
  split; [|congruence]. eapply poller_inv_frame.
  - apply (poller_inv_new_channel w l lp (Pos.succ (Pos.succ (w_next w))) (new_acceptor_channel l fd (Pos.succ (w_next w)))); [done| |done].
    rewrite Ec, lookup_singleton_ne; [done|]. rewrite Nc, Nx. lia.
  - rewrite Rl. apply Hinv.
  - done.
  - done.
  - done.
  - done.
  - exact Hi.
  - intros c. by rewrite C.
Qed.

(** A server that has been started, and nothing else. *)
Lemma started_service w0 w l lp addr reuseport fd idle k1 k2 msg status me :
  only_loop w0 l lp -> socket_granted addr (w_kern w0) fd k1 idle k2 ->
  server_added w0 w l addr reuseport fd idle k2 -> k_bound (w_kern w) fd = true ->
  let s := w_next w0 in
  let a := Pos.succ s in
  let sv := started_server (new_server l s a) msg status me in
  let ac := new_acceptor l addr fd (Pos.succ a) idle s in
  let lp' := enqueue (Listen_task a) lp in
  service l s a (k_open (w_kern w))
    (set_w_loops (<[l := lp']> (w_loops w)) (set_w_servers (<[s := sv]> (w_servers w)) w)) lp' sv ac.
Proof.
  intros Hol Hg Hsa Hb s a sv ac lp'.
  destruct (server_added_loop _ _ _ _ _ _ _ _ _ _ Hol Hg Hsa) as ([Hinv Ht] & Hne & Hop).
  destruct Hol as [_ El (ch & Ec & Hp) (Nc & Nx) Eq (O1 & O2) (Oc & Oa & Os & Ocl)].
  destruct Hsa as [K C A S N (Rl & Rc & Rcl & Rt)]. rewrite Ec in C. rewrite Oa in A. rewrite Os in S.
  fold s in N, Nx, C, A, S. fold a in N, C, A, S.
  assert (lo_wakeup_channel_ lp <> Pos.succ a) as Hne2 by (rewrite Nc; unfold a; lia).
  split; simpl.
  - split; [|exact Ht]. eapply poller_inv_frame; [exact Hinv|apply lookup_insert_eq|done..].
  - rewrite Rl, El. apply insert_singleton_eq.
  - rewrite S. apply insert_insert_eq.
  - congruence.
  - split_and!; [done..|]. eexists. by split_and!.
  - rewrite A. apply lookup_insert_eq.
  - done.
  - exists (new_acceptor_channel l fd a). rewrite C, lookup_insert_eq. split_and!; [done|done|]. right. done.
  - exists ch. by rewrite C, lookup_insert_ne, lookup_singleton_eq.
  - split_and!; [set_solver..|done].
  - intros x. rewrite Rc, Oc. split; [by left|]. intros [?|(conn & co & Hco & _)]; [done|].
    by rewrite lookup_empty in Hco.
  - intros conn co Hco. by rewrite Rc, Oc, lookup_empty in Hco.
  - intros conn co conn' co' Hco. by rewrite Rc, Oc, lookup_empty in Hco.
  - intros x conn Hin. by rewrite lookup_empty in Hin.
  - intros c ch'. rewrite C. intros [[<- _]|[_ [<- _]%lookup_singleton_Some]]%lookup_insert_Some; [by left|by right; left].
  - intros conn [co Hco]. by rewrite Rc, Oc, lookup_empty in Hco.
  - intros c [ch' Hc]. rewrite N. rewrite C in Hc.
    apply lookup_insert_Some in Hc as [[<- _]|[_ [<- _]%lookup_singleton_Some]]; [lia|]. rewrite Nc. unfold a. lia.
  - rewrite Eq. intros t ->%list_elem_of_singleton. by left.
Qed.

Lemma run_serve_main w name active addr opt msg status hw choices :
  blank w -> grants_descriptors -> grants_sockets -> 0 <= hw ->
  exists l s a w' lp sv ac,
    serve_main name active addr opt msg status hw choices w = Ok ((l, s), w') /\
    w_acceptors w' !! a = Some ac /\ (w_conns w' = ∅ /\ server_policy sv = mkPolicy status msg) /\
    (k_bound (w_kern w') (ac_socket_fd_ ac) = true -> service l s a (k_open (w_kern w')) w' lp sv ac).
Proof.
  intros Hb Hg Hgs Hhw. destruct (start_loop w name active Hb Hg) as (w1 & lp & E1 & Hol).
  destruct (Hgs addr (w_kern w1)) as (fd & k1 & idle & k2 & Hsg).
  destruct (run_TcpServer_new w1 (w_next w) addr opt fd k1 idle k2 Hsg) as (w2 & E2 & Hsa).
  set (l := w_next w) in *. set (s := w_next w1) in *.
  pose proof Hol as [_ El _ _ _ _ (Oc & _)]. pose proof Hsa as [_ _ A S _ (Rl & Rc & _)].
  pose proof (run_start w2 s (new_server l s (Pos.succ s)) lp msg status hw choices) as E3. simpl in E3.
  eexists l, s, (Pos.succ s), _, _, (started_server (new_server l s (Pos.succ s)) msg status (w_tid w2)), _. split_and!.
  - unfold serve_main. erewrite run_bind by exact E1. erewrite run_bind by exact E2.
    rewrite <-!run_bind_assoc. erewrite run_bind; [reflexivity|]. rewrite !run_bind_assoc. apply E3; [|done|done|].
    + rewrite S. apply lookup_insert_eq.
    + rewrite Rl, El. apply lookup_singleton_eq.
  - simpl. rewrite A. apply lookup_insert_eq.
  - simpl. congruence.
  - reflexivity.
  - simpl. intros Hbd. by eapply started_service.
Qed.
End startup.

(** ** The server, from any of its states *)

Section serving.
Context `{EpollReliable} `{!EpollFrame} `{!StreamLaws} `{!IoLaws} `{!FdLaws} `{!BacklogLaws}
  `{!AcceptReliable} `{!DescriptorLaws} `{!KernelLimits} `{!Inet} `{!UserCode}.
Variables (l s a : ptr) (base : gset Z).
Variable user_holds : World -> ptr -> bool.
Implicit Types (w : World) (sv : TcpServer) (ac : TcpAcceptor) (lp : EventLoop).

(** C6: A server goes on serving.  Conditions: the server has no threads; its user is a
    sink (its message callback takes everything out of the read buffer, its other
    callbacks do nothing, none calls the library, [user_sink]) and keeps no connection;
    accept4 takes a connection that waits ([AcceptReliable]).  Then, whatever
    epoll reports and however the peers connect, send, close or break off, any number of
    iterations of the loop return: no assertion fails, no object is used after its
    end, no handler runs for ever.  Afterwards the invariant holds again; in particular
    every open descriptor is one of the program's own or that of a live connection, as
    many as there are: none has leaked and none is used that was closed. *)
Theorem server_goes_on_serving n w lp sv ac fuel junk :
  user_sink -> (forall w conn, user_holds w conn = false) ->
  service l s a base w lp sv ac -> (k_limit <= fuel)%nat ->
  exists w' lp' sv',
    iterations (l := l) (call := call user_holds fuel junk) (exec := exec user_holds)
      (release := release user_holds) n w = Ok (tt, w') /\
    service l s a base w' lp' sv' ac /\
    size (k_open (w_kern w')) = (size base + size (w_conns w'))%nat.
Proof.
  intros Hsink Hholds Hs Hf.
  destruct (proj1 (wp_run _ _ _) (iterations_serve l s a base user_holds Hsink Hholds n w lp sv ac fuel junk Hs Hf))
    as ([] & w' & E & done & (lp' & sv' & Hs' & _) & _).
  exists w', lp', sv'. split_and!; [done..|by eapply service_balance].
Qed.

(** C21: Connections come to their turn.  For a server without threads, whose user is a
    sink and keeps no connection, and while accept4 takes what waits (the conditions of
    [server_goes_on_serving]): after as many iterations as there are tasks in the queue,
    every connection that was accepted has been established (or has
    gone further), every connection that was closed has been destroyed, and no
    connection has gone back to an earlier state. *)
Theorem connections_come_to_their_turn n w lp sv ac fuel junk :
  user_sink -> (forall w conn, user_holds w conn = false) ->
  service l s a base w lp sv ac -> (k_limit <= fuel)%nat -> (length (lo_queue_task_funcs_ lp) <= n)%nat ->
  exists w', iterations (l := l) (call := call user_holds fuel junk) (exec := exec user_holds)
      (release := release user_holds) n w = Ok (tt, w') /\
    forall conn co, w_conns w !! conn = Some co ->
      (phase (Some co) <= phase (w_conns w' !! conn))%nat /\
      (co_state_ co = CONNECTING -> (1 <= phase (w_conns w' !! conn))%nat) /\
      (co_state_ co = DISCONNECTED -> w_conns w' !! conn = None).
Proof.
  intros Hsink Hholds Hs Hf Hn. destruct (proj1 (wp_run _ _ _) (iterations_serve l s a base user_holds Hsink Hholds n w lp sv ac fuel junk Hs Hf))
    as ([] & w' & E & done & (lp' & sv' & _ & [_ Hpr] & new & Eq) & Hadv & Hlen).
  exists w'. split; [done|]. intros conn co Hco.
  assert (conn < w_next w)%positive as Hlt by (apply (se_fresh_conns _ _ _ _ _ _ _ _ Hs); eauto).
  specialize (Hpr conn Hlt). rewrite Hco in Hpr.
  assert (forall t, t ∈ lo_queue_task_funcs_ lp -> t ∈ done) as Hdone.
  { assert (length (lo_queue_task_funcs_ lp) <= length done)%nat as Hle by lia.
    intros t [i Hi]%list_elem_of_lookup. pose proof (lookup_lt_Some _ _ _ Hi) as Hlt'.
    apply (list_elem_of_lookup_2 _ i). rewrite <-(lookup_app_l done (lo_queue_task_funcs_ lp')) by lia.
    rewrite Eq. by rewrite lookup_app_l by lia. }
  pose proof (ck_chan _ _ _ _ _ _ _ _ (se_conns _ _ _ _ _ _ _ _ Hs _ _ Hco)) as (ch & _ & _ & Hl).
  unfold life in Hl. split_and!; [done|..]; intros Hst; rewrite Hst in Hl; destruct Hl as (_ & _ & _ & T1 & T2).
  - assert (ConnectEstablished_task conn ∈ lo_queue_task_funcs_ lp) as Hin%Hdone by (apply times_pos; lia).
    specialize (Hadv _ conn Hin eq_refl Hlt). lia.
  - assert (ConnectDestoryed_task conn ∈ lo_queue_task_funcs_ lp) as Hin%Hdone by (apply times_pos; lia).
    specialize (Hadv _ conn Hin eq_refl Hlt). rewrite Hco in Hadv. simpl in Hadv. rewrite Hst in Hadv.
    destruct (w_conns w' !! conn) as [co'|]; [|done]. simpl in Hadv. destruct (co_state_ co'); lia.
Qed.
End serving.

(** ** The program as a whole *)

Section whole.
Context `{EpollReliable} `{!EpollFrame} `{!StreamLaws} `{!IoLaws} `{!FdLaws} `{!BacklogLaws}
  `{!AcceptReliable} `{!DescriptorLaws} `{!OpenLaws} `{!KernelLimits} `{!Inet} `{!UserCode}.
Variable user_holds : World -> ptr -> bool.

(** C1: A program that serves, from its start.  Conditions: the program is a server
    without threads; its user is a sink (its message callback takes everything out of
    the read buffer, its other callbacks do nothing, none calls the library,
    [user_sink]) and keeps no connection; accept4 takes a connection that waits
    ([AcceptReliable]).  Then, when nothing exists yet and the kernel
    grants the descriptors, the constructors, the setters and [Start] return; if the
    address could be bound, any number of iterations of the loop return after that,
    whatever epoll reports and however the peers connect, send, close or break off, and
    there are exactly as many open descriptors as when the server was started, and one
    for each live connection. *)
Theorem program_serves w name active addr opt msg status hw choices :
  user_sink -> (forall w conn, user_holds w conn = false) ->
  blank w -> grants_descriptors -> grants_sockets -> 0 <= hw ->
  exists l s w1 a ac, serve_main name active addr opt msg status hw choices w = Ok ((l, s), w1) /\
    w_acceptors w1 !! a = Some ac /\
    (k_bound (w_kern w1) (ac_socket_fd_ ac) = true ->
     forall n fuel junk, (k_limit <= fuel)%nat ->
     exists w', iterations (l := l) (call := call user_holds fuel junk) (exec := exec user_holds)
         (release := release user_holds) n w1 = Ok (tt, w') /\
       size (k_open (w_kern w')) = (size (k_open (w_kern w1)) + size (w_conns w'))%nat).
Proof.
  intros Hu Hh Hb Hg Hgs Hhw.
  destruct (run_serve_main w name active addr opt msg status hw choices Hb Hg Hgs Hhw)
    as (l & s & a & w1 & lp & sv & ac & E & Ha & _ & Hs).
  exists l, s, w1, a, ac. split_and!; [done..|]. intros Hbd n fuel junk Hf.
  destruct (proj1 (wp_run _ _ _) (iterations_serve l s a _ user_holds Hu Hh n w1 lp sv ac fuel junk (Hs Hbd) Hf))
    as ([] & w' & E' & done & (lp' & sv' & Hs' & _) & _).
  exists w'. split; [done|]. by eapply service_balance.
Qed.
End whole.

(** ** Witnesses

    A program on the kernel of RefKernel.v with three descriptors open.  Its loop is
    1000, the server 1002 and the acceptor 1003, which listens on descriptor 5 with
    the channel 1004.  Its user throws away what it is sent. *)

#[local] Instance discarding_user : @UserCode RefKernel := {|
  user_run ev := match ev with
    | Message_ev _ conn => update conn (co_set_read_buffer_ (Buffer_new InitSize))
    | _ => ret tt
    end |}.

Lemma discarding_user_sink : @user_sink RefKernel discarding_user.
Proof.
  intros ev w. destruct ev; try reflexivity. intros co Hco. exists (Buffer_new InitSize).
  split; [exact (run_update conn (co_set_read_buffer_ (Buffer_new InitSize)) co w Hco)|].
  split; [apply Buffer_new_wf|done].
Qed.

Definition demo_blank : @World RefKernel :=
  demo_world (mkRkernel {[0 := RNull; 1 := RNull; 2 := RNull]} ∅ []) ∅ ∅ ∅.

Definition demo_main : St (@World RefKernel) (ptr * ptr) :=
  serve_main "main" None (replicate 16 x00) kNoReusePort (Some 1%nat) (Some 2%nat) 4
    (fun _ => mkThreadChoice 9 None false).

(** After the start; [conns] peers have connected meanwhile, and epoll will report the
    listening socket after a first call that reports nothing. *)
Definition demo_started : @World RefKernel :=
  match demo_main demo_blank with Ok (_, w) => w | Err _ => demo_blank end.
Definition visited (conns : list sockaddr) (w : @World RefKernel) : @World RefKernel :=
  let k := w_kern w in
  set_w_kern (mkRkernel (<[5 := RSock (mkRsock [] false [] 0 0 false conns)]> (rk_files k)) (rk_interest k)
    [[]; [(1, 1004%positive)]]) w.
Definition demo_busy (conns : list sockaddr) : @World RefKernel := visited conns demo_started.

Definition demo_run (n : nat) : St (@World RefKernel) unit :=
  iterations (l := 1000%positive) (call := call (fun _ _ => false) 1024 [])
    (exec := exec (fun _ _ => false))
    (release := release (fun _ _ => false)) n.

Lemma demo_blank_blank : blank demo_blank.
Proof. by split_and!. Qed.

Lemma RefKernel_grants_sockets : grants_sockets (H := RefKernel).
Proof. intros addr k. do 4 eexists. split; reflexivity. Qed.

Lemma demo_addresses : outcome (fun r _ => r) (demo_main demo_blank) = Some (1000%positive, 1002%positive).
Proof. vm_compute. reflexivity. Qed.
Lemma demo_acceptors :
  w_acceptors demo_started = {[1003%positive := new_acceptor 1000 (replicate 16 x00) 5 1004 6 1002]}.
Proof. vm_compute. reflexivity. Qed.
Lemma demo_bound : k_bound (w_kern demo_started) 5 = true.
Proof. vm_compute. reflexivity. Qed.
Lemma demo_open : size (k_open (w_kern demo_started)) = 7%nat.
Proof. vm_compute. reflexivity. Qed.
Lemma demo_listener : rk_files (w_kern demo_started) !! 5 = Some (RSock new_sock).
Proof. vm_compute. reflexivity. Qed.
Lemma demo_queue :
  lo_queue_task_funcs_ <$> w_loops demo_started !! 1000%positive = Some [Listen_task 1003].
Proof. vm_compute. reflexivity. Qed.

(** The outcome of the start, as [demo_started] has it. *)
Lemma demo_main_started l s w1 :
  demo_main demo_blank = Ok ((l, s), w1) -> w1 = demo_started /\ l = 1000%positive /\ s = 1002%positive.
Proof.
  intros E. pose proof demo_addresses as Ho. unfold demo_started. rewrite E in Ho |- *. simpl in Ho.
  clear E. injection Ho as -> ->. split_and!; reflexivity.
Qed.

Lemma program_serves_witness :
  exists l s w1, demo_main demo_blank = Ok ((l, s), w1) /\ size (k_open (w_kern w1)) = 7%nat /\
    exists w', demo_run 3 w1 = Ok (tt, w') /\ size (k_open (w_kern w')) = (7 + size (w_conns w'))%nat.
Proof.
  destruct (program_serves (fun _ _ => false) demo_blank "main" None (replicate 16 x00) kNoReusePort
    (Some 1%nat) (Some 2%nat) 4 (fun _ => mkThreadChoice 9 None false))
    as (l & s & w1 & a & ac & E & Ha & Hrun);
    [exact discarding_user_sink|done|exact demo_blank_blank|exact RefKernel_grants|exact RefKernel_grants_sockets|lia|].
  destruct (demo_main_started l s w1 E) as (Ew & El & Es). exists l, s, w1. split; [exact E|].
  assert (size (k_open (w_kern w1)) = 7%nat) as H7 by (rewrite Ew; exact demo_open). split; [exact H7|].
  assert (k_bound (w_kern w1) (ac_socket_fd_ ac) = true) as Hb.
  { rewrite Ew in Ha |- *. rewrite demo_acceptors in Ha. apply lookup_singleton_Some in Ha as [_ <-]. exact demo_bound. }
  rewrite El in Hrun. destruct (Hrun Hb 3%nat 1024%nat []) as (w' & E' & Hk); [by vm_compute|].
  exists w'. split; [exact E'|]. rewrite Hk, H7. reflexivity.
Defined.

Lemma demo_started_serves :
  exists lp sv ac, service 1000 1002 1003 (k_open (w_kern demo_started)) demo_started lp sv ac /\
    ac_socket_fd_ ac = 5 /\ lo_queue_task_funcs_ lp = [Listen_task 1003].
Proof.
  destruct (run_serve_main demo_blank "main" None (replicate 16 x00) kNoReusePort (Some 1%nat) (Some 2%nat) 4
    (fun _ => mkThreadChoice 9 None false) demo_blank_blank RefKernel_grants RefKernel_grants_sockets ltac:(lia))
    as (l & s & a & w1 & lp & sv & ac & E & Ha & _ & Hs).
  destruct (demo_main_started l s w1 E) as (-> & -> & ->). clear E.
  rewrite demo_acceptors in Ha. apply lookup_singleton_Some in Ha as [<- <-]. specialize (Hs demo_bound).
  eexists lp, sv, _. split; [exact Hs|]. split; [reflexivity|]. pose proof demo_queue as Hq.
  rewrite (service_loop _ _ _ _ _ _ _ _ Hs) in Hq. injection Hq as Hq. exact Hq.
Qed.

Lemma visited_serves l s a base w lp sv ac conns :
  service l s a base w lp sv ac -> ac_socket_fd_ ac = 5 -> rk_files (w_kern w) !! 5 = Some (RSock new_sock) ->
  (Z.of_nat (length conns) <? rk_limit) = true -> service l s a base (visited conns w) lp sv ac.
Proof.
  intros Hs Hfd H5 Hlen. eapply quiet_step_service; [exact Hs|].
  apply (kernel_step l s a base w lp sv ac (SOk tt : sysres unit) (w_kern (visited conns w))); [exact Hs|..].
  - simpl. apply dom_insert_lookup_L. by rewrite H5.
  - intros fd _. simpl. unfold rk_stream. simpl. destruct (decide (fd = 5)) as [->|Hne].
    + rewrite lookup_insert_eq, H5. done.
    + by rewrite lookup_insert_ne.
  - intros ch _. left. rewrite Hfd. simpl. unfold rk_backlog. simpl. rewrite lookup_insert_eq. simpl.
    rewrite Hlen. eauto.
  - done.
Qed.

Lemma demo_busy_serves conns :
  (Z.of_nat (length conns) <? rk_limit) = true ->
  exists lp sv ac, service 1000 1002 1003 (k_open (w_kern demo_started)) (demo_busy conns) lp sv ac /\
    lo_queue_task_funcs_ lp = [Listen_task 1003].
Proof.
  intros Hlen. destruct demo_started_serves as (lp & sv & ac & Hs & Hfd & Hq). exists lp, sv, ac. split; [|exact Hq].
  exact (visited_serves _ _ _ _ _ _ _ _ _ Hs Hfd demo_listener Hlen).
Qed.

(** Two peers: both are accepted, one of them is established in the same iteration. *)
Lemma demo_busy_run :
  outcome (fun _ w => (size (w_conns w), lo_queue_task_funcs_ <$> w_loops w !! 1000%positive))
    (demo_run 2 (demo_busy [[x01]; [x02]])) = Some (2%nat, Some [ConnectEstablished_task 1007]).
Proof. vm_compute. reflexivity. Qed.

Lemma outcome_run {B} (f : unit -> @World RefKernel -> B) m (w w' : @World RefKernel) b :
  outcome f (m w) = Some b -> m w = Ok (tt, w') -> f tt w' = b.
Proof. intros Ho E. rewrite E in Ho. by injection Ho. Qed.

Lemma server_goes_on_serving_witness :
  exists w', demo_run 2 (demo_busy [[x01]; [x02]]) = Ok (tt, w') /\ size (k_open (w_kern w')) = 9%nat.
Proof.
  destruct (demo_busy_serves [[x01]; [x02]] eq_refl) as (lp & sv & ac & Hs & _).
  destruct (server_goes_on_serving 1000 1002 1003 (k_open (w_kern demo_started)) (fun _ _ => false)
    2 (demo_busy [[x01]; [x02]]) lp sv ac 1024 [] discarding_user_sink ltac:(done) Hs ltac:(by vm_compute))
    as (w' & lp' & sv' & E & _ & Hk).
  exists w'. split; [exact E|]. pose proof (outcome_run _ (demo_run 2) _ w' _ demo_busy_run E) as [= Ho _].
  rewrite Hk, Ho, demo_open. reflexivity.
Defined.

(** ... and the other one in the next. *)
Definition demo_accepted : @World RefKernel :=
  match demo_run 2 (demo_busy [[x01]; [x02]]) with Ok (_, w) => w | Err _ => demo_blank end.

Lemma demo_accepted_state :
  (co_state_ <$> w_conns demo_accepted !! 1007%positive) = Some CONNECTING.
Proof. vm_compute. reflexivity. Qed.

Lemma demo_accepted_run w' : demo_run 2 (demo_busy [[x01]; [x02]]) = Ok (tt, w') -> demo_accepted = w'.
Proof. intros E. unfold demo_accepted. rewrite E. reflexivity. Qed.

Lemma demo_accepted_serves :
  exists lp sv ac, service 1000 1002 1003 (k_open (w_kern demo_started)) demo_accepted lp sv ac /\
    lo_queue_task_funcs_ lp = [ConnectEstablished_task 1007].
Proof.
  destruct (demo_busy_serves [[x01]; [x02]] eq_refl) as (lp & sv & ac & Hs & _).
  destruct (proj1 (wp_run _ _ _) (iterations_serve 1000 1002 1003 (k_open (w_kern demo_started)) (fun _ _ => false)
    discarding_user_sink ltac:(done) 2 (demo_busy [[x01]; [x02]]) lp sv ac 1024 [] Hs ltac:(by vm_compute)))
    as ([] & w' & E & done & (lp' & sv' & Hs' & _) & _).
  rewrite (demo_accepted_run w' E). exists lp', sv', ac. split; [exact Hs'|].
  pose proof (outcome_run _ (demo_run 2) _ w' _ demo_busy_run E) as [= _ Ho].
  rewrite (service_loop _ _ _ _ _ _ _ _ Hs') in Ho. injection Ho as Ho. exact Ho.
Qed.

Lemma connections_come_to_their_turn_witness :
  (co_state_ <$> w_conns demo_accepted !! 1007%positive) = Some CONNECTING /\
  exists w', demo_run 1 demo_accepted = Ok (tt, w') /\ (1 <= phase (w_conns w' !! 1007%positive))%nat.
Proof.
  pose proof demo_accepted_state as Hst. split; [exact Hst|]. destruct demo_accepted_serves as (lp & sv & ac & Hs & Hq).
  destruct (connections_come_to_their_turn 1000 1002 1003 (k_open (w_kern demo_started)) (fun _ _ => false)
    1 demo_accepted lp sv ac 1024 [] discarding_user_sink ltac:(done) Hs ltac:(by vm_compute) ltac:(rewrite Hq; simpl; lia))
    as (w' & E & Hc).
  exists w'. split; [exact E|].
  destruct (proj1 (fmap_Some _ _ _) Hst) as (co & Hco & Hst'). exact (proj1 (proj2 (Hc _ co Hco)) (eq_sym Hst')).
Defined.
