(* ===== verification/Promise.v ===== *)
(** * Promise: a server keeps its contract

    The refinement theorem: the loop of a server without threads takes the steps of
    Contract.v and no others, and its user is told what the contract says; and what
    follows for the user of a whole program, from its start. *)

From stdpp Require Import base list gmap strings numbers.
From Stdlib Require Import ZArith Lia Init.Byte.
From S2P Require Import Prelude Buffer Kernel RefKernel State World Demo Poller EventLoop Socket.
From S2P Require Import Connection Acceptor Connector ThreadPool Server Client Reactor Contract Service Serving Startup.

Open Scope np_scope.

Section promise.
Context `{EpollReliable} `{!EpollFrame} `{!StreamLaws} `{!IoLaws} `{!FdLaws} `{!BacklogLaws}
  `{!AcceptReliable} `{!DescriptorLaws} `{!OpenLaws} `{!KernelLimits} `{!Inet} `{!UserCode}.
Variable user_holds : World -> ptr -> bool.
Implicit Types (w : World) (sv : TcpServer) (ac : TcpAcceptor) (lp : EventLoop).

Lemma iterations_keep l s a base n w lp sv ac fuel junk :
  user_sink -> (forall w conn, user_holds w conn = false) ->
  service l s a base w lp sv ac -> (k_limit <= fuel)%nat ->
  exists w', iterations (l := l) (call := call user_holds fuel junk) (exec := exec user_holds)
      (release := release user_holds) n w = Ok (tt, w') /\ keeps (server_policy sv) w w'.
Proof.
  intros Hsink Hholds Hs Hf. destruct (proj1 (wp_run _ _ _) (iterations_serve l s a base user_holds Hsink Hholds n w lp sv ac fuel junk Hs Hf))
    as ([] & w' & E & done & (lp' & sv' & _ & Hpr & _) & _).
  exists w'. split; [exact E|]. rewrite <-(service_policy l s a base w lp sv ac Hs). apply Hpr.
Qed.

(** C2: A server keeps its contract.  Conditions: the server has no threads; its user is a
    sink (its message callback takes everything out of the read buffer, its other
    callbacks do nothing, none calls the library, [user_sink]) and keeps no connection;
    accept4 takes a connection that waits ([AcceptReliable]).  Then, whatever
    epoll reports and however the peers connect, send, close or break off, any number
    of iterations of the loop return, and what they do is a run of the abstract server:
    connections are accepted, established, served, closed and reclaimed, each in this
    order, and the calls of the user's callbacks are exactly those of the steps of that
    run, in their order. *)
Theorem server_refines_contract l s a base n w lp sv ac fuel junk :
  user_sink -> (forall w conn, user_holds w conn = false) ->
  service l s a base w lp sv ac -> (k_limit <= fuel)%nat ->
  exists w' evs, iterations (l := l) (call := call user_holds fuel junk) (exec := exec user_holds)
      (release := release user_holds) n w = Ok (tt, w') /\
    w_trace w' = rev evs ++ w_trace w /\
    contract_runs (server_policy sv) (promised w) evs (promised w').
Proof.
  intros Hu Hh Hs Hf. destruct (iterations_keep l s a base n w lp sv ac fuel junk Hu Hh Hs Hf) as (w' & E & evs & T & R). eauto.
Qed.

(** C11: The user of a server hears one conversation per connection.  For a program that is
    a server without threads, whose address could be bound, whose user is a sink and
    keeps no connection, and while accept4 takes what waits (the conditions of
    [server_refines_contract]), from its start, whatever epoll reports and the peers
    send: of a connection that is not established yet nothing has been heard; of an
    established one, that it is, and then messages; of a closed one also, at the end,
    that it is closed; and nothing after that, also when the connection is gone. *)
Theorem user_hears_conversations w name active addr opt msg status hw choices :
  user_sink -> (forall w conn, user_holds w conn = false) ->
  blank w -> grants_descriptors -> grants_sockets -> 0 <= hw ->
  exists l s w1 a ac, serve_main name active addr opt msg status hw choices w = Ok ((l, s), w1) /\
    w_acceptors w1 !! a = Some ac /\
    (k_bound (w_kern w1) (ac_socket_fd_ ac) = true ->
     forall n fuel junk, (k_limit <= fuel)%nat ->
     exists w' evs, iterations (l := l) (call := call user_holds fuel junk) (exec := exec user_holds)
         (release := release user_holds) n w1 = Ok (tt, w') /\
       w_trace w' = rev evs ++ w_trace w1 /\
       forall conn, conversation (mkPolicy status msg) conn (promised w') (heard_of conn evs)).
Proof.
  intros Hu Hh Hb Hg Hgs Hhw.
  destruct (run_serve_main w name active addr opt msg status hw choices Hb Hg Hgs Hhw)
    as (l & s & a & w1 & lp & sv & ac & E & Ha & (Hc & Hp) & Hs).
  exists l, s, w1, a, ac. split_and!; [done..|]. intros Hbd n fuel junk Hf.
  destruct (iterations_keep l s a _ n w1 lp sv ac fuel junk Hu Hh (Hs Hbd) Hf) as (w' & E' & evs & T & R).
  exists w', evs. split_and!; [done..|]. rewrite Hp in R. unfold promised at 1 in R. rewrite Hc, fmap_empty in R.
  by eapply runs_conversations.
Qed.
End promise.

(** ** Witnesses

    The program of Startup.v, whose user throws away what it is sent: two peers
    connect, and one of them is established. *)

#[local] Existing Instance discarding_user.

Lemma demo_told :
  outcome (fun _ w => w_trace w) (demo_run 2 (demo_busy [[x01]; [x02]])) = Some [ConnStatus_ev 2 1005 CONNECTED].
Proof. vm_compute. reflexivity. Qed.

Lemma demo_quiet : w_trace (demo_busy [[x01]; [x02]]) = [].
Proof. vm_compute. reflexivity. Qed.

Lemma server_refines_contract_witness :
  exists w' evs sv, demo_run 2 (demo_busy [[x01]; [x02]]) = Ok (tt, w') /\ rev evs = [ConnStatus_ev 2 1005 CONNECTED] /\
    contract_runs (server_policy sv) (promised (demo_busy [[x01]; [x02]])) evs (promised w').
Proof.
  destruct (demo_busy_serves [[x01]; [x02]] eq_refl) as (lp & sv & ac & Hs & _).
  destruct (server_refines_contract (fun _ _ => false) 1000 1002 1003
    (k_open (w_kern demo_started)) 2 (demo_busy [[x01]; [x02]]) lp sv ac 1024 [] discarding_user_sink ltac:(done) Hs ltac:(by vm_compute))
    as (w' & evs & E & T & R).
  exists w', evs, sv. split; [exact E|]. split; [|exact R].
  pose proof (outcome_run _ (demo_run 2) _ w' _ demo_told E) as Ho. cbn beta in Ho. rewrite T, demo_quiet, app_nil_r in Ho. exact Ho.
Defined.

Lemma user_hears_conversations_witness :
  exists l s w1, demo_main demo_blank = Ok ((l, s), w1) /\
    exists w' evs, demo_run 3 w1 = Ok (tt, w') /\ w_trace w' = rev evs ++ w_trace w1 /\
      forall conn, conversation (mkPolicy (Some 2%nat) (Some 1%nat)) conn (promised w') (heard_of conn evs).
Proof.
  destruct (user_hears_conversations (fun _ _ => false) demo_blank "main" None
    (replicate 16 x00) kNoReusePort (Some 1%nat) (Some 2%nat) 4 (fun _ => mkThreadChoice 9 None false))
    as (l & s & w1 & a & ac & E & Ha & Hrun);
    [exact discarding_user_sink|done|exact demo_blank_blank|exact RefKernel_grants|exact RefKernel_grants_sockets|lia|].
  destruct (demo_main_started l s w1 E) as (Ew & El & Es). exists l, s, w1. split; [exact E|].
  assert (k_bound (w_kern w1) (ac_socket_fd_ ac) = true) as Hb.
  { rewrite Ew in Ha |- *. rewrite demo_acceptors in Ha. apply lookup_singleton_Some in Ha as [_ <-]. exact demo_bound. }
  rewrite El in Hrun. exact (Hrun Hb 3%nat 1024%nat [] ltac:(by vm_compute)).
Defined.
