(* ===== verification/Echo.v ===== *)
(** * Echo: the echo server of the repository

    The message callback of net/tests/echo_server_test.cpp, a user of the library, run
    by the model of the library: it sends back what arrives.  Its server lives in one
    loop here.  What the library's defect of closing twice (Reactor.v) does to this
    program, from its start to the failed assertion, is the last theorem. *)

From stdpp Require Import base list gmap strings numbers.
From Stdlib Require Import ZArith Lia Init.Byte.
From S2P Require Import Prelude Buffer Kernel RefKernel State World Demo Poller EventLoop Socket.
From S2P Require Import Connection Acceptor Connector ThreadPool Server Client Reactor Contract Service Serving Startup.

Open Scope np_scope.

(** ** The callback *)

Section echo.
Context `{Kernel} `{!Inet}.
Variable user_holds : World -> ptr -> bool.

(** The status callback of the echo server only logs; it is all that [Send] and
    [Shutdown] can call. *)
#[local] Instance status_user : UserCode := {| user_run _ := ret tt |}.

(** [(msg.size() <= 6) && (0 == memcmp(msg.data(), word, strlen(word)))], where
    memcmp reads as many bytes of the message as the word has. *)
Definition is_command (word msg : list byte) : res bool :=
  if (length msg <=? 6)%nat then
    if (length word <=? length msg)%nat then Ok (bool_decide (take (length word) msg = word))
    else Err UndefinedBehaviour
  else Ok false.

(** [loop_] is the loop the echo server was made with; [spurious] is the weak
    compare_exchange of [Shutdown], [one] the variable that [Wakeup] writes. *)
Definition OnMessageCallback (loop_ conn : ptr) (spurious : bool) (one : list byte) : M unit :=
  let! co := load (T := TcpConnection) conn in
  let! '(read_len, msg, b) := lift (ReadAllAsByte (co_read_buffer_ co)) in
  do! update conn (co_set_read_buffer_ b);
  let! exit := lift (is_command (String.list_byte_of_string "exit") msg) in
  do! when exit
        (do! Send (call_close user_holds) conn [x62; x79; x65; x0a] 4;
         Shutdown conn spurious);
  let! quit := lift (is_command (String.list_byte_of_string "quit") msg) in
  do! when quit (Quit loop_ one);
  let! send_msg := lift (if read_len <? 0 then Err BadArrayLength else msg_bytes msg read_len) in
  Send (call_close user_holds) conn send_msg read_len.
End echo.

(** ** Theorems *)

Section answers.
Context `{EpollReliable} `{!EpollFrame} `{!StreamLaws} `{!IoLaws} `{!Inet}.
Variable user_holds : World -> ptr -> bool.
#[local] Existing Instance status_user.
Implicit Types (w : World) (conn : ptr) (co : TcpConnection) (ch : EventChannel) (lp : EventLoop).

Lemma is_command_length word msg b :
  (length word <= 6)%nat -> is_command word msg = Ok b -> (length word <= length msg)%nat.
Proof.
  unfold is_command. intros Hw. destruct (Nat.leb_spec (length msg) 6); [|lia].
  by destruct (Nat.leb_spec (length word) (length msg)).
Qed.

(** The callback takes the message out of the read buffer... *)
Lemma run_OnMessage w loop_ conn co ch lp st spurious one :
  let msg := contents (co_read_buffer_ co) in
  conn_view w conn co ch lp st ->
  is_command (String.list_byte_of_string "exit") msg = Ok false ->
  is_command (String.list_byte_of_string "quit") msg = Ok false ->
  Z.of_nat (length msg) < 2 ^ 31 ->
  exists b, buffer_wf b /\ contents b = [] /\
    OnMessageCallback user_holds loop_ conn spurious one w =
    SendInLoop (call_close user_holds) conn msg
      (Z.of_nat (length msg)) (set_w_conns (<[conn := co_set_read_buffer_ b co]> (w_conns w)) w).
Proof.
  intros msg [Hc [Hrw _ _]] He Hq Hlen.
  destruct (ReadBytes_spec (co_read_buffer_ co) (ReadableBytes (co_read_buffer_ co)) Hrw) as (b & E & Hb & Hnil & _).
  { rewrite ReadableBytes_contents by done. lia. }
  rewrite ReadableBytes_contents, Z.min_id, Nat2Z.id, firstn_all in E by done.
  rewrite ReadableBytes_contents, Nat2Z.id, drop_all in Hnil by done.
  exists b. split_and!; [done|done|]. unfold OnMessageCallback, ReadAllAsByte.
  erewrite run_bind by (apply run_load; apply Hc). rewrite ReadableBytes_contents by done. fold msg in E |- *.
  rewrite E, s32_small by lia. erewrite run_bind by reflexivity. cbn beta iota.
  erewrite run_bind by (apply run_update; apply Hc). rewrite He. erewrite run_bind by reflexivity.
  erewrite run_bind by reflexivity. rewrite Hq. erewrite run_bind by reflexivity. erewrite run_bind by reflexivity.
  rewrite (proj2 (Z.ltb_ge _ _)) by lia. rewrite msg_bytes_all. erewrite run_bind by reflexivity.
  eapply run_Send. by apply (core_update _ _ _ _ _ _ (co_set_read_buffer_ b co) Hc).
Qed.

(** C38: The echo server sends back what arrives.  The message callback of
    echo_server_test.cpp, on a connection of the running loop whose read buffer holds
    a message that is none of its two commands: unless the connection is found
    broken, and then it is closed, the read buffer is empty afterwards and exactly
    the message has been appended to what the connection sends, however much of it
    the kernel took at once. *)
Theorem echo_returns_message w loop_ conn co ch lp st spurious one :
  let msg := contents (co_read_buffer_ co) in
  conn_view w conn co ch lp st -> co_state_ co <> DISCONNECTED ->
  is_command (String.list_byte_of_string "exit") msg = Ok false ->
  is_command (String.list_byte_of_string "quit") msg = Ok false ->
  Z.of_nat (length msg) < 2 ^ 31 ->
  write_index_ (co_write_buffer_ co) + Z.of_nat (length msg) < 2 ^ 32 ->
  (exists e k' w1, sys_write (co_fd_ co) msg (w_kern w) = (SErr e, k') /\ fault_errno e /\
     OnMessageCallback user_holds loop_ conn spurious one w =
       CloseHandler (call_close user_holds) conn w1) \/
  (exists w' co' ch' lp' st',
     OnMessageCallback user_holds loop_ conn spurious one w = Ok (tt, w') /\
     conn_view w' conn co' ch' lp' st' /\ contents (co_read_buffer_ co') = [] /\
     outgoing co' st' = outgoing co st ++ msg).
Proof.
  intros msg Hv Hst He Hq Hlen Hov. pose proof Hv as [Hc [_ Hw Hiff]].
  destruct (run_OnMessage w loop_ conn co ch lp st spurious one Hv He Hq Hlen) as (b & Hb & Hnil & ->).
  fold msg. assert (msg <> []) as Hm.
  { intros Hm. apply is_command_length in He; [|simpl; lia]. fold msg in He. rewrite Hm in He. simpl in He. lia. }
  pose proof (core_update _ _ _ _ _ _ (co_set_read_buffer_ b co) Hc eq_refl eq_refl eq_refl) as Hc1.
  assert (conn_view (set_w_conns (<[conn := co_set_read_buffer_ b co]> (w_conns w)) w) conn
    (co_set_read_buffer_ b co) ch lp st) as Hv1 by (split; [exact Hc1|by split]).
  destruct (SendInLoop_cases (call_close user_holds) _ _ _ _ _ _ msg Hv1 Hst Hm Hlen Hov)
    as [(e & k' & _ & Ew & Hf & ->)|(w' & co' & ch' & lp' & st' & -> & (Hv' & Ho & _ & Hr & _) & _)].
  - left. exists e, k'. eexists. by split_and!.
  - right. exists w', co', ch', lp', st'. split_and!; [done|done|by rewrite Hr|done].
Qed.

(** The callback compares four bytes of the message whatever its length: a message
    of fewer bytes is read beyond its end. *)
Theorem echo_overreads_short_message w loop_ conn co ch lp st spurious one :
  conn_view w conn co ch lp st -> (length (contents (co_read_buffer_ co)) < 4)%nat ->
  OnMessageCallback user_holds loop_ conn spurious one w = Err UndefinedBehaviour.
Proof.
  intros [Hc [Hrw _ _]] Hlen.
  destruct (ReadBytes_spec (co_read_buffer_ co) (ReadableBytes (co_read_buffer_ co)) Hrw) as (b & E & _).
  { rewrite ReadableBytes_contents by done. lia. }
  unfold OnMessageCallback, ReadAllAsByte. erewrite run_bind by (apply run_load; apply Hc).
  rewrite E. erewrite run_bind by reflexivity. cbn beta iota. erewrite run_bind by (apply run_update; apply Hc).
  rewrite ReadableBytes_contents, Nat2Z.id, firstn_all by done. unfold is_command.
  rewrite (proj2 (Nat.leb_le _ _)) by lia. rewrite (proj2 (Nat.leb_gt _ _)) by (simpl; lia). reflexivity.
Qed.
End answers.

(** ** The program, started and run

    The server of Startup.v on the kernel of RefKernel.v, with the callback of the
    echo server.  Its loop is 1000, its listening socket 5 with the channel 1004; the
    first connection is 1005, on descriptor 7 with the channel 1006. *)

#[local] Instance echo_user : @UserCode RefKernel := {|
  user_run ev := match ev with
    | Message_ev _ conn => OnMessageCallback (fun _ _ => false) 1000 conn false []
    | _ => ret tt
    end |}.

Definition echo_iterations (n : nat) : St (@World RefKernel) unit :=
  iterations (l := 1000%positive) (call := call (fun _ _ => false) 1024 [])
    (exec := exec (fun _ _ => false)) (release := release (fun _ _ => false)) n.

(** The peer has sent [data], has closed its side or not, has reset the connection or
    not; the kernel has room for 5 bytes, and reports the descriptor. *)
Definition peer_sent (data : list byte) (eof reset : bool) : St (@World RefKernel) unit :=
  modify (fun w => let k := w_kern w in
    set_w_kern (mkRkernel (<[7 := RSock (mkRsock data eof [] 5 0 reset [])]> (rk_files k)) (rk_interest k)
      [[(EPOLLIN, 1006%positive)]]) w).

(** The peer connects and sends [data]; [n] more iterations. *)
Definition echo_program (data : list byte) (eof reset : bool) (n : nat) : St (@World RefKernel) unit :=
  do! demo_main;
  do! modify (visited [[x01]]);
  do! echo_iterations 2;
  do! peer_sent data eof reset;
  echo_iterations n.

(** How a run ends that does not return. *)
Definition fault_of {A} (r : res A) : option fault :=
  match r with Ok _ => None | Err f => Some f end.

(** The peer sends a message: what the kernel has room for is sent back at once, the
    rest is waiting to be. *)
Example echo_program_answers :
  outcome (fun _ w => (st_sent <$> k_stream (w_kern w) 7,
      (fun co => contents (co_write_buffer_ co)) <$> w_conns w !! 1005%positive))
    (echo_program (String.list_byte_of_string "hello, world") false false 1 demo_blank) =
  Some (Some (String.list_byte_of_string "hello"), Some (String.list_byte_of_string ", world")).
Proof. vm_compute. reflexivity. Qed.

(** A peer can abort the echo server: it sends a message and resets the connection.
    The answer fails with EPIPE and closes the connection inside the callback;
    [ReadHandler] goes on, reads the end of the stream and closes it again, and the
    second [ConnectDestoryed] fails the assertion of the poller. *)
Theorem reset_peer_aborts_echo_server :
  fault_of (echo_program (String.list_byte_of_string "hello, world") true true 2 demo_blank) = Some AssertFailure.
Proof. vm_compute. reflexivity. Qed.

(** Two bytes are enough for the over-read. *)
Example short_message_overread :
  fault_of (echo_program (String.list_byte_of_string "hi") false false 1 demo_blank) = Some UndefinedBehaviour.
Proof. vm_compute. reflexivity. Qed.

(** ** Witness *)

Definition demo_message : TcpConnection :=
  co_set_read_buffer_ (demo_buffer (String.list_byte_of_string "hello, world")) (demo_conn CONNECTED []).
Definition demo_message_world : @World RefKernel :=
  let w := demo_connected (demo_sock [] 5) read_event_flag (demo_conn CONNECTED []) in
  set_w_conns (<[20%positive := demo_message]> (w_conns w)) w.

Lemma demo_message_view :
  conn_view demo_message_world 20 demo_message (demo_channel 5 read_event_flag 0 ADDED_CHANNEL)
    (demo_loop {[5 := 7%positive]} [] []) (mkStream [] [] false).
Proof.
  destruct (demo_conn_view [] 5 CONNECTED eq_refl) as [Hc []]. split.
  - exact (core_update _ _ _ _ _ _ demo_message Hc eq_refl eq_refl eq_refl).
  - split; [by apply demo_buffer_wf|done|done].
Qed.

Lemma echo_returns_message_witness :
  exists w' co' ch' lp' st',
    OnMessageCallback (fun _ _ => false) 1 20 false [] demo_message_world = Ok (tt, w') /\
    conn_view w' 20 co' ch' lp' st' /\ contents (co_read_buffer_ co') = [] /\
    outgoing co' st' = String.list_byte_of_string "hello, world".
Proof.
  destruct (echo_returns_message (fun _ _ => false) demo_message_world 1 20 _ _ _ _ false [] demo_message_view)
    as [(e & k' & w1 & Ew & _)|(w' & co' & ch' & lp' & st' & E & Hv & Hr & Ho)]; [done|reflexivity|reflexivity|done|done|..].
  - vm_compute in Ew. discriminate.
  - exists w', co', ch', lp', st'. split; [exact E|]. split; [exact Hv|]. split; [exact Hr|]. rewrite Ho. reflexivity.
Defined.
