(* ===== verification/EchoClient.v ===== *)
(** * EchoClient: the echo client of the repository

    net/tests/echo_client_test.cpp, a user of the library: a number of clients that
    connect one after the other, each when the one before it is connected.  The two
    globals of the program, [clients] and [current], are an argument and a value that
    is passed on. *)

From stdpp Require Import base list gmap strings numbers.
From Stdlib Require Import ZArith Lia Init.Byte.
From S2P Require Import Prelude Buffer Kernel RefKernel State World Demo Poller EventLoop Socket.
From S2P Require Import Connection Acceptor Connector ThreadPool Server Client Reactor Contract Service Serving Dialing.
From S2P Require Import Startup Echo.

Open Scope np_scope.

Record EchoClient := mkEchoClient { ec_loop_ : ptr; ec_tcp_client_ : ptr }.

Section program.
Context `{Kernel} `{!Inet} `{!UserCode}.
Variable user_holds : World -> ptr -> bool.

(** The names of the three callbacks. *)
Definition OnMessageCB_id : nat := 1.
Definition OnConnStatusCB_id : nat := 2.
Definition OnWriteCompleteCB_id : nat := 3.

Definition EchoClient_new (loop : ptr) (remote_addr : sockaddr) : M EchoClient :=
  let! c := TcpClient_new loop remote_addr in
  do! Client_SetConnStatusCB c (Some OnConnStatusCB_id);
  do! Client_SetMessageCB c (Some OnMessageCB_id);
  do! Client_SetWriteCompleteCB c (Some OnWriteCompleteCB_id);
  ret (mkEchoClient loop c).

Definition EchoClient_Connect (e : EchoClient) (spurious : bool) : M unit :=
  Client_Connect (exec user_holds) (ec_tcp_client_ e) spurious.

Definition greeting : list byte := String.list_byte_of_string "world" ++ [x0a].

(** Returns the new value of [current].  [clients.size()] is cast to int and then
    compared as unsigned. *)
Definition OnConnStatusCB (clients : list EchoClient) (current : Z) (conn : ptr) (spurious : bool) : M Z :=
  let! co := load (T := TcpConnection) conn in
  let! current :=
    if bool_decide (co_state_ co = CONNECTED) then
      let current := u32 (current + 1) in
      do! when (current <? u32 (s32 (Z.of_nat (length clients))))
            (let! e := deref (clients !! Z.to_nat current) in EchoClient_Connect e spurious);
      ret current
    else ret current in
  do! Send (call_close user_holds) conn greeting 6;
  ret current.

(** The same code as that of the echo server.  The status callback that its [Send] and
    [Shutdown] can call is that of a connection that has ended, which does nothing
    ([status_of_ended_connection]). *)
Definition OnMessageCB (e : EchoClient) (conn : ptr) (spurious : bool) (one : list byte) : M unit :=
  OnMessageCallback user_holds (ec_loop_ e) conn spurious one.

Definition OnWriteCompleteCB (conn : ptr) : M unit := ret tt.

(** [for (int i = 0; i < cnt; i++) clients.emplace_back(new EchoClient(&loop, server_addr));] *)
Fixpoint make_clients (loop : ptr) (server_addr : sockaddr) (cnt : nat) : M (list EchoClient) :=
  match cnt with
  | O => ret []
  | S cnt' =>
      let! e := EchoClient_new loop server_addr in
      let! es := make_clients loop server_addr cnt' in
      ret (e :: es)
  end.

(** [main], up to [loop.Loop()]. *)
Definition client_main (server_addr : sockaddr) (cnt : nat) (active : option ptr) (spurious : bool)
    : M (ptr * list EchoClient) :=
  let! loop := EventLoop_new "echo_client_loop" active in
  let! clients := make_clients loop server_addr cnt in
  let! e := deref (clients !! 0%nat) in
  do! EchoClient_Connect e spurious;
  ret (loop, clients).
End program.

(** ** Theorems *)

Section turns.
Context `{EpollReliable} `{!EpollFrame} `{!StreamLaws} `{!IoLaws} `{!FdLaws} `{!BacklogLaws} `{!DescriptorLaws}
  `{!DialLaws} `{!Inet} `{!UserCode}.
Variable user_holds : World -> ptr -> bool.
Implicit Types (w : World) (conn : ptr) (co : TcpConnection) (ch : EventChannel) (lp : EventLoop)
  (cl : TcpClient) (ct : TcpConnector).

(** The callback of a connection that has ended does nothing, whatever user code there
    is: so it may run inside the callback of the same connection, when sending finds it
    broken. *)
Theorem status_of_ended_connection clients current w conn co ch lp st spurious :
  conn_core w conn co ch lp st -> co_state_ co = DISCONNECTED ->
  OnConnStatusCB user_holds clients current conn spurious w = Ok (current, w).
Proof.
  intros Hc Hst. unfold OnConnStatusCB. erewrite run_bind by (apply run_load; apply Hc). rewrite Hst.
  erewrite run_bind by reflexivity. erewrite run_bind; [reflexivity|].
  rewrite (run_Send _ _ _ _ _ _ _ _ _ Hc). unfold SendInLoop. erewrite run_assert_in_loop by exact Hc.
  erewrite run_bind by (apply run_load; apply Hc). by rewrite Hst.
Qed.

(** Another client goes on dialing while a connection sends. *)
Lemma sending_leaves_dialing c k l w w' conn co co' ch ch' lp lp' st st' cl ct chan ch1 :
  dialing c k l w cl ct lp chan ch1 -> conn_core w conn co ch lp st -> co_loop_ co = l ->
  chan <> co_channel_ co -> sent_frame conn co co' w w' -> conn_core w' conn co' ch' lp' st' ->
  dialing c k l w' cl ct lp' chan ch1.
Proof.
  intros [[Hcl Hk Hlink Hl [Hf Hlt]] Hs Hco Ha Hcb] Hc Hlo Hne (O & N & (wb & ->) & _ & Hch) Hc'.
  pose proof Hc' as [_ Hi' Hco' _ _]. simpl in *. rewrite Hlo in *.
  pose proof (co_thread _ _ _ _ _ Hco') as Ht'. injection O as Ecl _ Ek _.
  split; [split| | | |]; [by rewrite Ecl|by rewrite Ek|done|by split| |done| |done|done].
  - rewrite N. split; [|done]. intros c0 ch0 E0. rewrite N. destruct (decide (c0 = co_channel_ co)) as [->|Hne0].
    + rewrite (co_chan _ _ _ _ _ Hco') in E0. injection E0 as <-. rewrite (co_loop _ _ _ _ _ Hco').
      split; [|done]. by eapply Hf, (cc_chan _ _ _ _ _ _ Hc).
    + rewrite Hch in E0 by done. by apply Hf.
  - destruct Hco as [E1 E2 _ _]. split; [by rewrite Hch|done|done|by rewrite Ha].
Qed.

(** The next client, when a connection is established. *)
Lemma run_OnConnStatus clients current w conn co ch lp st c k cl ct fd ks1 e ks2 :
  let l := co_loop_ co in
  let current' := current + 1 in
  conn_core w conn co ch lp st -> co_state_ co = CONNECTED -> ch_poller_status_ ch = ADDED_CHANNEL ->
  0 <= current -> current' < Z.of_nat (length clients) -> Z.of_nat (length clients) < 2 ^ 31 ->
  clients !! Z.to_nat current' = Some (mkEchoClient l c) ->
  dialer c k l w cl ct lp -> cl_connection_ cl = None -> ct_state_ ct = kDisconnected -> ct_channel_ ct = None ->
  po_evt_channel_list_ (lo_poller_ lp) !! fd = None ->
  socket_call ct (w_kern w) = (SOk fd, ks1) -> sys_connect fd (ct_addr_ ct) sockaddr_size ks1 = (SErr e, ks2) ->
  e = EINPROGRESS \/ e = EINTR ->
  exists w1 ct1 lp1 ch1, Client_Connect (exec user_holds) c false w = Ok (tt, w1) /\
    dialing c k l w1 cl ct1 lp1 (w_next w) ch1 /\ ch_fd_ ch1 = fd /\ w_conns w1 = w_conns w /\
    conn_core w1 conn co ch lp1 st /\ w_next w <> co_channel_ co /\
    OnConnStatusCB user_holds clients current conn false w =
      (do! SendInLoop (call_close user_holds) conn greeting 6; ret current') w1.
Proof.
  intros l current' Hc Hst Hadd Hpos Hlt Hlen Hnext Hd Hn Hdc Hch Hfd E1 E2 He.
  destruct (run_client_dials user_holds c k l w cl ct lp fd ks1 e ks2)
    as (w1 & ct1 & lp1 & ch1 & E & Hdg & Hcf & _ & Hfr & Hs); [done..|].
  assert (conn_core w1 conn co ch lp1 st) as Hc1.
  { eapply dialing_leaves_core; [exact Hc|done|done|apply Hd|done|done|apply Hdg|exact Hfr|exact Hs]. }
  exists w1, ct1, lp1, ch1. split; [done|]. split; [done|]. split; [done|]. split; [apply Hfr|]. split; [done|]. split.
  { pose proof (proj1 (proj1 (dl_fresh _ _ _ _ _ _ _ Hd) _ _ (co_chan _ _ _ _ _ (cc_chan _ _ _ _ _ _ Hc)))). lia. }
  unfold OnConnStatusCB. erewrite run_bind by (apply run_load; apply Hc). rewrite Hst. simpl.
  rewrite (u32_small (current + 1)), s32_small, u32_small by (unfold current' in *; lia).
  rewrite (proj2 (Z.ltb_lt _ _)) by done. cbn [when]. rewrite run_bind_assoc. fold current'. rewrite Hnext.
  rewrite run_bind_assoc. erewrite run_bind by reflexivity. unfold EchoClient_Connect. simpl.
  erewrite run_bind by exact E. erewrite run_bind by reflexivity.
  apply run_bind_eq. by eapply run_Send.
Qed.

(** C39: The clients connect in turn.  When the connection of the client [current] is
    established, its status callback counts it and runs [Connect] of the next client,
    which leaves the world [w1]: that client is dialing, with a new socket that the
    loop watches for writability, and no connection is touched.  The rest of the run
    is the sending of the greeting from [w1].  If the write finds the connection
    broken, the connection is closed; otherwise the callback returns in a world where
    the whole greeting is appended to what the connection sends, the next client is
    still dialing on that socket, and the other connections are those of the start. *)
Theorem clients_connect_in_turn clients current w conn co ch lp st c k cl ct fd ks1 e ks2 :
  let l := co_loop_ co in
  let current' := current + 1 in
  conn_view w conn co ch lp st -> co_state_ co = CONNECTED -> ch_poller_status_ ch = ADDED_CHANNEL ->
  write_index_ (co_write_buffer_ co) + 6 < 2 ^ 32 ->
  0 <= current -> current' < Z.of_nat (length clients) -> Z.of_nat (length clients) < 2 ^ 31 ->
  clients !! Z.to_nat current' = Some (mkEchoClient l c) ->
  dialer c k l w cl ct lp -> cl_connection_ cl = None -> ct_state_ ct = kDisconnected -> ct_channel_ ct = None ->
  po_evt_channel_list_ (lo_poller_ lp) !! fd = None ->
  socket_call ct (w_kern w) = (SOk fd, ks1) -> sys_connect fd (ct_addr_ ct) sockaddr_size ks1 = (SErr e, ks2) ->
  e = EINPROGRESS \/ e = EINTR ->
  let run := OnConnStatusCB user_holds clients current conn false w in
  exists w1 ct1 lp1 ch1, Client_Connect (exec user_holds) c false w = Ok (tt, w1) /\
    dialing c k l w1 cl ct1 lp1 (w_next w) ch1 /\ ch_fd_ ch1 = fd /\ w_conns w1 = w_conns w /\
    ((exists e ks, sys_write (co_fd_ co) greeting (w_kern w1) = (SErr e, ks) /\ fault_errno e /\
        run = (do! CloseHandler (call_close user_holds) conn; ret current')
                (after_syscall (SErr e : sysres Z) ks w1)) \/
     (exists w' co' ch' lp' st', run = Ok (current', w') /\ conn_view w' conn co' ch' lp' st' /\
        outgoing co' st' = outgoing co st ++ greeting /\ dialing c k l w' cl ct1 lp' (w_next w) ch1 /\
        forall conn', conn' <> conn -> w_conns w' !! conn' = w_conns w !! conn')).
Proof.
  intros l current' [Hc Hb] Hst Hadd Hov Hpos Hlt Hlen Hnext Hd Hn Hdc Hch Hfd E1 E2 He run.
  destruct (run_OnConnStatus clients current w conn co ch lp st c k cl ct fd ks1 e ks2)
    as (w1 & ct1 & lp1 & ch1 & Ec & Hdg & Hcf & Ecn & Hc1 & Hne & Erun); [done..|].
  exists w1, ct1, lp1, ch1. do 4 (split; [done|]). unfold run. rewrite Erun.
  destruct (SendInLoop_cases (call_close user_holds) w1 conn co ch lp1 st greeting)
    as [(e' & ks & _ & Ew & Hf & E)|(w' & co' & ch' & lp' & st' & E & (Hv' & Ho & _) & Hfr)];
    [by split|congruence|done..| |].
  - left. exists e', ks. split; [exact Ew|]. split; [exact Hf|]. by apply run_bind_eq.
  - right. exists w', co', ch', lp', st'. split; [by erewrite run_bind by exact E|]. split; [done|].
    split; [done|]. split; [|intros conn' Hne'; rewrite <-Ecn; by apply Hfr].
    eapply sending_leaves_dialing; [exact Hdg|exact Hc1|done|exact Hne|exact Hfr|apply Hv'].
Qed.
End turns.

(** ** The program, started and run

    Two clients on the kernel of RefKernel.v: the loop is 1000, the clients are 1002
    and 1004, the first socket is 5 with the channel 1006. *)

Definition demo_clients : list EchoClient := [mkEchoClient 1000 1002; mkEchoClient 1000 1004].

(** How many clients had been connected before the last call of user code. *)
Definition demo_current (w : @World RefKernel) : Z :=
  Z.of_nat (length (List.filter (fun ev => match ev with ConnStatus_ev _ _ CONNECTED => true | _ => false end)
    (tail (w_trace w)))).

#[local] Instance echo_client_user : @UserCode RefKernel := {|
  user_run ev := match ev with
    | ConnStatus_ev _ conn _ =>
        let! current := gets demo_current in
        let! _ := OnConnStatusCB (H1 := status_user) demo_holds demo_clients current conn false in
        ret tt
    | Message_ev _ conn => OnMessageCB demo_holds (mkEchoClient 1000 1002) conn false []
    | Written_ev _ conn => OnWriteCompleteCB conn
    | _ => ret tt
    end |}.

(** [n] iterations, in the first of which the channel [c] becomes writable. *)
Definition writable (c : ptr) (n : nat) : St (@World RefKernel) unit :=
  do! modify (fun w => set_w_kern (rk_set_script [[(EPOLLOUT, c)]] (w_kern w)) w);
  iterations (l := 1000%positive) (call := call demo_holds 1024 []) (exec := exec demo_holds)
    (release := release demo_holds) n.

(** [main], then the first socket becomes writable, and then, with the channel 1009, the
    second: both clients are connected, in turn, with the greeting to send. *)
Definition client_program : St (@World RefKernel) unit :=
  do! client_main demo_holds demo_remote 2 None false;
  do! writable 1006 2;
  writable 1009 2.

Example client_program_connects :
  outcome (fun _ w => (w_trace w, (fun co => (co_state_ co, contents (co_write_buffer_ co))) <$> w_conns w !! 1007%positive,
      (fun co => (co_state_ co, contents (co_write_buffer_ co))) <$> w_conns w !! 1010%positive)) (client_program demo_blank) =
  Some ([ConnStatus_ev 2 1010 CONNECTED; ConnStatus_ev 2 1007 CONNECTED],
    Some (CONNECTED, greeting), Some (CONNECTED, greeting)).
Proof. vm_compute. reflexivity. Qed.

(** ** Witness

    The connection of Demo.v belongs to the first client; the second is 50. *)

Definition demo_turn : @World RefKernel :=
  let w := demo_connected (demo_sock [] 10) read_event_flag (demo_conn CONNECTED []) in
  set_w_connectors {[40%positive := demo_disconnected]} (set_w_clients {[50%positive := demo_client_obj None]} w).
Definition demo_pair : list EchoClient := [mkEchoClient 1 49; mkEchoClient 1 50].

Lemma demo_turn_view :
  conn_view demo_turn 20 (demo_conn CONNECTED []) (demo_channel 5 read_event_flag 0 ADDED_CHANNEL)
    (demo_loop {[5 := 7%positive]} [] []) (mkStream [] [] false).
Proof.
  destruct (demo_conn_view [] 10 CONNECTED eq_refl) as [[? Hi Hch ? ?] Hb]. split; [|exact Hb].
  split; [done|by destruct Hi; split|by destruct Hch; split|done|done].
Qed.

Lemma clients_connect_in_turn_witness :
  outcome (fun current w => (current, st_sent <$> k_stream (w_kern w) 5)) (OnConnStatusCB demo_holds demo_pair 0 20 false demo_turn) =
    Some (1, Some greeting) /\
  exists w' ct1 lp' ch1, OnConnStatusCB demo_holds demo_pair 0 20 false demo_turn = Ok (1, w') /\
    dialing 50 40 1 w' (demo_client_obj None) ct1 lp' (w_next demo_turn) ch1 /\ ch_fd_ ch1 = 0.
Proof.
  split; [vm_compute; reflexivity|].
  destruct (clients_connect_in_turn demo_holds demo_pair 0 demo_turn 20 (demo_conn CONNECTED [])
    (demo_channel 5 read_event_flag 0 ADDED_CHANNEL) (demo_loop {[5 := 7%positive]} [] []) (mkStream [] [] false)
    50 40 (demo_client_obj None) demo_disconnected 0
    (socket_call demo_disconnected (w_kern demo_turn)).2 EINPROGRESS
    (socket_call demo_disconnected (w_kern demo_turn)).2)
    as (w1 & ct1 & lp1 & ch1 & E1 & _ & Hfd & _ & [(e & ks & Ew & _)|(w' & co' & ch' & lp' & st' & E & _ & _ & Hdg & _)]).
  - apply demo_turn_view.
  - reflexivity.
  - reflexivity.
  - done.
  - done.
  - done.
  - done.
  - reflexivity.
  - split; [reflexivity|reflexivity|done| |].
    + split; [apply demo_turn_view|done].
    + split; [|done]. intros c ch. simpl. by intros [<- <-]%lookup_singleton_Some.
  - reflexivity.
  - reflexivity.
  - reflexivity.
  - reflexivity.
  - vm_compute. reflexivity.
  - vm_compute. reflexivity.
  - by left.
  - exfalso. assert (outcome (fun _ w => (sys_write 5 greeting (w_kern w)).1)
      (Client_Connect (exec demo_holds) 50 false demo_turn) = Some (SOk 6)) as Ho by (vm_compute; reflexivity).
    unfold outcome in Ho. rewrite E1 in Ho. change (co_fd_ (demo_conn CONNECTED [])) with 5 in Ew. cbn beta iota in Ho. by rewrite Ew in Ho.
  - exists w', ct1, lp', ch1. split; [exact E|]. split; [exact Hdg|exact Hfd].
Defined.
