(* ===== verification/Teardown.v ===== *)
(** * Teardown: the end of a loop, and of a server

    [~EventLoop]; [~TcpServer] on the state of Service.v, when no task is queued: what
    becomes of the connections that are established. *)

From stdpp Require Import base list gmap strings numbers.
From Stdlib Require Import ZArith Lia Init.Byte.
From S2P Require Import Prelude Buffer Kernel RefKernel State World Demo Poller EventLoop Socket.
From S2P Require Import Connection Acceptor Connector ThreadPool Server Client Reactor Contract Service Serving Startup.

Open Scope np_scope.

(** ** The end of a loop *)

Section loop_end.
Context `{EpollReliable} `{!EpollFrame} `{!StreamLaws} `{!FdLaws} `{!BacklogLaws} `{!DescriptorLaws}.
Implicit Types (w : World) (l : ptr) (ch : EventChannel) (lp : EventLoop).

(** [~EventLoop] on the thread of the loop.  The wake-up channel is taken out of the
    poller, the wake-up and the epoll descriptor are closed, the loop is gone, and the
    thread may have another one.  The wake-up channel itself is never deleted. *)
Theorem loop_destructor_leaks_channel w l lp ch :
  loop_inv w l lp -> channel_of w l lp (lo_wakeup_channel_ lp) ch -> ch_poller_status_ ch = ADDED_CHANNEL ->
  removable lp (lo_wakeup_channel_ lp) ->
  exists w', EventLoop_destroy l w = Ok (tt, w') /\ w_loops w' = delete l (w_loops w) /\
    w_evt_loop_this_thread w' = delete (w_tid w) (w_evt_loop_this_thread w) /\
    k_open (w_kern w') = k_open (w_kern w) ∖ {[lo_wakeup_fd_ lp]} ∖ {[po_epoll_fd_ (lo_poller_ lp)]} /\
    w_channels w' = <[lo_wakeup_channel_ lp := unregistered_channel ch]> (w_channels w).
Proof.
  intros [Hinv Ht] Hco Hadd Hrem.
  destruct (run_unregister w l _ ch lp Hinv Hco Hadd Hrem) as (E & [Qo _] & Hinv1).
  eexists. split.
  - unfold EventLoop_destroy. erewrite run_bind by (apply run_load; apply Hinv). rewrite E.
    erewrite run_bind by apply run_syscall.
    erewrite run_bind by (apply run_update; simpl; autorewrite with world; simpl; apply lookup_insert_eq).
    do 2 (erewrite run_bind by reflexivity). unfold EpollPoller_destroy. rewrite run_bind_assoc.
    erewrite run_bind by apply run_syscall. erewrite run_bind by reflexivity. reflexivity.
  - simpl. autorewrite with world. simpl. autorewrite with world. simpl.
    split_and!; [by rewrite !delete_insert_eq|done| |done]. rewrite !close_open. by rewrite <-Qo.
Qed.
End loop_end.

(** ** The end of a server *)

Section teardown.
Context `{EpollReliable} `{!EpollFrame} `{!StreamLaws} `{!FdLaws} `{!BacklogLaws} `{!DescriptorLaws}.
Variables (l s a : ptr) (base : gset Z).
Variable user_holds : World -> ptr -> bool.
Implicit Types (w : World) (c conn : ptr) (sv : TcpServer) (co : TcpConnection) (ac : TcpAcceptor)
  (ch : EventChannel) (lp : EventLoop).

Hypothesis Hholds : forall w conn, user_holds w conn = false.

(** With an empty queue every connection is established, and registered. *)
Lemma idle_established w lp sv ac conn co :
  service l s a base w lp sv ac -> lo_queue_task_funcs_ lp = [] -> w_conns w !! conn = Some co ->
  sv_connections_ sv !! co_fd_ co = Some conn /\
  exists ch, w_channels w !! co_channel_ co = Some ch /\ ch_poller_status_ ch = ADDED_CHANNEL /\
    ch_fd_ ch = co_fd_ co /\ ch_event_loop_ ch = l.
Proof.
  intros Hs Hq Hco. pose proof (se_conns _ _ _ _ _ _ _ _ Hs _ _ Hco) as [_ _ (ch & Hch & (Hfd & Hlo & _) & Hl)].
  unfold life in Hl. rewrite Hq in Hl. destruct (co_state_ co); try done.
  - by destruct Hl as (_ & _ & _ & ? & _).
  - destruct Hl as (? & _ & ? & _). eauto 6.
  - by destruct Hl as (_ & _ & _ & _ & ?).
Qed.

(** The connections [rest] are still there; the others and their channels are gone. *)
Record tearing w0 w (rest : list (Z * ptr)) : Prop := {
  te_frame : w_loops w = w_loops w0 /\ w_clients w = w_clients w0 /\ w_acceptors w = w_acceptors w0 /\
    w_servers w = w_servers w0 /\ w_tid w = w_tid w0;
  te_rest : NoDup (rest.*2);
  te_conns conn : w_conns w !! conn = if decide (conn ∈ rest.*2) then w_conns w0 !! conn else None;
  te_gone conn co : w_conns w0 !! conn = Some co -> conn ∉ rest.*2 -> w_channels w !! co_channel_ co = None;
  te_chans c : (forall conn co, w_conns w0 !! conn = Some co -> co_channel_ co <> c) ->
    w_channels w !! c = w_channels w0 !! c
}.

(** Nobody owns anything any more. *)
Lemma nothing_owned w0 w rest lp conn :
  tearing w0 w rest -> w_loops w0 = {[l := lp]} -> lo_queue_task_funcs_ lp = [] -> w_clients w0 = ∅ ->
  (forall s' sv', w_servers w0 !! s' = Some sv' -> sv_connections_ sv' = ∅) ->
  owned user_holds w conn = false.
Proof.
  intros [(El & Ec & _ & Es & _) _ _ _ _] Hl Hq Hc Hsv. unfold owned. rewrite Hholds, orb_false_r, El, Ec, Es, Hl, Hc.
  rewrite !orb_false_iff. split_and!; apply existsb_map_false.
  - intros s' sv' Hin. unfold server_owns. by rewrite (Hsv _ _ Hin).
  - intros p cl. by rewrite lookup_empty.
  - intros l' lp' [_ <-]%lookup_singleton_Some. unfold loop_owns. by rewrite Hq.
Qed.

Lemma tearing_step w0 w fd conn co rest :
  tearing w0 w ((fd, conn) :: rest) -> w_conns w0 !! conn = Some co ->
  tearing w0 (destroyed conn w co) rest.
Proof.
  intros [(El & Ec & Ea & Es & Et) Hnd Hc Hg Hch] Hco. cbn [fmap list_fmap snd] in *.
  pose proof (NoDup_cons_1_1 _ _ Hnd) as Hnin. pose proof (NoDup_cons_1_2 _ _ Hnd) as Hnd'.
  split; unfold destroyed; autorewrite with world; simpl.
  - by split_and!.
  - done.
  - intros conn'. destruct (decide (conn = conn')) as [<-|Hne].
    + by rewrite lookup_delete_eq, decide_False.
    + rewrite lookup_delete_ne, Hc by done. destruct (decide (conn' ∈ rest.*2)).
      * by rewrite decide_True by by right.
      * rewrite decide_False; [done|]. by rewrite not_elem_of_cons.
  - intros conn' co' Hco' Hn. destruct (decide (co_channel_ co' = co_channel_ co)) as [->|Hne]; [apply lookup_delete_eq|].
    rewrite lookup_delete_ne by done. eapply Hg; [done|]. rewrite not_elem_of_cons. split; [|done].
    intros ->. congruence.
  - intros c Hcs. rewrite lookup_delete_ne by by eapply Hcs. by apply Hch.
Qed.

(** Destroying the connections of the registry. *)
Lemma wp_release_all w0 w lp es :
  tearing w0 w es -> w_loops w0 = {[l := lp]} -> lo_queue_task_funcs_ lp = [] -> w_clients w0 = ∅ ->
  (forall s' sv', w_servers w0 !! s' = Some sv' -> sv_connections_ sv' = ∅) ->
  (forall e, e ∈ es -> is_Some (w_conns w0 !! e.2)) ->
  wp (forM es (fun e => release_conn user_holds e.2)) (fun _ w' => tearing w0 w' []) w.
Proof.
  intros Ht Hl Hq Hc Hsv Hes.
  eapply wp_mono; [apply (wp_forM es _ (fun rest w' => tearing w0 w' rest /\ forall e, e ∈ rest -> is_Some (w_conns w0 !! e.2)))|].
  - done.
  - intros [fd conn] rest w1 [Ht1 Hr]. unfold release_conn. apply wp_bind, wp_gets. simpl.
    erewrite nothing_owned by eassumption. destruct (Hr (fd, conn)) as [co Hco]; [by left|]. simpl in Hco.
    unfold wp. rewrite (run_TcpConnection_destroy conn w1 co).
    + split; [by eapply tearing_step|]. intros e He. apply Hr. by right.
    + rewrite (te_conns _ _ _ Ht1). cbn [fmap list_fmap snd]. rewrite decide_True by by left. done.
  - by intros ? w' [? _].
Qed.

(** ** The acceptor *)

Lemma only_kernel_channels v w w' : only_kernel w w' -> only_kernel (set_w_channels v w) (set_w_channels v w').
Proof. unfold only_kernel. intros R. by rewrite R. Qed.
Lemma only_kernel_acceptors v w w' : only_kernel w w' -> only_kernel (set_w_acceptors v w) (set_w_acceptors v w').
Proof. unfold only_kernel. intros R. by rewrite R. Qed.

Definition detached (fd : Z) c lp : EventLoop := without_entry fd (with_entry fd c lp).

Lemma detached_table fd c lp fd' :
  fd' <> fd -> po_evt_channel_list_ (lo_poller_ (detached fd c lp)) !! fd' = po_evt_channel_list_ (lo_poller_ lp) !! fd'.
Proof. intros Hne. simpl. by rewrite lookup_delete_ne, lookup_insert_ne. Qed.

(** What is left when a channel has been taken out of its loop; nothing is assumed of
    the other entries of the table. *)
Lemma run_detach w lp c ch :
  w_loops w !! l = Some lp -> w_channels w !! c = Some ch -> ch_event_loop_ ch = l ->
  w_tid w = lo_thread_id_ lp -> lo_thread_id_ lp = po_thread_id_ (lo_poller_ lp) ->
  entry_ok lp c ch -> lo_evt_channel_active_ lp = None ->
  exists w' ch', (do! DisableAll c; RemoveFromLoop c) w = Ok (tt, w') /\
    only_kernel (set_w_loops (<[l := detached (ch_fd_ ch) c lp]> (w_loops w))
      (set_w_channels (<[c := ch']> (w_channels w)) w)) w'.
Proof.
  intros Hl Hc Hlo Ht Htp He Ha. unfold DisableAll.
  erewrite run_bind by (apply (run_set_interest _ l c lp ch w Hl Hc Hlo); [congruence|done]).
  set (ch1 := with_interest _ ch). set (lp1 := with_entry _ c lp).
  match goal with |- context [after_syscall ?r ?k ?x] => set (w1 := after_syscall r k x) end.
  assert (w_loops w1 !! l = Some lp1) as Hl1 by (unfold w1; autorewrite with world; apply lookup_insert_eq).
  assert (w_channels w1 !! c = Some ch1) as Hc1 by (unfold w1; autorewrite with world; apply lookup_insert_eq).
  assert (w_tid w1 = w_tid w) as Ht1 by (unfold w1; by autorewrite with world).
  rewrite (run_RemoveFromLoop l c lp1 ch1 w1 Hl1 Hc1 Hlo);
    [|rewrite Ht1; simpl; congruence|exact Htp|apply lookup_insert_eq| |done|by left].
  2:{ simpl. unfold interest_status. by destruct (ch_poller_status_ ch). }
  eexists _, (ch_set_poller_status_ NEW_CHANNEL ch1). split; [reflexivity|].
  assert (only_kernel (set_w_loops (<[l := detached (ch_fd_ ch) c lp]> (w_loops w))
      (set_w_channels (<[c := ch_set_poller_status_ NEW_CHANNEL ch1]> (w_channels w)) w))
    (set_w_loops (<[l := without_entry (ch_fd_ ch1) lp1]> (w_loops w1))
      (set_w_channels (<[c := ch_set_poller_status_ NEW_CHANNEL ch1]> (w_channels w1)) w1))) as Hok.
  { unfold only_kernel, w1. autorewrite with world. simpl. rewrite !insert_insert_eq.
    by destruct (sys_epoll_ctl _ _ _ _ _ _) as [[] ?], w. }
  case_match; [|exact Hok]. etrans; [exact Hok|apply only_kernel_syscall].
Qed.

Lemma run_TcpAcceptor_destroy w ac lp ch :
  w_acceptors w !! a = Some ac -> w_channels w !! ac_channel_ ac = Some ch -> w_loops w !! l = Some lp ->
  ch_event_loop_ ch = l -> w_tid w = lo_thread_id_ lp -> lo_thread_id_ lp = po_thread_id_ (lo_poller_ lp) ->
  entry_ok lp (ac_channel_ ac) ch -> lo_evt_channel_active_ lp = None ->
  exists w', TcpAcceptor_destroy a w = Ok (tt, w') /\
    only_kernel (set_w_acceptors (delete a (w_acceptors w))
      (set_w_loops (<[l := detached (ch_fd_ ch) (ac_channel_ ac) lp]> (w_loops w))
      (set_w_channels (delete (ac_channel_ ac) (w_channels w)) w))) w'.
Proof.
  intros Ha Hc Hl Hlo Ht Htp He Hact.
  destruct (run_detach w lp (ac_channel_ ac) ch) as (w1 & ch1 & E1 & R1); [done..|].
  unfold TcpAcceptor_destroy, Close, Socket_destroy, Close. erewrite run_bind by (apply run_load; exact Ha).
  rewrite <-run_bind_assoc. erewrite run_bind by exact E1.
  rewrite run_bind_assoc. erewrite run_bind by apply run_syscall. run1. erewrite run_bind by reflexivity.
  match goal with |- context [heap_put _ ?x] => set (w2 := x) end.
  assert (only_kernel _ w2) as R2 by (etrans; [exact R1|apply only_kernel_syscall]).
  change (heap_put _ w2) with (set_w_channels (delete (ac_channel_ ac) (w_channels w2)) w2).
  assert (w_channels w2 = <[ac_channel_ ac := ch1]> (w_channels w)) as -> by by rewrite R2.
  rewrite delete_insert_eq. apply (only_kernel_channels (delete (ac_channel_ ac) (w_channels w))) in R2.
  set (w3 := set_w_channels _ w2) in *.
  rewrite run_bind_assoc. erewrite run_bind by apply run_syscall. run1. eexists. split; [reflexivity|].
  match goal with |- only_kernel _ (heap_put _ ?x) => set (w4 := x) end.
  assert (only_kernel _ w4) as R4 by (etrans; [exact R2|apply only_kernel_syscall]).
  change (heap_put _ w4) with (set_w_acceptors (delete a (w_acceptors w4)) w4).
  assert (w_acceptors w4 = w_acceptors w) as -> by by rewrite R4.
  exact (only_kernel_acceptors (delete a (w_acceptors w)) _ _ R4).
Qed.

(** ** The server *)

(** The state in which the registry has been emptied. *)
Lemma tearing_start w lp sv ac :
  service l s a base w lp sv ac -> lo_queue_task_funcs_ lp = [] ->
  let w0 := set_w_servers {[s := sv_set_connections_ ∅ sv]} w in
  tearing w0 w0 (map_to_list (sv_connections_ sv)) /\
  (forall e, e ∈ map_to_list (sv_connections_ sv) -> is_Some (w_conns w0 !! e.2)).
Proof.
  intros Hs Hq w0.
  assert (forall fd conn, (fd, conn) ∈ map_to_list (sv_connections_ sv) ->
    exists co, w_conns w !! conn = Some co /\ co_fd_ co = fd) as Hreg.
  { intros fd conn Hin%elem_of_map_to_list. by apply (se_registry _ _ _ _ _ _ _ _ Hs). }
  assert (forall conn co, w_conns w !! conn = Some co -> conn ∈ (map_to_list (sv_connections_ sv)).*2) as Hin.
  { intros conn co Hco. apply list_elem_of_fmap. exists (co_fd_ co, conn). split; [done|].
    by apply elem_of_map_to_list, (idle_established w lp sv ac conn co Hs Hq Hco). }
  split; [split|].
  - done.
  - apply NoDup_fmap_2_strong; [|apply NoDup_map_to_list].
    intros [fd1 c1] [fd2 c2] (co1 & E1 & <-)%Hreg (co2 & E2 & <-)%Hreg Hc. simpl in Hc. congruence.
  - intros conn. case_decide as Hn; [done|]. destruct (w_conns w0 !! conn) as [co|] eqn:E; [|done].
    by apply Hin in E.
  - by intros conn co Hco%Hin.
  - done.
  - intros [fd conn] (co & Hco & _)%Hreg. eauto.
Qed.

(** The acceptor's channel is not one of a connection, and in order. *)
Lemma acceptor_entry w lp sv ac :
  service l s a base w lp sv ac -> exists ch, w_channels w !! ac_channel_ ac = Some ch /\
    ch_event_loop_ ch = l /\ ch_fd_ ch = ac_socket_fd_ ac /\ entry_ok lp (ac_channel_ ac) ch /\
    forall conn co, w_conns w !! conn = Some co -> co_channel_ co <> ac_channel_ ac /\ co_fd_ co <> ch_fd_ ch.
Proof.
  intros Hs. destruct (acceptor_channel_of _ _ _ _ w lp sv ac Hs) as (ch & Hco & _). exists ch.
  destruct (se_acc_chan _ _ _ _ _ _ _ _ Hs) as (ch' & Hc' & Hp & _).
  assert (ch' = ch) as -> by (pose proof (co_chan _ _ _ _ _ Hco); congruence).
  destruct (se_loop _ _ _ _ _ _ _ _ Hs) as [Hinv _]. pose proof Hp as (Hfd & Hlo & _).
  split_and!; [done..|by eapply channel_of_entry|]. intros conn co Hcn.
  pose proof (se_conns _ _ _ _ _ _ _ _ Hs _ _ Hcn) as [(_ & _ & _ & Hnb & _) _ (ch2 & Hch2 & Hcc & _)].
  pose proof (se_base _ _ _ _ _ _ _ _ Hs) as (B1 & _). split; [|congruence].
  intros E. rewrite E in Hch2. assert (ch2 = ch) as -> by congruence. exact (conn_channel_plain _ _ _ _ _ _ Hcc Hp).
Qed.

(** C37: Destroying a server leaves dangling entries.  [~TcpServer], with established
    connections that nobody else owns and no task queued: the acceptor is taken out
    of its loop in order, but the connections and their channels are destroyed
    while the poller's table keeps the address of each channel under its
    descriptor.  The descriptors are closed; the next channel for one of them fails
    the assertion of the poller when it is enabled. *)
Theorem server_destructor_leaves_stale_entries w lp sv ac join_pool :
  service l s a base w lp sv ac -> lo_queue_task_funcs_ lp = [] -> lo_evt_channel_active_ lp = None ->
  sv_acceptor_ sv = a -> (forall pool w, join_pool pool w = Ok (tt, w)) ->
  exists w' lp', TcpServer_destroy (release_conn user_holds) join_pool s w = Ok (tt, w') /\
    w_servers w' = ∅ /\ w_conns w' = ∅ /\ w_loops w' = {[l := lp']} /\
    po_evt_channel_list_ (lo_poller_ lp') !! ac_socket_fd_ ac = None /\
    forall conn co, w_conns w !! conn = Some co ->
      w_channels w' !! co_channel_ co = None /\
      po_evt_channel_list_ (lo_poller_ lp') !! co_fd_ co = Some (co_channel_ co) /\
      forall w2 c2 ch2, w_loops w2 = w_loops w' -> w_tid w2 = w_tid w' ->
        w_channels w2 !! c2 = Some ch2 -> ch_event_loop_ ch2 = l ->
        ch_poller_status_ ch2 = NEW_CHANNEL -> ch_fd_ ch2 = co_fd_ co ->
        EnableReading c2 w2 = Err AssertFailure.
Proof.
  intros Hs Hq Hact Hsa Hj. destruct (tearing_start w lp sv ac Hs Hq) as [Ht0 Hes].
  set (w0 := set_w_servers _ w) in *. destruct (se_loop _ _ _ _ _ _ _ _ Hs) as [Hinv Ht].
  pose proof (se_loops _ _ _ _ _ _ _ _ Hs) as El. pose proof (service_loop _ _ _ _ _ _ _ _ Hs) as Hl.
  destruct (proj1 (wp_run _ _ _) (wp_release_all w0 w0 lp _ Ht0 El Hq (se_clients _ _ _ _ _ _ _ _ Hs)
    ltac:(by intros s' sv'; unfold w0; simpl; intros [_ <-]%lookup_singleton_Some) Hes)) as ([] & w1 & E1 & [(Fl & Fc & Fa & Fs & Ft) _ Tc Tg Th]).
  destruct (acceptor_entry w lp sv ac Hs) as (ch & Hch & Hlo & Hfd & He & Hsep).
  destruct (run_TcpAcceptor_destroy w1 ac lp ch) as (w2 & E2 & R2).
  { rewrite Fa. apply Hs. }
  { rewrite Th; [done|]. intros conn co Hco. by eapply Hsep. }
  { by rewrite Fl. }
  { done. }
  { by rewrite Ft. }
  { apply Hinv. }
  { done. }
  { done. }
  set (lp' := detached (ch_fd_ ch) (ac_channel_ ac) lp) in *.
  exists (set_w_servers (delete s (w_servers w2)) w2), lp'. split_and!.
  - unfold TcpServer_destroy. erewrite run_bind by (apply run_load; by eapply service_server).
    erewrite run_bind by reflexivity.
    change (heap_put _ w) with (set_w_servers (<[s := sv_set_connections_ ∅ sv]> (w_servers w)) w).
    rewrite (se_servers _ _ _ _ _ _ _ _ Hs), insert_singleton_eq. fold w0. erewrite run_bind by exact E1.
    rewrite Hsa. erewrite run_bind by exact E2. destruct (sv_thread_pool_ sv) as [pool|].
    + by erewrite run_bind by apply Hj.
    + by erewrite run_bind by reflexivity.
  - simpl. rewrite R2. simpl. rewrite Fs. apply delete_singleton_eq.
  - simpl. rewrite R2. simpl. apply map_eq. intros conn. rewrite Tc, lookup_empty.
    rewrite decide_False; [done|]. apply not_elem_of_nil.
  - simpl. rewrite R2. simpl. rewrite Fl. simpl. rewrite El. apply insert_singleton_eq.
  - rewrite <-Hfd. apply lookup_delete_eq.
  - intros conn co Hco. destruct (Hsep _ _ Hco) as [Hn1 Hn2].
    destruct (idle_established w lp sv ac conn co Hs Hq Hco) as (_ & ch3 & Hch3 & Hst3 & Hfd3 & Hlo3).
    assert (po_evt_channel_list_ (lo_poller_ lp') !! co_fd_ co = Some (co_channel_ co)) as Htab.
    { unfold lp'. rewrite detached_table by done. rewrite <-Hfd3. apply Hinv; [done|done|by rewrite Hst3]. }
    split_and!; [|done|].
    + simpl. rewrite R2. simpl. rewrite lookup_delete_ne by done. eapply Tg; [done|]. apply not_elem_of_nil.
    + intros w3 c2 ch2 Hw3 Ht3 Hc2 Hlo2 Hst2 Hfd2. eapply enable_stale; [..|by rewrite Hfd2]; try done.
      * rewrite Hw3. simpl. rewrite R2. simpl. apply lookup_insert_eq.
      * rewrite Ht3. simpl. rewrite R2. simpl. rewrite Ft. simpl. rewrite Ht. apply Hinv.
Qed.
End teardown.

(** ** Witness

    The server of Startup.v, after one peer has connected: its connection is 1005,
    with the channel 1006 and the descriptor 7. *)

Definition demo_peer : @World RefKernel :=
  match demo_run 2 (demo_busy [[x01]]) with Ok (_, w) => w | Err _ => demo_blank end.

Lemma demo_peer_loop :
  (fun lp => (lo_queue_task_funcs_ lp, lo_evt_channel_active_ lp)) <$> w_loops demo_peer !! 1000%positive =
    Some ([], None).
Proof. vm_compute. reflexivity. Qed.
Lemma demo_peer_server : sv_acceptor_ <$> w_servers demo_peer !! 1002%positive = Some 1003%positive.
Proof. vm_compute. reflexivity. Qed.
Lemma demo_peer_conn :
  (fun co => (co_fd_ co, co_channel_ co)) <$> w_conns demo_peer !! 1005%positive = Some (7, 1006%positive).
Proof. vm_compute. reflexivity. Qed.
Lemma demo_peer_run w' : demo_run 2 (demo_busy [[x01]]) = Ok (tt, w') -> demo_peer = w'.
Proof. intros E. unfold demo_peer. rewrite E. reflexivity. Qed.

Lemma demo_peer_serves :
  exists lp sv ac, service 1000 1002 1003 (k_open (w_kern demo_started)) demo_peer lp sv ac.
Proof.
  destruct (demo_busy_serves [[x01]] eq_refl) as (lp & sv & ac & Hs & _).
  destruct (proj1 (wp_run _ _ _) (iterations_serve 1000 1002 1003 (k_open (w_kern demo_started)) (fun _ _ => false)
    discarding_user_sink ltac:(done) 2 (demo_busy [[x01]]) lp sv ac 1024 [] Hs ltac:(by vm_compute)))
    as ([] & w' & E & done & (lp' & sv' & Hs' & _) & _).
  rewrite (demo_peer_run w' E). exists lp', sv', ac. exact Hs'.
Qed.

Lemma server_destructor_leaves_stale_entries_witness :
  exists w' lp', TcpServer_destroy (release_conn (fun _ _ => false)) (fun _ => ret tt) 1002 demo_peer = Ok (tt, w') /\
    w_loops w' = {[1000%positive := lp']} /\ w_channels w' !! 1006%positive = None /\
    po_evt_channel_list_ (lo_poller_ lp') !! 7 = Some 1006%positive.
Proof.
  destruct demo_peer_serves as (lp & sv & ac & Hs).
  pose proof demo_peer_loop as Hlp. rewrite (service_loop _ _ _ _ _ _ _ _ Hs) in Hlp. injection Hlp as Hq Hact.
  pose proof demo_peer_server as Hsv. rewrite (service_server _ _ _ _ _ _ _ _ Hs) in Hsv. injection Hsv as Hsv.
  destruct (proj1 (fmap_Some _ _ _) demo_peer_conn) as (co & Hco & [= Hfd Hcc]).
  destruct (server_destructor_leaves_stale_entries 1000 1002 1003 (k_open (w_kern demo_started)) (fun _ _ => false)
    ltac:(reflexivity) demo_peer lp sv ac (fun _ => ret tt) Hs Hq Hact Hsv ltac:(reflexivity))
    as (w' & lp' & E & _ & _ & Hl & _ & Hc).
  destruct (Hc _ co Hco) as (Hgone & Htab & _). rewrite <-Hfd, <-Hcc in Htab. rewrite <-Hcc in Hgone.
  exists w', lp'. split; [exact E|]. split; [exact Hl|]. split; [exact Hgone|exact Htab].
Defined.
